(* ===== verification/_CoqProject ===== *)
-Q . S2P
Prelude.v
Memory.v
PageHeap.v
Allocator.v
PageTable.v
Shm.v
Process.v
KernelInv.v
System.v
Lifecycle.v
AddressSpace.v
Kernel.v
Views.v
Reach.v
World.v
KernelProps.v
Types.v
Context.v
FirstRun.v
Strings.v
Bytes.v
Arp.v
Ipv4.v
Ring.v
Virtio.v
Machine.v
NetDriver.v
Interrupts.v
NetStack.v
Disk.v
Fs.v
SimDevices.v
FsImage.v
Startup.v
Board.v
UserMemory.v
Syscall.v
Sbi.v
EcallPath.v
SyscallProps.v
SyscallMemory.v
Objects.v
Ready.v
Boot.v
Reboot.v
Running.v
ArpService.v
Shell.v
Programs.v
ShellProps.v
ShmTest.v
ShellRun.v
