(* ===== verification/Prelude.v ===== *)
(** * A verification of the kernel and shell of RISC-V-OS1000

    The program is a teaching operating system for 32-bit RISC-V: a kernel with
    a page allocator, Sv32 page tables, cooperative processes, shared memory,
    VirtIO block and network drivers, ARP and IPv4, and a tar file system; and a
    shell in user mode.  This library models [src/kernel] and [src/user], and proves what
    each part promises and what they achieve together.

    ** How the program works, and where each part is

    [kernel_main] ([kernel/kernel.c]) sets up the allocator, the drivers and the
    file system, makes the idle process and the shell, and yields.  From then on
    the kernel runs only on traps: system calls, and interrupts of the devices.
    The files, in dependency order:

    - this file: outcomes of code ([outcome]: [Ret], [Panic] for the macro of
      the source, [Undef] for what C leaves undefined), machine integers
      ([u8], [u16], [u32], [s32] on [Z]), total array access, notations, tactics
      and the hint database the other files share;
    - [Memory.v]: bytes of physical memory, [memset], [memcpy], 32-bit accesses
      ([kernel/common.c]);
    - [PageHeap.v], [Allocator.v]: the allocator's interface (class [PageHeap],
      contract [PageHeapSpec]) and its implementation ([kernel/allocator.c]);
    - [PageTable.v]: [struct process], [map_page], [unmap_page]
      ([kernel/process.c]) against the address translation of the privileged
      architecture ([sv32_walk]);
    - [Shm.v]: shared-memory objects and their mappings ([kernel/shm.c]);
    - [Process.v]: [create_process], [init_processes], [release_process],
      [yield] ([kernel/process.c]);
    - [KernelInv.v], [System.v], [Lifecycle.v], [AddressSpace.v]: the invariant
      [sys_ok] over allocator, page tables, objects and processes; the
      operations of [Shm.v] and [Process.v] preserve it and return when
      resources allow;
    - [Kernel.v], [Views.v], [Reach.v]: the same operations as a transition
      system ([kernel_step], [reachable]), what user mode sees of memory
      ([user_reaches], [user_store]), and the invariant [kernel_ok] of every
      reachable state;  [World.v], [KernelProps.v]: a concrete machine, and the
      theorems about reachable states;  [Types.v]: the C types of the tables;
    - [Context.v]: the assembly of [kernel_entry], [switch_context],
      [user_entry], [boot] and [start], run by an interpreter of the
      instructions it uses;  [FirstRun.v]: the first switch to a process that
      [create_process] made;
    - [Strings.v]: [strcmp], [strcpy], [printf] ([kernel/common.c]); [Bytes.v]:
      byte order of packets;
    - [Arp.v], [Ipv4.v]: the receive side of both protocols and their packets
      ([kernel/arp.c], [kernel/ipv4.c]);
    - [Ring.v], [Virtio.v]: rings with free-running 16-bit indices; registers,
      discovery and virtqueues ([kernel/virtio.c]);
    - [Machine.v]: the static variables of drivers and network stack as one
      record; the class [Devices] the hardware is an instance of;
    - [NetDriver.v], [Interrupts.v], [NetStack.v]: receiving
      ([kernel/virtio_net.c]), the PLIC, dispatch and waiting
      ([kernel/plic.c], [kernel/interrupt.c], [handle_external_interrupt]), and
      sending, with ARP and IPv4 as clients of the class [EthernetLink];
    - [Disk.v], [Fs.v], [FsImage.v]: disk requests ([kernel/virtio_blk.c]), the
      file system ([kernel/filesystem.c]) and the archive it keeps;
    - [SimDevices.v], [Startup.v], [Board.v]: a disk and a network card small
      enough to run, the initialisation of the drivers, and both devices
      together (class [Board]) with the state [machine_ready] of two idle drivers;
    - [UserMemory.v]: the pointers programs pass: loads and stores of the kernel
      through the page table of the current process, and the loops of [memcpy] and
      of strings over them;
    - [Syscall.v], [SyscallProps.v], [SyscallMemory.v]: [handle_syscall],
      [handle_trap] ([kernel/syscall.c], [kernel/kernel.c]), [dump_procs],
      [shm_dump] and [kernel_main] over the state [os] of all components; calls
      on the memory of their caller;
    - [Sbi.v]: the console calls of the firmware ([kernel/sbi.c]), which the
      lists of printed and typed characters in [os] stand for;
      [EcallPath.v]: a system call at the level of registers;
    - [Objects.v], [Ready.v]: the state [os_ready] between two traps: every
      invariant holds and every number a dump prints fits [printf];
    - [Boot.v], [Reboot.v]: the boot, also after a write to a file;  [Running.v]: the running system as a transition
      system [os_step] of traps, interrupts, stores, input and devices;
      [ArpService.v]: an ARP request answered through two traps;
    - [Shell.v], [Programs.v], [ShellProps.v], [ShmTest.v], [ShellRun.v]: the
      user library ([user/user.c]), the shell ([user/shell.c]), written against
      the class [UserSys] of a system-call instruction and memory accesses, and
      run on the kernel through its instance [os_user].

    A definition keeps the name of the C function it models; its state is an
    argument and a result.  A C pointer into an array is an index or an offset;
    a [struct process *] is the index in [procs].  Where two components must
    not know each other, the client is proved against a class: [PageHeap] and
    [PageHeapSpec] (allocator), [Bus] and [Devices] (hardware), [NicSpec],
    [BlkSpec], [Startup], [Board] (what the drivers need of the devices),
    [EthernetLink] (what the protocols need of the driver), [Firmware] and
    [Console] (what the kernel needs of the SBI), [UserSys] (what a program needs
    of the kernel).  Each has an instance here, so no theorem is vacuous.

    ** What is proved

    - The whole system: [kernel_main_boots] (from the cleared BSS to a ready
      system with the shell running), [trap_preserves_kernel] and
      [system_refines_kernel] (whatever user programs, interrupts and input do,
      the processes and their memory move only by [kernel_step], as long as
      [SYS_READFILE] stores to memory its caller may write),
      [system_keeps_running] (on devices that keep their contracts no
      interrupt and no sensible system call is ever stuck), [syscall_pointers]
      (calls on addresses do what calls on objects do, and change no other byte).
    - End to end: [arp_service] (a request in a receive buffer is answered on the
      wire), [shmtest_passes] (a program of the shell: system calls, page tables,
      and the bytes it reads back), [shell_round] (a typed line, its echo and its
      command), [files_survive_reboot] (what a program writes is read back after
      the next boot), [ecall_path] (a call and its result in the registers).
    - Isolation: [processes_isolated], [user_store_confined],
      [user_cannot_reach_tables], [shared_frame_agrees],
      [reference_counts_exact]; [tables_well_typed] (the integers of the tables
      keep their C types, unused entries are clear, every handle is live and
      held once).
    - Processes: [create_process_builds], [process_first_run], [exit_releases],
      [yield_round_robin], [yield_switches]; at the level of registers
      [trap_restores] and [switch_context_resumes].
    - The allocator: what [alloc_pages] and [release_pages] do in every case,
      the refinement of a pool of disjoint ranges, and how far one merging pass
      gets ([merge_free_regions_coalesces], [merge_order_dependent]).
    - Page tables: [map_page_correct], [unmap_map_roundtrip],
      [map_page_rejects].  Shared memory: [shm_get_creates],
      [shm_attach_maps], [shm_attach_rejects], [shm_detach_outcome].
    - Drivers and network: virtqueues and the capture ring as queues
      ([virtqueue_fifo], [capture_ring_refines_queue]), the drain loop and
      interrupt dispatch ([drain_rx_processes_all],
      [external_interrupt_handled]), [wait_for_interrupt_returns]; the ARP cache
      as a bounded map ([arp_cache_refines_map]), request and reply
      ([arp_request_answered]); [ipv4_receive_classifies] and
      [ipv4_send_outcomes].
    - Disk and files: [read_write_disk_correct], [fs_roundtrip],
      [fs_flush_bounds], [file_syscalls_roundtrip].
    - Text and console: [printNum_decimal], [strcmp_correct],
      [parse_ipv4_correct], [shell_readfile_overruns], [console_refines].

    A theorem with hypotheses is followed by a lemma [..._witness] that applies
    it to a concrete state.

    ** Fuel and bounds

    Loops of the source are structural recursions where they walk an array or a
    list.  The page loops of [create_process] take the number of pages as fuel
    ([space_pages]); the totality lemmas of [AddressSpace.v] show that it is
    enough.  Digit loops have ten steps, enough for 32 bits; the merging loops
    are bounded by [MAX_REGIONS].  A wait for an interrupt takes the wake-ups
    the devices will give as its fuel (field [wakes] of [Devices]); running out means that the
    wait never ends, which is [Undef], and [wait_for_interrupt_returns] says
    when it ends.  Waiting for console input runs over the input there is;
    reading a string from user memory may go once round the address space
    ([ADDRESSES]), after which it would go on for ever.

    ** What is not modelled

    - The firmware behind the SBI, a parameter of [Sbi.v]; elsewhere console
      output is a list of bytes and input a list of characters.
    - The linker scripts: the layout symbols are parameters ([layout]) with the
      facts the scripts give.
    - The programs under [src/tests], compiled only with [TEST].
    - [delay], which only burns time, and the memory barriers, which do nothing
      in a sequential model.
    - Interrupts between the moment [kernel_main] enables them and the waits of
      [fs_init], and the [sie] and [stvec] registers.
    - The buffers the devices access are apart from the pages the processes
      use: the allocator gives the queues their own pages, but a device that
      writes elsewhere is not covered.
    - The kernel dereferences any address a program passes, unchecked.  The
      byte of physical memory it leads to changes ([UserMemory.v]), page tables
      included ([table_store_allowed]); but the C objects of the kernel are
      records here, which such a store does not reach.  So [own_buffer] asks of
      [SYS_READFILE] that its buffer is its caller's.  [SUM] is taken to be set,
      as [user_entry] leaves it.
    - Devices that break their contracts: [NicSpec] and [BlkSpec] allow
      interrupts of any source at any time, but not a request that fails.
    - Registers and memory meet in [Context.v], [FirstRun.v] and [EcallPath.v]
      only; the other files take a
      system call's arguments from the trap frame, and a switch of processes is
      the change of [current_proc] and the CSRs. *)

From Stdlib Require Import ZArith Lia.
From stdpp Require Export base list gmap option strings.
Open Scope Z_scope.

(** ** Outcomes of kernel code

    A kernel routine returns ([Ret]), executes [PANIC], which prints a
    message and loops for ever ([Panic]), or runs into behaviour the C
    standard leaves undefined, such as an access outside an array
    ([Undef]).  A model that meets [Undef] stops: nothing is claimed about
    what follows. *)
Inductive outcome (A : Type) : Type :=
  | Ret (a : A)
  | Panic (msg : string)
  | Undef.
Arguments Ret {A} _.
Arguments Panic {A} _.
Arguments Undef {A}.

#[export] Instance outcome_ret : MRet outcome := fun A a => Ret a.
#[export] Instance outcome_bind : MBind outcome := fun A B f m =>
  match m with
  | Ret a => f a
  | Panic msg => Panic msg
  | Undef => Undef
  end.
#[export] Instance outcome_fmap : FMap outcome := fun A B f m =>
  match m with
  | Ret a => Ret (f a)
  | Panic msg => Panic msg
  | Undef => Undef
  end.

(** [PANIC] guard: [require c msg] goes on when [c] holds. *)
Definition require (c : bool) (msg : string) : outcome unit :=
  if c then Ret tt else Panic msg.

(** Bounds guard of an access the C program makes without a check. *)
Definition defined_if (c : bool) : outcome unit :=
  if c then Ret tt else Undef.

Definition is_Ret {A} (m : outcome A) : Prop := exists a, m = Ret a.

Section OutcomeLemmas.
Context {A B C : Type}.
Implicit Types (m : outcome A) (f : A -> outcome B) (g : B -> outcome C).

Lemma bind_Ret_inv m f b :
  m ≫= f = Ret b -> exists a, m = Ret a /\ f a = Ret b.
Proof. destruct m; simpl; try done. eauto. Qed.

Lemma bind_Ret_l (a : A) f : Ret a ≫= f = f a.
Proof. done. Qed.

Lemma bind_assoc m f g : (m ≫= f) ≫= g = m ≫= (fun a => f a ≫= g).
Proof. by destruct m. Qed.

Lemma require_Ret_inv c msg x : require c msg = Ret x -> c = true.
Proof. by destruct c. Qed.

Lemma defined_if_Ret_inv c x : defined_if c = Ret x -> c = true.
Proof. by destruct c. Qed.
End OutcomeLemmas.

(** Splits every [_ ≫= _ = Ret _] and every guard of the context. *)
Ltac outcome_inv :=
  repeat match goal with
  | H : Ret _ = Ret _ |- _ => injection H as H; simplify_eq
  | H : Panic _ = Ret _ |- _ => discriminate H
  | H : Undef = Ret _ |- _ => discriminate H
  | H : mret _ = Ret _ |- _ => change (mret ?x) with (Ret x) in H
  | H : require ?c _ = Ret _ |- _ => apply require_Ret_inv in H
  | H : defined_if ?c = Ret _ |- _ => apply defined_if_Ret_inv in H
  | H : mbind _ _ = Ret _ |- _ =>
      let a := fresh "r" in let E := fresh "Hstep" in
      apply bind_Ret_inv in H; destruct H as (a & E & H)
  end.

(** ** Machine integers

    The kernel is built for rv32: [uint8_t], [uint16_t], [uint32_t] values
    are [Z] reduced modulo the width, an [int] is a [Z] brought back into
    the two's-complement range by [s32]. *)
Definition u8 (x : Z) : Z := x mod 2 ^ 8.
Definition u16 (x : Z) : Z := x mod 2 ^ 16.
Definition u32 (x : Z) : Z := x mod 2 ^ 32.
Definition u64 (x : Z) : Z := x mod 2 ^ 64.
Definition s32 (x : Z) : Z := (x + 2 ^ 31) mod 2 ^ 32 - 2 ^ 31.

Lemma u8_range x : 0 <= u8 x < 256.
Proof. apply Z.mod_pos_bound. lia. Qed.
Lemma u16_range x : 0 <= u16 x < 65536.
Proof. apply Z.mod_pos_bound. lia. Qed.
Lemma u32_range x : 0 <= u32 x < 4294967296.
Proof. apply Z.mod_pos_bound. lia. Qed.
Lemma s32_range x : -2147483648 <= s32 x < 2147483648.
Proof. unfold s32. pose proof (Z.mod_pos_bound (x + 2^31) (2^32)). lia. Qed.
Lemma u8_id x : 0 <= x < 256 -> u8 x = x.
Proof. apply Z.mod_small. Qed.
Lemma u16_id x : 0 <= x < 65536 -> u16 x = x.
Proof. apply Z.mod_small. Qed.
Lemma u32_id x : 0 <= x < 4294967296 -> u32 x = x.
Proof. apply Z.mod_small. Qed.
Lemma s32_id x : -2147483648 <= x < 2147483648 -> s32 x = x.
Proof. intros. unfold s32. rewrite Z.mod_small; lia. Qed.
Lemma u8_u8 x : u8 (u8 x) = u8 x.
Proof. apply u8_id, u8_range. Qed.
Lemma u16_u16 x : u16 (u16 x) = u16 x.
Proof. apply u16_id, u16_range. Qed.
Lemma u32_u32 x : u32 (u32 x) = u32 x.
Proof. apply u32_id, u32_range. Qed.
Lemma u32_s32 x : u32 (s32 x) = u32 x.
Proof. unfold s32, u32. rewrite Zminus_mod_idemp_l. f_equal. lia. Qed.
Lemma s32_u32 x : s32 (u32 x) = s32 x.
Proof.
  unfold s32, u32. f_equal.
  rewrite <-(Z.add_mod_idemp_l x (2^31)) by lia. done.
Qed.

(** Masks and shifts by constants, brought to [mod], [/] and [*]. *)
Lemma land_0x1 x : Z.land x 1 = x mod 2.
Proof. change 1 with (Z.ones 1). by rewrite Z.land_ones. Qed.
Lemma land_0x3ff x : Z.land x 1023 = x mod 1024.
Proof. change 1023 with (Z.ones 10). by rewrite Z.land_ones. Qed.
Lemma land_0xff x : Z.land x 255 = x mod 256.
Proof. change 255 with (Z.ones 8). by rewrite Z.land_ones. Qed.
Lemma land_0xf x : Z.land x 15 = x mod 16.
Proof. change 15 with (Z.ones 4). by rewrite Z.land_ones. Qed.
Lemma land_0xffff x : Z.land x 65535 = x mod 65536.
Proof. change 65535 with (Z.ones 16). by rewrite Z.land_ones. Qed.

Lemma testbit_above y n i : 0 <= y < 2 ^ n -> n <= i -> 0 <= n -> Z.testbit y i = false.
Proof.
  intros Hy Hi Hn. rewrite <-(Z.mod_small y (2 ^ n)) by done.
  apply Z.mod_pow2_bits_high. lia.
Qed.

(** [x << n | y] is a sum when [y] fits the [n] low bits. *)
Lemma shifted_land_0 n x y :
  0 <= n -> 0 <= y < 2 ^ n -> Z.land (Z.shiftl x n) y = 0.
Proof.
  intros Hn Hy. apply Z.bits_inj'. intros i Hi.
  rewrite Z.land_spec, Z.bits_0.
  destruct (decide (i < n)).
  - by rewrite Z.shiftl_spec_low by lia.
  - by rewrite (testbit_above y n i), andb_false_r by lia.
Qed.

Lemma lor_add_low n x y :
  0 <= n -> 0 <= y < 2 ^ n -> Z.lor (Z.shiftl x n) y = x * 2 ^ n + y.
Proof.
  intros Hn Hy. pose proof (shifted_land_0 n x y Hn Hy) as E.
  rewrite <-Z.lxor_lor, <-Z.add_nocarry_lxor by done.
  by rewrite Z.shiftl_mul_pow2 by lia.
Qed.

Create HintDb mint discriminated.
Create Rewrite HintDb mint_rw.
#[export] Hint Rewrite u8_u8 u16_u16 u32_u32 s32_u32 : mint_rw.
#[export] Hint Resolve u8_range u16_range u32_range s32_range : mint.

(** Closes side conditions on machine integers. *)
Ltac mint := autorewrite with mint_rw; unfold u8, u16, u32, s32 in *; lia.

(** ** Linear searches

    [for (i = 0; i < N; i++) if (P(a[i])) return i; return -1;] over an
    array of [N] elements; [None] stands for the [-1] of the code. *)
Fixpoint find_slot {A} (P : A -> bool) (l : list A) : option nat :=
  match l with
  | [] => None
  | x :: l' => if P x then Some 0%nat else S <$> find_slot P l'
  end.

Section FindSlot.
Context {A : Type}.
Implicit Types (P Q : A -> bool) (l : list A) (i j : nat).

Lemma find_slot_Some P l i :
  find_slot P l = Some i <->
  (exists x, l !! i = Some x /\ P x = true) /\
  (forall j y, (j < i)%nat -> l !! j = Some y -> P y = false).
Proof.
  revert i. induction l as [|x l IH]; intros i; cbn [find_slot].
  { split; [done|]. intros [(y & E & _) _]. by rewrite lookup_nil in E. }
  destruct (P x) eqn:Px.
  - split.
    + intros [= <-]. split; [by eauto|]. intros; lia.
    + intros [(y & Hy & Py) Hlt]. destruct i as [|i]; [done|].
      specialize (Hlt 0%nat x ltac:(lia) eq_refl). congruence.
  - rewrite fmap_Some. split.
    + intros (k & [(y & Hy & Py) Hlt]%IH & ->). split; [by eauto|].
      intros [|j] z Hj Hz; simplify_eq/=; [done|]. apply (Hlt j); [lia|done].
    + intros [(y & Hy & Py) Hlt]. destruct i as [|i]; simpl in Hy; [congruence|].
      exists i. split; [|done]. apply IH. split; [by eauto|].
      intros j z Hj Hz. apply (Hlt (S j)); [lia|done].
Qed.

Lemma find_slot_lookup P l i :
  find_slot P l = Some i -> exists x, l !! i = Some x /\ P x = true.
Proof. by intros [? _]%find_slot_Some. Qed.

Lemma find_slot_lt P l i : find_slot P l = Some i -> (i < length l)%nat.
Proof. intros (x & Hx & _)%find_slot_lookup. by eapply lookup_lt_Some. Qed.

Lemma find_slot_None P l :
  find_slot P l = None <-> forall j y, l !! j = Some y -> P y = false.
Proof.
  induction l as [|x l IH]; cbn [find_slot].
  { split; [|done]. intros _ j y Hj. by rewrite lookup_nil in Hj. }
  destruct (P x) eqn:Px.
  - split; [done|]. intros H. specialize (H 0%nat x eq_refl). congruence.
  - rewrite fmap_None, IH. split.
    + intros H [|j] y Hy; simplify_eq/=; eauto.
    + intros H j y Hy. apply (H (S j)). done.
Qed.

Lemma find_slot_exists P l i x :
  l !! i = Some x -> P x = true -> is_Some (find_slot P l).
Proof.
  intros Hx Px. destruct (find_slot P l) eqn:E; [by eexists|].
  rewrite (proj1 (find_slot_None P l) E i x Hx) in Px. done.
Qed.

(** The slot found is unchanged by an update that keeps the predicate. *)
Lemma find_slot_ext P Q l l' :
  length l = length l' ->
  (forall i x y, l !! i = Some x -> l' !! i = Some y -> P x = Q y) ->
  find_slot P l = find_slot Q l'.
Proof.
  revert l'. induction l as [|x l IH]; intros [|y l'] Hlen H; simplify_eq/=; [done|].
  rewrite (H 0%nat x y) by done. destruct (Q y); [done|]. f_equal.
  apply IH; [done|]. intros i a b Ha Hb. by apply (H (S i)).
Qed.
End FindSlot.

(** ** Arrays

    A C array is a list of fixed length: [l !!! i] reads it, [<[i:=x]> l]
    writes it. *)
Section ArrayLemmas.
Context {A : Type} `{!Inhabited A}.
Implicit Types (l : list A) (i j : nat).

Lemma aget_set_same l i x : (i < length l)%nat -> <[i:=x]> l !!! i = x.
Proof. intros. by apply list_lookup_total_insert_eq. Qed.
Lemma aget_set_other l i j x : i <> j -> <[i:=x]> l !!! j = l !!! j.
Proof. intros. by apply list_lookup_total_insert_ne. Qed.
Lemma aget_lookup l i x : l !! i = Some x -> l !!! i = x.
Proof. apply list_lookup_total_correct. Qed.
Lemma aget_Some l i : (i < length l)%nat -> l !! i = Some (l !!! i).
Proof. apply list_lookup_lookup_total_lt. Qed.
End ArrayLemmas.
#[export] Hint Rewrite @length_insert : mint_rw.

(** Loop invariants: [for x in l: s = f(s, x)]. *)
Lemma fold_left_inv {S X} (I : S -> Prop) (f : S -> X -> S) (l : list X) s :
  (forall s x, x ∈ l -> I s -> I (f s x)) -> I s -> I (fold_left f l s).
Proof.
  revert s. induction l as [|x l IH]; intros s Hstep Hs; simpl; [done|].
  apply IH.
  - intros s' y Hy. apply Hstep. by right.
  - apply Hstep; [by left|done].
Qed.

Lemma elem_of_seq0 n i : i ∈ seq 0 n -> (i < n)%nat.
Proof. rewrite elem_of_seq. lia. Qed.

(** Counting over an array: one update changes the count by the change of
    its entry. *)
Lemma sum_list_with_insert {A} (f : A -> nat) (l : list A) i x y :
  l !! i = Some x ->
  (sum_list_with f (<[i := y]> l) + f x = sum_list_with f l + f y)%nat.
Proof.
  revert i. induction l as [|z l IH]; intros [|i] Hi; simplify_eq/=; [lia|].
  specialize (IH i Hi). lia.
Qed.

Lemma sum_list_with_pos {A} (f : A -> nat) (l : list A) :
  (0 < sum_list_with f l)%nat -> exists i x, l !! i = Some x /\ (0 < f x)%nat.
Proof.
  induction l as [|x l IH]; simpl; [lia|]. intros H.
  destruct (decide (0 < f x)%nat); [by exists 0%nat, x|].
  destruct IH as (i & y & Hi & Hy); [lia|]. by exists (S i), y.
Qed.

Lemma sum_list_with_ge {A} (f : A -> nat) (l : list A) i x :
  l !! i = Some x -> (f x <= sum_list_with f l)%nat.
Proof.
  revert i. induction l as [|z l IH]; intros [|i] Hi; simplify_eq/=; [lia|].
  specialize (IH i Hi). lia.
Qed.

(** A loop whose body either leaves the state alone or makes a measure
    smaller: when the whole loop did not shrink the measure, no iteration
    changed anything. *)
Lemma fold_left_progress {S X} (I : S -> Prop) (mu : S -> nat) (f : S -> X -> S) l s :
  (forall s x, x ∈ l -> I s -> I (f s x) /\ (f s x = s \/ (mu (f s x) < mu s)%nat)) ->
  I s ->
  (fold_left f l s = s /\ forall x, x ∈ l -> f s x = s) \/
  (mu (fold_left f l s) < mu s)%nat.
Proof.
  revert s. induction l as [|x l IH]; intros s Hstep Hs; simpl.
  { left. split; [done|]. by intros x ?%elem_of_nil. }
  destruct (Hstep s x) as [HI Hx]; [by left|done|].
  destruct (IH (f s x) (fun s' y Hy => Hstep s' y (list_elem_of_further y x l Hy)) HI)
    as [[E Hall]|Hlt].
  - destruct Hx as [Hx|Hx]; [|right; by rewrite E].
    left. rewrite E, Hx. split; [done|].
    intros y [->|Hy]%elem_of_cons; [done|]. rewrite <-Hx at 2.
    rewrite <-(Hall y Hy), Hx. done.
  - right. destruct Hx as [Hx|Hx]; [by rewrite Hx in Hlt |- *|lia].
Qed.

(** [for (i = 0; i < n; i++)] over a state that may fail. *)
Fixpoint for_each {S : Type} (f : S -> nat -> outcome S) (l : list nat) (s : S) : outcome S :=
  match l with
  | [] => Ret s
  | i :: l' => s ← f s i; for_each f l' s
  end.

Lemma for_each_inv {S} (I : S -> Prop) (f : S -> nat -> outcome S) l s s' :
  (forall s i s', i ∈ l -> I s -> f s i = Ret s' -> I s') ->
  I s -> for_each f l s = Ret s' -> I s'.
Proof.
  revert s. induction l as [|i l IH]; intros s Hstep Hs H; simpl in H.
  - by injection H as <-.
  - apply bind_Ret_inv in H as (s1 & H1 & H). apply (IH s1); [|by eapply Hstep; [left|..]|done].
    intros s2 j s3 Hj. apply Hstep. by right.
Qed.

(** A loop whose body always returns, returns. *)
Lemma for_each_total {S} (I : S -> Prop) (f : S -> nat -> outcome S) l s :
  (forall s i, i ∈ l -> I s -> exists s', f s i = Ret s' /\ I s') ->
  I s -> exists s', for_each f l s = Ret s' /\ I s'.
Proof.
  revert s. induction l as [|i l IH]; intros s Hstep Hs; simpl; [by eexists|].
  destruct (Hstep s i) as (s1 & -> & H1); [by left|done|].
  apply IH; [|done]. intros s2 j Hj. apply Hstep. by right.
Qed.
