(* ===== verification/Memory.v ===== *)
(** Physical memory and the memory routines of [kernel/common.c].

    Memory is a function from addresses to bytes.  [memset] and [memcpy] are
    the byte loops of the source; 32-bit accesses are little-endian, as on
    the rv32 target the Makefile names.  Two memories are equivalent ([≡])
    when all their bytes agree; every operation respects it. *)

From Stdlib Require Import ZArith Lia.
From S2P Require Import Prelude.
Open Scope Z_scope.

Definition mem : Type := Z -> Z.

Definition load8 (m : mem) (a : Z) : Z := u8 (m a).
Definition store8 (m : mem) (a v : Z) : mem :=
  fun x => if x =? a then u8 v else m x.

(** [*(uint32_t * ) a], little-endian. *)
Definition load32 (m : mem) (a : Z) : Z :=
  load8 m a + load8 m (a + 1) * 2 ^ 8
  + load8 m (a + 2) * 2 ^ 16 + load8 m (a + 3) * 2 ^ 24.
Definition store32 (m : mem) (a v : Z) : mem :=
  store8 (store8 (store8 (store8 m a v)
    (a + 1) (Z.shiftr v 8)) (a + 2) (Z.shiftr v 16)) (a + 3) (Z.shiftr v 24).

(** [while (n--) *d++ = c;] *)
Fixpoint memset_loop (n : nat) (d c : Z) (m : mem) : mem :=
  match n with
  | O => m
  | S n' => memset_loop n' (d + 1) c (store8 m d c)
  end.
Definition memset (m : mem) (buf c n : Z) : mem :=
  memset_loop (Z.to_nat n) buf c m.

(** [while (n--) *d++ = *s++;] *)
Fixpoint memcpy_loop (n : nat) (d s : Z) (m : mem) : mem :=
  match n with
  | O => m
  | S n' => memcpy_loop n' (d + 1) (s + 1) (store8 m d (load8 m s))
  end.
Definition memcpy (m : mem) (dst src n : Z) : mem :=
  memcpy_loop (Z.to_nat n) dst src m.

#[export] Instance mem_equiv : Equiv mem :=
  fun m1 m2 => forall a, load8 m1 a = load8 m2 a.

#[export] Instance mem_equiv_equivalence : Equivalence (≡@{mem}).
Proof.
  split.
  - intros m a. done.
  - intros m1 m2 H a. by rewrite H.
  - intros m1 m2 m3 H12 H23 a. by rewrite H12, H23.
Qed.

Lemma load8_range m a : 0 <= load8 m a < 256.
Proof. apply u8_range. Qed.

Lemma load8_store8 m a v x :
  load8 (store8 m a v) x = if x =? a then u8 v else load8 m x.
Proof. unfold load8, store8. destruct (x =? a); [apply u8_u8|done]. Qed.

#[export] Instance load8_proper : Proper ((≡@{mem}) ==> (=) ==> (=)) load8.
Proof. intros m1 m2 H a ? <-. apply H. Qed.
#[export] Instance load32_proper : Proper ((≡@{mem}) ==> (=) ==> (=)) load32.
Proof. intros m1 m2 H a ? <-. unfold load32. by rewrite !H. Qed.
#[export] Instance store8_proper :
  Proper ((≡@{mem}) ==> (=) ==> (=) ==> (≡@{mem})) store8.
Proof. intros m1 m2 H a ? <- v ? <- x. rewrite !load8_store8. by rewrite H. Qed.
#[export] Instance store32_proper :
  Proper ((≡@{mem}) ==> (=) ==> (=) ==> (≡@{mem})) store32.
Proof. intros m1 m2 H a ? <- v ? <-. unfold store32. by rewrite H. Qed.

Lemma load32_range m a : 0 <= load32 m a < 4294967296.
Proof.
  unfold load32.
  pose proof (load8_range m a). pose proof (load8_range m (a+1)).
  pose proof (load8_range m (a+2)). pose proof (load8_range m (a+3)). lia.
Qed.
#[export] Hint Resolve load8_range load32_range : mint.

Lemma load8_store32_out m a v x :
  x < a \/ a + 4 <= x -> load8 (store32 m a v) x = load8 m x.
Proof.
  intros H. unfold store32. rewrite !load8_store8.
  repeat match goal with |- context [?y =? ?z] =>
    destruct (Z.eqb_spec y z); [lia|] end. done.
Qed.

Lemma bytes_of_u32 v :
  u8 v + u8 (Z.shiftr v 8) * 2 ^ 8 + u8 (Z.shiftr v 16) * 2 ^ 16
  + u8 (Z.shiftr v 24) * 2 ^ 24 = u32 v.
Proof.
  rewrite !Z.shiftr_div_pow2 by lia. unfold u8, u32.
  Z.to_euclidean_division_equations. lia.
Qed.

Lemma load32_store32_same m a v : load32 (store32 m a v) a = u32 v.
Proof.
  rewrite <-bytes_of_u32. unfold load32, store32. rewrite !load8_store8.
  repeat match goal with |- context [?y =? ?z] =>
    destruct (Z.eqb_spec y z); [try lia|try lia] end; try lia.
Qed.

Lemma load32_ext m1 m2 a :
  (forall x, a <= x < a + 4 -> load8 m1 x = load8 m2 x) ->
  load32 m1 a = load32 m2 a.
Proof. intros H. unfold load32. by rewrite !H by lia. Qed.

Lemma load32_store32_other m a b v :
  b + 4 <= a \/ a + 4 <= b -> load32 (store32 m a v) b = load32 m b.
Proof.
  intros H. apply load32_ext. intros x Hx. apply load8_store32_out. lia.
Qed.

(** *** The loops of [memset] and [memcpy] *)

Lemma load8_memset_loop n d c m x :
  load8 (memset_loop n d c m) x =
  if (d <=? x) && (x <? d + Z.of_nat n) then u8 c else load8 m x.
Proof.
  revert d m. induction n as [|n IH]; intros d m; cbn [memset_loop].
  { destruct (Z.leb_spec d x), (Z.ltb_spec x (d + Z.of_nat 0)); simpl; try done; lia. }
  rewrite IH, load8_store8.
  destruct (Z.eqb_spec x d), (Z.leb_spec (d + 1) x), (Z.leb_spec d x),
    (Z.ltb_spec x (d + 1 + Z.of_nat n)), (Z.ltb_spec x (d + Z.of_nat (S n)));
    simpl; try done; lia.
Qed.

(** [memset] writes its byte on exactly the [n] bytes from [buf]. *)
Lemma load8_memset m buf c n x :
  load8 (memset m buf c n) x =
  if (buf <=? x) && (x <? buf + n) then u8 c else load8 m x.
Proof.
  unfold memset. rewrite load8_memset_loop.
  destruct (Z.leb_spec buf x), (Z.ltb_spec x (buf + Z.of_nat (Z.to_nat n))),
    (Z.ltb_spec x (buf + n)); simpl; try done; lia.
Qed.

Lemma load8_memset_out m buf c n x :
  x < buf \/ buf + n <= x -> load8 (memset m buf c n) x = load8 m x.
Proof.
  intros H. rewrite load8_memset.
  destruct (Z.leb_spec buf x), (Z.ltb_spec x (buf + n)); simpl; try done; lia.
Qed.

Lemma load8_memset_in m buf c n x :
  buf <= x < buf + n -> load8 (memset m buf c n) x = u8 c.
Proof.
  intros H. rewrite load8_memset.
  destruct (Z.leb_spec buf x), (Z.ltb_spec x (buf + n)); simpl; try done; lia.
Qed.

Lemma load32_memset_zero m buf n a :
  buf <= a -> a + 4 <= buf + n -> load32 (memset m buf 0 n) a = 0.
Proof. intros. unfold load32. by rewrite !load8_memset_in by lia. Qed.

Lemma load32_memset_out m buf c n a :
  a + 4 <= buf \/ buf + n <= a -> load32 (memset m buf c n) a = load32 m a.
Proof. intros. apply load32_ext. intros. apply load8_memset_out. lia. Qed.

#[export] Instance memset_proper :
  Proper ((≡@{mem}) ==> (=) ==> (=) ==> (=) ==> (≡@{mem})) memset.
Proof.
  intros m1 m2 H a ? <- c ? <- n ? <- x. rewrite !load8_memset. by rewrite H.
Qed.

Lemma load8_memcpy_loop_out n d s m x :
  x < d \/ d + Z.of_nat n <= x -> load8 (memcpy_loop n d s m) x = load8 m x.
Proof.
  revert d s m. induction n as [|n IH]; intros d s m H; cbn [memcpy_loop]; [done|].
  rewrite IH, load8_store8 by lia. destruct (Z.eqb_spec x d); [lia|done].
Qed.

(** A forward copy reads the original source bytes whenever the source does
    not start below the destination inside the copied range. *)
Lemma load8_memcpy_loop_in n d s m i :
  d <= s \/ s + Z.of_nat n <= d ->
  0 <= i < Z.of_nat n -> load8 (memcpy_loop n d s m) (d + i) = load8 m (s + i).
Proof.
  revert d s m i. induction n as [|n IH]; intros d s m i H Hi; [lia|].
  cbn [memcpy_loop]. destruct (decide (i = 0)) as [->|Hne].
  - rewrite load8_memcpy_loop_out by lia. rewrite load8_store8, !Z.add_0_r, Z.eqb_refl.
    apply u8_id, load8_range.
  - replace (d + i) with (d + 1 + (i - 1)) by lia.
    rewrite IH by lia. rewrite load8_store8.
    replace (s + 1 + (i - 1)) with (s + i) by lia.
    destruct (Z.eqb_spec (s + i) d); [lia|done].
Qed.

Lemma load8_memcpy_out m dst src n x :
  0 <= n -> x < dst \/ dst + n <= x ->
  load8 (memcpy m dst src n) x = load8 m x.
Proof. intros. apply load8_memcpy_loop_out. lia. Qed.

Lemma load8_memcpy_in m dst src n i :
  dst <= src \/ src + n <= dst -> 0 <= i < n ->
  load8 (memcpy m dst src n) (dst + i) = load8 m (src + i).
Proof. intros. apply load8_memcpy_loop_in; lia. Qed.

Lemma load32_memcpy_out m dst src n a :
  0 <= n -> a + 4 <= dst \/ dst + n <= a ->
  load32 (memcpy m dst src n) a = load32 m a.
Proof. intros. apply load32_ext. intros. apply load8_memcpy_out; lia. Qed.

Lemma memcpy_loop_proper n d s m1 m2 :
  m1 ≡ m2 -> memcpy_loop n d s m1 ≡ memcpy_loop n d s m2.
Proof.
  revert d s m1 m2. induction n as [|n IH]; intros d s m1 m2 H; cbn [memcpy_loop]; [done|].
  apply IH. by rewrite H.
Qed.
#[export] Instance memcpy_proper :
  Proper ((≡@{mem}) ==> (=) ==> (=) ==> (=) ==> (≡@{mem})) memcpy.
Proof. intros m1 m2 H d ? <- s ? <- n ? <-. by apply memcpy_loop_proper. Qed.

(** The page-sized loops are reasoned about through the lemmas above only. *)
#[global] Opaque memset memcpy.
