(* ===== verification/PageHeap.v ===== *)
(** The interface of the page allocator.

    [kernel/process.c], [kernel/shm.c] and the drivers use the allocator
    through [alloc_pages] and [release_pages] only.  [PageHeap] is that
    interface as a class of operations; [PageHeapSpec] is the contract the
    clients rely on: a handle owns a range of physical memory that is page
    aligned, zero when handed out, and disjoint from every other owned
    range.  [Allocator.v] provides both instances. *)

From Stdlib Require Import ZArith Lia.
From S2P Require Import Prelude Memory.
Open Scope Z_scope.

Definition PAGE_SIZE : Z := 4096.

Class PageHeap (H : Type) : Type := {
  (** [alloc_pages(&region_idx, num_pages)]: the index stored through the
      pointer, the address returned, the new state. *)
  ph_alloc : H -> Z -> outcome (Z * Z * H);
  (** [release_pages(region_idx)] *)
  ph_release : H -> Z -> outcome H;
  ph_mem : H -> mem;
  ph_set_mem : H -> mem -> H;
}.

(** Two ranges (start, size) share no address. *)
Definition range_disjoint (r1 r2 : Z * Z) : Prop :=
  r1.1 + r1.2 <= r2.1 \/ r2.1 + r2.2 <= r1.1.

Class PageHeapSpec (H : Type) `{!PageHeap H} (lo hi : Z) : Type := {
  ph_ok : H -> Prop;
  (** The abstract state: the range each live handle owns. *)
  ph_owned : H -> gmap Z (Z * Z);
  (** At least this many pages can still be allocated, also several at once. *)
  ph_avail : H -> nat -> Prop;

  ph_lo_hi : 0 < lo /\ hi < 2 ^ 32;

  ph_owned_range : forall h i s n,
    ph_ok h -> ph_owned h !! i = Some (s, n) ->
    lo <= s /\ 0 <= n /\ s + n <= hi /\ (PAGE_SIZE | s) /\ 0 <= i < 2 ^ 31;
  ph_owned_disjoint : forall h i j r1 r2,
    ph_ok h -> i <> j -> ph_owned h !! i = Some r1 -> ph_owned h !! j = Some r2 ->
    0 < r1.2 -> 0 < r2.2 -> range_disjoint r1 r2;

  ph_alloc_spec : forall h n i p h',
    ph_ok h -> ph_alloc h n = Ret (i, p, h') ->
    ph_ok h' /\
    ph_owned h !! i = None /\
    ph_owned h' = <[i := (p, u32 (n * PAGE_SIZE))]> (ph_owned h) /\
    ph_mem h' = memset (ph_mem h) p 0 (u32 (n * PAGE_SIZE));
  ph_alloc_pages_total : forall h n k,
    ph_ok h -> (0 < n)%nat -> ph_avail h (n + k) ->
    exists i p h', ph_alloc h (Z.of_nat n) = Ret (i, p, h') /\ ph_avail h' k;

  ph_avail_le : forall h j k, (j <= k)%nat -> ph_avail h k -> ph_avail h j;

  ph_release_spec : forall h i r,
    ph_ok h -> ph_owned h !! i = Some r ->
    exists h', ph_release h i = Ret h' /\ ph_ok h' /\
      ph_owned h' = delete i (ph_owned h) /\ ph_mem h' = ph_mem h;

  ph_set_mem_ok : forall h m, ph_ok h -> ph_ok (ph_set_mem h m);
  ph_set_mem_owned : forall h m, ph_owned (ph_set_mem h m) = ph_owned h;
  ph_set_mem_avail : forall h m k, ph_avail h k -> ph_avail (ph_set_mem h m) k;
  ph_mem_set_mem : forall h m, ph_mem (ph_set_mem h m) = m;
}.
#[export] Hint Rewrite @ph_set_mem_owned @ph_mem_set_mem : mint_rw.
#[export] Hint Resolve ph_set_mem_ok ph_set_mem_avail : mint.

Lemma ph_alloc_total {H : Type} `{!PageHeap H} {lo hi : Z} `{!PageHeapSpec H lo hi} (h : H) k :
  ph_ok h -> ph_avail h (S k) ->
  exists i p h', ph_alloc h 1 = Ret (i, p, h') /\ ph_avail h' k.
Proof. intros Hok. apply (ph_alloc_pages_total h 1 k Hok). lia. Qed.

(** The same contract with [s] pages put aside: what is counted as available
    beyond them is available beyond them afterwards. *)
Definition put_aside {H : Type} `{!PageHeap H} {lo hi : Z} (S : PageHeapSpec H lo hi) (s : nat) : PageHeapSpec H lo hi.
Proof.
  unshelve refine {| ph_ok := ph_ok; ph_owned := ph_owned; ph_avail h k := ph_avail h (k + s) |}; try apply S.
  - intros h n k Hok Hn Hav. apply (ph_alloc_pages_total h n (k + s) Hok Hn). by rewrite Nat.add_assoc.
  - intros h j k Hjk. apply ph_avail_le. lia.
  - intros h m k. apply ph_set_mem_avail.
Defined.

(** A single owned page, named by its address. *)
Definition owns_page (own : gmap Z (Z * Z)) (p : Z) : Prop :=
  exists i, own !! i = Some (p, PAGE_SIZE).
