(* ===== verification/Allocator.v ===== *)
(** The physical page allocator ([kernel/allocator.c], [include/allocator.h]).

    The state is the table [regions] of [MAX_REGIONS] entries together with
    the physical memory that [alloc_region] clears.  The invariant
    [regions_ok] says that the live entries partition the RAM between the
    linker symbols [__free_ram] and [__free_ram_end]; the abstraction
    [allocated] maps each allocated slot to its range.  The section at the
    end discharges the contract [PageHeapSpec]. *)

From Stdlib Require Import ZArith Lia.
From S2P Require Import Prelude Memory PageHeap.
Open Scope Z_scope.

Definition MAX_REGIONS : nat := 128.

Inductive region_state : Type :=
  | REGION_UNUSED
  | REGION_FREE
  | REGION_ALLOCATED.

#[export] Instance region_state_eq_dec : EqDecision region_state.
Proof. solve_decision. Defined.

Record region : Type := mkRegion {
  r_start : Z;
  r_size : Z;
  r_state : region_state;
}.

#[export] Instance region_inhabited : Inhabited region :=
  populate (mkRegion 0 0 REGION_UNUSED).

(** The globals [regions] and the memory the allocator clears. *)
Record heap : Type := mkHeap {
  h_regions : list region;
  h_mem : mem;
}.

Definition is_state (st : region_state) (r : region) : bool :=
  bool_decide (r_state r = st).

Definition init_regions (free_ram free_ram_end : Z) (rs : list region) : list region :=
  fold_left (fun rs i => <[i := mkRegion 0 0 REGION_UNUSED]> rs)
    (seq 1 (MAX_REGIONS - 1))
    (<[0%nat := mkRegion free_ram (u32 (free_ram_end - free_ram)) REGION_FREE]> rs).

Definition find_unused_region_slot (rs : list region) : option nat :=
  find_slot (is_state REGION_UNUSED) rs.

Definition find_suitable_free_region (rs : list region) (required_size : Z) : option nat :=
  find_slot (fun r => is_state REGION_FREE r && (required_size <=? r_size r)) rs.

(** The table after [required_size] bytes of the free region [free_idx]
    have moved to the slot [new_idx]. *)
Definition split_region (rs : list region) (free_idx new_idx : nat)
    (required_size : Z) : list region :=
  let alloc_addr := r_start (rs !!! free_idx) in
  let rs := <[new_idx := mkRegion alloc_addr required_size REGION_ALLOCATED]> rs in
  let f := rs !!! free_idx in
  let rest := mkRegion (u32 (r_start f + required_size))
                       (u32 (r_size f - required_size)) (r_state f) in
  if r_size rest =? 0
  then <[free_idx := mkRegion 0 (r_size rest) REGION_UNUSED]> rs
  else <[free_idx := rest]> rs.

Definition alloc_region (h : heap) (num_pages : Z) : outcome (Z * heap) :=
  let required_size := u32 (num_pages * PAGE_SIZE) in
  match find_suitable_free_region (h_regions h) required_size,
        find_unused_region_slot (h_regions h) with
  | Some free_idx, Some new_idx =>
      let alloc_addr := r_start (h_regions h !!! free_idx) in
      Ret (Z.of_nat new_idx,
           mkHeap (split_region (h_regions h) free_idx new_idx required_size)
                  (memset (h_mem h) alloc_addr 0 required_size))
  | _, _ => Panic "out of memory"
  end.

Definition region_index_valid (region_idx : Z) : bool :=
  (0 <=? region_idx) && (region_idx <? Z.of_nat MAX_REGIONS).

Definition region_to_addr (rs : list region) (region_idx : Z) : outcome Z :=
  _ ← require (region_index_valid region_idx) "invalid region index";
  let r := rs !!! Z.to_nat region_idx in
  _ ← require (is_state REGION_ALLOCATED r) "region is not allocated";
  Ret (r_start r).

Definition alloc_pages (h : heap) (num_pages : Z) : outcome (Z * Z * heap) :=
  '(region_idx, h') ← alloc_region h num_pages;
  p ← region_to_addr (h_regions h') region_idx;
  Ret (region_idx, p, h').

(** Body of the inner loop of [merge_free_regions]. *)
Definition merge_step (i : nat) (rs : list region) (j : nat) : list region :=
  let ri := rs !!! i in
  let rj := rs !!! j in
  if bool_decide (i = j) || negb (is_state REGION_FREE rj) then rs
  else if u32 (r_start ri + r_size ri) =? r_start rj then
    <[j := mkRegion 0 0 REGION_UNUSED]>
      (<[i := mkRegion (r_start ri) (u32 (r_size ri + r_size rj)) (r_state ri)]> rs)
  else rs.

Definition merge_outer (rs : list region) (i : nat) : list region :=
  if is_state REGION_FREE (rs !!! i)
  then fold_left (merge_step i) (seq 0 MAX_REGIONS) rs
  else rs.

Definition merge_free_regions (rs : list region) : list region :=
  fold_left merge_outer (seq 0 MAX_REGIONS) rs.

Definition release_pages (h : heap) (region_idx : Z) : outcome heap :=
  _ ← require (region_index_valid region_idx) "invalid region index";
  let r := h_regions h !!! Z.to_nat region_idx in
  _ ← require (is_state REGION_ALLOCATED r) "region is not allocated";
  Ret (mkHeap (merge_free_regions
         (<[Z.to_nat region_idx := mkRegion (r_start r) (r_size r) REGION_FREE]>
            (h_regions h))) (h_mem h)).

(** ** Invariant and abstraction *)

(** [a] lies in the live region [r]. *)
Definition contains (r : region) (a : Z) : Prop :=
  r_state r <> REGION_UNUSED /\ r_start r <= a < r_start r + r_size r.

Record region_ok (lo hi : Z) (r : region) : Prop := {
  rk_lo : lo <= r_start r;
  rk_size : 0 <= r_size r;
  rk_hi : r_start r + r_size r <= hi;
  rk_start_aligned : (PAGE_SIZE | r_start r);
  rk_size_aligned : (PAGE_SIZE | r_size r);
}.

(** The live regions partition the RAM from [lo] to [hi]. *)
Record regions_ok (lo hi : Z) (rs : list region) : Prop := {
  ro_length : length rs = MAX_REGIONS;
  ro_region : forall i r, rs !! i = Some r ->
    r_state r <> REGION_UNUSED -> region_ok lo hi r;
  ro_unique : forall i j ri rj a, rs !! i = Some ri -> rs !! j = Some rj ->
    contains ri a -> contains rj a -> i = j;
  ro_cover : forall a, lo <= a < hi ->
    exists i r, rs !! i = Some r /\ contains r a;
}.

Definition alloc_range (r : region) : option (Z * Z) :=
  if is_state REGION_ALLOCATED r then Some (r_start r, r_size r) else None.

(** The abstract state: which slot owns which range. *)
Definition allocated (rs : list region) : gmap Z (Z * Z) :=
  omap alloc_range (map_seqZ (M:=gmap Z region) 0 rs).

Section Partition.
Context (lo hi : Z).
Hypothesis Hlo : 0 < lo.
Hypothesis Hhi : hi < 2 ^ 32.

Local Abbreviation ok := (regions_ok lo hi).

Lemma is_state_true st r : is_state st r = true <-> r_state r = st.
Proof. unfold is_state. by rewrite bool_decide_eq_true. Qed.

Lemma ok_lookup rs i : ok rs -> (i < MAX_REGIONS)%nat -> rs !! i = Some (rs !!! i).
Proof. intros Hok Hi. apply aget_Some. by rewrite (ro_length _ _ _ Hok). Qed.

(** Changing one entry to an entry that covers the same addresses. *)
Lemma regions_ok_one rs i ri ri' :
  ok rs -> rs !! i = Some ri ->
  (r_state ri' <> REGION_UNUSED -> region_ok lo hi ri') ->
  (forall a, contains ri' a <-> contains ri a) ->
  ok (<[i := ri']> rs).
Proof.
  intros Hok Hi Hri' Hsame.
  assert (Hmap : forall k r, <[i := ri']> rs !! k = Some r ->
    exists r0, rs !! k = Some r0 /\ (forall a, contains r a -> contains r0 a)).
  { intros k r Hk. apply list_lookup_insert_Some in Hk as [(<- & <- & _)|[_ Hk]].
    - exists ri. split; [done|]. intros a. by rewrite Hsame.
    - by exists r. }
  split.
  - rewrite length_insert. apply Hok.
  - intros k r Hk Hlive.
    apply list_lookup_insert_Some in Hk as [(<- & <- & _)|[_ Hk]]; [by auto|].
    by eapply ro_region.
  - intros k l rk rl a Hk Hl Hak Hal.
    apply Hmap in Hk as (rk0 & Hk0 & Hck). apply Hmap in Hl as (rl0 & Hl0 & Hcl).
    by eapply (ro_unique _ _ _ Hok k l rk0 rl0 a); auto.
  - intros a Ha. destruct (ro_cover _ _ _ Hok a Ha) as (k & r & Hk & Hka).
    destruct (decide (k = i)) as [->|Hne].
    + exists i, ri'. split; [|by rewrite Hsame; simplify_eq].
      apply list_lookup_insert_eq. by eapply lookup_lt_Some.
    + exists k, r. by rewrite list_lookup_insert_ne.
Qed.

(** Redistributing the addresses of two entries between these entries. *)
Lemma regions_ok_two rs i j ri rj ri' rj' :
  ok rs -> i <> j -> rs !! i = Some ri -> rs !! j = Some rj ->
  (r_state ri' <> REGION_UNUSED -> region_ok lo hi ri') ->
  (r_state rj' <> REGION_UNUSED -> region_ok lo hi rj') ->
  (forall a, contains ri' a \/ contains rj' a <-> contains ri a \/ contains rj a) ->
  (forall a, contains ri' a -> contains rj' a -> False) ->
  ok (<[j := rj']> (<[i := ri']> rs)).
Proof.
  intros Hok Hij Hi Hj Hri' Hrj' Hsame Hdisj.
  assert (Hli : <[j := rj']> (<[i := ri']> rs) !! i = Some ri').
  { rewrite list_lookup_insert_ne by done.
    apply list_lookup_insert_eq. by eapply lookup_lt_Some. }
  assert (Hlj : <[j := rj']> (<[i := ri']> rs) !! j = Some rj').
  { apply list_lookup_insert_eq. rewrite length_insert. by eapply lookup_lt_Some. }
  assert (Hlo' : forall k, k <> i -> k <> j ->
    <[j := rj']> (<[i := ri']> rs) !! k = rs !! k).
  { intros k Hki Hkj. by rewrite !list_lookup_insert_ne by done. }
  (* an address of entry k of the new table, traced back to the old one *)
  assert (Hback : forall k r a, <[j := rj']> (<[i := ri']> rs) !! k = Some r ->
    contains r a -> exists k0 r0, rs !! k0 = Some r0 /\ contains r0 a /\
      (k0 = k \/ (k0 = i \/ k0 = j) /\ (k = i \/ k = j))).
  { intros k r a Hk Hc. destruct (decide (k = i)) as [->|Hki]; [|destruct (decide (k = j)) as [->|Hkj]].
    - rewrite Hli in Hk. simplify_eq.
      destruct (proj1 (Hsame a) (or_introl Hc)); eauto 10.
    - rewrite Hlj in Hk. simplify_eq.
      destruct (proj1 (Hsame a) (or_intror Hc)); eauto 10.
    - rewrite Hlo' in Hk by done. eauto 10. }
  split.
  - rewrite !length_insert. apply Hok.
  - intros k r Hk Hlive. destruct (decide (k = i)) as [->|Hki]; [|destruct (decide (k = j)) as [->|Hkj]].
    + rewrite Hli in Hk. simplify_eq. by auto.
    + rewrite Hlj in Hk. simplify_eq. by auto.
    + rewrite Hlo' in Hk by done. by eapply ro_region.
  - intros k l rk rl a Hk Hl Hak Hal.
    destruct (Hback k rk a Hk Hak) as (k0 & r0 & Hk0 & Hr0 & Ek).
    destruct (Hback l rl a Hl Hal) as (l0 & s0 & Hl0 & Hs0 & El).
    pose proof (ro_unique _ _ _ Hok _ _ _ _ a Hk0 Hl0 Hr0 Hs0) as E0.
    assert (Hx : contains ri' a -> contains rj' a -> False) by apply Hdisj.
    destruct (decide (k = l)); [done|]. exfalso.
    destruct Ek as [->|[Ek [->| ->]]], El as [->|[El [->| ->]]];
      subst; try (destruct Ek, El); subst;
      repeat match goal with H : _ \/ _ |- _ => destruct H end; simplify_eq;
      rewrite ?Hli, ?Hlj in *; simplify_eq; eauto.
  - intros a Ha. destruct (ro_cover _ _ _ Hok a Ha) as (k & r & Hk & Hka).
    destruct (decide (k = i)) as [->|Hki]; [|destruct (decide (k = j)) as [->|Hkj]].
    + rewrite Hi in Hk. simplify_eq.
      destruct (proj2 (Hsame a) (or_introl Hka)); eauto.
    + rewrite Hj in Hk. simplify_eq.
      destruct (proj2 (Hsame a) (or_intror Hka)); eauto.
    + exists k, r. by rewrite Hlo'.
Qed.

Lemma contains_unused a s n : ~ contains (mkRegion s n REGION_UNUSED) a.
Proof. by intros [H _]. Qed.

(** Carving [n] bytes off the front of a free region. *)
Lemma split_region_ok rs f k n rf rk :
  ok rs -> rs !! f = Some rf -> rs !! k = Some rk ->
  r_state rf = REGION_FREE -> r_state rk = REGION_UNUSED ->
  0 <= n <= r_size rf -> (PAGE_SIZE | n) ->
  ok (split_region rs f k n).
Proof.
  intros Hok Hf Hk Hfree Hunused Hn Halign.
  assert (Hne : k <> f) by (intros ->; congruence).
  pose proof (ro_region _ _ _ Hok f rf Hf ltac:(congruence)) as [].
  unfold split_region. rewrite (aget_lookup rs f rf) by done.
  rewrite aget_set_other, (aget_lookup rs f rf) by done. simpl.
  rewrite !u32_id by lia.
  assert (Hkn : forall r, (forall a, contains r a <->
      r_start rf + n <= a < r_start rf + r_size rf) ->
    (r_state r <> REGION_UNUSED -> region_ok lo hi r) ->
    ok (<[f := r]> (<[k := mkRegion (r_start rf) n REGION_ALLOCATED]> rs))).
  { intros r Hr Hrok. eapply (regions_ok_two rs k f rk rf); try done.
    - intros _. by split; simpl; try lia.
    - intros a. rewrite Hr. unfold contains; simpl. rewrite Hunused, Hfree.
      split; [intros [[_ ?]|?]; right; split; [done|lia|done|lia]|].
      intros [[? _]|[_ ?]]; [done|].
      destruct (decide (a < r_start rf + n)); [left; split; [done|lia]|right; lia].
    - intros a [_ Ha] Hb%Hr. simpl in Ha. lia. }
  destruct (Z.eqb_spec (r_size rf - n) 0) as [E|E]; apply Hkn; simpl.
  - intros a. split; [by intros ?%contains_unused|lia].
  - done.
  - intros a. unfold contains; simpl. rewrite Hfree.
    split; [intros [_ ?]; lia|intros ?; split; [done|lia]].
  - intros _. split; simpl; try lia; [by apply Z.divide_add_r|by apply Z.divide_sub_r].
Qed.

(** One step of the merge keeps the partition. *)
Lemma merge_step_ok i rs j :
  ok rs -> (i < MAX_REGIONS)%nat -> (j < MAX_REGIONS)%nat ->
  r_state (rs !!! i) = REGION_FREE -> ok (merge_step i rs j).
Proof.
  intros Hok Hi Hj Hfi. unfold merge_step.
  case_bool_decide as Hij; simpl; [done|].
  destruct (is_state REGION_FREE (rs !!! j)) eqn:Hfj; simpl; [|done].
  apply is_state_true in Hfj.
  destruct (Z.eqb_spec (u32 (r_start (rs !!! i) + r_size (rs !!! i)))
              (r_start (rs !!! j))) as [E|E]; [|done].
  pose proof (ok_lookup rs i Hok Hi) as Hli. pose proof (ok_lookup rs j Hok Hj) as Hlj.
  revert E Hli Hlj Hfi Hfj.
  generalize (rs !!! i) as ri, (rs !!! j) as rj. intros ri rj E Hli Hlj Hfi Hfj.
  pose proof (ro_region _ _ _ Hok i ri Hli ltac:(congruence)) as [].
  pose proof (ro_region _ _ _ Hok j rj Hlj ltac:(congruence)) as [].
  rewrite u32_id in E by lia. rewrite (u32_id (_ + _)) by lia.
  eapply (regions_ok_two rs i j ri rj); try done.
  - intros _. split; simpl; try lia; [done|by apply Z.divide_add_r].
  - intros a. unfold contains; simpl. rewrite Hfi, Hfj. split.
    + intros [[_ ?]|[? _]]; [|done].
      destruct (decide (a < r_start rj)); [left|right]; (split; [done|lia]).
    + intros [[_ ?]|[_ ?]]; left; (split; [done|lia]).
  - intros a _ H. by apply contains_unused in H.
Qed.

(** *** The abstraction under the table updates *)

Lemma allocated_lookup rs i x :
  allocated rs !! i = Some x <->
  0 <= i /\ exists r, rs !! Z.to_nat i = Some r /\ alloc_range r = Some x.
Proof.
  unfold allocated. rewrite lookup_omap, bind_Some. split.
  - intros (r & Hr & Hx). apply lookup_map_seqZ_Some in Hr as [? Hr].
    rewrite Z.sub_0_r in Hr. eauto.
  - intros (Hi & r & Hr & Hx). exists r. split; [|done].
    apply lookup_map_seqZ_Some. by rewrite Z.sub_0_r.
Qed.

Lemma allocated_lookup_nat rs (k : nat) :
  allocated rs !! Z.of_nat k = rs !! k ≫= alloc_range.
Proof.
  apply option_eq. intros x. rewrite allocated_lookup, Nat2Z.id, bind_Some.
  split; [by intros [_ ?]|]. intros ?. split; [lia|done].
Qed.

Lemma allocated_insert rs (k : nat) r :
  (k < length rs)%nat ->
  allocated (<[k := r]> rs) =
  partial_alter (fun _ => alloc_range r) (Z.of_nat k) (allocated rs).
Proof.
  intros Hk. apply map_eq. intros i. destruct (decide (i = Z.of_nat k)) as [->|Hne].
  - rewrite lookup_partial_alter_eq, allocated_lookup_nat.
    by rewrite list_lookup_insert_eq.
  - rewrite lookup_partial_alter_ne by done. apply option_eq. intros x.
    rewrite !allocated_lookup. split; intros (Hi & r' & Hr' & Hx); (split; [done|]).
    + rewrite list_lookup_insert_ne in Hr' by lia. eauto.
    + exists r'. by rewrite list_lookup_insert_ne by lia.
Qed.

(** An update that keeps the allocated range of its entry. *)
Lemma allocated_insert_same rs (k : nat) r0 r :
  rs !! k = Some r0 -> alloc_range r = alloc_range r0 ->
  allocated (<[k := r]> rs) = allocated rs.
Proof.
  intros Hk Hr. rewrite allocated_insert by (by eapply lookup_lt_Some).
  apply map_eq. intros i. destruct (decide (i = Z.of_nat k)) as [->|Hne].
  - by rewrite lookup_partial_alter_eq, allocated_lookup_nat, Hk, Hr.
  - by rewrite lookup_partial_alter_ne.
Qed.

Lemma alloc_range_not_allocated r : r_state r <> REGION_ALLOCATED -> alloc_range r = None.
Proof. intros H. unfold alloc_range, is_state. by rewrite bool_decide_eq_false_2. Qed.

Lemma alloc_range_allocated s n : alloc_range (mkRegion s n REGION_ALLOCATED) = Some (s, n).
Proof. done. Qed.

Lemma allocated_split rs f k n rf rk :
  rs !! f = Some rf -> rs !! k = Some rk ->
  r_state rf = REGION_FREE -> r_state rk = REGION_UNUSED ->
  allocated (split_region rs f k n) =
  <[Z.of_nat k := (r_start rf, n)]> (allocated rs).
Proof.
  intros Hf Hk Hfree Hunused.
  assert (Hne : k <> f) by (intros ->; congruence).
  unfold split_region. rewrite (aget_lookup rs f rf) by done.
  rewrite aget_set_other, (aget_lookup rs f rf) by done.
  match goal with |- allocated (if ?c then <[f:=?a]> ?t else <[f:=?b]> ?t) = _ =>
    assert (Hgen : forall r, r_state r <> REGION_ALLOCATED ->
      allocated (<[f := r]> t) = <[Z.of_nat k := (r_start rf, n)]> (allocated rs))
  end.
  { intros r Hr. rewrite (allocated_insert_same _ f rf).
    - rewrite allocated_insert by (by eapply lookup_lt_Some).
      by rewrite alloc_range_allocated.
    - by rewrite list_lookup_insert_ne.
    - rewrite !alloc_range_not_allocated; [done|congruence|done]. }
  destruct (_ =? 0); apply Hgen; simpl; congruence.
Qed.

(** *** The merge *)

Definition merge_inv (A : gmap Z (Z * Z)) (rs : list region) : Prop :=
  ok rs /\ allocated rs = A.

Lemma merge_step_state i rs j :
  length rs = MAX_REGIONS -> (i < MAX_REGIONS)%nat ->
  r_state (merge_step i rs j !!! i) = r_state (rs !!! i).
Proof.
  intros Hlen Hi. unfold merge_step. case_bool_decide as Hij; simpl; [done|].
  destruct (negb _); [done|]. destruct (_ =? _); [|done].
  rewrite aget_set_other by done. by rewrite aget_set_same by lia.
Qed.

Lemma merge_step_allocated i rs j :
  ok rs -> (i < MAX_REGIONS)%nat -> (j < MAX_REGIONS)%nat ->
  r_state (rs !!! i) = REGION_FREE -> allocated (merge_step i rs j) = allocated rs.
Proof.
  intros Hok Hi Hj Hfi. unfold merge_step.
  case_bool_decide as Hij; simpl; [done|].
  destruct (is_state REGION_FREE (rs !!! j)) eqn:Hfj; simpl; [|done].
  apply is_state_true in Hfj. destruct (_ =? _); [|done].
  rewrite (allocated_insert_same _ j (rs !!! j)).
  - rewrite (allocated_insert_same _ i (rs !!! i)); [done|by apply ok_lookup|].
    rewrite !alloc_range_not_allocated; simpl; congruence.
  - rewrite list_lookup_insert_ne by done. by apply ok_lookup.
  - rewrite !alloc_range_not_allocated; simpl; congruence.
Qed.

Lemma merge_free_regions_inv A rs :
  merge_inv A rs -> merge_inv A (merge_free_regions rs).
Proof.
  intros Hinv. unfold merge_free_regions. apply fold_left_inv; [|done]. clear rs Hinv.
  intros rs i Hi%elem_of_seq0 Hinv. unfold merge_outer.
  destruct (is_state REGION_FREE (rs !!! i)) eqn:Hfi; [|done].
  apply is_state_true in Hfi.
  refine (proj1 (fold_left_inv (fun rs =>
    merge_inv A rs /\ r_state (rs !!! i) = REGION_FREE) _ _ _ _ _)); [|done].
  clear rs Hinv Hfi. intros rs j Hj%elem_of_seq0 [[Hok HA] Hfi]. split; [split|].
  - by apply merge_step_ok.
  - by rewrite merge_step_allocated.
  - rewrite merge_step_state; [done|by eapply ro_length|done].
Qed.

(** *** The operations *)

Lemma find_free_spec rs n f :
  find_suitable_free_region rs n = Some f ->
  exists rf, rs !! f = Some rf /\ r_state rf = REGION_FREE /\ n <= r_size rf.
Proof.
  intros (rf & Hf & H)%find_slot_lookup. exists rf. split; [done|].
  apply andb_true_iff in H as [?%is_state_true ?]. split; [done|lia].
Qed.

Lemma find_unused_spec rs k :
  find_unused_region_slot rs = Some k ->
  exists rk, rs !! k = Some rk /\ r_state rk = REGION_UNUSED.
Proof. intros (rk & Hk & ?%is_state_true)%find_slot_lookup. eauto. Qed.

(** What a successful [alloc_pages] did. *)
Lemma alloc_pages_inv h n i p h' :
  ok (h_regions h) -> alloc_pages h n = Ret (i, p, h') ->
  exists f k rf rk,
    find_suitable_free_region (h_regions h) (u32 (n * PAGE_SIZE)) = Some f /\
    find_unused_region_slot (h_regions h) = Some k /\
    h_regions h !! f = Some rf /\ h_regions h !! k = Some rk /\
    r_state rf = REGION_FREE /\ r_state rk = REGION_UNUSED /\
    u32 (n * PAGE_SIZE) <= r_size rf /\
    i = Z.of_nat k /\ p = r_start rf /\
    h' = mkHeap (split_region (h_regions h) f k (u32 (n * PAGE_SIZE)))
           (memset (h_mem h) (r_start rf) 0 (u32 (n * PAGE_SIZE))).
Proof.
  intros Hok H. unfold alloc_pages, alloc_region in H. outcome_inv.
  destruct (find_suitable_free_region _ _) as [f|] eqn:Hf; [|done].
  destruct (find_unused_region_slot _) as [k|] eqn:Hk; [|done].
  destruct (find_free_spec _ _ _ Hf) as (rf & Hlf & Hsf & Hnf).
  destruct (find_unused_spec _ _ Hk) as (rk & Hlk & Hsk).
  outcome_inv. unfold region_to_addr in *. outcome_inv.
  exists f, k, rf, rk. rewrite !(aget_lookup _ f rf) by done.
  repeat (split; [done|]). split; [|done].
  rewrite Nat2Z.id. unfold split_region.
  assert (k <> f) by (intros ->; congruence).
  destruct (_ =? 0); rewrite aget_set_other, aget_set_same
    by first [done|by eapply lookup_lt_Some]; simpl; by rewrite (aget_lookup _ f rf).
Qed.

Lemma required_size_aligned n : (PAGE_SIZE | u32 (n * PAGE_SIZE)).
Proof.
  apply Z.mod_divide; [done|]. unfold u32, PAGE_SIZE.
  rewrite Z.mod_mod_divide by (by exists (2 ^ 20)). by apply Z.mod_mul.
Qed.

Lemma required_size_range n : 0 <= u32 (n * PAGE_SIZE).
Proof. apply u32_range. Qed.

Lemma allocated_range rs i s n :
  ok rs -> allocated rs !! i = Some (s, n) ->
  lo <= s /\ 0 <= n /\ s + n <= hi /\ (PAGE_SIZE | s) /\
  0 <= i < Z.of_nat MAX_REGIONS.
Proof.
  intros Hok (Hi & r & Hr & Hx)%allocated_lookup.
  unfold alloc_range in Hx. destruct (is_state _ r) eqn:Hs; simplify_eq.
  apply is_state_true in Hs.
  pose proof (ro_region _ _ _ Hok _ r Hr ltac:(congruence)) as [].
  apply lookup_lt_Some in Hr. rewrite (ro_length _ _ _ Hok) in Hr.
  split_and!; first [done|lia].
Qed.

Lemma allocated_disjoint rs i j r1 r2 :
  ok rs -> i <> j -> allocated rs !! i = Some r1 -> allocated rs !! j = Some r2 ->
  0 < r1.2 -> 0 < r2.2 -> range_disjoint r1 r2.
Proof.
  intros Hok Hij (Hi & s1 & Hs1 & Hx1)%allocated_lookup (Hj & s2 & Hs2 & Hx2)%allocated_lookup H1 H2.
  unfold alloc_range in Hx1, Hx2.
  destruct (is_state _ s1) eqn:E1; simplify_eq. destruct (is_state _ s2) eqn:E2; simplify_eq.
  apply is_state_true in E1, E2. unfold range_disjoint. simpl in *.
  destruct (decide (r_start s1 + r_size s1 <= r_start s2)); [by left|].
  destruct (decide (r_start s2 + r_size s2 <= r_start s1)); [by right|].
  exfalso. assert (Z.to_nat i = Z.to_nat j) as E; [|lia].
  apply (ro_unique _ _ _ Hok _ _ _ _ (Z.max (r_start s1) (r_start s2)) Hs1 Hs2);
    (split; [congruence|lia]).
Qed.

Lemma alloc_pages_heap h n i p h' :
  ok (h_regions h) -> alloc_pages h n = Ret (i, p, h') ->
  ok (h_regions h') /\
  allocated (h_regions h) !! i = None /\
  allocated (h_regions h') =
    <[i := (p, u32 (n * PAGE_SIZE))]> (allocated (h_regions h)) /\
  h_mem h' = memset (h_mem h) p 0 (u32 (n * PAGE_SIZE)).
Proof.
  intros Hok (f & k & rf & rk & _ & _ & Hf & Hk & Hsf & Hsk & Hn & -> & -> & ->)%alloc_pages_inv;
    [|done]. simpl. split; [|split; [|split; [|done]]].
  - eapply split_region_ok; eauto using required_size_aligned, required_size_range.
  - rewrite allocated_lookup_nat, Hk. simpl.
    by rewrite alloc_range_not_allocated by congruence.
  - by eapply allocated_split.
Qed.

Lemma release_pages_heap h i r :
  ok (h_regions h) -> allocated (h_regions h) !! i = Some r ->
  exists h', release_pages h i = Ret h' /\ ok (h_regions h') /\
    allocated (h_regions h') = delete i (allocated (h_regions h)) /\
    h_mem h' = h_mem h.
Proof.
  intros Hok Hi. destruct r as [s n].
  pose proof (allocated_range _ _ _ _ Hok Hi) as (_ & _ & _ & _ & Hb).
  apply allocated_lookup in Hi as (Hi & r & Hr & Hx).
  unfold alloc_range in Hx. destruct (is_state _ r) eqn:Hs; simplify_eq.
  assert (Hlen : (Z.to_nat i < length (h_regions h))%nat) by (by eapply lookup_lt_Some).
  unfold release_pages. replace (region_index_valid i) with true.
  2: { symmetry. unfold region_index_valid. apply andb_true_iff. lia. }
  rewrite (aget_lookup _ _ _ Hr), Hs. apply is_state_true in Hs. simpl.
  eexists. split; [done|]. simpl. apply and_assoc. split; [|done].
  apply (merge_free_regions_inv _). split.
  - eapply regions_ok_one; [done|done| |].
    + intros _. pose proof (ro_region _ _ _ Hok _ r Hr ltac:(congruence)) as []. by split.
    + intros a. unfold contains. simpl. rewrite Hs. split; intros [_ ?]; by split.
  - rewrite allocated_insert by done. rewrite Z2Nat.id by done.
    rewrite alloc_range_not_allocated by done. done.
Qed.

(** *** Release of anything but a live handle panics *)

Lemma release_pages_panics h i :
  length (h_regions h) = MAX_REGIONS ->
  allocated (h_regions h) !! i = None ->
  exists msg, release_pages h i = Panic msg.
Proof.
  intros Hlen Hi. unfold release_pages.
  destruct (region_index_valid i) eqn:Hv; [|by eexists]. simpl.
  unfold region_index_valid in Hv. apply andb_true_iff in Hv.
  destruct (is_state REGION_ALLOCATED (h_regions h !!! Z.to_nat i)) eqn:Hs; [|by eexists].
  exfalso. assert (allocated (h_regions h) !! i =
    Some (r_start (h_regions h !!! Z.to_nat i), r_size (h_regions h !!! Z.to_nat i))) as E.
  - apply allocated_lookup. split; [lia|]. eexists. split; [apply aget_Some; lia|].
    unfold alloc_range. by rewrite Hs.
  - congruence.
Qed.

(** *** How much is left *)

Definition unused_weight (r : region) : nat :=
  if is_state REGION_UNUSED r then 1 else 0.
Definition unused_slots (rs : list region) : nat := sum_list_with unused_weight rs.

Definition heap_avail (h : heap) (k : nat) : Prop :=
  (k <= unused_slots (h_regions h))%nat /\
  ((0 < k)%nat -> exists i r, h_regions h !! i = Some r /\
    r_state r = REGION_FREE /\ Z.of_nat k * PAGE_SIZE <= r_size r).

Lemma unused_slots_find rs :
  (0 < unused_slots rs)%nat -> is_Some (find_unused_region_slot rs).
Proof.
  intros (i & r & Hi & Hr)%sum_list_with_pos. eapply find_slot_exists; [done|].
  unfold unused_weight in Hr. destruct (is_state REGION_UNUSED r); [done|lia].
Qed.

(** [alloc_region] fails only when no free region is large enough or the
    table is full. *)
Lemma alloc_pages_found h n f k :
  ok (h_regions h) ->
  find_suitable_free_region (h_regions h) (u32 (n * PAGE_SIZE)) = Some f ->
  find_unused_region_slot (h_regions h) = Some k ->
  exists p h', alloc_pages h n = Ret (Z.of_nat k, p, h') /\
    h_regions h' = split_region (h_regions h) f k (u32 (n * PAGE_SIZE)).
Proof.
  intros Hok Hf Hk. unfold alloc_pages, alloc_region. rewrite Hf, Hk. simpl.
  destruct (find_free_spec _ _ _ Hf) as (rf & Hlf & Hsf & Hnf).
  destruct (find_unused_spec _ _ Hk) as (rk & Hlk & Hsk).
  assert (Hlt : (k < MAX_REGIONS)%nat).
  { rewrite <-(ro_length _ _ _ Hok). by eapply lookup_lt_Some. }
  assert (Hne : k <> f) by (intros ->; congruence).
  assert (Hk' : split_region (h_regions h) f k (u32 (n * PAGE_SIZE)) !!! k =
    mkRegion (r_start rf) (u32 (n * PAGE_SIZE)) REGION_ALLOCATED).
  { unfold split_region. rewrite (aget_lookup (h_regions h) f rf) by done.
    destruct (_ =? 0); rewrite aget_set_other, aget_set_same
      by first [done|by eapply lookup_lt_Some]; done. }
  unfold region_to_addr, region_index_valid.
  replace ((0 <=? Z.of_nat k) && (Z.of_nat k <? Z.of_nat MAX_REGIONS)) with true.
  2: { symmetry. apply andb_true_iff. lia. }
  simpl. rewrite Nat2Z.id, Hk'. simpl. eauto.
Qed.

Lemma unused_slots_split rs f k n rf rk :
  rs !! f = Some rf -> rs !! k = Some rk ->
  r_state rf = REGION_FREE -> r_state rk = REGION_UNUSED ->
  (unused_slots rs <= S (unused_slots (split_region rs f k n)))%nat.
Proof.
  intros Hf Hk Hsf Hsk. assert (Hne : k <> f) by (intros ->; congruence).
  unfold split_region. rewrite (aget_lookup rs f rf) by done.
  rewrite aget_set_other, (aget_lookup rs f rf) by done.
  pose proof (sum_list_with_insert unused_weight rs k rk
    (mkRegion (r_start rf) n REGION_ALLOCATED) Hk) as E1.
  assert (Hf' : <[k := mkRegion (r_start rf) n REGION_ALLOCATED]> rs !! f = Some rf)
    by (by rewrite list_lookup_insert_ne).
  pose proof (fun r => sum_list_with_insert unused_weight _ f rf r Hf') as E2.
  unfold unused_slots, unused_weight, is_state in *. rewrite Hsf, Hsk in *. simpl in *.
  destruct (_ =? 0);
    match goal with |- (_ <= S (sum_list_with _ (<[_:=?r]> _)))%nat =>
      specialize (E2 r) end; simpl in *; lia.
Qed.

(** A free region other than the one split keeps its place; the split one
    keeps its remaining bytes. *)
Lemma split_region_free rs f k n rf rk i r :
  ok rs -> rs !! f = Some rf -> rs !! k = Some rk ->
  r_state rf = REGION_FREE -> r_state rk = REGION_UNUSED -> 0 <= n < r_size r ->
  rs !! i = Some r -> r_state r = REGION_FREE ->
  exists r', split_region rs f k n !! i = Some r' /\ r_state r' = REGION_FREE /\
    r_size r - n <= r_size r'.
Proof.
  intros Hok Hf Hk Hsf Hsk Hn Hi Hsr. assert (Hne : k <> f) by (intros ->; congruence).
  assert (Hki : k <> i) by (intros ->; congruence).
  unfold split_region. rewrite (aget_lookup rs f rf) by done.
  rewrite aget_set_other, (aget_lookup rs f rf) by done. simpl.
  destruct (decide (f = i)) as [->|Hfi].
  - assert (rf = r) as -> by congruence.
    pose proof (ro_region _ _ _ Hok i r Hi ltac:(congruence)) as [].
    rewrite !u32_id by lia. destruct (Z.eqb_spec (r_size r - n) 0); [lia|].
    rewrite list_lookup_insert_eq by (rewrite length_insert; by eapply lookup_lt_Some).
    eexists. split; [done|]. simpl. split; [done|lia].
  - exists r. destruct (_ =? 0); rewrite !list_lookup_insert_ne by done;
      (split; [done|split; [done|lia]]).
Qed.

Lemma alloc_pages_avail h n k :
  ok (h_regions h) -> (0 < n)%nat -> heap_avail h (n + k) ->
  exists i p h', alloc_pages h (Z.of_nat n) = Ret (i, p, h') /\ heap_avail h' k.
Proof.
  intros Hok Hn [Hun Hbig]. destruct Hbig as (i & r & Hi & Hsr & Hsz); [lia|]. unfold PAGE_SIZE in Hsz.
  pose proof (ro_region _ _ _ Hok i r Hi ltac:(congruence)) as [].
  set (size := u32 (Z.of_nat n * PAGE_SIZE)).
  assert (Es : size = Z.of_nat n * 4096) by (unfold size, PAGE_SIZE; apply u32_id; lia).
  destruct (find_slot_exists
    (fun r => is_state REGION_FREE r && (size <=? r_size r)) (h_regions h) i r Hi) as [f Hf].
  { apply andb_true_iff. split; [by apply is_state_true|]. lia. }
  destruct (unused_slots_find (h_regions h)) as [s Hs]; [lia|].
  destruct (find_free_spec _ size _ Hf) as (rf & Hlf & Hsf & _).
  destruct (find_unused_spec _ _ Hs) as (rs & Hls & Hss).
  destruct (alloc_pages_found h (Z.of_nat n) f s Hok Hf Hs) as (p & h' & Ha & Hr).
  exists (Z.of_nat s), p, h'. split; [done|]. fold size in Hr.
  split; rewrite Hr.
  - pose proof (unused_slots_split (h_regions h) f s size rf rs Hlf Hls Hsf Hss). lia.
  - intros Hk. destruct (split_region_free (h_regions h) f s size rf rs i r)
      as (r' & Hi' & Hs' & Hsz'); try done; [lia|].
    exists i, r'. split; [done|]. split; [done|]. unfold PAGE_SIZE. lia.
Qed.

Lemma heap_avail_le h j k : (j <= k)%nat -> heap_avail h k -> heap_avail h j.
Proof.
  intros Hjk [Hun Hbig]. split; [lia|]. intros Hj.
  destruct Hbig as (i & r & Hi & Hs & Hsz); [lia|].
  exists i, r. split; [done|]. split; [done|]. unfold PAGE_SIZE in *. lia.
Qed.

(** *** Initialisation *)

Definition initial_regions : list region :=
  mkRegion lo (hi - lo) REGION_FREE
    :: replicate (MAX_REGIONS - 1) (mkRegion 0 0 REGION_UNUSED).

Lemma init_regions_eq rs :
  length rs = MAX_REGIONS -> lo <= hi -> init_regions lo hi rs = initial_regions.
Proof.
  intros Hlen Hle. unfold init_regions, initial_regions. rewrite u32_id by lia.
  do 128 (destruct rs as [|? rs]; [done|]). destruct rs; [|done]. reflexivity.
Qed.

Lemma initial_regions_lookup i r :
  initial_regions !! i = Some r ->
  (i = 0%nat /\ r = mkRegion lo (hi - lo) REGION_FREE) \/ r = mkRegion 0 0 REGION_UNUSED.
Proof.
  destruct i as [|i]; unfold initial_regions; [intros [= <-]; by left|].
  intros [-> _]%lookup_replicate. by right.
Qed.

Lemma initial_regions_ok :
  lo <= hi -> (PAGE_SIZE | lo) -> (PAGE_SIZE | hi) -> ok initial_regions.
Proof.
  intros Hle Hal Hah. split.
  - done.
  - intros i r [[-> ->]| ->]%initial_regions_lookup Hs; [|done].
    split; simpl; try lia; [done|by apply Z.divide_sub_r].
  - intros i j ri rj a [[-> ->]| ->]%initial_regions_lookup
      [[-> ->]| ->]%initial_regions_lookup; [done| | |];
      intros ? ?; exfalso; by eapply contains_unused.
  - intros a Ha. exists 0%nat, (mkRegion lo (hi - lo) REGION_FREE).
    split; [done|]. split; [done|]. simpl. lia.
Qed.

Lemma initial_regions_allocated : allocated initial_regions = ∅.
Proof.
  apply map_eq. intros i. rewrite lookup_empty.
  destruct (allocated _ !! i) as [x|] eqn:E; [|done].
  apply allocated_lookup in E as (_ & r & [[_ ->]| ->]%initial_regions_lookup & Hx); done.
Qed.

Lemma initial_avail m k :
  (k <= 127)%nat -> Z.of_nat k * PAGE_SIZE <= hi - lo ->
  heap_avail (mkHeap initial_regions m) k.
Proof.
  intros Hk Hsz. split; [exact Hk|]. intros _.
  exists 0%nat, (mkRegion lo (hi - lo) REGION_FREE). done.
Qed.
End Partition.

(** ** The allocator implements the interface *)

#[export] Instance heap_PageHeap : PageHeap heap := {
  ph_alloc := alloc_pages;
  ph_release := release_pages;
  ph_mem := h_mem;
  ph_set_mem := fun h m => mkHeap (h_regions h) m;
}.

Section Implements.
Context (lo hi : Z) (Hb : 0 < lo /\ hi < 2 ^ 32).

#[local, refine] Instance heap_PageHeapSpec : PageHeapSpec heap lo hi := {
  ph_ok := fun h => regions_ok lo hi (h_regions h);
  ph_owned := fun h => allocated (h_regions h);
  ph_avail := heap_avail;
}.
Proof.
  all: try done.
  - intros h i s n Hok Hi. pose proof (allocated_range _ _ _ _ _ _ Hok Hi).
    unfold MAX_REGIONS in *. split_and!; first [lia|by apply H].
  - intros h i j r1 r2. apply allocated_disjoint.
  - intros h n i p h' Hok Ha. by apply (alloc_pages_heap lo hi); try apply Hb.
  - intros h n k. apply (alloc_pages_avail lo hi); apply Hb.
  - intros h j k. apply heap_avail_le.
  - intros h i r. apply (release_pages_heap lo hi); apply Hb.
Defined.
End Implements.

(** ** Coalescing *)

Definition free_weight (r : region) : nat :=
  if is_state REGION_FREE r then 1 else 0.
Definition free_slots (rs : list region) : nat := sum_list_with free_weight rs.

(** Two free regions that touch. *)
Definition adjacent_free (rs : list region) (i j : nat) : Prop :=
  i <> j /\ exists ri rj, rs !! i = Some ri /\ rs !! j = Some rj /\
    r_state ri = REGION_FREE /\ r_state rj = REGION_FREE /\
    r_start ri + r_size ri = r_start rj.

Section Coalescing.
Context (lo hi : Z).
Hypothesis Hlo : 0 < lo.
Hypothesis Hhi : hi < 2 ^ 32.
Local Abbreviation ok := (regions_ok lo hi).

Lemma merge_step_progress i rs j :
  ok rs -> (i < MAX_REGIONS)%nat -> (j < MAX_REGIONS)%nat ->
  r_state (rs !!! i) = REGION_FREE ->
  merge_step i rs j = rs \/ (free_slots (merge_step i rs j) < free_slots rs)%nat.
Proof.
  intros Hok Hi Hj Hfi. unfold merge_step. case_bool_decide as Hij; simpl; [by left|].
  destruct (is_state REGION_FREE (rs !!! j)) eqn:Hfj; simpl; [|by left].
  destruct (_ =? _); [right|by left].
  match goal with |- (free_slots (<[j:=?b]> (<[i:=?a]> _)) < _)%nat =>
    pose proof (sum_list_with_insert free_weight rs i (rs !!! i) a) as E1;
    pose proof (sum_list_with_insert free_weight (<[i:=a]> rs) j (rs !!! j) b) as E2
  end.
  rewrite list_lookup_insert_ne in E2 by done.
  specialize (E1 (ok_lookup _ _ _ _ Hok Hi)). specialize (E2 (ok_lookup _ _ _ _ Hok Hj)).
  unfold free_slots, free_weight in *. rewrite Hfj in E2.
  unfold is_state in *. simpl in *. rewrite Hfi in *. simpl in *. lia.
Qed.

Lemma merge_outer_progress rs i :
  ok rs -> (i < MAX_REGIONS)%nat ->
  ok (merge_outer rs i) /\
  (merge_outer rs i = rs /\
    (r_state (rs !!! i) = REGION_FREE ->
     forall j, (j < MAX_REGIONS)%nat -> merge_step i rs j = rs) \/
   (free_slots (merge_outer rs i) < free_slots rs)%nat).
Proof.
  intros Hok Hi. unfold merge_outer.
  destruct (is_state REGION_FREE (rs !!! i)) eqn:Hfi.
  2: { split; [done|]. left. split; [done|]. intros E.
       apply is_state_true in E. congruence. }
  apply is_state_true in Hfi.
  set (I rs := ok rs /\ r_state (rs !!! i) = REGION_FREE).
  assert (Hstep : forall rs j, j ∈ seq 0 MAX_REGIONS -> I rs -> I (merge_step i rs j)).
  { intros rs' j Hj%elem_of_seq0 [Hok' Hf']. split; [by apply merge_step_ok|].
    rewrite merge_step_state; [done|by eapply ro_length|done]. }
  split; [by apply (fold_left_inv I (merge_step i) (seq 0 MAX_REGIONS) rs)|].
  assert (Hprog : forall rs j, j ∈ seq 0 MAX_REGIONS -> I rs ->
    I (merge_step i rs j) /\ (merge_step i rs j = rs \/
      (free_slots (merge_step i rs j) < free_slots rs)%nat)).
  { intros rs' j Hj HI. split; [by apply Hstep|]. destruct HI.
    apply merge_step_progress; [done|done|by apply elem_of_seq0|done]. }
  destruct (fold_left_progress I free_slots (merge_step i) (seq 0 MAX_REGIONS) rs
    Hprog (conj Hok Hfi)) as [[E Hall]|Hlt]; [left|by right].
  split; [done|]. intros _ j Hj. apply Hall. apply elem_of_seq. lia.
Qed.

(** One call of [merge_free_regions] either merges some pair or there was
    no pair to merge. *)
Lemma merge_free_regions_progress rs :
  ok rs ->
  merge_free_regions rs = rs /\ (forall i j, ~ adjacent_free rs i j) \/
  (free_slots (merge_free_regions rs) < free_slots rs)%nat.
Proof.
  intros Hok. unfold merge_free_regions.
  assert (Hprog : forall rs i, i ∈ seq 0 MAX_REGIONS -> ok rs ->
    ok (merge_outer rs i) /\ (merge_outer rs i = rs \/
      (free_slots (merge_outer rs i) < free_slots rs)%nat)).
  { intros rs' i Hi%elem_of_seq0 Hok'.
    destruct (merge_outer_progress rs' i Hok' Hi) as [? [[? _]|?]]; auto. }
  destruct (fold_left_progress ok free_slots merge_outer (seq 0 MAX_REGIONS) rs
    Hprog Hok) as [[E Hall]|Hlt]; [left|by right].
  split; [done|]. intros i j (Hij & ri & rj & Hri & Hrj & Hsi & Hsj & Hadj).
  assert (Hi : (i < MAX_REGIONS)%nat)
    by (rewrite <-(ro_length _ _ _ Hok); by eapply lookup_lt_Some).
  assert (Hj : (j < MAX_REGIONS)%nat)
    by (rewrite <-(ro_length _ _ _ Hok); by eapply lookup_lt_Some).
  destruct (merge_outer_progress rs i Hok Hi) as [_ [[_ Hm]|Hm]].
  2: { rewrite Hall in Hm; [lia|]. apply elem_of_seq. lia. }
  rewrite (aget_lookup rs i ri Hri) in Hm. specialize (Hm Hsi j Hj).
  apply (f_equal (fun l => l !! j)) in Hm. unfold merge_step in Hm.
  rewrite (aget_lookup rs i ri Hri), (aget_lookup rs j rj Hrj) in Hm.
  rewrite bool_decide_eq_false_2 in Hm by done.
  rewrite (proj2 (is_state_true REGION_FREE rj) Hsj) in Hm. simpl in Hm.
  pose proof (ro_region _ _ _ Hok i ri Hri ltac:(congruence)) as [].
  rewrite u32_id, Hadj, Z.eqb_refl in Hm
    by (pose proof (ro_region _ _ _ Hok j rj Hrj ltac:(congruence)) as []; lia).
  rewrite list_lookup_insert_eq, Hrj in Hm
    by (rewrite length_insert, (ro_length _ _ _ Hok); done).
  simplify_eq.
Qed.

Lemma merge_step_id i rs j :
  ok rs -> (i < MAX_REGIONS)%nat -> (j < MAX_REGIONS)%nat ->
  r_state (rs !!! i) = REGION_FREE -> ~ adjacent_free rs i j ->
  merge_step i rs j = rs.
Proof.
  intros Hok Hi Hj Hfi Hno. unfold merge_step. case_bool_decide as Hij; simpl; [done|].
  destruct (is_state REGION_FREE (rs !!! j)) eqn:Hfj; simpl; [|done].
  apply is_state_true in Hfj.
  pose proof (ok_lookup _ _ _ _ Hok Hi) as Hli. pose proof (ok_lookup _ _ _ _ Hok Hj) as Hlj.
  pose proof (ro_region _ _ _ Hok _ _ Hli ltac:(congruence)) as [].
  rewrite u32_id by lia. destruct (Z.eqb_spec (r_start (rs !!! i) + r_size (rs !!! i))
    (r_start (rs !!! j))); [|done].
  exfalso. apply Hno. split; [done|]. eauto 10.
Qed.

Lemma merge_free_regions_id rs :
  ok rs -> (forall i j, ~ adjacent_free rs i j) -> merge_free_regions rs = rs.
Proof.
  intros Hok Hno. apply (fold_left_inv (fun rs' => rs' = rs)); [|done].
  intros rs' i Hi%elem_of_seq0 ->. unfold merge_outer.
  destruct (is_state REGION_FREE (rs !!! i)) eqn:Hfi; [|done].
  apply is_state_true in Hfi. apply (fold_left_inv (fun rs' => rs' = rs)); [|done].
  intros rs' j Hj%elem_of_seq0 ->. by apply merge_step_id.
Qed.
End Coalescing.

(** ** Specification: a pool of disjoint page ranges

    What clients see of the allocator: requests, and for each request the
    range handed out or taken back. *)
Inductive heap_op : Type :=
  | OpAlloc (num_pages : Z)
  | OpRelease (region_idx : Z).

Inductive pool_event : Type :=
  | EvAlloc (region_idx paddr size : Z)
  | EvRelease (region_idx : Z).

Definition heap_step (h : heap) (op : heap_op) : outcome (pool_event * heap) :=
  match op with
  | OpAlloc n =>
      '(i, p, h') ← alloc_pages h n;
      Ret (EvAlloc i p (u32 (n * PAGE_SIZE)), h')
  | OpRelease i =>
      h' ← release_pages h i;
      Ret (EvRelease i, h')
  end.

Fixpoint heap_run (h : heap) (ops : list heap_op) : outcome (list pool_event * heap) :=
  match ops with
  | [] => Ret ([], h)
  | op :: ops' =>
      '(ev, h1) ← heap_step h op;
      '(evs, h2) ← heap_run h1 ops';
      Ret (ev :: evs, h2)
  end.

(** The pool hands out a fresh handle for a page-aligned range of the RAM
    that meets no range handed out before, and takes back live handles. *)
Inductive pool_step (lo hi : Z) : gmap Z (Z * Z) -> pool_event -> gmap Z (Z * Z) -> Prop :=
  | pool_alloc A i p n :
      A !! i = None -> lo <= p -> p + n <= hi -> (PAGE_SIZE | p) ->
      (forall j r, A !! j = Some r -> 0 < r.2 -> 0 < n -> range_disjoint (p, n) r) ->
      pool_step lo hi A (EvAlloc i p n) (<[i := (p, n)]> A)
  | pool_release A i r :
      A !! i = Some r -> pool_step lo hi A (EvRelease i) (delete i A).

Inductive pool_steps (lo hi : Z) :
    gmap Z (Z * Z) -> list pool_event -> gmap Z (Z * Z) -> Prop :=
  | pool_done A : pool_steps lo hi A [] A
  | pool_more A ev A1 evs A2 :
      pool_step lo hi A ev A1 -> pool_steps lo hi A1 evs A2 ->
      pool_steps lo hi A (ev :: evs) A2.

Section Refinement.
Context (lo hi : Z).
Hypothesis Hlo : 0 < lo.
Hypothesis Hhi : hi < 2 ^ 32.
Local Abbreviation ok := (regions_ok lo hi).

Lemma alloc_pages_fresh h n i p h' :
  ok (h_regions h) -> alloc_pages h n = Ret (i, p, h') ->
  lo <= p /\ p + u32 (n * PAGE_SIZE) <= hi /\ (PAGE_SIZE | p) /\
  (forall j r, allocated (h_regions h) !! j = Some r -> 0 < r.2 ->
    0 < u32 (n * PAGE_SIZE) -> range_disjoint (p, u32 (n * PAGE_SIZE)) r).
Proof.
  intros Hok Ha. destruct (alloc_pages_heap lo hi Hlo Hhi _ _ _ _ _ Hok Ha)
    as (Hok' & Hnone & Hown & _).
  assert (Hi : allocated (h_regions h') !! i = Some (p, u32 (n * PAGE_SIZE)))
    by (by rewrite Hown, lookup_insert_eq).
  pose proof (allocated_range lo hi _ _ _ _ Hok' Hi) as (? & _ & ? & ? & _).
  split_and!; try done. intros j r Hj Hr Hn.
  assert (i <> j) by congruence.
  eapply (allocated_disjoint lo hi _ i j); [exact Hok'|done|done| |done|done].
  by rewrite Hown, lookup_insert_ne.
Qed.

Lemma heap_step_refines h op ev h' :
  ok (h_regions h) -> heap_step h op = Ret (ev, h') ->
  ok (h_regions h') /\
  pool_step lo hi (allocated (h_regions h)) ev (allocated (h_regions h')).
Proof.
  intros Hok. destruct op as [n|i]; simpl; intros H.
  - destruct (alloc_pages h n) as [[[i p] h1]|msg|] eqn:Ha; simpl in H; [|done|done].
    outcome_inv. pose proof (alloc_pages_heap lo hi Hlo Hhi _ _ _ _ _ Hok Ha)
      as (Hok' & Hnone & Hown & _).
    pose proof (alloc_pages_fresh _ _ _ _ _ Hok Ha) as (? & ? & ? & ?).
    split; [done|]. rewrite Hown. by constructor.
  - destruct (allocated (h_regions h) !! i) as [r|] eqn:Hi.
    + destruct (release_pages_heap lo hi Hlo Hhi h i r Hok Hi)
        as (h1 & Hr & Hok' & Hown & _).
      rewrite Hr in H. simpl in H. outcome_inv. split; [done|].
      rewrite Hown. by econstructor.
    + destruct (release_pages_panics h i (ro_length _ _ _ Hok) Hi) as [msg Hp].
      by rewrite Hp in H.
Qed.
End Refinement.

(** ** Properties of the allocator *)

(** A 16-page RAM for the concrete runs. *)
Definition demo_lo : Z := 0x80300000.
Definition demo_hi : Z := 0x80310000.
Definition demo_heap : heap := mkHeap (initial_regions demo_lo demo_hi) (fun _ => 7).

Lemma demo_heap_ok : regions_ok demo_lo demo_hi (h_regions demo_heap).
Proof.
  apply initial_regions_ok; try reflexivity;
    [vm_compute; congruence|by exists 0x80300|by exists 0x80310].
Qed.

(** C16: a successful [alloc_pages] keeps the partition of the RAM, returns a
    handle that was not live, and makes it own a page-aligned range of
    [num_pages] pages ([size], a 32-bit product: for less than 2^20 pages) inside
    the RAM that meets no live range; every byte of the range is zero and no byte
    outside it has changed. *)
Theorem alloc_pages_correct lo hi h n i p h' :
  0 < lo -> hi < 2 ^ 32 -> regions_ok lo hi (h_regions h) ->
  alloc_pages h n = Ret (i, p, h') ->
  let size := u32 (n * PAGE_SIZE) in
  regions_ok lo hi (h_regions h') /\
  allocated (h_regions h) !! i = None /\
  allocated (h_regions h') = <[i := (p, size)]> (allocated (h_regions h)) /\
  lo <= p /\ p + size <= hi /\ (PAGE_SIZE | p) /\
  (forall j r, allocated (h_regions h) !! j = Some r -> 0 < r.2 -> 0 < size ->
    range_disjoint (p, size) r) /\
  (forall a, p <= a < p + size -> load8 (h_mem h') a = 0) /\
  (forall a, a < p \/ p + size <= a -> load8 (h_mem h') a = load8 (h_mem h) a).
Proof.
  intros Hlo Hhi Hok Ha size.
  destruct (alloc_pages_heap lo hi Hlo Hhi _ _ _ _ _ Hok Ha) as (? & ? & ? & Hm).
  destruct (alloc_pages_fresh lo hi Hlo Hhi _ _ _ _ _ Hok Ha) as (? & ? & ? & ?).
  split_and!; try done; intros a Hr; rewrite Hm.
  - by apply load8_memset_in.
  - by apply load8_memset_out.
Qed.

Lemma alloc_pages_correct_witness :
  exists h', alloc_pages demo_heap 2 = Ret (1, demo_lo, h') /\
    allocated (h_regions h') = <[1 := (demo_lo, 8192)]> ∅ /\
    load8 (h_mem h') demo_lo = 0 /\ load8 (h_mem h') (demo_lo + 8192) = 7.
Proof.
  eexists. split; [reflexivity|].
  match goal with |- allocated (h_regions ?h') = _ /\ _ =>
    pose proof (alloc_pages_correct demo_lo demo_hi demo_heap 2 1 demo_lo h'
      ltac:(reflexivity) ltac:(reflexivity) demo_heap_ok ltac:(reflexivity))
      as (_ & _ & Hown & _ & _ & _ & _ & Hz & Ho) end.
  split; [rewrite Hown; unfold demo_heap; cbn [h_regions];
          rewrite initial_regions_allocated; reflexivity|].
  split; [apply Hz; split; vm_compute; congruence|].
  rewrite Ho; [reflexivity|right; vm_compute; congruence].
Defined.

(** C17: [alloc_pages] answers every request: it succeeds when some free
    region holds the requested bytes and the table has an unused slot, and it
    panics with "out of memory" in every other case (it never returns the -1
    that [allocator.h] announces).  The bytes are the 32-bit product of
    [num_pages] and the page size: [num_pages] pages below 2^20 pages, fewer from
    there on, so that a request of 2^20 pages succeeds wherever there is a free
    region at all and gets none. *)
Theorem alloc_pages_outcome lo hi h n :
  regions_ok lo hi (h_regions h) ->
  let size := u32 (n * PAGE_SIZE) in
  let room := (exists i r, h_regions h !! i = Some r /\ r_state r = REGION_FREE /\
                 size <= r_size r) /\
              (exists i r, h_regions h !! i = Some r /\ r_state r = REGION_UNUSED) in
  (room -> exists i p h', alloc_pages h n = Ret (i, p, h')) /\
  (~ room -> alloc_pages h n = Panic "out of memory") /\
  (0 <= n < 2 ^ 20 -> size = n * PAGE_SIZE) /\ (n = 2 ^ 20 -> size = 0).
Proof.
  intros Hok size room.
  assert (Hs : (0 <= n < 2 ^ 20 -> size = n * PAGE_SIZE) /\ (n = 2 ^ 20 -> size = 0)).
  { unfold size, PAGE_SIZE. split; [intros; apply u32_id; lia|by intros ->]. }
  refine ((fun H => conj (proj1 H) (conj (proj2 H) Hs)) _). clear Hs.
  destruct (find_suitable_free_region (h_regions h) size) as [f|] eqn:Hf;
    [destruct (find_unused_region_slot (h_regions h)) as [k|] eqn:Hk|].
  - destruct (alloc_pages_found lo hi h n f k Hok Hf Hk) as (p & h' & Ha & _).
    destruct (find_free_spec _ _ _ Hf) as (rf & ? & ? & ?).
    destruct (find_unused_spec _ _ Hk) as (rk & ? & ?).
    split; [by eauto|]. intros []. split; eauto.
  - split.
    + intros [_ (i & r & Hi & Hs)]. pose proof (proj1 (find_slot_None _ _) Hk i r Hi) as E.
      by rewrite (proj2 (is_state_true _ _) Hs) in E.
    + intros _. unfold alloc_pages, alloc_region. fold size. by rewrite Hf, Hk.
  - split.
    + intros [(i & r & Hi & Hs & Hn) _]. pose proof (proj1 (find_slot_None _ _) Hf i r Hi) as E.
      cbn beta in E. rewrite (proj2 (is_state_true _ _) Hs) in E. simpl in E. lia.
    + intros _. unfold alloc_pages, alloc_region. fold size. by rewrite Hf.
Qed.

Lemma alloc_pages_outcome_witness :
  (exists i p h', alloc_pages demo_heap 16 = Ret (i, p, h')) /\
  alloc_pages demo_heap 17 = Panic "out of memory".
Proof.
  split.
  - apply (proj1 (alloc_pages_outcome demo_lo demo_hi demo_heap 16 demo_heap_ok)).
    split; [exists 0%nat|exists 1%nat]; eexists; (split; [reflexivity|]);
      [split; [reflexivity|vm_compute; congruence]|reflexivity].
  - apply (proj1 (proj2 (alloc_pages_outcome demo_lo demo_hi demo_heap 17 demo_heap_ok))).
    intros [(i & r & [[-> ->]| ->]%initial_regions_lookup & Hs & Hn) _];
      [vm_compute in Hn; congruence|done].
Defined.

(** C18: [release_pages] of a live handle returns, keeps the partition, takes
    exactly that handle out of the pool, leaves memory alone, and every byte
    of its range lies in a free region afterwards; for any other index it
    panics. *)
Theorem release_pages_correct lo hi h i :
  0 < lo -> hi < 2 ^ 32 -> regions_ok lo hi (h_regions h) ->
  match allocated (h_regions h) !! i with
  | Some (s, n) =>
      exists h', release_pages h i = Ret h' /\ regions_ok lo hi (h_regions h') /\
        allocated (h_regions h') = delete i (allocated (h_regions h)) /\
        h_mem h' = h_mem h /\
        (forall a, s <= a < s + n -> exists k r, h_regions h' !! k = Some r /\
          r_state r = REGION_FREE /\ contains r a)
  | None => exists msg, release_pages h i = Panic msg
  end.
Proof.
  intros Hlo Hhi Hok. destruct (allocated (h_regions h) !! i) as [[s n]|] eqn:Hi.
  2: { apply release_pages_panics; [by eapply ro_length|done]. }
  destruct (release_pages_heap lo hi Hlo Hhi h i _ Hok Hi)
    as (h' & Hr & Hok' & Hown & Hm).
  exists h'. split_and!; try done. intros a Ha.
  pose proof (allocated_range lo hi _ _ _ _ Hok Hi) as (? & ? & ? & _).
  destruct (ro_cover lo hi _ Hok' a) as (k & r & Hk & Hc); [lia|].
  exists k, r. split; [done|]. split; [|done]. destruct Hc as [Hlive Hc].
  destruct (r_state r) eqn:Hs; [done|done|]. exfalso.
  assert (Hak : allocated (h_regions h') !! Z.of_nat k = Some (r_start r, r_size r)).
  { rewrite allocated_lookup_nat, Hk. simpl. unfold alloc_range, is_state. by rewrite Hs. }
  rewrite Hown in Hak. apply lookup_delete_Some in Hak as [Hne Hak].
  destruct (allocated_disjoint lo hi _ _ _ _ _ Hok Hne Hi Hak); simpl in *; lia.
Qed.

Lemma release_pages_correct_witness :
  (exists p h1 h2, alloc_pages demo_heap 1 = Ret (1, p, h1) /\
    release_pages h1 1 = Ret h2 /\ allocated (h_regions h2) = ∅) /\
  (exists msg, release_pages demo_heap 5 = Panic msg).
Proof.
  split.
  - destruct (alloc_pages_found demo_lo demo_hi demo_heap 1 0 1 demo_heap_ok
      eq_refl eq_refl) as (p & h1 & Ha & Hr).
    destruct (alloc_pages_heap demo_lo demo_hi eq_refl eq_refl _ _ _ _ _ demo_heap_ok Ha)
      as (Hok1 & _ & Hown & _).
    pose proof (release_pages_correct demo_lo demo_hi h1 1 eq_refl eq_refl Hok1) as H.
    rewrite Hown, lookup_insert_eq in H.
    destruct H as (h2 & Hrel & _ & Hown2 & _).
    exists p, h1, h2. split; [done|]. split; [done|]. rewrite Hown2, delete_insert_eq.
    unfold demo_heap. cbn [h_regions]. by rewrite initial_regions_allocated.
  - apply (release_pages_correct demo_lo demo_hi demo_heap 5
      ltac:(reflexivity) ltac:(reflexivity) demo_heap_ok).
Defined.

(** C19: refinement: every run of requests that the allocator completes from
    a table that partitions the RAM is a run of the pool of disjoint page
    ranges, and the partition still holds at its end. *)
Theorem allocator_refines_pool lo hi h ops evs h' :
  0 < lo -> hi < 2 ^ 32 -> regions_ok lo hi (h_regions h) ->
  heap_run h ops = Ret (evs, h') ->
  pool_steps lo hi (allocated (h_regions h)) evs (allocated (h_regions h')) /\
  regions_ok lo hi (h_regions h').
Proof.
  intros Hlo Hhi. revert h evs. induction ops as [|op ops IH]; intros h evs Hok H; simpl in H.
  { outcome_inv. split; [constructor|done]. }
  destruct (heap_step h op) as [[ev h1]|msg|] eqn:Hs; simpl in H; [|done|done].
  destruct (heap_run h1 ops) as [[evs' h2]|msg|] eqn:Hr; simpl in H; [|done|done].
  outcome_inv.
  destruct (heap_step_refines lo hi Hlo Hhi _ _ _ _ Hok Hs) as [Hok1 Hstep].
  destruct (IH h1 evs' Hok1 Hr) as [Hsteps Hok2]. split; [|done]. by econstructor.
Qed.

Lemma allocator_refines_pool_witness :
  exists h', heap_run demo_heap [OpAlloc 1; OpAlloc 2; OpRelease 1] =
      Ret ([EvAlloc 1 demo_lo 4096; EvAlloc 2 (demo_lo + 4096) 8192; EvRelease 1], h') /\
    pool_steps demo_lo demo_hi ∅
      [EvAlloc 1 demo_lo 4096; EvAlloc 2 (demo_lo + 4096) 8192; EvRelease 1]
      (allocated (h_regions h')).
Proof.
  eexists. split; [reflexivity|].
  rewrite <-(initial_regions_allocated demo_lo demo_hi).
  apply (allocator_refines_pool demo_lo demo_hi demo_heap
    [OpAlloc 1; OpAlloc 2; OpRelease 1] _ _ eq_refl eq_refl demo_heap_ok). reflexivity.
Defined.

(** C29: one call of [merge_free_regions] makes the number of free regions
    smaller whenever two free regions touch, and changes nothing otherwise,
    so that repeated calls reach a fully coalesced table. *)
Theorem merge_free_regions_coalesces lo hi rs :
  0 < lo -> hi < 2 ^ 32 -> regions_ok lo hi rs ->
  ((exists i j, adjacent_free rs i j) ->
     (free_slots (merge_free_regions rs) < free_slots rs)%nat) /\
  (merge_free_regions rs = rs <-> forall i j, ~ adjacent_free rs i j).
Proof.
  intros Hlo Hhi Hok.
  destruct (merge_free_regions_progress lo hi Hlo Hhi rs Hok) as [[E Hno]|Hlt].
  - split; [|done]. intros (i & j & Ha). by destruct (Hno i j).
  - split; [done|]. split; [intros E; rewrite E in Hlt; lia|].
    by apply (merge_free_regions_id lo hi Hlo Hhi).
Qed.

Lemma merge_free_regions_coalesces_witness :
  merge_free_regions (h_regions demo_heap) = h_regions demo_heap <->
  (forall i j, ~ adjacent_free (h_regions demo_heap) i j).
Proof.
  apply (merge_free_regions_coalesces demo_lo demo_hi _ eq_refl eq_refl demo_heap_ok).
Defined.

(** The region table a run ends with. *)
Definition table_after (ops : list heap_op) : outcome (list region) :=
  '(_, h) ← heap_run demo_heap ops; Ret (h_regions h).

(** The single pass of [merge_free_regions] does not always coalesce: give
    back two neighbouring pages, the lower one first, and the table ends with
    two free regions that touch.  All 16 pages of the RAM are free, yet a
    request for 16 pages panics, whereas it succeeds when the same two pages
    come back in the other order. *)
Theorem merge_order_dependent :
  (exists rs, table_after [OpAlloc 1; OpAlloc 1; OpRelease 1; OpRelease 2] = Ret rs /\
    allocated rs = ∅ /\ adjacent_free rs 1 0 /\
    forall m, alloc_pages (mkHeap rs m) 16 = Panic "out of memory") /\
  (exists rs, table_after [OpAlloc 1; OpAlloc 1; OpRelease 2; OpRelease 1] = Ret rs /\
    allocated rs = ∅ /\ forall m, is_Ret (alloc_pages (mkHeap rs m) 16)).
Proof.
  split; eexists; (split; [vm_compute; reflexivity|]);
    (split; [vm_compute; reflexivity|]).
  - split; [|reflexivity]. split; [done|].
    eexists _, _. repeat (split; [reflexivity|]). reflexivity.
  - intros m. eexists. reflexivity.
Qed.
