(* ===== verification/PageTable.v ===== *)
(** Processes and Sv32 page tables ([include/process.h], [map_page] and
    [unmap_page] of [kernel/process.c]).

    [struct process] is the record [process].  Page tables live in physical
    memory, in pages taken from the allocator; the routines below read and
    write their entries as the code does, through the identity mapping of
    the kernel.  [sv32_walk] is the translation the RISC-V privileged
    architecture prescribes for Sv32; it is the reference the theorems
    compare the code with.  [pt_wf] is the invariant of a page table. *)

From Stdlib Require Import ZArith Lia.
From S2P Require Import Prelude Memory PageHeap Allocator.
Open Scope Z_scope.

Definition PAGE_V : Z := Z.shiftl 1 0.
Definition PAGE_R : Z := Z.shiftl 1 1.
Definition PAGE_W : Z := Z.shiftl 1 2.
Definition PAGE_X : Z := Z.shiftl 1 3.
Definition PAGE_U : Z := Z.shiftl 1 4.

Definition PROCS_MAX : nat := 8.
Definition PROC_REGION_MAX : nat := 64.
Definition PROC_SHM_MAX : nat := 4.
Definition PROC_UNUSED : Z := 0.
Definition PROC_RUNNABLE : Z := 1.
Definition PROC_EXITED : Z := 2.
Definition USER_BASE : Z := 0x1000000.

Record shm_mapping : Type := mkMapping {
  m_used : Z;
  m_shm_id : Z;
  m_vaddr : Z;
}.

Definition no_mapping : shm_mapping := mkMapping 0 0 0.

#[export] Instance shm_mapping_inhabited : Inhabited shm_mapping := populate no_mapping.

(** [struct process]; the kernel stack is its array of 32-bit words. *)
Record process : Type := mkProcess {
  pid : Z;
  p_state : Z;
  p_sp : Z;
  page_table : Z;
  p_regions : list Z;
  current_idx : Z;
  shm_mappings : list shm_mapping;
  p_stack : list Z;
}.

#[export] Instance process_inhabited : Inhabited process :=
  populate (mkProcess 0 0 0 0 [] 0 [] []).

Definition is_aligned (value align : Z) : bool := value mod align =? 0.

(** [proc->regions[(proc->current_idx)++] = region_idx]; the code does not
    check the index against [PROC_REGION_MAX]. *)
Definition push_region (proc : process) (region_idx : Z) : outcome process :=
  _ ← defined_if (current_idx proc <? Z.of_nat PROC_REGION_MAX);
  Ret (mkProcess (pid proc) (p_state proc) (p_sp proc) (page_table proc)
    (<[Z.to_nat (current_idx proc) := region_idx]> (p_regions proc))
    (u32 (current_idx proc + 1)) (shm_mappings proc) (p_stack proc)).

Definition vpn1_of (vaddr : Z) : Z := Z.land (Z.shiftr vaddr 22) 0x3ff.
Definition vpn0_of (vaddr : Z) : Z := Z.land (Z.shiftr vaddr 12) 0x3ff.

(** [(uint32_t * ) ((pte >> 10) * PAGE_SIZE)] *)
Definition table_of_pte (pte : Z) : Z := u32 (Z.shiftr pte 10 * PAGE_SIZE).

(** [((paddr / PAGE_SIZE) << 10) | flags] *)
Definition make_pte (paddr flags : Z) : Z :=
  Z.lor (u32 (Z.shiftl (paddr / PAGE_SIZE) 10)) flags.

Section Code.
Context {H : Type} `{!PageHeap H}.

(** The second-level table of [vaddr], created when it is missing. *)
Definition ensure_table (h : H) (proc : process) (vaddr : Z) : outcome (H * process) :=
  let table1 := page_table proc in
  let entry := table1 + 4 * vpn1_of vaddr in
  if Z.land (load32 (ph_mem h) entry) PAGE_V =? 0 then
    '(region_idx, pt_paddr, h) ← ph_alloc h 1;
    proc ← push_region proc region_idx;
    Ret (ph_set_mem h (store32 (ph_mem h) entry (make_pte pt_paddr PAGE_V)), proc)
  else Ret (h, proc).

Definition map_page (h : H) (proc : process) (vaddr paddr flags : Z)
    : outcome (H * process) :=
  _ ← require (is_aligned vaddr PAGE_SIZE) "unaligned vaddr";
  _ ← require (is_aligned paddr PAGE_SIZE) "unaligned paddr";
  '(h, proc) ← ensure_table h proc vaddr;
  let table0 := table_of_pte (load32 (ph_mem h) (page_table proc + 4 * vpn1_of vaddr)) in
  Ret (ph_set_mem h (store32 (ph_mem h) (table0 + 4 * vpn0_of vaddr)
                       (Z.lor (make_pte paddr flags) PAGE_V)), proc).

Definition unmap_page (h : H) (proc : process) (vaddr : Z) : outcome H :=
  _ ← require (is_aligned vaddr PAGE_SIZE) "unaligned vaddr";
  let pte1 := load32 (ph_mem h) (page_table proc + 4 * vpn1_of vaddr) in
  if Z.land pte1 PAGE_V =? 0 then Ret h
  else Ret (ph_set_mem h
              (store32 (ph_mem h) (table_of_pte pte1 + 4 * vpn0_of vaddr) 0)).
End Code.

(** ** The Sv32 page walk *)

Definition pte_flag (pte flag : Z) : bool := negb (Z.land pte flag =? 0).

(** Valid, and not the reserved combination "writable but not readable". *)
Definition pte_usable (pte : Z) : bool :=
  pte_flag pte PAGE_V && (pte_flag pte PAGE_R || negb (pte_flag pte PAGE_W)).
Definition pte_leaf (pte : Z) : bool := pte_flag pte PAGE_R || pte_flag pte PAGE_X.

(** Physical address and the ten low bits of the leaf entry for [va]. *)
Definition sv32_walk (m : mem) (root va : Z) : option (Z * Z) :=
  let pte1 := load32 m (root + 4 * vpn1_of va) in
  if negb (pte_usable pte1) then None
  else if pte_leaf pte1 then
    (* 4 MiB superpage *)
    if Z.shiftr pte1 10 mod 1024 =? 0
    then Some (Z.shiftr pte1 10 * PAGE_SIZE + va mod 2 ^ 22, pte1 mod 1024) else None
  else
    let pte0 := load32 m (Z.shiftr pte1 10 * PAGE_SIZE + 4 * vpn0_of va) in
    if pte_usable pte0 && pte_leaf pte0
    then Some (Z.shiftr pte0 10 * PAGE_SIZE + va mod PAGE_SIZE, pte0 mod 1024)
    else None.

#[export] Instance sv32_walk_proper :
  Proper ((≡@{mem}) ==> (=) ==> (=) ==> (=)) sv32_walk.
Proof. intros m1 m2 E r ? <- v ? <-. unfold sv32_walk. by rewrite !E. Qed.

(** ** Page table invariant *)

(** A page of the 32-bit physical address space. *)
Definition phys_page (p : Z) : Prop := (PAGE_SIZE | p) /\ 0 <= p < 2 ^ 32.

(** Entry [i] of the root table points to the second-level table [t]. *)
Definition points_to (m : mem) (root i t : Z) : Prop :=
  0 <= i < 1024 /\ phys_page t /\ load32 m (root + 4 * i) = make_pte t PAGE_V.

Record pt_wf (own : gmap Z (Z * Z)) (m : mem) (root : Z) : Prop := {
  pt_root : owns_page own root;
  pt_entries : forall i, 0 <= i < 1024 ->
    Z.land (load32 m (root + 4 * i)) PAGE_V = 0 \/
    exists t, points_to m root i t /\ owns_page own t /\ t <> root;
  pt_distinct : forall i j t, points_to m root i t -> points_to m root j t -> i = j;
}.

(** The pages a page table occupies. *)
Definition pt_page (m : mem) (root q : Z) : Prop :=
  q = root \/ exists i, points_to m root i q.

(** ** Entries *)

Lemma vpn1_range va : 0 <= vpn1_of va < 1024.
Proof. unfold vpn1_of. rewrite land_0x3ff. apply Z.mod_pos_bound. lia. Qed.
Lemma vpn0_range va : 0 <= vpn0_of va < 1024.
Proof. unfold vpn0_of. rewrite land_0x3ff. apply Z.mod_pos_bound. lia. Qed.
#[export] Hint Resolve vpn1_range vpn0_range : mint.

(** The two indices determine the virtual page. *)
Lemma vpn_inj va vb :
  0 <= va < 2 ^ 32 -> 0 <= vb < 2 ^ 32 ->
  vpn1_of va = vpn1_of vb -> vpn0_of va = vpn0_of vb -> va / PAGE_SIZE = vb / PAGE_SIZE.
Proof.
  unfold vpn1_of, vpn0_of, PAGE_SIZE. intros Ha Hb.
  rewrite !land_0x3ff, !Z.shiftr_div_pow2 by lia.
  Z.to_euclidean_division_equations. lia.
Qed.

Lemma is_aligned_true a n : 0 < n -> is_aligned a n = true <-> (n | a).
Proof.
  intros Hn. unfold is_aligned. rewrite Z.eqb_eq, <-Z.mod_divide by lia. done.
Qed.

Lemma page_mod p : (PAGE_SIZE | p) -> p mod PAGE_SIZE = 0.
Proof. intros. by apply Z.mod_divide. Qed.

Lemma page_div_mul p : (PAGE_SIZE | p) -> p / PAGE_SIZE * PAGE_SIZE = p.
Proof. intros [k ->]. by rewrite Z.div_mul. Qed.

Section MakePte.
Context (p fl : Z) (Hp : phys_page p) (Hfl : 0 <= fl < 1024).

Lemma make_pte_sum : make_pte p fl = p / PAGE_SIZE * 1024 + fl.
Proof.
  destruct Hp as [Ha Hr]. unfold make_pte. rewrite u32_id.
  - apply (lor_add_low 10); lia.
  - rewrite Z.shiftl_mul_pow2 by lia. unfold PAGE_SIZE.
    Z.to_euclidean_division_equations. lia.
Qed.

Lemma make_pte_range : 0 <= make_pte p fl < 2 ^ 32.
Proof.
  rewrite make_pte_sum. destruct Hp as [_ Hr]. unfold PAGE_SIZE.
  Z.to_euclidean_division_equations. lia.
Qed.

Lemma make_pte_ppn : Z.shiftr (make_pte p fl) 10 = p / PAGE_SIZE.
Proof.
  rewrite make_pte_sum, Z.shiftr_div_pow2 by lia.
  change (2 ^ 10) with 1024. rewrite Z.div_add_l, (Z.div_small fl) by lia. lia.
Qed.

Lemma make_pte_table : table_of_pte (make_pte p fl) = p.
Proof.
  unfold table_of_pte. rewrite make_pte_ppn, page_div_mul by apply Hp.
  apply u32_id, Hp.
Qed.

Lemma make_pte_low : make_pte p fl mod 1024 = fl.
Proof.
  rewrite make_pte_sum, Z.add_comm, Z.mod_add by lia. by apply Z.mod_small.
Qed.

Lemma make_pte_flag fg : 0 <= fg < 1024 -> Z.land (make_pte p fl) fg = Z.land fl fg.
Proof.
  intros Hfg. destruct Hp as [_ Hr]. unfold make_pte. rewrite u32_id.
  - by rewrite Z.land_lor_distr_l, (shifted_land_0 10), Z.lor_0_l by lia.
  - rewrite Z.shiftl_mul_pow2 by lia. unfold PAGE_SIZE.
    Z.to_euclidean_division_equations. lia.
Qed.
End MakePte.

Lemma make_pte_inj p q fl :
  phys_page p -> phys_page q -> 0 <= fl < 1024 -> make_pte p fl = make_pte q fl -> p = q.
Proof.
  intros Hp Hq Hfl E. rewrite <-(make_pte_table p fl), <-(make_pte_table q fl) by done.
  by rewrite E.
Qed.

(** Flag bits a leaf entry may carry: at least readable. *)
Definition leaf_flags (fl : Z) : Prop := 0 <= fl < 1024 /\ Z.land fl PAGE_R <> 0.

Lemma lor_range_1024 a b : 0 <= a < 1024 -> 0 <= b < 1024 -> 0 <= Z.lor a b < 1024.
Proof.
  intros Ha Hb. split; [apply Z.lor_nonneg; lia|].
  destruct (decide (Z.lor a b = 0)) as [->|Hne]; [lia|].
  assert (0 <= Z.lor a b) by (apply Z.lor_nonneg; lia).
  apply Z.log2_lt_cancel. rewrite Z.log2_lor by lia. change (Z.log2 1024) with 10.
  destruct (decide (a = 0)) as [->|]; [|destruct (decide (b = 0)) as [->|]].
  - rewrite Z.max_r by (simpl; apply Z.log2_nonneg).
    destruct (decide (b = 0)) as [->|]; [done|]. apply Z.log2_lt_pow2; lia.
  - rewrite Z.max_l by (simpl; apply Z.log2_nonneg). apply Z.log2_lt_pow2; lia.
  - apply Z.max_lub_lt; apply Z.log2_lt_pow2; lia.
Qed.

(** The leaf entry [map_page] writes. *)
Lemma leaf_pte_eq p fl :
  Z.lor (make_pte p fl) PAGE_V = make_pte p (Z.lor fl PAGE_V).
Proof. unfold make_pte. by rewrite Z.lor_assoc. Qed.

Lemma leaf_flags_V fl : leaf_flags fl ->
  0 <= Z.lor fl PAGE_V < 1024 /\
  forall p, phys_page p ->
    pte_usable (make_pte p (Z.lor fl PAGE_V)) && pte_leaf (make_pte p (Z.lor fl PAGE_V)) = true.
Proof.
  intros [Hfl HR]. assert (Hr : 0 <= Z.lor fl PAGE_V < 1024) by (apply lor_range_1024; done || lia).
  split; [done|]. intros p Hp. unfold pte_usable, pte_leaf, pte_flag.
  rewrite !make_pte_flag by done. rewrite !Z.land_lor_distr_l.
  change (Z.land PAGE_V PAGE_V) with 1. change (Z.land PAGE_V PAGE_R) with 0.
  rewrite Z.lor_0_r. destruct (Z.eqb_spec (Z.land fl PAGE_R) 0); [done|].
  destruct (Z.eqb_spec (Z.lor (Z.land fl PAGE_V) 1) 0) as [E|]; [|done].
  apply Z.lor_eq_0_iff in E as [_ ?]. done.
Qed.

(** ** Correctness of [map_page] and [unmap_page] against any allocator *)

Definition apart (p q : Z) : Prop := p + PAGE_SIZE <= q \/ q + PAGE_SIZE <= p.

(** Two table slots are the same word or disjoint words. *)
Lemma load32_store32_slot m p i q j v :
  0 <= i < 1024 -> 0 <= j < 1024 -> apart p q \/ (p = q /\ i <> j) ->
  load32 (store32 m (p + 4 * i) v) (q + 4 * j) = load32 m (q + 4 * j).
Proof. unfold apart, PAGE_SIZE. intros. apply load32_store32_other. lia. Qed.

Lemma load32_memset_slot m t q j c :
  0 <= j < 1024 -> apart t q ->
  load32 (memset m t c PAGE_SIZE) (q + 4 * j) = load32 m (q + 4 * j).
Proof. unfold apart, PAGE_SIZE. intros. apply load32_memset_out. lia. Qed.

Lemma walk_invalid m root va :
  Z.land (load32 m (root + 4 * vpn1_of va)) PAGE_V = 0 -> sv32_walk m root va = None.
Proof. intros E. unfold sv32_walk, pte_usable, pte_flag. by rewrite E. Qed.

Definition walk_leaf (m : mem) (t va : Z) : option (Z * Z) :=
  let pte0 := load32 m (t + 4 * vpn0_of va) in
  if pte_usable pte0 && pte_leaf pte0
  then Some (Z.shiftr pte0 10 * PAGE_SIZE + va mod PAGE_SIZE, pte0 mod 1024)
  else None.

Lemma walk_points_to m root va t :
  points_to m root (vpn1_of va) t -> sv32_walk m root va = walk_leaf m t va.
Proof.
  intros (_ & Ht & E). unfold sv32_walk, walk_leaf. rewrite E.
  unfold pte_usable at 1, pte_leaf at 1, pte_flag.
  rewrite !make_pte_flag by done.
  change (Z.land PAGE_V PAGE_V) with 1. change (Z.land PAGE_V PAGE_R) with 0.
  change (Z.land PAGE_V PAGE_W) with 0. change (Z.land PAGE_V PAGE_X) with 0.
  simpl. by rewrite make_pte_ppn, page_div_mul by (done || apply Ht).
Qed.

Lemma points_to_fun m root i t t' :
  points_to m root i t -> points_to m root i t' -> t = t'.
Proof.
  intros (_ & Ht & E) (_ & Ht' & E'). apply (make_pte_inj t t' PAGE_V); try done.
  congruence.
Qed.

Lemma points_to_valid m root i t :
  points_to m root i t -> Z.land (load32 m (root + 4 * i)) PAGE_V <> 0.
Proof. intros (_ & Ht & E). by rewrite E, make_pte_flag. Qed.

(** What the page-table code may change in the allocator and the process:
    fresh pages become owned, each recorded in [regions]. *)
Inductive grows : gmap Z (Z * Z) -> process -> gmap Z (Z * Z) -> process -> Prop :=
  | grows_refl own proc : grows own proc own proc
  | grows_page own proc i q proc1 own' proc' :
      own !! i = None -> push_region proc i = Ret proc1 ->
      grows (<[i := (q, PAGE_SIZE)]> own) proc1 own' proc' ->
      grows own proc own' proc'.

Lemma grows_trans o1 p1 o2 p2 o3 p3 :
  grows o1 p1 o2 p2 -> grows o2 p2 o3 p3 -> grows o1 p1 o3 p3.
Proof. induction 1; [done|]. intros. econstructor; eauto. Qed.

Lemma push_region_fields proc i proc' :
  push_region proc i = Ret proc' ->
  pid proc' = pid proc /\ p_state proc' = p_state proc /\ p_sp proc' = p_sp proc /\
  page_table proc' = page_table proc /\ shm_mappings proc' = shm_mappings proc /\
  p_stack proc' = p_stack proc.
Proof. unfold push_region. intros. outcome_inv. done. Qed.

(** The fields [map_page] leaves alone. *)
Definition same_fields (proc proc' : process) : Prop :=
  pid proc' = pid proc /\ p_state proc' = p_state proc /\ p_sp proc' = p_sp proc /\
  page_table proc' = page_table proc /\ shm_mappings proc' = shm_mappings proc /\
  p_stack proc' = p_stack proc.

Lemma grows_fields own proc own' proc' :
  grows own proc own' proc' -> same_fields proc proc'.
Proof.
  induction 1 as [|???????? Hp%push_region_fields ? IH]; [by split_and!|].
  unfold same_fields in *. destruct Hp as (?&?&?&?&?&?), IH as (?&?&?&?&?&?).
  split_and!; congruence.
Qed.

Lemma grows_page_table own proc own' proc' :
  grows own proc own' proc' -> page_table proc' = page_table proc.
Proof. by intros (?&?&?&?&?&?)%grows_fields. Qed.

Lemma grows_owned own proc own' proc' i r :
  grows own proc own' proc' -> own !! i = Some r -> own' !! i = Some r.
Proof.
  induction 1 as [|own proc j q proc1 own' proc' Hj Hp Hg IH]; [done|].
  intros Hi. apply IH. by rewrite lookup_insert_ne by congruence.
Qed.

Lemma grows_owns_page own proc own' proc' p :
  grows own proc own' proc' -> owns_page own p -> owns_page own' p.
Proof. intros Hg [i Hi]. exists i. by eapply grows_owned. Qed.

Section Correctness.
Context {H : Type} `{!PageHeap H} (lo hi : Z) `{!PageHeapSpec H lo hi}.
Implicit Types (h : H) (proc : process).

Lemma owned_phys_page h p :
  ph_ok h -> owns_page (ph_owned h) p -> phys_page p /\ lo <= p /\ p + PAGE_SIZE <= hi.
Proof.
  intros Hok [i Hi]. pose proof (ph_owned_range _ _ _ _ Hok Hi) as (? & ? & ? & ? & _).
  pose proof ph_lo_hi. unfold phys_page, PAGE_SIZE in *. split_and!; try done; lia.
Qed.

Lemma owned_apart h i j p q :
  ph_ok h -> ph_owned h !! i = Some (p, PAGE_SIZE) ->
  ph_owned h !! j = Some (q, PAGE_SIZE) -> i <> j -> apart p q.
Proof. intros Hok Hi Hj Hne. by apply (ph_owned_disjoint h i j (p, PAGE_SIZE) (q, PAGE_SIZE)). Qed.

Lemma owned_page_apart h p q :
  ph_ok h -> owns_page (ph_owned h) p -> owns_page (ph_owned h) q -> p <> q -> apart p q.
Proof.
  intros Hok [i Hi] [j Hj] Hne. eapply owned_apart; [done|done|done|].
  intros ->. congruence.
Qed.

(** A page allocated for one page request. *)
Lemma alloc_page_spec h i p h' :
  ph_ok h -> ph_alloc h 1 = Ret (i, p, h') ->
  ph_ok h' /\ ph_owned h !! i = None /\
  ph_owned h' = <[i := (p, PAGE_SIZE)]> (ph_owned h) /\
  ph_mem h' = memset (ph_mem h) p 0 PAGE_SIZE /\
  phys_page p /\ lo <= p /\ p + PAGE_SIZE <= hi /\
  (forall q, owns_page (ph_owned h) q -> apart p q).
Proof.
  intros Hok Ha. destruct (ph_alloc_spec _ _ _ _ _ Hok Ha) as (Hok' & Hn & Ho & Hm).
  change (u32 (1 * PAGE_SIZE)) with PAGE_SIZE in *.
  assert (Hp : owns_page (ph_owned h') p) by (exists i; by rewrite Ho, lookup_insert_eq).
  pose proof (owned_phys_page h' p Hok' Hp) as (? & ? & ?).
  split_and!; [assumption..|]. intros q [j Hj].
  assert (Hne : i <> j) by congruence.
  apply (owned_apart h' i j); [exact Hok'| | |exact Hne]; rewrite Ho.
  - apply lookup_insert_eq.
  - by rewrite lookup_insert_ne.
Qed.

Section Wf.
Context h proc (Hok : ph_ok h)
  (Hwf : pt_wf (ph_owned h) (ph_mem h) (page_table proc)).
Local Abbreviation root := (page_table proc).
Local Abbreviation m := (ph_mem h).

Lemma table_owned i t :
  points_to m root i t -> owns_page (ph_owned h) t /\ t <> root.
Proof.
  intros Hi. destruct (pt_entries _ _ _ Hwf i (proj1 Hi)) as [E|(t' & Hi' & Ho & Hne)].
  - by apply points_to_valid in Hi.
  - by rewrite (points_to_fun _ _ _ _ _ Hi Hi').
Qed.

Lemma table_apart i t : points_to m root i t -> apart root t.
Proof.
  intros Hi. destruct (table_owned i t Hi) as [Ho Hne].
  apply (owned_page_apart h); [done|by apply Hwf|done|done].
Qed.

Lemma tables_apart i j t t' :
  points_to m root i t -> points_to m root j t' -> i <> j -> apart t t'.
Proof.
  intros Hi Hj Hij. destruct (table_owned i t Hi) as [Ho _].
  destruct (table_owned j t' Hj) as [Ho' _].
  apply (owned_page_apart h); [done|done|done|].
  intros <-. by destruct Hij; eapply pt_distinct.
Qed.

Lemma pt_page_owned q : pt_page m root q -> owns_page (ph_owned h) q.
Proof. intros [->|[i Hi]]; [apply Hwf|by eapply table_owned]. Qed.

Lemma entry_cases i :
  0 <= i < 1024 ->
  Z.land (load32 m (root + 4 * i)) PAGE_V = 0 \/ exists t, points_to m root i t.
Proof. intros Hi. destruct (pt_entries _ _ _ Hwf i Hi) as [?|(t & ? & _)]; eauto. Qed.
End Wf.

(** [h'], [proc'] extend [h], [proc]: the page table is still well formed,
    it only gained pages that nobody owned, and memory outside the page
    table is untouched. *)
Record extends h proc h' proc' : Prop := {
  ex_ok : ph_ok h';
  ex_grows : grows (ph_owned h) proc (ph_owned h') proc';
  ex_wf : pt_wf (ph_owned h') (ph_mem h') (page_table proc');
  ex_points : forall i t, points_to (ph_mem h) (page_table proc) i t ->
    points_to (ph_mem h') (page_table proc') i t;
  ex_new : forall q, pt_page (ph_mem h') (page_table proc') q ->
    pt_page (ph_mem h) (page_table proc) q \/ ~ owns_page (ph_owned h) q;
  ex_frame : forall x,
    (forall q, pt_page (ph_mem h') (page_table proc') q -> ~ q <= x < q + PAGE_SIZE) ->
    load8 (ph_mem h') x = load8 (ph_mem h) x;
}.

Lemma ex_pages h proc h' proc' q :
  extends h proc h' proc' -> pt_page (ph_mem h) (page_table proc) q ->
  pt_page (ph_mem h') (page_table proc') q.
Proof.
  intros Hex [->|[i Hi]].
  - left. symmetry. by eapply grows_page_table, Hex.
  - right. exists i. by apply (ex_points _ _ _ _ Hex).
Qed.

Lemma extends_trans h1 p1 h2 p2 h3 p3 :
  extends h1 p1 h2 p2 -> extends h2 p2 h3 p3 -> extends h1 p1 h3 p3.
Proof.
  intros E1 E2. pose proof E1 as [? G1 ? P1 N1 F1]. pose proof E2 as [? G2 ? P2 N2 F2].
  split; auto.
  - by eapply grows_trans.
  - intros q Hq. destruct (N2 q Hq) as [Hq2|Hq2]; [auto|right].
    intros Ho. by apply Hq2; eapply grows_owns_page.
  - intros x Hx. rewrite F2 by done. apply F1. intros q Hq. apply Hx.
    by eapply ex_pages.
Qed.

Section NewTable.
Context h proc (Hok : ph_ok h)
  (Hwf : pt_wf (ph_owned h) (ph_mem h) (page_table proc)).
Context (i t : Z) (Hi : 0 <= i < 1024) (Ht : phys_page t)
  (Hfresh : forall q, owns_page (ph_owned h) q -> apart t q)
  (Hinv : Z.land (load32 (ph_mem h) (page_table proc + 4 * i)) PAGE_V = 0).
Local Abbreviation root := (page_table proc).
Local Abbreviation m := (ph_mem h).
Local Abbreviation m' :=
  (store32 (memset m t 0 PAGE_SIZE) (root + 4 * i) (make_pte t PAGE_V)).

Lemma new_root_apart : apart t root.
Proof. apply Hfresh, Hwf. Qed.

Lemma new_table_entry j :
  0 <= j < 1024 ->
  load32 m' (root + 4 * j) =
  if decide (j = i) then make_pte t PAGE_V else load32 m (root + 4 * j).
Proof.
  intros Hj. case_decide as E.
  - subst. rewrite load32_store32_same. apply u32_id.
    apply (make_pte_range t PAGE_V Ht). done.
  - rewrite load32_store32_slot by auto. apply load32_memset_slot; [done|].
    apply new_root_apart.
Qed.

Lemma new_table_other q k :
  owns_page (ph_owned h) q -> q <> root -> 0 <= k < 1024 ->
  load32 m' (q + 4 * k) = load32 m (q + 4 * k).
Proof.
  intros Hq Hne Hk. rewrite load32_store32_slot; [|done|done|left].
  - apply load32_memset_slot; auto.
  - apply (owned_page_apart h); [done|by apply Hwf|done|done].
Qed.

Lemma new_table_zero k : 0 <= k < 1024 -> load32 m' (t + 4 * k) = 0.
Proof.
  intros Hk. rewrite load32_store32_slot; [|done|done|left].
  - apply load32_memset_zero; unfold PAGE_SIZE; lia.
  - destruct new_root_apart; [by right|by left].
Qed.

Lemma new_table_points j q :
  points_to m' root j q <->
  (j = i /\ q = t) \/ (j <> i /\ points_to m root j q).
Proof.
  unfold points_to. split.
  - intros (Hj & Hq & E). rewrite new_table_entry in E by done. case_decide; [left|by right].
    split; [done|]. symmetry. by apply (make_pte_inj t q PAGE_V).
  - intros [[-> ->]|(Hne & Hj & Hq & E)]; rewrite new_table_entry by done.
    + by rewrite decide_True.
    + by rewrite decide_False.
Qed.

Lemma new_table_walk va :
  sv32_walk m' root va = sv32_walk m root va.
Proof.
  destruct (decide (vpn1_of va = i)) as [E|Hne].
  - rewrite (walk_invalid m) by (by rewrite E).
    rewrite (walk_points_to m' _ _ t) by (rewrite new_table_points; by left).
    unfold walk_leaf. by rewrite new_table_zero by apply vpn0_range.
  - pose proof (new_table_entry _ (vpn1_range va)) as E. rewrite decide_False in E by done.
    destruct (entry_cases h proc Hwf _ (vpn1_range va)) as [Z|(q & Hq)].
    + rewrite (walk_invalid m) by done. by rewrite (walk_invalid m') by (by rewrite E).
    + rewrite (walk_points_to m _ _ q) by done.
      rewrite (walk_points_to m' _ _ q) by (rewrite new_table_points; by right).
      destruct (table_owned h proc Hwf _ q Hq). unfold walk_leaf.
      by rewrite new_table_other by first [done|apply vpn0_range].
Qed.

Lemma new_table_wf r :
  ph_owned h !! r = None ->
  pt_wf (<[r := (t, PAGE_SIZE)]> (ph_owned h)) m' root.
Proof.
  intros Hr.
  assert (Hmono : forall q, owns_page (ph_owned h) q ->
    owns_page (<[r := (t, PAGE_SIZE)]> (ph_owned h)) q).
  { intros q [k Hk]. exists k. by rewrite lookup_insert_ne by congruence. }
  split.
  - by apply Hmono, Hwf.
  - intros j Hj. rewrite new_table_entry by done. case_decide as Ej.
    + right. exists t. split; [rewrite new_table_points; by left|].
      split; [exists r; apply lookup_insert_eq|].
      pose proof new_root_apart as Ha. unfold apart, PAGE_SIZE in Ha. lia.
    + destruct (pt_entries _ _ _ Hwf j Hj) as [?|(q & ? & ? & ?)]; [by left|right].
      exists q. rewrite new_table_points. auto.
  - intros j k q. rewrite !new_table_points.
    assert (Hno : forall j, points_to m root j t -> False).
    { intros j' Hj'. destruct (table_owned h proc Hwf _ t Hj') as [Ho _].
      pose proof (Hfresh t Ho) as Ha. unfold apart, PAGE_SIZE in Ha. lia. }
    intros [[-> ->]|[? ?]] [[-> E]|[? ?]]; try done; subst; try by exfalso; eauto.
    by eapply pt_distinct.
Qed.
End NewTable.

Lemma extends_refl h proc :
  ph_ok h -> pt_wf (ph_owned h) (ph_mem h) (page_table proc) -> extends h proc h proc.
Proof. intros. split; auto. constructor. Qed.

Lemma pt_page_new_table h proc i t q m' :
  points_to m' (page_table proc) i t ->
  (forall j u, points_to m' (page_table proc) j u <->
    (j = i /\ u = t) \/ (j <> i /\ points_to (ph_mem h) (page_table proc) j u)) ->
  pt_page m' (page_table proc) q ->
  q = t \/ pt_page (ph_mem h) (page_table proc) q.
Proof.
  intros Ht Hp [->|[j Hj]]; [right; by left|].
  apply Hp in Hj as [[_ ->]|[_ Hj]]; [by left|right; right; by exists j].
Qed.

(** [ensure_table] returns with a table for [va]; no translation changes. *)
Lemma ensure_table_spec h proc va h' proc' :
  ph_ok h -> pt_wf (ph_owned h) (ph_mem h) (page_table proc) ->
  ensure_table h proc va = Ret (h', proc') ->
  extends h proc h' proc' /\
  (exists t, points_to (ph_mem h') (page_table proc') (vpn1_of va) t) /\
  (forall vb, sv32_walk (ph_mem h') (page_table proc') vb =
              sv32_walk (ph_mem h) (page_table proc) vb).
Proof.
  intros Hok Hwf He. unfold ensure_table in He.
  destruct (entry_cases h proc Hwf _ (vpn1_range va)) as [Hinv|[t Ht]].
  2: { destruct (Z.eqb_spec (Z.land (load32 (ph_mem h)
         (page_table proc + 4 * vpn1_of va)) PAGE_V) 0) as [E|_].
       { by apply points_to_valid in Ht. }
       outcome_inv. split; [by apply extends_refl|]. eauto. }
  rewrite Hinv in He. simpl in He.
  destruct (ph_alloc h 1) as [[[r t] h1]|msg|] eqn:Ha; [|done|done]. simpl in He.
  destruct (push_region proc r) as [proc1|msg|] eqn:Hp; simpl in He; [|done|done].
  outcome_inv.
  destruct (alloc_page_spec _ _ _ _ Hok Ha) as (Hok1 & Hr & Ho & Hm & Ht & _ & _ & Hfresh).
  pose proof (push_region_fields _ _ _ Hp) as (_ & _ & _ & Hroot & _ & _).
  rewrite Hroot, ph_mem_set_mem, Hm.
  pose proof (vpn1_range va) as Hi.
  pose proof (new_table_points h proc Hwf _ t Hi Ht Hfresh) as Hpts.
  pose proof (proj2 (Hpts _ _) (or_introl (conj eq_refl eq_refl))) as Hself.
  split; [|split].
  - split; rewrite ?ph_set_mem_owned, ?ph_mem_set_mem, ?Hroot, ?Hm, ?Ho.
    + by apply ph_set_mem_ok.
    + econstructor; [done|done|constructor].
    + by apply new_table_wf.
    + intros j q Hj. apply Hpts. right. split; [|exact Hj]. intros ->. exact (points_to_valid _ _ _ _ Hj Hinv).
    + intros q Hq.
      destruct (pt_page_new_table h proc (vpn1_of va) t q _ Hself Hpts Hq) as [->|Hold];
        [right|left; exact Hold].
      intros Hown. specialize (Hfresh t Hown). unfold apart, PAGE_SIZE in Hfresh. lia.
    + intros x Hx.
      assert (Hxr : ~ page_table proc <= x < page_table proc + PAGE_SIZE)
        by (apply Hx; by left).
      assert (Hxt : ~ t <= x < t + PAGE_SIZE)
        by (apply Hx; right; exists (vpn1_of va); exact Hself).
      unfold PAGE_SIZE in *.
      rewrite load8_store32_out, load8_memset_out by lia. done.
  - exists t. exact Hself.
  - intros vb. by apply new_table_walk.
Qed.

Section SetLeaf.
(** Writing slot [vpn0_of va] of the table of [va]. *)
Context h proc (Hok : ph_ok h)
  (Hwf : pt_wf (ph_owned h) (ph_mem h) (page_table proc)).
Context (va t v : Z) (Ht : points_to (ph_mem h) (page_table proc) (vpn1_of va) t).
Local Abbreviation root := (page_table proc).
Local Abbreviation m := (ph_mem h).
Local Abbreviation m' := (store32 m (t + 4 * vpn0_of va) v).

Lemma set_leaf_entry j : 0 <= j < 1024 -> load32 m' (root + 4 * j) = load32 m (root + 4 * j).
Proof.
  intros Hj. apply load32_store32_slot; [apply vpn0_range|done|left].
  destruct (table_apart h proc Hok Hwf _ t Ht); [by right|by left].
Qed.

Lemma set_leaf_points j q : points_to m' root j q <-> points_to m root j q.
Proof.
  unfold points_to. split; intros (Hj & ? & ?); rewrite set_leaf_entry in * by done; done.
Qed.

Lemma set_leaf_page q : pt_page m' root q <-> pt_page m root q.
Proof. unfold pt_page. by setoid_rewrite set_leaf_points. Qed.

Lemma set_leaf_wf : pt_wf (ph_owned h) m' root.
Proof.
  split.
  - apply Hwf.
  - intros j Hj. rewrite set_leaf_entry by done. setoid_rewrite set_leaf_points.
    by apply Hwf.
  - intros j k q. rewrite !set_leaf_points. apply Hwf.
Qed.

Lemma set_leaf_extends : extends h proc (ph_set_mem h m') proc.
Proof.
  split; rewrite ?ph_set_mem_owned, ?ph_mem_set_mem.
  - by apply ph_set_mem_ok.
  - constructor.
  - apply set_leaf_wf.
  - intros j q. by rewrite set_leaf_points.
  - intros q. rewrite set_leaf_page. by left.
  - intros x Hx. apply load8_store32_out.
    assert (~ t <= x < t + PAGE_SIZE).
    { apply Hx. rewrite set_leaf_page. right. by eexists. }
    pose proof (vpn0_range va). unfold PAGE_SIZE in *. lia.
Qed.

Lemma set_leaf_walk_same vb :
  vpn1_of vb = vpn1_of va -> vpn0_of vb = vpn0_of va ->
  sv32_walk m' root vb =
  if pte_usable (u32 v) && pte_leaf (u32 v)
  then Some (Z.shiftr (u32 v) 10 * PAGE_SIZE + vb mod PAGE_SIZE, u32 v mod 1024)
  else None.
Proof.
  intros E1 E0. rewrite (walk_points_to m' root vb t)
    by (rewrite set_leaf_points, E1; done).
  unfold walk_leaf. by rewrite E0, load32_store32_same.
Qed.

Lemma set_leaf_walk_other vb :
  ~ (vpn1_of vb = vpn1_of va /\ vpn0_of vb = vpn0_of va) ->
  sv32_walk m' root vb = sv32_walk m root vb.
Proof.
  intros Hne. destruct (entry_cases h proc Hwf _ (vpn1_range vb)) as [E|[q Hq]].
  - rewrite (walk_invalid m), (walk_invalid m');
      by rewrite ?set_leaf_entry by apply vpn1_range.
  - rewrite (walk_points_to m _ _ q Hq), (walk_points_to m' _ _ q)
      by (by rewrite set_leaf_points).
    unfold walk_leaf. rewrite load32_store32_slot; [done|apply vpn0_range..|].
    destruct (decide (vpn1_of vb = vpn1_of va)) as [E1|E1].
    + right. rewrite E1 in Hq. split; [by eapply points_to_fun|]. intros E0. by apply Hne.
    + left. by eapply (tables_apart h proc Hok Hwf).
Qed.
End SetLeaf.

Lemma vpn_same_page va vb :
  va / PAGE_SIZE = vb / PAGE_SIZE -> vpn1_of va = vpn1_of vb /\ vpn0_of va = vpn0_of vb.
Proof.
  unfold vpn1_of, vpn0_of, PAGE_SIZE. intros E.
  rewrite !land_0x3ff, !Z.shiftr_div_pow2 by lia.
  change (2 ^ 22) with (4096 * 1024). change (2 ^ 12) with 4096.
  rewrite <-!Z.div_div, E by lia. done.
Qed.

Lemma map_page_inv h proc va pa fl h' proc' :
  map_page h proc va pa fl = Ret (h', proc') ->
  (PAGE_SIZE | va) /\ (PAGE_SIZE | pa) /\
  exists h1, ensure_table h proc va = Ret (h1, proc') /\
    h' = ph_set_mem h1 (store32 (ph_mem h1)
           (table_of_pte (load32 (ph_mem h1) (page_table proc' + 4 * vpn1_of va))
            + 4 * vpn0_of va) (make_pte pa (Z.lor fl PAGE_V))).
Proof.
  intros Hm. unfold map_page in Hm. outcome_inv.
  destruct r1 as [h1 proc1]. simpl in Hm. outcome_inv. rewrite leaf_pte_eq.
  rewrite <-!is_aligned_true by done. eauto.
Qed.

Lemma points_to_table m root i t :
  points_to m root i t -> table_of_pte (load32 m (root + 4 * i)) = t.
Proof. intros (_ & Ht & ->). by apply make_pte_table. Qed.

(** The page [map_page] maps translates to its frame; every other page
    translates as before. *)
Lemma map_page_spec h proc va pa fl h' proc' :
  ph_ok h -> pt_wf (ph_owned h) (ph_mem h) (page_table proc) ->
  0 <= va < 2 ^ 32 -> 0 <= pa < 2 ^ 32 -> leaf_flags fl ->
  map_page h proc va pa fl = Ret (h', proc') ->
  extends h proc h' proc' /\
  (forall vb, 0 <= vb < 2 ^ 32 -> sv32_walk (ph_mem h') (page_table proc') vb =
     if vb / PAGE_SIZE =? va / PAGE_SIZE
     then Some (pa + vb mod PAGE_SIZE, Z.lor fl PAGE_V)
     else sv32_walk (ph_mem h) (page_table proc) vb) /\
  (exists t, points_to (ph_mem h') (page_table proc') (vpn1_of va) t).
Proof.
  intros Hok Hwf Hva Hpa Hfl (Hava & Hapa & h1 & He & ->)%map_page_inv.
  destruct (ensure_table_spec _ _ _ _ _ Hok Hwf He) as (Hex & (t & Ht) & Hwalk).
  rewrite (points_to_table _ _ _ _ Ht).
  pose proof (ex_ok _ _ _ _ Hex) as Hok1. pose proof (ex_wf _ _ _ _ Hex) as Hwf1.
  assert (Hpp : phys_page pa) by (split; assumption).
  destruct (leaf_flags_V fl Hfl) as [HflV Hleaf].
  split; [|split].
  - eapply extends_trans; [exact Hex|]. by apply set_leaf_extends.
  - intros vb Hvb. rewrite ph_mem_set_mem.
    destruct (Z.eqb_spec (vb / PAGE_SIZE) (va / PAGE_SIZE)) as [E|E].
    + destruct (vpn_same_page _ _ E) as [E1 E0].
      rewrite (set_leaf_walk_same h1 proc' Hok1 Hwf1 va t _ Ht vb E1 E0).
      rewrite u32_id by (apply make_pte_range; assumption).
      rewrite Hleaf, make_pte_ppn, make_pte_low, page_div_mul by assumption. done.
    + rewrite (set_leaf_walk_other h1 proc' Hok1 Hwf1 va t _ Ht vb); [apply Hwalk|].
      intros [E1 E0]. apply E. by apply vpn_inj.
  - exists t. rewrite ph_mem_set_mem. by apply (set_leaf_points h1 proc' Hok1 Hwf1 va t _ Ht).
Qed.

(** [unmap_page] of an aligned address always returns; the page no longer
    translates, every other page translates as before. *)
Lemma unmap_page_spec h proc va :
  ph_ok h -> pt_wf (ph_owned h) (ph_mem h) (page_table proc) ->
  0 <= va < 2 ^ 32 -> (PAGE_SIZE | va) ->
  exists h', unmap_page h proc va = Ret h' /\ extends h proc h' proc /\
    ph_owned h' = ph_owned h /\
    (forall vb, 0 <= vb < 2 ^ 32 -> sv32_walk (ph_mem h') (page_table proc) vb =
       if vb / PAGE_SIZE =? va / PAGE_SIZE then None
       else sv32_walk (ph_mem h) (page_table proc) vb).
Proof.
  intros Hok Hwf Hva Hal. unfold unmap_page.
  rewrite (proj2 (is_aligned_true va PAGE_SIZE eq_refl) Hal). simpl.
  destruct (entry_cases h proc Hwf _ (vpn1_range va)) as [Hinv|[t Ht]].
  - rewrite Hinv. simpl. eexists. split; [reflexivity|].
    split; [by apply extends_refl|]. split; [reflexivity|]. intros vb Hvb.
    destruct (Z.eqb_spec (vb / PAGE_SIZE) (va / PAGE_SIZE)) as [E|E]; [|reflexivity].
    destruct (vpn_same_page _ _ E) as [E1 _]. apply walk_invalid. by rewrite E1.
  - rewrite (points_to_table _ _ _ _ Ht).
    destruct (Z.eqb_spec (Z.land (load32 (ph_mem h) (page_table proc + 4 * vpn1_of va))
      PAGE_V) 0) as [E|_]; [destruct (points_to_valid _ _ _ _ Ht E)|].
    eexists. split; [reflexivity|]. split; [by apply set_leaf_extends|].
    split; [apply ph_set_mem_owned|]. intros vb Hvb. rewrite ph_mem_set_mem.
    destruct (Z.eqb_spec (vb / PAGE_SIZE) (va / PAGE_SIZE)) as [E|E].
    + destruct (vpn_same_page _ _ E) as [E1 E0].
      by rewrite (set_leaf_walk_same h proc Hok Hwf va t _ Ht vb E1 E0).
    + apply (set_leaf_walk_other h proc Hok Hwf va t _ Ht vb).
      intros [E1 E0]. apply E. by apply vpn_inj.
Qed.

(** *** The routines return

    [budget h proc k]: the allocator still has [k] pages and [regions] has
    room for [k] entries. *)
Definition budget h proc (k : nat) : Prop :=
  ph_avail h k /\ 0 <= current_idx proc /\
  current_idx proc + Z.of_nat k <= Z.of_nat PROC_REGION_MAX.

Lemma budget_le h proc j k : (j <= k)%nat -> budget h proc k -> budget h proc j.
Proof. intros Hjk (Ha & ? & ?). split; [by eapply ph_avail_le|lia]. Qed.

Lemma push_region_total proc i :
  0 <= current_idx proc < Z.of_nat PROC_REGION_MAX ->
  exists proc', push_region proc i = Ret proc' /\
    current_idx proc' = current_idx proc + 1.
Proof.
  intros Hi. unfold push_region. destruct (Z.ltb_spec (current_idx proc)
    (Z.of_nat PROC_REGION_MAX)); [|lia].
  eexists. split; [reflexivity|]. simpl. apply u32_id. unfold PROC_REGION_MAX in *. lia.
Qed.

Lemma alloc_push_total h proc k :
  ph_ok h -> budget h proc (S k) ->
  exists i p h' proc', ph_alloc h 1 = Ret (i, p, h') /\
    push_region proc i = Ret proc' /\ budget h' proc' k.
Proof.
  intros Hok (Hav & Hc & Hk). destruct (ph_alloc_total h k Hok Hav) as (i & p & h' & Ha & Hk').
  destruct (push_region_total proc i) as (proc' & Hp & Hi); [lia|].
  exists i, p, h', proc'. split; [exact Ha|]. split; [exact Hp|]. split; [exact Hk'|lia].
Qed.

Lemma budget_set_mem h m proc k : budget h proc k -> budget (ph_set_mem h m) proc k.
Proof. intros [? ?]. split; [by apply ph_set_mem_avail|done]. Qed.

(** With the table in place [map_page] needs nothing; otherwise it needs one
    page and one slot of [regions]. *)
Lemma map_page_total h proc va pa fl k :
  ph_ok h -> (PAGE_SIZE | va) -> (PAGE_SIZE | pa) ->
  (exists t, points_to (ph_mem h) (page_table proc) (vpn1_of va) t) /\ budget h proc k \/
  budget h proc (S k) ->
  exists h' proc', map_page h proc va pa fl = Ret (h', proc') /\ budget h' proc' k.
Proof.
  intros Hok Hva Hpa Hb. unfold map_page.
  rewrite (proj2 (is_aligned_true va PAGE_SIZE eq_refl) Hva).
  rewrite (proj2 (is_aligned_true pa PAGE_SIZE eq_refl) Hpa). simpl.
  unfold ensure_table.
  destruct (Z.eqb_spec (Z.land (load32 (ph_mem h)
    (page_table proc + 4 * vpn1_of va)) PAGE_V) 0) as [E|E].
  - destruct Hb as [[[t Ht] _]|Hb]; [destruct (points_to_valid _ _ _ _ Ht E)|].
    destruct (alloc_push_total h proc k Hok Hb) as (i & p & h1 & proc1 & Ha & Hp & Hb1).
    rewrite Ha. simpl. rewrite Hp. simpl. eexists _, _. split; [reflexivity|].
    by do 2 apply budget_set_mem.
  - eexists _, _. split; [reflexivity|]. apply budget_set_mem.
    destruct Hb as [[_ Hb]|Hb]; [exact Hb|]. eapply budget_le; [|exact Hb]. lia.
Qed.

(** A page fresh from the allocator is an empty page table. *)
Lemma fresh_root_wf h i p h' :
  ph_ok h -> ph_alloc h 1 = Ret (i, p, h') ->
  pt_wf (ph_owned h') (ph_mem h') p /\
  (forall va, sv32_walk (ph_mem h') p va = None) /\
  (forall q, pt_page (ph_mem h') p q -> q = p).
Proof.
  intros Hok Ha. destruct (alloc_page_spec _ _ _ _ Hok Ha) as (_ & _ & Ho & Hm & _).
  assert (Hz : forall j, 0 <= j < 1024 -> load32 (ph_mem h') (p + 4 * j) = 0).
  { intros j Hj. rewrite Hm. apply load32_memset_zero; unfold PAGE_SIZE; lia. }
  assert (Hno : forall j q, ~ points_to (ph_mem h') p j q).
  { intros j q Hj. apply (points_to_valid _ _ _ _ Hj). by rewrite Hz by apply Hj. }
  split; [|split].
  - split.
    + exists i. by rewrite Ho, lookup_insert_eq.
    + intros j Hj. left. by rewrite Hz.
    + intros j k q Hj. destruct (Hno _ _ Hj).
  - intros va. apply walk_invalid. by rewrite Hz by apply vpn1_range.
  - intros q [->|[j Hj]]; [reflexivity|destruct (Hno _ _ Hj)].
Qed.
End Correctness.

(** ** Properties of the page-table code *)

Section Properties.
Context {H : Type} `{!PageHeap H} (lo hi : Z) `{!PageHeapSpec H lo hi}.

(** C20: [map_page] of an aligned page to an aligned frame returns when one
    page can still be allocated and [regions] has a free slot.  Afterwards
    the hardware walk sends every address of the page to the frame with
    exactly the flags asked for (plus V) and every other address where it
    went before; the page table stays well formed, and no byte outside the
    pages of this page table has changed. *)
Theorem map_page_correct (h : H) proc va pa fl :
  ph_ok h -> pt_wf (ph_owned h) (ph_mem h) (page_table proc) ->
  0 <= va < 2 ^ 32 -> (PAGE_SIZE | va) -> 0 <= pa < 2 ^ 32 -> (PAGE_SIZE | pa) ->
  leaf_flags fl -> budget lo hi h proc 1 ->
  exists h' proc', map_page h proc va pa fl = Ret (h', proc') /\
    (forall vb, 0 <= vb < 2 ^ 32 -> sv32_walk (ph_mem h') (page_table proc') vb =
       if vb / PAGE_SIZE =? va / PAGE_SIZE
       then Some (pa + vb mod PAGE_SIZE, Z.lor fl PAGE_V)
       else sv32_walk (ph_mem h) (page_table proc) vb) /\
    ph_ok h' /\ pt_wf (ph_owned h') (ph_mem h') (page_table proc') /\
    (forall x,
      (forall q, pt_page (ph_mem h') (page_table proc') q -> ~ q <= x < q + PAGE_SIZE) ->
      load8 (ph_mem h') x = load8 (ph_mem h) x).
Proof.
  intros Hok Hwf Hva Hava Hpa Hapa Hfl Hb.
  destruct (map_page_total lo hi h proc va pa fl 0 Hok Hava Hapa (or_intror Hb))
    as (h' & proc' & Hm & _).
  destruct (map_page_spec lo hi _ _ _ _ _ _ _ Hok Hwf Hva Hpa Hfl Hm) as (Hex & Hw & _).
  exists h', proc'. split; [exact Hm|]. split; [exact Hw|].
  split; [apply Hex|]. split; [apply Hex|]. apply Hex.
Qed.

(** [unmap_page] undoes [map_page]: after mapping a page that did not
    translate and unmapping it again, every address translates as it did
    at the start. *)
Theorem unmap_map_roundtrip (h : H) proc va pa fl h1 proc1 :
  ph_ok h -> pt_wf (ph_owned h) (ph_mem h) (page_table proc) ->
  0 <= va < 2 ^ 32 -> 0 <= pa < 2 ^ 32 -> leaf_flags fl ->
  (forall vb, vb / PAGE_SIZE = va / PAGE_SIZE ->
     sv32_walk (ph_mem h) (page_table proc) vb = None) ->
  map_page h proc va pa fl = Ret (h1, proc1) ->
  exists h2, unmap_page h1 proc1 va = Ret h2 /\ ph_owned h2 = ph_owned h1 /\
    forall vb, 0 <= vb < 2 ^ 32 ->
      sv32_walk (ph_mem h2) (page_table proc1) vb =
      sv32_walk (ph_mem h) (page_table proc) vb.
Proof.
  intros Hok Hwf Hva Hpa Hfl Hnone Hm.
  destruct (map_page_inv _ _ _ _ _ _ _ Hm) as (Hava & _).
  destruct (map_page_spec lo hi _ _ _ _ _ _ _ Hok Hwf Hva Hpa Hfl Hm) as (Hex & Hw & _).
  destruct (unmap_page_spec lo hi h1 proc1 va (ex_ok _ _ _ _ _ _ Hex)
    (ex_wf _ _ _ _ _ _ Hex) Hva Hava) as (h2 & Hu & _ & Ho & Hw2).
  exists h2. split; [exact Hu|]. split; [exact Ho|]. intros vb Hvb.
  rewrite Hw2, Hw by exact Hvb.
  destruct (Z.eqb_spec (vb / PAGE_SIZE) (va / PAGE_SIZE)) as [E|E]; [|reflexivity].
  symmetry. by apply Hnone.
Qed.
End Properties.

(** [map_page] and [unmap_page] panic on an unaligned virtual address,
    [map_page] also on an unaligned physical address, before anything is
    changed. *)
Theorem map_page_rejects {H : Type} `{!PageHeap H} (h : H) proc va pa fl :
  (~ (PAGE_SIZE | va) ->
     map_page h proc va pa fl = Panic "unaligned vaddr" /\
     unmap_page h proc va = Panic "unaligned vaddr") /\
  ((PAGE_SIZE | va) -> ~ (PAGE_SIZE | pa) ->
     map_page h proc va pa fl = Panic "unaligned paddr").
Proof.
  assert (Hal : forall a, ~ (PAGE_SIZE | a) -> is_aligned a PAGE_SIZE = false).
  { intros a Ha. destruct (is_aligned a PAGE_SIZE) eqn:E; [|reflexivity].
    by apply is_aligned_true in E. }
  unfold map_page, unmap_page. split.
  - intros Hva. by rewrite (Hal va Hva).
  - intros Hva Hpa. by rewrite (proj2 (is_aligned_true va PAGE_SIZE eq_refl) Hva), (Hal pa Hpa).
Qed.

(** *** Concrete runs: an empty address space in the 16-page RAM *)

Definition demo_proc (root : Z) : process :=
  mkProcess 1 PROC_RUNNABLE 0 root (replicate PROC_REGION_MAX 0) 0
    (replicate PROC_SHM_MAX no_mapping) [].

Definition demo_spec : PageHeapSpec heap demo_lo demo_hi :=
  heap_PageHeapSpec demo_lo demo_hi (conj eq_refl eq_refl).
#[local] Existing Instance demo_spec.

(** Booting the demo: the first page becomes the root table. *)
Lemma demo_space :
  exists i h, alloc_pages demo_heap 1 = Ret (i, demo_lo, h) /\
    ph_ok (lo:=demo_lo) (hi:=demo_hi) h /\
    pt_wf (ph_owned h) (ph_mem h) demo_lo /\
    (forall va, sv32_walk (ph_mem h) demo_lo va = None) /\
    budget demo_lo demo_hi h (demo_proc demo_lo) 10.
Proof.
  assert (Hok : ph_ok (lo:=demo_lo) (hi:=demo_hi) demo_heap) by exact demo_heap_ok.
  assert (Hav : ph_avail (lo:=demo_lo) (hi:=demo_hi) demo_heap 11).
  { apply (initial_avail demo_lo demo_hi); vm_compute; [lia|congruence]. }
  destruct (ph_alloc_total demo_heap 10 Hok Hav) as (i & p & h & Ha & Hav').
  exists i, h. pose proof Ha as Ha'. simpl in Ha'.
  assert (p = demo_lo) as ->.
  { destruct (alloc_pages_inv demo_lo demo_hi demo_heap 1 i p h demo_heap_ok Ha)
      as (f & k & rf & rk & Hf & _ & Hlf & _ & _ & _ & _ & _ & -> & _).
    vm_compute in Hf. injection Hf as <-. vm_compute in Hlf. by injection Hlf as <-. }
  destruct (fresh_root_wf demo_lo demo_hi _ _ _ _ Hok Ha) as (Hwf & Hnone & _).
  split; [exact Ha|]. split; [by eapply alloc_page_spec|]. split; [exact Hwf|].
  split; [exact Hnone|]. split; [exact Hav'|]. simpl. unfold PROC_REGION_MAX. lia.
Qed.

Lemma map_page_correct_witness :
  exists h h' proc', map_page h (demo_proc demo_lo) 0x1000000 0x80308000 (PAGE_U + PAGE_R) =
      Ret (h', proc') /\
    sv32_walk (ph_mem h') (page_table proc') 0x1000123 = Some (0x80308123, 0x13).
Proof.
  destruct demo_space as (i & h & _ & Hok & Hwf & _ & Hb). exists h.
  destruct (map_page_correct demo_lo demo_hi h (demo_proc demo_lo) 0x1000000 0x80308000
    (PAGE_U + PAGE_R) Hok Hwf ltac:(lia) ltac:(by exists 0x1000) ltac:(lia)
    ltac:(by exists 0x80308) ltac:(by split; vm_compute)
    (budget_le demo_lo demo_hi _ _ 1 10 ltac:(lia) Hb))
    as (h' & proc' & Hm & Hw & _).
  exists h', proc'. split; [exact Hm|]. rewrite Hw by lia. reflexivity.
Defined.

Lemma unmap_map_roundtrip_witness :
  exists h h1 proc1 h2,
    map_page h (demo_proc demo_lo) 0x1000000 0x80308000 PAGE_R = Ret (h1, proc1) /\
    unmap_page h1 proc1 0x1000000 = Ret h2 /\
    sv32_walk (ph_mem h2) (page_table proc1) 0x1000123 = None.
Proof.
  destruct demo_space as (i & h & _ & Hok & Hwf & Hnone & Hb). exists h.
  destruct (map_page_total demo_lo demo_hi h (demo_proc demo_lo) 0x1000000 0x80308000
    PAGE_R 9 Hok ltac:(by exists 0x1000) ltac:(by exists 0x80308) (or_intror Hb))
    as (h1 & proc1 & Hm & _).
  destruct (unmap_map_roundtrip demo_lo demo_hi h (demo_proc demo_lo) 0x1000000 0x80308000
    PAGE_R h1 proc1 Hok Hwf ltac:(lia) ltac:(lia) ltac:(by split; vm_compute)
    (fun vb _ => Hnone vb) Hm) as (h2 & Hu & _ & Hw).
  exists h1, proc1, h2. split; [exact Hm|]. split; [exact Hu|].
  rewrite Hw by lia. apply Hnone.
Defined.

Lemma map_page_rejects_witness :
  map_page demo_heap (demo_proc demo_lo) 0x1000001 0 PAGE_R = Panic "unaligned vaddr".
Proof.
  apply (map_page_rejects demo_heap (demo_proc demo_lo) 0x1000001 0 PAGE_R).
  intros [k Hk]. unfold PAGE_SIZE in Hk. lia.
Defined.
