(* ===== verification/Shm.v ===== *)
(** Shared memory ([kernel/shm.c], [include/shm.h]).

    The kernel keeps a table of [SHM_MAX] objects, one physical page each;
    a process maps an object into one of [PROC_SHM_MAX] slots of the window
    at [SHM_USER_BASE].  The operations are written over any allocator of
    the interface [PageHeap].  This file states what each call does; that the
    reference counts stay right over all processes is part of the kernel
    invariant in [KernelInv.v]. *)

From Stdlib Require Import ZArith Lia.
From S2P Require Import Prelude Memory PageHeap Allocator PageTable.
Open Scope Z_scope.

Definition SHM_MAX : nat := 8.
Definition SHM_PAGE_SIZE : Z := PAGE_SIZE.
Definition SHM_USER_BASE : Z := 0x01700000.

Record shm_object : Type := mkShm {
  so_used : Z;
  so_id : Z;
  so_key : Z;
  so_pa : Z;
  so_region_idx : Z;
  so_size : Z;
  so_refcount : Z;
}.

Definition shm_object_zero : shm_object := mkShm 0 0 0 0 0 0 0.

#[export] Instance shm_object_inhabited : Inhabited shm_object := populate shm_object_zero.

(** The statics [shm_table] and [next_shm_id]. *)
Record shm_state : Type := mkShmState {
  shm_table : list shm_object;
  next_shm_id : Z;
}.

Definition shm_used (o : shm_object) : bool := negb (so_used o =? 0).
Definition mapping_used (mp : shm_mapping) : bool := negb (m_used mp =? 0).

Definition find_by_id (sh : shm_state) (id : Z) : option nat :=
  find_slot (fun o => shm_used o && (so_id o =? id)) (shm_table sh).

Definition find_by_key (sh : shm_state) (key : Z) : option nat :=
  find_slot (fun o => shm_used o && (so_key o =? key)) (shm_table sh).

Definition shm_init (sh : shm_state) : shm_state :=
  mkShmState (fold_left (fun tbl i => <[i := shm_object_zero]> tbl)
                (seq 0 SHM_MAX) (shm_table sh)) 1.

Definition set_refcount (o : shm_object) (n : Z) : shm_object :=
  mkShm (so_used o) (so_id o) (so_key o) (so_pa o) (so_region_idx o) (so_size o) n.

Definition set_mappings (proc : process) (l : list shm_mapping) : process :=
  mkProcess (pid proc) (p_state proc) (p_sp proc) (page_table proc) (p_regions proc)
    (current_idx proc) l (p_stack proc).

Section Code.
Context {H : Type} `{!PageHeap H}.

Definition shm_get (h : H) (sh : shm_state) (key : Z) : outcome (Z * H * shm_state) :=
  if key <=? 0 then Ret (-1, h, sh)
  else
    match find_by_key sh key with
    | Some i => Ret (so_id (shm_table sh !!! i), h, sh)
    | None =>
        match find_slot (fun o => negb (shm_used o)) (shm_table sh) with
        | None => Ret (-1, h, sh)
        | Some i =>
            '(region_idx, pa, h) ← ph_alloc h 1;
            (* [next_shm_id++] on an [int] *)
            _ ← defined_if (next_shm_id sh + 1 <? 2 ^ 31);
            let o := mkShm 1 (next_shm_id sh) key pa region_idx SHM_PAGE_SIZE 0 in
            Ret (so_id o, h, mkShmState (<[i := o]> (shm_table sh)) (next_shm_id sh + 1))
        end
    end.

Definition shm_attach (h : H) (sh : shm_state) (proc : process) (id : Z)
    : outcome (Z * H * shm_state * process) :=
  match find_by_id sh id with
  | None => Ret (0, h, sh, proc)
  | Some k =>
      match find_slot (fun mp => negb (mapping_used mp)) (shm_mappings proc) with
      | None => Ret (0, h, sh, proc)
      | Some slot =>
          let obj := shm_table sh !!! k in
          let vaddr := u32 (SHM_USER_BASE + Z.of_nat slot * SHM_PAGE_SIZE) in
          '(h, proc) ← map_page h proc vaddr (so_pa obj)
                         (Z.lor (Z.lor PAGE_U PAGE_R) PAGE_W);
          let proc := set_mappings proc
            (<[slot := mkMapping 1 id vaddr]> (shm_mappings proc)) in
          let sh := mkShmState
            (<[k := set_refcount obj (so_refcount obj + 1)]> (shm_table sh))
            (next_shm_id sh) in
          Ret (vaddr, h, sh, proc)
      end
  end.

(** The reference the detached mapping held is dropped. *)
Definition drop_reference (h : H) (sh : shm_state) (k : nat) : outcome (H * shm_state) :=
  let obj := shm_table sh !!! k in
  let obj := set_refcount obj (so_refcount obj - 1) in
  if so_refcount obj <=? 0 then
    h ← ph_release h (s32 (so_region_idx obj));
    Ret (h, mkShmState (<[k := shm_object_zero]> (shm_table sh)) (next_shm_id sh))
  else Ret (h, mkShmState (<[k := obj]> (shm_table sh)) (next_shm_id sh)).

Definition shm_detach (h : H) (sh : shm_state) (proc : process) (vaddr : Z)
    : outcome (Z * H * shm_state * process) :=
  match find_slot (fun mp => mapping_used mp && (m_vaddr mp =? vaddr))
          (shm_mappings proc) with
  | None => Ret (-1, h, sh, proc)
  | Some i =>
      let mapping := shm_mappings proc !!! i in
      let obj := find_by_id sh (m_shm_id mapping) in
      h ← unmap_page h proc (m_vaddr mapping);
      let proc := set_mappings proc (<[i := no_mapping]> (shm_mappings proc)) in
      match obj with
      | None => Ret (0, h, sh, proc)
      | Some k =>
          '(h, sh) ← drop_reference h sh k;
          Ret (0, h, sh, proc)
      end
  end.

Definition cleanup_slot (st : H * shm_state * process) (i : nat)
    : outcome (H * shm_state * process) :=
  let '(h, sh, proc) := st in
  if mapping_used (shm_mappings proc !!! i) then
    '(_, h, sh, proc) ← shm_detach h sh proc (m_vaddr (shm_mappings proc !!! i));
    Ret (h, sh, proc)
  else Ret (h, sh, proc).

Definition shm_process_cleanup (h : H) (sh : shm_state) (proc : process)
    : outcome (H * shm_state * process) :=
  for_each cleanup_slot (seq 0 PROC_SHM_MAX) (h, sh, proc).
End Code.
