(* ===== verification/Process.v ===== *)
(** Process management ([kernel/process.c], [include/process.h]).

    [procs], [current_proc] and [idle_proc] are the fields [k_procs],
    [k_current] and [k_idle] of the kernel state; a [struct process *] is an
    index into the array.  [create_process], [release_process] and [yield]
    are translated call by call; the CSRs they write are fields of the state.
    The register-level half of a context switch is in [Context.v]. *)

From Stdlib Require Import ZArith Lia.
From S2P Require Import Prelude Memory PageHeap Allocator PageTable Shm.
Open Scope Z_scope.

(** Addresses the linker fixes; [kernel.ld] and [kernel/process.c] name them. *)
Record layout : Type := mkLayout {
  kernel_base : Z;       (* [__kernel_base] *)
  free_ram_end : Z;      (* [__free_ram_end] *)
  procs_addr : Z;        (* [procs] *)
  user_entry : Z;        (* [user_entry] *)
}.

(** MMIO pages every address space maps ([include/virtio.h], [include/plic.h]). *)
Definition VIRTIO_BLK_PADDR : Z := 0x10001000.
Definition VIRTIO_NET_PADDR : Z := 0x10002000.
Definition PLIC_BASE : Z := 0x0c000000.

Definition SATP_SV32 : Z := Z.shiftl 1 31.
Definition SSTATUS_SIE : Z := Z.shiftl 1 1.

(** [sizeof(struct process)] and the words of its kernel stack. *)
Definition SIZEOF_PROCESS : Z := 8516.
Definition STACK_WORDS : nat := 2048.

(** [(uint32_t) &procs[i].stack[sizeof(procs[i].stack)]] *)
Definition stack_top (L : layout) (i : nat) : Z :=
  procs_addr L + Z.of_nat i * SIZEOF_PROCESS + SIZEOF_PROCESS.

Record csrs : Type := mkCsrs {
  sstatus : Z;
  satp : Z;
  sscratch : Z;
}.

Record kstate (H : Type) : Type := mkK {
  k_heap : H;
  k_shm : shm_state;
  k_procs : list process;
  k_current : nat;
  k_idle : nat;
  k_csrs : csrs;
}.
Arguments mkK {H}.
Arguments k_heap {H}.
Arguments k_shm {H}.
Arguments k_procs {H}.
Arguments k_current {H}.
Arguments k_idle {H}.
Arguments k_csrs {H}.

(** ** Writing the process structure *)

Definition set_regions (p : process) (l : list Z) : process :=
  mkProcess (pid p) (p_state p) (p_sp p) (page_table p) l (current_idx p)
    (shm_mappings p) (p_stack p).
Definition set_current_idx (p : process) (n : Z) : process :=
  mkProcess (pid p) (p_state p) (p_sp p) (page_table p) (p_regions p) n
    (shm_mappings p) (p_stack p).
Definition set_stack (p : process) (l : list Z) : process :=
  mkProcess (pid p) (p_state p) (p_sp p) (page_table p) (p_regions p) (current_idx p)
    (shm_mappings p) l.
Definition set_page_table (p : process) (t : Z) : process :=
  mkProcess (pid p) (p_state p) (p_sp p) t (p_regions p) (current_idx p)
    (shm_mappings p) (p_stack p).
Definition set_ids (p : process) (i st sp : Z) : process :=
  mkProcess i st sp (page_table p) (p_regions p) (current_idx p)
    (shm_mappings p) (p_stack p).

(** The word [k] of a mapping: [used], [shm_id], [vaddr]. *)
Definition set_mapping_word (mp : shm_mapping) (k : nat) (v : Z) : shm_mapping :=
  match k with
  | 0%nat => mkMapping v (m_shm_id mp) (m_vaddr mp)
  | 1%nat => mkMapping (m_used mp) v (m_vaddr mp)
  | _ => mkMapping (m_used mp) (m_shm_id mp) v
  end.

(** The store [proc->regions[j] = v] as the structure layout resolves it: the
    loops that clear [regions] run to [MAX_REGIONS] (128) although the array
    has [PROC_REGION_MAX] (64) elements, so the words that follow it in
    [struct process] are written too: [current_idx], the 12 words of
    [shm_mappings], and the low words of [stack]. *)
Definition write_region_word (p : process) (j : nat) (v : Z) : process :=
  if (j <? PROC_REGION_MAX)%nat then set_regions p (<[j := v]> (p_regions p))
  else if (j =? PROC_REGION_MAX)%nat then set_current_idx p v
  else
    let k := (j - PROC_REGION_MAX - 1)%nat in
    if (k <? 3 * PROC_SHM_MAX)%nat then
      set_mappings p (<[(k / 3)%nat :=
        set_mapping_word (shm_mappings p !!! (k / 3)%nat) (k mod 3) v]> (shm_mappings p))
    else set_stack p (<[(k - 3 * PROC_SHM_MAX)%nat := v]> (p_stack p)).

(** [for (int j = 0; j < MAX_REGIONS; j++) proc->regions[j] = 0;] *)
Definition clear_regions (p : process) : process :=
  fold_left (fun p j => write_region_word p j 0) (seq 0 MAX_REGIONS) p.

(** [for (int j = 0; j < PROC_SHM_MAX; j++)] clearing the mappings. *)
Definition clear_mappings (p : process) : process :=
  fold_left (fun p j => set_mappings p (<[j := no_mapping]> (shm_mappings p)))
    (seq 0 PROC_SHM_MAX) p.

(** The frame [switch_context] pops on the first switch: twelve zero words
    [s11] to [s0] below the top, then [ra = user_entry]. *)
Definition initial_stack (L : layout) (stack : list Z) : list Z :=
  <[(STACK_WORDS - 13)%nat := user_entry L]>
    (fold_left (fun st j => <[(STACK_WORDS - j)%nat := 0]> st) (seq 1 12) stack).

Section Code.
Context {H : Type} `{!PageHeap H}.

(** [proc->regions[(proc->current_idx)++] = region_idx] after
    [alloc_pages(&region_idx, 1)]. *)
Definition alloc_process_page (h : H) (proc : process) : outcome (Z * H * process) :=
  '(region_idx, page, h) ← ph_alloc h 1;
  proc ← push_region proc region_idx;
  Ret (page, h, proc).

(** [for (paddr = from; paddr < free_ram_end; paddr += PAGE_SIZE) map_page(...)] *)
Fixpoint map_kernel_pages (fuel : nat) (L : layout) (h : H) (proc : process) (paddr : Z)
    : outcome (H * process) :=
  match fuel with
  | O => Undef
  | S n =>
      if paddr <? free_ram_end L then
        '(h, proc) ← map_page h proc paddr paddr (Z.lor (Z.lor PAGE_R PAGE_W) PAGE_X);
        map_kernel_pages n L h proc (u32 (paddr + PAGE_SIZE))
      else Ret (h, proc)
  end.

Definition kernel_pages (L : layout) : nat :=
  S (Z.to_nat ((free_ram_end L - kernel_base L + PAGE_SIZE - 1) / PAGE_SIZE)).

Definition mmio_pages : list Z :=
  [VIRTIO_BLK_PADDR; VIRTIO_NET_PADDR; PLIC_BASE; PLIC_BASE + 0x2000; PLIC_BASE + 0x201000].

Definition map_mmio_page (st : H * process) (paddr : Z) : outcome (H * process) :=
  let '(h, proc) := st in map_page h proc paddr paddr (Z.lor PAGE_R PAGE_W).

Fixpoint map_mmio_pages (l : list Z) (st : H * process) : outcome (H * process) :=
  match l with
  | [] => Ret st
  | paddr :: l' => st ← map_mmio_page st paddr; map_mmio_pages l' st
  end.

(** The loop over the pages of the user image. *)
Fixpoint map_user_pages (fuel : nat) (h : H) (proc : process) (image image_size off : Z)
    : outcome (H * process) :=
  match fuel with
  | O => Undef
  | S n =>
      if off <? image_size then
        '(page, h, proc) ← alloc_process_page h proc;
        let remaining := u32 (image_size - off) in
        let copy_size := if PAGE_SIZE <=? remaining then PAGE_SIZE else remaining in
        let h := ph_set_mem h (memcpy (ph_mem h) page (image + off) copy_size) in
        '(h, proc) ← map_page h proc (u32 (USER_BASE + off)) page
            (Z.lor (Z.lor (Z.lor PAGE_U PAGE_R) PAGE_W) PAGE_X);
        map_user_pages n h proc image image_size (u32 (off + PAGE_SIZE))
      else Ret (h, proc)
  end.

Definition user_pages (image_size : Z) : nat :=
  S (Z.to_nat ((image_size + PAGE_SIZE - 1) / PAGE_SIZE)).

(** The process structure as [create_process] prepares it before the first
    allocation. *)
Definition reset_process (L : layout) (p : process) : process :=
  let p := clear_mappings (clear_regions (set_current_idx p 0)) in
  set_stack p (initial_stack L (p_stack p)).

(** The address space: page table, kernel pages, MMIO pages, user image. *)
Definition build_address_space (L : layout) (h : H) (proc : process) (image image_size : Z)
    : outcome (H * process) :=
  '(region_idx, root, h) ← ph_alloc h 1;
  proc ← push_region (set_page_table proc root) region_idx;
  '(h, proc) ← map_kernel_pages (kernel_pages L) L h proc (kernel_base L);
  st ← map_mmio_pages mmio_pages (h, proc);
  map_user_pages (user_pages image_size) (fst st) (snd st) image image_size 0.

Definition set_proc (K : kstate H) (i : nat) (p : process) : kstate H :=
  mkK (k_heap K) (k_shm K) (<[i := p]> (k_procs K)) (k_current K) (k_idle K) (k_csrs K).
Definition set_heap (K : kstate H) (h : H) : kstate H :=
  mkK h (k_shm K) (k_procs K) (k_current K) (k_idle K) (k_csrs K).
Definition set_shm (K : kstate H) (sh : shm_state) : kstate H :=
  mkK (k_heap K) sh (k_procs K) (k_current K) (k_idle K) (k_csrs K).
Definition set_csrs (K : kstate H) (c : csrs) : kstate H :=
  mkK (k_heap K) (k_shm K) (k_procs K) (k_current K) (k_idle K) c.
Definition set_current (K : kstate H) (i : nat) : kstate H :=
  mkK (k_heap K) (k_shm K) (k_procs K) i (k_idle K) (k_csrs K).
Definition set_idle (K : kstate H) (i : nat) : kstate H :=
  mkK (k_heap K) (k_shm K) (k_procs K) (k_current K) i (k_csrs K).

Definition create_process (L : layout) (K : kstate H) (image image_size : Z)
    : outcome (nat * kstate H) :=
  match find_slot (fun p => p_state p =? PROC_UNUSED) (k_procs K) with
  | None => Panic "no free process slots"
  | Some i =>
      let proc := reset_process L (k_procs K !!! i) in
      '(h, proc) ← build_address_space L (k_heap K) proc image image_size;
      let proc := set_ids proc (Z.of_nat i + 1) PROC_RUNNABLE (stack_top L i - 52) in
      Ret (i, set_proc (set_heap K h) i proc)
  end.

(** The loop of [init_processes] over one slot. *)
Definition init_slot (p : process) : process :=
  clear_mappings (clear_regions (set_ids p 0 PROC_UNUSED 0)).

Definition init_processes (L : layout) (K : kstate H) : outcome (kstate H) :=
  let procs := fold_left (fun procs i => <[i := init_slot (procs !!! i)]> procs)
                 (seq 0 PROCS_MAX) (k_procs K) in
  let K := mkK (k_heap K) (k_shm K) procs (k_current K) (k_idle K) (k_csrs K) in
  '(i, K) ← create_process L K 0 0;
  let idle := k_procs K !!! i in
  let K := set_proc K i (set_ids idle 0 (p_state idle) (p_sp idle)) in
  Ret (set_current (set_idle K i) i).

(** One iteration of the loop that gives back the regions of a process. *)
Definition release_slot (st : H * process) (i : nat) : outcome (H * process) :=
  let '(h, proc) := st in
  if p_regions proc !!! i =? 0 then Ret (h, proc)
  else
    h ← ph_release h (s32 (p_regions proc !!! i));
    Ret (h, set_regions proc (<[i := 0]> (p_regions proc))).

Definition release_process (K : kstate H) (i : nat) : outcome (kstate H) :=
  '(h, sh, proc) ← shm_process_cleanup (k_heap K) (k_shm K) (k_procs K !!! i);
  '(h, proc) ← for_each release_slot (seq 0 (Z.to_nat (current_idx proc))) (h, proc);
  let proc := set_current_idx (set_page_table (set_ids proc 0 PROC_UNUSED 0) 0) 0 in
  Ret (set_proc (set_heap (set_shm K sh) h) i (clear_mappings proc)).

(** The process the scan of [yield] stops at. *)
Definition runnable (p : process) : bool :=
  (p_state p =? PROC_RUNNABLE) && (0 <? pid p).
Definition scan_slot (procs : list process) (current i : nat) : nat :=
  Z.to_nat ((pid (procs !!! current) + Z.of_nat i) mod Z.of_nat PROCS_MAX).
Definition pick_next (K : kstate H) : nat :=
  match find_slot (fun i => runnable (k_procs K !!! scan_slot (k_procs K) (k_current K) i))
          (seq 0 PROCS_MAX) with
  | Some i => scan_slot (k_procs K) (k_current K) i
  | None => k_idle K
  end.

(** [yield] up to the call of [switch_context]: [None] when the current
    process goes on, otherwise the two processes to switch between. *)
Definition yield (L : layout) (K : kstate H) : outcome (option (nat * nat) * kstate H) :=
  let saved := sstatus (k_csrs K) in
  let c := k_csrs K in
  let K := set_csrs K (mkCsrs (Z.land saved (Z.lnot SSTATUS_SIE)) (satp c) (sscratch c)) in
  K ← (if p_state (k_procs K !!! k_current K) =? PROC_EXITED
       then release_process K (k_current K) else Ret K);
  let next := pick_next K in
  let c := k_csrs K in
  if bool_decide (next = k_current K) then
    Ret (None, set_csrs K (mkCsrs saved (satp c) (sscratch c)))
  else
    let c := mkCsrs (sstatus c)
      (Z.lor SATP_SV32 (page_table (k_procs K !!! next) / PAGE_SIZE))
      (stack_top L next) in
    let prev := k_current K in
    Ret (Some (prev, next), set_current (set_csrs K c) next).

(** [yield] after [switch_context] has come back to the process that saved
    [saved]. *)
Definition yield_resume (K : kstate H) (saved : Z) : kstate H :=
  set_csrs K (mkCsrs saved (satp (k_csrs K)) 0).
End Code.

(** ** The scheduler *)

Section Scheduler.
Context {H : Type} `{!PageHeap H}.
Implicit Types (K : kstate H) (s : nat).

(** Slots and pids as [create_process] hands them out. *)
Definition pids_ok (procs : list process) : Prop :=
  length procs = PROCS_MAX /\
  forall s, (s < PROCS_MAX)%nat -> runnable (procs !!! s) = true ->
    pid (procs !!! s) = Z.of_nat s + 1.

(** Distance of slot [s] from where a scan started by [cur] begins. *)
Definition scan_distance (procs : list process) (cur s : nat) : Z :=
  (Z.of_nat s - pid (procs !!! cur)) mod Z.of_nat PROCS_MAX.

Lemma scan_slot_range procs cur i : (scan_slot procs cur i < PROCS_MAX)%nat.
Proof.
  unfold scan_slot. pose proof (Z.mod_pos_bound (pid (procs !!! cur) + Z.of_nat i)
    (Z.of_nat PROCS_MAX) ltac:(done)). unfold PROCS_MAX in *. lia.
Qed.

Lemma scan_slot_distance procs cur s :
  (s < PROCS_MAX)%nat ->
  scan_slot procs cur (Z.to_nat (scan_distance procs cur s)) = s.
Proof.
  unfold scan_slot, scan_distance, PROCS_MAX. intros Hs.
  Z.to_euclidean_division_equations. lia.
Qed.

Lemma scan_distance_range procs cur s :
  0 <= scan_distance procs cur s < Z.of_nat PROCS_MAX.
Proof. apply Z.mod_pos_bound. done. Qed.

(** The scan finds the runnable slot at the least distance. *)
Lemma pick_next_spec K :
  (exists s, (s < PROCS_MAX)%nat /\ pick_next K = s /\ runnable (k_procs K !!! s) = true /\
     forall t, (t < PROCS_MAX)%nat -> runnable (k_procs K !!! t) = true ->
       scan_distance (k_procs K) (k_current K) s <= scan_distance (k_procs K) (k_current K) t) \/
  (pick_next K = k_idle K /\
     forall t, (t < PROCS_MAX)%nat -> runnable (k_procs K !!! t) = false).
Proof.
  unfold pick_next. destruct (find_slot _ _) as [i|] eqn:E.
  - left. apply find_slot_Some in E as [(j & Hj & Hrun) Hmin].
    apply lookup_seq in Hj as [-> Hi]. rewrite Nat.add_0_l in *.
    exists (scan_slot (k_procs K) (k_current K) i). split; [apply scan_slot_range|].
    split; [reflexivity|]. split; [exact Hrun|]. intros t Ht Hrt.
    pose proof (scan_slot_distance (k_procs K) (k_current K) t Ht) as Et.
    pose proof (scan_distance_range (k_procs K) (k_current K) t) as Hd.
    set (d := scan_distance (k_procs K) (k_current K) t) in *.
    assert (Z.of_nat i <= d) as Hle.
    { destruct (decide (Z.of_nat i <= d)) as [|Hlt]; [done|].
      specialize (Hmin (Z.to_nat d) (Z.to_nat d) ltac:(lia)).
      rewrite Et, Hrt in Hmin. discriminate Hmin.
      apply lookup_seq. unfold PROCS_MAX in *. lia. }
    unfold scan_distance at 1, scan_slot. unfold PROCS_MAX in *.
    transitivity (Z.of_nat i); [|exact Hle].
    clear -Hi. Z.to_euclidean_division_equations. lia.
  - right. split; [reflexivity|]. intros t Ht.
    pose proof (scan_slot_distance (k_procs K) (k_current K) t Ht) as Et.
    pose proof (scan_distance_range (k_procs K) (k_current K) t) as Hd.
    rewrite <-Et. apply (proj1 (find_slot_None _ _) E
      (Z.to_nat (scan_distance (k_procs K) (k_current K) t))).
    apply lookup_seq. unfold PROCS_MAX in *. lia.
Qed.

(** A process that alone can run is picked. *)
Lemma pick_next_only K s :
  (s < PROCS_MAX)%nat -> runnable (k_procs K !!! s) = true ->
  (forall t, (t < PROCS_MAX)%nat -> runnable (k_procs K !!! t) = true -> t = s) -> pick_next K = s.
Proof.
  intros Hs Hr Hone. destruct (pick_next_spec K) as [(t & Ht & -> & Hrt & _)|[_ Hnone]]; [by apply Hone|].
  by rewrite (Hnone s Hs) in Hr.
Qed.

(** [yield] of a process that has not exited. *)
Lemma yield_running L K :
  p_state (k_procs K !!! k_current K) <> PROC_EXITED ->
  exists sw K', yield L K = Ret (sw, K') /\
    k_heap K' = k_heap K /\ k_shm K' = k_shm K /\ k_procs K' = k_procs K /\
    k_idle K' = k_idle K /\ k_current K' = pick_next K /\
    (if bool_decide (pick_next K = k_current K)
     then sw = None /\ k_csrs K' = k_csrs K
     else sw = Some (k_current K, pick_next K) /\
       k_csrs K' = mkCsrs (Z.land (sstatus (k_csrs K)) (Z.lnot SSTATUS_SIE))
         (Z.lor SATP_SV32 (page_table (k_procs K !!! pick_next K) / PAGE_SIZE))
         (stack_top L (pick_next K))).
Proof.
  intros Hst. unfold yield. cbn -[pick_next].
  destruct (Z.eqb_spec (p_state (k_procs K !!! k_current K)) PROC_EXITED); [done|].
  cbn -[pick_next]. change (pick_next (set_csrs K _)) with (pick_next K).
  case_bool_decide as E; (eexists _, _; split; [reflexivity|]); cbn -[pick_next];
    split_and!; rewrite ?E; first [reflexivity | by destruct (k_csrs K)].
Qed.
End Scheduler.

(** [n] calls of [yield] in a row, every process going straight back to it. *)
Fixpoint yields {H : Type} `{!PageHeap H} (n : nat) (L : layout) (K : kstate H)
    : outcome (kstate H) :=
  match n with
  | O => Ret K
  | S n' => '(_, K) ← yield L K; yields n' L K
  end.

Section Fairness.
Context {H : Type} `{!PageHeap H}.
Implicit Types (K : kstate H) (s : nat).

(** Being picked puts every other runnable slot strictly closer. *)
Lemma pick_next_closer K s :
  pids_ok (k_procs K) -> (s < PROCS_MAX)%nat -> runnable (k_procs K !!! s) = true ->
  pick_next K = s \/
  scan_distance (k_procs K) (pick_next K) s < scan_distance (k_procs K) (k_current K) s.
Proof.
  intros [Hlen Hpid] Hs Hrun.
  destruct (pick_next_spec K) as [(t & Ht & -> & Hrt & Hmin)|[_ Hnone]].
  2: { by rewrite Hnone in Hrun. }
  destruct (decide (t = s)) as [|Hne]; [by left|right].
  specialize (Hmin s Hs Hrun). unfold scan_distance in *. rewrite (Hpid t Ht Hrt).
  unfold PROCS_MAX in *. clear -Hmin Ht Hs Hne.
  Z.to_euclidean_division_equations. lia.
Qed.

(** States reached by [yield] differ in [current_proc] and the CSRs only. *)
Lemma yields_pick n L K s :
  pids_ok (k_procs K) -> (s < PROCS_MAX)%nat -> runnable (k_procs K !!! s) = true ->
  p_state (k_procs K !!! k_idle K) = PROC_RUNNABLE ->
  p_state (k_procs K !!! k_current K) = PROC_RUNNABLE ->
  scan_distance (k_procs K) (k_current K) s < Z.of_nat n ->
  exists k K', (1 <= k <= n)%nat /\ yields k L K = Ret K' /\ k_current K' = s.
Proof.
  intros Hp Hs Hrun. revert K Hp Hrun.
  induction n as [|n IH]; intros K Hp Hrun Hidle Hcur Hd.
  { pose proof (scan_distance_range (k_procs K) (k_current K) s). lia. }
  destruct (yield_running L K ltac:(rewrite Hcur; done))
    as (sw & K1 & Hy & _ & _ & Hprocs & Hidle1 & Hcur1 & _).
  destruct (pick_next_closer K s Hp Hs Hrun) as [E|Hlt].
  - exists 1%nat, K1. split; [lia|]. simpl. rewrite Hy. simpl. by rewrite Hcur1.
  - destruct (IH K1) as (k & K2 & Hk & Hyk & Hc); rewrite ?Hprocs, ?Hidle1, ?Hcur1; try done.
    + destruct (pick_next_spec K) as [(t & Ht & -> & Hrt & _)|[-> _]]; [|done].
      unfold runnable in Hrt. apply andb_true_iff in Hrt as [Hrt _]. lia.
    + lia.
    + exists (S k), K2. split; [lia|]. simpl. rewrite Hy. simpl. done.
Qed.
End Fairness.

(** ** The process structure after clearing *)

(** Array lengths of [struct process]. *)
Definition proc_shape (p : process) : Prop :=
  length (p_regions p) = PROC_REGION_MAX /\ length (shm_mappings p) = PROC_SHM_MAX /\
  length (p_stack p) = STACK_WORDS.

(** Splits a list of known length into its first [n] elements and the rest. *)
Tactic Notation "list_cases" hyp(l) integer(n) :=
  do n (destruct l as [|? l]; [discriminate|]).

Lemma clear_regions_spec p :
  proc_shape p ->
  clear_regions p =
  mkProcess (pid p) (p_state p) (p_sp p) (page_table p) (replicate PROC_REGION_MAX 0) 0
    (replicate PROC_SHM_MAX no_mapping) (replicate 51 0 ++ drop 51 (p_stack p)).
Proof.
  destruct p as [i st sp root regs idx maps stack]. intros (Hr & Hm & Hs). simpl in *.
  unfold PROC_REGION_MAX, PROC_SHM_MAX, STACK_WORDS in *.
  list_cases regs 64. destruct regs; [|discriminate].
  list_cases maps 4. destruct maps; [|discriminate].
  list_cases stack 51. reflexivity.
Qed.

Lemma clear_mappings_spec p :
  length (shm_mappings p) = PROC_SHM_MAX ->
  clear_mappings p = set_mappings p (replicate PROC_SHM_MAX no_mapping).
Proof.
  destruct p as [i st sp root regs idx maps stack]. intros Hm. simpl in *.
  unfold PROC_SHM_MAX in *. list_cases maps 4. destruct maps; [|discriminate]. reflexivity.
Qed.
