(* ===== verification/KernelInv.v ===== *)
(** The kernel invariant over processes, page tables, shared memory and the
    page allocator.

    [proc_ok] says of one process that its page table is well formed, lies in
    pages the process holds, lets user mode reach only pages the process
    holds (never its page tables) and shared pages it has attached, and that
    every attached slot translates to its object.  [System.v] adds what ties the
    processes together. *)

From Stdlib Require Import ZArith Lia.
From S2P Require Import Prelude Memory PageHeap Allocator PageTable Shm Process.
Open Scope Z_scope.

(** The handles a process will give back, in order. *)
Definition handles (p : process) : list Z :=
  take (Z.to_nat (current_idx p)) (p_regions p).

(** The process holds the page at [q]. *)
Definition holds (own : gmap Z (Z * Z)) (p : process) (q : Z) : Prop :=
  exists r, r ∈ handles p /\ own !! r = Some (q, PAGE_SIZE).

(** Page [i] of the shared-memory window. *)
Definition shm_page (i : nat) : Z := SHM_USER_BASE + Z.of_nat i * SHM_PAGE_SIZE.

(** Object [id] is in the table and its page is [pa]. *)
Definition object_pa (tbl : list shm_object) (id pa : Z) : Prop :=
  exists k o, tbl !! k = Some o /\ shm_used o = true /\ so_id o = id /\ so_pa o = pa.

Definition SHM_FLAGS : Z := Z.lor (Z.lor PAGE_U PAGE_R) PAGE_W.

Definition same_page (a b : Z) : Prop := a / PAGE_SIZE = b / PAGE_SIZE.

#[export] Instance same_page_dec a b : Decision (same_page a b).
Proof. unfold same_page. apply _. Defined.

(** An attached slot. *)
Definition attached (maps : list shm_mapping) (i : nat) (id : Z) : Prop :=
  exists mp, maps !! i = Some mp /\ mapping_used mp = true /\ m_shm_id mp = id.

Record proc_ok (own : gmap Z (Z * Z)) (m : mem) (tbl : list shm_object) (p : process) : Prop := {
  po_shape : proc_shape p;
  po_idx : 0 <= current_idx p <= Z.of_nat PROC_REGION_MAX;
  po_wf : pt_wf own m (page_table p);
  po_pages : forall q, pt_page m (page_table p) q -> holds own p q;
  po_user : forall va pa fl, 0 <= va < 2 ^ 32 ->
    sv32_walk m (page_table p) va = Some (pa, fl) -> Z.land fl PAGE_U <> 0 ->
    (exists q, holds own p q /\ ~ pt_page m (page_table p) q /\ q <= pa < q + PAGE_SIZE) \/
    (exists i id opa, attached (shm_mappings p) i id /\ same_page va (shm_page i) /\
       object_pa tbl id opa /\ pa = opa + va mod PAGE_SIZE);
  po_vaddr : forall i mp, shm_mappings p !! i = Some mp -> mapping_used mp = true ->
    m_vaddr mp = shm_page i;
  po_shm : forall i id, attached (shm_mappings p) i id ->
    exists opa, object_pa tbl id opa /\
      forall va, 0 <= va < 2 ^ 32 -> same_page va (shm_page i) ->
        sv32_walk m (page_table p) va =
          Some (opa + va mod PAGE_SIZE, Z.lor SHM_FLAGS PAGE_V);
}.

Lemma take_In {A} (x : A) n l : x ∈ take n l -> x ∈ l.
Proof. intros Hx. rewrite <-(take_drop n l). apply elem_of_app. by left. Qed.

(** ** How the handles of a process grow *)

Lemma push_region_handles p i p' :
  0 <= current_idx p -> length (p_regions p) = PROC_REGION_MAX ->
  push_region p i = Ret p' ->
  handles p' = handles p ++ [i] /\ current_idx p' = current_idx p + 1 /\
  length (p_regions p') = PROC_REGION_MAX /\ current_idx p' <= Z.of_nat PROC_REGION_MAX.
Proof.
  intros Hc Hlen Hp. unfold push_region in Hp. outcome_inv.
  apply Z.ltb_lt in Hstep. unfold handles. simpl.
  assert (u32 (current_idx p + 1) = current_idx p + 1) as ->
    by (apply u32_id; unfold PROC_REGION_MAX in *; lia).
  split; [|split; [reflexivity|split; [by rewrite length_insert|lia]]].
  replace (Z.to_nat (current_idx p + 1)) with (S (Z.to_nat (current_idx p))) by lia.
  erewrite take_S_r by (apply list_lookup_insert_eq; lia).
  by rewrite take_insert_ge by lia.
Qed.

(** Growing appends fresh handles; nothing else becomes owned. *)
Lemma grows_handles own p own' p' :
  grows own p own' p' ->
  0 <= current_idx p <= Z.of_nat PROC_REGION_MAX -> length (p_regions p) = PROC_REGION_MAX ->
  0 <= current_idx p' <= Z.of_nat PROC_REGION_MAX /\ length (p_regions p') = PROC_REGION_MAX /\
  exists l, handles p' = handles p ++ l /\ NoDup l /\
    (forall r, r ∈ l -> own !! r = None /\ exists q, own' !! r = Some (q, PAGE_SIZE)) /\
    (forall r x, own' !! r = Some x -> own !! r = Some x \/ r ∈ l).
Proof.
  induction 1 as [own p|own p i q p1 own' p' Hi Hp Hg IH]; intros Hidx Hlen.
  { split; [exact Hidx|split; [exact Hlen|]]. exists []. rewrite app_nil_r.
    split; [reflexivity|]. split; [constructor|]. split; [by intros r ?%elem_of_nil|auto]. }
  destruct (push_region_handles _ _ _ (proj1 Hidx) Hlen Hp) as (Eh & Ec & El & Em).
  destruct (IH ltac:(lia) El) as (Hidx' & Hlen' & l & El' & Hnd & Hl & Hnew).
  split; [exact Hidx'|split; [exact Hlen'|]]. exists (i :: l).
  split; [by rewrite El', Eh, <-app_assoc|]. split; [|split].
  - constructor; [|exact Hnd]. intros [Hn _]%Hl. by rewrite lookup_insert_eq in Hn.
  - intros r [->|Hr]%elem_of_cons.
    + split; [exact Hi|]. exists q. eapply grows_owned; [exact Hg|]. apply lookup_insert_eq.
    + destruct (Hl r Hr) as [Hn Hq]. split; [|exact Hq].
      by apply lookup_insert_None in Hn as [? _].
  - intros r x Hr. destruct (Hnew r x Hr) as [Hr1|Hr1]; [|right; by right].
    apply lookup_insert_Some in Hr1 as [[<- _]|[_ Hr1]]; [right; by left|by left].
Qed.

Lemma holds_grows own p own' p' q :
  grows own p own' p' ->
  0 <= current_idx p <= Z.of_nat PROC_REGION_MAX -> length (p_regions p) = PROC_REGION_MAX ->
  holds own p q -> holds own' p' q.
Proof.
  intros Hg Hidx Hlen (r & Hr & Hq).
  destruct (grows_handles _ _ _ _ Hg Hidx Hlen) as (_ & _ & l & E & _).
  exists r. split; [rewrite E; apply elem_of_app; by left|]. by eapply grows_owned.
Qed.

(** A page owned only after growing is held by the process. *)
Lemma holds_new own p own' p' q :
  grows own p own' p' ->
  0 <= current_idx p <= Z.of_nat PROC_REGION_MAX -> length (p_regions p) = PROC_REGION_MAX ->
  owns_page own' q -> owns_page own q \/ holds own' p' q.
Proof.
  intros Hg Hidx Hlen (r & Hr).
  destruct (grows_handles _ _ _ _ Hg Hidx Hlen) as (_ & _ & l & E & _ & _ & Hnew).
  destruct (Hnew r _ Hr) as [Ho|Hl]; [left; by exists r|right].
  exists r. split; [rewrite E; apply elem_of_app; by right|exact Hr].
Qed.

(** ** One process: what keeps [proc_ok] *)

(** The walk reads only the pages of the page table. *)
Lemma points_to_frame m m' root i t :
  (forall x, root <= x < root + PAGE_SIZE -> load8 m' x = load8 m x) ->
  points_to m' root i t <-> points_to m root i t.
Proof.
  intros Hm. unfold points_to.
  assert (E : 0 <= i < 1024 -> load32 m' (root + 4 * i) = load32 m (root + 4 * i)).
  { intros Hi. apply load32_ext. intros k Hk. apply Hm. unfold PAGE_SIZE. lia. }
  split; intros (Hi & Ht & El); (split; [exact Hi|split; [exact Ht|]]);
    [rewrite <-(E Hi)|rewrite (E Hi)]; exact El.
Qed.

Section Frame.
Context (own own' : gmap Z (Z * Z)) (m m' : mem) (root : Z).
Context (Hm : forall q x, pt_page m root q -> q <= x < q + PAGE_SIZE -> load8 m' x = load8 m x).

Lemma frame_points i t : points_to m' root i t <-> points_to m root i t.
Proof. apply points_to_frame. intros x Hx. apply (Hm root); [by left|exact Hx]. Qed.

Lemma frame_page q : pt_page m' root q <-> pt_page m root q.
Proof. unfold pt_page. by setoid_rewrite frame_points. Qed.

Lemma frame_slot q k : pt_page m root q -> 0 <= k < 1024 ->
  load32 m' (q + 4 * k) = load32 m (q + 4 * k).
Proof.
  intros Hq Hk. apply load32_ext. intros j Hj. apply (Hm q); [exact Hq|].
  unfold PAGE_SIZE. lia.
Qed.

Lemma frame_wf :
  (forall q, pt_page m root q -> owns_page own q -> owns_page own' q) ->
  pt_wf own m root -> pt_wf own' m' root.
Proof.
  intros Ho Hwf. split.
  - apply Ho; [by left|apply Hwf].
  - intros i Hi. rewrite frame_slot by (exact Hi || by left).
    destruct (pt_entries _ _ _ Hwf i Hi) as [E|(t & Ht & Hot & Hne)]; [by left|right].
    exists t. split; [by apply frame_points|]. split; [|exact Hne].
    apply Ho; [right; by exists i|exact Hot].
  - intros i j t Hi%frame_points Hj%frame_points. by eapply pt_distinct.
Qed.

Lemma frame_walk va : pt_wf own m root -> sv32_walk m' root va = sv32_walk m root va.
Proof.
  intros Hwf. pose proof (vpn1_range va) as Hr.
  destruct (pt_entries _ _ _ Hwf _ Hr) as [E|(t & Ht & _)].
  - rewrite (walk_invalid m), (walk_invalid m'); [reflexivity| |exact E].
    by rewrite frame_slot by (exact Hr || by left).
  - rewrite (walk_points_to m _ _ t Ht), (walk_points_to m' _ _ t) by (by apply frame_points).
    unfold walk_leaf. rewrite frame_slot; [reflexivity| |apply vpn0_range].
    right. by exists (vpn1_of va).
Qed.
End Frame.

(** [p'] is [p] with more handles and possibly other memory around it. *)
Lemma proc_ok_extend own own' m m' tbl tbl' p p' :
  proc_ok own m tbl p ->
  proc_shape p' -> 0 <= current_idx p' <= Z.of_nat PROC_REGION_MAX ->
  page_table p' = page_table p -> shm_mappings p' = shm_mappings p ->
  (forall q, holds own p q -> holds own' p' q) ->
  (forall q x, pt_page m (page_table p) q -> q <= x < q + PAGE_SIZE -> load8 m' x = load8 m x) ->
  (forall i id opa, attached (shm_mappings p) i id -> object_pa tbl id opa ->
     object_pa tbl' id opa) ->
  proc_ok own' m' tbl' p'.
Proof.
  intros Hok Hsh' Hidx' Er Em Hh Hm Hs.
  destruct Hok as [Hsh Hidx Hwf Hpg Hu Hv Ha].
  split; [exact Hsh'|exact Hidx'| | | | |]; rewrite ?Er, ?Em.
  - apply (frame_wf own own' m m' _ Hm); [|exact Hwf].
    intros q Hq _. destruct (Hh q (Hpg q Hq)) as (r & _ & Hr). by exists r.
  - intros q Hq%(frame_page m m' _ Hm). by apply Hh, Hpg.
  - intros va pa fl Hva. rewrite (frame_walk own m m' _ Hm va Hwf). intros Hw Hfl.
    destruct (Hu va pa fl Hva Hw Hfl) as [(q & Hq & Hn & Hr)|(i & id & opa & Hi & Hsp & Hob & E)].
    + left. exists q. split; [by apply Hh|]. split; [|exact Hr].
      by rewrite (frame_page m m' _ Hm).
    + right. exists i, id, opa. split; [exact Hi|]. split; [exact Hsp|].
      split; [by eapply Hs|exact E].
  - exact Hv.
  - intros i id Hi. destruct (Ha i id Hi) as (opa & Hob & Hw). exists opa.
    split; [by eapply Hs|]. intros va Hva Hsp.
    rewrite (frame_walk own m m' _ Hm va Hwf). by apply Hw.
Qed.

Lemma proc_ok_frame own own' m m' tbl tbl' p :
  proc_ok own m tbl p ->
  (forall r x, r ∈ handles p -> own !! r = Some x -> own' !! r = Some x) ->
  (forall q x, pt_page m (page_table p) q -> q <= x < q + PAGE_SIZE -> load8 m' x = load8 m x) ->
  (forall i id opa, attached (shm_mappings p) i id -> object_pa tbl id opa ->
     object_pa tbl' id opa) ->
  proc_ok own' m' tbl' p.
Proof.
  intros Hok Ho Hm Hs. eapply proc_ok_extend;
    [exact Hok|apply Hok|apply Hok|reflexivity|reflexivity| |exact Hm|exact Hs].
  intros q (r & Hr & Hq). exists r. split; [exact Hr|]. by apply Ho.
Qed.

Lemma set_mappings_id p : set_mappings p (shm_mappings p) = p.
Proof. by destruct p. Qed.

Lemma handles_set_mappings p l : handles (set_mappings p l) = handles p.
Proof. reflexivity. Qed.

Section MapPage.
Context {H : Type} `{!PageHeap H} (lo hi : Z) `{!PageHeapSpec H lo hi}.
Implicit Types (h : H) (p : process).

(** The pages of an extended page table are held by the process. *)
Lemma extends_pages h p h' p' tbl q :
  proc_ok (ph_owned h) (ph_mem h) tbl p -> extends lo hi h p h' p' ->
  pt_page (ph_mem h') (page_table p') q -> holds (ph_owned h') p' q.
Proof.
  intros Hp Hex Hq. pose proof (ex_grows _ _ _ _ _ _ Hex) as Hg.
  destruct (ex_new _ _ _ _ _ _ Hex q Hq) as [Hold|Hno].
  - eapply holds_grows; [exact Hg|apply Hp|apply Hp|]. by apply (po_pages _ _ _ _ Hp).
  - destruct (holds_new _ _ _ _ q Hg (po_idx _ _ _ _ Hp)) as [Ho|Ho];
      [apply Hp| |destruct (Hno Ho)|exact Ho].
    apply (pt_page_owned lo hi h' p'); [apply Hex|exact Hq].
Qed.

Lemma extends_not_page h p h' p' q :
  extends lo hi h p h' p' -> owns_page (ph_owned h) q ->
  ~ pt_page (ph_mem h) (page_table p) q -> ~ pt_page (ph_mem h') (page_table p') q.
Proof.
  intros Hex Ho Hn Hq. destruct (ex_new _ _ _ _ _ _ Hex q Hq) as [Hold|Hno]; auto.
Qed.

Lemma extends_shape h p h' p' :
  extends lo hi h p h' p' -> proc_shape p ->
  0 <= current_idx p <= Z.of_nat PROC_REGION_MAX ->
  proc_shape p' /\ 0 <= current_idx p' <= Z.of_nat PROC_REGION_MAX.
Proof.
  intros Hex (Hl & Hm & Hs) Hidx. pose proof (ex_grows _ _ _ _ _ _ Hex) as Hg.
  destruct (grows_handles _ _ _ _ Hg Hidx Hl) as (Hidx' & Hl' & _).
  destruct (grows_fields _ _ _ _ Hg) as (_ & _ & _ & _ & Em & Es).
  split; [|exact Hidx']. unfold proc_shape. rewrite Em, Es. auto.
Qed.

(** [map_page] of one page, the new translation being to a page the process
    holds or to an object it attaches with [maps]. *)
Lemma proc_ok_map h p va pa fl h' p' tbl tbl' maps :
  ph_ok h -> proc_ok (ph_owned h) (ph_mem h) tbl p ->
  0 <= va < 2 ^ 32 -> 0 <= pa < 2 ^ 32 -> leaf_flags fl ->
  map_page h p va pa fl = Ret (h', p') ->
  length maps = PROC_SHM_MAX ->
  (Z.land (Z.lor fl PAGE_V) PAGE_U <> 0 ->
     (holds (ph_owned h) p pa /\ ~ pt_page (ph_mem h) (page_table p) pa) \/
     (exists i id, attached maps i id /\ same_page va (shm_page i) /\ object_pa tbl' id pa)) ->
  (forall i id, attached (shm_mappings p) i id -> attached maps i id) ->
  (forall i mp, maps !! i = Some mp -> mapping_used mp = true ->
     shm_mappings p !! i = Some mp /\ ~ same_page (shm_page i) va \/
     (m_vaddr mp = shm_page i /\ va / PAGE_SIZE = shm_page i / PAGE_SIZE /\
      fl = SHM_FLAGS /\ object_pa tbl' (m_shm_id mp) pa)) ->
  (forall i id opa, attached (shm_mappings p) i id -> object_pa tbl id opa ->
     object_pa tbl' id opa) ->
  proc_ok (ph_owned h') (ph_mem h') tbl' (set_mappings p' maps) /\
  extends lo hi h p h' p'.
Proof.
  intros Hok Hp Hva Hpa Hfl Hmap Hlen Hnew Hkeep Hmaps Hs.
  destruct (map_page_spec lo hi _ _ _ _ _ _ _ Hok (po_wf _ _ _ _ Hp) Hva Hpa Hfl Hmap)
    as (Hex & Hw & _).
  split; [|exact Hex]. pose proof (ex_grows _ _ _ _ _ _ Hex) as Hg.
  destruct (extends_shape _ _ _ _ Hex (po_shape _ _ _ _ Hp) (po_idx _ _ _ _ Hp))
    as [(Hl & _ & Hst) Hidx].
  assert (Hh : forall q, holds (ph_owned h) p q -> holds (ph_owned h') p' q).
  { intros q. eapply holds_grows; [exact Hg|apply Hp|apply Hp]. }
  assert (Hnp : forall q, holds (ph_owned h) p q -> ~ pt_page (ph_mem h) (page_table p) q ->
    ~ pt_page (ph_mem h') (page_table p') q).
  { intros q (r & _ & Hr). eapply extends_not_page; [exact Hex|by exists r]. }
  split; simpl.
  - split_and!; [exact Hl|exact Hlen|exact Hst].
  - exact Hidx.
  - apply Hex.
  - intros q. by apply (extends_pages _ _ _ _ tbl q Hp Hex).
  - intros vb pb flb Hvb. rewrite (Hw vb Hvb).
    destruct (Z.eqb_spec (vb / PAGE_SIZE) (va / PAGE_SIZE)) as [E|E].
    + intros [= <- <-] HU. destruct (Hnew HU) as [[Hq Hn]|(i & id & Hi & Hsp & Hob)].
      * left. exists pa. split; [by apply Hh|]. split; [by apply Hnp|].
        pose proof (Z.mod_pos_bound vb PAGE_SIZE eq_refl). lia.
      * right. exists i, id, pa. split; [exact Hi|]. split; [|by split].
        unfold same_page in *. congruence.
    + intros Hwb HU. destruct (po_user _ _ _ _ Hp vb pb flb Hvb Hwb HU)
        as [(q & Hq & Hn & Hr)|(i & id & opa & Hi & Hsp & Hob & Epb)].
      * left. exists q. split; [by apply Hh|]. split; [by apply Hnp|exact Hr].
      * right. exists i, id, opa. split; [by apply Hkeep|]. split; [exact Hsp|].
        split; [by eapply Hs|exact Epb].
  - intros i mp Hi Hu. destruct (Hmaps i mp Hi Hu) as [[Hold _]|[E _]]; [|exact E].
    by apply (po_vaddr _ _ _ _ Hp i mp).
  - intros i id (mp & Hi & Hu & Eid).
    destruct (Hmaps i mp Hi Hu) as [[Hold Hne]|(_ & E & -> & Hob)].
    + destruct (po_shm _ _ _ _ Hp i id) as (opa & Hob & Hwo); [by exists mp|].
      exists opa. split; [eapply Hs; [by exists mp|exact Hob]|]. intros vb Hvb Hsp.
      rewrite (Hw vb Hvb), (Hwo vb Hvb Hsp).
      destruct (Z.eqb_spec (vb / PAGE_SIZE) (va / PAGE_SIZE)) as [Ev|Ev]; [|reflexivity].
      destruct Hne. unfold same_page in *. congruence.
    + exists pa. split; [by rewrite <-Eid|]. intros vb Hvb Hsp. rewrite (Hw vb Hvb).
      unfold same_page in Hsp. rewrite Hsp, <-E, Z.eqb_refl. reflexivity.
Qed.

(** [unmap_page] of a slot that is dropped from [maps]. *)
Lemma proc_ok_unmap h p s h' tbl tbl' :
  ph_ok h -> proc_ok (ph_owned h) (ph_mem h) tbl p -> (s < PROC_SHM_MAX)%nat ->
  unmap_page h p (shm_page s) = Ret h' ->
  (forall i id opa, i <> s -> attached (shm_mappings p) i id -> object_pa tbl id opa ->
     object_pa tbl' id opa) ->
  proc_ok (ph_owned h') (ph_mem h') tbl' (set_mappings p (<[s := no_mapping]> (shm_mappings p))) /\
  extends lo hi h p h' p /\ ph_owned h' = ph_owned h.
Proof.
  intros Hok Hp Hs Hun Hkeep.
  assert (Hpage : 0 <= shm_page s < 2 ^ 32 /\ (PAGE_SIZE | shm_page s)).
  { unfold shm_page, SHM_USER_BASE, SHM_PAGE_SIZE, PAGE_SIZE, PROC_SHM_MAX in *.
    split; [lia|]. exists (0x1700 + Z.of_nat s). lia. }
  destruct (unmap_page_spec lo hi h p _ Hok (po_wf _ _ _ _ Hp) (proj1 Hpage) (proj2 Hpage))
    as (h1 & Hun1 & Hex & Ho & Hw).
  assert (h1 = h') as -> by congruence. split; [|by split].
  assert (Hfar : forall i, i <> s -> ~ same_page (shm_page i) (shm_page s)).
  { intros i Hi. unfold same_page, shm_page, SHM_PAGE_SIZE.
    rewrite !Z.div_add by done. lia. }
  assert (Hatt : forall i id, attached (<[s:=no_mapping]> (shm_mappings p)) i id ->
    i <> s /\ attached (shm_mappings p) i id).
  { intros i id (mp & Hi & Hu & E). apply list_lookup_insert_Some in Hi as [(_ & <- & _)|[Hne Hi]];
      [discriminate Hu|]. split; [done|]. by exists mp. }
  destruct (po_shape _ _ _ _ Hp) as (Hl & Hlm & Hst).
  split; simpl.
  - split_and!; [exact Hl|simpl; by rewrite length_insert|exact Hst].
  - apply Hp.
  - apply Hex.
  - intros q. by apply (extends_pages _ _ _ _ tbl q Hp Hex).
  - intros vb pb flb Hvb. rewrite (Hw vb Hvb).
    destruct (Z.eqb_spec (vb / PAGE_SIZE) (shm_page s / PAGE_SIZE)) as [E|E]; [done|].
    intros Hwb HU. destruct (po_user _ _ _ _ Hp vb pb flb Hvb Hwb HU)
      as [(q & Hq & Hn & Hr)|(i & id & opa & Hi & Hsp & Hob & Epb)].
    + left. exists q. split; [by rewrite Ho|]. split; [|exact Hr].
      destruct Hq as (r & _ & Hr'). eapply extends_not_page; [exact Hex|by exists r|exact Hn].
    + assert (Hne : i <> s) by (intros ->; apply E, Hsp).
      right. exists i, id, opa. split; [|split; [exact Hsp|split; [by eapply Hkeep|exact Epb]]].
      destruct Hi as (mp & Hi & ?). exists mp. by rewrite list_lookup_insert_ne.
  - intros i mp Hi Hu. apply list_lookup_insert_Some in Hi as [(_ & <- & _)|[Hne Hi]];
      [discriminate Hu|]. by apply (po_vaddr _ _ _ _ Hp).
  - intros i id [Hne Hi]%Hatt. destruct (po_shm _ _ _ _ Hp i id Hi) as (opa & Hob & Hwo).
    exists opa. split; [by eapply Hkeep|]. intros vb Hvb Hsp. rewrite (Hw vb Hvb), (Hwo vb Hvb Hsp).
    destruct (Z.eqb_spec (vb / PAGE_SIZE) (shm_page s / PAGE_SIZE)) as [Ev|Ev]; [|reflexivity].
    destruct (Hfar i Hne). unfold same_page in *. congruence.
Qed.
End MapPage.
