(* ===== verification/System.v ===== *)
(** The kernel-wide invariant and the shared-memory calls.

    [sys_ok h sh procs] ties allocator, shared-memory table and processes
    together: every page handle has one holder and its page is allocated,
    live processes satisfy [proc_ok], and every object's reference count is
    the number of slots mapping it over all processes.  The shared-memory
    calls of [Shm.v] preserve it. *)

From Stdlib Require Import ZArith Lia.
From S2P Require Import Prelude Memory PageHeap Allocator PageTable Shm Process KernelInv.
Open Scope Z_scope.

(** Who may hold a page handle: entry [k] of process [i], or object [k]. *)
Inductive holder : Type := HProc (i k : nat) | HShm (k : nat).

Definition held (tbl : list shm_object) (procs : list process) (a : holder) (r : Z) : Prop :=
  match a with
  | HProc i k => exists p, procs !! i = Some p /\ handles p !! k = Some r
  | HShm k => exists o, tbl !! k = Some o /\ shm_used o = true /\ so_region_idx o = r
  end.

(** Slots that map object [id]: in one slot, one process, all processes. *)
Definition mapping_refs (id : Z) (mp : shm_mapping) : nat :=
  if mapping_used mp && (m_shm_id mp =? id) then 1 else 0.
Definition proc_refs (id : Z) (p : process) : nat :=
  sum_list_with (mapping_refs id) (shm_mappings p).
Definition refs (id : Z) (procs : list process) : nat :=
  sum_list_with (proc_refs id) procs.

Record shm_ok (own : gmap Z (Z * Z)) (sh : shm_state) (procs : list process) : Prop := {
  so_len : length (shm_table sh) = SHM_MAX;
  so_obj : forall k o, shm_table sh !! k = Some o -> shm_used o = true ->
    0 < so_id o < next_shm_id sh /\ 0 < so_key o /\
    own !! so_region_idx o = Some (so_pa o, PAGE_SIZE) /\
    so_refcount o = Z.of_nat (refs (so_id o) procs);
  so_uniq : forall k1 k2 o1 o2,
    shm_table sh !! k1 = Some o1 -> shm_table sh !! k2 = Some o2 ->
    shm_used o1 = true -> shm_used o2 = true ->
    so_id o1 = so_id o2 \/ so_key o1 = so_key o2 -> k1 = k2;
  so_next : 0 < next_shm_id sh;
}.

(** An unused slot of the process table. *)
Definition free_ok (p : process) : Prop :=
  proc_shape p /\ current_idx p = 0 /\ shm_mappings p = replicate PROC_SHM_MAX no_mapping.

Section System.
Context {H : Type} `{!PageHeap H} (lo hi : Z) `{!PageHeapSpec H lo hi}.
Implicit Types (h : H) (p : process) (sh : shm_state) (procs : list process).

Record sys_ok h sh procs : Prop := {
  sys_heap : ph_ok h;
  sys_pids : pids_ok procs;
  sys_held : forall a r, held (shm_table sh) procs a r ->
    exists q, ph_owned h !! r = Some (q, PAGE_SIZE);
  sys_unique : forall a b r,
    held (shm_table sh) procs a r -> held (shm_table sh) procs b r -> a = b;
  sys_shm : shm_ok (ph_owned h) sh procs;
  sys_live : forall i p, procs !! i = Some p -> p_state p <> PROC_UNUSED ->
    proc_ok (ph_owned h) (ph_mem h) (shm_table sh) p;
  sys_free : forall i p, procs !! i = Some p -> p_state p = PROC_UNUSED -> free_ok p;
}.

(** ** Counting references *)

Lemma refs_update id procs i p p' s mp mp' :
  procs !! i = Some p -> shm_mappings p !! s = Some mp ->
  shm_mappings p' = <[s := mp']> (shm_mappings p) ->
  (refs id (<[i := p']> procs) + mapping_refs id mp = refs id procs + mapping_refs id mp')%nat.
Proof.
  intros Hi Hs E. unfold refs.
  pose proof (sum_list_with_insert (proc_refs id) procs i p p' Hi) as E1.
  pose proof (sum_list_with_insert (mapping_refs id) (shm_mappings p) s mp mp' Hs) as E2.
  rewrite <-E in E2. fold (proc_refs id p) (proc_refs id p') in E2. lia.
Qed.

Lemma refs_same id procs i p p' :
  procs !! i = Some p -> shm_mappings p' = shm_mappings p ->
  refs id (<[i := p']> procs) = refs id procs.
Proof.
  intros Hi E. pose proof (sum_list_with_insert (proc_refs id) procs i p p' Hi) as E1.
  unfold refs, proc_refs in *. rewrite E in E1. lia.
Qed.

Lemma attached_refs id procs i s p :
  procs !! i = Some p -> attached (shm_mappings p) s id -> (0 < refs id procs)%nat.
Proof.
  intros Hi (mp & Hs & Hu & E).
  pose proof (sum_list_with_ge (proc_refs id) procs i p Hi).
  pose proof (sum_list_with_ge (mapping_refs id) (shm_mappings p) s mp Hs) as E2.
  unfold mapping_refs at 1 in E2. rewrite Hu, E, Z.eqb_refl in E2. simpl in E2.
  unfold refs. fold (proc_refs id p) in E2. lia.
Qed.

Lemma refs_attached id procs :
  (0 < refs id procs)%nat ->
  exists i s p, procs !! i = Some p /\ attached (shm_mappings p) s id.
Proof.
  intros (i & p & Hi & Hp)%sum_list_with_pos.
  apply sum_list_with_pos in Hp as (s & mp & Hs & Hm). exists i, s, p. split; [exact Hi|].
  exists mp. unfold mapping_refs in Hm.
  destruct (mapping_used mp); [|simpl in Hm; lia]. simpl in Hm.
  destruct (Z.eqb_spec (m_shm_id mp) id); [auto|lia].
Qed.

Lemma free_not_attached p s id : free_ok p -> ~ attached (shm_mappings p) s id.
Proof.
  intros (_ & _ & E) (mp & Hs & Hu & _). rewrite E in Hs.
  apply lookup_replicate in Hs as [-> _]. discriminate Hu.
Qed.

Lemma free_not_held p k r : free_ok p -> handles p !! k <> Some r.
Proof. intros (_ & E & _). unfold handles. by rewrite E. Qed.

Section Facts.
Context h sh procs (Hsys : sys_ok h sh procs).
Local Abbreviation own := (ph_owned h).
Local Abbreviation tbl := (shm_table sh).

Lemma attached_live i p s id :
  procs !! i = Some p -> attached (shm_mappings p) s id -> p_state p <> PROC_UNUSED.
Proof.
  intros Hi Ha E. exact (free_not_attached p s id (sys_free _ _ _ Hsys i p Hi E) Ha).
Qed.

(** An attached identifier names an object of the table. *)
Lemma attached_object i p s id :
  procs !! i = Some p -> attached (shm_mappings p) s id ->
  exists k o, tbl !! k = Some o /\ shm_used o = true /\ so_id o = id /\
    0 < id < next_shm_id sh.
Proof.
  intros Hi Ha.
  destruct (po_shm _ _ _ _ (sys_live _ _ _ Hsys i p Hi (attached_live i p s id Hi Ha)) s id Ha)
    as (opa & (k & o & Hk & Hu & Eid & _) & _).
  exists k, o. destruct (so_obj _ _ _ (sys_shm _ _ _ Hsys) k o Hk Hu) as (Hid & _).
  rewrite <-Eid. auto.
Qed.

Lemma fresh_id_refs : refs (next_shm_id sh) procs = 0%nat.
Proof.
  destruct (decide (refs (next_shm_id sh) procs = 0%nat)) as [E|E]; [exact E|].
  destruct (refs_attached (next_shm_id sh) procs ltac:(lia)) as (i & s & p & Hi & Ha).
  destruct (attached_object i p s _ Hi Ha) as (_ & _ & _ & _ & _ & Hlt). lia.
Qed.

Lemma object_pa_used k o :
  tbl !! k = Some o -> shm_used o = true -> object_pa tbl (so_id o) (so_pa o).
Proof. intros Hk Hu. by exists k, o. Qed.

Lemma object_pa_inv id pa k o :
  object_pa tbl id pa -> tbl !! k = Some o -> shm_used o = true -> so_id o = id -> pa = so_pa o.
Proof.
  intros (k' & o' & Hk' & Hu' & Eid & Epa) Hk Hu E.
  assert (k' = k) as ->.
  { eapply (so_uniq _ _ _ (sys_shm _ _ _ Hsys)); [exact Hk'|exact Hk|exact Hu'|exact Hu|].
    left. congruence. }
  congruence.
Qed.

Lemma find_by_id_spec id :
  match find_by_id sh id with
  | Some k => exists o, tbl !! k = Some o /\ shm_used o = true /\ so_id o = id
  | None => forall k o, tbl !! k = Some o -> shm_used o = true -> so_id o <> id
  end.
Proof.
  unfold find_by_id. destruct (find_slot _ tbl) as [k|] eqn:E.
  - apply find_slot_lookup in E as (o & Ho & Hp). apply andb_true_iff in Hp as [Hu Hid].
    apply Z.eqb_eq in Hid. by exists o.
  - intros k o Hk Hu Eid. pose proof (proj1 (find_slot_None _ _) E k o Hk) as Hf.
    simpl in Hf. rewrite Hu, Eid, Z.eqb_refl in Hf. discriminate Hf.
Qed.

Lemma proc_holds_held i p q :
  procs !! i = Some p -> holds own p q ->
  exists k r, held tbl procs (HProc i k) r /\ own !! r = Some (q, PAGE_SIZE).
Proof.
  intros Hi (r & Hr & Hq). apply list_elem_of_lookup in Hr as [k Hk].
  exists k, r. split; [by exists p|exact Hq].
Qed.
End Facts.

(** ** Handles after a call *)

(** Handles that stay keep their page, new ones are fresh. *)
Lemma held_extend (own own' : gmap Z (Z * Z)) tbl tbl' procs procs' (new : holder -> Z -> Prop) :
  (forall a r, held tbl procs a r -> exists q, own !! r = Some (q, PAGE_SIZE)) ->
  (forall a b r, held tbl procs a r -> held tbl procs b r -> a = b) ->
  (forall a r, held tbl' procs' a r ->
     (held tbl procs a r /\ own' !! r = own !! r) \/
     (own !! r = None /\ new a r /\ exists q, own' !! r = Some (q, PAGE_SIZE))) ->
  (forall a b r, new a r -> new b r -> a = b) ->
  (forall a r, held tbl' procs' a r -> exists q, own' !! r = Some (q, PAGE_SIZE)) /\
  (forall a b r, held tbl' procs' a r -> held tbl' procs' b r -> a = b).
Proof.
  intros Ho Hu Hstep Hn. split.
  - intros a r Ha. destruct (Hstep a r Ha) as [[Hold E]|(_ & _ & Hq)]; [|exact Hq].
    rewrite E. by apply (Ho a).
  - intros a b r Ha Hb.
    destruct (Hstep a r Ha) as [[Ha' _]|(Hna & Na & _)];
      destruct (Hstep b r Hb) as [[Hb' _]|(Hnb & Nb & _)].
    + by apply (Hu a b r).
    + destruct (Ho a r Ha') as [q Hq]. congruence.
    + destruct (Ho b r Hb') as [q Hq]. congruence.
    + by apply (Hn a b r).
Qed.

(** Process [i] grew; the table kept its handles. *)
Lemma held_grow (own own' : gmap Z (Z * Z)) tbl tbl' procs i p p' :
  (forall a r, held tbl procs a r -> exists q, own !! r = Some (q, PAGE_SIZE)) ->
  (forall a b r, held tbl procs a r -> held tbl procs b r -> a = b) ->
  procs !! i = Some p -> grows own p own' p' ->
  0 <= current_idx p <= Z.of_nat PROC_REGION_MAX -> length (p_regions p) = PROC_REGION_MAX ->
  (forall k r, held tbl' procs (HShm k) r -> held tbl procs (HShm k) r) ->
  forall p'', handles p'' = handles p' ->
  (forall a r, held tbl' (<[i := p'']> procs) a r -> exists q, own' !! r = Some (q, PAGE_SIZE)) /\
  (forall a b r, held tbl' (<[i := p'']> procs) a r -> held tbl' (<[i := p'']> procs) b r -> a = b).
Proof.
  intros Ho Hu Hi Hg Hidx Hlen Ht p'' Ep.
  destruct (grows_handles _ _ _ _ Hg Hidx Hlen) as (_ & _ & l & El & Hnd & Hl & _).
  assert (Hkeep : forall a r, held tbl procs a r -> own' !! r = own !! r).
  { intros a r Ha. destruct (Ho a r Ha) as [q Hq]. rewrite Hq. by eapply grows_owned. }
  apply (held_extend own own' tbl tbl' procs _
    (fun a r => exists k, a = HProc i (length (handles p) + k) /\ l !! k = Some r)); [exact Ho|exact Hu| |].
  - intros [j k|k] r.
    + intros (pj & Hj & Hr). apply list_lookup_insert_Some in Hj as [(<- & <- & _)|[Hne Hj]].
      * rewrite Ep, El in Hr. apply lookup_app_Some in Hr as [Hr|[Hge Hr]].
        -- left. assert (Ha : held tbl procs (HProc i k) r) by (by exists p).
           split; [exact Ha|by apply (Hkeep (HProc i k))].
        -- right. pose proof (list_elem_of_lookup_2 _ _ _ Hr) as Hin.
           destruct (Hl r Hin) as [Hn Hq]. split; [exact Hn|]. split; [|exact Hq].
           exists (k - length (handles p))%nat. split; [f_equal; lia|exact Hr].
      * left. assert (Ha : held tbl procs (HProc j k) r) by (by exists pj).
        split; [exact Ha|by apply (Hkeep (HProc j k))].
    + intros Hk%Ht. left. split; [exact Hk|by apply (Hkeep (HShm k))].
  - intros a b r (k1 & -> & Hk1) (k2 & -> & Hk2). do 2 f_equal.
    by eapply NoDup_lookup.
Qed.

(** ** Steps that only touch what one process holds *)

(** Process [p] became [p']: it may have taken pages, and memory changed at
    most inside pages it holds. *)
Record private_step h p h' p' : Prop := {
  ps_ok : ph_ok h';
  ps_grows : grows (ph_owned h) p (ph_owned h') p';
  ps_frame : forall x,
    (forall q, holds (ph_owned h') p' q -> ~ q <= x < q + PAGE_SIZE) ->
    load8 (ph_mem h') x = load8 (ph_mem h) x;
}.

Definition regions_fit p : Prop :=
  0 <= current_idx p <= Z.of_nat PROC_REGION_MAX /\ length (p_regions p) = PROC_REGION_MAX.

Lemma grows_fit own p own' p' : grows own p own' p' -> regions_fit p -> regions_fit p'.
Proof.
  intros Hg [Hidx Hlen]. destruct (grows_handles _ _ _ _ Hg Hidx Hlen) as (? & ? & _). by split.
Qed.

Lemma proc_ok_fit own m tbl p : proc_ok own m tbl p -> regions_fit p.
Proof. intros Hp. split; [apply Hp|apply (po_shape _ _ _ _ Hp)]. Qed.

Lemma private_refl h p : ph_ok h -> private_step h p h p.
Proof. intros Hok. split; [exact Hok|constructor|reflexivity]. Qed.

Lemma private_trans h1 p1 h2 p2 h3 p3 :
  regions_fit p1 -> private_step h1 p1 h2 p2 -> private_step h2 p2 h3 p3 ->
  private_step h1 p1 h3 p3.
Proof.
  intros Hfit [O1 G1 F1] [O2 G2 F2]. pose proof (grows_fit _ _ _ _ G1 Hfit) as [Hi2 Hl2].
  split; [exact O2|by eapply grows_trans|]. intros x Hx. rewrite F2 by exact Hx.
  apply F1. intros q Hq. apply Hx. by eapply holds_grows.
Qed.

(** Page-table work is private: its pages are held by the process. *)
Lemma extends_private h p h' p' tbl :
  proc_ok (ph_owned h) (ph_mem h) tbl p -> extends lo hi h p h' p' -> private_step h p h' p'.
Proof.
  intros Hp Hex. split; [apply Hex|apply Hex|]. intros x Hx.
  apply (ex_frame _ _ _ _ _ _ Hex). intros q Hq. apply Hx.
  by eapply (extends_pages lo hi).
Qed.

(** Allocating one page and recording it is private. *)
Lemma alloc_private h p r q h' p' :
  ph_ok h -> regions_fit p -> ph_alloc h 1 = Ret (r, q, h') -> push_region p r = Ret p' ->
  private_step h p h' p' /\ holds (ph_owned h') p' q.
Proof.
  intros Hok [Hidx Hlen] Ha Hpush.
  destruct (alloc_page_spec lo hi _ _ _ _ Hok Ha) as (Hok' & Hn & Ho & Hm & _ & _ & _ & _).
  assert (Hq : holds (ph_owned h') p' q).
  { destruct (push_region_handles _ _ _ (proj1 Hidx) Hlen Hpush) as (Eh & _).
    exists r. rewrite Eh, Ho, lookup_insert_eq. split; [|reflexivity].
    apply elem_of_app. right. by apply list_elem_of_singleton. }
  split; [|exact Hq]. split; [exact Hok'| |].
  - rewrite Ho. econstructor; [exact Hn|exact Hpush|constructor].
  - intros x Hx. specialize (Hx q Hq). rewrite Hm. unfold PAGE_SIZE in *.
    apply load8_memset_out; lia.
Qed.

(** So is writing a page the process holds. *)
Lemma set_mem_private h p m q :
  ph_ok h -> holds (ph_owned h) p q ->
  (forall x, ~ q <= x < q + PAGE_SIZE -> load8 m x = load8 (ph_mem h) x) ->
  private_step h p (ph_set_mem h m) p.
Proof.
  intros Hok Hq Hm. split; rewrite ?ph_set_mem_owned, ?ph_mem_set_mem.
  - by apply ph_set_mem_ok.
  - constructor.
  - intros x Hx. apply Hm. by apply Hx.
Qed.

Lemma pids_ok_insert procs i p p' :
  pids_ok procs -> procs !! i = Some p ->
  (runnable p' = true -> pid p' = Z.of_nat i + 1) -> pids_ok (<[i := p']> procs).
Proof.
  intros [Hlen Hpid] Hi Hp. split; [by rewrite length_insert|].
  intros s Hs. destruct (decide (s = i)) as [->|Hne].
  - rewrite list_lookup_total_insert_eq by lia. exact Hp.
  - rewrite list_lookup_total_insert_ne by congruence. by apply Hpid.
Qed.

Lemma pids_ok_lookup procs i p :
  pids_ok procs -> procs !! i = Some p -> runnable p = true -> pid p = Z.of_nat i + 1.
Proof.
  intros [Hlen Hpid] Hi Hr. pose proof (lookup_lt_Some _ _ _ Hi).
  rewrite <-(aget_lookup _ _ _ Hi) in *. apply Hpid; [lia|exact Hr].
Qed.

(** Assembles the invariant after a private step of process [i]. *)
Lemma sys_private h sh procs i p h' p' p'' sh' :
  sys_ok h sh procs -> procs !! i = Some p -> regions_fit p -> private_step h p h' p' ->
  (forall k r, handles p'' !! k = Some r -> handles p' !! k = Some r) ->
  (forall k r, held (shm_table sh') procs (HShm k) r -> held (shm_table sh) procs (HShm k) r) ->
  (forall j s pj id opa, j <> i -> procs !! j = Some pj -> attached (shm_mappings pj) s id ->
     object_pa (shm_table sh) id opa -> object_pa (shm_table sh') id opa) ->
  (runnable p'' = true -> pid p'' = Z.of_nat i + 1) ->
  (p_state p'' <> PROC_UNUSED ->
     proc_ok (ph_owned h') (ph_mem h') (shm_table sh') p'') ->
  (p_state p'' = PROC_UNUSED -> free_ok p'') ->
  shm_ok (ph_owned h') sh' (<[i := p'']> procs) ->
  sys_ok h' sh' (<[i := p'']> procs).
Proof.
  intros Hsys Hi [Hidx Hlen] [Hok' Hg Hfr] Eh Hheld Hobj Hpid Hlive Hfree Hshm.
  destruct (held_grow (ph_owned h) (ph_owned h') (shm_table sh) (shm_table sh') procs i p p'
    (sys_held _ _ _ Hsys) (sys_unique _ _ _ Hsys) Hi Hg Hidx Hlen Hheld p' eq_refl) as [Ho Hu].
  assert (Hsub : forall a r, held (shm_table sh') (<[i := p'']> procs) a r ->
    held (shm_table sh') (<[i := p']> procs) a r).
  { intros [j k|k] r; [|exact (fun E => E)]. intros (pj & Hj & Hr).
    apply list_lookup_insert_Some in Hj as [(<- & <- & Hlt)|[Hne Hj]].
    - exists p'. rewrite list_lookup_insert_eq by exact Hlt. split; [reflexivity|by apply Eh].
    - exists pj. rewrite list_lookup_insert_ne by exact Hne. by split. }
  split; [exact Hok'| | | |exact Hshm| |].
  2: { intros a r Ha. apply (Ho a r), Hsub, Ha. }
  2: { intros a b r Ha Hb. apply (Hu a b r); by apply Hsub. }
  - by apply (pids_ok_insert procs i p); [apply Hsys|..].
  - intros j pj Hj Hlj. apply list_lookup_insert_Some in Hj as [(<- & <- & _)|[Hne Hj]];
      [by apply Hlive|].
    pose proof (sys_live _ _ _ Hsys j pj Hj Hlj) as Hpj.
    eapply proc_ok_frame; [exact Hpj| | |].
    + intros r x _ Hr. by eapply grows_owned.
    + intros q x Hq Hx. apply Hfr. intros q' (r' & Hr' & Ho') Hx'.
      destruct (po_pages _ _ _ _ Hpj q Hq) as (r & Hr & Hor).
      apply list_elem_of_lookup in Hr as [k Hk], Hr' as [k' Hk'].
      assert (Hrr : r <> r').
      { intros <-. assert (E : HProc j k = HProc i k'); [|congruence].
        apply (Hu _ _ r).
        - exists pj. rewrite list_lookup_insert_ne by congruence. by split.
        - exists p'. rewrite list_lookup_insert_eq by (by eapply lookup_lt_Some). by split. }
      pose proof (owned_apart lo hi h' r r' q q' Hok' (grows_owned _ _ _ _ _ _ Hg Hor) Ho' Hrr)
        as Hap. unfold apart in Hap. lia.
    + intros s id opa. apply (Hobj j s pj id opa); [congruence|exact Hj].
  - intros j pj Hj Hlj. apply list_lookup_insert_Some in Hj as [(<- & <- & _)|[Hne Hj]];
      [by apply Hfree|by apply (sys_free _ _ _ Hsys j)].
Qed.

(** A reference count changed: the object stays where it is. *)
Lemma shm_ok_recount (own own' : gmap Z (Z * Z)) sh procs procs' k o n :
  shm_ok own sh procs -> shm_table sh !! k = Some o -> shm_used o = true ->
  (forall k' x, shm_table sh !! k' = Some x -> shm_used x = true ->
     own' !! so_region_idx x = own !! so_region_idx x) ->
  (forall k' x, shm_table sh !! k' = Some x -> shm_used x = true -> k' <> k ->
     refs (so_id x) procs' = refs (so_id x) procs) ->
  n = Z.of_nat (refs (so_id o) procs') ->
  shm_ok own' (mkShmState (<[k := set_refcount o n]> (shm_table sh)) (next_shm_id sh)) procs'.
Proof.
  intros Hshm Hk Hu Ho Hrefs Hn.
  split; simpl; [by rewrite length_insert; apply Hshm| | |apply Hshm].
  - intros k' x Hx Hux. apply list_lookup_insert_Some in Hx as [(<- & <- & _)|[Hne Hx]].
    + destruct (so_obj _ _ _ Hshm k o Hk Hu) as (? & ? & Hown & _). simpl.
      rewrite (Ho k o Hk Hu). auto.
    + destruct (so_obj _ _ _ Hshm k' x Hx Hux) as (? & ? & Hown & Hrc).
      rewrite (Ho k' x Hx Hux), (Hrefs k' x Hx Hux) by congruence. auto.
  - assert (Hold : forall k' x, <[k := set_refcount o n]> (shm_table sh) !! k' = Some x ->
      shm_used x = true -> exists x', shm_table sh !! k' = Some x' /\ shm_used x' = true /\
      so_id x' = so_id x /\ so_key x' = so_key x).
    { intros k' x Hx Hux. apply list_lookup_insert_Some in Hx as [(<- & <- & _)|[_ Hx]];
        [by exists o|by exists x]. }
    intros k1 k2 o1 o2 H1 H2 U1 U2 E.
    destruct (Hold k1 o1 H1 U1) as (x1 & T1 & V1 & I1 & K1).
    destruct (Hold k2 o2 H2 U2) as (x2 & T2 & V2 & I2 & K2).
    apply (so_uniq _ _ _ Hshm k1 k2 x1 x2 T1 T2 V1 V2). rewrite I1, I2, K1, K2. exact E.
Qed.

Lemma held_recount (tbl : list shm_object) procs k o n k' r :
  tbl !! k = Some o -> held (<[k := set_refcount o n]> tbl) procs (HShm k') r ->
  held tbl procs (HShm k') r.
Proof.
  intros Hk (x & Hx & Hux & Er).
  apply list_lookup_insert_Some in Hx as [(<- & <- & _)|[_ Hx]]; [by exists o|by exists x].
Qed.

(** ** [shm_get] *)

Lemma object_pa_insert tbl k o o' id pa :
  tbl !! k = Some o -> object_pa tbl id pa ->
  so_id o <> id \/ shm_used o = false \/
    (shm_used o' = true /\ so_id o' = so_id o /\ so_pa o' = so_pa o) ->
  object_pa (<[k := o']> tbl) id pa.
Proof.
  intros Hk (k1 & o1 & Hk1 & Hu1 & Eid & Epa) Hcase.
  destruct (decide (k1 = k)) as [->|Hne].
  - assert (o1 = o) as -> by congruence. destruct Hcase as [?|[?|(? & ? & ?)]]; [congruence..|].
    exists k, o'. rewrite list_lookup_insert_eq by (by eapply lookup_lt_Some).
    split_and!; congruence.
  - exists k1, o1. by rewrite list_lookup_insert_ne by congruence.
Qed.

(** The reply for a key that has an object, and the two ways to fail. *)
Lemma shm_get_spec h sh procs key :
  sys_ok h sh procs ->
  (key <= 0 -> shm_get h sh key = Ret (-1, h, sh)) /\
  (forall k o, shm_table sh !! k = Some o -> shm_used o = true -> so_key o = key ->
     shm_get h sh key = Ret (so_id o, h, sh)) /\
  ((forall k o, shm_table sh !! k = Some o -> shm_used o = true) ->
   (forall k o, shm_table sh !! k = Some o -> so_key o <> key) ->
     shm_get h sh key = Ret (-1, h, sh)).
Proof.
  intros Hsys. pose proof (sys_shm _ _ _ Hsys) as Hshm.
  unfold shm_get. split; [|split].
  - intros Hk. by destruct (Z.leb_spec key 0); [|lia].
  - intros k o Hk Hu Ekey.
    destruct (so_obj _ _ _ Hshm k o Hk Hu) as (_ & Hpos & _).
    destruct (Z.leb_spec key 0); [lia|]. unfold find_by_key.
    destruct (find_slot _ _) as [k'|] eqn:E.
    + apply find_slot_lookup in E as (o' & Ho' & Hp'). apply andb_true_iff in Hp' as [Hu' Ek'].
      apply Z.eqb_eq in Ek'.
      assert (k' = k) as ->.
      { eapply (so_uniq _ _ _ Hshm); [exact Ho'|exact Hk|exact Hu'|exact Hu|].
        right. congruence. }
      rewrite (aget_lookup _ _ _ Hk). reflexivity.
    + pose proof (proj1 (find_slot_None _ _) E k o Hk) as Hf. simpl in Hf.
      rewrite Hu, Ekey, Z.eqb_refl in Hf. discriminate Hf.
  - intros Hfull Hnokey. destruct (key <=? 0); [reflexivity|]. unfold find_by_key.
    rewrite (proj2 (find_slot_None _ _)).
    2: { intros k o Hk. destruct (Z.eqb_spec (so_key o) key) as [E|_];
           [destruct (Hnokey k o Hk E)|apply andb_false_r]. }
    rewrite (proj2 (find_slot_None _ _)); [reflexivity|].
    intros k o Hk. by rewrite (Hfull k o Hk).
Qed.

(** A new object: its page is fresh, its identifier is [next_shm_id]. *)
Lemma shm_get_new h sh procs key ret h' sh' :
  sys_ok h sh procs -> shm_get h sh key = Ret (ret, h', sh') ->
  (h' = h /\ sh' = sh) \/
  (ret = next_shm_id sh /\ 0 < key /\ exists k r pa o,
     shm_table sh !! k = Some o /\ shm_used o = false /\
     ph_alloc h 1 = Ret (r, pa, h') /\
     (forall k' o', shm_table sh !! k' = Some o' -> shm_used o' = true -> so_key o' <> key) /\
     sh' = mkShmState (<[k := mkShm 1 ret key pa r SHM_PAGE_SIZE 0]> (shm_table sh)) (ret + 1)).
Proof.
  intros Hsys Hg. unfold shm_get in Hg.
  destruct (Z.leb_spec key 0); [outcome_inv; by left|].
  unfold find_by_key in Hg. destruct (find_slot _ _) eqn:Ek; [outcome_inv; by left|].
  destruct (find_slot (fun o => negb (shm_used o)) _) as [k|] eqn:Ef; [|outcome_inv; by left].
  apply find_slot_lookup in Ef as (o & Ho & Hu).
  destruct (ph_alloc h 1) as [[[r pa] h1]|msg|] eqn:Ha; simpl in Hg; [|done..]. outcome_inv.
  right. split; [reflexivity|]. split; [lia|]. exists k, r, pa, o.
  split; [exact Ho|]. split; [by destruct (shm_used o)|]. split; [reflexivity|].
  split; [|reflexivity]. intros k' o' Hk' Hu' E.
  pose proof (proj1 (find_slot_None _ _) Ek k' o' Hk') as Hf. simpl in Hf.
  rewrite Hu', E, Z.eqb_refl in Hf. discriminate Hf.
Qed.

(** Creating an object returns when an entry and a page are free. *)
Lemma shm_get_total h sh procs key k o n :
  sys_ok h sh procs -> 0 < key ->
  (forall k' o', shm_table sh !! k' = Some o' -> shm_used o' = true -> so_key o' <> key) ->
  shm_table sh !! k = Some o -> shm_used o = false ->
  ph_avail (lo:=lo) (hi:=hi) h (S n) -> next_shm_id sh + 1 < 2 ^ 31 ->
  exists k' r pa h', ph_alloc h 1 = Ret (r, pa, h') /\ ph_avail (lo:=lo) (hi:=hi) h' n /\
    (k' < length (shm_table sh))%nat /\
    shm_get h sh key = Ret (next_shm_id sh, h', mkShmState
      (<[k' := mkShm 1 (next_shm_id sh) key pa r SHM_PAGE_SIZE 0]> (shm_table sh))
      (next_shm_id sh + 1)).
Proof.
  intros Hsys Hkey Hnew Hk Hu Hav Hid.
  destruct (ph_alloc_total h n (sys_heap _ _ _ Hsys) Hav) as (r & pa & h' & Ha & Hav').
  destruct (find_slot_exists (fun o => negb (shm_used o)) (shm_table sh) k o Hk)
    as [k' Ek']; [by rewrite Hu|].
  exists k', r, pa, h'. split; [exact Ha|]. split; [exact Hav'|]. split; [by eapply find_slot_lt|].
  unfold shm_get. destruct (Z.leb_spec key 0); [lia|]. unfold find_by_key.
  rewrite (proj2 (find_slot_None _ _)), Ek', Ha; cbn [mbind outcome_bind].
  - unfold defined_if. rewrite (proj2 (Z.ltb_lt _ _) Hid). reflexivity.
  - intros j x Hj. destruct (shm_used x) eqn:Ux; [|reflexivity].
    destruct (Z.eqb_spec (so_key x) key) as [E|_]; [by destruct (Hnew j x Hj Ux)|reflexivity].
Qed.

(** Allocating one page leaves every owned page alone. *)
Lemma alloc_page_frame h i (p : Z) h' :
  ph_ok h -> ph_alloc h 1 = Ret (i, p, h') ->
  ph_ok h' /\ ph_owned h !! i = None /\
  ph_owned h' = <[i := (p, PAGE_SIZE)]> (ph_owned h) /\
  (forall q x, owns_page (ph_owned h) q -> q <= x < q + PAGE_SIZE ->
     load8 (ph_mem h') x = load8 (ph_mem h) x).
Proof.
  intros Hok Ha.
  destruct (alloc_page_spec lo hi _ _ _ _ Hok Ha) as (Hok' & Hn & Ho & Hm & _ & _ & _ & Hap).
  split; [exact Hok'|]. split; [exact Hn|]. split; [exact Ho|].
  intros q x Hq Hx. rewrite Hm. specialize (Hap q Hq).
  apply load8_memset_out; unfold apart, PAGE_SIZE in *; lia.
Qed.

Lemma shm_get_ok h sh procs key ret h' sh' :
  sys_ok h sh procs -> shm_get h sh key = Ret (ret, h', sh') -> sys_ok h' sh' procs.
Proof.
  intros Hsys Hg. destruct (shm_get_new _ _ _ _ _ _ _ Hsys Hg)
    as [[-> ->]|(Hret & Hkey & k & r & pa & o & Hk & Hu & Ha & Hnew & ->)]; [exact Hsys|].
  pose proof (sys_heap _ _ _ Hsys) as Hok. pose proof (sys_shm _ _ _ Hsys) as Hshm.
  destruct (alloc_page_frame h r pa h' Hok Ha) as (Hok' & Hn & Ho & Hm).
  set (o' := mkShm 1 ret key pa r SHM_PAGE_SIZE 0).
  assert (Hlt : (k < length (shm_table sh))%nat) by (by eapply lookup_lt_Some).
  assert (Hkeep : forall a s, held (shm_table sh) procs a s ->
    ph_owned h' !! s = ph_owned h !! s).
  { intros a s Hs. destruct (sys_held _ _ _ Hsys a s Hs) as [q Hq].
    rewrite Ho, lookup_insert_ne; [reflexivity|congruence]. }
  assert (Htbl : forall k' x, <[k := o']> (shm_table sh) !! k' = Some x ->
    (k' = k /\ x = o') \/ (k' <> k /\ shm_table sh !! k' = Some x)).
  { intros k' x Hx. apply list_lookup_insert_Some in Hx as [(E1 & E2 & _)|[E1 E2]].
    - left. split; [symmetry; exact E1|symmetry; exact E2].
    - right. split; [intros E; apply E1; symmetry; exact E|exact E2]. }
  destruct (held_extend (ph_owned h) (ph_owned h') (shm_table sh) (<[k := o']> (shm_table sh))
    procs procs (fun a s => a = HShm k /\ s = r) (sys_held _ _ _ Hsys) (sys_unique _ _ _ Hsys))
    as [Hheld Huniq].
  { intros [i j|j] s.
    - intros Hs. left. split; [exact Hs|by apply (Hkeep (HProc i j))].
    - intros (x & Hx & Hux & E). destruct (Htbl j x Hx) as [[-> ->]|[Hne Hx']].
      + simpl in E. subst s. right. split; [exact Hn|]. split; [split; reflexivity|]. exists pa.
        rewrite Ho. apply lookup_insert_eq.
      + assert (Hs : held (shm_table sh) procs (HShm j) s) by (by exists x).
        left. split; [exact Hs|by apply (Hkeep (HShm j))]. }
  { intros a b s [-> ->] [-> _]. reflexivity. }
  split; simpl; [exact Hok'|apply Hsys|exact Hheld|exact Huniq| | |apply Hsys].
  - pose proof (so_next _ _ _ Hshm) as Hnx.
    split; simpl; [by rewrite length_insert; apply Hshm| | |lia].
    + intros k' x Hx Hux. destruct (Htbl k' x Hx) as [[-> ->]|[Hne Hx']].
      * simpl. split; [lia|]. split; [exact Hkey|]. split; [rewrite Ho; apply lookup_insert_eq|].
        rewrite Hret. by rewrite (fresh_id_refs h sh procs Hsys).
      * destruct (so_obj _ _ _ Hshm k' x Hx' Hux) as (Hid & Hky & Hox & Hrc).
        split; [lia|]. split; [exact Hky|]. split; [|exact Hrc].
        rewrite (Hkeep (HShm k')); [exact Hox|by exists x].
    + intros k1 k2 o1 o2 H1 H2 U1 U2 E.
      destruct (Htbl k1 o1 H1) as [[-> ->]|[N1 T1]], (Htbl k2 o2 H2) as [[-> ->]|[N2 T2]];
        [reflexivity| | |by eapply (so_uniq _ _ _ Hshm)].
      * destruct (so_obj _ _ _ Hshm k2 o2 T2 U2) as (Hid & _).
        pose proof (Hnew k2 o2 T2 U2). simpl in E. destruct E; [lia|congruence].
      * destruct (so_obj _ _ _ Hshm k1 o1 T1 U1) as (Hid & _).
        pose proof (Hnew k1 o1 T1 U1). simpl in E. destruct E; [lia|congruence].
  - intros i p Hi Hl. pose proof (sys_live _ _ _ Hsys i p Hi Hl) as Hp.
    eapply proc_ok_frame; [exact Hp| | |].
    + intros s x Hs Hx. rewrite Ho, lookup_insert_ne; [exact Hx|congruence].
    + intros q x Hq Hx. destruct (po_pages _ _ _ _ Hp q Hq) as (s & _ & Hs).
      apply (Hm q x); [by exists s|exact Hx].
    + intros s id opa _ Hob. eapply object_pa_insert; [exact Hk|exact Hob|]. auto.
Qed.

(** ** [shm_attach] *)

Lemma shm_page_range s :
  (s < PROC_SHM_MAX)%nat -> 0 <= shm_page s < 2 ^ 32 /\ (PAGE_SIZE | shm_page s) /\
  u32 (SHM_USER_BASE + Z.of_nat s * SHM_PAGE_SIZE) = shm_page s.
Proof.
  unfold shm_page, SHM_USER_BASE, SHM_PAGE_SIZE, PAGE_SIZE, PROC_SHM_MAX. intros Hs.
  split; [lia|]. split; [exists (0x1700 + Z.of_nat s); lia|]. apply u32_id. lia.
Qed.

Lemma shm_page_same i j : same_page (shm_page i) (shm_page j) -> i = j.
Proof. unfold same_page, shm_page, SHM_PAGE_SIZE. rewrite !Z.div_add by done. lia. Qed.

Lemma mapping_refs_used id id' va :
  mapping_refs id (mkMapping 1 id' va) = if id' =? id then 1%nat else 0%nat.
Proof. reflexivity. Qed.

Lemma shm_attach_cases h sh p id ret h' sh' p' :
  shm_attach h sh p id = Ret (ret, h', sh', p') ->
  (ret = 0 /\ h' = h /\ sh' = sh /\ p' = p) \/
  exists k s p1, find_by_id sh id = Some k /\
    find_slot (fun mp => negb (mapping_used mp)) (shm_mappings p) = Some s /\
    ret = u32 (SHM_USER_BASE + Z.of_nat s * SHM_PAGE_SIZE) /\
    map_page h p ret (so_pa (shm_table sh !!! k)) SHM_FLAGS = Ret (h', p1) /\
    p' = set_mappings p1 (<[s := mkMapping 1 id ret]> (shm_mappings p1)) /\
    sh' = mkShmState (<[k := set_refcount (shm_table sh !!! k)
                        (so_refcount (shm_table sh !!! k) + 1)]> (shm_table sh))
            (next_shm_id sh).
Proof.
  unfold shm_attach. destruct (find_by_id sh id) as [k|] eqn:Ek.
  2: { intros E. outcome_inv. left. auto. }
  destruct (find_slot (fun mp => negb (mapping_used mp)) _) as [s|] eqn:Es.
  2: { intros E. outcome_inv. left. auto. }
  intros E. outcome_inv. destruct r as [h1 p1]. outcome_inv. right. exists k, s, p1.
  unfold SHM_FLAGS. auto 10.
Qed.

Lemma map_page_mappings h p va pa fl h' p' tbl :
  ph_ok h -> proc_ok (ph_owned h) (ph_mem h) tbl p ->
  map_page h p va pa fl = Ret (h', p') -> shm_mappings p' = shm_mappings p.
Proof.
  intros Hok Hp Hmap. destruct (map_page_inv _ _ _ _ _ _ _ Hmap) as (_ & _ & h1 & He & _).
  destruct (ensure_table_spec lo hi _ _ _ _ _ Hok (po_wf _ _ _ _ Hp) He) as (Hex1 & _).
  by apply (grows_fields _ _ _ _ (ex_grows _ _ _ _ _ _ Hex1)).
Qed.

(** Filling a free slot. *)
Definition attach_at (maps : list shm_mapping) (s : nat) (id : Z) : list shm_mapping :=
  <[s := mkMapping 1 id (shm_page s)]> maps.

Lemma attach_slot (maps : list shm_mapping) s mp id :
  maps !! s = Some mp -> mapping_used mp = false ->
  attached (attach_at maps s id) s id /\
  (forall s' id', attached maps s' id' -> attached (attach_at maps s id) s' id') /\
  (forall j mpj, attach_at maps s id !! j = Some mpj ->
     (j = s /\ mpj = mkMapping 1 id (shm_page s)) \/ (j <> s /\ maps !! j = Some mpj)).
Proof.
  intros Hs Emp. split; [|split].
  - exists (mkMapping 1 id (shm_page s)). split; [|by split].
    apply list_lookup_insert_eq. by eapply lookup_lt_Some.
  - intros s' id' (mp' & Hs' & Hu' & E'). exists mp'. split; [|by split].
    unfold attach_at. rewrite list_lookup_insert_ne; [exact Hs'|congruence].
  - intros j mpj Hj. apply list_lookup_insert_Some in Hj as [(<- & <- & _)|[? ?]]; auto.
Qed.

(** The user-visible state after a successful attach. *)
(** The process that attaches object [o], once its page is mapped. *)
Lemma attach_proc_ok h sh procs i p s mp k o h' p1 :
  sys_ok h sh procs -> procs !! i = Some p -> p_state p <> PROC_UNUSED ->
  shm_mappings p !! s = Some mp -> mapping_used mp = false -> shm_table sh !! k = Some o -> shm_used o = true ->
  map_page h p (shm_page s) (so_pa o) SHM_FLAGS = Ret (h', p1) ->
  let tbl' := <[k := set_refcount o (so_refcount o + 1)]> (shm_table sh) in
  proc_ok (ph_owned h') (ph_mem h') tbl' (set_mappings p1 (attach_at (shm_mappings p) s (so_id o))) /\
  extends lo hi h p h' p1.
Proof.
  intros Hsys Hi Hl Hs Emp Hk Hu Hmap tbl'. pose proof (sys_live _ _ _ Hsys i p Hi Hl) as Hp.
  assert (Hsl : (s < PROC_SHM_MAX)%nat).
  { destruct (po_shape _ _ _ _ Hp) as (_ & <- & _). by eapply lookup_lt_Some. }
  destruct (shm_page_range s Hsl) as (Hva & _).
  destruct (so_obj _ _ _ (sys_shm _ _ _ Hsys) k o Hk Hu) as (_ & _ & Hown & _).
  destruct (owned_phys_page lo hi h (so_pa o) (sys_heap _ _ _ Hsys) ltac:(by eexists)) as [[_ Hpa] _].
  assert (Hob : forall id' pa', object_pa (shm_table sh) id' pa' -> object_pa tbl' id' pa').
  { intros id' pa' Ho. eapply object_pa_insert; [exact Hk|exact Ho|]. right. right. auto. }
  destruct (attach_slot (shm_mappings p) s mp (so_id o) Hs Emp) as (Hnew & Hkeep & Hinv).
  assert (Hobp : object_pa tbl' (so_id o) (so_pa o)) by (apply Hob; by apply (object_pa_used sh k o)).
  apply (proc_ok_map lo hi h p (shm_page s) (so_pa o) SHM_FLAGS h' p1 (shm_table sh) tbl' _
    (sys_heap _ _ _ Hsys) Hp Hva Hpa); [|exact Hmap| | |exact Hkeep| |].
  - split; [vm_compute; split; congruence|vm_compute; congruence].
  - unfold attach_at. rewrite length_insert. apply (po_shape _ _ _ _ Hp).
  - intros _. right. exists s, (so_id o). split; [exact Hnew|]. by split.
  - intros j mpj Hj Huj. destruct (Hinv j mpj Hj) as [[-> ->]|[Hne Hj']].
    + right. by split_and!.
    + left. split; [exact Hj'|]. intros E%shm_page_same. congruence.
  - intros id' pa' opa _. apply Hob.
Qed.

Lemma shm_attach_ok h sh procs i p id ret h' sh' p' :
  sys_ok h sh procs -> procs !! i = Some p -> p_state p <> PROC_UNUSED ->
  shm_attach h sh p id = Ret (ret, h', sh', p') ->
  (ret = 0 /\ h' = h /\ sh' = sh /\ p' = p) \/
  (sys_ok h' sh' (<[i := p']> procs) /\ p_state p' = p_state p /\ pid p' = pid p /\
   exists s, (s < PROC_SHM_MAX)%nat /\ ret = shm_page s /\
     attached (shm_mappings p') s id /\
     (forall s' id', attached (shm_mappings p) s' id' -> attached (shm_mappings p') s' id') /\
     (forall id' pa, object_pa (shm_table sh) id' pa -> object_pa (shm_table sh') id' pa) /\
     (forall id', refs id' (<[i := p']> procs) =
        (refs id' procs + if Z.eqb id id' then 1 else 0)%nat)).
Proof.
  intros Hsys Hi Hl Hat.
  destruct (shm_attach_cases _ _ _ _ _ _ _ _ Hat)
    as [Hsame|(k & s & p1 & Hf & Hs & Hret & Hmap & -> & ->)]; [by left|right].
  pose proof (find_by_id_spec sh id) as Hk. rewrite Hf in Hk.
  destruct Hk as (o & Hk & Hu & Eid). rewrite (aget_lookup _ _ _ Hk) in *.
  apply find_slot_lookup in Hs as (mp & Hs & Hfree).
  assert (Emp : mapping_used mp = false) by (by destruct (mapping_used mp)). clear Hfree.
  pose proof (sys_live _ _ _ Hsys i p Hi Hl) as Hp. pose proof (sys_shm _ _ _ Hsys) as Hshm.
  assert (Hsl : (s < PROC_SHM_MAX)%nat).
  { destruct (po_shape _ _ _ _ Hp) as (_ & <- & _). by eapply lookup_lt_Some. }
  destruct (shm_page_range s Hsl) as (Hva & Hal & Eva). rewrite Eva in Hret. subst ret.
  destruct (so_obj _ _ _ Hshm k o Hk Hu) as (Hid & Hky & Hown & Hrc).
  pose proof (map_page_mappings h p _ _ _ h' p1 (shm_table sh) (sys_heap _ _ _ Hsys) Hp Hmap) as Emaps.
  rewrite Emaps in *. change (<[s := _]> (shm_mappings p)) with (attach_at (shm_mappings p) s id) in *.
  destruct (attach_proc_ok h sh procs i p s mp k o h' p1 Hsys Hi Hl Hs Emp Hk Hu Hmap) as [Hp' Hex].
  rewrite Eid in Hp'. set (maps := attach_at (shm_mappings p) s id) in *.
  set (tbl' := <[k := set_refcount o (so_refcount o + 1)]> (shm_table sh)) in *.
  assert (Hob : forall id' pa', object_pa (shm_table sh) id' pa' -> object_pa tbl' id' pa').
  { intros id' pa' Ho. eapply object_pa_insert; [exact Hk|exact Ho|]. right. right. auto. }
  destruct (attach_slot (shm_mappings p) s mp id Hs Emp) as (Hnew & Hkeep & _). fold maps in Hnew, Hkeep.
  destruct (grows_fields _ _ _ _ (ex_grows _ _ _ _ _ _ Hex)) as (Epid & Est & _ & _ & _ & _).
  assert (Hrefs : forall id', refs id' (<[i := set_mappings p1 maps]> procs) =
    (refs id' procs + if Z.eqb id id' then 1 else 0)%nat).
  { intros id'. pose proof (refs_update id' procs i p (set_mappings p1 maps) s mp
      (mkMapping 1 id (shm_page s)) Hi Hs eq_refl) as E.
    rewrite mapping_refs_used in E. unfold mapping_refs in E. rewrite Emp in E. simpl in E. lia. }
  split; [|split; [exact Est|split; [exact Epid|]]].
  2: { exists s. split; [exact Hsl|]. split; [reflexivity|]. split; [exact Hnew|].
       split; [exact Hkeep|]. split; [exact Hob|exact Hrefs]. }
  apply (sys_private h sh procs i p h' p1); try assumption.
  - by eapply proc_ok_fit.
  - by eapply extends_private.
  - intros k' r. exact (fun E => E).
  - intros k' r. by apply held_recount.
  - intros j s' pj id' pa' _ _ _. apply Hob.
  - unfold runnable. simpl. rewrite Epid, Est. apply (pids_ok_lookup procs i p); [apply Hsys|exact Hi].
  - intros _. exact Hp'.
  - simpl. rewrite Est. done.
  - apply (shm_ok_recount (ph_owned h) _ sh procs); try assumption.
    + intros k' x Hx Hux. destruct (so_obj _ _ _ Hshm k' x Hx Hux) as (_ & _ & Hox & _).
      rewrite Hox. eapply grows_owned; [apply Hex|exact Hox].
    + intros k' x Hx Hux Hne. rewrite Hrefs. destruct (Z.eqb_spec id (so_id x)) as [E|_]; [|lia].
      destruct Hne. eapply (so_uniq _ _ _ Hshm); [exact Hx|exact Hk|exact Hux|exact Hu|].
      left. congruence.
    + rewrite Hrefs, Eid, Z.eqb_refl, Hrc, Eid. lia.
Qed.

(** A known object and a free slot: attaching returns the slot's page, if
    one page for a table is left. *)
Lemma shm_attach_total h sh procs i p k o s n :
  sys_ok h sh procs -> procs !! i = Some p -> p_state p <> PROC_UNUSED ->
  shm_table sh !! k = Some o -> shm_used o = true ->
  find_slot (fun mp => negb (mapping_used mp)) (shm_mappings p) = Some s ->
  budget lo hi h p (S n) ->
  exists h' sh' p', shm_attach h sh p (so_id o) = Ret (shm_page s, h', sh', p') /\
    budget lo hi h' p' n.
Proof.
  intros Hsys Hi Hl Hk Hu Hs Hb. pose proof (sys_live _ _ _ Hsys i p Hi Hl) as Hp.
  unfold shm_attach. pose proof (find_by_id_spec sh (so_id o)) as Hf.
  destruct (find_by_id sh (so_id o)) as [k'|]; [|destruct (Hf k o Hk Hu eq_refl)].
  destruct Hf as (o' & Hk' & Hu' & Eid).
  assert (k' = k) as ->.
  { eapply (so_uniq _ _ _ (sys_shm _ _ _ Hsys)); [exact Hk'|exact Hk|exact Hu'|exact Hu|by left]. }
  rewrite Hs, (aget_lookup _ _ _ Hk).
  assert (Hsl : (s < PROC_SHM_MAX)%nat).
  { destruct (po_shape _ _ _ _ Hp) as (_ & <- & _). by eapply find_slot_lt. }
  destruct (shm_page_range s Hsl) as (_ & Hal & ->).
  destruct (so_obj _ _ _ (sys_shm _ _ _ Hsys) k o Hk Hu) as (_ & _ & Hown & _).
  assert (Halp : (PAGE_SIZE | so_pa o)).
  { apply (owned_phys_page lo hi h (so_pa o) (sys_heap _ _ _ Hsys)). by eexists. }
  destruct (map_page_total lo hi h p (shm_page s) (so_pa o) SHM_FLAGS n (sys_heap _ _ _ Hsys)
    Hal Halp (or_intror Hb)) as (h' & p1 & Hmap & Hb').
  unfold SHM_FLAGS in Hmap. rewrite Hmap. cbn [mbind outcome_bind]. do 3 eexists.
  split; [reflexivity|exact Hb'].
Qed.

(** ** [shm_detach] *)

(** Giving back a page nobody holds. *)
Lemma sys_release h sh procs r x :
  sys_ok h sh procs -> (forall a, ~ held (shm_table sh) procs a r) ->
  ph_owned h !! r = Some x ->
  exists h', ph_release h (s32 r) = Ret h' /\ sys_ok h' sh procs /\
    ph_owned h' = delete r (ph_owned h) /\ ph_mem h' = ph_mem h.
Proof.
  intros Hsys Hno Hr. pose proof (sys_heap _ _ _ Hsys) as Hok. destruct x as [st n].
  destruct (ph_owned_range _ _ _ _ Hok Hr) as (_ & _ & _ & _ & Hrange).
  rewrite s32_id by lia.
  destruct (ph_release_spec h r _ Hok Hr) as (h' & Hrel & Hok' & Ho & Hm).
  exists h'. split; [exact Hrel|]. split; [|by split].
  assert (Hkeep : forall a s, held (shm_table sh) procs a s ->
    ph_owned h' !! s = ph_owned h !! s).
  { intros a s Ha. rewrite Ho, lookup_delete_ne; [reflexivity|]. intros <-. by apply (Hno a). }
  pose proof (sys_shm _ _ _ Hsys) as Hshm.
  split; [exact Hok'|apply Hsys| |apply Hsys| | |apply Hsys].
  - intros a s Ha. rewrite (Hkeep a s Ha). by apply (sys_held _ _ _ Hsys a).
  - split; [apply Hshm| |apply Hshm|apply Hshm]. intros k o Hk Hu.
    rewrite (Hkeep (HShm k)) by (by exists o). by apply (so_obj _ _ _ Hshm k).
  - intros i p Hi Hl. pose proof (sys_live _ _ _ Hsys i p Hi Hl) as Hp.
    eapply proc_ok_frame; [exact Hp| | |].
    + intros s x Hs Hx. apply list_elem_of_lookup in Hs as [k Hk].
      rewrite (Hkeep (HProc i k)); [exact Hx|by exists p].
    + intros q x _ _. by rewrite Hm.
    + intros s id opa _ Hob. exact Hob.
Qed.

Lemma shm_ok_drop (own : gmap Z (Z * Z)) sh procs procs' k o :
  shm_ok own sh procs -> shm_table sh !! k = Some o -> shm_used o = true ->
  (forall k' x, shm_table sh !! k' = Some x -> shm_used x = true -> k' <> k ->
     refs (so_id x) procs' = refs (so_id x) procs) ->
  shm_ok own (mkShmState (<[k := shm_object_zero]> (shm_table sh)) (next_shm_id sh)) procs'.
Proof.
  intros Hshm Hk Hu Hrefs.
  assert (Hold : forall k' x, <[k := shm_object_zero]> (shm_table sh) !! k' = Some x ->
    shm_used x = true -> k' <> k /\ shm_table sh !! k' = Some x).
  { intros k' x Hx Hux. apply list_lookup_insert_Some in Hx as [(_ & <- & _)|[Hne Hx]];
      [discriminate Hux|by split]. }
  split; simpl; [by rewrite length_insert; apply Hshm| | |apply Hshm].
  - intros k' x Hx Hux. destruct (Hold k' x Hx Hux) as [Hne Hx'].
    rewrite (Hrefs k' x Hx' Hux Hne). by apply (so_obj _ _ _ Hshm k').
  - intros k1 k2 o1 o2 H1 H2 U1 U2.
    destruct (Hold _ _ H1 U1) as [_ T1], (Hold _ _ H2 U2) as [_ T2].
    by apply (so_uniq _ _ _ Hshm).
Qed.

(** What [shm_detach] of slot [s], mapping object [o] in entry [k], leaves. *)
Record detached h sh procs i p s (k : nat) (o : shm_object) h' sh' p' : Prop := {
  dt_sys : sys_ok h' sh' (<[i := p']> procs);
  dt_proc : p' = set_mappings p (<[s := no_mapping]> (shm_mappings p));
  dt_next : next_shm_id sh' = next_shm_id sh;
  dt_obj : if decide (refs (so_id o) procs = 1%nat)
    then shm_table sh' = <[k := shm_object_zero]> (shm_table sh) /\
      ph_owned h' = delete (so_region_idx o) (ph_owned h)
    else shm_table sh' = <[k := set_refcount o (so_refcount o - 1)]> (shm_table sh) /\
      ph_owned h' = ph_owned h;
  dt_walk : forall va, 0 <= va < 2 ^ 32 -> same_page va (shm_page s) ->
    sv32_walk (ph_mem h') (page_table p') va = None;
}.

Section Detach.
Context h sh procs i p (Hsys : sys_ok h sh procs) (Hi : procs !! i = Some p)
  (Hl : p_state p <> PROC_UNUSED).
Context s mp k o (Hs : shm_mappings p !! s = Some mp) (Hmu : mapping_used mp = true)
  (Hk : shm_table sh !! k = Some o) (Hu : shm_used o = true) (Hid : so_id o = m_shm_id mp).
Local Abbreviation maps' := (<[s := no_mapping]> (shm_mappings p)).
Local Abbreviation p' := (set_mappings p maps').
Local Abbreviation procs' := (<[i := p']> procs).

Lemma detach_refs id :
  refs id procs' = (refs id procs - if Z.eqb (so_id o) id then 1 else 0)%nat.
Proof.
  pose proof (refs_update id procs i p p' s mp no_mapping Hi Hs eq_refl) as E.
  unfold mapping_refs in E. rewrite Hmu, <-Hid in E. simpl in E. lia.
Qed.

Lemma detach_refs_pos : (0 < refs (so_id o) procs)%nat.
Proof. apply (attached_refs _ procs i s p Hi). by exists mp. Qed.

Lemma detach_refs_other k' x :
  shm_table sh !! k' = Some x -> shm_used x = true -> k' <> k ->
  refs (so_id x) procs' = refs (so_id x) procs.
Proof.
  intros Hx Hux Hne. rewrite detach_refs. destruct (Z.eqb_spec (so_id o) (so_id x)) as [E|_]; [|lia].
  destruct Hne. eapply (so_uniq _ _ _ (sys_shm _ _ _ Hsys)); [exact Hx|exact Hk|exact Hux|exact Hu|].
  left. congruence.
Qed.

(** Slots still attached do not name the object of the last reference. *)
Lemma detach_last_other j s' pj id :
  refs (so_id o) procs = 1%nat -> procs !! j = Some pj -> attached (shm_mappings pj) s' id ->
  (j = i -> s' <> s) -> so_id o <> id.
Proof.
  intros H1 Hj Ha Hne <-. pose proof (detach_refs (so_id o)) as E. rewrite H1, Z.eqb_refl in E.
  destruct (decide (j = i)) as [->|Hji].
  - assert (pj = p) as -> by congruence.
    assert (Hpos : (0 < refs (so_id o) procs')%nat); [|lia].
    apply (attached_refs _ procs' i s' p').
    + apply list_lookup_insert_eq. by eapply lookup_lt_Some.
    + destruct Ha as (mp' & Hs' & ?). exists mp'. simpl.
      rewrite list_lookup_insert_ne; [by split|]. intros <-. by apply Hne.
  - assert (Hpos : (0 < refs (so_id o) procs')%nat); [|lia].
    apply (attached_refs _ procs' j s' pj); [by rewrite list_lookup_insert_ne by congruence|exact Ha].
Qed.

(** The page table work and the table update, before the page is released. *)
Lemma detach_sys h1 tbl' :
  unmap_page h p (shm_page s) = Ret h1 ->
  (refs (so_id o) procs = 1%nat /\ tbl' = <[k := shm_object_zero]> (shm_table sh) \/
   tbl' = <[k := set_refcount o (so_refcount o - 1)]> (shm_table sh)) ->
  sys_ok h1 (mkShmState tbl' (next_shm_id sh)) procs' /\ ph_owned h1 = ph_owned h.
Proof.
  intros Hun Htbl. pose proof (sys_live _ _ _ Hsys i p Hi Hl) as Hp.
  pose proof (sys_shm _ _ _ Hsys) as Hshm.
  assert (Hsl : (s < PROC_SHM_MAX)%nat).
  { destruct (po_shape _ _ _ _ Hp) as (_ & <- & _). by eapply lookup_lt_Some. }
  assert (Hob : forall j s' pj id pa, procs !! j = Some pj -> attached (shm_mappings pj) s' id ->
    (j = i -> s' <> s) -> object_pa (shm_table sh) id pa -> object_pa tbl' id pa).
  { intros j s' pj id pa Hj Ha Hne Ho. destruct Htbl as [[H1 ->]| ->];
      (eapply object_pa_insert; [exact Hk|exact Ho|]).
    - left. by eapply detach_last_other.
    - right. right. by split_and!. }
  destruct (proc_ok_unmap lo hi h p s h1 (shm_table sh) tbl' (sys_heap _ _ _ Hsys) Hp Hsl Hun)
    as (Hp' & Hex & Ho).
  { intros j id pa Hne Ha. apply (Hob i j p id pa Hi Ha). done. }
  split; [|exact Ho]. apply (sys_private h sh procs i p h1 p); try assumption.
  - by eapply proc_ok_fit.
  - by eapply extends_private.
  - intros k' r. exact (fun E => E).
  - intros k' r (x & Hx & Hux & E). simpl in Hx. destruct Htbl as [[_ ->]| ->];
      apply list_lookup_insert_Some in Hx as [(<- & <- & _)|[_ Hx]];
      [discriminate Hux|by exists x|by exists o|by exists x].
  - intros j s' pj id pa Hne Hj Ha. by apply (Hob j s' pj id pa Hj Ha).
  - apply (pids_ok_lookup procs i p); [apply Hsys|exact Hi].
  - intros _. exact Hp'.
  - done.
  - rewrite Ho. destruct Htbl as [[_ ->]| ->].
    + eapply shm_ok_drop; [exact Hshm|exact Hk|exact Hu|]. apply detach_refs_other.
    + eapply shm_ok_recount; [exact Hshm|exact Hk|exact Hu|done|apply detach_refs_other|].
      rewrite detach_refs, Z.eqb_refl. destruct (so_obj _ _ _ Hshm k o Hk Hu) as (_ & _ & _ & ->).
      pose proof detach_refs_pos. lia.
Qed.

(** After the last reference, nobody holds the page of the object. *)
Lemma detach_unheld a :
  ~ held (<[k := shm_object_zero]> (shm_table sh)) procs' a (so_region_idx o).
Proof.
  intros Ha. assert (Hk' : held (shm_table sh) procs (HShm k) (so_region_idx o)) by (by exists o).
  assert (Ha' : held (shm_table sh) procs a (so_region_idx o) /\ a <> HShm k).
  { destruct a as [j l|l].
    - split; [|done]. destruct Ha as (pj & Hj & Hr).
      apply list_lookup_insert_Some in Hj as [(<- & <- & _)|[_ Hj]]; [by exists p|by exists pj].
    - destruct Ha as (x & Hx & Hux & E).
      apply list_lookup_insert_Some in Hx as [(_ & <- & _)|[Hne Hx]]; [discriminate Hux|].
      split; [by exists x|congruence]. }
  destruct Ha' as [Ha' Hne]. by apply Hne, (sys_unique _ _ _ Hsys _ _ _ Ha' Hk').
Qed.
End Detach.

Lemma shm_detach_spec h sh procs i p va :
  sys_ok h sh procs -> procs !! i = Some p -> p_state p <> PROC_UNUSED ->
  ((forall s mp, shm_mappings p !! s = Some mp -> mapping_used mp = true -> m_vaddr mp <> va) /\
   shm_detach h sh p va = Ret (-1, h, sh, p)) \/
  (exists s id k o h' sh' p', attached (shm_mappings p) s id /\ va = shm_page s /\
     shm_table sh !! k = Some o /\ shm_used o = true /\ so_id o = id /\
     shm_detach h sh p va = Ret (0, h', sh', p') /\ detached h sh procs i p s k o h' sh' p').
Proof.
  intros Hsys Hi Hl. pose proof (sys_live _ _ _ Hsys i p Hi Hl) as Hp. unfold shm_detach.
  destruct (find_slot (fun mp => mapping_used mp && (m_vaddr mp =? va)) _) as [s|] eqn:Es.
  2: { left. split; [|reflexivity]. intros s mp Hs Hu <-.
       pose proof (proj1 (find_slot_None _ _) Es s mp Hs) as Hf. simpl in Hf.
       rewrite Hu, Z.eqb_refl in Hf. discriminate Hf. }
  right. apply find_slot_lookup in Es as (mp & Hs & Hm). apply andb_true_iff in Hm as [Hmu Eva].
  apply Z.eqb_eq in Eva. pose proof (po_vaddr _ _ _ _ Hp s mp Hs Hmu) as Epg.
  rewrite (aget_lookup _ _ _ Hs), Epg. assert (Evs : va = shm_page s) by congruence.
  assert (Hatt : attached (shm_mappings p) s (m_shm_id mp)) by (by exists mp).
  pose proof (find_by_id_spec sh (m_shm_id mp)) as Hfind.
  destruct (find_by_id sh (m_shm_id mp)) as [k|].
  2: { destruct (attached_object h sh procs Hsys i p s _ Hi Hatt) as (k & o & Hk & Hu & E & _).
       destruct (Hfind k o Hk Hu E). }
  destruct Hfind as (o & Hk & Hu & Eid).
  assert (Hsl : (s < PROC_SHM_MAX)%nat).
  { destruct (po_shape _ _ _ _ Hp) as (_ & <- & _). by eapply lookup_lt_Some. }
  destruct (shm_page_range s Hsl) as (Hva & Hal & _).
  destruct (unmap_page_spec lo hi h p _ (sys_heap _ _ _ Hsys) (po_wf _ _ _ _ Hp) Hva Hal)
    as (h1 & Hun & _ & Ho1 & Hw).
  rewrite Hun. simpl. unfold drop_reference. rewrite (aget_lookup _ _ _ Hk). simpl.
  pose proof (detach_refs_pos procs i p Hi s mp o Hs Hmu Eid) as Hpos.
  destruct (so_obj _ _ _ (sys_shm _ _ _ Hsys) k o Hk Hu) as (_ & _ & Hown & Hrc).
  set (p' := set_mappings p (<[s := no_mapping]> (shm_mappings p))).
  assert (Hwalk : forall va', 0 <= va' < 2 ^ 32 -> same_page va' (shm_page s) ->
    sv32_walk (ph_mem h1) (page_table p') va' = None).
  { intros va' Hr Hsp. simpl. rewrite (Hw va' Hr). unfold same_page in Hsp.
    by rewrite Hsp, Z.eqb_refl. }
  destruct (Z.leb_spec (so_refcount o - 1) 0) as [Hlast|Hmore].
  - assert (H1 : refs (so_id o) procs = 1%nat) by lia.
    destruct (detach_sys h sh procs i p Hsys Hi Hl s mp k o Hs Hmu Hk Hu Eid h1 _ Hun
      (or_introl (conj H1 eq_refl))) as [Hsys1 _].
    destruct (sys_release h1 _ _ (so_region_idx o) (so_pa o, PAGE_SIZE) Hsys1)
      as (h2 & Hrel & Hsys2 & Ho2 & Hm2).
    { simpl. by apply (detach_unheld h sh procs i p Hsys Hi s k o Hk Hu). }
    { by rewrite Ho1. }
    rewrite Hrel. simpl. eexists s, (m_shm_id mp), k, o, h2, _, p'. do 5 (split; [assumption|]).
    split; [reflexivity|]. split; [exact Hsys2|reflexivity|reflexivity| |].
    + rewrite decide_True by exact H1. split; [reflexivity|]. by rewrite Ho2, Ho1.
    + intros va' Hr Hsp. rewrite Hm2. by apply Hwalk.
  - destruct (detach_sys h sh procs i p Hsys Hi Hl s mp k o Hs Hmu Hk Hu Eid h1 _ Hun
      (or_intror eq_refl)) as [Hsys1 _].
    simpl. eexists s, (m_shm_id mp), k, o, h1, _, p'. do 5 (split; [assumption|]).
    split; [reflexivity|]. split; [exact Hsys1|reflexivity|reflexivity| |exact Hwalk].
    rewrite decide_False by lia. split; [reflexivity|exact Ho1].
Qed.
Lemma refs_bound id procs :
  length procs = PROCS_MAX -> (forall i p, procs !! i = Some p -> length (shm_mappings p) = PROC_SHM_MAX) ->
  (refs id procs <= PROCS_MAX * PROC_SHM_MAX)%nat.
Proof.
  assert (Hsum : forall {A} (f : A -> nat) b l, (forall i x, l !! i = Some x -> (f x <= b)%nat) ->
    (sum_list_with f l <= length l * b)%nat).
  { intros A f b l. induction l as [|x l IH]; intros Hf; simpl; [lia|].
    pose proof (Hf 0%nat x eq_refl). specialize (IH (fun i => Hf (S i))). lia. }
  intros <- Hm. apply Hsum. intros i p Hi. unfold proc_refs. rewrite <-(Hm i p Hi).
  rewrite <-(Nat.mul_1_r (length _)). apply Hsum. intros s mp _. unfold mapping_refs.
  destruct (_ && _); lia.
Qed.

Lemma refcount_le h sh procs k o :
  sys_ok h sh procs -> shm_table sh !! k = Some o -> shm_used o = true -> so_refcount o <= 32.
Proof.
  intros Hsys Hk Hu. destruct (so_obj _ _ _ (sys_shm _ _ _ Hsys) k o Hk Hu) as (_ & _ & _ & ->).
  pose proof (refs_bound (so_id o) procs) as Hb.
  unfold PROCS_MAX, PROC_SHM_MAX in Hb. destruct (sys_pids _ _ _ Hsys) as [Hlen _].
  specialize (Hb Hlen). apply (Z.le_trans _ (Z.of_nat 32)); [|lia]. apply inj_le, Hb.
  intros i p Hi. destruct (decide (p_state p = PROC_UNUSED)) as [E|E].
  - apply (sys_free _ _ _ Hsys i p Hi E).
  - apply (po_shape _ _ _ _ (sys_live _ _ _ Hsys i p Hi E)).
Qed.
End System.
