(* ===== verification/Lifecycle.v ===== *)
(** Process creation and release under the kernel invariant
    ([create_process], [release_process], [shm_process_cleanup] and [yield]
    of [kernel/process.c] and [kernel/shm.c]).

    [release_process] gives back what a process holds and [create_process]
    builds an address space; both are shown to return, to preserve [sys_ok],
    and to leave the page table the code means to build. *)

From Stdlib Require Import ZArith Lia.
From S2P Require Import Prelude Memory PageHeap Allocator PageTable Shm Process KernelInv System.
Open Scope Z_scope.

(** No slot of the list is in use. *)
Definition slot_unused (maps : list shm_mapping) (s : nat) : Prop :=
  forall mp, maps !! s = Some mp -> mapping_used mp = false.

Lemma proc_refs_unused id p :
  (forall s, slot_unused (shm_mappings p) s) -> proc_refs id p = 0%nat.
Proof.
  intros Hun. destruct (decide (proc_refs id p = 0%nat)) as [E|E]; [exact E|].
  destruct (sum_list_with_pos (mapping_refs id) (shm_mappings p)) as (s & mp & Hs & Hm);
    [unfold proc_refs in E; lia|].
  unfold mapping_refs in Hm. rewrite (Hun s mp Hs) in Hm. simpl in Hm. lia.
Qed.

Lemma free_unused p s : free_ok p -> slot_unused (shm_mappings p) s.
Proof. intros (_ & _ & ->) mp Hs. by apply lookup_replicate in Hs as [-> _]. Qed.

Lemma refs_same_count id procs i p p' :
  procs !! i = Some p -> proc_refs id p' = proc_refs id p ->
  refs id (<[i := p']> procs) = refs id procs.
Proof.
  intros Hi E. pose proof (sum_list_with_insert (proc_refs id) procs i p p' Hi) as E1.
  unfold refs. lia.
Qed.

Section Lifecycle.
Context {H : Type} `{!PageHeap H} (lo hi : Z) `{!PageHeapSpec H lo hi}.
Implicit Types (h : H) (p : process) (sh : shm_state) (procs : list process).
Local Abbreviation sys_ok := (sys_ok lo hi).

(** ** Detaching everything *)

Lemma cleanup_slot_ok h sh procs i p s :
  sys_ok h sh procs -> procs !! i = Some p -> p_state p <> PROC_UNUSED ->
  (s < PROC_SHM_MAX)%nat ->
  exists h' sh' p', cleanup_slot (h, sh, p) s = Ret (h', sh', p') /\
    sys_ok h' sh' (<[i := p']> procs) /\
    (p' = p \/ p' = set_mappings p (<[s := no_mapping]> (shm_mappings p))) /\
    slot_unused (shm_mappings p') s.
Proof.
  intros Hsys Hi Hl Hs. pose proof (sys_live _ _ _ _ _ Hsys i p Hi Hl) as Hp.
  destruct (po_shape _ _ _ _ Hp) as (_ & Hlen & _).
  destruct (lookup_lt_is_Some_2 (shm_mappings p) s) as [mp Hmp]; [lia|].
  unfold cleanup_slot. rewrite (aget_lookup _ _ _ Hmp).
  destruct (mapping_used mp) eqn:Hu.
  2: { exists h, sh, p. split; [reflexivity|]. rewrite list_insert_id by exact Hi.
       split; [exact Hsys|]. split; [by left|]. intros mp' E. congruence. }
  pose proof (po_vaddr _ _ _ _ Hp s mp Hmp Hu) as Eva.
  destruct (shm_detach_spec lo hi h sh procs i p (m_vaddr mp) Hsys Hi Hl)
    as [[Hno _]|(s' & id & k & o & h' & sh' & p' & Ha & Es & _ & _ & _ & Hd & Hdt)].
  { by destruct (Hno s mp Hmp Hu). }
  assert (s' = s) as ->.
  { apply shm_page_same. unfold same_page. congruence. }
  rewrite Hd. simpl. exists h', sh', p'. split; [reflexivity|].
  split; [exact (dt_sys _ _ _ _ _ _ _ _ _ _ _ _ _ Hdt)|].
  pose proof (dt_proc _ _ _ _ _ _ _ _ _ _ _ _ _ Hdt) as ->.
  split; [by right|]. intros mp' Hmp'. simpl in Hmp'.
  rewrite list_lookup_insert_eq in Hmp' by lia. by injection Hmp' as <-.
Qed.

Lemma cleanup_loop l : forall h sh procs i p,
  sys_ok h sh procs -> procs !! i = Some p -> p_state p <> PROC_UNUSED ->
  (forall s, s ∈ l -> (s < PROC_SHM_MAX)%nat) ->
  exists h' sh' maps', for_each cleanup_slot l (h, sh, p) = Ret (h', sh', set_mappings p maps') /\
    sys_ok h' sh' (<[i := set_mappings p maps']> procs) /\
    (forall s, s ∈ l \/ slot_unused (shm_mappings p) s -> slot_unused maps' s).
Proof.
  induction l as [|s l IH]; intros h sh procs i p Hsys Hi Hl Hlt.
  { exists h, sh, (shm_mappings p). rewrite set_mappings_id.
    rewrite list_insert_id by exact Hi. split; [reflexivity|]. split; [exact Hsys|].
    intros s [Hs|Hs]; [by apply elem_of_nil in Hs|exact Hs]. }
  destruct (cleanup_slot_ok h sh procs i p s Hsys Hi Hl ltac:(apply Hlt; by left))
    as (h1 & sh1 & p1 & Hc & Hsys1 & Hp1 & Hun).
  assert (Hset : forall m, set_mappings p1 m = set_mappings p m) by (by destruct Hp1; subst p1).
  assert (Hst : p_state p1 = p_state p) by (by destruct Hp1; subst p1).
  assert (Hmono : forall s', slot_unused (shm_mappings p) s' -> slot_unused (shm_mappings p1) s').
  { intros s' Hs'. destruct Hp1; subst p1; [exact Hs'|]. simpl. intros mp Hmp.
    apply list_lookup_insert_Some in Hmp as [(_ & <- & _)|[_ Hmp]]; [reflexivity|by apply Hs']. }
  destruct (IH h1 sh1 (<[i := p1]> procs) i p1 Hsys1) as (h2 & sh2 & maps2 & Hf & Hsys2 & Hun2).
  { apply list_lookup_insert_eq. by eapply lookup_lt_Some. }
  { by rewrite Hst. }
  { intros s' Hs'. apply Hlt. by right. }
  rewrite Hset, list_insert_insert_eq in Hsys2. rewrite Hset in Hf.
  exists h2, sh2, maps2. split; [cbn [for_each]; rewrite Hc; exact Hf|].
  split; [exact Hsys2|]. intros s' [[->|Hs']%elem_of_cons|Hs']; apply Hun2; auto.
Qed.

(** Afterwards no slot is in use. *)
Lemma shm_process_cleanup_ok h sh procs i p :
  sys_ok h sh procs -> procs !! i = Some p -> p_state p <> PROC_UNUSED ->
  exists h' sh' maps', shm_process_cleanup h sh p = Ret (h', sh', set_mappings p maps') /\
    sys_ok h' sh' (<[i := set_mappings p maps']> procs) /\
    (forall s, slot_unused maps' s).
Proof.
  intros Hsys Hi Hl.
  destruct (cleanup_loop (seq 0 PROC_SHM_MAX) h sh procs i p Hsys Hi Hl)
    as (h' & sh' & maps' & Hf & Hsys' & Hun).
  { intros s. apply elem_of_seq0. }
  exists h', sh', maps'. split; [exact Hf|]. split; [exact Hsys'|]. intros s.
  destruct (decide (s < PROC_SHM_MAX)%nat) as [Hs|Hs].
  - apply Hun. left. apply elem_of_seq. lia.
  - intros mp Hmp. apply lookup_lt_Some in Hmp as Hlt.
    assert (Hi' : <[i := set_mappings p maps']> procs !! i = Some (set_mappings p maps')).
    { apply list_lookup_insert_eq. by eapply lookup_lt_Some. }
    destruct (po_shape _ _ _ _ (sys_live _ _ _ _ _ Hsys' i _ Hi' Hl)) as (_ & Hlen & _).
    simpl in Hlen. lia.
Qed.

(** ** Giving the pages back *)

Definition region_list p (l : list nat) : list Z := (fun j => p_regions p !!! j) <$> l.

Lemma region_list_cons p j l r :
  r ∈ region_list p (j :: l) <-> r = p_regions p !!! j \/ r ∈ region_list p l.
Proof. apply elem_of_cons. Qed.

Lemma release_loop l : forall h sh procs p,
  sys_ok h sh procs -> NoDup l -> (forall j, j ∈ l -> (j < length (p_regions p))%nat) ->
  (forall r, r ∈ region_list p l -> r <> 0 ->
     (forall a, ~ held (shm_table sh) procs a r) /\ is_Some (ph_owned h !! r)) ->
  (forall j k, j ∈ l -> k ∈ l -> p_regions p !!! j <> 0 ->
     p_regions p !!! j = p_regions p !!! k -> j = k) ->
  exists h' regs, for_each release_slot l (h, p) = Ret (h', set_regions p regs) /\
    sys_ok h' sh procs /\ length regs = length (p_regions p) /\ ph_mem h' = ph_mem h /\
    (forall r, ph_owned h' !! r =
       if decide (r ∈ region_list p l /\ r <> 0) then None else ph_owned h !! r).
Proof.
  induction l as [|j l IH]; intros h sh procs p Hsys Hnd Hlt Hown Hdist.
  { exists h, (p_regions p). split; [by destruct p|]. split; [exact Hsys|].
    split; [reflexivity|]. split; [reflexivity|]. intros r. rewrite decide_False; [reflexivity|].
    by intros [?%elem_of_nil _]. }
  apply NoDup_cons in Hnd as [Hj Hnd]. cbn [for_each].
  assert (Hhead : p_regions p !!! j ∈ region_list p (j :: l)) by (left).
  destruct (Z.eqb_spec (p_regions p !!! j) 0) as [E0|E0].
  - destruct (IH h sh procs p Hsys Hnd) as (h' & regs & Hf & Hs & Hl & Hm & Ho).
    + intros k Hk. apply Hlt. by right.
    + intros r Hr. apply Hown. by right.
    + intros k k' Hk Hk'. apply Hdist; by right.
    + exists h', regs. split; [cbn; rewrite E0; exact Hf|]. split; [exact Hs|]. split; [exact Hl|].
      split; [exact Hm|]. intros r. rewrite (Ho r). apply decide_ext.
      rewrite region_list_cons, E0. tauto.
  - destruct (Hown _ Hhead E0) as [Hno [x Hx]].
    destruct (sys_release lo hi h sh procs _ x Hsys Hno Hx) as (h1 & Hrel & Hsys1 & Ho1 & Hm1).
    set (p1 := set_regions p (<[j:=0]> (p_regions p))).
    assert (Hsame : forall k, k ∈ l -> p_regions p1 !!! k = p_regions p !!! k).
    { intros k Hk. apply aget_set_other. intros <-. by apply Hj. }
    assert (Hlist : region_list p1 l = region_list p l).
    { apply list_fmap_ext. intros i k Hk. apply Hsame. by eapply list_elem_of_lookup_2. }
    assert (Hne : forall r, r ∈ region_list p l -> r <> 0 -> r <> p_regions p !!! j).
    { intros r Hr Hr0 ->. apply list_elem_of_fmap in Hr as (k & Ek & Hk).
      assert (j = k) as -> by (apply Hdist; [by left|by right|exact E0|exact Ek]).
      by apply Hj. }
    destruct (IH h1 sh procs p1 Hsys1 Hnd) as (h' & regs & Hf & Hs & Hl & Hm & Ho).
    + intros k Hk. simpl. rewrite length_insert. apply Hlt. by right.
    + intros r. rewrite Hlist. intros Hr Hr0.
      destruct (Hown r ltac:(by right) Hr0) as [Hn Hs]. split; [exact Hn|].
      rewrite Ho1, lookup_delete_ne by (intros E; by apply (Hne r Hr Hr0)). exact Hs.
    + intros k k' Hk Hk'. rewrite !Hsame by assumption. apply Hdist; by right.
    + exists h', regs. split.
      { cbn [release_slot]. rewrite (proj2 (Z.eqb_neq _ _) E0), Hrel. exact Hf. }
      split; [exact Hs|].
      split; [simpl in Hl; by rewrite length_insert in Hl|].
      split; [by rewrite Hm|]. intros r. rewrite (Ho r), Hlist, Ho1.
      pose proof (region_list_cons p j l) as Hcons.
      destruct (decide (r ∈ region_list p l /\ r <> 0)) as [A|A],
        (decide (r ∈ region_list p (j :: l) /\ r <> 0)) as [B|B]; [reflexivity| | |].
      * destruct B. split; [apply Hcons; right; apply A|apply A].
      * destruct B as [[->|B]%Hcons B0]; [apply lookup_delete_eq|destruct A; by split].
      * apply lookup_delete_ne. intros E. apply B. rewrite <-E. split; [|exact E0].
        apply Hcons. left. reflexivity.
Qed.

(** The process structure [release_process] leaves behind. *)
Definition released p (regs : list Z) : process :=
  mkProcess 0 PROC_UNUSED 0 0 regs 0 (replicate PROC_SHM_MAX no_mapping) (p_stack p).

Lemma released_free p regs :
  proc_shape p -> length regs = PROC_REGION_MAX -> free_ok (released p regs).
Proof. intros (_ & _ & Hst) Hl. split; [|by split]. split_and!; [exact Hl|reflexivity|exact Hst]. Qed.

(** A process without attached slots is taken out of the process table. *)
Lemma sys_retire h sh procs i p p'' :
  sys_ok h sh procs -> procs !! i = Some p -> regions_fit p ->
  (forall s, slot_unused (shm_mappings p) s) -> p_state p'' = PROC_UNUSED -> free_ok p'' ->
  sys_ok h sh (<[i := p'']> procs).
Proof.
  intros Hsys Hi Hfit Hun Hst Hfree.
  apply (sys_private lo hi h sh procs i p h p); try assumption.
  - apply (private_refl lo hi), (sys_heap _ _ _ _ _ Hsys).
  - intros k r Hr. by apply free_not_held in Hr.
  - intros k r. exact (fun E => E).
  - intros j s pj id opa _ _ _. exact (fun E => E).
  - unfold runnable. rewrite Hst. discriminate.
  - by intros [].
  - done.
  - pose proof (sys_shm _ _ _ _ _ Hsys) as Hshm. split; [apply Hshm| |apply Hshm|apply Hshm].
    intros k o Hk Hu. rewrite (refs_same_count _ procs i p p'' Hi); [by apply (so_obj _ _ _ Hshm k)|].
    rewrite !proc_refs_unused; [reflexivity|exact Hun|]. intros s. by apply free_unused.
Qed.

(** [release_process] returns: every page the process holds is free again,
    except the one whose handle is 0, which the code takes for an empty
    entry. *)
Lemma release_process_ok (K : kstate H) i p :
  sys_ok (k_heap K) (k_shm K) (k_procs K) -> k_procs K !! i = Some p ->
  p_state p <> PROC_UNUSED ->
  exists K' p', release_process K i = Ret K' /\
    sys_ok (k_heap K') (k_shm K') (k_procs K') /\
    k_procs K' = <[i := p']> (k_procs K) /\ p_state p' = PROC_UNUSED /\ pid p' = 0 /\
    k_current K' = k_current K /\ k_idle K' = k_idle K /\ k_csrs K' = k_csrs K /\
    (forall r, r ∈ handles p -> r <> 0 -> ph_owned (k_heap K') !! r = None).
Proof.
  intros Hsys Hi Hl. unfold release_process. rewrite (aget_lookup _ _ _ Hi).
  destruct (shm_process_cleanup_ok _ _ _ i p Hsys Hi Hl) as (h1 & sh1 & maps & Hc & Hsys1 & Hun).
  rewrite Hc. cbn [mbind outcome_bind]. set (p1 := set_mappings p maps) in *.
  set (procs1 := <[i := p1]> (k_procs K)) in *.
  assert (Hi1 : procs1 !! i = Some p1) by (apply list_lookup_insert_eq; by eapply lookup_lt_Some).
  pose proof (sys_live _ _ _ _ _ Hsys1 i p1 Hi1 Hl) as Hp1.
  pose proof (proc_ok_fit _ _ _ _ Hp1) as [Hidx Hlen].
  set (n := Z.to_nat (current_idx p)).
  assert (Hget : forall j r, (j < n)%nat -> p_regions p1 !!! j = r ->
    held (shm_table sh1) procs1 (HProc i j) r).
  { intros j r Hj <-. exists p1. split; [exact Hi1|]. unfold handles.
    rewrite lookup_take_lt by exact Hj. apply aget_Some. simpl. simpl in Hlen, Hidx. lia. }
  assert (Hfree1 : free_ok (released p1 (p_regions p1))).
  { apply released_free; [apply Hp1|exact Hlen]. }
  pose proof (sys_retire h1 sh1 procs1 i p1 (released p1 (p_regions p1)) Hsys1 Hi1 (conj Hidx Hlen) Hun eq_refl Hfree1) as Hsys2.
  assert (Hnone : forall a r, held (shm_table sh1) (<[i := released p1 (p_regions p1)]> procs1) a r ->
    held (shm_table sh1) procs1 a r /\ forall k, a <> HProc i k).
  { intros [j k|k] r; [|by split]. intros (pj & Hj & Hr).
    apply list_lookup_insert_Some in Hj as [(<- & <- & _)|[Hne Hj]];
      [by apply (free_not_held _ k r Hfree1) in Hr|]. split; [by exists pj|congruence]. }
  destruct (release_loop (seq 0 n) h1 sh1 _ p1 Hsys2) as (h2 & regs & Hf & Hsys3 & Hl3 & Hm3 & Ho3).
  { apply NoDup_seq. }
  { intros j Hj%elem_of_seq0. simpl in *. lia. }
  { intros r Hr _. apply list_elem_of_fmap in Hr as (j & -> & Hj%elem_of_seq0).
    pose proof (Hget j _ Hj eq_refl) as Hh. split.
    - intros a Ha. destruct (Hnone a _ Ha) as [Ha' Hne]. apply (Hne j).
      by apply (sys_unique _ _ _ _ _ Hsys1 _ _ _ Ha' Hh).
    - destruct (sys_held _ _ _ _ _ Hsys1 _ _ Hh) as [q Hq]. by eexists. }
  { intros j k Hj%elem_of_seq0 Hk%elem_of_seq0 _ E.
    assert (HProc i j = HProc i k) by (apply (sys_unique _ _ _ _ _ Hsys1 _ _ (p_regions p1 !!! j));
      apply Hget; [exact Hj|reflexivity|exact Hk|congruence]). congruence. }
  change (Z.to_nat (current_idx p1)) with n. rewrite Hf. cbn [mbind outcome_bind].
  assert (Hclear : clear_mappings (set_current_idx (set_page_table (set_ids (set_regions p1 regs)
    0 PROC_UNUSED 0) 0) 0) = released p1 regs).
  { apply clear_mappings_spec. apply (po_shape _ _ _ _ Hp1). }
  eexists _, (released p1 regs). split; [rewrite Hclear; reflexivity|].
  simpl in *. split_and!; try reflexivity.
  - pose proof (sys_retire h2 sh1 (<[i := released p1 (p_regions p1)]> procs1) i
      (released p1 (p_regions p1)) (released p1 regs)) as Hret.
    unfold procs1 in Hret. rewrite !list_insert_insert_eq in Hret. apply Hret; try reflexivity.
    + unfold procs1 in Hsys3. by rewrite list_insert_insert_eq in Hsys3.
    + apply list_lookup_insert_eq. by eapply lookup_lt_Some.
    + split; [simpl; lia|exact Hlen].
    + intros s. by apply free_unused.
    + apply released_free; [apply Hp1|]. by rewrite Hl3.
  - intros r Hr Hr0. rewrite (Ho3 r). rewrite decide_True; [reflexivity|]. split; [|exact Hr0].
    unfold handles in Hr. apply list_elem_of_lookup in Hr as [j Hj].
    apply lookup_take_Some in Hj as [Hj Hlt]. apply list_elem_of_fmap. exists j.
    split; [symmetry; by apply aget_lookup|]. apply elem_of_seq. lia.
Qed.
End Lifecycle.
