(* ===== verification/AddressSpace.v ===== *)
(** The address space [create_process] builds ([kernel/process.c]).

    Three loops map the kernel's RAM, the device pages and the user image.
    For each one: what the page walk gives afterwards, that the invariant of
    the process holds, and how many pages it needs in order to return. *)

From Stdlib Require Import ZArith Lia.
From S2P Require Import Prelude Memory PageHeap Allocator PageTable Shm Process KernelInv System Lifecycle.
Open Scope Z_scope.

Definition page_of (va : Z) : Z := va / PAGE_SIZE * PAGE_SIZE.

Definition KERNEL_FLAGS : Z := Z.lor (Z.lor (Z.lor PAGE_R PAGE_W) PAGE_X) PAGE_V.
Definition DEVICE_FLAGS : Z := Z.lor (Z.lor PAGE_R PAGE_W) PAGE_V.
Definition USER_FLAGS : Z := Z.lor (Z.lor (Z.lor (Z.lor PAGE_U PAGE_R) PAGE_W) PAGE_X) PAGE_V.

Lemma page_of_range va : page_of va <= va < page_of va + PAGE_SIZE.
Proof. unfold page_of, PAGE_SIZE. Z.to_euclidean_division_equations. lia. Qed.

Lemma page_of_eq va p : (PAGE_SIZE | p) -> va / PAGE_SIZE = p / PAGE_SIZE <-> page_of va = p.
Proof.
  intros [k ->]. unfold page_of. rewrite Z.div_mul by done. unfold PAGE_SIZE. lia.
Qed.

Lemma page_of_aligned va : (PAGE_SIZE | page_of va).
Proof. by exists (va / PAGE_SIZE). Qed.

Lemma aligned_step a b : (PAGE_SIZE | a) -> (PAGE_SIZE | b) -> a < b -> a + PAGE_SIZE <= b.
Proof. intros [k ->] [l ->]. unfold PAGE_SIZE. lia. Qed.

(** Second-level tables a range of addresses needs. *)
Definition tables (a b : Z) : nat :=
  if a <? b then Z.to_nat ((b - 1) / 2 ^ 22 - a / 2 ^ 22 + 1) else 0.

Section AddressSpace.
Context {H : Type} `{!PageHeap H} (lo hi : Z) `{!PageHeapSpec H lo hi}.
Implicit Types (h : H) (p : process) (tbl : list shm_object).

(** What one step of the construction keeps. *)
Record grown tbl h p h' p' : Prop := {
  gw_ok : proc_ok (ph_owned h') (ph_mem h') tbl p';
  gw_private : private_step lo hi h p h' p';
  (** pages that were owned and are no page table keep their contents *)
  gw_data : forall q x, owns_page (ph_owned h) q ->
    ~ pt_page (ph_mem h) (page_table p) q -> q <= x < q + PAGE_SIZE ->
    load8 (ph_mem h') x = load8 (ph_mem h) x;
  gw_outside : forall x, ~ lo <= x < hi -> load8 (ph_mem h') x = load8 (ph_mem h) x;
  gw_not_page : forall q, owns_page (ph_owned h) q ->
    ~ pt_page (ph_mem h) (page_table p) q -> ~ pt_page (ph_mem h') (page_table p') q;
}.

Lemma grown_refl tbl h p :
  ph_ok h -> proc_ok (ph_owned h) (ph_mem h) tbl p -> grown tbl h p h p.
Proof. intros Hok Hp. split; [exact Hp|by apply private_refl|done|done|done]. Qed.

Lemma grown_trans tbl h1 p1 h2 p2 h3 p3 :
  proc_ok (ph_owned h1) (ph_mem h1) tbl p1 ->
  grown tbl h1 p1 h2 p2 -> grown tbl h2 p2 h3 p3 -> grown tbl h1 p1 h3 p3.
Proof.
  intros Hp1 [O1 S1 D1 E1 N1] [O2 S2 D2 E2 N2].
  assert (Hmono : forall q, owns_page (ph_owned h1) q -> owns_page (ph_owned h2) q).
  { intros q. apply (grows_owns_page _ _ _ _ _ (ps_grows _ _ _ _ _ _ S1)). }
  split.
  - exact O2.
  - eapply private_trans; [by eapply proc_ok_fit|exact S1|exact S2].
  - intros q x Hq Hn Hx. rewrite (D2 q x (Hmono q Hq) (N1 q Hq Hn) Hx). by apply (D1 q).
  - intros x Hx. rewrite E2 by exact Hx. by apply E1.
  - intros q Hq Hn. apply N2; [by apply Hmono|by apply N1].
Qed.

Lemma grown_fields tbl h p h' p' : grown tbl h p h' p' -> same_fields p p'.
Proof. intros Hg. eapply grows_fields, (ps_grows _ _ _ _ _ _ (gw_private _ _ _ _ _ Hg)). Qed.

Lemma grown_heap tbl h p h' p' : grown tbl h p h' p' -> ph_ok h'.
Proof. intros Hg. apply (gw_private _ _ _ _ _ Hg). Qed.

Lemma attached_in (maps : list shm_mapping) i mp :
  maps !! i = Some mp -> mapping_used mp = true -> attached maps i (m_shm_id mp).
Proof. intros. by exists mp. Qed.

(** One page of kernel, device or user memory; no slot is attached yet. *)
Lemma map_page_grown tbl h p va pa fl h' p' :
  ph_ok h -> proc_ok (ph_owned h) (ph_mem h) tbl p ->
  (forall s, slot_unused (shm_mappings p) s) ->
  0 <= va < 2 ^ 32 -> 0 <= pa < 2 ^ 32 -> leaf_flags fl ->
  (Z.land (Z.lor fl PAGE_V) PAGE_U <> 0 ->
     holds (ph_owned h) p pa /\ ~ pt_page (ph_mem h) (page_table p) pa) ->
  map_page h p va pa fl = Ret (h', p') ->
  grown tbl h p h' p' /\
  (exists t, points_to (ph_mem h') (page_table p') (vpn1_of va) t) /\
  (forall vb, 0 <= vb < 2 ^ 32 -> sv32_walk (ph_mem h') (page_table p') vb =
     if page_of vb =? va then Some (pa + vb mod PAGE_SIZE, Z.lor fl PAGE_V)
     else sv32_walk (ph_mem h) (page_table p) vb).
Proof.
  intros Hok Hp Hun Hva Hpa Hfl Hnew Hmap.
  destruct (map_page_inv _ _ _ _ _ _ _ Hmap) as (Hal & _).
  destruct (map_page_spec lo hi _ _ _ _ _ _ _ Hok (po_wf _ _ _ _ Hp) Hva Hpa Hfl Hmap)
    as (Hex & Hw & Ht).
  destruct (proc_ok_map lo hi h p va pa fl h' p' tbl tbl (shm_mappings p) Hok Hp Hva Hpa Hfl Hmap)
    as [Hp' _].
  { apply (po_shape _ _ _ _ Hp). }
  { intros HU. left. by apply Hnew. }
  { done. }
  { intros i mp Hi Hu. rewrite (Hun i mp Hi) in Hu. discriminate Hu. }
  { done. }
  rewrite <-(map_page_mappings lo hi h p _ _ _ h' p' tbl Hok Hp Hmap), set_mappings_id in Hp'.
  pose proof (extends_private lo hi h p h' p' tbl Hp Hex) as Hpr.
  split; [|split; [exact Ht|]].
  - split; [exact Hp'|exact Hpr| | |].
    + intros q x Hq Hn Hx. apply (ex_frame _ _ _ _ _ _ Hex). intros t Htp Hxt.
      pose proof (extends_not_page lo hi h p h' p' q Hex Hq Hn) as Hn'.
      pose proof (pt_page_owned lo hi h' p' (ex_wf _ _ _ _ _ _ Hex) t Htp)
        as Hot.
      assert (Hoq : owns_page (ph_owned h') q).
      { eapply grows_owns_page; [apply Hex|exact Hq]. }
      assert (Hne : q <> t) by congruence.
      pose proof (owned_page_apart lo hi h' q t (ex_ok _ _ _ _ _ _ Hex) Hoq Hot Hne) as Hap.
      unfold apart in Hap. lia.
    + intros x Hx. apply (ex_frame _ _ _ _ _ _ Hex). intros t Htp Hxt.
      pose proof (pt_page_owned lo hi h' p' (ex_wf _ _ _ _ _ _ Hex) t Htp)
        as Hot.
      destruct (owned_phys_page lo hi h' t (ex_ok _ _ _ _ _ _ Hex) Hot) as (_ & ? & ?). lia.
    + intros q Hq Hn. by eapply (extends_not_page lo hi).
  - intros vb Hvb. rewrite (Hw vb Hvb).
    destruct (Z.eqb_spec (vb / PAGE_SIZE) (va / PAGE_SIZE)) as [E|E],
      (Z.eqb_spec (page_of vb) va) as [E'|E']; try reflexivity.
    + by apply page_of_eq in E.
    + apply page_of_eq in E'; [done|exact Hal].
Qed.

(** ** Kernel pages *)

Record layout_ok (L : layout) : Prop := {
  lay_base : (PAGE_SIZE | kernel_base L);
  lay_order : 0x11000000 <= kernel_base L <= free_ram_end L;
  lay_end : free_ram_end L <= 2 ^ 32 - PAGE_SIZE;
}.

Lemma no_slots p p' :
  same_fields p p' -> (forall s, slot_unused (shm_mappings p) s) ->
  forall s, slot_unused (shm_mappings p') s.
Proof. intros (_ & _ & _ & _ & E & _) Hun s. rewrite E. apply Hun. Qed.

Lemma map_kernel_pages_spec L tbl fuel : forall h p a h' p',
  layout_ok L -> ph_ok h -> proc_ok (ph_owned h) (ph_mem h) tbl p ->
  (forall s, slot_unused (shm_mappings p) s) ->
  (PAGE_SIZE | a) -> 0 <= a < 2 ^ 32 ->
  map_kernel_pages fuel L h p a = Ret (h', p') ->
  grown tbl h p h' p' /\
  (forall vb, 0 <= vb < 2 ^ 32 -> sv32_walk (ph_mem h') (page_table p') vb =
     if (a <=? page_of vb) && (page_of vb <? free_ram_end L) then Some (vb, KERNEL_FLAGS)
     else sv32_walk (ph_mem h) (page_table p) vb).
Proof.
  induction fuel as [|fuel IH]; intros h p a h' p' HL Hok Hp Hun Hal Ha Hm; [discriminate Hm|].
  cbn [map_kernel_pages] in Hm. destruct (Z.ltb_spec a (free_ram_end L)) as [Hlt|Hge].
  2: { outcome_inv. split; [by apply grown_refl|]. intros vb Hvb.
       destruct (Z.leb_spec a (page_of vb)), (Z.ltb_spec (page_of vb) (free_ram_end L));
         simpl; reflexivity || lia. }
  apply bind_Ret_inv in Hm as ([h1 p1] & Hmap & Hm). pose proof (lay_end L HL) as Hend.
  destruct (map_page_grown tbl h p a a (Z.lor (Z.lor PAGE_R PAGE_W) PAGE_X) h1 p1 Hok Hp Hun Ha Ha
    ltac:(split; [vm_compute; split; congruence|vm_compute; congruence])
    ltac:(intros HU; by vm_compute in HU) Hmap) as (Hg1 & _ & Hw1).
  assert (Hnext : u32 (a + PAGE_SIZE) = a + PAGE_SIZE).
  { apply u32_id. unfold PAGE_SIZE in *. lia. }
  rewrite Hnext in Hm.
  destruct (IH h1 p1 (a + PAGE_SIZE) h' p' HL (grown_heap _ _ _ _ _ Hg1) (gw_ok _ _ _ _ _ Hg1))
    as (Hg2 & Hw2); [|by apply Z.divide_add_r|unfold PAGE_SIZE in *; lia|exact Hm|].
  { eapply no_slots; [by eapply grown_fields|exact Hun]. }
  split; [by eapply grown_trans|]. intros vb Hvb. rewrite (Hw2 vb Hvb), (Hw1 vb Hvb).
  pose proof (page_of_aligned vb) as Hpa.
  destruct (Z.eqb_spec (page_of vb) a) as [E|E].
  - rewrite E. destruct (Z.leb_spec (a + PAGE_SIZE) a); [unfold PAGE_SIZE in *; lia|].
    rewrite Z.leb_refl. destruct (Z.ltb_spec a (free_ram_end L)); [|lia]. simpl.
    do 2 f_equal. pose proof (page_of_range vb). rewrite <-E. unfold page_of.
    pose proof (Z.div_mod vb PAGE_SIZE ltac:(done)). lia.
  - destruct (Z.leb_spec (a + PAGE_SIZE) (page_of vb)), (Z.leb_spec a (page_of vb));
      simpl; try reflexivity; exfalso.
    + unfold PAGE_SIZE in *. lia.
    + pose proof (aligned_step a (page_of vb) Hal Hpa). lia.
Qed.

(** ** Device pages *)

Lemma map_mmio_pages_spec tbl l : forall h p h' p',
  (forall a, a ∈ l -> (PAGE_SIZE | a) /\ 0 <= a < 2 ^ 32) ->
  ph_ok h -> proc_ok (ph_owned h) (ph_mem h) tbl p ->
  (forall s, slot_unused (shm_mappings p) s) ->
  map_mmio_pages l (h, p) = Ret (h', p') ->
  grown tbl h p h' p' /\
  (forall vb, 0 <= vb < 2 ^ 32 -> sv32_walk (ph_mem h') (page_table p') vb =
     if decide (page_of vb ∈ l) then Some (vb, DEVICE_FLAGS)
     else sv32_walk (ph_mem h) (page_table p) vb).
Proof.
  induction l as [|a l IH]; intros h p h' p' Hl Hok Hp Hun Hm.
  { simpl in Hm. outcome_inv. split; [by apply grown_refl|]. intros vb _.
    rewrite decide_False; [reflexivity|]. by intros ?%elem_of_nil. }
  cbn [map_mmio_pages] in Hm. apply bind_Ret_inv in Hm as ([h1 p1] & Hmap & Hm).
  destruct (Hl a ltac:(by left)) as [Hal Ha].
  destruct (map_page_grown tbl h p a a (Z.lor PAGE_R PAGE_W) h1 p1 Hok Hp Hun Ha Ha
    ltac:(split; [vm_compute; split; congruence|vm_compute; congruence])
    ltac:(intros HU; by vm_compute in HU) Hmap) as (Hg1 & _ & Hw1).
  destruct (IH h1 p1 h' p') as (Hg2 & Hw2);
    [|by eapply grown_heap|by eapply gw_ok| |exact Hm|].
  { intros b Hb. apply Hl. by right. }
  { eapply no_slots; [by eapply grown_fields|exact Hun]. }
  split; [by eapply grown_trans|]. intros vb Hvb. rewrite (Hw2 vb Hvb), (Hw1 vb Hvb).
  assert (Hid : page_of vb = a -> a + vb mod PAGE_SIZE = vb).
  { intros <-. unfold page_of. pose proof (Z.div_mod vb PAGE_SIZE ltac:(done)). lia. }
  destruct (decide (page_of vb ∈ l)) as [Hin|Hin].
  - rewrite decide_True by (by right). reflexivity.
  - destruct (Z.eqb_spec (page_of vb) a) as [E|E].
    + rewrite decide_True by (rewrite E; by left). rewrite (Hid E). reflexivity.
    + rewrite decide_False; [reflexivity|]. by intros [?|?]%elem_of_cons.
Qed.

(** ** User pages *)

Lemma proc_shape_push p i p' :
  push_region p i = Ret p' -> proc_shape p -> proc_shape p'.
Proof.
  intros Hp (Hl & Hm & Hs). pose proof (push_region_fields _ _ _ Hp) as (_ & _ & _ & _ & Em & Es).
  split_and!; [|by rewrite Em|by rewrite Es].
  unfold push_region in Hp. outcome_inv. simpl. by rewrite length_insert.
Qed.

(** A cleared page whose first [n] bytes are copied from elsewhere. *)
Lemma load8_fill m page src n x :
  0 <= n <= PAGE_SIZE -> src + n <= page \/ page + PAGE_SIZE <= src ->
  load8 (memcpy (memset m page 0 PAGE_SIZE) page src n) x =
    if (page <=? x) && (x <? page + PAGE_SIZE)
    then if x <? page + n then load8 m (src + (x - page)) else 0
    else load8 m x.
Proof.
  intros Hn Hsrc.
  assert (Hset : forall y, load8 (memset m page 0 PAGE_SIZE) y =
    if (page <=? y) && (y <? page + PAGE_SIZE) then 0 else load8 m y).
  { intros y. rewrite load8_memset. reflexivity. }
  destruct (Z.leb_spec page x), (Z.ltb_spec x (page + PAGE_SIZE)); simpl.
  2-4: rewrite load8_memcpy_out by lia; rewrite Hset;
       destruct (Z.leb_spec page x), (Z.ltb_spec x (page + PAGE_SIZE)); simpl; reflexivity || lia.
  destruct (Z.ltb_spec x (page + n)).
  - replace x with (page + (x - page)) at 1 by lia.
    rewrite load8_memcpy_in by lia. rewrite Hset.
    destruct (Z.leb_spec page (src + (x - page))),
      (Z.ltb_spec (src + (x - page)) (page + PAGE_SIZE)); simpl; reflexivity || lia.
  - rewrite load8_memcpy_out by lia. rewrite Hset.
    destruct (Z.leb_spec page x), (Z.ltb_spec x (page + PAGE_SIZE)); simpl; reflexivity || lia.
Qed.

(** A page for the image: allocated, recorded, filled from [src]. *)
Lemma user_page_fill tbl h p src n page h1 p1 :
  ph_ok h -> proc_ok (ph_owned h) (ph_mem h) tbl p ->
  alloc_process_page h p = Ret (page, h1, p1) ->
  0 <= n <= PAGE_SIZE -> src + n <= lo \/ hi <= src ->
  let h2 := ph_set_mem h1 (memcpy (ph_mem h1) page src n) in
  grown tbl h p h2 p1 /\ holds (ph_owned h2) p1 page /\
  ~ pt_page (ph_mem h2) (page_table p1) page /\ ~ owns_page (ph_owned h) page /\
  0 <= page < 2 ^ 32 /\
  (forall va, sv32_walk (ph_mem h2) (page_table p1) va =
              sv32_walk (ph_mem h) (page_table p) va) /\
  (forall i t, points_to (ph_mem h) (page_table p) i t ->
     points_to (ph_mem h2) (page_table p1) i t) /\
  (forall d, 0 <= d < PAGE_SIZE -> load8 (ph_mem h2) (page + d) =
     if d <? n then load8 (ph_mem h) (src + d) else 0).
Proof.
  intros Hok Hp Ha Hn Hsrc h2. unfold alloc_process_page in Ha.
  apply bind_Ret_inv in Ha as ([[r q] h1'] & Ha & Hpush).
  apply bind_Ret_inv in Hpush as (p1' & Hpush & E). injection E as -> -> ->.
  pose proof (proc_ok_fit _ _ _ _ Hp) as Hfit.
  destruct (alloc_private lo hi h p r page h1 p1 Hok Hfit Ha Hpush) as [Hpr1 Hq1].
  destruct (alloc_page_spec lo hi _ _ _ _ Hok Ha)
    as (Hok1 & Hnr & Ho1 & Hm1 & Hphys & Hlo & Hhi & Hap).
  pose proof (push_region_fields _ _ _ Hpush) as (_ & _ & _ & Er & Em & _).
  assert (Hmem : forall x, load8 (ph_mem h2) x =
    if (page <=? x) && (x <? page + PAGE_SIZE)
    then if x <? page + n then load8 (ph_mem h) (src + (x - page)) else 0
    else load8 (ph_mem h) x).
  { intros x. unfold h2. rewrite ph_mem_set_mem, Hm1. apply load8_fill; lia. }
  clear Hm1.
  assert (Hfar : forall q x, owns_page (ph_owned h) q -> q <= x < q + PAGE_SIZE ->
    load8 (ph_mem h2) x = load8 (ph_mem h) x).
  { intros q x Hq Hx. specialize (Hap q Hq). rewrite Hmem. unfold apart in Hap.
    destruct (Z.leb_spec page x), (Z.ltb_spec x (page + PAGE_SIZE)); simpl; reflexivity || lia. }
  assert (Hpt : forall q x, pt_page (ph_mem h) (page_table p) q -> q <= x < q + PAGE_SIZE ->
    load8 (ph_mem h2) x = load8 (ph_mem h) x).
  { intros q x Hq. apply Hfar. by apply (pt_page_owned lo hi h p (po_wf _ _ _ _ Hp)). }
  assert (Hnew : ~ owns_page (ph_owned h) page).
  { intros Hq. specialize (Hap page Hq). unfold apart, PAGE_SIZE in Hap. lia. }
  assert (Hown2 : ph_owned h2 = ph_owned h1) by apply ph_set_mem_owned.
  assert (Hnp : forall q, pt_page (ph_mem h2) (page_table p1) q <-> pt_page (ph_mem h) (page_table p) q).
  { intros q. rewrite Er. apply (frame_page _ _ _ Hpt). }
  split; [split|split; [|split; [|split; [|split; [|split; [|split]]]]]].
  - eapply proc_ok_extend; [exact Hp| | |exact Er|exact Em| |exact Hpt|done].
    + eapply proc_shape_push; [exact Hpush|apply Hp].
    + apply (grows_fit _ _ _ _ (ps_grows _ _ _ _ _ _ Hpr1) Hfit).
    + intros q. rewrite Hown2. eapply holds_grows; [apply Hpr1|apply Hfit|apply Hfit].
  - eapply private_trans; [exact Hfit|exact Hpr1|].
    apply (set_mem_private lo hi h1 p1 _ page Hok1 Hq1).
    intros x Hx. unfold PAGE_SIZE in *. apply load8_memcpy_out; lia.
  - intros q x Hq _. by apply Hfar.
  - intros x Hx. rewrite Hmem.
    destruct (Z.leb_spec page x), (Z.ltb_spec x (page + PAGE_SIZE)); simpl; reflexivity || lia.
  - intros q _ Hq Hq'. apply Hq. by apply Hnp.
  - rewrite Hown2. exact Hq1.
  - intros Hq%Hnp. apply Hnew. by apply (pt_page_owned lo hi h p (po_wf _ _ _ _ Hp)).
  - exact Hnew.
  - apply Hphys.
  - intros va. rewrite Er. apply (frame_walk (ph_owned h) _ _ _ Hpt). apply Hp.
  - intros i t Hi. rewrite Er. by apply (frame_points _ _ _ Hpt).
  - intros d Hd. rewrite Hmem.
    destruct (Z.leb_spec page (page + d)), (Z.ltb_spec (page + d) (page + PAGE_SIZE)); simpl; try lia.
    replace (src + (page + d - page)) with (src + d) by lia.
    destruct (Z.ltb_spec (page + d) (page + n)), (Z.ltb_spec d n); reflexivity || lia.
Qed.

(** The image fits between [USER_BASE] and the device pages, and is not in
    the RAM the allocator hands out. *)
Definition image_ok (image size : Z) : Prop :=
  0 <= image /\ 0 <= size <= 0x0b000000 /\ (image + size <= lo \/ hi <= image).

(** What user mode reads at [vb]: the image, zero-padded to whole pages. *)
Definition image_byte (m : mem) (image size vb : Z) : Z :=
  if vb <? USER_BASE + size then load8 m (image + (vb - USER_BASE)) else 0.

Definition user_view h p h' p' (image size off : Z) : Prop :=
  forall vb, 0 <= vb < 2 ^ 32 ->
    if (USER_BASE + off <=? page_of vb) && (page_of vb <? USER_BASE + size)
    then exists pa, sv32_walk (ph_mem h') (page_table p') vb = Some (pa, USER_FLAGS) /\
           load8 (ph_mem h') pa = image_byte (ph_mem h) image size vb
    else sv32_walk (ph_mem h') (page_table p') vb = sv32_walk (ph_mem h) (page_table p) vb.

Lemma user_page_grown tbl h p image size off n page h1 p1 h3 p3 :
  ph_ok h -> proc_ok (ph_owned h) (ph_mem h) tbl p ->
  (forall s, slot_unused (shm_mappings p) s) ->
  image_ok image size -> (PAGE_SIZE | off) -> 0 <= off < size ->
  n = Z.min PAGE_SIZE (size - off) ->
  alloc_process_page h p = Ret (page, h1, p1) ->
  map_page (ph_set_mem h1 (memcpy (ph_mem h1) page (image + off) n)) p1 (USER_BASE + off) page
    (Z.lor (Z.lor (Z.lor PAGE_U PAGE_R) PAGE_W) PAGE_X) = Ret (h3, p3) ->
  grown tbl h p h3 p3 /\
  (exists t, points_to (ph_mem h3) (page_table p3) (vpn1_of (USER_BASE + off)) t) /\
  owns_page (ph_owned h3) page /\ ~ pt_page (ph_mem h3) (page_table p3) page /\
  (forall d, 0 <= d < PAGE_SIZE -> load8 (ph_mem h3) (page + d) =
     if d <? n then load8 (ph_mem h) (image + off + d) else 0) /\
  (forall vb, 0 <= vb < 2 ^ 32 -> sv32_walk (ph_mem h3) (page_table p3) vb =
     if page_of vb =? USER_BASE + off then Some (page + vb mod PAGE_SIZE, USER_FLAGS)
     else sv32_walk (ph_mem h) (page_table p) vb).
Proof.
  intros Hok Hp Hun (Hi0 & Hsz & Hdis) Hal Hoff Hn Ha Hmap.
  destruct (user_page_fill tbl h p (image + off) n page h1 p1 Hok Hp Ha)
    as (Hg1 & Hq & Hnp & Hnew & Hphys & Hw1 & _ & Hd).
  { unfold PAGE_SIZE in *. lia. }
  { unfold PAGE_SIZE in *. lia. }
  set (h2 := ph_set_mem h1 _) in *.
  destruct (map_page_grown tbl h2 p1 (USER_BASE + off) page
    (Z.lor (Z.lor (Z.lor PAGE_U PAGE_R) PAGE_W) PAGE_X) h3 p3 (grown_heap _ _ _ _ _ Hg1)
    (gw_ok _ _ _ _ _ Hg1) (no_slots _ _ (grown_fields _ _ _ _ _ Hg1) Hun)
    ltac:(unfold USER_BASE in *; lia) Hphys
    ltac:(split; [vm_compute; split; congruence|vm_compute; congruence])
    (fun _ => conj Hq Hnp) Hmap) as (Hg2 & Ht & Hw2).
  destruct Hq as (r & _ & Hr).
  split; [by eapply grown_trans|]. split; [exact Ht|].
  split; [eapply grows_owns_page; [apply (ps_grows _ _ _ _ _ _ (gw_private _ _ _ _ _ Hg2))|by exists r]|].
  split; [apply (gw_not_page _ _ _ _ _ Hg2 page); [by exists r|exact Hnp]|].
  split.
  - intros d Hdr. rewrite <-(Hd d Hdr).
    apply (gw_data _ _ _ _ _ Hg2 page); [by exists r|exact Hnp|lia].
  - intros vb Hvb. rewrite (Hw2 vb Hvb), Hw1. reflexivity.
Qed.

Lemma map_user_pages_spec tbl image size fuel : forall h p off h' p',
  ph_ok h -> proc_ok (ph_owned h) (ph_mem h) tbl p ->
  (forall s, slot_unused (shm_mappings p) s) ->
  image_ok image size -> (PAGE_SIZE | off) -> 0 <= off <= size + PAGE_SIZE ->
  map_user_pages fuel h p image size off = Ret (h', p') ->
  grown tbl h p h' p' /\ user_view h p h' p' image size off.
Proof.
  induction fuel as [|fuel IH]; intros h p off h' p' Hok Hp Hun Him Hal Hoff Hm; [discriminate Hm|].
  cbn [map_user_pages] in Hm. destruct (Z.ltb_spec off size) as [Hlt|Hge].
  2: { outcome_inv. split; [by apply grown_refl|]. intros vb Hvb.
       destruct (Z.leb_spec (USER_BASE + off) (page_of vb)),
         (Z.ltb_spec (page_of vb) (USER_BASE + size)); simpl; reflexivity || lia. }
  pose proof Him as (Hi0 & Hsz & Hdis).
  apply bind_Ret_inv in Hm as ([[page h1] p1] & Ha & Hm).
  apply bind_Ret_inv in Hm as ([h3 p3] & Hmap & Hm).
  assert (E1 : u32 (size - off) = size - off) by (apply u32_id; unfold PAGE_SIZE in *; lia).
  assert (E2 : u32 (USER_BASE + off) = USER_BASE + off)
    by (apply u32_id; unfold USER_BASE, PAGE_SIZE in *; lia).
  assert (E3 : u32 (off + PAGE_SIZE) = off + PAGE_SIZE) by (apply u32_id; unfold PAGE_SIZE in *; lia).
  assert (E4 : (if PAGE_SIZE <=? size - off then PAGE_SIZE else size - off) =
    Z.min PAGE_SIZE (size - off)).
  { destruct (Z.leb_spec PAGE_SIZE (size - off)); lia. }
  rewrite E1, E4, E2 in Hmap. rewrite E3 in Hm.
  destruct (user_page_grown tbl h p image size off _ page h1 p1 h3 p3 Hok Hp Hun Him Hal
    ltac:(lia) eq_refl Ha Hmap) as (Hg & _ & Hown & Hnp & Hd & Hw).
  destruct (IH h3 p3 (off + PAGE_SIZE) h' p' (grown_heap _ _ _ _ _ Hg) (gw_ok _ _ _ _ _ Hg)
    (no_slots _ _ (grown_fields _ _ _ _ _ Hg) Hun) Him) as (Hg' & Hv);
    [by apply Z.divide_add_r|unfold PAGE_SIZE in *; lia|exact Hm|].
  split; [by eapply grown_trans|]. intros vb Hvb. specialize (Hv vb Hvb).
  assert (Halb : (PAGE_SIZE | page_of vb - USER_BASE)).
  { apply Z.divide_sub_r; [apply page_of_aligned|by exists 0x1000]. }
  pose proof (page_of_range vb) as Hpr.
  destruct (Z.leb_spec (USER_BASE + (off + PAGE_SIZE)) (page_of vb)) as [H1|H1].
  - destruct (Z.leb_spec (USER_BASE + off) (page_of vb)); [|unfold PAGE_SIZE in *; lia].
    simpl in Hv |- *. destruct (Z.ltb_spec (page_of vb) (USER_BASE + size)) as [H2|H2].
    + destruct Hv as (pa & Hpa & Hb). exists pa. split; [exact Hpa|]. rewrite Hb.
      unfold image_byte. destruct (Z.ltb_spec vb (USER_BASE + size)); [|reflexivity].
      apply (gw_outside _ _ _ _ _ Hg). lia.
    + rewrite Hv, (Hw vb Hvb). destruct (Z.eqb_spec (page_of vb) (USER_BASE + off));
        [unfold PAGE_SIZE in *; lia|reflexivity].
  - simpl in Hv. rewrite Hv, (Hw vb Hvb).
    destruct (Z.eqb_spec (page_of vb) (USER_BASE + off)) as [E|E].
    + rewrite E, Z.leb_refl. destruct (Z.ltb_spec (USER_BASE + off) (USER_BASE + size)); [|lia].
      simpl. eexists. split; [reflexivity|].
      assert (Hmod : vb mod PAGE_SIZE = vb - page_of vb).
      { unfold page_of. pose proof (Z.div_mod vb PAGE_SIZE ltac:(done)). lia. }
      rewrite (gw_data _ _ _ _ _ Hg' page _ Hown Hnp) by (rewrite Hmod; lia).
      rewrite Hd by (rewrite Hmod; lia). unfold image_byte. rewrite Hmod, E.
      destruct (Z.ltb_spec (vb - (USER_BASE + off)) (Z.min PAGE_SIZE (size - off))),
        (Z.ltb_spec vb (USER_BASE + size)); try reflexivity; try (unfold PAGE_SIZE in *; lia).
      f_equal. lia.
    + destruct (Z.leb_spec (USER_BASE + off) (page_of vb)); [|reflexivity].
      exfalso. pose proof (aligned_step off (page_of vb - USER_BASE) Hal Halb). lia.
Qed.

(** ** How many pages the loops need

    [need h p a b n]: mapping all pages of [a..b) takes [n] second-level
    tables; the table of the first page may already be there. *)
Definition has_table h p va : Prop :=
  exists t, points_to (ph_mem h) (page_table p) (vpn1_of va) t.

Definition need h p (a b : Z) (n : nat) : Prop :=
  n = tables a b \/ (a < b /\ has_table h p a /\ S n = tables a b).

Lemma need_step h p a b :
  (PAGE_SIZE | a) -> 0 <= a -> a < b -> b <= 2 ^ 32 -> has_table h p a ->
  exists n, need h p (a + PAGE_SIZE) b n /\ (S n <= tables a b)%nat.
Proof.
  intros Hal Ha Hab Hb Ht. unfold need.
  assert (Hpos : (1 <= tables a b)%nat).
  { unfold tables. destruct (Z.ltb_spec a b); [|lia].
    assert (a / 2 ^ 22 <= (b - 1) / 2 ^ 22) by (apply Z.div_le_mono; lia). lia. }
  destruct (decide (a + PAGE_SIZE < b)) as [Hlt|Hge].
  2: { exists 0%nat. split; [|exact Hpos]. left. unfold tables.
       destruct (Z.ltb_spec (a + PAGE_SIZE) b); [lia|reflexivity]. }
  assert (Hdiv : a / 2 ^ 22 <= (b - 1) / 2 ^ 22) by (apply Z.div_le_mono; lia).
  destruct Hal as [c ->]. unfold PAGE_SIZE in *.
  assert (Hcase : (c * 4096 + 4096) / 2 ^ 22 = c * 4096 / 2 ^ 22 \/
    (c * 4096 + 4096) / 2 ^ 22 = c * 4096 / 2 ^ 22 + 1).
  { clear. Z.to_euclidean_division_equations. lia. }
  destruct Hcase as [E|E].
  - exists (tables (c * 4096) b - 1)%nat. split; [right|lia]. split; [exact Hlt|]. split.
    + unfold has_table, vpn1_of in *. rewrite Z.shiftr_div_pow2 in * by lia.
      change (2 ^ 22) with 4194304 in *. rewrite E. exact Ht.
    + unfold tables in *. rewrite E. destruct (Z.ltb_spec (c * 4096 + 4096) b),
        (Z.ltb_spec (c * 4096) b); lia.
  - assert (Hdiv' : (c * 4096 + 4096) / 2 ^ 22 <= (b - 1) / 2 ^ 22) by (apply Z.div_le_mono; lia).
    exists (tables (c * 4096 + 4096) b). split; [by left|]. unfold tables in *. rewrite E in *.
    destruct (Z.ltb_spec (c * 4096 + 4096) b), (Z.ltb_spec (c * 4096) b); lia.
Qed.

Lemma map_need h p a b n pa fl k :
  ph_ok h -> (PAGE_SIZE | a) -> 0 <= a -> a < b -> (PAGE_SIZE | pa) -> need h p a b n ->
  budget lo hi h p (n + k) ->
  exists h' p', map_page h p a pa fl = Ret (h', p') /\
    budget lo hi h' p' (tables a b - 1 + k).
Proof.
  intros Hok Hal Ha Hab Hpa Hn Hb.
  apply (map_page_total lo hi h p a pa fl (tables a b - 1 + k) Hok Hal Hpa).
  destruct Hn as [->|(_ & Ht & E)].
  - right. eapply budget_le; [|exact Hb].
    assert (a / 2 ^ 22 <= (b - 1) / 2 ^ 22) by (apply Z.div_le_mono; lia).
    unfold tables. destruct (Z.ltb_spec a b); lia.
  - left. split; [exact Ht|]. eapply budget_le; [|exact Hb]. lia.
Qed.

Lemma map_kernel_pages_total L tbl k fuel : forall h p a n,
  layout_ok L -> ph_ok h -> proc_ok (ph_owned h) (ph_mem h) tbl p ->
  (forall s, slot_unused (shm_mappings p) s) ->
  (PAGE_SIZE | a) -> 0 <= a < 2 ^ 32 ->
  (free_ram_end L - a + PAGE_SIZE - 1) / PAGE_SIZE < Z.of_nat fuel -> (0 < fuel)%nat ->
  need h p a (free_ram_end L) n -> budget lo hi h p (n + k) ->
  exists h' p', map_kernel_pages fuel L h p a = Ret (h', p') /\ budget lo hi h' p' k.
Proof.
  induction fuel as [|fuel IH]; intros h p a n HL Hok Hp Hun Hal Ha Hfuel H0 Hn Hb; [lia|].
  cbn [map_kernel_pages]. destruct (Z.ltb_spec a (free_ram_end L)) as [Hlt|Hge].
  2: { exists h, p. split; [reflexivity|]. eapply budget_le; [|exact Hb]. lia. }
  pose proof (lay_end L HL) as Hend. pose proof (lay_order L HL) as Hord.
  destruct (map_need h p a (free_ram_end L) n a (Z.lor (Z.lor PAGE_R PAGE_W) PAGE_X) k Hok Hal
    ltac:(lia) Hlt Hal Hn Hb) as (h1 & p1 & Hmap & Hb1). rewrite Hmap. cbn [mbind outcome_bind].
  destruct (map_page_grown tbl h p a a (Z.lor (Z.lor PAGE_R PAGE_W) PAGE_X) h1 p1 Hok Hp Hun Ha Ha
    ltac:(split; [vm_compute; split; congruence|vm_compute; congruence])
    ltac:(intros HU; by vm_compute in HU) Hmap) as (Hg1 & Ht & _).
  assert (Hnext : u32 (a + PAGE_SIZE) = a + PAGE_SIZE) by (apply u32_id; unfold PAGE_SIZE in *; lia).
  rewrite Hnext.
  destruct (need_step h1 p1 a (free_ram_end L) Hal ltac:(lia) Hlt ltac:(unfold PAGE_SIZE in *; lia) Ht)
    as (n' & Hn' & Hle).
  assert (Hfuel' : (free_ram_end L - (a + PAGE_SIZE) + PAGE_SIZE - 1) / PAGE_SIZE < Z.of_nat fuel).
  { replace (free_ram_end L - (a + PAGE_SIZE) + PAGE_SIZE - 1)
      with (free_ram_end L - a + PAGE_SIZE - 1 + (-1) * PAGE_SIZE) by lia.
    rewrite Z.div_add by done. lia. }
  apply (IH h1 p1 (a + PAGE_SIZE) n' HL (grown_heap _ _ _ _ _ Hg1) (gw_ok _ _ _ _ _ Hg1)).
  - eapply no_slots; [by eapply grown_fields|exact Hun].
  - by apply Z.divide_add_r.
  - unfold PAGE_SIZE in *. lia.
  - exact Hfuel'.
  - assert (0 < (free_ram_end L - a + PAGE_SIZE - 1) / PAGE_SIZE)
      by (apply Z.div_str_pos; unfold PAGE_SIZE in *; lia). lia.
  - exact Hn'.
  - eapply budget_le; [|exact Hb1]. lia.
Qed.

Lemma map_mmio_pages_total l k : forall h p tbl,
  (forall a, a ∈ l -> (PAGE_SIZE | a) /\ 0 <= a < 2 ^ 32) ->
  ph_ok h -> proc_ok (ph_owned h) (ph_mem h) tbl p ->
  (forall s, slot_unused (shm_mappings p) s) -> budget lo hi h p (length l + k) ->
  exists h' p', map_mmio_pages l (h, p) = Ret (h', p') /\ budget lo hi h' p' k.
Proof.
  induction l as [|a l IH]; intros h p tbl Hl Hok Hp Hun Hb; [by exists h, p|].
  destruct (Hl a ltac:(by left)) as [Hal Ha].
  destruct (map_page_total lo hi h p a a (Z.lor PAGE_R PAGE_W) (length l + k) Hok Hal Hal
    (or_intror Hb)) as (h1 & p1 & Hmap & Hb1).
  destruct (map_page_grown tbl h p a a (Z.lor PAGE_R PAGE_W) h1 p1 Hok Hp Hun Ha Ha
    ltac:(split; [vm_compute; split; congruence|vm_compute; congruence])
    ltac:(intros HU; by vm_compute in HU) Hmap) as (Hg1 & _).
  cbn [map_mmio_pages map_mmio_page]. rewrite Hmap. cbn [mbind outcome_bind].
  apply (IH h1 p1 tbl); [|by eapply grown_heap|by eapply gw_ok| |exact Hb1].
  - intros b Hb'. apply Hl. by right.
  - eapply no_slots; [by eapply grown_fields|exact Hun].
Qed.

Definition page_count (n : Z) : nat := Z.to_nat ((n + PAGE_SIZE - 1) / PAGE_SIZE).

Lemma page_count_step n : 0 < n -> page_count n = S (page_count (n - PAGE_SIZE)).
Proof.
  intros Hn. unfold page_count.
  replace (n + PAGE_SIZE - 1) with (n - PAGE_SIZE + PAGE_SIZE - 1 + 1 * PAGE_SIZE) by lia.
  rewrite Z.div_add by done.
  assert (0 <= (n - PAGE_SIZE + PAGE_SIZE - 1) / PAGE_SIZE) by (apply Z.div_pos; [lia|done]). lia.
Qed.

Lemma map_user_pages_total tbl image size k fuel : forall h p off n,
  ph_ok h -> proc_ok (ph_owned h) (ph_mem h) tbl p ->
  (forall s, slot_unused (shm_mappings p) s) ->
  image_ok image size -> (PAGE_SIZE | off) -> 0 <= off <= size + PAGE_SIZE ->
  (page_count (size - off) < fuel)%nat ->
  need h p (USER_BASE + off) (USER_BASE + size) n ->
  budget lo hi h p (page_count (size - off) + (n + k)) ->
  exists h' p', map_user_pages fuel h p image size off = Ret (h', p') /\ budget lo hi h' p' k.
Proof.
  induction fuel as [|fuel IH]; intros h p off n Hok Hp Hun Him Hal Hoff Hfuel Hn Hb; [lia|].
  cbn [map_user_pages]. destruct (Z.ltb_spec off size) as [Hlt|Hge].
  2: { exists h, p. split; [reflexivity|]. eapply budget_le; [|exact Hb]. lia. }
  pose proof Him as (Hi0 & Hsz & Hdis). rewrite (page_count_step (size - off)) in Hfuel, Hb by lia.
  destruct (alloc_push_total lo hi h p (page_count (size - off - PAGE_SIZE) + (n + k)) Hok Hb) as (r & page & h1 & p1 & Ha & Hpush & Hb1).
  assert (Hall : alloc_process_page h p = Ret (page, h1, p1)).
  { unfold alloc_process_page. rewrite Ha. cbn [mbind outcome_bind]. rewrite Hpush. reflexivity. }
  rewrite Hall. cbn [mbind outcome_bind].
  assert (E1 : u32 (size - off) = size - off) by (apply u32_id; unfold PAGE_SIZE in *; lia).
  assert (E2 : u32 (USER_BASE + off) = USER_BASE + off)
    by (apply u32_id; unfold USER_BASE, PAGE_SIZE in *; lia).
  assert (E3 : u32 (off + PAGE_SIZE) = off + PAGE_SIZE) by (apply u32_id; unfold PAGE_SIZE in *; lia).
  assert (E4 : (if PAGE_SIZE <=? size - off then PAGE_SIZE else size - off) =
    Z.min PAGE_SIZE (size - off)) by (destruct (Z.leb_spec PAGE_SIZE (size - off)); lia).
  rewrite E1, E2, E3, E4. set (m := Z.min PAGE_SIZE (size - off)).
  destruct (user_page_fill tbl h p (image + off) m page h1 p1 Hok Hp Hall)
    as (Hg1 & Hq & Hnp & Hnew & Hphys & Hw1 & Hpt & Hd);
    [unfold m, PAGE_SIZE in *; lia|unfold m, PAGE_SIZE in *; lia|].
  set (h2 := ph_set_mem h1 _) in *.
  assert (Hn2 : need h2 p1 (USER_BASE + off) (USER_BASE + size) n).
  { destruct Hn as [->|(Hl & (t & Ht) & E)]; [by left|right].
    split; [exact Hl|]. split; [|exact E]. exists t. by apply Hpt. }
  assert (Halp : (PAGE_SIZE | page)).
  { destruct Hq as (r' & _ & Hr'). by apply (owned_phys_page lo hi h2 page (grown_heap _ _ _ _ _ Hg1));
      exists r'. }
  assert (Halu : (PAGE_SIZE | USER_BASE + off)) by (apply Z.divide_add_r; [by exists 0x1000|exact Hal]).
  destruct (map_need h2 p1 _ (USER_BASE + size) n page
    (Z.lor (Z.lor (Z.lor PAGE_U PAGE_R) PAGE_W) PAGE_X) (page_count (size - off - PAGE_SIZE) + k)
    (grown_heap _ _ _ _ _ Hg1) Halu ltac:(unfold USER_BASE in *; lia) ltac:(lia) Halp Hn2)
    as (h3 & p3 & Hmap & Hb3).
  { apply budget_set_mem. eapply budget_le; [|exact Hb1]. lia. }
  rewrite Hmap. cbn [mbind outcome_bind].
  destruct (user_page_grown tbl h p image size off m page h1 p1 h3 p3 Hok Hp Hun Him Hal
    ltac:(lia) eq_refl Hall Hmap) as (Hg & Ht & _).
  destruct (need_step h3 p3 _ (USER_BASE + size) Halu ltac:(unfold USER_BASE in *; lia) ltac:(lia)
    ltac:(unfold USER_BASE in *; lia) Ht) as (n' & Hn' & Hle).
  replace (size - off - PAGE_SIZE) with (size - (off + PAGE_SIZE)) in * by lia.
  rewrite <-Z.add_assoc in Hn'.
  apply (IH h3 p3 (off + PAGE_SIZE) n' (grown_heap _ _ _ _ _ Hg) (gw_ok _ _ _ _ _ Hg)
    (no_slots _ _ (grown_fields _ _ _ _ _ Hg) Hun) Him).
  - by apply Z.divide_add_r.
  - unfold PAGE_SIZE in *; lia.
  - lia.
  - exact Hn'.
  - eapply budget_le; [|exact Hb3]. lia.
Qed.
End AddressSpace.
