(* ===== verification/Kernel.v ===== *)
(** Processes and shared memory as a state machine ([kernel/process.c],
    [kernel/shm.c]).

    [kernel_ok] is the invariant of the whole kernel state; [kernel_step] is
    one kernel operation on behalf of the current process or the boot code.
    Creation of a process is treated here, the other steps in [Reach.v]. *)

From Stdlib Require Import ZArith Lia.
From S2P Require Import Prelude Memory PageHeap Allocator PageTable Shm Process KernelInv System Lifecycle AddressSpace.
Open Scope Z_scope.

(** ** The process structure [create_process] starts from *)

Lemma zero_words_lookup l (st : list Z) k :
  fold_left (fun st j => <[(STACK_WORDS - j)%nat := 0]> st) l st !! k =
  if decide (k ∈ (fun j => (STACK_WORDS - j)%nat) <$> l)
  then (if decide (k < length st)%nat then Some 0 else None) else st !! k.
Proof.
  revert st. induction l as [|j l IH]; intros st; [reflexivity|].
  cbn [fold_left]. rewrite IH, length_insert, fmap_cons.
  destruct (decide (k ∈ (fun j => (STACK_WORDS - j)%nat) <$> l)) as [Hl|Hl].
  - rewrite (decide_True (P := k ∈ _ :: _)) by (by right). reflexivity.
  - destruct (decide (k = (STACK_WORDS - j)%nat)) as [->|Hne].
    + rewrite (decide_True (P := _ ∈ _ :: _)) by left. case_decide.
      * by apply list_lookup_insert_eq.
      * apply lookup_ge_None_2. rewrite length_insert. lia.
    + rewrite (decide_False (P := _ ∈ _ :: _)) by (by intros [?|?]%elem_of_cons).
      by apply list_lookup_insert_ne.
Qed.

Lemma initial_stack_length L st : length (initial_stack L st) = length st.
Proof.
  unfold initial_stack. rewrite length_insert.
  apply (fold_left_inv (fun s => length s = length st)); [|reflexivity].
  intros s j _ <-. apply length_insert.
Qed.

(** The frame the first switch pops: [ra], then [s0] to [s11]. *)
Lemma initial_stack_frame L st k :
  length st = STACK_WORDS -> (k < 13)%nat ->
  initial_stack L st !! (STACK_WORDS - 13 + k)%nat =
  Some (if (k =? 0)%nat then user_entry L else 0).
Proof.
  intros Hlen Hk. unfold initial_stack.
  assert (Hfold : length (fold_left (fun st j => <[(STACK_WORDS - j)%nat := 0]> st) (seq 1 12) st)
    = STACK_WORDS).
  { apply (fold_left_inv (fun s => length s = STACK_WORDS)); [|exact Hlen].
    intros s j _ <-. apply length_insert. }
  destruct k as [|k].
  - rewrite Nat.add_0_r. apply list_lookup_insert_eq. rewrite Hfold. unfold STACK_WORDS. lia.
  - rewrite list_lookup_insert_ne by lia. rewrite zero_words_lookup, decide_True.
    + rewrite decide_True; [reflexivity|]. rewrite Hlen. unfold STACK_WORDS. lia.
    + apply list_elem_of_fmap. exists (12 - k)%nat. split; [unfold STACK_WORDS; lia|].
      apply elem_of_seq. lia.
Qed.

Lemma reset_process_spec L p :
  proc_shape p ->
  exists st, reset_process L p =
    mkProcess (pid p) (p_state p) (p_sp p) (page_table p) (replicate PROC_REGION_MAX 0) 0
      (replicate PROC_SHM_MAX no_mapping) st /\
    length st = STACK_WORDS /\
    (forall k, (k < 13)%nat -> st !! (STACK_WORDS - 13 + k)%nat =
       Some (if (k =? 0)%nat then user_entry L else 0)).
Proof.
  intros Hsh. unfold reset_process.
  rewrite (clear_regions_spec (set_current_idx p 0)) by exact Hsh.
  rewrite clear_mappings_spec by reflexivity. cbn [set_current_idx set_mappings set_stack
    pid p_state p_sp page_table p_regions current_idx shm_mappings p_stack].
  set (st0 := replicate 51 0 ++ drop 51 (p_stack p)).
  assert (Hst0 : length st0 = STACK_WORDS).
  { unfold st0. rewrite length_app, length_replicate, length_drop.
    destruct Hsh as (_ & _ & ->). unfold STACK_WORDS. lia. }
  exists (initial_stack L st0). split; [reflexivity|].
  split; [by rewrite initial_stack_length|]. intros k Hk. by apply initial_stack_frame.
Qed.

Section Kernel.
Context {H : Type} `{!PageHeap H} (lo hi : Z) `{!PageHeapSpec H lo hi}.
Implicit Types (h : H) (p : process) (sh : shm_state) (K : kstate H).

(** ** Building an address space *)

(** The translation of a new process. *)
Definition fresh_view L h h' p' (image size : Z) : Prop :=
  forall vb, 0 <= vb < 2 ^ 32 ->
    let w := sv32_walk (ph_mem h') (page_table p') vb in
    if (USER_BASE <=? page_of vb) && (page_of vb <? USER_BASE + size)
    then exists pa, w = Some (pa, USER_FLAGS) /\
           load8 (ph_mem h') pa = image_byte (ph_mem h) image size vb
    else if decide (page_of vb ∈ mmio_pages) then w = Some (vb, DEVICE_FLAGS)
    else if (kernel_base L <=? page_of vb) && (page_of vb <? free_ram_end L)
    then w = Some (vb, KERNEL_FLAGS)
    else w = None.

Definition empty_proc p : Prop :=
  proc_shape p /\ current_idx p = 0 /\ forall s, slot_unused (shm_mappings p) s.

Lemma mmio_pages_range a : a ∈ mmio_pages -> (PAGE_SIZE | a) /\ 0 <= a < 2 ^ 32.
Proof.
  unfold mmio_pages, VIRTIO_BLK_PADDR, VIRTIO_NET_PADDR, PLIC_BASE, PAGE_SIZE.
  intros Ha. repeat (apply elem_of_cons in Ha as [->|Ha];
    [split; [apply Z.mod_divide; [lia|reflexivity]|lia]|]).
  by apply elem_of_nil in Ha.
Qed.

(** The page for the root table of an empty process. *)
Lemma root_table tbl h p r root h1 p1 :
  ph_ok h -> empty_proc p -> ph_alloc h 1 = Ret (r, root, h1) ->
  push_region (set_page_table p root) r = Ret p1 ->
  proc_ok (ph_owned h1) (ph_mem h1) tbl p1 /\
  private_step lo hi h (set_page_table p root) h1 p1 /\
  (forall va, sv32_walk (ph_mem h1) (page_table p1) va = None) /\
  (forall x, ~ lo <= x < hi -> load8 (ph_mem h1) x = load8 (ph_mem h) x) /\
  same_fields (set_page_table p root) p1.
Proof.
  intros Hok (Hsh & Hidx & Hun) Ha Hpush.
  destruct (fresh_root_wf lo hi h r root h1 Hok Ha) as (Hwf & Hnone & Hpg).
  pose proof (push_region_fields _ _ _ Hpush) as Hf.
  assert (Er : page_table p1 = root) by apply Hf.
  assert (Em : shm_mappings p1 = shm_mappings p) by apply Hf.
  assert (Hfit : regions_fit (set_page_table p root)).
  { split; simpl; [rewrite Hidx; unfold PROC_REGION_MAX; lia|apply Hsh]. }
  destruct (alloc_private lo hi h _ r root h1 p1 Hok Hfit Ha Hpush) as [Hpr Hq].
  split; [|split; [exact Hpr|split; [by rewrite Er|split; [|exact Hf]]]].
  - split; rewrite ?Er.
    + by eapply proc_shape_push.
    + apply (grows_fit _ _ _ _ (ps_grows _ _ _ _ _ _ Hpr) Hfit).
    + exact Hwf.
    + intros q ->%Hpg. exact Hq.
    + intros va pa fl _. by rewrite Hnone.
    + rewrite Em. intros i mp Hi Hu. rewrite (Hun i mp Hi) in Hu. discriminate Hu.
    + rewrite Em. intros i id (mp & Hi & Hu & _). rewrite (Hun i mp Hi) in Hu. discriminate Hu.
  - destruct (alloc_page_spec lo hi _ _ _ _ Hok Ha) as (_ & _ & _ & Hm & _ & Hlo & Hhi & _).
    intros x Hx. rewrite Hm. apply load8_memset_out. unfold PAGE_SIZE in *. lia.
Qed.

Lemma build_address_space_spec L tbl h p image size h' p' :
  layout_ok L -> image_ok lo hi image size -> ph_ok h -> empty_proc p ->
  build_address_space L h p image size = Ret (h', p') ->
  exists root, proc_ok (ph_owned h') (ph_mem h') tbl p' /\
    private_step lo hi h (set_page_table p root) h' p' /\
    fresh_view L h h' p' image size.
Proof.
  intros HL Him Hok He Hb. unfold build_address_space in Hb.
  apply bind_Ret_inv in Hb as ([[r root] h1] & Ha & Hb).
  apply bind_Ret_inv in Hb as (p1 & Hpush & Hb).
  apply bind_Ret_inv in Hb as ([h2 p2] & Hker & Hb).
  apply bind_Ret_inv in Hb as ([h3 p3] & Hmmio & Huser). cbn [fst snd] in Huser.
  destruct (root_table tbl h p r root h1 p1 Hok He Ha Hpush) as (Hp1 & Hpr1 & Hw1 & Hout1 & Hf1).
  assert (Hun1 : forall s, slot_unused (shm_mappings p1) s).
  { apply (no_slots (set_page_table p root) p1 Hf1). apply He. }
  pose proof (lay_order L HL) as Hord. pose proof (lay_end L HL) as Hend.
  destruct (map_kernel_pages_spec lo hi L tbl _ h1 p1 _ h2 p2 HL (ps_ok _ _ _ _ _ _ Hpr1) Hp1 Hun1
    (lay_base L HL) ltac:(unfold PAGE_SIZE in *; lia) Hker) as (Hg2 & Hw2).
  pose proof (no_slots _ _ (grown_fields _ _ _ _ _ _ _ Hg2) Hun1) as Hun2.
  destruct (map_mmio_pages_spec lo hi tbl mmio_pages h2 p2 h3 p3 mmio_pages_range
    (grown_heap _ _ _ _ _ _ _ Hg2) (gw_ok _ _ _ _ _ _ _ Hg2) Hun2 Hmmio) as (Hg3 & Hw3).
  pose proof (no_slots _ _ (grown_fields _ _ _ _ _ _ _ Hg3) Hun2) as Hun3.
  destruct (map_user_pages_spec lo hi tbl image size _ h3 p3 0 h' p' (grown_heap _ _ _ _ _ _ _ Hg3)
    (gw_ok _ _ _ _ _ _ _ Hg3) Hun3 Him (Z.divide_0_r _) ltac:(destruct Him as (_ & ? & _); unfold PAGE_SIZE; lia) Huser)
    as (Hg4 & Hv4).
  exists root. split; [apply Hg4|]. split.
  - assert (Hfit : regions_fit (set_page_table p root)).
    { destruct He as (Hsh & Hidx & _). split; simpl; [rewrite Hidx; unfold PROC_REGION_MAX; lia|apply Hsh]. }
    pose proof (grows_fit _ _ _ _ (ps_grows _ _ _ _ _ _ Hpr1) Hfit) as Hfit1.
    eapply private_trans; [exact Hfit|exact Hpr1|].
    eapply private_trans; [exact Hfit1|apply Hg2|].
    eapply private_trans; [by eapply proc_ok_fit, Hg2|apply Hg3|apply Hg4].
  - intros vb Hvb w. specialize (Hv4 vb Hvb). rewrite Z.add_0_r in Hv4. fold w in Hv4.
    destruct ((USER_BASE <=? page_of vb) && (page_of vb <? USER_BASE + size)) eqn:Euser.
    + destruct Hv4 as (pa & Hpa & Hbyte). exists pa. split; [exact Hpa|]. rewrite Hbyte.
      unfold image_byte. destruct (Z.ltb_spec vb (USER_BASE + size)); [|reflexivity].
      apply andb_true_iff in Euser as [E1 _]. apply Z.leb_le in E1.
      pose proof (page_of_range vb). destruct Him as (? & ? & ?).
      assert (~ lo <= image + (vb - USER_BASE) < hi) as Hout by lia.
      rewrite (gw_outside _ _ _ _ _ _ _ Hg3 _ Hout), (gw_outside _ _ _ _ _ _ _ Hg2 _ Hout).
      by apply Hout1.
    + rewrite Hv4, (Hw3 vb Hvb). case_decide; [reflexivity|]. rewrite (Hw2 vb Hvb), Hw1.
      by destruct ((kernel_base L <=? page_of vb) && (page_of vb <? free_ram_end L)).
Qed.

(** Pages [create_process] needs at most. *)
Definition space_pages L (size : Z) : nat :=
  1 + (tables (kernel_base L) (free_ram_end L) + (length mmio_pages +
    (page_count size + tables USER_BASE (USER_BASE + size)))).

Lemma build_address_space_total L h p image size k :
  layout_ok L -> image_ok lo hi image size -> ph_ok h -> empty_proc p ->
  budget lo hi h p (space_pages L size + k) ->
  exists h' p', build_address_space L h p image size = Ret (h', p') /\ budget lo hi h' p' k.
Proof.
  intros HL Him Hok He Hb. unfold build_address_space, space_pages in *.
  set (t := tables (kernel_base L) (free_ram_end L)) in *.
  set (r2 := (length mmio_pages + ((page_count size + (tables USER_BASE (USER_BASE + size) + k))))%nat).
  destruct (ph_alloc_total h (t + r2) Hok) as (r & root & h1 & Ha & Hav1).
  { eapply ph_avail_le; [|apply Hb]. unfold r2. lia. }
  rewrite Ha. cbn [mbind outcome_bind].
  destruct He as (Hsh & Hidx & Hun). destruct (push_region_total (set_page_table p root) r)
    as (p1 & Hpush & Hi1); [simpl; rewrite Hidx; unfold PROC_REGION_MAX; lia|].
  rewrite Hpush. cbn [mbind outcome_bind].
  destruct (root_table [] h p r root h1 p1 Hok (conj Hsh (conj Hidx Hun)) Ha Hpush)
    as (Hp1 & Hpr1 & _ & _ & Hf1).
  assert (Hun1 : forall s, slot_unused (shm_mappings p1) s).
  { apply (no_slots (set_page_table p root) p1 Hf1), Hun. }
  pose proof (lay_order L HL) as Hord. pose proof (lay_end L HL) as Hend.
  assert (Hb1 : budget lo hi h1 p1 (t + r2)).
  { destruct Hb as (_ & H0 & Hmax). simpl in Hi1. split; [exact Hav1|unfold r2; lia]. }
  destruct (map_kernel_pages_total lo hi L [] r2 (kernel_pages L) h1 p1 (kernel_base L) t HL
    (ps_ok _ _ _ _ _ _ Hpr1) Hp1 Hun1 (lay_base L HL) ltac:(unfold PAGE_SIZE in *; lia)
    ltac:(unfold kernel_pages; lia) ltac:(unfold kernel_pages; lia) (or_introl eq_refl) Hb1)
    as (h2 & p2 & Hker & Hb2).
  rewrite Hker. cbn [mbind outcome_bind].
  destruct (map_kernel_pages_spec lo hi L [] _ h1 p1 _ h2 p2 HL (ps_ok _ _ _ _ _ _ Hpr1) Hp1 Hun1
    (lay_base L HL) ltac:(unfold PAGE_SIZE in *; lia) Hker) as (Hg2 & _).
  pose proof (no_slots _ _ (grown_fields _ _ _ _ _ _ _ Hg2) Hun1) as Hun2.
  destruct (map_mmio_pages_total lo hi mmio_pages _ h2 p2 [] mmio_pages_range
    (grown_heap _ _ _ _ _ _ _ Hg2) (gw_ok _ _ _ _ _ _ _ Hg2) Hun2 Hb2) as (h3 & p3 & Hmmio & Hb3).
  rewrite Hmmio. cbn [mbind outcome_bind fst snd].
  destruct (map_mmio_pages_spec lo hi [] mmio_pages h2 p2 h3 p3 mmio_pages_range
    (grown_heap _ _ _ _ _ _ _ Hg2) (gw_ok _ _ _ _ _ _ _ Hg2) Hun2 Hmmio) as (Hg3 & _).
  pose proof (no_slots _ _ (grown_fields _ _ _ _ _ _ _ Hg3) Hun2) as Hun3.
  destruct (map_user_pages_total lo hi [] image size k (user_pages size) h3 p3 0
    (tables USER_BASE (USER_BASE + size)) (grown_heap _ _ _ _ _ _ _ Hg3)
    (gw_ok _ _ _ _ _ _ _ Hg3) Hun3 Him (Z.divide_0_r _)) as (h4 & p4 & Huser & Hb4).
  - destruct Him as (_ & ? & _). unfold PAGE_SIZE. lia.
  - rewrite Z.sub_0_r. unfold user_pages, page_count. lia.
  - left. by rewrite Z.add_0_r.
  - rewrite Z.sub_0_r. exact Hb3.
  - exists h4, p4. split; [exact Huser|exact Hb4].
Qed.

(** ** [create_process] *)

Lemma proc_ok_ids own m tbl p i st sp :
  proc_ok own m tbl p -> proc_ok own m tbl (set_ids p i st sp).
Proof.
  intros Hp. eapply proc_ok_extend; [exact Hp|apply Hp|apply Hp|reflexivity|reflexivity|done|done|done].
Qed.

Lemma sys_ids h sh procs i p pd st sp :
  sys_ok lo hi h sh procs -> procs !! i = Some p -> p_state p <> PROC_UNUSED -> st <> PROC_UNUSED ->
  (st = PROC_RUNNABLE -> 0 < pd -> pd = Z.of_nat i + 1) ->
  sys_ok lo hi h sh (<[i := set_ids p pd st sp]> procs).
Proof.
  intros Hsys Hi Hl Hst Hpd. pose proof (sys_live _ _ _ _ _ Hsys i p Hi Hl) as Hp.
  apply (sys_private lo hi h sh procs i p h p); try assumption.
  - by eapply proc_ok_fit.
  - apply (private_refl lo hi), (sys_heap _ _ _ _ _ Hsys).
  - intros k r. exact (fun E => E).
  - intros k r. exact (fun E => E).
  - intros j s pj id opa _ _ _. exact (fun E => E).
  - unfold runnable. simpl. intros [E1 E2]%andb_true_iff. apply Z.eqb_eq in E1. apply Hpd; lia.
  - intros _. by apply proc_ok_ids.
  - simpl. done.
  - pose proof (sys_shm _ _ _ _ _ Hsys) as Hshm. split; [apply Hshm| |apply Hshm|apply Hshm].
    intros k o Hk Hu. rewrite (refs_same _ procs i p) by (exact Hi || reflexivity).
    by apply (so_obj _ _ _ Hshm k).
Qed.

(** The new process in slot [i]. *)
Record created L (K : kstate H) image size (i : nat) K' p' : Prop := {
  cr_sys : sys_ok lo hi (k_heap K') (k_shm K') (k_procs K');
  cr_procs : k_procs K' = <[i := p']> (k_procs K);
  cr_rest : k_shm K' = k_shm K /\ k_current K' = k_current K /\ k_idle K' = k_idle K /\
    k_csrs K' = k_csrs K;
  cr_ids : pid p' = Z.of_nat i + 1 /\ p_state p' = PROC_RUNNABLE /\ p_sp p' = stack_top L i - 52;
  cr_frame : forall k, (k < 13)%nat -> p_stack p' !! (STACK_WORDS - 13 + k)%nat =
    Some (if (k =? 0)%nat then user_entry L else 0);
  cr_slots : forall s, slot_unused (shm_mappings p') s;
  cr_view : fresh_view L (k_heap K) (k_heap K') p' image size;
}.

Lemma free_slot_empty L K i p0 :
  sys_ok lo hi (k_heap K) (k_shm K) (k_procs K) -> k_procs K !! i = Some p0 ->
  p_state p0 = PROC_UNUSED ->
  empty_proc (reset_process L p0) /\ (forall r, free_ok (set_page_table (reset_process L p0) r)) /\ p_state (reset_process L p0) = PROC_UNUSED /\
  (forall k, (k < 13)%nat -> p_stack (reset_process L p0) !! (STACK_WORDS - 13 + k)%nat =
    Some (if (k =? 0)%nat then user_entry L else 0)).
Proof.
  intros Hsys Hi Hst. pose proof (sys_free _ _ _ _ _ Hsys i p0 Hi Hst) as Hfree.
  destruct (reset_process_spec L p0 (proj1 Hfree)) as (stk & E & Hlen & Hframe).
  rewrite E. split; [|split; [|split; [exact Hst|exact Hframe]]].
  - split; [split_and!; [reflexivity|reflexivity|exact Hlen]|]. split; [reflexivity|].
    intros s mp Hs. by apply lookup_replicate in Hs as [-> _].
  - intros r. split; [split_and!; [reflexivity|reflexivity|exact Hlen]|]. split; reflexivity.
Qed.

(** An empty process, given an address space, takes the free slot [i]. *)
Lemma place_process L K image size i p0 p h' p' :
  sys_ok lo hi (k_heap K) (k_shm K) (k_procs K) -> layout_ok L -> image_ok lo hi image size ->
  k_procs K !! i = Some p0 -> p_state p0 = PROC_UNUSED ->
  empty_proc p -> (forall r, free_ok (set_page_table p r)) -> p_state p = PROC_UNUSED ->
  (forall k, (k < 13)%nat -> p_stack p !! (STACK_WORDS - 13 + k)%nat =
    Some (if (k =? 0)%nat then user_entry L else 0)) ->
  build_address_space L (k_heap K) p image size = Ret (h', p') ->
  created L K image size i
    (set_proc (set_heap K h') i (set_ids p' (Z.of_nat i + 1) PROC_RUNNABLE (stack_top L i - 52)))
    (set_ids p' (Z.of_nat i + 1) PROC_RUNNABLE (stack_top L i - 52)).
Proof.
  intros Hsys HL Him Hi Hst He Hfree Hpst Hframe Hb.
  destruct (build_address_space_spec L (shm_table (k_shm K)) (k_heap K) p image size h' p' HL Him
    (sys_heap _ _ _ _ _ Hsys) He Hb) as (root & Hp' & Hpr & Hview).
  pose proof (sys_free _ _ _ _ _ Hsys i p0 Hi Hst) as Hfree0.
  assert (Hsys1 : sys_ok lo hi (k_heap K) (k_shm K) (<[i := set_page_table p root]> (k_procs K))).
  { apply (sys_retire lo hi _ _ _ i p0); [exact Hsys|exact Hi| |intros s; by apply free_unused| |apply Hfree].
    - destruct Hfree0 as (Hsh & Hidx & _). split; [rewrite Hidx; unfold PROC_REGION_MAX; lia|apply Hsh].
    - exact Hpst. }
  assert (Hi1 : <[i := set_page_table p root]> (k_procs K) !! i = Some (set_page_table p root)).
  { apply list_lookup_insert_eq. by eapply lookup_lt_Some. }
  pose proof (grows_fields _ _ _ _ (ps_grows _ _ _ _ _ _ Hpr)) as (_ & _ & _ & _ & Em & Es).
  assert (Hfit : regions_fit (set_page_table p root)).
  { destruct He as (Hsh & Hidx & _). split; simpl; [rewrite Hidx; unfold PROC_REGION_MAX; lia|apply Hsh]. }
  set (p'' := set_ids p' (Z.of_nat i + 1) PROC_RUNNABLE (stack_top L i - 52)).
  assert (Hsys2 : sys_ok lo hi h' (k_shm K) (<[i := p'']> (<[i := set_page_table p root]> (k_procs K)))).
  { apply (sys_private lo hi (k_heap K) (k_shm K) _ i (set_page_table p root) h' p' p'' (k_shm K)
      Hsys1 Hi1 Hfit Hpr).
    - intros k r. exact (fun E => E).
    - intros k r. exact (fun E => E).
    - intros j s pj id opa _ _ _. exact (fun E => E).
    - reflexivity.
    - intros _. by apply proc_ok_ids.
    - discriminate.
    - pose proof (sys_shm _ _ _ _ _ Hsys1) as Hshm. split; [apply Hshm| |apply Hshm|apply Hshm].
      intros k o Hk Hu. rewrite (refs_same _ _ i _ p'' Hi1) by exact Em.
      destruct (so_obj _ _ _ Hshm k o Hk Hu) as (? & ? & Hox & ?). split_and!; try assumption; try lia.
      by eapply grows_owned, Hox; apply Hpr. }
  rewrite list_insert_insert_eq in Hsys2.
  split; [exact Hsys2|reflexivity|by split_and!|by split_and!| | |exact Hview].
  - intros k Hk. simpl. rewrite Es. by apply Hframe.
  - intros s. simpl. rewrite Em. apply He.
Qed.

Lemma create_process_ok L K image size i K' :
  sys_ok lo hi (k_heap K) (k_shm K) (k_procs K) -> layout_ok L -> image_ok lo hi image size ->
  create_process L K image size = Ret (i, K') ->
  exists p', created L K image size i K' p' /\
    find_slot (fun p => p_state p =? PROC_UNUSED) (k_procs K) = Some i.
Proof.
  intros Hsys HL Him Hc. unfold create_process in Hc.
  destruct (find_slot _ _) as [i0|] eqn:Hfs; [|discriminate Hc].
  apply bind_Ret_inv in Hc as ([h' p'] & Hb & Hc). injection Hc as -> <-.
  apply find_slot_lookup in Hfs as (p0 & Hi & Hst). apply Z.eqb_eq in Hst.
  rewrite (aget_lookup _ _ _ Hi) in Hb.
  destruct (free_slot_empty L K i p0 Hsys Hi Hst) as (He & Hfree & Hpst & Hframe).
  eexists. split; [|reflexivity].
  exact (place_process L K image size i p0 _ h' p' Hsys HL Him Hi Hst He Hfree Hpst Hframe Hb).
Qed.

Lemma create_process_total L K image size i k :
  sys_ok lo hi (k_heap K) (k_shm K) (k_procs K) -> layout_ok L -> image_ok lo hi image size ->
  find_slot (fun p => p_state p =? PROC_UNUSED) (k_procs K) = Some i ->
  ph_avail (lo:=lo) (hi:=hi) (k_heap K) (space_pages L size + k) ->
  (space_pages L size + k <= PROC_REGION_MAX)%nat ->
  exists K' p', create_process L K image size = Ret (i, K') /\
    k_procs K' = <[i := p']> (k_procs K) /\ budget lo hi (k_heap K') p' k.
Proof.
  intros Hsys HL Him Hfs Hav Hmax. unfold create_process. rewrite Hfs.
  apply find_slot_lookup in Hfs as (p0 & Hi & Hst). apply Z.eqb_eq in Hst.
  rewrite (aget_lookup _ _ _ Hi).
  destruct (free_slot_empty L K i p0 Hsys Hi Hst) as (He & _).
  destruct (build_address_space_total L (k_heap K) (reset_process L p0) image size k HL Him
    (sys_heap _ _ _ _ _ Hsys) He) as (h' & p' & Hb & Hbud).
  - destruct He as (_ & Hidx & _). split; [exact Hav|]. rewrite Hidx. lia.
  - rewrite Hb. eexists _, _. split; [reflexivity|]. split; [reflexivity|exact Hbud].
Qed.

End Kernel.

Section Slack.
Context {H : Type} `{!PageHeap H} (lo hi : Z) `{!PageHeapSpec H lo hi}.

(** A process has a bound on its regions, the allocator none: what is left
    beyond the pages of the new process stays. *)
Lemma create_process_leaves L (K : kstate H) image size i k s :
  sys_ok lo hi (k_heap K) (k_shm K) (k_procs K) -> layout_ok L -> image_ok lo hi image size ->
  find_slot (fun p => p_state p =? PROC_UNUSED) (k_procs K) = Some i ->
  ph_avail (k_heap K) (space_pages L size + (k + s)) -> (space_pages L size + k <= PROC_REGION_MAX)%nat ->
  exists K' p', create_process L K image size = Ret (i, K') /\
    k_procs K' = <[i := p']> (k_procs K) /\ budget lo hi (k_heap K') p' k /\ ph_avail (k_heap K') (k + s).
Proof.
  intros Hsys HL Him Hfs Hav Hmax.
  destruct (create_process_total lo hi (PageHeapSpec0 := put_aside PageHeapSpec0 s) L K image size i k)
    as (K' & p' & Hc & Hp & Hb & Hidx).
  - destruct Hsys. by split.
  - exact HL.
  - exact Him.
  - exact Hfs.
  - exact (eq_ind _ (ph_avail (k_heap K)) Hav _ (Nat.add_assoc _ k s)).
  - exact Hmax.
  - exists K', p'. split; [exact Hc|]. split; [exact Hp|]. split; [|exact Hb]. split; [|exact Hidx].
    eapply ph_avail_le; [|exact Hb]. lia.
Qed.
End Slack.

Section Invariant.
Context {H : Type} `{!PageHeap H} (lo hi : Z) `{!PageHeapSpec H lo hi}.
Implicit Types (h : H) (p : process).

(** ** The invariant of the kernel state *)

Record kernel_ok (K : kstate H) : Prop := {
  ko_sys : sys_ok lo hi (k_heap K) (k_shm K) (k_procs K);
  ko_current : exists p, k_procs K !! k_current K = Some p /\ p_state p <> PROC_UNUSED;
  ko_idle : exists p, k_procs K !! k_idle K = Some p /\ p_state p = PROC_RUNNABLE /\ pid p = 0;
}.

(** Operations on the process that runs. *)
Definition current_process (K : kstate H) : process := k_procs K !!! k_current K.

Definition exit_current (K : kstate H) : kstate H :=
  let p := current_process K in
  set_proc K (k_current K) (set_ids p (pid p) PROC_EXITED (p_sp p)).

Definition attach_current (K : kstate H) (id : Z) : outcome (Z * kstate H) :=
  '(ret, h, sh, p) ← shm_attach (k_heap K) (k_shm K) (current_process K) id;
  Ret (ret, set_proc (set_heap (set_shm K sh) h) (k_current K) p).

Definition detach_current (K : kstate H) (vaddr : Z) : outcome (Z * kstate H) :=
  '(ret, h, sh, p) ← shm_detach (k_heap K) (k_shm K) (current_process K) vaddr;
  Ret (ret, set_proc (set_heap (set_shm K sh) h) (k_current K) p).

Definition get_current (K : kstate H) (key : Z) : outcome (Z * kstate H) :=
  '(ret, h, sh) ← shm_get (k_heap K) (k_shm K) key;
  Ret (ret, set_heap (set_shm K sh) h).

(** An access of the running program: the hardware translates it through the
    page table and wants [PAGE_U] and the flag of the access.  [None] is a page
    fault. *)
Definition user_access (K : kstate H) (va flag : Z) : option Z :=
  match sv32_walk (ph_mem (k_heap K)) (page_table (current_process K)) va with
  | Some (pa, flags) => if pte_flag flags PAGE_U && pte_flag flags flag then Some pa else None
  | None => None
  end.
Definition user_store (K : kstate H) (va v : Z) : option (kstate H) :=
  match user_access K va PAGE_W with
  | Some pa => Some (set_heap K (ph_set_mem (k_heap K) (store8 (ph_mem (k_heap K)) pa v)))
  | None => None
  end.

(** Only a user process exits; the idle process is the boot code. Between the
    operations programs store to memory and driver code changes [sstatus]. *)
Inductive kernel_step (L : layout) : kstate H -> kstate H -> Prop :=
  | step_create K image size i K' :
      image_ok lo hi image size -> create_process L K image size = Ret (i, K') ->
      kernel_step L K K'
  | step_get K key ret K' : - 2 ^ 31 <= key < 2 ^ 31 -> get_current K key = Ret (ret, K') -> kernel_step L K K'
  | step_attach K id ret K' : attach_current K id = Ret (ret, K') -> kernel_step L K K'
  | step_detach K va ret K' : detach_current K va = Ret (ret, K') -> kernel_step L K K'
  | step_exit K : k_current K <> k_idle K -> kernel_step L K (exit_current K)
  | step_yield K sw K' : yield L K = Ret (sw, K') -> kernel_step L K K'
  | step_resume K saved : kernel_step L K (yield_resume K saved)
  | step_store K va v K' : 0 <= va < 2 ^ 32 -> user_store K va v = Some K' -> kernel_step L K K'
  | step_csrs K c : kernel_step L K (set_csrs K c).

Lemma kernel_current K : kernel_ok K ->
  k_procs K !! k_current K = Some (current_process K) /\
  p_state (current_process K) <> PROC_UNUSED.
Proof.
  intros HK. destruct (ko_current K HK) as (p & Hp & Hl). unfold current_process.
  by rewrite (aget_lookup _ _ _ Hp).
Qed.

(** Replacing the current process by one that still runs. *)
Lemma kernel_ok_current K K' p' :
  kernel_ok K -> sys_ok lo hi (k_heap K') (k_shm K') (k_procs K') ->
  k_procs K' = <[k_current K := p']> (k_procs K) -> k_current K' = k_current K ->
  k_idle K' = k_idle K -> p_state p' <> PROC_UNUSED ->
  (k_current K = k_idle K -> p_state p' = PROC_RUNNABLE /\ pid p' = 0) ->
  kernel_ok K'.
Proof.
  intros HK Hsys Hprocs Hc Hid Hl Hidle. destruct (kernel_current K HK) as [Hcur _].
  split; [exact Hsys| |].
  - exists p'. rewrite Hc, Hprocs. split; [|exact Hl].
    apply list_lookup_insert_eq. by eapply lookup_lt_Some.
  - destruct (ko_idle K HK) as (q & Hq & Hst & Hpd). rewrite Hid, Hprocs.
    destruct (decide (k_current K = k_idle K)) as [E|Hne].
    + exists p'. rewrite <-E. split; [|by apply Hidle].
      apply list_lookup_insert_eq. by eapply lookup_lt_Some.
    + exists q. by rewrite list_lookup_insert_ne.
Qed.

Lemma current_idle_state K : kernel_ok K -> k_current K = k_idle K ->
  p_state (current_process K) = PROC_RUNNABLE /\ pid (current_process K) = 0.
Proof.
  intros HK E. destruct (ko_idle K HK) as (q & Hq & Hst & Hpd).
  unfold current_process. rewrite E, (aget_lookup _ _ _ Hq). by split.
Qed.
End Invariant.
