(* ===== verification/Views.v ===== *)
(** What user mode sees of memory ([kernel/process.c], [kernel/shm.c]).

    [user_reaches] is what the page tables let a process access.  Under the
    kernel invariant every byte it reaches has one holder, and no byte of a
    page table is among them; so a store of a user program, [user_store],
    preserves the invariant. *)

From Stdlib Require Import ZArith Lia.
From S2P Require Import Prelude Memory PageHeap Allocator PageTable Shm Process KernelInv System Lifecycle AddressSpace Kernel.
Open Scope Z_scope.

Section Views.
Context {H : Type} `{!PageHeap H}.
Implicit Types (K : kstate H).

(** Process [i] translates [va] to [pa] with flags [fl]. *)
Definition translates K (i : nat) (va pa fl : Z) : Prop :=
  exists p, k_procs K !! i = Some p /\ p_state p <> PROC_UNUSED /\ 0 <= va < 2 ^ 32 /\
    sv32_walk (ph_mem (k_heap K)) (page_table p) va = Some (pa, fl).

(** User mode of process [i] can access the byte at [pa]. *)
Definition user_reaches K (i : nat) (pa : Z) : Prop :=
  exists va fl, translates K i va pa fl /\ Z.land fl PAGE_U <> 0.

Definition attached_to K (i : nat) (id : Z) : Prop :=
  exists p s, k_procs K !! i = Some p /\ attached (shm_mappings p) s id.
End Views.

Section Holders.
Context {H : Type} `{!PageHeap H} (lo hi : Z) `{!PageHeapSpec H lo hi}.
Implicit Types (K : kstate H).
Context (K : kstate H) (HK : kernel_ok lo hi K).
Local Abbreviation own := (ph_owned (k_heap K)).
Local Abbreviation tbl := (shm_table (k_shm K)).
Local Abbreviation procs := (k_procs K).

(** Two handles of pages that share a byte are one handle, with one holder. *)
Lemma same_byte_same_holder a b r1 r2 q1 q2 x :
  held tbl procs a r1 -> held tbl procs b r2 ->
  own !! r1 = Some (q1, PAGE_SIZE) -> own !! r2 = Some (q2, PAGE_SIZE) ->
  q1 <= x < q1 + PAGE_SIZE -> q2 <= x < q2 + PAGE_SIZE -> a = b /\ q1 = q2.
Proof.
  intros Ha Hb H1 H2 Hx1 Hx2. destruct (decide (r1 = r2)) as [->|Hne].
  - split; [|congruence]. by apply (sys_unique _ _ _ _ _ (ko_sys _ _ _ HK) a b r2).
  - pose proof (owned_apart lo hi (k_heap K) r1 r2 q1 q2
      (sys_heap _ _ _ _ _ (ko_sys _ _ _ HK)) H1 H2 Hne) as Hap. unfold apart in Hap. lia.
Qed.

Lemma object_held id opa :
  object_pa tbl id opa ->
  exists k r, held tbl procs (HShm k) r /\ own !! r = Some (opa, PAGE_SIZE) /\
    forall o, tbl !! k = Some o -> so_id o = id.
Proof.
  intros (k & o & Hk & Hu & Eid & Epa). exists k, (so_region_idx o).
  destruct (so_obj _ _ _ (sys_shm _ _ _ _ _ (ko_sys _ _ _ HK)) k o Hk Hu) as (_ & _ & Hown & _).
  split; [by exists o|]. split; [by rewrite <-Epa|]. intros o' Hk'. congruence.
Qed.

(** Who holds the byte a user access reaches. *)
Lemma user_reaches_holder i pa :
  user_reaches K i pa ->
  exists a r q, held tbl procs a r /\ own !! r = Some (q, PAGE_SIZE) /\
    q <= pa < q + PAGE_SIZE /\
    ((exists p k, a = HProc i k /\ procs !! i = Some p /\
        ~ pt_page (ph_mem (k_heap K)) (page_table p) q) \/
     (exists k id, a = HShm k /\ attached_to K i id /\ object_pa tbl id q /\
        forall o, tbl !! k = Some o -> so_id o = id)).
Proof.
  intros (va & fl & (p & Hi & Hl & Hva & Hw) & HU).
  destruct (po_user _ _ _ _ (sys_live _ _ _ _ _ (ko_sys _ _ _ HK) i p Hi Hl) va pa fl Hva Hw HU)
    as [(q & Hq & Hn & Hr)|(s & id & opa & Ha & _ & Hob & ->)].
  - destruct (proc_holds_held lo hi (k_heap K) (k_shm K) procs i p q Hi Hq) as (k & r & Hh & Ho).
    exists (HProc i k), r, q. split; [exact Hh|]. split; [exact Ho|]. split; [exact Hr|].
    left. by exists p, k.
  - destruct (object_held id opa Hob) as (k & r & Hh & Ho & Hid).
    exists (HShm k), r, opa. split; [exact Hh|]. split; [exact Ho|].
    split; [pose proof (Z.mod_pos_bound va PAGE_SIZE eq_refl); lia|].
    right. exists k, id. split; [reflexivity|]. split; [by exists p, s|]. by split.
Qed.

(** What user mode sees in an attached slot. *)
Lemma attached_view i p s id d :
  procs !! i = Some p -> attached (shm_mappings p) s id -> 0 <= d < PAGE_SIZE ->
  exists opa, object_pa tbl id opa /\
    translates K i (shm_page s + d) (opa + d) (Z.lor SHM_FLAGS PAGE_V) /\
    sv32_walk (ph_mem (k_heap K)) (page_table p) (shm_page s + d) =
      Some (opa + d, Z.lor SHM_FLAGS PAGE_V).
Proof.
  intros Hi Ha Hd. pose proof (ko_sys _ _ _ HK) as Hsys.
  pose proof (attached_live lo hi _ _ _ Hsys i p s id Hi Ha) as Hl.
  pose proof (sys_live _ _ _ _ _ Hsys i p Hi Hl) as Hp.
  destruct (po_shm _ _ _ _ Hp s id Ha) as (opa & Hob & Hw). exists opa. split; [exact Hob|].
  assert (Hs : (s < PROC_SHM_MAX)%nat).
  { destruct Ha as (mp & Hs & _). destruct (po_shape _ _ _ _ Hp) as (_ & <- & _).
    by eapply lookup_lt_Some. }
  destruct (shm_page_range s Hs) as (Hr & [c Hc] & _).
  assert (Hva : 0 <= shm_page s + d < 2 ^ 32).
  { unfold shm_page, SHM_USER_BASE, SHM_PAGE_SIZE, PAGE_SIZE, PROC_SHM_MAX in *. lia. }
  assert (Hwalk : sv32_walk (ph_mem (k_heap K)) (page_table p) (shm_page s + d) =
    Some (opa + d, Z.lor SHM_FLAGS PAGE_V)).
  { rewrite (Hw _ Hva).
    - do 2 f_equal. rewrite Hc, (Z.add_comm (c * PAGE_SIZE) d), Z.mod_add by done. f_equal.
      by apply Z.mod_small.
    - unfold same_page. rewrite Hc, Z.div_add_l, Z.div_mul, (Z.div_small d) by done. lia. }
  split; [|exact Hwalk]. by exists p.
Qed.

(** Nor does any user access reach a page table. *)
Lemma user_reaches_no_table i j p q pa :
  user_reaches K i pa -> procs !! j = Some p -> p_state p <> PROC_UNUSED ->
  pt_page (ph_mem (k_heap K)) (page_table p) q -> ~ q <= pa < q + PAGE_SIZE.
Proof.
  intros Hi Hj Hl Hq Hpa.
  destruct (user_reaches_holder i pa Hi) as (a & r1 & q1 & Ha & Ho1 & Hr1 & Hc1).
  pose proof (po_pages _ _ _ _ (sys_live _ _ _ _ _ (ko_sys _ _ _ HK) j p Hj Hl) q Hq) as Hh.
  destruct (proc_holds_held lo hi (k_heap K) (k_shm K) procs j p q Hj Hh) as (k & r2 & Hb & Ho2).
  destruct (same_byte_same_holder a (HProc j k) r1 r2 q1 q pa Ha Hb Ho1 Ho2 Hr1 Hpa) as [-> ->].
  destruct Hc1 as [(p' & k' & E & Hp' & Hn)|(k' & id & E & _)]; [|discriminate E].
  injection E as -> ->. apply Hn. by assert (p' = p) as -> by congruence.
Qed.

(** What two processes both reach is shared. *)
Lemma reached_by_both i j pa :
  i <> j -> user_reaches K i pa -> user_reaches K j pa ->
  exists id opa, attached_to K i id /\ attached_to K j id /\ object_pa tbl id opa /\
    opa <= pa < opa + PAGE_SIZE.
Proof.
  intros Hij Hi Hj.
  destruct (user_reaches_holder i pa Hi) as (a & r1 & q1 & Ha & Ho1 & Hr1 & Hc1).
  destruct (user_reaches_holder j pa Hj) as (b & r2 & q2 & Hb & Ho2 & Hr2 & Hc2).
  destruct (same_byte_same_holder a b r1 r2 q1 q2 pa Ha Hb Ho1 Ho2 Hr1 Hr2) as [E <-].
  destruct Hc1 as [(p & k & -> & _)|(k & id & -> & At1 & Ob1 & Id1)],
    Hc2 as [(p' & k' & -> & _)|(k' & id' & -> & At2 & Ob2 & Id2)]; try congruence.
  injection E as <-. exists id, q1. destruct Ha as (o & Hk & _).
  rewrite <-(Id2 o Hk), (Id1 o Hk) in At2.
  split; [exact At1|]. split; [exact At2|]. split; [exact Ob1|exact Hr1].
Qed.

(** ** Stores of a user program *)

Lemma user_access_reaches va fl pa :
  0 <= va < 2 ^ 32 -> user_access K va fl = Some pa -> user_reaches K (k_current K) pa.
Proof.
  intros Hva Ha. unfold user_access in Ha.
  destruct (sv32_walk _ _ _) as [[pa' flags]|] eqn:Hw; [|discriminate Ha].
  destruct (pte_flag flags PAGE_U && pte_flag flags fl) eqn:Ef; [|discriminate Ha]. injection Ha as <-.
  apply andb_true_iff in Ef as [Hu _]. unfold pte_flag in Hu. apply negb_true_iff, Z.eqb_neq in Hu.
  destruct (kernel_current lo hi K HK) as [Hcur Hl]. exists va, flags.
  split; [by exists (current_process K)|exact Hu].
Qed.

Lemma store_frame i j p pa v q x :
  user_reaches K i pa -> procs !! j = Some p -> p_state p <> PROC_UNUSED ->
  pt_page (ph_mem (k_heap K)) (page_table p) q -> q <= x < q + PAGE_SIZE ->
  load8 (store8 (ph_mem (k_heap K)) pa v) x = load8 (ph_mem (k_heap K)) x.
Proof.
  intros Hi Hj Hl Hq Hx. rewrite load8_store8. destruct (Z.eqb_spec x pa) as [->|]; [|done].
  exfalso. by apply (user_reaches_no_table i j p q pa Hi Hj Hl Hq).
Qed.

Lemma store_ok i pa v :
  user_reaches K i pa ->
  kernel_ok lo hi (set_heap K (ph_set_mem (k_heap K) (store8 (ph_mem (k_heap K)) pa v))).
Proof.
  intros Hi. pose proof (ko_sys _ _ _ HK) as Hsys. split; [|apply HK|apply HK]. simpl.
  split; autorewrite with mint_rw.
  - apply ph_set_mem_ok, Hsys.
  - apply Hsys.
  - apply Hsys.
  - apply Hsys.
  - apply Hsys.
  - intros j p Hj Hl. apply (proc_ok_frame own own (ph_mem (k_heap K)) _ tbl tbl p);
      [by apply (sys_live _ _ _ _ _ Hsys j p)|done| |done].
    intros q x Hq Hx. rewrite ph_mem_set_mem. by eapply store_frame.
  - apply Hsys.
Qed.

Lemma user_store_inv va v K' :
  user_store K va v = Some K' ->
  exists pa, user_access K va PAGE_W = Some pa /\
    K' = set_heap K (ph_set_mem (k_heap K) (store8 (ph_mem (k_heap K)) pa v)).
Proof.
  unfold user_store. destruct (user_access K va PAGE_W) as [pa|]; [|discriminate].
  intros [= <-]. by exists pa.
Qed.

(** Translations stay as they are. *)
Lemma store_translates i j pa v va pa' fl :
  user_reaches K i pa ->
  translates (set_heap K (ph_set_mem (k_heap K) (store8 (ph_mem (k_heap K)) pa v))) j va pa' fl <->
  translates K j va pa' fl.
Proof.
  intros Hi. unfold translates. simpl. rewrite ph_mem_set_mem.
  assert (E : forall p, procs !! j = Some p -> p_state p <> PROC_UNUSED ->
    sv32_walk (store8 (ph_mem (k_heap K)) pa v) (page_table p) va =
    sv32_walk (ph_mem (k_heap K)) (page_table p) va).
  { intros p Hj Hl. apply (frame_walk own). 2: apply (sys_live _ _ _ _ _ (ko_sys _ _ _ HK) j p Hj Hl).
    intros q x Hq Hx. by eapply store_frame. }
  split; intros (p & Hj & Hl & Hva & Hw); exists p; (split; [exact Hj|]); (split; [exact Hl|]);
    (split; [exact Hva|]); [by rewrite <-(E p Hj Hl)|by rewrite (E p Hj Hl)].
Qed.
End Holders.
