(* ===== verification/Reach.v ===== *)
(** Reachable kernel states and what holds of them.

    [boot] is the state after [init_regions], [shm_init] and
    [init_processes]; every state reached from it by [kernel_step] satisfies
    [kernel_ok].  The properties of [KernelProps.v] follow from that invariant. *)

From Stdlib Require Import ZArith Lia.
From stdpp Require Import relations.
From S2P Require Import Prelude Memory PageHeap Allocator PageTable Shm Process KernelInv System Lifecycle AddressSpace Kernel Views.
Open Scope Z_scope.

(** The process table before [init_processes]: zeroed static storage. *)
Definition zero_process : process :=
  mkProcess 0 PROC_UNUSED 0 0 (replicate PROC_REGION_MAX 0) 0
    (replicate PROC_SHM_MAX no_mapping) (replicate STACK_WORDS 0).

Lemma zero_process_free : free_ok zero_process.
Proof. split; [split_and!; reflexivity|split; reflexivity]. Qed.

Lemma init_slot_zero : init_slot zero_process = zero_process.
Proof.
  unfold init_slot. rewrite (clear_regions_spec (set_ids zero_process 0 PROC_UNUSED 0))
    by (apply zero_process_free).
  rewrite clear_mappings_spec by reflexivity. reflexivity.
Qed.

Definition boot_shm : shm_state := shm_init (mkShmState (replicate SHM_MAX shm_object_zero) 1).

Definition boot_kernel {H} (h : H) (c : csrs) : kstate H :=
  mkK h boot_shm (replicate PROCS_MAX zero_process) 0 0 c.

Section Reach.
Context {H : Type} `{!PageHeap H} (lo hi : Z) `{!PageHeapSpec H lo hi}.
Implicit Types (h : H) (p : process) (sh : shm_state) (K : kstate H).
Local Abbreviation kernel_ok := (kernel_ok lo hi).
Local Abbreviation kernel_step := (kernel_step lo hi).

Lemma boot_procs_free i p :
  replicate PROCS_MAX zero_process !! i = Some p -> free_ok p /\ p_state p = PROC_UNUSED.
Proof. intros [-> _]%lookup_replicate. split; [apply zero_process_free|reflexivity]. Qed.

Lemma boot_sys h :
  ph_ok h -> sys_ok lo hi h boot_shm (replicate PROCS_MAX zero_process).
Proof.
  intros Hok.
  assert (Hno : forall a r, ~ held (shm_table boot_shm) (replicate PROCS_MAX zero_process) a r).
  { intros [i k|k] r.
    - intros (p & Hi & Hr). destruct (boot_procs_free i p Hi) as [Hf _].
      by apply free_not_held in Hr.
    - intros (o & Ho & Hu & _). apply (lookup_replicate SHM_MAX shm_object_zero) in Ho as [-> _].
      discriminate Hu. }
  split.
  - exact Hok.
  - split; [reflexivity|]. intros s Hs.
    assert (E : replicate PROCS_MAX zero_process !!! s = zero_process).
    { apply aget_lookup. by apply lookup_replicate. }
    rewrite E. discriminate.
  - intros a r Ha. by apply Hno in Ha.
  - intros a b r Ha. by apply Hno in Ha.
  - split; [reflexivity| | |reflexivity].
    + intros k o Ho Hu. apply (lookup_replicate SHM_MAX shm_object_zero) in Ho as [-> _].
      discriminate Hu.
    + intros k1 k2 o1 o2 Ho _ Hu. apply (lookup_replicate SHM_MAX shm_object_zero) in Ho as [-> _].
      discriminate Hu.
  - intros i p Hi Hl. destruct (boot_procs_free i p Hi) as [_ E]. done.
  - intros i p Hi _. apply (boot_procs_free i p Hi).
Qed.

(** The loop of [init_processes] leaves zeroed slots as they are. *)
Lemma init_loop_zero :
  fold_left (fun procs i => <[i := init_slot (procs !!! i)]> procs) (seq 0 PROCS_MAX)
    (replicate PROCS_MAX zero_process) = replicate PROCS_MAX zero_process.
Proof.
  apply (fold_left_inv (fun l => l = replicate PROCS_MAX zero_process)); [|reflexivity].
  intros l i Hi%elem_of_seq0 ->.
  assert (E : replicate PROCS_MAX zero_process !!! i = zero_process).
  { apply aget_lookup. by apply lookup_replicate. }
  rewrite E, init_slot_zero. apply insert_replicate.
Qed.

(** [init_processes] makes the first process the idle process. *)
Lemma init_processes_ok L K0 K :
  layout_ok L -> sys_ok lo hi (k_heap K0) (k_shm K0) (k_procs K0) ->
  fold_left (fun procs i => <[i := init_slot (procs !!! i)]> procs) (seq 0 PROCS_MAX)
    (k_procs K0) = k_procs K0 ->
  init_processes L K0 = Ret K -> kernel_ok K.
Proof.
  intros HL Hsys0 Hloop Hi. unfold init_processes in Hi. rewrite Hloop in Hi.
  apply bind_Ret_inv in Hi as ([i K1] & Hc & Hi). injection Hi as <-.
  assert (Him : image_ok lo hi 0 0).
  { pose proof ph_lo_hi as [? _]. split; [lia|]. split; [lia|]. left. lia. }
  destruct (create_process_ok lo hi L (mkK (k_heap K0) (k_shm K0) (k_procs K0) (k_current K0)
    (k_idle K0) (k_csrs K0)) 0 0 i K1 Hsys0 HL Him Hc) as (p' & Hcr & Hfs).
  destruct Hcr as [Hsys Hprocs (Hsh & Hc' & Hid & Hcs) (Hpd & Hst & Hsp) _ _ _].
  apply find_slot_lt in Hfs as Hlt.
  assert (Hi' : k_procs K1 !! i = Some p') by (rewrite Hprocs; by apply list_lookup_insert_eq).
  rewrite (aget_lookup _ _ _ Hi').
  set (q := set_ids p' 0 (p_state p') (p_sp p')).
  assert (Hq : <[i := q]> (k_procs K1) !! i = Some q).
  { apply list_lookup_insert_eq. by eapply lookup_lt_Some. }
  split; simpl.
  - apply (sys_ids lo hi); [exact Hsys|exact Hi'|rewrite Hst; discriminate|rewrite Hst; discriminate|].
    lia.
  - exists q. split; [exact Hq|]. simpl. rewrite Hst. discriminate.
  - exists q. split; [exact Hq|]. by split.
Qed.

Lemma boot_ok L h c K :
  layout_ok L -> ph_ok h -> init_processes L (boot_kernel h c) = Ret K -> kernel_ok K.
Proof.
  intros HL Hok. apply (init_processes_ok L (boot_kernel h c) K HL).
  - exact (boot_sys h Hok).
  - exact init_loop_zero.
Qed.

(** [init_processes] returns when the allocator has the pages of the idle
    process's address space. *)
Lemma init_processes_total L h c k s :
  layout_ok L -> ph_ok h -> ph_avail h (space_pages L 0 + (k + s)) ->
  (space_pages L 0 + k <= PROC_REGION_MAX)%nat ->
  exists K q, init_processes L (boot_kernel h c) = Ret K /\ kernel_ok K /\
    k_procs K = <[0%nat := q]> (replicate PROCS_MAX zero_process) /\
    p_state q = PROC_RUNNABLE /\ pid q = 0 /\ k_current K = 0%nat /\ k_idle K = 0%nat /\
    k_shm K = boot_shm /\ k_csrs K = c /\ budget lo hi (k_heap K) q k /\ ph_avail (k_heap K) (k + s) /\
    length (shm_mappings q) = PROC_SHM_MAX /\ (forall i, slot_unused (shm_mappings q) i).
Proof.
  intros HL Hok Hav Hmax. set (K0 := boot_kernel h c).
  assert (Him : image_ok lo hi 0 0).
  { pose proof ph_lo_hi as [? _]. split; [lia|]. split; [lia|]. left. lia. }
  destruct (create_process_leaves lo hi L K0 0 0 0 k s (boot_sys h Hok) HL Him eq_refl Hav Hmax)
    as (K1 & p & Hc & Hp & Hbud & Hav').
  destruct (create_process_ok lo hi L K0 0 0 0 K1 (boot_sys h Hok) HL Him Hc)
    as (p' & [Hsys' Hp' (Hsh & Hcur & Hid & Hcs) (_ & Hst & _) _ Hslots _] & _).
  assert (p' = p) as ->.
  { rewrite Hp in Hp'. pose proof (f_equal (fun l => l !! 0%nat) Hp') as E. simpl in E. congruence. }
  assert (Hget : k_procs K1 !!! 0%nat = p) by (rewrite Hp; reflexivity).
  set (q := set_ids p 0 (p_state p) (p_sp p)).
  assert (Hinit : init_processes L K0 = Ret (set_current (set_idle (set_proc K1 0 q) 0) 0)).
  { unfold init_processes. change (k_procs K0) with (replicate PROCS_MAX zero_process).
    rewrite init_loop_zero.
    change (mkK (k_heap K0) (k_shm K0) (replicate PROCS_MAX zero_process) (k_current K0)
      (k_idle K0) (k_csrs K0)) with K0.
    rewrite Hc, bind_Ret_l. rewrite Hget. reflexivity. }
  exists (set_current (set_idle (set_proc K1 0 q) 0) 0), q. split; [exact Hinit|].
  split; [exact (boot_ok L h c _ HL Hok Hinit)|].
  split; [cbn [set_current set_idle set_proc k_procs]; rewrite Hp; exact (list_insert_insert_eq _ 0%nat q p)|].
  split; [exact Hst|]. split; [reflexivity|]. split; [reflexivity|]. split; [reflexivity|].
  split; [exact Hsh|]. split; [exact Hcs|]. split; [exact Hbud|]. split; [exact Hav'|]. split; [|exact Hslots].
  apply (po_shape _ _ _ _ (sys_live _ _ _ _ _ Hsys' 0%nat p ltac:(rewrite Hp; reflexivity)
    ltac:(rewrite Hst; discriminate))).
Qed.

Lemma step_create_ok L K image size i K' :
  kernel_ok K -> layout_ok L -> image_ok lo hi image size ->
  create_process L K image size = Ret (i, K') -> kernel_ok K'.
Proof.
  intros HK HL Him Hc.
  destruct (create_process_ok lo hi L K image size i K' (ko_sys _ _ _ HK) HL Him Hc)
    as (p' & [Hsys Hprocs (Hsh & Hc' & Hid & Hcs) _ _ _ _] & Hfs).
  apply find_slot_lookup in Hfs as (p0 & Hi & Hst). apply Z.eqb_eq in Hst.
  split; [exact Hsys| |].
  - destruct (ko_current _ _ _ HK) as (p & Hp & Hl). exists p. split; [|exact Hl].
    rewrite Hc', Hprocs, list_lookup_insert_ne; [exact Hp|]. intros ->. congruence.
  - destruct (ko_idle _ _ _ HK) as (p & Hp & Hl & Hpd). exists p. split; [|by split].
    rewrite Hid, Hprocs, list_lookup_insert_ne; [exact Hp|]. intros ->.
    assert (p = p0) as -> by congruence. rewrite Hst in Hl. discriminate Hl.
Qed.

Lemma step_get_ok K key ret K' :
  kernel_ok K -> get_current K key = Ret (ret, K') -> kernel_ok K'.
Proof.
  intros HK Hg. apply bind_Ret_inv in Hg as ([[ret' h] sh] & Hg & E). injection E as -> <-.
  split; [|apply HK|apply HK]. simpl. eapply shm_get_ok; [apply HK|exact Hg].
Qed.

Lemma step_attach_ok K id ret K' :
  kernel_ok K -> attach_current K id = Ret (ret, K') -> kernel_ok K'.
Proof.
  intros HK Ha. apply bind_Ret_inv in Ha as ([[[ret' h] sh] p'] & Ha & E). injection E as -> <-.
  destruct (kernel_current lo hi K HK) as [Hcur Hl].
  pose proof (current_idle_state lo hi K HK) as Hidle.
  destruct (shm_attach_ok lo hi _ _ _ _ _ id ret h sh p' (ko_sys _ _ _ HK) Hcur Hl Ha)
    as [(_ & -> & -> & ->)|(Hsys & Est & Epid & _)].
  - apply (kernel_ok_current lo hi K _ (current_process K) HK); simpl; try reflexivity;
      [|exact Hl|exact Hidle]. rewrite list_insert_id by exact Hcur. apply HK.
  - apply (kernel_ok_current lo hi K _ p' HK); simpl; try reflexivity;
      [exact Hsys|by rewrite Est|]. rewrite Est, Epid. exact Hidle.
Qed.

Lemma step_detach_ok K va ret K' :
  kernel_ok K -> detach_current K va = Ret (ret, K') -> kernel_ok K'.
Proof.
  intros HK Ha. apply bind_Ret_inv in Ha as ([[[ret' h] sh] p'] & Ha & E). injection E as -> <-.
  destruct (kernel_current lo hi K HK) as [Hcur Hl].
  pose proof (current_idle_state lo hi K HK) as Hidle.
  destruct (shm_detach_spec lo hi _ _ _ _ _ va (ko_sys _ _ _ HK) Hcur Hl)
    as [[_ Hd]|(s & id & k & o & h' & sh' & p1 & _ & _ & _ & _ & _ & Hd & Hdt)];
    rewrite Hd in Ha; injection Ha as <- <- <- <-.
  - apply (kernel_ok_current lo hi K _ (current_process K) HK); simpl; try reflexivity;
      [|exact Hl|exact Hidle]. rewrite list_insert_id by exact Hcur. apply HK.
  - pose proof (dt_proc _ _ _ _ _ _ _ _ _ _ _ _ _ Hdt) as ->.
    apply (kernel_ok_current lo hi K _ (set_mappings (current_process K)
      (<[s := no_mapping]> (shm_mappings (current_process K)))) HK);
      [exact (dt_sys _ _ _ _ _ _ _ _ _ _ _ _ _ Hdt)|reflexivity..|exact Hl|exact Hidle].
Qed.

Lemma step_exit_ok K : kernel_ok K -> k_current K <> k_idle K -> kernel_ok (exit_current K).
Proof.
  intros HK Hne. destruct (kernel_current lo hi K HK) as [Hcur Hl].
  apply (kernel_ok_current lo hi K _
    (set_ids (current_process K) (pid (current_process K)) PROC_EXITED (p_sp (current_process K))) HK);
    [|reflexivity|reflexivity|reflexivity|discriminate|done].
  apply (sys_ids lo hi); [apply HK|exact Hcur|exact Hl|discriminate|discriminate].
Qed.

(** [yield], from a state where the current process may have exited. *)
Lemma yield_cases L K :
  kernel_ok K ->
  exists K1 sw K', yield L K = Ret (sw, K') /\
    sys_ok lo hi (k_heap K1) (k_shm K1) (k_procs K1) /\
    k_heap K' = k_heap K1 /\ k_shm K' = k_shm K1 /\ k_procs K' = k_procs K1 /\
    k_idle K' = k_idle K /\ k_idle K1 = k_idle K /\ k_current K1 = k_current K /\
    k_current K' = pick_next K1 /\
    (if bool_decide (p_state (current_process K) = PROC_EXITED)
     then exists p', k_procs K1 = <[k_current K := p']> (k_procs K) /\ p_state p' = PROC_UNUSED /\
       pid p' = 0 /\
       (forall r, r ∈ handles (current_process K) -> r <> 0 -> ph_owned (k_heap K1) !! r = None)
     else k_heap K1 = k_heap K /\ k_shm K1 = k_shm K /\ k_procs K1 = k_procs K) /\
    (if bool_decide (pick_next K1 = k_current K)
     then sw = None /\ k_csrs K' = k_csrs K
     else sw = Some (k_current K, pick_next K1) /\
       k_csrs K' = mkCsrs (Z.land (sstatus (k_csrs K)) (Z.lnot SSTATUS_SIE))
         (Z.lor SATP_SV32 (page_table (k_procs K1 !!! pick_next K1) / PAGE_SIZE))
         (stack_top L (pick_next K1))).
Proof.
  intros HK. destruct (kernel_current lo hi K HK) as [Hcur Hl]. unfold yield.
  set (c := mkCsrs (Z.land (sstatus (k_csrs K)) (Z.lnot SSTATUS_SIE)) (satp (k_csrs K))
    (sscratch (k_csrs K))). fold (current_process K).
  change (k_procs (set_csrs K c) !!! k_current (set_csrs K c)) with (current_process K).
  assert (Hrel : exists K1, (if p_state (current_process K) =? PROC_EXITED
      then release_process (set_csrs K c) (k_current (set_csrs K c)) else Ret (set_csrs K c)) = Ret K1 /\
    sys_ok lo hi (k_heap K1) (k_shm K1) (k_procs K1) /\ k_idle K1 = k_idle K /\
    k_current K1 = k_current K /\ k_csrs K1 = c /\
    (if bool_decide (p_state (current_process K) = PROC_EXITED)
     then exists p', k_procs K1 = <[k_current K := p']> (k_procs K) /\ p_state p' = PROC_UNUSED /\
       pid p' = 0 /\
       (forall r, r ∈ handles (current_process K) -> r <> 0 -> ph_owned (k_heap K1) !! r = None)
     else k_heap K1 = k_heap K /\ k_shm K1 = k_shm K /\ k_procs K1 = k_procs K)).
  { case_bool_decide as E.
    - rewrite E, Z.eqb_refl.
      destruct (release_process_ok lo hi (set_csrs K c) (k_current K) (current_process K)
        (ko_sys _ _ _ HK) Hcur Hl) as (K1 & p' & Hr & Hs1 & Hp1 & Hst & Hpd & Hc1 & Hi1 & Hcs1 & Ho1).
      exists K1. split; [exact Hr|]. split; [exact Hs1|]. split; [exact Hi1|]. split; [exact Hc1|].
      split; [exact Hcs1|]. by exists p'.
    - rewrite (proj2 (Z.eqb_neq _ _) E). exists (set_csrs K c). split; [reflexivity|].
      split; [apply HK|]. by split_and!. }
  destruct Hrel as (K1 & Hr & Hs1 & Hi1 & Hc1 & Hcs1 & Hrest). rewrite Hr.
  cbn [mbind outcome_bind]. rewrite Hc1, Hcs1.
  destruct (bool_decide (pick_next K1 = k_current K)) eqn:Eb;
    (eexists K1, _, _; split; [reflexivity|]); simpl; split_and!; try assumption; try reflexivity.
  - apply bool_decide_eq_true in Eb. congruence.
  - rewrite Eb. split; [reflexivity|]. by destruct (k_csrs K).
  - rewrite Eb. split; reflexivity.
Qed.

Lemma step_yield_ok L K sw K' : kernel_ok K -> yield L K = Ret (sw, K') -> kernel_ok K'.
Proof.
  intros HK Hy. destruct (yield_cases L K HK)
    as (K1 & sw' & K'' & Hy' & Hs1 & Eh & Es & Ep & Ei & Ei1 & Ec1 & Ec & Hrest & _).
  rewrite Hy in Hy'. injection Hy' as <- <-.
  assert (Hidle : exists p, k_procs K1 !! k_idle K = Some p /\ p_state p = PROC_RUNNABLE /\ pid p = 0).
  { destruct (ko_idle _ _ _ HK) as (p & Hp & Hst & Hpd). exists p. split; [|by split].
    case_bool_decide as E.
    - destruct Hrest as (p' & -> & _). rewrite list_lookup_insert_ne; [exact Hp|]. intros Ecur.
      unfold current_process in E. rewrite Ecur, (aget_lookup _ _ _ Hp), Hst in E. discriminate E.
    - destruct Hrest as (_ & _ & ->). exact Hp. }
  split.
  - by rewrite Eh, Es, Ep.
  - rewrite Ec, Ep. destruct (pick_next_spec K1) as [(s & Hs & -> & Hr & _)|[-> _]].
    + destruct (sys_pids _ _ _ _ _ Hs1) as [Hlen _].
      exists (k_procs K1 !!! s). split; [apply aget_Some; lia|]. unfold runnable in Hr.
      apply andb_true_iff in Hr as [Hr _]. apply Z.eqb_eq in Hr. rewrite Hr. discriminate.
    + destruct Hidle as (p & Hp & Hst & _). rewrite Ei1. exists p. split; [exact Hp|].
      rewrite Hst. discriminate.
  - rewrite Ei, Ep. exact Hidle.
Qed.

Lemma step_store_ok K va v K' :
  kernel_ok K -> 0 <= va < 2 ^ 32 -> user_store K va v = Some K' -> kernel_ok K'.
Proof.
  intros HK Hva Hs. destruct (user_store_inv K va v K' Hs) as (pa & Ha & ->).
  eapply (store_ok lo hi K HK); [exact (user_access_reaches lo hi K HK va _ pa Hva Ha)].
Qed.

Lemma kernel_step_ok L K K' : layout_ok L -> kernel_ok K -> kernel_step L K K' -> kernel_ok K'.
Proof.
  intros HL HK Hst. destruct Hst.
  - by eapply step_create_ok.
  - by eapply step_get_ok.
  - by eapply step_attach_ok.
  - by eapply step_detach_ok.
  - by apply step_exit_ok.
  - by eapply step_yield_ok.
  - split; apply HK.
  - eapply step_store_ok; eassumption.
  - split; apply HK.
Qed.

Lemma kernel_steps_ok L K K' : layout_ok L -> kernel_ok K -> rtc (kernel_step L) K K' -> kernel_ok K'.
Proof.
  intros HL HK Hr. induction Hr as [K|K K1 K2 Hst _ IH]; [exact HK|]. apply IH. by eapply kernel_step_ok.
Qed.

(** Booted with [init_processes], then any number of steps. *)
Definition reachable L (K : kstate H) : Prop :=
  exists h c K0, ph_ok h /\ init_processes L (boot_kernel h c) = Ret K0 /\ rtc (kernel_step L) K0 K.

Lemma reachable_ok L K : layout_ok L -> reachable L K -> kernel_ok K.
Proof.
  intros HL (h & c & K0 & Hok & Hb & Hr). eapply kernel_steps_ok; [exact HL| |exact Hr]. by eapply boot_ok.
Qed.

Lemma reachable_steps L K K' : reachable L K -> rtc (kernel_step L) K K' -> reachable L K'.
Proof.
  intros (h & c & K0 & Hok & Hb & Hr) Hst. exists h, c, K0. split; [exact Hok|]. split; [exact Hb|].
  by etrans.
Qed.
End Reach.
