(* ===== verification/World.v ===== *)
(** A concrete machine: 64 pages of RAM, the idle process and one more
    process, both attached to one shared-memory object.

    The properties of [KernelProps.v] are applied to the states built here;
    the lemmas say how far the machine gets and what it has left. *)

From Stdlib Require Import ZArith Lia.
From stdpp Require Import relations.
From S2P Require Import Prelude Memory PageHeap Allocator PageTable Shm Process KernelInv System Lifecycle AddressSpace Kernel Reach.
Open Scope Z_scope.

Definition world_lo : Z := 0x80300000.
Definition world_hi : Z := 0x80340000.
Definition world_heap : heap := mkHeap (initial_regions world_lo world_hi) (fun _ => 7).
Definition world_layout : layout := mkLayout 0x802ff000 world_hi 0x80280000 0x80200400.
Definition world_csrs : csrs := mkCsrs 2 0 0.

Definition world_spec : PageHeapSpec heap world_lo world_hi :=
  heap_PageHeapSpec world_lo world_hi (conj eq_refl eq_refl).
#[export] Existing Instance world_spec.

Lemma world_heap_ok : ph_ok (lo:=world_lo) (hi:=world_hi) world_heap.
Proof.
  apply initial_regions_ok; try reflexivity;
    [vm_compute; congruence|by exists 0x80300|by exists 0x80340].
Qed.

Lemma world_layout_ok : layout_ok world_layout.
Proof.
  split; simpl.
  - by exists 0x802ff.
  - unfold world_hi. lia.
  - vm_compute. congruence.
Qed.

Lemma world_pages : space_pages world_layout 0 = 7%nat.
Proof. reflexivity. Qed.

Lemma world_image : image_ok world_lo world_hi 0 0.
Proof. unfold image_ok, world_lo. lia. Qed.

Local Abbreviation ok := (kernel_ok world_lo world_hi).
Local Abbreviation step := (kernel_step world_lo world_hi world_layout).
Local Abbreviation avail := (ph_avail (lo:=world_lo) (hi:=world_hi)).
Local Abbreviation room := (budget world_lo world_hi).

(** Slot 0 of the mappings is free. *)
Definition first_slot (p : process) : Prop :=
  find_slot (fun mp => negb (mapping_used mp)) (shm_mappings p) = Some 0%nat.

(** All of them are. *)
Definition all_slots (p : process) : Prop :=
  length (shm_mappings p) = PROC_SHM_MAX /\ forall s, slot_unused (shm_mappings p) s.

Lemma all_slots_first p : all_slots p -> first_slot p.
Proof.
  unfold first_slot. intros [Hl Hun]. destruct (shm_mappings p) as [|mp l]; [discriminate Hl|].
  cbn. by rewrite (Hun 0%nat mp eq_refl).
Qed.

(** After [init_processes]: the idle process runs, 53 pages are left. *)
Lemma world_boot :
  exists K q, init_processes world_layout (boot_kernel world_heap world_csrs) = Ret K /\ ok K /\
    k_procs K = <[0%nat := q]> (replicate PROCS_MAX zero_process) /\
    p_state q = PROC_RUNNABLE /\ pid q = 0 /\ k_current K = 0%nat /\ k_idle K = 0%nat /\
    k_shm K = boot_shm /\ room (k_heap K) q 53 /\ all_slots q.
Proof.
  destruct (init_processes_total world_lo world_hi world_layout world_heap world_csrs 53 0)
    as (K & q & Hinit & HK & Hp & Hst & Hpd & Hc & Hid & Hsh & _ & Hb & _ & Hl & Hslots).
  - exact world_layout_ok.
  - exact world_heap_ok.
  - rewrite world_pages. apply (initial_avail world_lo world_hi); vm_compute; [lia|congruence].
  - rewrite world_pages. unfold PROC_REGION_MAX. lia.
  - exists K, q. do 9 (split; [assumption|]). by split.
Qed.

(** A second process in slot 1; 40 pages are left. *)
Lemma world_two :
  exists K q p, reachable world_lo world_hi world_layout K /\
    k_procs K = <[1%nat := p]> (<[0%nat := q]> (replicate PROCS_MAX zero_process)) /\
    p_state q = PROC_RUNNABLE /\ pid q = 0 /\ p_state p = PROC_RUNNABLE /\ pid p = 2 /\
    k_current K = 0%nat /\ k_idle K = 0%nat /\ k_shm K = boot_shm /\
    room (k_heap K) q 40 /\ room (k_heap K) p 40 /\ all_slots q /\ all_slots p.
Proof.
  destruct world_boot as (K0 & q & Hinit & HK & Hp & Hst & Hpd & Hc & Hid & Hsh & Hb & Hfq).
  assert (Hfs : find_slot (fun p => p_state p =? PROC_UNUSED) (k_procs K0) = Some 1%nat).
  { rewrite Hp. cbn. rewrite Hst. reflexivity. }
  destruct (create_process_total world_lo world_hi world_layout K0 0 0 1 40)
    as (K1 & p & Hcr & Hp1 & Hb1).
  { apply HK. }
  { exact world_layout_ok. }
  { exact world_image. }
  { exact Hfs. }
  { rewrite world_pages. eapply ph_avail_le; [|apply Hb]. lia. }
  { rewrite world_pages. unfold PROC_REGION_MAX. lia. }
  destruct (create_process_ok world_lo world_hi world_layout K0 0 0 1 K1 (ko_sys _ _ _ HK)
    world_layout_ok world_image Hcr) as (p' & [Hsys' Hp' (Hsh' & Hc' & Hid' & _) (Hpd' & Hst' & _) _ Hslots _] & _).
  assert (p' = p) as ->.
  { rewrite Hp1, Hp in Hp'. pose proof (f_equal (fun l => l !! 1%nat) Hp') as E. simpl in E. congruence. }
  exists K1, q, p. split.
  { exists world_heap, world_csrs, K0. split; [exact world_heap_ok|]. split; [exact Hinit|].
    eapply rtc_l; [|apply rtc_refl]. exact (step_create _ _ _ _ _ _ _ _ world_image Hcr). }
  split; [by rewrite Hp1, Hp|]. split; [exact Hst|]. split; [exact Hpd|].
  split; [exact Hst'|]. split; [by rewrite Hpd'|]. split; [by rewrite Hc'|]. split; [by rewrite Hid'|].
  split; [by rewrite Hsh'|].
  split; [split; [apply Hb1|]; destruct Hb as (_ & ? & ?); lia|]. split; [exact Hb1|].
  split; [exact Hfq|]. split; [|exact Hslots].
  apply (po_shape _ _ _ _ (sys_live _ _ _ _ _ Hsys' 1%nat p ltac:(rewrite Hp1, Hp; reflexivity)
    ltac:(rewrite Hst'; discriminate))).
Qed.

(** The second process runs, with every slot free. *)
Lemma world_second :
  exists K p, reachable world_lo world_hi world_layout K /\ current_process K = p /\
    k_current K = 1%nat /\ k_idle K = 0%nat /\ k_shm K = boot_shm /\ room (k_heap K) p 40 /\ all_slots p /\
    p_state p = PROC_RUNNABLE /\ pid p = 2.
Proof.
  destruct world_two as (K & q & p & HR & Hp & Hqs & Hqp & Hps & Hpp & Hc & Hi & Hsh & _ & Hbp & _ & Hfp).
  assert (Hpl : k_procs K !! 1%nat = Some p) by (rewrite Hp; reflexivity).
  assert (Hql : k_procs K !! 0%nat = Some q) by (rewrite Hp; reflexivity).
  assert (Hnext : pick_next K = 1%nat).
  { apply pick_next_only; [unfold PROCS_MAX; lia| |].
    - rewrite (aget_lookup _ _ _ Hpl). unfold runnable. by rewrite Hps, Hpp.
    - intros t Ht. rewrite Hp. destruct t as [|[|t]]; [|reflexivity|].
      + unfold runnable. simpl. rewrite Hqs, Hqp, andb_false_r. discriminate.
      + unfold PROCS_MAX in Ht. do 6 (destruct t as [|t]; [discriminate|]). lia. }
  destruct (yield_running world_layout K) as (sw & K' & Hy & Eh & Es & Ep & Ei & Ec & _).
  { rewrite Hc, (aget_lookup _ _ _ Hql), Hqs. discriminate. }
  rewrite Hnext in Ec. exists K', p. split.
  { destruct HR as (h & c & K0 & ? & ? & ?). exists h, c, K0. do 2 (split; [assumption|]).
    eapply rtc_r; [eassumption|]. exact (step_yield _ _ _ _ _ _ Hy). }
  split; [unfold current_process; by rewrite Ec, Ep, (aget_lookup _ _ _ Hpl)|].
  split; [exact Ec|]. split; [by rewrite Ei|]. split; [by rewrite Es|]. split; [by rewrite Eh|done].
Qed.

Lemma boot_shm_unused k o : shm_table boot_shm !! k = Some o -> shm_used o = false.
Proof. intros Ho. by apply (lookup_replicate SHM_MAX shm_object_zero) in Ho as [-> _]. Qed.

(** Attaching, in the world: object [o] in entry [k], the current process
    has its first slot free. *)
Lemma world_attach K k o p n :
  reachable world_lo world_hi world_layout K ->
  k_procs K !! k_current K = Some p -> p_state p <> PROC_UNUSED -> first_slot p ->
  shm_table (k_shm K) !! k = Some o -> shm_used o = true -> room (k_heap K) p (S n) ->
  exists K' p' o', attach_current K (so_id o) = Ret (shm_page 0, K') /\
    reachable world_lo world_hi world_layout K' /\
    k_procs K' = <[k_current K := p']> (k_procs K) /\ p_state p' = p_state p /\ pid p' = pid p /\
    k_current K' = k_current K /\ k_idle K' = k_idle K /\
    attached (shm_mappings p') 0 (so_id o) /\ avail (k_heap K') n /\
    (exists k', shm_table (k_shm K') !! k' = Some o' /\ shm_used o' = true /\ so_id o' = so_id o).
Proof.
  intros HR Hp Hl Hfs Hk Hu Hb.
  pose proof (reachable_ok world_lo world_hi _ K world_layout_ok HR) as HK.
  pose proof (ko_sys _ _ _ HK) as Hsys.
  destruct (shm_attach_total world_lo world_hi _ _ _ _ p k o 0%nat n Hsys Hp Hl Hk Hu Hfs Hb)
    as (h' & sh' & p' & Hat & Hb').
  destruct (shm_attach_ok world_lo world_hi _ _ _ _ _ _ _ _ _ _ Hsys Hp Hl Hat)
    as [[E _]|(_ & Est & Epd & s & _ & Es & Ha & _ & Hob & _)]; [discriminate E|].
  assert (s = 0%nat) as -> by (apply shm_page_same; unfold same_page; by rewrite Es).
  destruct (Hob _ _ (object_pa_used (k_shm K) k o Hk Hu)) as (k' & o' & Hk' & Hu' & Eid & _).
  set (K' := set_proc (set_heap (set_shm K sh') h') (k_current K) p').
  assert (Hstep : attach_current K (so_id o) = Ret (shm_page 0, K')).
  { unfold attach_current, current_process. rewrite (aget_lookup _ _ _ Hp), Hat. reflexivity. }
  exists K', p', o'. split; [exact Hstep|]. split.
  { destruct HR as (h & c & K0 & ? & ? & ?). exists h, c, K0. do 2 (split; [assumption|]).
    eapply rtc_r; [eassumption|]. exact (step_attach _ _ _ _ _ _ _ Hstep). }
  do 5 (split; [first [reflexivity|assumption]|]). split; [exact Ha|]. split; [apply Hb'|].
  by exists k'.
Qed.

(** Object 1 exists, nobody has it attached yet; the idle process runs. *)
Lemma world_object :
  exists K q p k o, reachable world_lo world_hi world_layout K /\
    k_procs K = <[1%nat := p]> (<[0%nat := q]> (replicate PROCS_MAX zero_process)) /\
    p_state q = PROC_RUNNABLE /\ pid q = 0 /\ p_state p = PROC_RUNNABLE /\ pid p = 2 /\
    k_current K = 0%nat /\ k_idle K = 0%nat /\
    shm_table (k_shm K) !! k = Some o /\ shm_used o = true /\ so_id o = 1 /\
    room (k_heap K) q 39 /\ room (k_heap K) p 39 /\ first_slot q /\ first_slot p.
Proof.
  destruct world_two as (K1 & q & p & HR1 & Hp1 & Hqs & Hqp & Hps & Hpp & Hc1 & Hi1 & Hsh1 & Hbq & Hbp & Hfq & Hfp).
  pose proof (reachable_ok world_lo world_hi _ K1 world_layout_ok HR1) as HK1.
  destruct (shm_get_total world_lo world_hi (k_heap K1) (k_shm K1) (k_procs K1) 7 0%nat
    shm_object_zero 39) as (k & r & pa & h2 & Ha & Hav2 & Hlt & Hget).
  { apply HK1. }
  { lia. }
  { rewrite Hsh1. intros k o Hk Hu. by rewrite (boot_shm_unused k o Hk) in Hu. }
  { by rewrite Hsh1. }
  { reflexivity. }
  { apply Hbq. }
  { by rewrite Hsh1. }
  rewrite Hsh1 in Hget, Hlt. change (next_shm_id boot_shm) with 1 in Hget.
  set (o := mkShm 1 1 7 pa r SHM_PAGE_SIZE 0) in *.
  set (sh2 := mkShmState (<[k := o]> (shm_table boot_shm)) (1 + 1)) in *.
  set (K2 := set_heap (set_shm K1 sh2) h2).
  assert (Hs2 : get_current K1 7 = Ret (1, K2)) by (unfold get_current; by rewrite Hsh1, Hget).
  exists K2, q, p, k, o. split.
  { destruct HR1 as (h & c & K0 & ? & ? & ?). exists h, c, K0. do 2 (split; [assumption|]).
    eapply rtc_r; [eassumption|]. by eapply step_get, Hs2. }
  do 7 (split; [assumption|]). split; [by apply list_lookup_insert_eq|].
  split; [reflexivity|]. split; [reflexivity|].
  destruct Hbq as (_ & ? & ?), Hbp as (_ & ? & ?).
  split; [split; [exact Hav2|lia]|]. split; [split; [exact Hav2|lia]|]. split; by apply all_slots_first.
Qed.

(** Both processes have object 1 attached in their first slot; the second
    one runs. *)
Lemma world_shared :
  exists K q p, reachable world_lo world_hi world_layout K /\
    k_procs K !! 0%nat = Some q /\ k_procs K !! 1%nat = Some p /\
    p_state q = PROC_RUNNABLE /\ p_state p = PROC_RUNNABLE /\
    attached (shm_mappings q) 0 1 /\ attached (shm_mappings p) 0 1 /\
    k_current K = 1%nat /\ k_idle K = 0%nat /\
    exists k o, shm_table (k_shm K) !! k = Some o /\ shm_used o = true /\ so_id o = 1.
Proof.
  destruct world_object as (K2 & q & p & k & o & HR2 & Hp2 & Hqs & Hqp & Hps & Hpp & Hc2 & Hi2 &
    Hk & Hu & Eid & Hbq & Hbp & Hfq & Hfp).
  destruct (world_attach K2 k o q 38 HR2) as (K3 & q' & o3 & _ & HR3 & Hp3 & Hqs3 & Hqp3 & Hc3 &
    Hi3 & Ha3 & Hav3 & (k3 & Hk3 & Hu3 & Eid3)); [|by rewrite Hqs|exact Hfq|exact Hk|exact Hu|exact Hbq|].
  { by rewrite Hc2, Hp2. }
  rewrite Hc2 in Hp3, Hc3.
  assert (Hq3 : k_procs K3 !! 0%nat = Some q') by (rewrite Hp3, Hp2; reflexivity).
  assert (Hpl3 : k_procs K3 !! 1%nat = Some p) by (rewrite Hp3, Hp2; reflexivity).
  assert (Hnext : pick_next K3 = 1%nat).
  { apply pick_next_only; [unfold PROCS_MAX; lia| |].
    - rewrite (aget_lookup _ _ _ Hpl3). unfold runnable. by rewrite Hps, Hpp.
    - intros t Ht. rewrite Hp3, Hp2. destruct t as [|[|t]]; [|reflexivity|].
      + unfold runnable. simpl. rewrite Hqs3, Hqp3, Hqp, andb_false_r. discriminate.
      + unfold PROCS_MAX in Ht. do 6 (destruct t as [|t]; [discriminate|]). lia. }
  destruct (yield_running world_layout K3) as (sw & K4 & Hy & Eh4 & Es4 & Ep4 & Ei4 & Ec4 & _).
  { rewrite Hc3, (aget_lookup _ _ _ Hq3), Hqs3, Hqs. discriminate. }
  rewrite Hnext in Ec4.
  assert (HR4 : reachable world_lo world_hi world_layout K4).
  { destruct HR3 as (h & c & K0 & ? & ? & ?). exists h, c, K0. do 2 (split; [assumption|]).
    eapply rtc_r; [eassumption|]. exact (step_yield _ _ _ _ _ _ Hy). }
  assert (Hpl4 : k_procs K4 !! 1%nat = Some p) by (by rewrite Ep4).
  destruct (world_attach K4 k3 o3 p 37 HR4)
    as (K5 & p' & o5 & _ & HR5 & Hp5 & Hps5 & _ & Hc5 & Hi5 & Ha5 & _ & (k5 & Hk5 & Hu5 & Eid5)).
  { by rewrite Ec4. }
  { rewrite Hps. discriminate. }
  { exact Hfp. }
  { by rewrite Es4. }
  { exact Hu3. }
  { rewrite Eh4. split; [exact Hav3|]. destruct Hbp as (_ & ? & ?). lia. }
  rewrite Ec4 in Hp5, Hc5.
  exists K5, q', p'. split; [exact HR5|].
  split; [rewrite Hp5, Ep4, list_lookup_insert_ne by discriminate; exact Hq3|].
  split; [rewrite Hp5; apply list_lookup_insert_eq; by eapply lookup_lt_Some|].
  split; [by rewrite Hqs3|]. split; [by rewrite Hps5|]. split; [by rewrite Eid in Ha3|].
  split; [by rewrite Eid3, Eid in Ha5|]. split; [exact Hc5|].
  split; [by rewrite Hi5, Ei4, Hi3|]. exists k5, o5.
  split; [exact Hk5|]. split; [exact Hu5|]. by rewrite Eid5, Eid3, Eid.
Qed.
