(* ===== verification/KernelProps.v ===== *)
(** Properties of processes and shared memory.

    The theorems speak about reachable kernel states, or about any state
    that satisfies the invariant [kernel_ok] of [Kernel.v]; each is applied
    to a concrete machine of 64 pages at the end of the file. *)

From Stdlib Require Import ZArith Lia.
From stdpp Require Import relations.
From S2P Require Import Prelude Memory PageHeap Allocator PageTable Shm Process KernelInv System Lifecycle AddressSpace Kernel Views Reach World.
Open Scope Z_scope.

Section Properties.
Context {H : Type} `{!PageHeap H} (lo hi : Z) `{!PageHeapSpec H lo hi}.
Implicit Types (K : kstate H).

(** C5: Isolation.  In every reachable state, if user mode of two different
    processes can access the same physical byte, then both have the same
    shared-memory object attached and the byte lies in that object's page. *)
Theorem processes_isolated L K i j pa :
  layout_ok L -> reachable lo hi L K -> i <> j ->
  user_reaches K i pa -> user_reaches K j pa ->
  exists id opa, attached_to K i id /\ attached_to K j id /\
    object_pa (shm_table (k_shm K)) id opa /\ opa <= pa < opa + PAGE_SIZE.
Proof.
  intros HL HR Hij Hi Hj. pose proof (reachable_ok lo hi L K HL HR) as HK.
  exact (reached_by_both lo hi K HK i j pa Hij Hi Hj).
Qed.

(** C6: A store of a user program is confined.  In every reachable state, a
    store the hardware lets the running process do changes one byte, which
    this process reaches; every process translates every address as before;
    and a second process that reaches the byte has the same shared-memory
    object attached.  The state afterwards is again one of the system. *)
Theorem user_store_confined L K va v K' :
  layout_ok L -> reachable lo hi L K -> 0 <= va < 2 ^ 32 -> user_store K va v = Some K' ->
  reachable lo hi L K' /\
  exists pa, user_reaches K (k_current K) pa /\ load8 (ph_mem (k_heap K')) pa = u8 v /\
    (forall x, x <> pa -> load8 (ph_mem (k_heap K')) x = load8 (ph_mem (k_heap K)) x) /\
    (forall j va' pa' fl, translates K' j va' pa' fl <-> translates K j va' pa' fl) /\
    (forall j, j <> k_current K -> user_reaches K j pa ->
       exists id opa, attached_to K (k_current K) id /\ attached_to K j id /\
         object_pa (shm_table (k_shm K)) id opa /\ opa <= pa < opa + PAGE_SIZE).
Proof.
  intros HL HR Hva Hs. pose proof (reachable_ok lo hi L K HL HR) as HK. split.
  { destruct HR as (h & c & K0 & Hok & Hb & Hr). exists h, c, K0. split; [exact Hok|].
    split; [exact Hb|]. eapply rtc_r; [exact Hr|]. by eapply step_store. }
  destruct (user_store_inv K va v K' Hs) as (pa & Ha & ->).
  pose proof (user_access_reaches lo hi K HK va _ pa Hva Ha) as Hpa. exists pa.
  split; [exact Hpa|]. simpl. rewrite ph_mem_set_mem. split; [by rewrite load8_store8, Z.eqb_refl|]. split.
  { intros x Hx. rewrite load8_store8. by destruct (Z.eqb_spec x pa). }
  split; [intros j va' pa' fl; by apply (store_translates lo hi K HK (k_current K))|].
  intros j Hj Hjr. by apply (reached_by_both lo hi K HK).
Qed.

(** C21: No user access reaches a page table: in every reachable state the
    bytes user mode of any process can access lie outside every page of
    every page table. *)
Theorem user_cannot_reach_tables L K i j p q pa :
  layout_ok L -> reachable lo hi L K -> user_reaches K i pa ->
  k_procs K !! j = Some p -> p_state p <> PROC_UNUSED ->
  pt_page (ph_mem (k_heap K)) (page_table p) q -> ~ q <= pa < q + PAGE_SIZE.
Proof.
  intros HL HR Hi Hj Hl Hq Hpa. pose proof (reachable_ok lo hi L K HL HR) as HK.
  exact (user_reaches_no_table lo hi K HK i j p q pa Hi Hj Hl Hq Hpa).
Qed.

(** C23: Sharing.  In every reachable state, two slots that have the same
    object attached, in any processes, translate to the same frame with
    user read and write access. *)
Theorem shared_frame_agrees L K i j pi pj s t id d :
  layout_ok L -> reachable lo hi L K ->
  k_procs K !! i = Some pi -> k_procs K !! j = Some pj ->
  attached (shm_mappings pi) s id -> attached (shm_mappings pj) t id -> 0 <= d < PAGE_SIZE ->
  exists opa, object_pa (shm_table (k_shm K)) id opa /\
    sv32_walk (ph_mem (k_heap K)) (page_table pi) (shm_page s + d) =
      Some (opa + d, Z.lor SHM_FLAGS PAGE_V) /\
    sv32_walk (ph_mem (k_heap K)) (page_table pj) (shm_page t + d) =
      Some (opa + d, Z.lor SHM_FLAGS PAGE_V).
Proof.
  intros HL HR Hi Hj Ha Hb Hd. pose proof (reachable_ok lo hi L K HL HR) as HK.
  pose proof (ko_sys _ _ _ HK) as Hsys.
  destruct (attached_view lo hi K HK i pi s id d Hi Ha Hd) as (opa & Hob & _ & Hw).
  destruct (attached_view lo hi K HK j pj t id d Hj Hb Hd) as (opb & Hob' & _ & Hw').
  exists opa. split; [exact Hob|]. split; [exact Hw|].
  destruct Hob as (k & o & Hk & Hu & Eid & <-).
  by rewrite <-(object_pa_inv lo hi _ _ _ Hsys id opb k o Hob' Hk Hu Eid).
Qed.

(** C24: Reference counts are exact.  In every reachable state the count of
    a live object is the number of slots that map it over all processes, at
    most 32; its identifier is positive and names no other object, and its
    page is allocated. *)
Theorem reference_counts_exact L K k o :
  layout_ok L -> reachable lo hi L K ->
  shm_table (k_shm K) !! k = Some o -> shm_used o = true ->
  so_refcount o = Z.of_nat (refs (so_id o) (k_procs K)) /\ so_refcount o <= 32 /\
  0 < so_id o /\ ph_owned (k_heap K) !! so_region_idx o = Some (so_pa o, PAGE_SIZE) /\
  (forall k' o', shm_table (k_shm K) !! k' = Some o' -> shm_used o' = true ->
     so_id o' = so_id o -> k' = k).
Proof.
  intros HL HR Hk Hu. pose proof (reachable_ok lo hi L K HL HR) as HK.
  pose proof (ko_sys _ _ _ HK) as Hsys. pose proof (sys_shm _ _ _ _ _ Hsys) as Hshm.
  destruct (so_obj _ _ _ Hshm k o Hk Hu) as (Hid & _ & Hown & Hrc).
  split; [exact Hrc|]. split; [|split; [lia|split; [exact Hown|]]].
  - exact (refcount_le lo hi _ _ _ _ _ Hsys Hk Hu).
  - intros k' o' Hk' Hu' E. eapply (so_uniq _ _ _ Hshm); [exact Hk'|exact Hk|exact Hu'|exact Hu|by left].
Qed.

(** C13: [create_process] returns when a slot is free, the allocator has the
    pages the address space takes ([space_pages]), and they are at most 64, the
    size of [regions] (the code does not check this; see the findings).  The
    first free slot
    becomes a runnable process with pid slot + 1, whose stack holds the frame
    of the first switch; the walk of its page table gives the image,
    zero-padded, at [USER_BASE] for user mode, the device pages and the
    kernel's RAM identity-mapped without user access, and nothing else; the
    invariant of the kernel holds again. *)
Theorem create_process_builds L K image size i k :
  layout_ok L -> kernel_ok lo hi K -> image_ok lo hi image size ->
  find_slot (fun p => p_state p =? PROC_UNUSED) (k_procs K) = Some i ->
  ph_avail (lo:=lo) (hi:=hi) (k_heap K) (space_pages L size + k) ->
  (space_pages L size + k <= PROC_REGION_MAX)%nat ->
  exists K' p', create_process L K image size = Ret (i, K') /\
    created lo hi L K image size i K' p' /\ kernel_ok lo hi K'.
Proof.
  intros HL HK Him Hfs Hav Hmax.
  destruct (create_process_total lo hi L K image size i k (ko_sys _ _ _ HK) HL Him Hfs Hav Hmax)
    as (K' & p' & Hc & _).
  destruct (create_process_ok lo hi L K image size i K' (ko_sys _ _ _ HK) HL Him Hc) as (p1 & Hcr & _).
  exists K', p1. split; [exact Hc|]. split; [exact Hcr|]. by eapply step_create_ok.
Qed.

(** [create_process] panics when all eight slots are taken,
    before it has changed anything. *)
Theorem create_process_full L K image size :
  (forall i p, k_procs K !! i = Some p -> p_state p <> PROC_UNUSED) ->
  create_process L K image size = Panic "no free process slots".
Proof.
  intros Hall. unfold create_process.
  rewrite (proj2 (find_slot_None _ _)); [reflexivity|].
  intros i p Hi. apply Z.eqb_neq. by apply (Hall i).
Qed.

(** C26: [shm_attach] of an existing object by a process with a free slot
    returns the page of that slot, provided one page for a table is left and the
    process's [regions] has room for its handle, fewer than 64 being in use.
    Every byte of the slot then translates to the object's frame with user
    read and write access, the reference count of this object alone went up
    by one, and attached slots stay attached. *)
Theorem shm_attach_maps K k o s n :
  kernel_ok lo hi K -> shm_table (k_shm K) !! k = Some o -> shm_used o = true ->
  find_slot (fun mp => negb (mapping_used mp)) (shm_mappings (current_process K)) = Some s ->
  budget lo hi (k_heap K) (current_process K) (S n) ->
  exists K', attach_current K (so_id o) = Ret (shm_page s, K') /\ kernel_ok lo hi K' /\
    (forall d, 0 <= d < PAGE_SIZE ->
       translates K' (k_current K) (shm_page s + d) (so_pa o + d) (Z.lor SHM_FLAGS PAGE_V)) /\
    (forall id, refs id (k_procs K') =
       (refs id (k_procs K) + if Z.eqb (so_id o) id then 1 else 0)%nat) /\
    (forall s' id, attached (shm_mappings (current_process K)) s' id ->
       attached (shm_mappings (current_process K')) s' id).
Proof.
  intros HK Hk Hu Hs Hb. destruct (kernel_current lo hi K HK) as [Hcur Hl].
  pose proof (ko_sys _ _ _ HK) as Hsys.
  destruct (shm_attach_total lo hi _ _ _ _ _ k o s n Hsys Hcur Hl Hk Hu Hs Hb)
    as (h' & sh' & p' & Hat & _).
  set (K' := set_proc (set_heap (set_shm K sh') h') (k_current K) p').
  assert (Hstep : attach_current K (so_id o) = Ret (shm_page s, K')).
  { unfold attach_current. rewrite Hat. reflexivity. }
  pose proof (step_attach_ok lo hi K _ _ _ HK Hstep) as HK'.
  assert (Hne : shm_page s <> 0) by (unfold shm_page, SHM_USER_BASE, SHM_PAGE_SIZE, PAGE_SIZE; lia).
  destruct (shm_attach_ok lo hi _ _ _ _ _ _ _ _ _ _ Hsys Hcur Hl Hat)
    as [[E _]|(Hsys' & Est & _ & s1 & Hs1 & Es & Hatt & Hkeep & Hob & Hrefs)]; [by destruct Hne|].
  assert (s1 = s) as -> by (apply shm_page_same; unfold same_page; congruence).
  exists K'. split; [exact Hstep|]. split; [exact HK'|].
  assert (Hp' : k_procs K' !! k_current K = Some p').
  { simpl. apply list_lookup_insert_eq. by eapply lookup_lt_Some. }
  split; [|split; [exact Hrefs|]].
  - intros d Hd. exists p'. split; [exact Hp'|]. split; [by rewrite Est|].
    assert (Hl' : p_state p' <> PROC_UNUSED) by (by rewrite Est).
    destruct (po_shm _ _ _ _ (sys_live _ _ _ _ _ Hsys' _ p' Hp' Hl') s _ Hatt) as (opa & Hopa & Hw).
    pose proof (Hob _ _ (object_pa_used (k_shm K) k o Hk Hu)) as (k2 & o2 & Hk2 & Hu2 & E2 & E2').
    rewrite (object_pa_inv lo hi _ _ _ Hsys' _ _ k2 o2 Hopa Hk2 Hu2 E2), E2' in Hw.
    destruct (shm_page_range s Hs1) as (Hr & [c Hc] & _). simpl.
    assert (Hva : 0 <= shm_page s + d < 2 ^ 32).
    { unfold shm_page, SHM_USER_BASE, SHM_PAGE_SIZE, PAGE_SIZE, PROC_SHM_MAX in *. lia. }
    split; [exact Hva|]. rewrite (Hw _ Hva).
    + do 2 f_equal. rewrite Hc, (Z.add_comm (c * PAGE_SIZE) d), Z.mod_add by done.
      f_equal. by apply Z.mod_small.
    + unfold same_page. rewrite Hc, Z.div_add_l, Z.div_mul, (Z.div_small d) by done. lia.
  - assert (E : current_process K' = p') by (unfold current_process; by apply aget_lookup).
    rewrite E. exact Hkeep.
Qed.

(** [shm_attach] returns 0 and changes nothing when the identifier
    names no object or the process has no free slot. *)
Theorem shm_attach_rejects K id :
  (forall k o, shm_table (k_shm K) !! k = Some o -> shm_used o = true -> so_id o <> id) \/
  (forall s mp, shm_mappings (current_process K) !! s = Some mp -> mapping_used mp = true) ->
  kernel_ok lo hi K -> attach_current K id = Ret (0, K).
Proof.
  intros Hno HK. destruct (kernel_current lo hi K HK) as [Hcur _].
  assert (E : shm_attach (k_heap K) (k_shm K) (current_process K) id =
    Ret (0, k_heap K, k_shm K, current_process K)).
  { unfold shm_attach. pose proof (find_by_id_spec (k_shm K) id) as Hf.
    destruct (find_by_id (k_shm K) id) as [k|]; [|reflexivity].
    destruct Hno as [Hno|Hno].
    - destruct Hf as (o & Hk & Hu & Eid). by destruct (Hno k o Hk Hu).
    - rewrite (proj2 (find_slot_None _ _)); [reflexivity|].
      intros s mp Hs. by rewrite (Hno s mp Hs). }
  unfold attach_current. rewrite E. simpl. do 2 f_equal. destruct K as [h sh procs cur idl c].
  unfold set_proc, set_heap, set_shm. simpl in *. by rewrite list_insert_id.
Qed.

(** C27: [shm_detach] always returns.  At an address where no slot is
    attached it answers -1 and changes nothing; otherwise it answers 0, the
    page no longer translates, and the object loses one reference: with the
    last one it leaves the table and its page is free, else it stays. *)
Theorem shm_detach_outcome K va :
  kernel_ok lo hi K ->
  (forall s id, attached (shm_mappings (current_process K)) s id -> va <> shm_page s) /\
    detach_current K va = Ret (-1, K) \/
  exists s id k o K', attached (shm_mappings (current_process K)) s id /\ va = shm_page s /\
    shm_table (k_shm K) !! k = Some o /\ so_id o = id /\
    detach_current K va = Ret (0, K') /\ kernel_ok lo hi K' /\
    slot_unused (shm_mappings (current_process K')) s /\
    (forall d, 0 <= d < PAGE_SIZE -> sv32_walk (ph_mem (k_heap K'))
       (page_table (current_process K')) (shm_page s + d) = None) /\
    (if decide (refs id (k_procs K) = 1%nat)
     then ph_owned (k_heap K') !! so_region_idx o = None /\
       shm_table (k_shm K') !! k = Some shm_object_zero
     else ph_owned (k_heap K') = ph_owned (k_heap K) /\
       shm_table (k_shm K') !! k = Some (set_refcount o (so_refcount o - 1))).
Proof.
  intros HK. destruct (kernel_current lo hi K HK) as [Hcur Hl].
  pose proof (ko_sys _ _ _ HK) as Hsys.
  destruct (shm_detach_spec lo hi _ _ _ _ _ va Hsys Hcur Hl)
    as [[Hno Hd]|(s & id & k & o & h' & sh' & p' & Hatt & Eva & Hk & Hu & Eid & Hd & Hdt)].
  - left. split.
    { intros s id (mp & Hs & Hu & _) ->. apply (Hno s mp Hs Hu).
      by apply (po_vaddr _ _ _ _ (sys_live _ _ _ _ _ Hsys _ _ Hcur Hl)). }
    unfold detach_current. rewrite Hd. simpl. do 2 f_equal.
    destruct K as [h sh procs cur idl c]. unfold set_proc, set_heap, set_shm. simpl in *.
    by rewrite list_insert_id.
  - right. set (K' := set_proc (set_heap (set_shm K sh') h') (k_current K) p').
    assert (Hstep : detach_current K va = Ret (0, K')) by (unfold detach_current; by rewrite Hd).
    pose proof (step_detach_ok lo hi K _ _ _ HK Hstep) as HK'.
    assert (Hp' : current_process K' = p').
    { unfold current_process. apply aget_lookup. simpl. apply list_lookup_insert_eq.
      by eapply lookup_lt_Some. }
    pose proof (dt_proc _ _ _ _ _ _ _ _ _ _ _ _ _ Hdt) as Ep.
    exists s, id, k, o, K'. do 6 (split; [assumption|]). rewrite Hp'. split; [|split].
    + rewrite Ep. intros mp Hmp. simpl in Hmp. apply list_lookup_insert_Some in Hmp
        as [(_ & <- & _)|[[] _]]; reflexivity.
    + destruct Hatt as (mp & Hs & _).
      assert (Hs1 : (s < PROC_SHM_MAX)%nat).
      { destruct (po_shape _ _ _ _ (sys_live _ _ _ _ _ Hsys _ _ Hcur Hl)) as (_ & <- & _).
        by eapply lookup_lt_Some. }
      destruct (shm_page_range s Hs1) as (_ & [c Hc] & _).
      intros d Hdr. apply (dt_walk _ _ _ _ _ _ _ _ _ _ _ _ _ Hdt).
      * unfold shm_page, SHM_USER_BASE, SHM_PAGE_SIZE, PAGE_SIZE, PROC_SHM_MAX in *. lia.
      * unfold same_page. rewrite Hc, Z.div_add_l, Z.div_mul, (Z.div_small d) by done. lia.
    + pose proof (dt_obj _ _ _ _ _ _ _ _ _ _ _ _ _ Hdt) as Hobj. rewrite Eid in Hobj.
      destruct (decide (refs id (k_procs K) = 1%nat)); destruct Hobj as [Et Eo]; simpl; rewrite Et, Eo.
      * split; [apply lookup_delete_eq|]. apply list_lookup_insert_eq. by eapply lookup_lt_Some.
      * split; [reflexivity|]. apply list_lookup_insert_eq. by eapply lookup_lt_Some.
Qed.

(** [shm_get] with a positive key that has no object yet, a free entry
    and a page left creates an object under the next identifier, with a
    zeroed page and no references; asking for the same key again returns the
    same identifier and changes nothing. *)
Theorem shm_get_creates K key k o n :
  kernel_ok lo hi K -> 0 < key ->
  (forall k' o', shm_table (k_shm K) !! k' = Some o' -> shm_used o' = true -> so_key o' <> key) ->
  shm_table (k_shm K) !! k = Some o -> shm_used o = false ->
  ph_avail (lo:=lo) (hi:=hi) (k_heap K) (S n) -> next_shm_id (k_shm K) + 1 < 2 ^ 31 ->
  exists K' pa, get_current K key = Ret (next_shm_id (k_shm K), K') /\ kernel_ok lo hi K' /\
    object_pa (shm_table (k_shm K')) (next_shm_id (k_shm K)) pa /\
    refs (next_shm_id (k_shm K)) (k_procs K') = 0%nat /\
    (forall d, 0 <= d < PAGE_SIZE -> load8 (ph_mem (k_heap K')) (pa + d) = 0) /\
    get_current K' key = Ret (next_shm_id (k_shm K), K').
Proof.
  intros HK Hkey Hnew Hk Hu Hav Hid. pose proof (ko_sys _ _ _ HK) as Hsys.
  destruct (shm_get_total lo hi _ _ _ key k o n Hsys Hkey Hnew Hk Hu Hav Hid)
    as (k' & r & pa & h' & Ha & _ & Hlt & Hget).
  set (id := next_shm_id (k_shm K)) in *. set (o' := mkShm 1 id key pa r SHM_PAGE_SIZE 0) in *.
  set (sh' := mkShmState (<[k' := o']> (shm_table (k_shm K))) (id + 1)) in *.
  set (K' := set_heap (set_shm K sh') h').
  assert (Hstep : get_current K key = Ret (id, K')) by (unfold get_current; by rewrite Hget).
  pose proof (step_get_ok lo hi K key id K' HK Hstep) as HK'.
  assert (Ho' : shm_table sh' !! k' = Some o') by (by apply list_lookup_insert_eq).
  exists K', pa. split; [exact Hstep|]. split; [exact HK'|].
  split; [by exists k', o'|]. split; [exact (fresh_id_refs lo hi _ _ _ Hsys)|]. split.
  - destruct (alloc_page_spec lo hi _ _ _ _ (sys_heap _ _ _ _ _ Hsys) Ha) as (_ & _ & _ & Hm & _).
    intros d Hd. simpl. rewrite Hm. apply load8_memset_in. unfold PAGE_SIZE in *. lia.
  - destruct (shm_get_spec lo hi h' sh' (k_procs K) key (ko_sys _ _ _ HK')) as (_ & Hsame & _).
    unfold get_current. simpl. rewrite (Hsame k' o' Ho' eq_refl eq_refl). reflexivity.
Qed.

(** C25: An exited process is cleaned up by the next [yield]: the call
    returns, the slot is unused again, the process holds no page and every
    page it held is free, except the page whose handle is 0. *)
Theorem exit_releases L K p :
  kernel_ok lo hi K -> k_procs K !! k_current K = Some p -> p_state p = PROC_EXITED ->
  exists sw K' p', yield L K = Ret (sw, K') /\ kernel_ok lo hi K' /\
    k_procs K' !! k_current K = Some p' /\ p_state p' = PROC_UNUSED /\ handles p' = [] /\
    k_current K' <> k_current K /\
    (forall r, r ∈ handles p -> r <> 0 -> ph_owned (k_heap K') !! r = None).
Proof.
  intros HK Hp Hst. destruct (kernel_current lo hi K HK) as [Hcur _].
  assert (Ep : current_process K = p) by congruence.
  destruct (yield_cases lo hi L K HK)
    as (K1 & sw & K' & Hy & Hs1 & Eh & _ & Epr & _ & Ei1 & Ec1 & Ec & Hrest & _).
  rewrite Ep, Hst, bool_decide_eq_true_2 in Hrest by reflexivity.
  destruct Hrest as (p' & Epr1 & Hst' & Hpd' & Hfree).
  assert (Hp' : k_procs K1 !! k_current K = Some p').
  { rewrite Epr1. apply list_lookup_insert_eq. by eapply lookup_lt_Some. }
  exists sw, K', p'. split; [exact Hy|]. split; [by eapply step_yield_ok|].
  split; [by rewrite Epr|]. split; [exact Hst'|].
  destruct (sys_free _ _ _ _ _ Hs1 _ p' Hp' Hst') as (_ & Hidx & _).
  split; [unfold handles; by rewrite Hidx|]. split; [|by rewrite Eh].
  rewrite Ec. intros E. destruct (pick_next_spec K1) as [(s & _ & Es & Hr & _)|[Es _]].
  - assert (s = k_current K) as -> by congruence. rewrite (aget_lookup _ _ _ Hp') in Hr.
    unfold runnable in Hr. rewrite Hst' in Hr. discriminate Hr.
  - destruct (ko_idle _ _ _ HK) as (q & Hq & Hqs & _).
    assert (k_idle K = k_current K) by congruence.
    assert (q = p) by congruence. subst q. rewrite Hst in Hqs. discriminate Hqs.
Qed.

(** C28: Round robin.  A runnable process becomes the current one within
    eight calls of [yield], whatever slot the scan starts from. *)
Theorem yield_round_robin L K s :
  kernel_ok lo hi K -> (s < PROCS_MAX)%nat -> runnable (k_procs K !!! s) = true ->
  p_state (current_process K) = PROC_RUNNABLE ->
  exists n K', (1 <= n <= 8)%nat /\ yields n L K = Ret K' /\ k_current K' = s.
Proof.
  intros HK Hs Hr Hc. destruct (ko_idle _ _ _ HK) as (q & Hq & Hqs & _).
  apply (yields_pick 8 L K s); [apply (ko_sys _ _ _ HK)|exact Hs|exact Hr| |exact Hc|].
  - by rewrite (aget_lookup _ _ _ Hq).
  - pose proof (scan_distance_range (k_procs K) (k_current K) s). unfold PROCS_MAX in *. lia.
Qed.

(** What [yield] leaves behind.  It stays on the current process with
    the CSRs restored, or it switches: interrupts are off, [satp] selects
    Sv32 with the page table of the process it switches to, and [sscratch]
    holds the top of that process's kernel stack. *)
Theorem yield_switches L K :
  kernel_ok lo hi K -> p_state (current_process K) <> PROC_EXITED ->
  exists sw K', yield L K = Ret (sw, K') /\ k_procs K' = k_procs K /\ k_heap K' = k_heap K /\
    (k_current K' = k_current K /\ sw = None /\ k_csrs K' = k_csrs K \/
     exists next p, next <> k_current K /\ k_procs K !! next = Some p /\
       p_state p = PROC_RUNNABLE /\ sw = Some (k_current K, next) /\ k_current K' = next /\
       Z.testbit (sstatus (k_csrs K')) 1 = false /\
       Z.testbit (satp (k_csrs K')) 31 = true /\
       satp (k_csrs K') mod 2 ^ 22 * PAGE_SIZE = page_table p /\
       sscratch (k_csrs K') = stack_top L next).
Proof.
  intros HK Hst. pose proof (ko_sys _ _ _ HK) as Hsys.
  destruct (yield_running L K Hst) as (sw & K' & Hy & Eh & _ & Ep & _ & Ec & Hcs).
  exists sw, K'. split; [exact Hy|]. split; [exact Ep|]. split; [exact Eh|].
  case_bool_decide as E; [left; destruct Hcs; split_and!; congruence|right].
  assert (Hnext : exists p, k_procs K !! pick_next K = Some p /\ p_state p = PROC_RUNNABLE).
  { destruct (pick_next_spec K) as [(s & Hs & -> & Hr & _)|[-> _]].
    - destruct (sys_pids _ _ _ _ _ Hsys) as [Hlen _].
      exists (k_procs K !!! s). split; [apply aget_Some; lia|]. unfold runnable in Hr.
      apply andb_true_iff in Hr as [Hr _]. by apply Z.eqb_eq in Hr.
    - destruct (ko_idle _ _ _ HK) as (q & Hq & Hqs & _). by exists q. }
  destruct Hnext as (p & Hp & Hps). destruct Hcs as [-> Hcs].
  exists (pick_next K), p. split; [exact E|]. split; [exact Hp|]. split; [exact Hps|].
  split; [reflexivity|]. split; [exact Ec|]. rewrite Hcs. cbn [sstatus satp sscratch].
  assert (Hlive : p_state p <> PROC_UNUSED) by (rewrite Hps; discriminate).
  pose proof (po_wf _ _ _ _ (sys_live _ _ _ _ _ Hsys _ p Hp Hlive)) as Hwf.
  destruct (owned_phys_page lo hi (k_heap K) (page_table p) (sys_heap _ _ _ _ _ Hsys)
    (pt_root _ _ _ Hwf)) as [[[c Hc] Hr] _].
  rewrite (aget_lookup _ _ _ Hp), Hc, Z.div_mul by done.
  assert (Hcr : 0 <= c < 2 ^ 20) by (unfold PAGE_SIZE in *; lia).
  split; [|split; [|split; [|reflexivity]]].
  - rewrite Z.land_spec, Z.lnot_spec by lia. change (Z.testbit SSTATUS_SIE 1) with true.
    apply andb_false_r.
  - rewrite Z.lor_spec. change (Z.testbit SATP_SV32 31) with true. reflexivity.
  - f_equal. unfold SATP_SV32. rewrite <-Z.land_ones by lia.
    rewrite Z.land_lor_distr_l, !Z.land_ones by lia.
    rewrite (Z.mod_small c) by lia. reflexivity.
Qed.
End Properties.

(** The loop that clears [regions] runs to [MAX_REGIONS] (128) although
    the array has [PROC_REGION_MAX] (64) elements: besides [regions],
    [current_idx] and the mappings it zeroes the first 51 words of the
    kernel stack, and nothing else of the structure. *)
Theorem clear_regions_overrun p :
  proc_shape p ->
  p_regions (clear_regions p) = replicate PROC_REGION_MAX 0 /\
  current_idx (clear_regions p) = 0 /\
  (forall j w, p_stack p !! j = Some w ->
     p_stack (clear_regions p) !! j = Some (if (j <? 51)%nat then 0 else w)) /\
  pid (clear_regions p) = pid p /\ p_state (clear_regions p) = p_state p /\
  p_sp (clear_regions p) = p_sp p /\ page_table (clear_regions p) = page_table p.
Proof.
  intros Hsh. rewrite (clear_regions_spec p Hsh). cbn [pid p_state p_sp page_table p_regions
    current_idx shm_mappings p_stack]. split; [reflexivity|]. split; [reflexivity|].
  split; [|repeat split].
  intros j w Hj. destruct (Nat.ltb_spec j 51).
  - rewrite lookup_app_l by (rewrite length_replicate; lia). by apply lookup_replicate.
  - rewrite lookup_app_r, length_replicate, lookup_drop by (rewrite length_replicate; lia).
    rewrite <-Hj. f_equal. lia.
Qed.

(** *** The properties on the machine of [World.v] *)

Lemma processes_isolated_witness :
  exists (K : kstate heap) pa, user_reaches K 0 pa /\ user_reaches K 1 pa /\
    exists id opa, attached_to K 0 id /\ attached_to K 1 id /\
      object_pa (shm_table (k_shm K)) id opa /\ opa <= pa < opa + PAGE_SIZE.
Proof.
  destruct world_shared as (K & q & p & HR & Hq & Hp & _ & _ & Haq & Hap & _).
  pose proof (reachable_ok world_lo world_hi _ K world_layout_ok HR) as HK.
  destruct (attached_view world_lo world_hi K HK 0 q 0 1 5 Hq Haq ltac:(unfold PAGE_SIZE; lia))
    as (opa & Hob & Ht & _).
  destruct (attached_view world_lo world_hi K HK 1 p 0 1 5 Hp Hap ltac:(unfold PAGE_SIZE; lia))
    as (opb & (k & o & Hk & Hu & Eid & Epa) & Ht' & _).
  assert (opa = opb) as <-.
  { rewrite <-Epa. exact (object_pa_inv world_lo world_hi _ _ _ (ko_sys _ _ _ HK) 1 opa k o Hob Hk Hu Eid). }
  assert (H0 : user_reaches K 0 (opa + 5)) by (exists (shm_page 0 + 5), (Z.lor SHM_FLAGS PAGE_V); by split).
  assert (H1 : user_reaches K 1 (opa + 5)) by (exists (shm_page 0 + 5), (Z.lor SHM_FLAGS PAGE_V); by split).
  exists K, (opa + 5). split; [exact H0|]. split; [exact H1|].
  exact (processes_isolated world_lo world_hi world_layout K 0 1 (opa + 5) world_layout_ok HR
    ltac:(discriminate) H0 H1).
Defined.

(** Process 1 stores into the shared page, process 0 sees it. *)
Lemma user_store_confined_witness :
  exists (K K' : kstate heap) pa, user_store K (shm_page 0 + 5) 42 = Some K' /\
    user_reaches K 0 pa /\ load8 (ph_mem (k_heap K')) pa = 42 /\ reachable world_lo world_hi world_layout K'.
Proof.
  destruct world_shared as (K & q & p & HR & Hq & Hp & _ & _ & Haq & Hap & Hc & _).
  pose proof (reachable_ok world_lo world_hi _ K world_layout_ok HR) as HK.
  destruct (attached_view world_lo world_hi K HK 0 q 0 1 5 Hq Haq ltac:(unfold PAGE_SIZE; lia))
    as (opa & Hob & Ht & _).
  destruct (attached_view world_lo world_hi K HK 1 p 0 1 5 Hp Hap ltac:(unfold PAGE_SIZE; lia))
    as (opb & (k & o & Hk & Hu & Eid & Epa) & Ht' & Hw).
  assert (opa = opb) as <-.
  { rewrite <-Epa. exact (object_pa_inv world_lo world_hi _ _ _ (ko_sys _ _ _ HK) 1 opa k o Hob Hk Hu Eid). }
  assert (Hacc : user_access K (shm_page 0 + 5) PAGE_W = Some (opa + 5)).
  { unfold user_access, current_process. rewrite Hc, (aget_lookup _ _ _ Hp), Hw. reflexivity. }
  eexists K, _, (opa + 5). split; [unfold user_store; by rewrite Hacc|].
  split; [exists (shm_page 0 + 5), (Z.lor SHM_FLAGS PAGE_V); by split|].
  destruct (user_store_confined world_lo world_hi world_layout K (shm_page 0 + 5) 42 _ world_layout_ok HR
    ltac:(vm_compute; split; [discriminate|reflexivity])
    ltac:(unfold user_store; rewrite Hacc; reflexivity)) as [HR' _].
  split; [|exact HR']. simpl. by rewrite load8_store8, Z.eqb_refl.
Defined.

Lemma user_cannot_reach_tables_witness :
  exists (K : kstate heap) p pa, user_reaches K 1 pa /\ ~ page_table p <= pa < page_table p + PAGE_SIZE.
Proof.
  destruct world_shared as (K & q & p & HR & Hq & Hp & _ & Hps & Haq & Hap & _).
  pose proof (reachable_ok world_lo world_hi _ K world_layout_ok HR) as HK.
  destruct (attached_view world_lo world_hi K HK 1 p 0 1 5 Hp Hap ltac:(unfold PAGE_SIZE; lia))
    as (opa & _ & Ht & _).
  assert (H1 : user_reaches K 1 (opa + 5)) by (exists (shm_page 0 + 5), (Z.lor SHM_FLAGS PAGE_V); by split).
  exists K, p, (opa + 5). split; [exact H1|].
  exact (user_cannot_reach_tables world_lo world_hi world_layout K 1 1 p (page_table p) (opa + 5)
    world_layout_ok HR H1 Hp ltac:(rewrite Hps; discriminate) (or_introl eq_refl)).
Defined.

Lemma shared_frame_agrees_witness :
  exists (K : kstate heap) q p opa, sv32_walk (ph_mem (k_heap K)) (page_table q) (shm_page 0 + 5) =
      Some (opa + 5, Z.lor SHM_FLAGS PAGE_V) /\
    sv32_walk (ph_mem (k_heap K)) (page_table p) (shm_page 0 + 5) =
      Some (opa + 5, Z.lor SHM_FLAGS PAGE_V).
Proof.
  destruct world_shared as (K & q & p & HR & Hq & Hp & _ & _ & Haq & Hap & _).
  destruct (shared_frame_agrees world_lo world_hi world_layout K 0 1 q p 0 0 1 5 world_layout_ok HR
    Hq Hp Haq Hap ltac:(unfold PAGE_SIZE; lia)) as (opa & _ & H0 & H1).
  exists K, q, p, opa. split; [exact H0|exact H1].
Defined.

Lemma reference_counts_exact_witness :
  exists (K : kstate heap) k o, shm_table (k_shm K) !! k = Some o /\
    so_refcount o = Z.of_nat (refs (so_id o) (k_procs K)) /\ so_refcount o <= 32.
Proof.
  destruct world_shared as (K & q & p & HR & _ & _ & _ & _ & _ & _ & _ & _ & k & o & Hk & Hu & _).
  destruct (reference_counts_exact world_lo world_hi world_layout K k o world_layout_ok HR Hk Hu)
    as (H1 & H2 & _).
  exists K, k, o. split; [exact Hk|]. split; [exact H1|exact H2].
Defined.

Lemma create_process_builds_witness :
  exists (K K' : kstate heap) p', create_process world_layout K 0 0 = Ret (1%nat, K') /\
    k_procs K' = <[1%nat := p']> (k_procs K) /\ pid p' = 2.
Proof.
  destruct world_boot as (K & q & _ & HK & Hp & Hst & _ & _ & _ & _ & Hb & _).
  assert (Hfs : find_slot (fun p => p_state p =? PROC_UNUSED) (k_procs K) = Some 1%nat).
  { rewrite Hp. cbn. rewrite Hst. reflexivity. }
  destruct (create_process_builds world_lo world_hi world_layout K 0 0 1 40 world_layout_ok HK
    world_image Hfs (ph_avail_le (lo:=world_lo) (hi:=world_hi) (k_heap K) 47 53 ltac:(lia) (proj1 Hb))
    ltac:(rewrite world_pages; unfold PROC_REGION_MAX; lia)) as (K' & p' & Hc & Hcr & _).
  exists K, K', p'. split; [exact Hc|]. split; [apply Hcr|apply Hcr].
Defined.

Lemma create_process_full_witness :
  create_process world_layout (mkK world_heap boot_shm
    (replicate PROCS_MAX (set_ids zero_process 1 PROC_RUNNABLE 0)) 0 0 world_csrs) 0 0 =
  Panic "no free process slots".
Proof.
  apply (create_process_full world_layout (mkK world_heap boot_shm
    (replicate PROCS_MAX (set_ids zero_process 1 PROC_RUNNABLE 0)) 0 0 world_csrs) 0 0).
  intros i p Hi.
  apply (lookup_replicate PROCS_MAX (set_ids zero_process 1 PROC_RUNNABLE 0)) in Hi as [-> _].
  discriminate.
Defined.

Lemma shm_attach_maps_witness :
  exists (K K' : kstate heap) o, attach_current K 1 = Ret (shm_page 0, K') /\
    translates K' 0 (shm_page 0 + 5) (so_pa o + 5) (Z.lor SHM_FLAGS PAGE_V) /\
    refs 1 (k_procs K') = (refs 1 (k_procs K) + 1)%nat.
Proof.
  destruct world_object as (K & q & p & k & o & HR & Hp & Hqs & _ & _ & _ & Hc & _ & Hk & Hu & Eid &
    Hbq & _ & Hfq & _).
  pose proof (reachable_ok world_lo world_hi _ K world_layout_ok HR) as HK.
  assert (Ecur : current_process K = q) by (unfold current_process; rewrite Hc, Hp; reflexivity).
  destruct (shm_attach_maps world_lo world_hi K k o 0 38 HK Hk Hu
    ltac:(rewrite Ecur; exact Hfq) ltac:(rewrite Ecur; exact Hbq)) as (K' & Hat & _ & Ht & Hr & _).
  exists K, K', o. rewrite <-Eid. split; [exact Hat|]. split.
  - specialize (Ht 5 ltac:(unfold PAGE_SIZE; lia)). rewrite Hc in Ht. exact Ht.
  - rewrite Hr, Z.eqb_refl. reflexivity.
Defined.

Lemma shm_attach_rejects_witness : exists (K : kstate heap), attach_current K 5 = Ret (0, K).
Proof.
  destruct world_two as (K & q & p & HR & _ & _ & _ & _ & _ & _ & _ & Hsh & _).
  pose proof (reachable_ok world_lo world_hi _ K world_layout_ok HR) as HK.
  exists K. apply (shm_attach_rejects world_lo world_hi K 5); [left|exact HK].
  rewrite Hsh. intros k o Hk Hu. by rewrite (boot_shm_unused k o Hk) in Hu.
Defined.

Lemma shm_detach_outcome_witness :
  exists (K K' : kstate heap), detach_current K (shm_page 0) = Ret (0, K') /\
    slot_unused (shm_mappings (current_process K')) 0.
Proof.
  destruct world_shared as (K & q & p & HR & _ & Hp & _ & _ & _ & Hap & Hc & _).
  pose proof (reachable_ok world_lo world_hi _ K world_layout_ok HR) as HK.
  assert (Ecur : current_process K = p) by (unfold current_process; rewrite Hc; by apply aget_lookup).
  destruct (shm_detach_outcome world_lo world_hi K (shm_page 0) HK)
    as [[Hno _]|(s & id & k & o & K' & _ & Es & _ & _ & Hd & _ & Hun & _)].
  - rewrite Ecur in Hno. by destruct (Hno 0%nat 1 Hap).
  - assert (s = 0%nat) as -> by (apply shm_page_same; unfold same_page; by rewrite Es).
    exists K, K'. split; [exact Hd|exact Hun].
Defined.

Lemma shm_get_creates_witness :
  exists (K K' : kstate heap), get_current K 7 = Ret (1, K') /\ get_current K' 7 = Ret (1, K').
Proof.
  destruct world_two as (K & q & p & HR & _ & _ & _ & _ & _ & _ & _ & Hsh & Hbq & _).
  pose proof (reachable_ok world_lo world_hi _ K world_layout_ok HR) as HK.
  destruct (shm_get_creates world_lo world_hi K 7 0 shm_object_zero 39 HK ltac:(lia))
    as (K' & pa & Hg & _ & _ & _ & _ & Hg').
  - rewrite Hsh. intros k o Hk Hu. by rewrite (boot_shm_unused k o Hk) in Hu.
  - by rewrite Hsh.
  - reflexivity.
  - apply Hbq.
  - by rewrite Hsh.
  - exists K, K'. rewrite Hsh in Hg, Hg'. split; [exact Hg|exact Hg'].
Defined.

Lemma exit_releases_witness :
  exists (K : kstate heap) sw K' p', yield world_layout (exit_current K) = Ret (sw, K') /\
    k_procs K' !! 1%nat = Some p' /\ p_state p' = PROC_UNUSED /\ handles p' = [].
Proof.
  destruct world_shared as (K & q & p & HR & _ & Hp & _ & _ & _ & _ & Hc & Hid & _).
  pose proof (reachable_ok world_lo world_hi _ K world_layout_ok HR) as HK.
  assert (HK' : kernel_ok world_lo world_hi (exit_current K)).
  { apply (step_exit_ok world_lo world_hi K HK). by rewrite Hc, Hid. }
  assert (Hcur : current_process K = p) by (unfold current_process; rewrite Hc; by apply aget_lookup).
  set (px := set_ids p (pid p) PROC_EXITED (p_sp p)).
  assert (Hpx : k_procs (exit_current K) !! k_current (exit_current K) = Some px).
  { unfold exit_current. rewrite Hcur. cbn [set_proc k_procs k_current]. rewrite Hc.
    apply list_lookup_insert_eq. by eapply lookup_lt_Some. }
  destruct (exit_releases world_lo world_hi world_layout (exit_current K) px HK' Hpx eq_refl)
    as (sw & K' & p' & Hy & _ & Hp' & Hst & Hh & _).
  exists K, sw, K', p'. split; [exact Hy|]. change (k_current (exit_current K)) with (k_current K) in Hp'.
  rewrite Hc in Hp'. split; [exact Hp'|]. split; [exact Hst|exact Hh].
Defined.

Lemma yield_round_robin_witness :
  exists (K : kstate heap) n K', (1 <= n <= 8)%nat /\ yields n world_layout K = Ret K' /\ k_current K' = 1%nat.
Proof.
  destruct world_two as (K & q & p & HR & Hp & Hqs & _ & Hps & Hpp & Hc & _).
  pose proof (reachable_ok world_lo world_hi _ K world_layout_ok HR) as HK.
  exists K. apply (yield_round_robin world_lo world_hi world_layout K 1 HK).
  - unfold PROCS_MAX. lia.
  - rewrite Hp. unfold runnable. cbn. by rewrite Hps, Hpp.
  - unfold current_process. rewrite Hc, Hp. exact Hqs.
Defined.

Lemma yield_switches_witness :
  exists (K : kstate heap) sw K', yield world_layout K = Ret (sw, K') /\ k_procs K' = k_procs K.
Proof.
  destruct world_two as (K & q & p & HR & Hp & Hqs & _ & Hps & Hpp & Hc & _).
  pose proof (reachable_ok world_lo world_hi _ K world_layout_ok HR) as HK.
  destruct (yield_switches world_lo world_hi world_layout K HK) as (sw & K' & Hy & Hpr & _).
  - unfold current_process. rewrite Hc, Hp. change (p_state q <> PROC_EXITED). rewrite Hqs. discriminate.
  - exists K, sw, K'. split; [exact Hy|exact Hpr].
Defined.

Lemma clear_regions_overrun_witness :
  p_stack (clear_regions (set_stack zero_process (replicate STACK_WORDS 7))) !! 50%nat = Some 0 /\
  p_stack (clear_regions (set_stack zero_process (replicate STACK_WORDS 7))) !! 51%nat = Some 7.
Proof.
  set (p := set_stack zero_process (replicate STACK_WORDS 7)).
  destruct (clear_regions_overrun p) as (_ & _ & Hs & _);
    [split; [reflexivity|split; reflexivity]|].
  split; [apply (Hs 50%nat 7)|apply (Hs 51%nat 7)];
    change (p_stack p) with (replicate STACK_WORDS 7); apply lookup_replicate;
    (split; [reflexivity|unfold STACK_WORDS; lia]).
Defined.
