(* ===== verification/Types.v ===== *)
(** The C types of the kernel's tables.

    The model keeps every [int] and [uint32_t] of [struct process] and [struct
    shm_object] as a [Z].  In every reachable state each of them is in the range
    of its type, unused entries are clear, and the handles in use are live. *)

From Stdlib Require Import ZArith Lia.
From stdpp Require Import relations.
From S2P Require Import Prelude Memory PageHeap Allocator PageTable Shm Process KernelInv System Lifecycle AddressSpace Kernel Views Reach World.
Open Scope Z_scope.

Definition is_int (x : Z) : Prop := - 2 ^ 31 <= x < 2 ^ 31.
Definition is_uint (x : Z) : Prop := 0 <= x < 2 ^ 32.

Record mapping_typed (mp : shm_mapping) : Prop := {
  mt_used : m_used mp = 0 \/ m_used mp = 1;
  mt_id : is_int (m_shm_id mp);
  mt_vaddr : is_uint (m_vaddr mp);
}.

Record process_typed (p : process) : Prop := {
  ty_pid : 0 <= pid p <= Z.of_nat PROCS_MAX;
  ty_state : p_state p = PROC_UNUSED \/ p_state p = PROC_RUNNABLE \/ p_state p = PROC_EXITED;
  ty_sp : is_uint (p_sp p);
  ty_table : is_uint (page_table p);
  ty_regions : Forall is_uint (p_regions p);
  ty_idx : is_uint (current_idx p);
  ty_mappings : Forall mapping_typed (shm_mappings p);
  ty_stack : Forall is_uint (p_stack p);
}.

Record object_typed (o : shm_object) : Prop := {
  ot_used : so_used o = 0 \/ so_used o = 1;
  ot_id : is_int (so_id o);
  ot_key : is_int (so_key o);
  ot_pa : is_uint (so_pa o);
  ot_region : is_uint (so_region_idx o);
  ot_size : so_size o = 0 \/ so_size o = SHM_PAGE_SIZE;
}.

Definition shm_typed (sh : shm_state) : Prop :=
  Forall object_typed (shm_table sh) /\ is_int (next_shm_id sh).

(** The addresses the linker fixes are addresses. *)
Record layout_typed (L : layout) : Prop := {
  lt_procs : 0 <= procs_addr L /\ procs_addr L + Z.of_nat PROCS_MAX * SIZEOF_PROCESS < 2 ^ 32;
  lt_entry : is_uint (user_entry L);
}.

Definition tables_typed {H} (K : kstate H) : Prop :=
  Forall process_typed (k_procs K) /\ shm_typed (k_shm K).

Lemma is_uint_0 : is_uint 0.
Proof. unfold is_uint. lia. Qed.
Lemma is_uint_u32 x : is_uint (u32 x).
Proof. pose proof (u32_range x). unfold is_uint. lia. Qed.
#[local] Hint Resolve is_uint_0 is_uint_u32 : core.

Lemma no_mapping_typed : mapping_typed no_mapping.
Proof. split; [by left| |]; unfold is_int, is_uint; cbn; lia. Qed.
Lemma shm_object_zero_typed : object_typed shm_object_zero.
Proof. split; try (by left); unfold is_int, is_uint; cbn; lia. Qed.

(** Reading and writing the tables. *)
Lemma Forall_aget {A} `{!Inhabited A} (P : A -> Prop) l i : Forall P l -> (i < length l)%nat -> P (l !!! i).
Proof.
  intros Hl Hi. destruct (lookup_lt_is_Some_2 l i Hi) as [x Hx].
  rewrite (aget_lookup _ _ _ Hx). by eapply Forall_lookup_1.
Qed.

Lemma set_mappings_typed p l :
  process_typed p -> Forall mapping_typed l -> process_typed (set_mappings p l).
Proof. by intros [] Hl; split. Qed.

Lemma set_regions_typed p l : process_typed p -> Forall is_uint l -> process_typed (set_regions p l).
Proof. by intros [] Hl; split. Qed.

Lemma set_page_table_typed p r : process_typed p -> is_uint r -> process_typed (set_page_table p r).
Proof. by intros [] Hr; split. Qed.

Lemma set_ids_typed p i st sp :
  process_typed p -> 0 <= i <= Z.of_nat PROCS_MAX -> st = PROC_UNUSED \/ st = PROC_RUNNABLE \/ st = PROC_EXITED ->
  is_uint sp -> process_typed (set_ids p i st sp).
Proof. by intros [] Hi Hst Hsp; split. Qed.

Lemma set_current_idx_typed p n : process_typed p -> is_uint n -> process_typed (set_current_idx p n).
Proof. by intros [] Hn; split. Qed.

Lemma zero_process_typed : process_typed zero_process.
Proof.
  unfold zero_process. generalize STACK_WORDS PROC_REGION_MAX PROC_SHM_MAX. intros a b c.
  split; cbn; try apply Forall_replicate; try exact is_uint_0; try exact no_mapping_typed; [lia|by left].
Qed.

Section Typed.
Context {H : Type} `{!PageHeap H} (lo hi : Z) `{!PageHeapSpec H lo hi}.
Implicit Types (h : H) (p : process) (sh : shm_state) (K : kstate H).

(** ** Pages and page tables *)

Lemma alloc_typed h n i q h' :
  ph_ok h -> ph_alloc h n = Ret (i, q, h') -> is_uint i /\ is_uint q /\ ph_ok h'.
Proof.
  intros Hok Ha. destruct (ph_alloc_spec h n i q h' Hok Ha) as (Hok' & _ & Ho & _).
  assert (Hi : ph_owned h' !! i = Some (q, u32 (n * PAGE_SIZE))) by (rewrite Ho; apply lookup_insert_eq).
  pose proof (ph_owned_range h' i _ _ Hok' Hi) as (? & ? & ? & _ & ?). pose proof ph_lo_hi as [? ?].
  unfold is_uint. split_and!; try assumption; lia.
Qed.

Lemma push_region_typed p r p' : process_typed p -> is_uint r -> push_region p r = Ret p' -> process_typed p'.
Proof.
  intros [] Hr Hp. unfold push_region in Hp. outcome_inv. split; cbn; try assumption; [|done].
  by apply Forall_insert.
Qed.

Lemma map_page_typed h p va pa fl h' p' :
  ph_ok h -> process_typed p -> map_page h p va pa fl = Ret (h', p') -> ph_ok h' /\ process_typed p'.
Proof.
  intros Hok Hp Hm. destruct (map_page_inv h p va pa fl h' p' Hm) as (_ & _ & h1 & He & ->).
  unfold ensure_table in He. destruct (_ =? 0).
  - apply bind_Ret_inv in He as ([[i q] h2] & Ha & He). cbv beta iota in He.
    apply bind_Ret_inv in He as (p1 & Hpush & He). injection He as <- <-.
    destruct (alloc_typed _ _ _ _ _ Hok Ha) as (Hi & _ & Hok2).
    split; [by repeat apply ph_set_mem_ok|]. by eapply push_region_typed.
  - injection He as <- <-. split; [by apply ph_set_mem_ok|exact Hp].
Qed.

Lemma map_kernel_pages_typed L fuel : forall h p a h' p',
  ph_ok h -> process_typed p -> map_kernel_pages fuel L h p a = Ret (h', p') -> ph_ok h' /\ process_typed p'.
Proof.
  induction fuel as [|n IH]; intros h p a h' p' Hok Hp Hm; [discriminate Hm|]. cbn [map_kernel_pages] in Hm.
  destruct (_ <? _); [|by injection Hm as <- <-].
  apply bind_Ret_inv in Hm as ([h1 p1] & Hm1 & Hm). cbv beta iota in Hm.
  destruct (map_page_typed _ _ _ _ _ _ _ Hok Hp Hm1) as [Hok1 Hp1]. by eapply IH.
Qed.

Lemma map_mmio_pages_typed l : forall h p h' p',
  ph_ok h -> process_typed p -> map_mmio_pages l (h, p) = Ret (h', p') -> ph_ok h' /\ process_typed p'.
Proof.
  induction l as [|a l IH]; intros h p h' p' Hok Hp Hm; [by injection Hm as <- <-|].
  cbn [map_mmio_pages map_mmio_page] in Hm.
  apply bind_Ret_inv in Hm as ([h1 p1] & Hm1 & Hm).
  destruct (map_page_typed _ _ _ _ _ _ _ Hok Hp Hm1) as [Hok1 Hp1]. by eapply IH.
Qed.

Lemma map_user_pages_typed fuel : forall h p image size off h' p',
  ph_ok h -> process_typed p -> map_user_pages fuel h p image size off = Ret (h', p') ->
  ph_ok h' /\ process_typed p'.
Proof.
  induction fuel as [|n IH]; intros h p image size off h' p' Hok Hp Hm; [discriminate Hm|].
  cbn [map_user_pages] in Hm. destruct (off <? size); [|by injection Hm as <- <-].
  apply bind_Ret_inv in Hm as ([[q h1] p1] & Ha & Hm). cbv beta iota zeta in Hm.
  apply bind_Ret_inv in Hm as ([h2 p2] & Hm2 & Hm). cbv beta iota in Hm.
  unfold alloc_process_page in Ha. apply bind_Ret_inv in Ha as ([[i q'] h3] & Hal & Ha). cbv beta iota in Ha.
  apply bind_Ret_inv in Ha as (p3 & Hpush & Ha). injection Ha as <- <- <-.
  destruct (alloc_typed _ _ _ _ _ Hok Hal) as (Hi & _ & Hok3).
  pose proof (push_region_typed _ _ _ Hp Hi Hpush) as Hp3.
  destruct (map_page_typed _ _ _ _ _ _ _ (ph_set_mem_ok _ _ Hok3) Hp3 Hm2) as [Hok2 Hp2]. by eapply IH.
Qed.

(** ** Processes *)

Lemma initial_stack_typed L st : layout_typed L -> Forall is_uint st -> Forall is_uint (initial_stack L st).
Proof.
  intros HL Hst. unfold initial_stack. apply Forall_insert; [|apply HL].
  apply (fold_left_inv (Forall is_uint)); [|exact Hst]. intros s j _ Hs. by apply Forall_insert.
Qed.

Lemma reset_process_typed L p :
  layout_typed L -> proc_shape p -> process_typed p -> process_typed (reset_process L p).
Proof.
  intros HL Hsh []. unfold reset_process.
  rewrite (clear_regions_spec (set_current_idx p 0)) by exact Hsh.
  rewrite clear_mappings_spec by reflexivity.
  split; cbn [set_stack set_mappings set_current_idx pid p_state p_sp page_table p_regions current_idx shm_mappings p_stack]; try assumption; try done.
  - apply Forall_replicate. done.
  - apply Forall_replicate, no_mapping_typed.
  - apply initial_stack_typed; [exact HL|]. apply Forall_app. split; [by apply Forall_replicate|by apply Forall_drop].
Qed.

Lemma stack_top_typed L i : layout_typed L -> (i < PROCS_MAX)%nat -> is_uint (stack_top L i - 52).
Proof. intros [[H1 H2] _] Hi. unfold stack_top, is_uint, SIZEOF_PROCESS, PROCS_MAX in *. lia. Qed.

Lemma create_process_typed L K image size i K' :
  layout_typed L -> ph_ok (k_heap K) -> length (k_procs K) = PROCS_MAX ->
  (forall j p, k_procs K !! j = Some p -> p_state p = PROC_UNUSED -> proc_shape p) ->
  tables_typed K -> create_process L K image size = Ret (i, K') -> tables_typed K'.
Proof.
  intros HL Hok Hlen Hshape [Hps Hsh] Hc. unfold create_process in Hc.
  destruct (find_slot _ _) as [i0|] eqn:Hfs; [|discriminate Hc].
  apply find_slot_lookup in Hfs as (p0 & Hi & Hst). apply Z.eqb_eq in Hst. rewrite (aget_lookup _ _ _ Hi) in Hc.
  apply bind_Ret_inv in Hc as ([h p] & Hb & Hc). injection Hc as -> <-.
  pose proof (lookup_lt_Some _ _ _ Hi) as Hlt. rewrite Hlen in Hlt.
  assert (Hp0 : process_typed (reset_process L p0)).
  { apply reset_process_typed; [exact HL|by eapply Hshape|by eapply Forall_lookup_1]. }
  unfold build_address_space in Hb. apply bind_Ret_inv in Hb as ([[r root] h1] & Ha & Hb). cbv beta iota in Hb.
  apply bind_Ret_inv in Hb as (p1 & Hpush & Hb). apply bind_Ret_inv in Hb as ([h2 p2] & Hk & Hb). cbv beta iota in Hb.
  apply bind_Ret_inv in Hb as ([h3 p3] & Hm & Hb). cbn [fst snd] in Hb.
  destruct (alloc_typed _ _ _ _ _ Hok Ha) as (Hr & Hroot & Hok1).
  assert (Hp1 : process_typed p1).
  { eapply push_region_typed; [|exact Hr|exact Hpush]. by apply set_page_table_typed. }
  destruct (map_kernel_pages_typed _ _ _ _ _ _ _ Hok1 Hp1 Hk) as [Hok2 Hp2].
  destruct (map_mmio_pages_typed _ _ _ _ _ Hok2 Hp2 Hm) as [Hok3 Hp3].
  destruct (map_user_pages_typed _ _ _ _ _ _ _ _ Hok3 Hp3 Hb) as [_ Hp].
  split; [|exact Hsh]. cbn. apply Forall_insert; [exact Hps|].
  apply set_ids_typed; [exact Hp|lia|by right; left|by apply stack_top_typed].
Qed.
(** ** Shared memory *)

Lemma shm_get_typed h sh key ret h' sh' :
  ph_ok h -> is_int key -> shm_typed sh -> 0 < next_shm_id sh -> shm_get h sh key = Ret (ret, h', sh') -> shm_typed sh'.
Proof.
  intros Hok Hkey [Htbl Hn] Hpos Hg. unfold shm_get in Hg.
  destruct (key <=? 0); [by injection Hg as <- <- <-|].
  destruct (find_by_key sh key); [by injection Hg as <- <- <-|].
  destruct (find_slot _ _) as [k|]; [|by injection Hg as <- <- <-].
  apply bind_Ret_inv in Hg as ([[r pa] h1] & Ha & Hg). cbv beta iota in Hg.
  apply bind_Ret_inv in Hg as (u & Hd & Hg). apply defined_if_Ret_inv, Z.ltb_lt in Hd. injection Hg as <- <- <-.
  destruct (alloc_typed _ _ _ _ _ Hok Ha) as (Hr & Hpa & _).
  split; cbn; [|unfold is_int in *; lia]. apply Forall_insert; [exact Htbl|].
  split; cbn; [by right|exact Hn|exact Hkey|exact Hpa|exact Hr|by right].
Qed.

Lemma refcount_typed o n : object_typed o -> object_typed (set_refcount o n).
Proof. by intros []; split. Qed.

Lemma shm_attach_typed h sh p id ret h' sh' p' :
  ph_ok h -> shm_typed sh -> process_typed p ->
  shm_attach h sh p id = Ret (ret, h', sh', p') -> shm_typed sh' /\ process_typed p'.
Proof.
  intros Hok [Htbl Hn] Hp Ha. unfold shm_attach in Ha.
  destruct (find_by_id sh id) as [k|] eqn:Hk; [|by injection Ha as <- <- <- <-].
  destruct (find_slot _ _) as [slot|]; [|by injection Ha as <- <- <- <-].
  apply bind_Ret_inv in Ha as ([h1 p1] & Hm & Ha). cbv beta iota in Ha. injection Ha as <- <- <- <-.
  destruct (map_page_typed _ _ _ _ _ _ _ Hok Hp Hm) as [_ Hp1].
  apply find_slot_lookup in Hk as (o & Ho & Hf). rewrite (aget_lookup _ _ _ Ho).
  apply andb_true_iff in Hf as [_ Hid]. apply Z.eqb_eq in Hid.
  split; [split; [|exact Hn]|].
  - apply Forall_insert; [exact Htbl|]. apply refcount_typed. by eapply Forall_lookup_1.
  - apply set_mappings_typed; [exact Hp1|]. apply Forall_insert; [apply Hp1|].
    split; cbn; [by right| |done]. rewrite <-Hid. apply ot_id. by eapply Forall_lookup_1.
Qed.

Lemma shm_detach_typed h sh p va ret h' sh' p' :
  shm_typed sh -> process_typed p ->
  shm_detach h sh p va = Ret (ret, h', sh', p') -> shm_typed sh' /\ process_typed p'.
Proof.
  intros [Htbl Hn] Hp Hd. unfold shm_detach in Hd.
  destruct (find_slot _ (shm_mappings p)) as [i|]; [|by injection Hd as <- <- <- <-].
  apply bind_Ret_inv in Hd as (h1 & _ & Hd).
  assert (Hp1 : process_typed (set_mappings p (<[i := no_mapping]> (shm_mappings p)))).
  { apply set_mappings_typed; [exact Hp|]. apply Forall_insert; [apply Hp|apply no_mapping_typed]. }
  destruct (find_by_id sh _) as [k|] eqn:Hk; [|by injection Hd as <- <- <- <-].
  apply bind_Ret_inv in Hd as ([h2 sh2] & Hdrop & Hd). injection Hd as <- <- <- <-. split; [|exact Hp1].
  apply find_slot_lookup in Hk as (o & Ho & _). unfold drop_reference in Hdrop. rewrite (aget_lookup _ _ _ Ho) in Hdrop.
  destruct (_ <=? 0).
  - apply bind_Ret_inv in Hdrop as (h3 & _ & Hdrop). injection Hdrop as <- <-.
    split; [|exact Hn]. apply Forall_insert; [exact Htbl|apply shm_object_zero_typed].
  - injection Hdrop as <- <-. split; [|exact Hn]. apply Forall_insert; [exact Htbl|].
    apply refcount_typed. by eapply Forall_lookup_1.
Qed.

(** ** Exit and release *)

Lemma for_each_typed {S} (f : S -> nat -> outcome S) (P : S -> Prop) l : forall s s',
  (forall s a s', P s -> f s a = Ret s' -> P s') -> P s -> for_each f l s = Ret s' -> P s'.
Proof.
  induction l as [|a l IH]; intros s s' Hf Hs E; [by injection E as <-|].
  cbn [for_each] in E. apply bind_Ret_inv in E as (s1 & E1 & E). eapply IH; [exact Hf| |exact E]. by eapply Hf.
Qed.

Lemma cleanup_typed h sh p h' sh' p' :
  shm_typed sh -> process_typed p -> shm_process_cleanup h sh p = Ret (h', sh', p') ->
  shm_typed sh' /\ process_typed p'.
Proof.
  intros Hsh Hp E.
  refine (for_each_typed cleanup_slot (fun st => shm_typed st.1.2 /\ process_typed st.2) _ (h, sh, p) _ _ (conj Hsh Hp) E).
  intros [[h0 sh0] p0] i st1 [Hs0 Hp0] E0. unfold cleanup_slot in E0.
  destruct (mapping_used _); [|by injection E0 as <-].
  apply bind_Ret_inv in E0 as ([[[ret h1] sh1] p1] & Hd & E0). injection E0 as <-. by eapply shm_detach_typed.
Qed.

Lemma release_slots_typed l h p h' p' :
  process_typed p -> for_each release_slot l (h, p) = Ret (h', p') -> process_typed p'.
Proof.
  intros Hp E. refine (for_each_typed release_slot (fun st => process_typed st.2) l (h, p) _ _ Hp E).
  intros [h0 p0] i st1 Hp0 E0. unfold release_slot in E0.
  destruct (_ =? 0); [by injection E0 as <-|].
  apply bind_Ret_inv in E0 as (h1 & _ & E0). injection E0 as <-.
  apply set_regions_typed; [exact Hp0|]. apply Forall_insert; [apply Hp0|done].
Qed.

Lemma clear_mappings_typed p : process_typed p -> process_typed (clear_mappings p).
Proof.
  intros Hp. unfold clear_mappings. apply (fold_left_inv process_typed); [|exact Hp].
  intros q j _ Hq. apply set_mappings_typed; [exact Hq|]. apply Forall_insert; [apply Hq|apply no_mapping_typed].
Qed.

Lemma release_process_typed K i K' :
  (i < length (k_procs K))%nat -> tables_typed K -> release_process K i = Ret K' -> tables_typed K'.
Proof.
  intros Hi [Hps Hsh] E. unfold release_process in E.
  apply bind_Ret_inv in E as ([[h sh] p] & Hc & E). cbv beta iota in E.
  apply bind_Ret_inv in E as ([h1 p1] & Hr & E). injection E as <-.
  destruct (cleanup_typed _ _ _ _ _ _ Hsh (Forall_aget _ _ _ Hps Hi) Hc) as [Hsh' Hp].
  apply (release_slots_typed _ _ _ _ _ Hp) in Hr. split; [|exact Hsh'].
  apply Forall_insert; [exact Hps|]. apply clear_mappings_typed.
  apply set_current_idx_typed; [|done]. apply set_page_table_typed; [|done].
  apply set_ids_typed; [exact Hr|lia|by left|done].
Qed.

Lemma yield_typed L K sw K' :
  (k_current K < length (k_procs K))%nat -> tables_typed K -> yield L K = Ret (sw, K') -> tables_typed K'.
Proof.
  intros Hc HK E. unfold yield in E. apply bind_Ret_inv in E as (K1 & E1 & E).
  assert (H1 : tables_typed K1).
  { destruct (_ =? PROC_EXITED) in E1; [|by injection E1 as <-]. by eapply release_process_typed in E1. }
  destruct (bool_decide _); by injection E as <- <-.
Qed.
(** ** Every step *)

Local Abbreviation kernel_ok := (kernel_ok lo hi).
Local Abbreviation kernel_step := (kernel_step lo hi).

Lemma current_typed K : kernel_ok K -> tables_typed K -> process_typed (current_process K).
Proof.
  intros HK [Hps _]. destruct (kernel_current lo hi K HK) as [Hi _]. by eapply Forall_lookup_1.
Qed.

Lemma kernel_shape K : kernel_ok K ->
  length (k_procs K) = PROCS_MAX /\ (forall i p, k_procs K !! i = Some p -> p_state p = PROC_UNUSED -> proc_shape p).
Proof.
  intros HK. pose proof (ko_sys _ _ _ HK) as Hsys. split; [apply (sys_pids _ _ _ _ _ Hsys)|].
  intros i p Hi Hst. apply (sys_free _ _ _ _ _ Hsys i p Hi Hst).
Qed.

Lemma kernel_step_typed L K K' :
  layout_typed L -> kernel_ok K -> tables_typed K -> kernel_step L K K' -> tables_typed K'.
Proof.
  intros HL HK HT Hst. pose proof (sys_heap _ _ _ _ _ (ko_sys _ _ _ HK)) as Hok.
  pose proof (so_next _ _ _ (sys_shm _ _ _ _ _ (ko_sys _ _ _ HK))) as Hnext.
  pose proof (current_typed K HK HT) as Hcur. destruct (kernel_shape K HK) as [Hlen Hshape].
  destruct HT as [Hps Hsh]. destruct Hst as [K image size i K' _ E|K key ret K' Hkey E|K id ret K' E|K va ret K' E|
    K _|K sw K' E|K saved|K va v K' _ E|K c]; try (by split).
  - exact (create_process_typed L K image size i K' HL Hok Hlen Hshape (conj Hps Hsh) E).
  - unfold get_current in E. apply bind_Ret_inv in E as ([[r h] sh] & Hg & E). injection E as <- <-.
    split; [exact Hps|]. by eapply shm_get_typed.
  - unfold attach_current in E. apply bind_Ret_inv in E as ([[[r h] sh] p] & Ha & E). injection E as <- <-.
    destruct (shm_attach_typed _ _ _ _ _ _ _ _ Hok Hsh Hcur Ha) as [Hsh' Hp].
    split; [|exact Hsh']. by apply Forall_insert.
  - unfold detach_current in E. apply bind_Ret_inv in E as ([[[r h] sh] p] & Hd & E). injection E as <- <-.
    destruct (shm_detach_typed _ _ _ _ _ _ _ _ Hsh Hcur Hd) as [Hsh' Hp].
    split; [|exact Hsh']. by apply Forall_insert.
  - split; [|exact Hsh]. apply Forall_insert; [exact Hps|].
    apply set_ids_typed; [exact Hcur|apply Hcur|by right; right|apply Hcur].
  - eapply yield_typed; [|by split|exact E].
    destruct (ko_current _ _ _ HK) as (p & Hp & _). by eapply lookup_lt_Some.
  - destruct (user_store_inv K va v K' E) as (pa & _ & ->). by split.
Qed.

Lemma init_processes_typed L K0 K :
  layout_typed L -> ph_ok (k_heap K0) -> length (k_procs K0) = PROCS_MAX ->
  (forall j p, k_procs K0 !! j = Some p -> p_state p = PROC_UNUSED -> proc_shape p) -> tables_typed K0 ->
  fold_left (fun procs i => <[i := init_slot (procs !!! i)]> procs) (seq 0 PROCS_MAX) (k_procs K0) = k_procs K0 ->
  init_processes L K0 = Ret K -> tables_typed K.
Proof.
  intros HL Hok Hlen Hshape H0 Hloop Hi. unfold init_processes in Hi. rewrite Hloop in Hi.
  replace (mkK _ _ _ _ _ _) with K0 in Hi by by destruct K0.
  apply bind_Ret_inv in Hi as ([i K1] & Hc & Hi). injection Hi as <-.
  pose proof (create_process_typed L K0 0 0 i K1 HL Hok Hlen Hshape H0 Hc) as [Hps Hsh].
  split; [|exact Hsh]. apply Forall_insert; [exact Hps|].
  assert (Hp : process_typed (k_procs K1 !!! i)).
  { apply Forall_aget; [exact Hps|]. unfold create_process in Hc. destruct (find_slot _ _) as [i0|] eqn:Hfs; [|done].
    apply bind_Ret_inv in Hc as ([h1 p1] & _ & Hc). injection Hc as -> <-. cbn. rewrite length_insert.
    by eapply find_slot_lt. }
  apply set_ids_typed; [exact Hp|lia|apply Hp|apply Hp].
Qed.

Lemma boot_typed L h c K :
  layout_typed L -> ph_ok h -> init_processes L (boot_kernel h c) = Ret K -> tables_typed K.
Proof.
  intros HL Hok. apply (init_processes_typed L (boot_kernel h c) K HL Hok).
  - reflexivity.
  - intros j p Hj _. apply (boot_procs_free j p Hj).
  - split; [exact (Forall_replicate _ PROCS_MAX _ zero_process_typed)|].
    split; [exact (Forall_replicate _ SHM_MAX _ shm_object_zero_typed)|unfold is_int; cbn; lia].
  - exact init_loop_zero.
Qed.

Lemma reachable_typed L K :
  layout_ok L -> layout_typed L -> reachable lo hi L K -> kernel_ok K /\ tables_typed K.
Proof.
  intros HL HT (h & c & K0 & Hok & Hb & Hr).
  pose proof (boot_ok lo hi L h c K0 HL Hok Hb) as HK. pose proof (boot_typed L h c K0 HT Hok Hb) as HT0.
  clear Hb. induction Hr as [|K0 K1 K2 Hst _ IH]; [by split|]. apply IH.
  - by eapply kernel_step_ok.
  - by eapply kernel_step_typed.
Qed.

End Typed.

