(* ===== verification/Context.v ===== *)
(** Register contexts: the assembly of the kernel ([kernel_entry] of
    [kernel/kernel.c], [switch_context] and [user_entry] of
    [kernel/process.c], [boot] of the kernel and [start] of user programs), run
    by an interpreter of the instructions it uses.

    A program is a list of instructions; every branch in it goes forward, so
    the interpreter is structural and a taken branch skips to its label.  Words
    are 32 bits wide; the stacks the code uses are mapped at their physical
    addresses. *)

From Stdlib Require Import ZArith Lia.
From S2P Require Import Prelude Memory PageHeap Allocator PageTable Shm Process.
Open Scope Z_scope.

(** ** The processor *)

Inductive reg : Type :=
  | RA | SP | GP | TP
  | T0 | T1 | T2 | T3 | T4 | T5 | T6
  | A0 | A1 | A2 | A3 | A4 | A5 | A6 | A7
  | S0 | S1 | S2 | S3 | S4 | S5 | S6 | S7 | S8 | S9 | S10 | S11.
#[export] Instance reg_eq_dec : EqDecision reg.
Proof. solve_decision. Defined.

Inductive csr : Type := Sstatus | Sscratch | Sepc.
#[export] Instance csr_eq_dec : EqDecision csr.
Proof. solve_decision. Defined.

Record cpu : Type := mkCpu { regs : reg -> Z; ctl : csr -> Z; c_mem : mem }.

Definition set_reg (r : reg) (v : Z) (s : cpu) : cpu :=
  mkCpu (fun x => if decide (x = r) then u32 v else regs s x) (ctl s) (c_mem s).
Definition set_csr (c : csr) (v : Z) (s : cpu) : cpu :=
  mkCpu (regs s) (fun x => if decide (x = c) then u32 v else ctl s x) (c_mem s).
Definition set_cmem (m : mem) (s : cpu) : cpu := mkCpu (regs s) (ctl s) m.

(** Bits of [sstatus] ([include/kernel.h]). *)
Definition SSTATUS_SPIE : Z := Z.shiftl 1 5.
Definition SSTATUS_SPP : Z := Z.shiftl 1 8.
Definition SSTATUS_SUM : Z := Z.shiftl 1 18.

(** A trap saves the interrupt enable in [SPIE], the mode in [SPP] and clears
    [SIE]; [sret] undoes it (RISC-V privileged architecture, 4.1.1). *)
Definition trap_sstatus (from_kernel : bool) (st : Z) : Z :=
  let sie := Z.testbit st 1 in
  let st := Z.land st (Z.lnot (Z.lor (Z.lor SSTATUS_SIE SSTATUS_SPIE) SSTATUS_SPP)) in
  Z.lor (Z.lor st (if sie then SSTATUS_SPIE else 0)) (if from_kernel then SSTATUS_SPP else 0).
Definition sret_sstatus (st : Z) : Z :=
  let spie := Z.testbit st 5 in
  let st := Z.land st (Z.lnot (Z.lor SSTATUS_SIE SSTATUS_SPP)) in
  Z.lor (Z.lor st (if spie then SSTATUS_SIE else 0)) SSTATUS_SPIE.

(** The processor takes a trap at [pc]. *)
Definition take_trap (from_kernel : bool) (pc : Z) (s : cpu) : cpu :=
  set_csr Sepc pc (set_csr Sstatus (trap_sstatus from_kernel (ctl s Sstatus)) s).

(** The C functions the assembly calls or jumps to. *)
Inductive routine : Type := HandleTrap | KernelMain | Main | Exit.

Inductive instr : Type :=
  | MvValue (rd : reg) (v : Z)    (* [mv] of an operand of the [asm] statement *)
  | Addi (rd rs : reg) (imm : Z)
  | Andi (rd rs : reg) (imm : Z)
  | Sw (rs : reg) (off : Z) (base : reg)
  | Lw (rd : reg) (off : Z) (base : reg)
  | Csrr (rd : reg) (c : csr)
  | Csrw (c : csr) (rs : reg)
  | CsrwZero (c : csr)
  | CsrwValue (c : csr) (v : Z)   (* an operand the compiler puts in a register *)
  | Csrrw (rd : reg) (c : csr) (rs : reg)
  | Bnez (r : reg) (l : nat)
  | Beqz (r : reg) (l : nat)
  | Jump (l : nat)
  | Label (l : nat)
  | Call (f : routine)
  | Goto (f : routine)            (* [j] to a C function *)
  | Sret
  | Return.

(** How a routine leaves: to user or supervisor mode at [sepc], to [ra], or into
    a C function. *)
Inductive leave : Type := ToUser (pc : Z) | ToKernel (pc : Z) | ToCaller (pc : Z) | ToRoutine (f : routine).

Section Exec.
(** The C functions [Call] calls, as functions of the processor. *)
Context (callee : routine -> cpu -> outcome cpu).

Definition address (s : cpu) (base : reg) (off : Z) : Z := u32 (regs s base + off).

Definition sret (s : cpu) : leave * cpu :=
  let st := ctl s Sstatus in
  ((if Z.testbit st 8 then ToKernel else ToUser) (ctl s Sepc), set_csr Sstatus (sret_sstatus st) s).

Fixpoint exec (code : list instr) (skip : option nat) (s : cpu) {struct code} : outcome (leave * cpu) :=
  match code with
  | [] => Undef
  | i :: code' =>
      match skip with
      | Some n =>
          match i with
          | Label k => exec code' (if (k =? n)%nat then None else skip) s
          | _ => exec code' skip s
          end
      | None =>
          match i with
          | MvValue rd v => exec code' None (set_reg rd v s)
          | Addi rd rs imm => exec code' None (set_reg rd (regs s rs + imm) s)
          | Andi rd rs imm => exec code' None (set_reg rd (Z.land (regs s rs) imm) s)
          | Sw rs off base => exec code' None (set_cmem (store32 (c_mem s) (address s base off) (regs s rs)) s)
          | Lw rd off base => exec code' None (set_reg rd (load32 (c_mem s) (address s base off)) s)
          | Csrr rd c => exec code' None (set_reg rd (ctl s c) s)
          | Csrw c rs => exec code' None (set_csr c (regs s rs) s)
          | CsrwZero c => exec code' None (set_csr c 0 s)
          | CsrwValue c v => exec code' None (set_csr c v s)
          | Csrrw rd c rs => exec code' None (set_reg rd (ctl s c) (set_csr c (regs s rs) s))
          | Bnez r l => exec code' (if regs s r =? 0 then None else Some l) s
          | Beqz r l => exec code' (if regs s r =? 0 then Some l else None) s
          | Jump l => exec code' (Some l) s
          | Label _ => exec code' None s
          | Call f => s ← callee f s; exec code' None s
          | Goto f => Ret (ToRoutine f, s)
          | Sret => Ret (sret s)
          | Return => Ret (ToCaller (regs s RA), s)
          end
      end
  end.
End Exec.

(** ** The routines *)

(** [sw r, 4 * k(sp)] and [lw r, 4 * k(sp)] *)
Definition sw (r : reg) (k : Z) : instr := Sw r (4 * k) SP.
Definition lw (r : reg) (k : Z) : instr := Lw r (4 * k) SP.

Definition save_frame : list instr :=
  [ sw RA 0; sw GP 1; sw TP 2; sw T0 3; sw T1 4; sw T2 5; sw T3 6; sw T4 7; sw T5 8; sw T6 9;
    sw A0 10; sw A1 11; sw A2 12; sw A3 13; sw A4 14; sw A5 15; sw A6 16; sw A7 17;
    sw S0 18; sw S1 19; sw S2 20; sw S3 21; sw S4 22; sw S5 23; sw S6 24; sw S7 25; sw S8 26; sw S9 27;
    sw S10 28; sw S11 29 ].

Definition load_frame : list instr :=
  [ lw RA 0; lw GP 1; lw TP 2; lw T0 3; lw T1 4; lw T2 5; lw T3 6; lw T4 7; lw T5 8; lw T6 9;
    lw A0 10; lw A1 11; lw A2 12; lw A3 13; lw A4 14; lw A5 15; lw A6 16; lw A7 17;
    lw S0 18; lw S1 19; lw S2 20; lw S3 21; lw S4 22; lw S5 23; lw S6 24; lw S7 25; lw S8 26; lw S9 27;
    lw S10 28; lw S11 29 ].

(** [kernel_entry], before and after [call handle_trap]. *)
Definition trap_entry : list instr :=
  Csrrw SP Sscratch SP :: Bnez SP 1 :: Csrrw SP Sscratch SP :: Label 1 ::
  Addi SP SP (-128) ::
  save_frame ++
  Csrr T0 Sstatus :: Andi T0 T0 SSTATUS_SPP :: Bnez T0 2 ::
  Csrr A0 Sscratch :: sw A0 30 :: CsrwZero Sscratch :: Jump 3 ::
  Label 2 :: Addi A0 SP 128 :: sw A0 30 ::
  Label 3 :: Addi A0 SP 0 :: [].
Definition trap_exit : list instr :=
  Csrr T0 Sstatus :: Andi T0 T0 SSTATUS_SPP :: Beqz T0 4 ::
  load_frame ++
  Addi SP SP 128 :: Sret ::
  Label 4 :: Addi T0 SP 128 :: Csrw Sscratch T0 ::
  load_frame ++
  lw SP 30 :: Sret :: [].
Definition kernel_entry : list instr := trap_entry ++ Call HandleTrap :: trap_exit.

Definition switch_context : list instr :=
  [ Addi SP SP (-52);
    sw RA 0; sw S0 1; sw S1 2; sw S2 3; sw S3 4; sw S4 5; sw S5 6; sw S6 7; sw S7 8; sw S8 9; sw S9 10;
    sw S10 11; sw S11 12;
    Sw SP 0 A0; Lw SP 0 A1;
    lw RA 0; lw S0 1; lw S1 2; lw S2 3; lw S3 4; lw S4 5; lw S5 6; lw S6 7; lw S7 8; lw S8 9; lw S9 10;
    lw S10 11; lw S11 12;
    Addi SP SP 52; Return ].

Definition user_entry_code : list instr :=
  [ CsrwValue Sepc USER_BASE; CsrwValue Sstatus (Z.lor SSTATUS_SPIE SSTATUS_SUM); Sret ].

(** [boot] and [start]: the operand is [__stack_top] of [kernel/kernel.ld] and of
    [user/user.ld]. *)
Definition boot (stack_top : Z) : list instr := [ MvValue SP stack_top; Goto KernelMain ].
Definition start (stack_top : Z) : list instr := [ MvValue SP stack_top; Call Main; Call Exit ].

(** The registers of [struct trap_frame] before [sp], and those
    [switch_context] saves, in memory order. *)
Definition trap_frame : list reg :=
  [RA; GP; TP; T0; T1; T2; T3; T4; T5; T6; A0; A1; A2; A3; A4; A5; A6; A7;
   S0; S1; S2; S3; S4; S5; S6; S7; S8; S9; S10; S11].
Definition callee_saved : list reg := [RA; S0; S1; S2; S3; S4; S5; S6; S7; S8; S9; S10; S11].

(** ** Runs of stores and loads *)

Fixpoint saves (l : list reg) (k : Z) : list instr :=
  match l with [] => [] | r :: l' => sw r k :: saves l' (k + 1) end.
Fixpoint loads (l : list reg) (k : Z) : list instr :=
  match l with [] => [] | r :: l' => lw r k :: loads l' (k + 1) end.

Fixpoint save_words (m : mem) (a : Z) (ws : list Z) : mem :=
  match ws with [] => m | w :: ws' => save_words (store32 m a w) (a + 4) ws' end.

(** The registers of [l] hold the words from [a] on. *)
Fixpoint load_words (l : list reg) (a : Z) (s : cpu) : cpu :=
  match l with [] => s | r :: l' => load_words l' (a + 4) (set_reg r (load32 (c_mem s) a) s) end.

Lemma u32_load32 m a : u32 (load32 m a) = load32 m a.
Proof. apply u32_id. pose proof (load32_range m a). lia. Qed.

Lemma load32_save_words_out ws : forall m a b,
  b + 4 <= a \/ a + 4 * Z.of_nat (length ws) <= b -> load32 (save_words m a ws) b = load32 m b.
Proof.
  induction ws as [|w ws IH]; intros m a b H; cbn [save_words]; [done|]. cbn [length] in H.
  rewrite IH by lia. apply load32_store32_other. lia.
Qed.

Lemma load32_save_words_in ws : forall m a (k : nat) w,
  ws !! k = Some w -> load32 (save_words m a ws) (a + 4 * Z.of_nat k) = u32 w.
Proof.
  induction ws as [|w0 ws IH]; intros m a k w Hk; [done|]. cbn [save_words]. destruct k as [|k].
  - injection Hk as ->. rewrite Z.add_0_r, load32_save_words_out by lia. apply load32_store32_same.
  - cbn in Hk. replace (a + 4 * Z.of_nat (S k)) with (a + 4 + 4 * Z.of_nat k) by lia. by apply IH.
Qed.

Lemma regs_load_words_out l : forall a s r, r ∉ l -> regs (load_words l a s) r = regs s r.
Proof.
  induction l as [|r0 l IH]; intros a s r Hr; cbn [load_words]; [done|].
  apply not_elem_of_cons in Hr as [Hne Hr]. rewrite IH by done. cbn. by rewrite decide_False.
Qed.

Lemma load_words_rest l : forall a s,
  ctl (load_words l a s) = ctl s /\ c_mem (load_words l a s) = c_mem s.
Proof. induction l as [|r l IH]; intros a s; cbn [load_words]; [done|]. destruct (IH (a + 4) (set_reg r (load32 (c_mem s) a) s)) as [-> ->]. done. Qed.

Lemma regs_load_words_in l : forall a s (k : nat) r,
  NoDup l -> l !! k = Some r -> regs (load_words l a s) r = load32 (c_mem s) (a + 4 * Z.of_nat k).
Proof.
  induction l as [|r0 l IH]; intros a s k r Hnd Hk; [done|]. cbn [load_words].
  apply NoDup_cons in Hnd as [Hnot Hnd]. destruct k as [|k].
  - injection Hk as ->. rewrite regs_load_words_out by done. cbn. rewrite decide_True by done.
    rewrite Z.add_0_r. apply u32_id. pose proof (load32_range (c_mem s) a). lia.
  - cbn in Hk. rewrite (IH _ _ k) by done. cbn. f_equal. lia.
Qed.

(** Reading a processor after a write. *)
Lemma regs_set_reg r v s : regs (set_reg r v s) r = u32 v.
Proof. cbn. by rewrite decide_True. Qed.
Lemma regs_set_other r x v s : x <> r -> regs (set_reg r v s) x = regs s x.
Proof. intros H. cbn. by rewrite decide_False. Qed.
Lemma ctl_set_csr c v s : ctl (set_csr c v s) c = u32 v.
Proof. cbn. by rewrite decide_True. Qed.
Lemma ctl_set_other c x v s : x <> c -> ctl (set_csr c v s) x = ctl s x.
Proof. intros H. cbn. by rewrite decide_False. Qed.
Ltac cpu_read :=
  cbn [take_trap];
  repeat first
    [ rewrite regs_set_reg | rewrite ctl_set_csr
    | rewrite regs_set_other by (discriminate || assumption) | rewrite ctl_set_other by discriminate
    | match goal with
      | |- context [ctl (set_reg ?r ?v ?s) ?c] => change (ctl (set_reg r v s) c) with (ctl s c)
      | |- context [regs (set_csr ?c ?v ?s) ?r] => change (regs (set_csr c v s) r) with (regs s r)
      | |- context [c_mem (set_csr ?c ?v ?s)] => change (c_mem (set_csr c v s)) with (c_mem s)
      | |- context [c_mem (set_reg ?r ?v ?s)] => change (c_mem (set_reg r v s)) with (c_mem s)
      | |- context [ctl (set_cmem ?m ?s) ?c] => change (ctl (set_cmem m s) c) with (ctl s c)
      | |- context [regs (set_cmem ?m ?s) ?r] => change (regs (set_cmem m s) r) with (regs s r)
      | |- context [c_mem (set_cmem ?m ?s)] => change (c_mem (set_cmem m s)) with m
      end ].

Section Runs.
Context (callee : routine -> cpu -> outcome cpu).
Implicit Types (s : cpu) (code : list instr).

(** One instruction. *)
Lemma exec_addi rd rs imm code s :
  exec callee (Addi rd rs imm :: code) None s = exec callee code None (set_reg rd (regs s rs + imm) s).
Proof. reflexivity. Qed.
Lemma exec_andi rd rs imm code s :
  exec callee (Andi rd rs imm :: code) None s = exec callee code None (set_reg rd (Z.land (regs s rs) imm) s).
Proof. reflexivity. Qed.
Lemma exec_sw rs k code s :
  0 <= regs s SP + 4 * k < 2 ^ 32 ->
  exec callee (sw rs k :: code) None s =
  exec callee code None (set_cmem (store32 (c_mem s) (regs s SP + 4 * k) (regs s rs)) s).
Proof. intros H. cbn [exec sw]. unfold address. by rewrite u32_id by lia. Qed.
Lemma exec_lw rd k code s :
  0 <= regs s SP + 4 * k < 2 ^ 32 ->
  exec callee (lw rd k :: code) None s =
  exec callee code None (set_reg rd (load32 (c_mem s) (regs s SP + 4 * k)) s).
Proof. intros H. cbn [exec lw]. unfold address. by rewrite u32_id by lia. Qed.
Lemma exec_csrr rd c code s :
  exec callee (Csrr rd c :: code) None s = exec callee code None (set_reg rd (ctl s c) s).
Proof. reflexivity. Qed.
Lemma exec_csrw c rs code s :
  exec callee (Csrw c rs :: code) None s = exec callee code None (set_csr c (regs s rs) s).
Proof. reflexivity. Qed.
Lemma exec_csrw_zero c code s :
  exec callee (CsrwZero c :: code) None s = exec callee code None (set_csr c 0 s).
Proof. reflexivity. Qed.
Lemma exec_csrrw rd c rs code s :
  exec callee (Csrrw rd c rs :: code) None s =
  exec callee code None (set_reg rd (ctl s c) (set_csr c (regs s rs) s)).
Proof. reflexivity. Qed.
Lemma exec_label l code s : exec callee (Label l :: code) None s = exec callee code None s.
Proof. reflexivity. Qed.
Lemma exec_jump l code s : exec callee (Jump l :: code) None s = exec callee code (Some l) s.
Proof. reflexivity. Qed.
Lemma exec_bnez r l code s :
  exec callee (Bnez r l :: code) None s = exec callee code (if regs s r =? 0 then None else Some l) s.
Proof. reflexivity. Qed.
Lemma exec_beqz r l code s :
  exec callee (Beqz r l :: code) None s = exec callee code (if regs s r =? 0 then Some l else None) s.
Proof. reflexivity. Qed.
Lemma exec_call f code s : exec callee (Call f :: code) None s = (s ← callee f s; exec callee code None s).
Proof. reflexivity. Qed.
Lemma exec_sret code s : exec callee (Sret :: code) None s = Ret (sret s).
Proof. reflexivity. Qed.

(** A taken branch skips what is not its label. *)
Definition not_label (l : nat) (i : instr) : Prop := match i with Label k => k <> l | _ => True end.
Lemma exec_skip l pre code full s :
  full = pre ++ Label l :: code -> Forall (not_label l) pre ->
  exec callee full (Some l) s = exec callee code None s.
Proof.
  intros ->. induction 1 as [|i pre Hi _ IH]; cbn [app].
  { cbn [exec]. by rewrite Nat.eqb_refl. }
  destruct i; try exact IH. cbn [exec]. cbn in Hi. destruct (Nat.eqb_spec l0 l); [done|exact IH].
Qed.

Definition cpu_ok s : Prop := forall r, 0 <= regs s r < 2 ^ 32.

Lemma exec_saves l : forall code s k,
  0 <= regs s SP + 4 * k -> regs s SP + 4 * (k + Z.of_nat (length l)) <= 2 ^ 32 ->
  exec callee (saves l k ++ code) None s =
  exec callee code None (set_cmem (save_words (c_mem s) (regs s SP + 4 * k) (regs s <$> l)) s).
Proof.
  induction l as [|r l IH]; intros code s k H0 H1; cbn [saves app fmap list_fmap save_words].
  { by destruct s. }
  cbn [length] in H1. cbn [exec sw]. unfold address. rewrite u32_id by lia.
  rewrite IH by (cbn; lia). cbn [set_cmem regs c_mem].
  by replace (regs s SP + 4 * (k + 1)) with (regs s SP + 4 * k + 4) by lia.
Qed.

Lemma exec_loads l : forall code s k,
  SP ∉ l -> 0 <= regs s SP + 4 * k -> regs s SP + 4 * (k + Z.of_nat (length l)) <= 2 ^ 32 ->
  exec callee (loads l k ++ code) None s =
  exec callee code None (load_words l (regs s SP + 4 * k) s).
Proof.
  induction l as [|r l IH]; intros code s k Hsp H0 H1; cbn [loads app load_words]; [done|].
  cbn [length] in H1. apply not_elem_of_cons in Hsp as [Hne Hsp].
  cbn [exec lw]. unfold address. rewrite u32_id by lia.
  assert (E : regs (set_reg r (load32 (c_mem s) (regs s SP + 4 * k)) s) SP = regs s SP)
    by (cbn; by rewrite decide_False).
  rewrite IH by (rewrite ?E; first [exact Hsp|lia]). rewrite E.
  by replace (regs s SP + 4 * (k + 1)) with (regs s SP + 4 * k + 4) by lia.
Qed.
End Runs.

(** ** Bits of [sstatus] *)

Lemma land_bit_value x n :
  0 <= n -> Z.land x (Z.shiftl 1 n) = if Z.testbit x n then Z.shiftl 1 n else 0.
Proof.
  intros Hn. apply Z.bits_inj'. intros m Hm. rewrite Z.land_spec, Z.shiftl_spec by lia.
  destruct (Z.eq_dec m n) as [->|Hne].
  - rewrite Z.sub_diag. change (Z.testbit 1 0) with true. rewrite andb_true_r.
    destruct (Z.testbit x n); [|by rewrite Z.bits_0].
    by rewrite Z.shiftl_spec, Z.sub_diag by lia.
  - assert (E1 : Z.testbit 1 (m - n) = false).
    { destruct (Z.ltb_spec m n); [apply Z.testbit_neg_r; lia|]. change 1 with (2 ^ 0). apply Z.pow2_bits_false. lia. }
    rewrite E1, andb_false_r. destruct (Z.testbit x n); [|by rewrite Z.bits_0].
    rewrite Z.shiftl_spec by lia. by rewrite E1.
Qed.

Lemma u32_bit x n : 0 <= n < 32 -> Z.testbit (u32 x) n = Z.testbit x n.
Proof. intros Hn. unfold u32. change 4294967296 with (2 ^ 32). by rewrite Z.mod_pow2_bits_low by lia. Qed.

(** The bits a trap and [sret] move. *)
Lemma trap_sstatus_bits b st :
  Z.testbit (trap_sstatus b st) 8 = b /\ Z.testbit (trap_sstatus b st) 5 = Z.testbit st 1 /\
  Z.testbit (trap_sstatus b st) 1 = false.
Proof.
  unfold trap_sstatus. rewrite !Z.lor_spec, !Z.land_spec, !Z.lnot_spec by lia.
  destruct (Z.testbit st 1), b; cbn; by rewrite ?andb_false_r.
Qed.

Lemma sret_sstatus_bits st :
  Z.testbit (sret_sstatus st) 1 = Z.testbit st 5 /\ Z.testbit (sret_sstatus st) 8 = false.
Proof.
  unfold sret_sstatus. rewrite !Z.lor_spec, !Z.land_spec, !Z.lnot_spec by lia.
  destruct (Z.testbit st 5); cbn; by rewrite ?andb_false_r.
Qed.

(** ** Traps *)

Section Trap.
Context (callee : routine -> cpu -> outcome cpu).
Implicit Types (s : cpu) (b : bool).

(** The frame at [f] holds the registers of [s]; slot 30 is [sp]. *)
Definition frame_holds (m : mem) (f : Z) s : Prop :=
  (forall k r, trap_frame !! k = Some r -> load32 m (f + 4 * Z.of_nat k) = regs s r) /\
  load32 m (f + 120) = regs s SP.

(** What a C function called with the frame at [f] keeps: the stack pointer,
    [sscratch] and [sstatus], and every word of the frame but the return
    value in slot 10. *)
Definition callee_keeps (f : Z) s1 s2 : Prop :=
  regs s2 SP = regs s1 SP /\ ctl s2 Sscratch = ctl s1 Sscratch /\ ctl s2 Sstatus = ctl s1 Sstatus /\
  forall k, (k < 31)%nat -> k <> 10%nat ->
    load32 (c_mem s2) (f + 4 * Z.of_nat k) = load32 (c_mem s1) (f + 4 * Z.of_nat k).

(** When [handle_trap] is called. *)
Definition trap_state (b : bool) (pc f : Z) s s1 : Prop :=
  regs s1 SP = f /\ regs s1 A0 = f /\ ctl s1 Sscratch = 0 /\
  ctl s1 Sstatus = u32 (trap_sstatus b (ctl s Sstatus)) /\ ctl s1 Sepc = u32 pc /\ frame_holds (c_mem s1) f s.

Lemma trap_frame_index k r : trap_frame !! k = Some r -> (k < 30)%nat /\ (k = 10%nat <-> r = A0).
Proof.
  intros H. pose proof (lookup_lt_Some _ _ _ H) as Hl. split; [exact Hl|].
  do 30 (destruct k as [|k]; [injection H as <-; split; congruence|]). cbn in Hl. lia.
Qed.

Lemma trap_frame_NoDup : NoDup trap_frame.
Proof. apply (bool_decide_eq_true_1 (NoDup trap_frame)). vm_compute. reflexivity. Qed.

Lemma sp_not_in_frame : SP ∉ trap_frame.
Proof. apply (bool_decide_eq_true_1 (SP ∉ trap_frame)). vm_compute. reflexivity. Qed.

Lemma trap_frame_total r : r <> SP -> exists k, trap_frame !! k = Some r.
Proof. intros Hr. apply list_elem_of_lookup. unfold trap_frame. destruct r; first [done|set_solver]. Qed.

(** The test of [SPP] in [t0]. *)
Lemma spp_test b st : (u32 (Z.land (u32 (trap_sstatus b st)) SSTATUS_SPP) =? 0) = negb b.
Proof.
  unfold SSTATUS_SPP. rewrite land_bit_value, u32_bit by lia. destruct (trap_sstatus_bits b st) as [-> _].
  by destruct b.
Qed.

Lemma u32_eqb_0 x : 0 <= x < 2 ^ 32 -> (u32 x =? 0) = (x =? 0).
Proof. intros H. by rewrite u32_id by lia. Qed.

(** The first five instructions: onto the kernel stack. *)
Lemma entry_stack b pc s ksp code :
  cpu_ok s -> 128 <= ksp < 2 ^ 32 ->
  (if b then regs s SP = ksp /\ ctl s Sscratch = 0 else ctl s Sscratch = ksp) ->
  exists s1, exec callee (Csrrw SP Sscratch SP :: Bnez SP 1 :: Csrrw SP Sscratch SP :: Label 1 ::
      Addi SP SP (-128) :: code) None (take_trap b pc s) = exec callee code None s1 /\
    regs s1 SP = ksp - 128 /\ (forall r, r <> SP -> regs s1 r = regs s r) /\
    ctl s1 Sscratch = (if b then 0 else regs s SP) /\
    ctl s1 Sstatus = u32 (trap_sstatus b (ctl s Sstatus)) /\ ctl s1 Sepc = u32 pc /\ c_mem s1 = c_mem s.
Proof.
  intros Hs Hk Hb. pose proof (Hs SP) as Hsp. rewrite exec_csrrw, exec_bnez. unfold take_trap. cpu_read.
  destruct b.
  - destruct Hb as [Esp ->]. change (u32 0 =? 0) with true. cbv iota. rewrite exec_csrrw, exec_label, exec_addi. cpu_read.
    eexists. split; [reflexivity|]. cpu_read. rewrite Esp, !(u32_id ksp) by lia.
    split; [apply u32_id; lia|]. split; [intros r Hr; by cpu_read|]. done.
  - rewrite Hb, u32_eqb_0 by lia. rewrite (proj2 (Z.eqb_neq ksp 0)) by lia. cbv iota.
    erewrite (exec_skip callee 1%nat [_]); [|reflexivity|by repeat constructor]. rewrite exec_addi. cpu_read.
    eexists. split; [reflexivity|]. cpu_read. rewrite !u32_id by (rewrite ?u32_id; lia).
    split; [lia|]. split; [intros r Hr; by cpu_read|]. done.
Qed.

(** The rest of the prologue, once the general registers are saved: slot 30
    and the argument of [handle_trap]. *)
Lemma entry_sp b s s1 f code :
  0 <= f -> f + 128 < 2 ^ 32 -> 0 <= regs s SP < 2 ^ 32 -> (b = true -> regs s SP = f + 128) ->
  regs s1 SP = f -> ctl s1 Sscratch = (if b then 0 else regs s SP) ->
  ctl s1 Sstatus = u32 (trap_sstatus b (ctl s Sstatus)) ->
  exists s2, exec callee (Csrr T0 Sstatus :: Andi T0 T0 SSTATUS_SPP :: Bnez T0 2 ::
      Csrr A0 Sscratch :: sw A0 30 :: CsrwZero Sscratch :: Jump 3 ::
      Label 2 :: Addi A0 SP 128 :: sw A0 30 ::
      Label 3 :: Addi A0 SP 0 :: code) None s1 = exec callee code None s2 /\
    regs s2 SP = f /\ regs s2 A0 = f /\ ctl s2 Sscratch = 0 /\
    ctl s2 Sstatus = ctl s1 Sstatus /\ ctl s2 Sepc = ctl s1 Sepc /\
    c_mem s2 = store32 (c_mem s1) (f + 120) (regs s SP).
Proof.
  intros Hf Hf' Hsp Hb Esp Esc Est. rewrite exec_csrr, exec_andi, exec_bnez. cpu_read.
  rewrite Est, u32_u32.
  rewrite spp_test. destruct b; cbn [negb].
  - erewrite (exec_skip callee 2%nat [Csrr A0 Sscratch; sw A0 30; CsrwZero Sscratch; Jump 3]);
      [|reflexivity|by repeat constructor].
    rewrite exec_addi. rewrite exec_sw by (cpu_read; lia). rewrite exec_label, exec_addi. cpu_read.
    eexists. split; [reflexivity|]. cpu_read. rewrite Esp, Esc, Hb, Z.add_0_r, (u32_id f), (u32_id (f + 128)) by lia.
    by split_and!.
  - rewrite exec_csrr. rewrite exec_sw by (cpu_read; lia). rewrite exec_csrw_zero, exec_jump.
    erewrite (exec_skip callee 3%nat [Label 2; Addi A0 SP 128; sw A0 30]); [|reflexivity|by repeat constructor].
    rewrite exec_addi. cpu_read. eexists. split; [reflexivity|]. cpu_read.
    rewrite Esp, Esc, Z.add_0_r, (u32_id f), (u32_id (regs s SP)) by lia. by split_and!.
Qed.

Lemma frame_holds_saved m f s :
  cpu_ok s -> frame_holds (store32 (save_words m f (regs s <$> trap_frame)) (f + 120) (regs s SP)) f s.
Proof.
  intros Hs. split.
  - intros k r Hk. destruct (trap_frame_index _ _ Hk) as [Hlt _]. rewrite load32_store32_other by lia.
    rewrite (load32_save_words_in _ _ _ _ (regs s r)) by (by rewrite list_lookup_fmap, Hk).
    apply u32_id. pose proof (Hs r). lia.
  - rewrite load32_store32_same. apply u32_id. pose proof (Hs SP). lia.
Qed.

Lemma trap_entry_spec b pc s ksp code :
  cpu_ok s -> 128 <= ksp < 2 ^ 32 ->
  (if b then regs s SP = ksp /\ ctl s Sscratch = 0 else ctl s Sscratch = ksp) ->
  exists s1, exec callee (trap_entry ++ code) None (take_trap b pc s) = exec callee code None s1 /\
    trap_state b pc (ksp - 128) s s1.
Proof.
  intros Hs Hk Hb. unfold trap_entry. cbn [app]. rewrite <-(assoc_L (++)).
  destruct (entry_stack b pc s ksp (save_frame ++ [Csrr T0 Sstatus; Andi T0 T0 SSTATUS_SPP; Bnez T0 2;
    Csrr A0 Sscratch; sw A0 30; CsrwZero Sscratch; Jump 3; Label 2; Addi A0 SP 128; sw A0 30;
    Label 3; Addi A0 SP 0] ++ code) Hs Hk Hb) as (s1 & -> & Esp & Er & Esc & Est & Epc & Em).
  change save_frame with (saves trap_frame 0).
  rewrite exec_saves by (rewrite Esp; cbn; lia). rewrite Esp, Z.add_0_r, Em. cbn [app].
  pose proof (Hs SP) as Hsp.
  destruct (entry_sp b s (set_cmem (save_words (c_mem s) (ksp - 128) (regs s1 <$> trap_frame)) s1) (ksp - 128) code)
    as (s2 & -> & E1 & E2 & E3 & E4 & E5 & E6); cpu_read; try (exact Esp || exact Esc || exact Est); [lia|lia|lia| |].
  { intros ->. destruct Hb as [-> _]. lia. }
  exists s2. split; [reflexivity|]. split; [exact E1|]. split; [exact E2|]. split; [exact E3|].
  split; [by rewrite E4|]. split; [by rewrite E5|]. rewrite E6. cpu_read.
  replace (regs s1 <$> trap_frame) with (regs s <$> trap_frame); [by apply frame_holds_saved|].
  apply list_fmap_ext. intros i r Hr. symmetry. apply Er. intros ->.
  by apply sp_not_in_frame, (list_elem_of_lookup_2 _ i).
Qed.

(** The loads of [load_frame]. *)
Lemma exec_load_frame f code s :
  regs s SP = f -> 0 <= f -> f + 128 < 2 ^ 32 ->
  exists s', exec callee (load_frame ++ code) None s = exec callee code None s' /\
    regs s' SP = f /\ ctl s' = ctl s /\ c_mem s' = c_mem s /\
    forall k r, trap_frame !! k = Some r -> regs s' r = load32 (c_mem s) (f + 4 * Z.of_nat k).
Proof.
  intros Esp Hf Hf'. change load_frame with (loads trap_frame 0).
  rewrite exec_loads by (rewrite ?Esp; first [apply sp_not_in_frame | cbn; lia]).
  rewrite Esp, Z.add_0_r. destruct (load_words_rest trap_frame f s) as [Ec Em].
  eexists. split; [reflexivity|]. rewrite Ec, Em. split; [|split; [done|split; [done|]]].
  - rewrite regs_load_words_out by apply sp_not_in_frame. exact Esp.
  - intros k r Hk. by apply regs_load_words_in; [apply trap_frame_NoDup|].
Qed.

Lemma trap_exit_spec b st s f :
  regs s SP = f -> 0 <= f -> f + 128 < 2 ^ 32 -> ctl s Sscratch = 0 ->
  ctl s Sstatus = u32 (trap_sstatus b st) ->
  exists s', exec callee trap_exit None s = Ret ((if b then ToKernel else ToUser) (ctl s Sepc), s') /\
    (forall k r, trap_frame !! k = Some r -> regs s' r = load32 (c_mem s) (f + 4 * Z.of_nat k)) /\
    regs s' SP = (if b then f + 128 else load32 (c_mem s) (f + 120)) /\
    ctl s' Sscratch = (if b then 0 else f + 128) /\
    ctl s' Sstatus = u32 (sret_sstatus (u32 (trap_sstatus b st))) /\ c_mem s' = c_mem s.
Proof.
  intros Esp Hf Hf' Esc Est. unfold trap_exit. cbn [app].
  rewrite exec_csrr, exec_andi, exec_beqz. cpu_read. rewrite Est, u32_u32, spp_test.
  assert (E8 : Z.testbit (u32 (trap_sstatus b st)) 8 = b).
  { rewrite u32_bit by lia. apply trap_sstatus_bits. }
  set (t := set_reg T0 _ (set_reg T0 _ s)).
  assert (Et : regs t SP = f /\ ctl t = ctl s /\ c_mem t = c_mem s) by (unfold t; cpu_read; done).
  clearbody t. destruct Et as (Esp' & Ect & Emt). destruct b; cbn [negb].
  - destruct (exec_load_frame f (Addi SP SP 128 :: Sret :: Label 4 :: Addi T0 SP 128 :: Csrw Sscratch T0 ::
      load_frame ++ [lw SP 30; Sret]) t Esp' Hf Hf') as (s' & -> & E1 & E2 & E3 & E4).
    rewrite exec_addi, exec_sret. unfold sret. cpu_read. rewrite E1, E2, Ect, Est, E8.
    eexists. split; [reflexivity|]. cpu_read. rewrite E2, E3, Ect, Emt, Esc, (u32_id (f + 128)) by lia.
    split; [|done]. intros k r Hk. cpu_read.
    assert (Hne : r <> SP) by (intros ->; by apply sp_not_in_frame, (list_elem_of_lookup_2 _ k)).
    cpu_read. rewrite (E4 k r Hk). by rewrite Emt.
  - erewrite (exec_skip callee 4%nat (load_frame ++ [Addi SP SP 128; Sret]));
      [|by rewrite <-(assoc_L (++))|repeat constructor].
    rewrite exec_addi, exec_csrw. cpu_read. rewrite Esp'.
    set (t' := set_csr Sscratch _ _).
    assert (Et : regs t' SP = f /\ ctl t' Sepc = ctl s Sepc /\ ctl t' Sstatus = ctl s Sstatus /\
      ctl t' Sscratch = f + 128 /\ c_mem t' = c_mem s).
    { unfold t'. cpu_read. rewrite Ect, u32_u32, (u32_id (f + 128)) by lia. done. }
    clearbody t'. destruct Et as (Esp'' & Ep & Es & Ex & Em).
    destruct (exec_load_frame f [lw SP 30; Sret] t' Esp'' Hf Hf') as (s' & -> & E1 & E2 & E3 & E4).
    rewrite exec_lw by lia. rewrite exec_sret. unfold sret. cpu_read. rewrite E1, E2, E3, Ep, Es, Est, E8.
    eexists. split; [reflexivity|]. cpu_read. rewrite E2, E3, Ex, Em.
    split; [|split; [apply u32_load32|done]].
    intros k r Hk.
    assert (Hne : r <> SP) by (intros ->; by apply sp_not_in_frame, (list_elem_of_lookup_2 _ k)).
    cpu_read. rewrite (E4 k r Hk). by rewrite Em.
Qed.
End Trap.

(** A trap and its return, for any [handle_trap] that keeps its frame. *)
Lemma trap_returns (callee : routine -> cpu -> outcome cpu) (b : bool) (pc ksp : Z) (s : cpu) :
  cpu_ok s -> 128 <= ksp < 2 ^ 32 ->
  (if b then regs s SP = ksp /\ ctl s Sscratch = 0 else ctl s Sscratch = ksp) ->
  (forall s1, trap_state b pc (ksp - 128) s s1 ->
     exists s2, callee HandleTrap s1 = Ret s2 /\ callee_keeps (ksp - 128) s1 s2) ->
  exists s1 s2 s', trap_state b pc (ksp - 128) s s1 /\ callee HandleTrap s1 = Ret s2 /\
    exec callee kernel_entry None (take_trap b pc s) =
      Ret ((if b then ToKernel else ToUser) (ctl s2 Sepc), s') /\
    (forall r, r <> A0 -> regs s' r = regs s r) /\
    regs s' A0 = load32 (c_mem s2) (ksp - 128 + 4 * 10) /\
    ctl s' Sscratch = ctl s Sscratch /\
    Z.testbit (ctl s' Sstatus) 1 = Z.testbit (ctl s Sstatus) 1 /\ c_mem s' = c_mem s2.
Proof.
  intros Hs Hk Hb Hcall. unfold kernel_entry.
  destruct (trap_entry_spec callee b pc s ksp (Call HandleTrap :: trap_exit) Hs Hk Hb) as (s1 & -> & H1).
  destruct (Hcall s1 H1) as (s2 & E2 & Ksp & Kx & Ks & Kf).
  destruct H1 as (Esp & Ea & Ex & Est & Epc & Hf & Hf30). rewrite exec_call, E2, bind_Ret_l.
  destruct (trap_exit_spec callee b (ctl s Sstatus) s2 (ksp - 128)) as (s' & E & Er & Esp' & Ex' & Est' & Em);
    [congruence|lia|lia|congruence|congruence|].
  exists s1, s2, s'. split; [by split_and!|]. split; [exact E2|]. split; [exact E|].
  split; [|split; [|split; [|split; [|exact Em]]]].
  - intros r Hr. destruct (decide (r = SP)) as [->|Hsp].
    + rewrite Esp'. destruct b; [destruct Hb; lia|].
      change 120 with (4 * Z.of_nat 30). rewrite Kf by lia. exact Hf30.
    + destruct (trap_frame_total r Hsp) as [k Hlk]. rewrite (Er k r Hlk).
      destruct (trap_frame_index _ _ Hlk) as [Hlt H10]. rewrite Kf by (lia || by rewrite H10).
      by apply Hf.
  - exact (Er 10%nat A0 eq_refl).
  - rewrite Ex'. destruct b; [by destruct Hb as [_ ->]|lia].
  - rewrite Est', u32_bit by lia. destruct (sret_sstatus_bits (u32 (trap_sstatus b (ctl s Sstatus)))) as [-> _].
    rewrite u32_bit by lia. by destruct (trap_sstatus_bits b (ctl s Sstatus)) as (_ & -> & _).
Qed.

(** C11: a trap is transparent to the code it interrupts.  From user mode
    ([b] false, [sscratch] the top of the kernel stack) and from the kernel
    ([b] true, [sscratch] zero), [kernel_entry] calls [handle_trap] on the kernel
    stack with the frame of all 31 registers; when the callee keeps what the
    calling convention and the frame oblige it to, execution goes back to
    [sepc] in the interrupted mode with every register as before, except that
    [a0] is what the handler left in the frame, with [sscratch] as before the
    trap and the interrupt enable bit restored. *)
Theorem trap_restores (callee : routine -> cpu -> outcome cpu) (b : bool) (pc ksp : Z) (s : cpu) :
  cpu_ok s -> 128 <= ksp < 2 ^ 32 ->
  (if b then regs s SP = ksp /\ ctl s Sscratch = 0 else ctl s Sscratch = ksp) ->
  (forall s1, trap_state b pc (ksp - 128) s s1 ->
     exists s2, callee HandleTrap s1 = Ret s2 /\ callee_keeps (ksp - 128) s1 s2) ->
  exists s1 s2 s', trap_state b pc (ksp - 128) s s1 /\ callee HandleTrap s1 = Ret s2 /\
    exec callee kernel_entry None (take_trap b pc s) =
      Ret ((if b then ToKernel else ToUser) (ctl s2 Sepc), s') /\
    (forall r, r <> A0 -> regs s' r = regs s r) /\
    regs s' A0 = load32 (c_mem s2) (ksp - 128 + 4 * 10) /\
    ctl s' Sscratch = ctl s Sscratch /\
    Z.testbit (ctl s' Sstatus) 1 = Z.testbit (ctl s Sstatus) 1 /\ c_mem s' = c_mem s2.
Proof. apply trap_returns. Qed.

(** ** Context switches *)

Section Switch.
Context (callee : routine -> cpu -> outcome cpu).
Implicit Types (s : cpu).

(** The context of [s] is saved below its stack pointer, and the stack pointer
    field at [p] leads to it. *)
Definition suspended (m : mem) (p : Z) s : Prop :=
  load32 m p = regs s SP - 52 /\
  forall k r, callee_saved !! k = Some r -> load32 m (regs s SP - 52 + 4 * Z.of_nat k) = regs s r.

Lemma sp_not_callee_saved : SP ∉ callee_saved.
Proof. apply (bool_decide_eq_true_1 (SP ∉ callee_saved)). vm_compute. reflexivity. Qed.

Lemma callee_saved_NoDup : NoDup callee_saved.
Proof. apply (bool_decide_eq_true_1 (NoDup callee_saved)). vm_compute. reflexivity. Qed.

Lemma exec_sw_abs rs base code s :
  0 <= regs s base < 2 ^ 32 ->
  exec callee (Sw rs 0 base :: code) None s =
  exec callee code None (set_cmem (store32 (c_mem s) (regs s base) (regs s rs)) s).
Proof. intros H. cbn [exec]. unfold address. by rewrite Z.add_0_r, u32_id by lia. Qed.

Lemma exec_lw_abs rd base code s :
  0 <= regs s base < 2 ^ 32 ->
  exec callee (Lw rd 0 base :: code) None s =
  exec callee code None (set_reg rd (load32 (c_mem s) (regs s base)) s).
Proof. intros H. cbn [exec]. unfold address. by rewrite Z.add_0_r, u32_id by lia. Qed.

(** What [switch_context] stores. *)
Definition switch_mem s : mem :=
  store32 (save_words (c_mem s) (regs s SP - 52) (regs s <$> callee_saved)) (regs s A0) (regs s SP - 52).

Lemma switch_out s code :
  cpu_ok s -> 52 <= regs s SP ->
  exists s2, exec callee (Addi SP SP (-52) :: saves callee_saved 0 ++ Sw SP 0 A0 :: Lw SP 0 A1 :: code) None s =
      exec callee code None s2 /\
    regs s2 SP = load32 (switch_mem s) (regs s A1) /\ c_mem s2 = switch_mem s /\ ctl s2 = ctl s.
Proof.
  intros Hs Hsp. pose proof (Hs SP). pose proof (Hs A0). pose proof (Hs A1).
  rewrite exec_addi.
  assert (Hx : exists s1, s1 = set_reg SP (regs s SP + -52) s) by by eexists.
  destruct Hx as [s1 E1]. rewrite <-E1.
  assert (Esp : regs s1 SP = regs s SP - 52) by (rewrite E1; cpu_read; rewrite u32_id by lia; lia).
  assert (Eo : forall r, r <> SP -> regs s1 r = regs s r) by (intros r Hr; rewrite E1; by cpu_read).
  assert (Em : c_mem s1 = c_mem s) by (by rewrite E1).
  assert (Ec : ctl s1 = ctl s) by (by rewrite E1).
  clear E1. rewrite exec_saves by (rewrite Esp; cbn; lia). rewrite Esp, Z.add_0_r.
  assert (Er : regs s1 <$> callee_saved = regs s <$> callee_saved).
  { apply list_fmap_ext. intros i r Hr. apply Eo. intros ->.
    by apply sp_not_callee_saved, (list_elem_of_lookup_2 _ i). }
  rewrite Er, Em. rewrite exec_sw_abs by (cpu_read; rewrite Eo by done; lia).
  rewrite exec_lw_abs by (cpu_read; rewrite Eo by done; lia).
  cpu_read. rewrite Esp, !Eo by done. fold (switch_mem s). eexists. split; [reflexivity|]. cpu_read.
  split; [apply u32_load32|]. split; [done|exact Ec].
Qed.

Lemma switch_in s base :
  regs s SP = base -> 0 <= base -> base + 52 < 2 ^ 32 ->
  exists s', exec callee (loads callee_saved 0 ++ [Addi SP SP 52; Return]) None s = Ret (ToCaller (regs s' RA), s') /\
    c_mem s' = c_mem s /\ ctl s' = ctl s /\ regs s' SP = base + 52 /\
    forall k r, callee_saved !! k = Some r -> regs s' r = load32 (c_mem s) (base + 4 * Z.of_nat k).
Proof.
  intros Esp H0 H1.
  rewrite exec_loads by (rewrite ?Esp; first [apply sp_not_callee_saved | cbn; lia]).
  rewrite Esp, Z.add_0_r, exec_addi.
  destruct (load_words_rest callee_saved base s) as [Ec Em].
  pose proof (regs_load_words_out callee_saved base s SP sp_not_callee_saved) as E4. rewrite Esp in E4.
  pose proof (regs_load_words_in callee_saved base s) as E5.
  generalize dependent (load_words callee_saved base s). intros s4 Ec Em E4 E5.
  eexists. split; [reflexivity|]. cpu_read. split; [exact Em|]. split; [exact Ec|]. rewrite E4.
  split; [apply u32_id; lia|]. intros k r Hk.
  rewrite regs_set_other by (intros ->; by apply sp_not_callee_saved, (list_elem_of_lookup_2 _ k)).
  by apply E5; [apply callee_saved_NoDup|].
Qed.

Lemma switch_context_spec s :
  cpu_ok s -> 52 <= regs s SP -> load32 (switch_mem s) (regs s A1) + 52 < 2 ^ 32 ->
  let base := load32 (switch_mem s) (regs s A1) in
  exists s', exec callee switch_context None s = Ret (ToCaller (regs s' RA), s') /\ c_mem s' = switch_mem s /\
    ctl s' = ctl s /\ regs s' SP = base + 52 /\
    forall k r, callee_saved !! k = Some r -> regs s' r = load32 (switch_mem s) (base + 4 * Z.of_nat k).
Proof.
  intros Hs Hsp Hbase base.
  destruct (switch_out s (loads callee_saved 0 ++ [Addi SP SP 52; Return]) Hs Hsp) as (s2 & E & Esp & Em & Ec).
  pose proof (load32_range (switch_mem s) (regs s A1)) as Hr.
  destruct (switch_in s2 base Esp ltac:(apply Hr) Hbase) as (s' & E' & Em' & Ec' & Esp' & Er').
  exists s'. rewrite <-Em, <-Ec. split; [|by split_and!].
  change switch_context with (Addi SP SP (-52) :: saves callee_saved 0 ++ Sw SP 0 A0 :: Lw SP 0 A1 ::
    loads callee_saved 0 ++ [Addi SP SP 52; Return]).
  by rewrite E.
Qed.

(** The words at [a] and the [n] words from [b] do not overlap. *)
Definition words_apart (a b n : Z) : Prop := a + 4 <= b \/ b + 4 * n <= a.

Lemma callee_saved_index k r : callee_saved !! k = Some r -> (k < 13)%nat.
Proof. intros H. apply (lookup_lt_Some _ _ _ H). Qed.

Lemma switch_mem_outside s a :
  words_apart a (regs s SP - 52) 13 -> words_apart a (regs s A0) 1 ->
  load32 (switch_mem s) a = load32 (c_mem s) a.
Proof.
  intros H1 H2. unfold words_apart, switch_mem in *. rewrite load32_store32_other by lia.
  apply load32_save_words_out. cbn. lia.
Qed.
End Switch.

(** [switch_context] can switch from [s] to a context with stack pointer [top]:
    there is room on both stacks, and the stacks and the two fields [*a0] and
    [*a1] do not overlap. *)
Record switch_ok (s : cpu) (top : Z) : Prop := {
  sw_cpu : cpu_ok s;
  sw_room : 52 <= regs s SP /\ 52 <= top < 2 ^ 32;
  sw_out : words_apart (regs s A0) (regs s SP - 52) 13 /\ words_apart (regs s A0) (top - 52) 13;
  sw_in : words_apart (regs s A1) (regs s SP - 52) 13 /\ words_apart (regs s A1) (regs s A0) 1;
  sw_stacks : regs s SP <= top - 52 \/ top <= regs s SP - 52;
}.

(** The context behind [*a1] is resumed. *)
Lemma switch_resumes callee s t :
  switch_ok s (regs t SP) -> suspended (c_mem s) (regs s A1) t ->
  exists s', exec callee switch_context None s = Ret (ToCaller (regs t RA), s') /\ c_mem s' = switch_mem s /\
    ctl s' = ctl s /\ (forall r, r = SP \/ r ∈ callee_saved -> regs s' r = regs t r).
Proof.
  intros [Hs [Hsp Htsp] [Ha0 Ha0t] [Hp1 Hp2] Hstacks] [Hp Ht].
  assert (Ebase : load32 (switch_mem s) (regs s A1) = regs t SP - 52) by (by rewrite switch_mem_outside).
  destruct (switch_context_spec callee s Hs Hsp) as (s' & E & Em & Ec & Esp & Er); [rewrite Ebase; lia|].
  rewrite Ebase in Esp, Er.
  assert (Ert : forall r, r ∈ callee_saved -> regs s' r = regs t r).
  { intros r Hr. apply list_elem_of_lookup in Hr as [k Hk]. pose proof (callee_saved_index _ _ Hk) as Hlt.
    rewrite (Er k r Hk). unfold words_apart in *. rewrite switch_mem_outside by (unfold words_apart; lia). by apply Ht. }
  exists s'. split; [|split; [exact Em|split; [exact Ec|]]].
  - rewrite E. do 3 f_equal. apply Ert. unfold callee_saved. left.
  - intros r [->|Hr]; [rewrite Esp; lia|by apply Ert].
Qed.

(** The caller's context is behind [*a0]. *)
Lemma switch_suspends s top : switch_ok s top -> suspended (switch_mem s) (regs s A0) s.
Proof.
  intros [Hs [Hsp Htsp] [Ha0 _] _ _]. split.
  - unfold switch_mem. rewrite load32_store32_same. apply u32_id. pose proof (Hs SP). lia.
  - intros k r Hk. pose proof (callee_saved_index _ _ Hk) as Hlt. unfold switch_mem, words_apart in *.
    rewrite load32_store32_other by lia.
    rewrite (load32_save_words_in _ _ _ _ (regs s r)) by (by rewrite list_lookup_fmap, Hk).
    apply u32_id. pose proof (Hs r). lia.
Qed.

(** C15: [switch_context] suspends its caller and resumes the other process.
    The caller's callee-saved registers and stack pointer are saved, with [*a0]
    leading to them.  When the context of a processor state [t] is suspended
    behind [*a1], and the two stacks and the two fields do not overlap, the call
    returns to [t]'s return address with all of [t]'s callee-saved registers,
    its stack pointer, and the control registers as they were. *)
Theorem switch_context_resumes (callee : routine -> cpu -> outcome cpu) (s t : cpu) :
  switch_ok s (regs t SP) -> suspended (c_mem s) (regs s A1) t ->
  exists s', exec callee switch_context None s = Ret (ToCaller (regs t RA), s') /\
    suspended (c_mem s') (regs s A0) s /\ ctl s' = ctl s /\
    (forall r, r = SP \/ r ∈ callee_saved -> regs s' r = regs t r).
Proof.
  intros Hok Ht. destruct (switch_resumes callee s t Hok Ht) as (s' & E & Em & Ec & Er).
  exists s'. split; [exact E|]. split; [rewrite Em; by eapply switch_suspends|]. by split.
Qed.

(** ** New processes *)

(** The words of an array in memory. *)
Definition words_at (m : mem) (a : Z) (ws : list Z) : Prop :=
  forall (k : nat) w, ws !! k = Some w -> load32 m (a + 4 * Z.of_nat k) = w.

(** The frame [create_process] leaves for the first switch. *)
Definition first_frame (entry : Z) : list Z := entry :: replicate 12 0.

(** Such a frame below the stack pointer, behind the field [p], is a suspended
    context: it returns to [entry] with an empty kernel stack. *)
Lemma fresh_suspended m p entry t :
  words_at m (regs t SP - 52) (first_frame entry) -> load32 m p = regs t SP - 52 ->
  regs t RA = entry -> (forall r, r ∈ callee_saved -> r <> RA -> regs t r = 0) -> suspended m p t.
Proof.
  intros Hw Hp Hra H0. split; [exact Hp|]. intros k r Hk. pose proof (callee_saved_index _ _ Hk) as Hlt.
  destruct k as [|k].
  - rewrite (Hw 0%nat entry) by reflexivity. injection Hk as <-. by symmetry.
  - rewrite (Hw (S k) 0) by (change (replicate 12 0 !! k = Some 0); apply lookup_replicate; split; [done|lia]).
    symmetry. apply H0; [by apply (list_elem_of_lookup_2 _ (S k))|].
    intros ->. pose proof (NoDup_lookup _ _ _ _ callee_saved_NoDup Hk (eq_refl : (callee_saved !! 0%nat = Some RA))). done.
Qed.

(** [user_entry] enters user mode at [USER_BASE] with interrupts enabled. *)
Lemma user_entry_enters callee s :
  exists s', exec callee user_entry_code None s = Ret (ToUser USER_BASE, s') /\
    Z.testbit (ctl s' Sstatus) 1 = true /\ Z.testbit (ctl s' Sstatus) 18 = true /\ regs s' = regs s /\
    c_mem s' = c_mem s /\ ctl s' Sscratch = ctl s Sscratch.
Proof. eexists. split; [reflexivity|]. by vm_compute. Qed.

(** [start] calls [main] on the program's stack, and [exit] when it returns. *)
Lemma start_calls_main callee top s :
  exec callee (start top) None s =
  (s1 ← callee Main (set_reg SP top s); s2 ← callee Exit s1; Undef).
Proof. reflexivity. Qed.

(** [boot] enters [kernel_main] on the kernel's stack. *)
Lemma boot_enters_main callee top s :
  exec callee (boot top) None s = Ret (ToRoutine KernelMain, set_reg SP top s).
Proof. reflexivity. Qed.

(** ** Examples *)

(** A handler that returns 7 in [a0] and skips the [ecall]. *)
Definition demo_handler (f : routine) (s : cpu) : outcome cpu :=
  Ret (set_csr Sepc (ctl s Sepc + 4) (set_cmem (store32 (c_mem s) (regs s A0 + 40) 7) s)).

Definition demo_cpu (sp scratch a0 a1 : Z) (m : mem) : cpu :=
  mkCpu (fun r => match r with SP => sp | A0 => a0 | A1 => a1 | S0 => 5 | _ => 3 end)
    (fun c => match c with Sscratch => scratch | _ => 2 end) m.

Lemma demo_cpu_ok sp scratch a0 a1 m :
  0 <= sp < 2 ^ 32 -> 0 <= a0 < 2 ^ 32 -> 0 <= a1 < 2 ^ 32 -> cpu_ok (demo_cpu sp scratch a0 a1 m).
Proof. intros H1 H2 H3 r. destruct r; cbn; lia. Qed.

Lemma demo_handler_keeps s1 f :
  regs s1 A0 = f -> exists s2, demo_handler HandleTrap s1 = Ret s2 /\ callee_keeps f s1 s2.
Proof.
  intros E. eexists. split; [reflexivity|]. repeat split. intros k Hk Hne. cbn. rewrite E.
  apply load32_store32_other. lia.
Qed.

(** A system call from user mode, and an interrupt of the kernel. *)
Lemma trap_restores_witness :
  let m := (fun _ => 0) in
  (exists s', exec demo_handler kernel_entry None (take_trap false 0x1000100 (demo_cpu 0x1600000 0x80300000 1 2 m)) =
     Ret (ToUser 0x1000104, s') /\ regs s' A0 = 7 /\ regs s' S0 = 5 /\ regs s' SP = 0x1600000) /\
  (exists s', exec demo_handler kernel_entry None (take_trap true 0x80200000 (demo_cpu 0x80300000 0 1 2 m)) =
     Ret (ToKernel 0x80200004, s') /\ regs s' SP = 0x80300000 /\ ctl s' Sscratch = 0).
Proof.
  intros m. split.
  - destruct (trap_restores demo_handler false 0x1000100 0x80300000 (demo_cpu 0x1600000 0x80300000 1 2 m))
      as (s1 & s2 & s' & H1 & E1 & E & Hr & Ha & _); [by apply demo_cpu_ok|lia|done| |].
    { intros s1 (_ & Ea & _). by apply demo_handler_keeps. }
    destruct H1 as (_ & Ea & _ & _ & Epc & _). unfold demo_handler in E1. injection E1 as <-.
    rewrite ctl_set_csr, Epc in E. exists s'. split; [exact E|]. clear E.
    split; [|split; [exact (Hr S0 ltac:(discriminate))|exact (Hr SP ltac:(discriminate))]].
    rewrite Ha. cbn [set_csr set_cmem c_mem]. rewrite Ea. exact (load32_store32_same _ _ 7).
  - destruct (trap_restores demo_handler true 0x80200000 0x80300000 (demo_cpu 0x80300000 0 1 2 m))
      as (s1 & s2 & s' & H1 & E1 & E & Hr & _ & Hx & _); [by apply demo_cpu_ok|lia|done| |].
    { intros s1 (_ & Ea & _). by apply demo_handler_keeps. }
    destruct H1 as (_ & _ & _ & _ & Epc & _). unfold demo_handler in E1. injection E1 as <-.
    rewrite ctl_set_csr, Epc in E. exists s'. split; [exact E|]. clear E.
    split; [exact (Hr SP ltac:(discriminate))|exact Hx].
Defined.

(** The first switch from the boot code to a new process. *)
Definition demo_stack_mem : mem :=
  store32 (save_words (fun _ => 0) (0x80212000 - 52) (first_frame 0x80200500)) 0x80220000 (0x80212000 - 52).
Definition demo_fresh : cpu :=
  mkCpu (fun r => match r with SP => 0x80212000 | RA => 0x80200500 | _ => 0 end) (fun _ => 0) demo_stack_mem.
Definition demo_switch : cpu := demo_cpu 0x80300000 0 0x80230000 0x80220000 demo_stack_mem.

Lemma demo_frame_at : words_at demo_stack_mem (0x80212000 - 52) (first_frame 0x80200500).
Proof.
  intros k w Hk. pose proof (lookup_lt_Some _ _ _ Hk) as Hlt. cbn in Hlt.
  unfold demo_stack_mem. rewrite load32_store32_other by lia.
  rewrite (load32_save_words_in _ _ _ _ w) by exact Hk. apply u32_id.
  destruct k as [|k]; [injection Hk as <-; lia|].
  change (replicate 12 0 !! k = Some w) in Hk. apply lookup_replicate in Hk as [-> _]. lia.
Qed.

Lemma demo_fresh_suspended : suspended demo_stack_mem 0x80220000 demo_fresh.
Proof.
  apply (fresh_suspended _ _ 0x80200500).
  - exact demo_frame_at.
  - unfold demo_stack_mem. rewrite load32_store32_same. reflexivity.
  - reflexivity.
  - intros r Hr Hne. destruct r; try reflexivity; [done|]. by apply sp_not_callee_saved in Hr.
Qed.

Lemma demo_switch_ok : switch_ok demo_switch 0x80212000.
Proof. split; [by apply demo_cpu_ok| | | |]; unfold words_apart; cbn; lia. Qed.

Lemma switch_context_resumes_witness :
  exists s', exec demo_handler switch_context None demo_switch = Ret (ToCaller 0x80200500, s') /\
    regs s' SP = 0x80212000 /\ regs s' S0 = 0.
Proof.
  destruct (switch_context_resumes demo_handler demo_switch demo_fresh demo_switch_ok demo_fresh_suspended)
    as (s' & E & _ & _ & Er).
  exists s'. split; [exact E|]. clear E. split; [apply (Er SP); by left|].
  apply (Er S0). right. apply (bool_decide_eq_true_1 (S0 ∈ callee_saved)). vm_compute. reflexivity.
Defined.
