(* ===== verification/FirstRun.v ===== *)
(** The first run of a process: what [create_process] leaves on the kernel
    stack (the model of [Process.v]) meets the registers ([Context.v]).  From
    the [switch_context] of the process that yields, through [user_entry], to
    [main] of the program. *)

From Stdlib Require Import ZArith Lia.
From S2P Require Import Prelude Memory PageHeap Allocator PageTable Shm Process KernelInv System Lifecycle AddressSpace Kernel Views Reach World Context.
Open Scope Z_scope.

(** The processor [s], about to switch to process [p] with [a1 = &p->sp], has
    the part of [p] the switch reads in its memory: [sp], and the words from
    there to the top of the stack. *)
Definition stack_loaded (p : process) (s : cpu) : Prop :=
  load32 (c_mem s) (regs s A1) = p_sp p /\
  words_at (c_mem s) (p_sp p) (drop (STACK_WORDS - 13) (p_stack p)).

Section FirstRun.
Context {H : Type} `{!PageHeap H} (lo hi : Z) `{!PageHeapSpec H lo hi}.

(** The stack of a new process ends with the frame of the first switch. *)
Lemma created_frame L (K : kstate H) image size i K' p :
  created lo hi L K image size i K' p -> k_procs K' !! i = Some p ->
  drop (STACK_WORDS - 13) (p_stack p) = first_frame (user_entry L).
Proof.
  intros Hc Hi. destruct (cr_ids _ _ _ _ _ _ _ _ _ Hc) as (_ & Hst & _).
  assert (Hlen : length (p_stack p) = STACK_WORDS).
  { apply (sys_live _ _ _ _ _ (cr_sys _ _ _ _ _ _ _ _ _ Hc) i p Hi). rewrite Hst. discriminate. }
  apply (list_eq_same_length _ _ 13); [reflexivity|rewrite length_drop, Hlen; reflexivity|].
  intros k x y Hk Hx Hy. rewrite lookup_drop, (cr_frame _ _ _ _ _ _ _ _ _ Hc k) in Hx by exact Hk.
  destruct k as [|k]; [injection Hx as <-; by injection Hy|]. change (replicate 12 0 !! k = Some y) in Hy.
  apply lookup_replicate in Hy as [-> _]. by injection Hx.
Qed.

(** The context behind [&p->sp]: [user_entry] on an empty kernel stack. *)
Definition first_context L (i : nat) (s : cpu) : cpu :=
  mkCpu (fun r => match r with SP => stack_top L i | RA => user_entry L | _ => 0 end) (ctl s) (c_mem s).

Lemma created_suspended L (K : kstate H) image size i K' p s :
  created lo hi L K image size i K' p -> k_procs K' !! i = Some p -> stack_loaded p s ->
  suspended (c_mem s) (regs s A1) (first_context L i s).
Proof.
  intros Hc Hi [Hp Hw]. destruct (cr_ids _ _ _ _ _ _ _ _ _ Hc) as (_ & _ & Esp).
  rewrite (created_frame _ _ _ _ _ _ _ Hc Hi), Esp in Hw. rewrite Esp in Hp.
  apply (fresh_suspended _ _ (user_entry L)); cbn [regs first_context].
  - exact Hw.
  - exact Hp.
  - reflexivity.
  - intros r Hr Hne. destruct r; try reflexivity; [done|]. by apply sp_not_callee_saved in Hr.
Qed.

(** C14: a new process starts.  When the process [create_process] made is
    switched to for the first time, the caller is suspended; execution passes
    through [user_entry] into user mode at [USER_BASE] with an empty kernel
    stack, [sscratch] the top of that stack, interrupts on and user memory
    accessible to the kernel; there [start] calls [main] with the stack of the
    program, and [exit] if it returns. *)
Theorem process_first_run L (K : kstate H) image size i K' p user_stack callee s :
  layout_ok L -> sys_ok lo hi (k_heap K) (k_shm K) (k_procs K) -> image_ok lo hi image size ->
  create_process L K image size = Ret (i, K') -> k_procs K' !! i = Some p ->
  switch_ok s (stack_top L i) -> stack_loaded p s -> ctl s Sscratch = stack_top L i ->
  exists s1 s2, exec callee switch_context None s = Ret (ToCaller (user_entry L), s1) /\
    exec callee user_entry_code None s1 = Ret (ToUser USER_BASE, s2) /\
    suspended (c_mem s2) (regs s A0) s /\
    regs s2 SP = stack_top L i /\ ctl s2 Sscratch = stack_top L i /\
    Z.testbit (ctl s2 Sstatus) 1 = true /\ Z.testbit (ctl s2 Sstatus) 18 = true /\
    exec callee (start user_stack) None s2 =
      (s3 ← callee Main (set_reg SP user_stack s2); s4 ← callee Exit s3; Undef).
Proof.
  intros HL Hsys Him Hc Hp Hok Hload Hx.
  destruct (create_process_ok lo hi L K image size i K' Hsys HL Him Hc) as (p' & Hcr & Hfs).
  assert (Epp : p' = p).
  { apply find_slot_lookup in Hfs as (p0 & Hi & _). rewrite (cr_procs _ _ _ _ _ _ _ _ _ Hcr) in Hp.
    rewrite list_lookup_insert_eq in Hp by (by eapply lookup_lt_Some). by injection Hp. }
  subst p'. pose proof (created_suspended L K image size i K' p s Hcr Hp Hload) as Hsus.
  destruct (switch_resumes callee s (first_context L i s) Hok Hsus) as (s1 & E1 & Em1 & Ec1 & Er1).
  destruct (user_entry_enters callee s1) as (s2 & E2 & Hie & Hsum & Er2 & Em2 & Ex2).
  exists s1, s2. split; [exact E1|]. split; [exact E2|].
  split; [rewrite Em2, Em1; exact (switch_suspends s _ Hok)|].
  split; [rewrite Er2; apply (Er1 SP); by left|]. split; [by rewrite Ex2, Ec1|].
  split; [exact Hie|]. split; [exact Hsum|]. apply start_calls_main.
Qed.
End FirstRun.

(** ** A concrete switch *)

(** The idle process of [World.v] switches to the second process; the first
    stack is the kernel's. *)
Definition first_mem : mem :=
  store32 (save_words (fun _ => 0) (stack_top world_layout 1 - 52) (first_frame 0x80200400))
    0x80220000 (stack_top world_layout 1 - 52).
Definition first_cpu : cpu := demo_cpu 0x80300000 (stack_top world_layout 1) 0x80230000 0x80220000 first_mem.

Lemma first_frame_at : words_at first_mem (stack_top world_layout 1 - 52) (first_frame 0x80200400).
Proof.
  intros k w Hk. pose proof (lookup_lt_Some _ _ _ Hk) as Hlt. cbn in Hlt.
  unfold first_mem. assert (E : stack_top world_layout 1 = 0x80284288) by (vm_compute; reflexivity). rewrite E.
  rewrite load32_store32_other by lia.
  rewrite (load32_save_words_in _ _ _ _ w) by exact Hk. apply u32_id.
  destruct k as [|k]; [injection Hk as <-; lia|].
  change (replicate 12 0 !! k = Some w) in Hk. apply lookup_replicate in Hk as [-> _]. lia.
Qed.

Lemma first_switch_ok : switch_ok first_cpu (stack_top world_layout 1).
Proof. split; [apply demo_cpu_ok; lia| | | |]; unfold words_apart; vm_compute; intuition congruence. Qed.

(** The second process of [World.v]. *)
Lemma process_first_run_witness :
  exists (K K' : kstate heap) s1 s2, create_process world_layout K 0 0 = Ret (1%nat, K') /\
    exec demo_handler switch_context None first_cpu = Ret (ToCaller 0x80200400, s1) /\
    exec demo_handler user_entry_code None s1 = Ret (ToUser 0x1000000, s2) /\ regs s2 SP = 0x80284288.
Proof.
  destruct world_boot as (K & q & _ & HK & Hp & Hst & _ & _ & _ & _ & Hb & _).
  assert (Hfs : find_slot (fun p => p_state p =? PROC_UNUSED) (k_procs K) = Some 1%nat).
  { rewrite Hp. cbn. rewrite Hst. reflexivity. }
  destruct (create_process_total world_lo world_hi world_layout K 0 0 1 40 (ko_sys _ _ _ HK) world_layout_ok
    world_image Hfs (ph_avail_le (lo:=world_lo) (hi:=world_hi) (k_heap K) 47 53 ltac:(lia) (proj1 Hb))
    ltac:(rewrite world_pages; unfold PROC_REGION_MAX; lia)) as (K' & p' & Hc & _).
  destruct (create_process_ok world_lo world_hi world_layout K 0 0 1 K' (ko_sys _ _ _ HK) world_layout_ok
    world_image Hc) as (p1 & Hcr & _).
  assert (Hp1 : k_procs K' !! 1%nat = Some p1).
  { rewrite (cr_procs _ _ _ _ _ _ _ _ _ Hcr), Hp. reflexivity. }
  destruct (cr_ids _ _ _ _ _ _ _ _ _ Hcr) as (_ & _ & Esp).
  destruct (process_first_run world_lo world_hi world_layout K 0 0 1 K' p1 0x1600000 demo_handler first_cpu
    world_layout_ok (ko_sys _ _ _ HK) world_image Hc Hp1 first_switch_ok)
    as (s1 & s2 & E1 & E2 & _ & Er & _).
  - split; rewrite Esp; [unfold first_cpu; exact (load32_store32_same _ _ _)|].
    rewrite (created_frame world_lo world_hi _ _ _ _ _ _ _ Hcr Hp1). exact first_frame_at.
  - vm_compute. reflexivity.
  - exists K, K', s1, s2. split; [exact Hc|]. split; [exact E1|]. split; [exact E2|]. exact Er.
Defined.
