(* ===== verification/Strings.v ===== *)
(** Strings and formatted output ([kernel/common.c]).

    A [char] pointer is the list of bytes from where it points to the end of
    the object: running off the end is an access outside the object and so
    [Undef].  Output is the list of bytes passed to [putchar], in order.  The
    user program links the same file. *)

From Stdlib Require Import ZArith Lia.
From S2P Require Import Prelude.
Open Scope Z_scope.

(** ** [strcmp], [strcpy] *)

Fixpoint strcmp (s1 s2 : list Z) : outcome Z :=
  match s1, s2 with
  | a :: s1', b :: s2' =>
      if negb (a =? 0) && negb (b =? 0) then
        if negb (a =? b) then Ret (a - b) else strcmp s1' s2'
      else Ret (a - b)
  | _, _ => Undef
  end.

(** The array [dst] after the copy. *)
Fixpoint strcpy (dst src : list Z) : outcome (list Z) :=
  match src, dst with
  | c :: src', _ :: dst' =>
      if c =? 0 then Ret (0 :: dst') else r ← strcpy dst' src'; Ret (c :: r)
  | _, _ => Undef
  end.

(** ** Output *)

Definition chr_0 : Z := 48.
Definition chr_a : Z := 97.
Definition chr_minus : Z := 45.
Definition chr_percent : Z := 37.
Definition chr_d : Z := 100.
Definition chr_s : Z := 115.
Definition chr_x : Z := 120.

Fixpoint printString (s : list Z) : outcome (list Z) :=
  match s with
  | c :: s' => if c =? 0 then Ret [] else r ← printString s'; Ret (c :: r)
  | [] => Undef
  end.

Definition hex_digit (p : Z) (i : nat) : Z :=
  let tmp := Z.land (Z.shiftr p (Z.of_nat i * 4)) 0xf in
  if 10 <=? tmp then chr_a + tmp - 10 else chr_0 + tmp.

(** [for (int i = 7; i >= 0; i--)] *)
Definition printPointer (p : Z) : list Z := hex_digit p <$> [7; 6; 5; 4; 3; 2; 1; 0]%nat.

(** [while (magnitude <= num / 10) { magnitude *= 10; count++; }] *)
Fixpoint magnitude_loop (fuel : nat) (num magnitude count : Z) : outcome (Z * Z) :=
  match fuel with
  | O => Undef
  | S n =>
      if magnitude <=? num / 10 then
        (* [int] overflow of [magnitude] *)
        _ ← defined_if (magnitude * 10 <? 2 ^ 31);
        magnitude_loop n num (magnitude * 10) (count + 1)
      else Ret (magnitude, count)
  end.

(** [while (count--)] *)
Fixpoint digit_loop (count : nat) (num magnitude : Z) : outcome (list Z) :=
  match count with
  | O => Ret []
  | S n =>
      _ ← defined_if (negb (magnitude =? 0));
      r ← digit_loop n (num mod magnitude) (magnitude / 10);
      Ret (chr_0 + num / magnitude :: r)
  end.

Definition print_magnitude (num : Z) : outcome (list Z) :=
  '(magnitude, count) ← magnitude_loop 10 num 1 1;
  digit_loop (Z.to_nat count) num magnitude.

Definition printNum (num : Z) : outcome (list Z) :=
  if num =? 0 then Ret [chr_0]
  else if num <? 0 then
    (* [num = -num] overflows for the least [int] *)
    _ ← defined_if (- num <? 2 ^ 31);
    r ← print_magnitude (- num);
    Ret (chr_minus :: r)
  else print_magnitude num.

(** A variadic argument: a 32-bit word or a string. *)
Inductive varg : Type := VInt (w : Z) | VStr (s : list Z).

(** [printf]: a NUL right after [%] ends the output; an unknown conversion
    is printed as it stands; [%d] takes an [int], [%x] an [unsigned]. *)
Fixpoint printf (fmt : list Z) (args : list varg) : outcome (list Z) :=
  match fmt with
  | [] => Undef
  | c :: fmt1 =>
      if c =? 0 then Ret []
      else if c =? chr_percent then
        match fmt1 with
        | [] => Undef
        | k :: fmt2 =>
            if k =? 0 then Ret []
            else if k =? chr_s then
              match args with
              | VStr s :: args' => a ← printString s; r ← printf fmt2 args'; Ret (a ++ r)
              | _ => Undef
              end
            else if k =? chr_d then
              match args with
              | VInt w :: args' => a ← printNum (s32 w); r ← printf fmt2 args'; Ret (a ++ r)
              | _ => Undef
              end
            else if k =? chr_x then
              match args with
              | VInt w :: args' => r ← printf fmt2 args'; Ret (printPointer (u32 w) ++ r)
              | _ => Undef
              end
            else r ← printf fmt2 args; Ret (chr_percent :: k :: r)
        end
      else r ← printf fmt1 args; Ret (c :: r)
  end.

(** ** C strings *)

(** [s] starts with the string [x] and its NUL. *)
Definition cstr (s x : list Z) : Prop :=
  (exists rest, s = x ++ 0 :: rest) /\ Forall (fun c => 0 < c < 256) x.

(** The bytes of a string literal. *)
Definition bytes_of (s : string) : list Z :=
  (fun a => Z.of_N (Ascii.N_of_ascii a)) <$> String.list_ascii_of_string s.
Definition literal (s : string) : list Z := bytes_of s ++ [0].

Section Strings.
Implicit Types (x y s t dst : list Z).

Lemma cstr_nil rest : cstr (0 :: rest) [].
Proof. split; [by exists rest|constructor]. Qed.

Lemma cstr_inv s x :
  cstr s x ->
  match x with
  | [] => exists rest, s = 0 :: rest
  | c :: x' => 0 < c < 256 /\ exists s', s = c :: s' /\ cstr s' x'
  end.
Proof.
  intros [[rest ->] Hf]. destruct x as [|c x']; [by exists rest|].
  apply Forall_cons in Hf as [Hc Hf]. split; [exact Hc|].
  exists (x' ++ 0 :: rest). split; [reflexivity|]. split; [by exists rest|exact Hf].
Qed.

(** Difference of the first bytes that differ, the NUL included. *)
Fixpoint first_difference x y : Z :=
  match x, y with
  | [], [] => 0
  | a :: _, [] => a
  | [], b :: _ => - b
  | a :: x', b :: y' => if a =? b then first_difference x' y' else a - b
  end.

Lemma strcmp_first_difference x : forall y s t,
  cstr s x -> cstr t y -> strcmp s t = Ret (first_difference x y).
Proof.
  induction x as [|a x IH]; intros y s t Hs Ht; apply cstr_inv in Hs; apply cstr_inv in Ht.
  - destruct Hs as [r1 ->]. destruct y as [|b y].
    + destruct Ht as [r2 ->]. reflexivity.
    + destruct Ht as (Hb & t' & -> & _). cbn. do 2 f_equal.
  - destruct Hs as (Ha & s' & -> & Hs'). destruct y as [|b y].
    + destruct Ht as [r2 ->]. cbn [strcmp]. rewrite andb_false_r. cbn. f_equal. lia.
    + destruct Ht as (Hb & t' & -> & Ht'). cbn [strcmp first_difference].
      destruct (Z.eqb_spec a 0), (Z.eqb_spec b 0); try lia. cbn [negb andb].
      destruct (Z.eqb_spec a b) as [->|Hab]; cbn [negb]; [by apply IH|reflexivity].
Qed.

Lemma first_difference_0 x : forall y,
  Forall (fun c => 0 < c < 256) x -> Forall (fun c => 0 < c < 256) y ->
  first_difference x y = 0 <-> x = y.
Proof.
  induction x as [|a x IH]; intros [|b y] Hx Hy; simpl; try done.
  - apply Forall_cons in Hy as [Hb _]. split; [lia|done].
  - apply Forall_cons in Hx as [Ha _]. split; [lia|done].
  - apply Forall_cons in Hx as [Ha Hx], Hy as [Hb Hy].
    destruct (Z.eqb_spec a b) as [->|Hab]; [|split; [lia|congruence]].
    rewrite (IH y Hx Hy). split; congruence.
Qed.

Lemma strcpy_spec x : forall s dst,
  cstr s x -> (length x < length dst)%nat ->
  strcpy dst s = Ret (x ++ 0 :: drop (S (length x)) dst).
Proof.
  induction x as [|c x IH]; intros s dst Hs Hl; apply cstr_inv in Hs.
  - destruct Hs as [rest ->]. destruct dst as [|d dst]; [simpl in Hl; lia|]. reflexivity.
  - destruct Hs as (Hc & s' & -> & Hs'). destruct dst as [|d dst]; [simpl in Hl; lia|].
    cbn [strcpy]. destruct (Z.eqb_spec c 0); [lia|].
    rewrite (IH s' dst Hs' ltac:(simpl in Hl; lia)). reflexivity.
Qed.

(** A copy that does not fit is an access outside the destination. *)
Lemma strcpy_overflow x : forall s dst,
  cstr s x -> (length dst <= length x)%nat -> strcpy dst s = Undef.
Proof.
  induction x as [|c x IH]; intros s dst Hs Hl; apply cstr_inv in Hs.
  - destruct Hs as [rest ->]. destruct dst; [reflexivity|simpl in Hl; lia].
  - destruct Hs as (Hc & s' & -> & Hs'). destruct dst as [|d dst]; [reflexivity|].
    cbn [strcpy]. destruct (Z.eqb_spec c 0); [lia|].
    by rewrite (IH s' dst Hs' ltac:(simpl in Hl; lia)).
Qed.

Lemma printString_spec x : forall s, cstr s x -> printString s = Ret x.
Proof.
  induction x as [|c x IH]; intros s Hs; apply cstr_inv in Hs.
  - by destruct Hs as [rest ->].
  - destruct Hs as (Hc & s' & -> & Hs'). cbn [printString].
    destruct (Z.eqb_spec c 0); [lia|]. by rewrite (IH s' Hs').
Qed.
End Strings.

(** ** Decimal numbers *)

Definition is_digit (c : Z) : Prop := chr_0 <= c <= chr_0 + 9.

(** Value of a run of digits read after [acc]. *)
Definition dec_value (acc : Z) (l : list Z) : Z :=
  fold_left (fun a c => a * 10 + (c - chr_0)) l acc.

Lemma dec_value_app acc l1 l2 : dec_value acc (l1 ++ l2) = dec_value (dec_value acc l1) l2.
Proof. apply fold_left_app. Qed.

Lemma magnitude_loop_spec fuel : forall num m c,
  0 < num < 2 ^ 31 -> 0 < m <= num -> num < m * 10 ^ Z.of_nat fuel ->
  exists k, magnitude_loop fuel num m c = Ret (m * 10 ^ Z.of_nat k, c + Z.of_nat k) /\
    (k < fuel)%nat /\ m * 10 ^ Z.of_nat k <= num < m * 10 ^ Z.of_nat (S k).
Proof.
  induction fuel as [|fuel IH]; intros num m c Hn Hm Hf.
  { change (10 ^ Z.of_nat 0) with 1 in Hf. lia. }
  cbn [magnitude_loop]. destruct (Z.leb_spec m (num / 10)) as [Hle|Hgt].
  - assert (Hm10 : m * 10 <= num) by (pose proof (Z.mul_div_le num 10); lia).
    rewrite (proj2 (Z.ltb_lt (m * 10) (2 ^ 31))) by lia. cbn [defined_if mbind outcome_bind].
    rewrite Nat2Z.inj_succ, Z.pow_succ_r in Hf by lia.
    destruct (IH num (m * 10) (c + 1) Hn ltac:(lia) ltac:(lia)) as (k & -> & Hk & Hr).
    exists (S k). rewrite !Nat2Z.inj_succ, !Z.pow_succ_r in * by lia.
    split; [f_equal; f_equal; lia|]. split; [lia|]. lia.
  - exists 0%nat. split; [f_equal; f_equal; [change (10 ^ Z.of_nat 0) with 1; lia|lia]|].
    split; [lia|]. change (10 ^ Z.of_nat 0) with 1. change (10 ^ Z.of_nat 1) with 10.
    pose proof (Z.mul_succ_div_gt num 10 ltac:(lia)). lia.
Qed.

(** [k + 1] digits of a number below [10 ^ (k + 1)]. *)
Lemma digit_loop_spec k : forall num,
  0 <= num < 10 ^ Z.of_nat (S k) ->
  exists ds, digit_loop (S k) num (10 ^ Z.of_nat k) = Ret ds /\ length ds = S k /\
    Forall is_digit ds /\ (forall acc, dec_value acc ds = acc * 10 ^ Z.of_nat (S k) + num) /\
    (10 ^ Z.of_nat k <= num -> exists d ds', ds = d :: ds' /\ d <> chr_0).
Proof.
  induction k as [|k IH]; intros num Hn.
  - change (10 ^ Z.of_nat 1) with 10 in *. change (10 ^ Z.of_nat 0) with 1.
    exists [chr_0 + num]. cbn [digit_loop]. cbn -[Z.div Z.modulo]. rewrite Z.div_1_r.
    split; [reflexivity|]. split; [reflexivity|].
    split; [repeat constructor; unfold is_digit; lia|].
    split; [intros acc; unfold dec_value; simpl; lia|].
    intros H1. exists (chr_0 + num), []. split; [reflexivity|]. lia.
  - set (p := 10 ^ Z.of_nat (S k)) in *.
    assert (Hp : 0 < p) by (apply Z.pow_pos_nonneg; lia).
    assert (Ep : 10 ^ Z.of_nat (S (S k)) = 10 * p).
    { unfold p. rewrite (Nat2Z.inj_succ (S k)), Z.pow_succ_r by lia. reflexivity. }
    assert (Ed : p / 10 = 10 ^ Z.of_nat k).
    { unfold p. rewrite Nat2Z.inj_succ, Z.pow_succ_r by lia. rewrite Z.mul_comm.
      apply Z.div_mul. lia. }
    rewrite Ep in *.
    change (digit_loop (S (S k)) num p) with
      (_ ← defined_if (negb (p =? 0)); r ← digit_loop (S k) (num mod p) (p / 10);
       Ret (chr_0 + num / p :: r)).
    rewrite (proj2 (Z.eqb_neq p 0)) by lia. cbn [negb defined_if]. rewrite Ed.
    destruct (IH (num mod p) (Z.mod_pos_bound _ _ Hp)) as (ds & E & Hl & Hd & Hv & _).
    cbn [mbind outcome_bind]. rewrite E. cbn [mbind outcome_bind].
    exists (chr_0 + num / p :: ds). split; [reflexivity|]. split; [simpl; lia|].
    assert (Hq : 0 <= num / p < 10).
    { split; [apply Z.div_pos; lia|]. apply Z.div_lt_upper_bound; lia. }
    split; [constructor; [unfold is_digit; lia|exact Hd]|]. split.
    + intros acc. unfold dec_value. cbn [fold_left].
      change (fold_left (fun a c => a * 10 + (c - chr_0)) ds (acc * 10 + (chr_0 + num / p - chr_0)))
        with (dec_value (acc * 10 + (chr_0 + num / p - chr_0)) ds).
      rewrite Hv. fold p. pose proof (Z.div_mod num p ltac:(lia)). nia.
    + intros Hge. exists (chr_0 + num / p), ds. split; [reflexivity|].
      assert (1 <= num / p) by (apply Z.div_le_lower_bound; lia). lia.
Qed.

Lemma print_magnitude_spec num :
  0 < num < 2 ^ 31 ->
  exists ds, print_magnitude num = Ret ds /\ Forall is_digit ds /\ dec_value 0 ds = num /\
    exists d ds', ds = d :: ds' /\ d <> chr_0.
Proof.
  intros Hn. unfold print_magnitude.
  destruct (magnitude_loop_spec 10 num 1 1 Hn ltac:(lia) ltac:(lia)) as (k & -> & Hk & Hr).
  cbn [mbind outcome_bind]. rewrite Z.mul_1_l in *.
  replace (Z.to_nat (1 + Z.of_nat k)) with (S k) by lia.
  destruct (digit_loop_spec k num ltac:(lia)) as (ds & -> & _ & Hd & Hv & Hh).
  exists ds. split; [reflexivity|]. split; [exact Hd|]. split; [by rewrite Hv|]. apply Hh. lia.
Qed.

(** ** Properties *)

(** [printNum] prints every [int] except the least one in decimal: a
    minus sign exactly for negative numbers, then digits whose value is the
    magnitude, without leading zeros.  For the least [int] the negation
    overflows. *)
Theorem printNum_decimal num :
  - 2 ^ 31 <= num < 2 ^ 31 ->
  if num =? - 2 ^ 31 then printNum num = Undef
  else exists ds, printNum num = Ret ((if num <? 0 then [chr_minus] else []) ++ ds) /\
    Forall is_digit ds /\ dec_value 0 ds = Z.abs num /\
    exists d ds', ds = d :: ds' /\ (d = chr_0 -> num = 0 /\ ds' = []).
Proof.
  intros Hn. unfold printNum. destruct (Z.eqb_spec num (- 2 ^ 31)) as [->|Hmin]; [reflexivity|].
  destruct (Z.eqb_spec num 0) as [->|H0].
  { exists [chr_0]. split; [reflexivity|]. split; [repeat constructor; unfold is_digit; lia|].
    split; [reflexivity|]. by exists chr_0, []. }
  destruct (Z.ltb_spec num 0) as [Hneg|Hpos].
  - rewrite (proj2 (Z.ltb_lt (- num) (2 ^ 31))) by lia. cbn [defined_if mbind outcome_bind].
    destruct (print_magnitude_spec (- num) ltac:(lia)) as (ds & -> & Hd & Hv & d & ds' & E & Hd0).
    exists ds. split; [reflexivity|]. split; [exact Hd|]. split; [lia|].
    exists d, ds'. split; [exact E|done].
  - destruct (print_magnitude_spec num ltac:(lia)) as (ds & -> & Hd & Hv & d & ds' & E & Hd0).
    exists ds. split; [reflexivity|]. split; [exact Hd|]. split; [lia|].
    exists d, ds'. split; [exact E|done].
Qed.

Lemma printNum_decimal_witness :
  printNum (-2048) = Ret (bytes_of "-2048") /\
  exists ds, printNum (-2048) = Ret (chr_minus :: ds) /\ dec_value 0 ds = 2048.
Proof.
  split; [reflexivity|].
  destruct (printNum_decimal (-2048) ltac:(lia)) as (ds & E & _ & Hv & _).
  exists ds. split; [exact E|exact Hv].
Defined.

(** [strcmp] of two strings returns, and the result orders them: it is
    zero exactly for equal strings, otherwise its sign is that of the first
    bytes that differ; it never reads past a terminating NUL. *)
Theorem strcmp_correct s t x y :
  cstr s x -> cstr t y ->
  exists r, strcmp s t = Ret r /\ (r = 0 <-> x = y) /\
    (forall p a x' b y', x = p ++ a :: x' -> y = p ++ b :: y' -> a <> b -> r = a - b) /\
    (forall p b y', x = p -> y = p ++ b :: y' -> r < 0).
Proof.
  intros Hs Ht. exists (first_difference x y).
  split; [by apply strcmp_first_difference|]. destruct Hs as [_ Hx], Ht as [_ Hy].
  split; [by apply first_difference_0|]. split.
  - intros p a x' b y' -> -> Hab. clear Hx Hy. induction p as [|c p IH]; simpl.
    + by rewrite (proj2 (Z.eqb_neq a b) Hab).
    + by rewrite Z.eqb_refl.
  - intros p b y' -> ->. apply Forall_app in Hy as [_ Hy]. apply Forall_cons in Hy as [Hb _].
    clear Hx. induction p as [|c p IH]; simpl; [lia|]. by rewrite Z.eqb_refl.
Qed.

Lemma strcmp_correct_witness :
  exists r, strcmp (literal "arp" ++ [7]) (literal "arp ") = Ret r /\ r < 0.
Proof.
  destruct (strcmp_correct (literal "arp" ++ [7]) (literal "arp ") (bytes_of "arp") (bytes_of "arp "))
    as (r & E & _ & _ & Hlt).
  - split; [by exists [7]|repeat constructor].
  - split; [by exists []|repeat constructor].
  - exists r. split; [exact E|]. apply (Hlt (bytes_of "arp") 32 []); reflexivity.
Defined.
