(* ===== verification/Bytes.v ===== *)
(** Byte order and addresses of network packets ([kernel/arp.c],
    [kernel/ipv4.c] each have a copy of these helpers).

    A packet is the list of its bytes; a header field is read at its offset
    in the packed structure. *)

From Stdlib Require Import ZArith Lia.
From S2P Require Import Prelude Strings.
Open Scope Z_scope.

(** Bytes [off .. off + n) of a packet. *)
Definition field (p : list Z) (off n : nat) : list Z := take n (drop off p).
Definition byte (p : list Z) (off : nat) : Z := p !!! off.

Definition read_be16 (bytes : list Z) : Z := Z.lor (u16 (Z.shiftl (byte bytes 0) 8)) (byte bytes 1).
Definition write_be16 (number : Z) : list Z := [u8 (Z.shiftr number 8); Z.land number 0xff].

Definition read_ipv4 (ip : list Z) : Z :=
  Z.lor (Z.lor (Z.lor (u32 (Z.shiftl (byte ip 0) 24)) (u32 (Z.shiftl (byte ip 1) 16)))
           (u32 (Z.shiftl (byte ip 2) 8))) (byte ip 3).
Definition write_ipv4 (ip : Z) : list Z :=
  [u8 (Z.shiftr ip 24); u8 (Z.shiftr ip 16); u8 (Z.shiftr ip 8); u8 ip].

(** [print_ipv4]: four decimal numbers. *)
Definition ipv4_format : list Z := literal "%d.%d.%d.%d".
Definition print_ipv4 (ip : Z) : outcome (list Z) :=
  printf ipv4_format
    [VInt (Z.land (Z.shiftr ip 24) 0xff); VInt (Z.land (Z.shiftr ip 16) 0xff);
     VInt (Z.land (Z.shiftr ip 8) 0xff); VInt (Z.land ip 0xff)].

Definition octet (x : Z) : Prop := 0 <= x < 256.

(** Value of four octets, most significant first. *)
Definition ip_of (a b c d : Z) : Z := ((a * 256 + b) * 256 + c) * 256 + d.

Lemma lor_shift_octet a b : 0 <= a -> octet b -> Z.lor (Z.shiftl a 8) b = a * 256 + b.
Proof. intros Ha Hb. apply (lor_add_low 8); [lia|exact Hb]. Qed.

Lemma read_be16_value a b rest : octet a -> octet b -> read_be16 (a :: b :: rest) = a * 256 + b.
Proof.
  intros Ha Hb. unfold read_be16, byte. cbn [lookup_total list_lookup_total].
  rewrite u16_id.
  - apply lor_shift_octet; [apply Ha|exact Hb].
  - rewrite Z.shiftl_mul_pow2 by lia. unfold octet in *. lia.
Qed.

Lemma write_be16_octets n : 0 <= n < 65536 ->
  write_be16 n = [n / 256; n mod 256] /\ octet (n / 256) /\ octet (n mod 256).
Proof.
  intros Hn. assert (octet (n / 256)) by (unfold octet; Z.to_euclidean_division_equations; lia).
  split; [|split; [done|unfold octet; Z.to_euclidean_division_equations; lia]].
  unfold write_be16. rewrite land_0xff, Z.shiftr_div_pow2 by lia. by rewrite u8_id.
Qed.

Lemma be16_roundtrip n rest : 0 <= n < 65536 -> read_be16 (write_be16 n ++ rest) = n.
Proof.
  intros Hn. destruct (write_be16_octets n Hn) as (-> & Ha & Hb). cbn [app].
  rewrite read_be16_value by assumption. pose proof (Z.div_mod n 256 ltac:(lia)). lia.
Qed.

Lemma lor_assoc_octets a b c d :
  octet a -> octet b -> octet c -> octet d ->
  Z.lor (Z.lor (Z.lor (Z.shiftl a 24) (Z.shiftl b 16)) (Z.shiftl c 8)) d = ip_of a b c d.
Proof.
  intros Ha Hb Hc Hd. unfold octet, ip_of in *.
  replace (Z.shiftl a 24) with (Z.shiftl (Z.shiftl a 8) 16) by (by rewrite Z.shiftl_shiftl by lia).
  rewrite <-Z.shiftl_lor, (lor_add_low 8 a b) by lia.
  replace (Z.shiftl (a * 2 ^ 8 + b) 16) with (Z.shiftl (Z.shiftl (a * 2 ^ 8 + b) 8) 8)
    by (by rewrite Z.shiftl_shiftl by lia).
  rewrite <-Z.shiftl_lor, (lor_add_low 8 _ c), (lor_add_low 8 _ d) by lia. lia.
Qed.

Lemma read_ipv4_value a b c d rest :
  octet a -> octet b -> octet c -> octet d -> read_ipv4 (a :: b :: c :: d :: rest) = ip_of a b c d.
Proof.
  intros Ha Hb Hc Hd. unfold read_ipv4, byte. cbn [lookup_total list_lookup_total].
  rewrite !u32_id by (rewrite Z.shiftl_mul_pow2 by lia; unfold octet in *; lia).
  by apply lor_assoc_octets.
Qed.

Lemma ip_octets ip :
  0 <= ip < 2 ^ 32 ->
  exists a b c d, octet a /\ octet b /\ octet c /\ octet d /\ ip = ip_of a b c d /\
    a = ip / 2 ^ 24 /\ b = ip / 2 ^ 16 mod 256 /\ c = ip / 2 ^ 8 mod 256 /\ d = ip mod 256.
Proof.
  intros Hip. exists (ip / 2 ^ 24), (ip / 2 ^ 16 mod 256), (ip / 2 ^ 8 mod 256), (ip mod 256).
  unfold octet, ip_of. repeat split; Z.to_euclidean_division_equations; lia.
Qed.

Lemma write_ipv4_octets a b c d :
  octet a -> octet b -> octet c -> octet d -> write_ipv4 (ip_of a b c d) = [a; b; c; d].
Proof.
  intros Ha Hb Hc Hd. unfold write_ipv4, octet, ip_of, u8 in *.
  rewrite !Z.shiftr_div_pow2 by lia.
  change (2 ^ 24) with (256 * 256 * 256). change (2 ^ 16) with (256 * 256). change (2 ^ 8) with 256.
  repeat f_equal; Z.to_euclidean_division_equations; lia.
Qed.

Lemma ipv4_roundtrip ip rest : 0 <= ip < 2 ^ 32 -> read_ipv4 (write_ipv4 ip ++ rest) = ip.
Proof.
  intros Hip. destruct (ip_octets ip Hip) as (a & b & c & d & Ha & Hb & Hc & Hd & -> & _).
  rewrite write_ipv4_octets by assumption. by apply read_ipv4_value.
Qed.

(** ** Printing an address *)

(** The decimal digits of an octet. *)
Definition digits_of (n : Z) (ds : list Z) : Prop :=
  printNum n = Ret ds /\ Forall is_digit ds /\ dec_value 0 ds = n /\ ds <> [].

Lemma octet_digits n : octet n -> exists ds, digits_of n ds.
Proof.
  intros Hn. unfold digits_of, printNum. destruct (Z.eqb_spec n 0) as [->|H0].
  - exists [chr_0]. split; [reflexivity|]. split; [repeat constructor; unfold is_digit; lia|]. done.
  - destruct (Z.ltb_spec n 0); [unfold octet in *; lia|].
    destruct (print_magnitude_spec n ltac:(unfold octet in *; lia)) as (ds & -> & Hd & Hv & d & ds' & -> & _).
    by exists (d :: ds').
Qed.

Definition chr_dot : Z := 46.

Lemma printf_d fmt w args ds :
  printNum (s32 w) = Ret ds ->
  printf (chr_percent :: chr_d :: fmt) (VInt w :: args) = (r ← printf fmt args; Ret (ds ++ r)).
Proof.
  intros E. cbn [printf]. change (chr_percent =? 0) with false.
  rewrite Z.eqb_refl. change (chr_d =? 0) with false. change (chr_d =? chr_s) with false.
  rewrite Z.eqb_refl, E. reflexivity.
Qed.

Lemma printf_s fmt s x args :
  cstr s x -> printf (chr_percent :: chr_s :: fmt) (VStr s :: args) = (r ← printf fmt args; Ret (x ++ r)).
Proof. intros Hs. cbn. rewrite (printString_spec _ _ Hs). by destruct (printf fmt args). Qed.

Lemma printf_x fmt w args :
  printf (chr_percent :: chr_x :: fmt) (VInt w :: args) =
    (r ← printf fmt args; Ret (printPointer (u32 w) ++ r)).
Proof. reflexivity. Qed.

Lemma printf_char fmt args c :
  c <> 0 -> c <> chr_percent ->
  printf (c :: fmt) args = (r ← printf fmt args; Ret (c :: r)).
Proof.
  intros H0 Hp. cbn [printf].
  by rewrite (proj2 (Z.eqb_neq c 0) H0), (proj2 (Z.eqb_neq c chr_percent) Hp).
Qed.

Lemma printf_end fmt args : printf (0 :: fmt) args = Ret [].
Proof. reflexivity. Qed.

(** Text without conversions is printed as it stands. *)
Definition plain (c : Z) : bool := negb (c =? 0) && negb (c =? chr_percent).

Lemma printf_text s fmt args :
  forallb plain s = true -> printf (s ++ fmt) args = (r ← printf fmt args; Ret (s ++ r)).
Proof.
  induction s as [|c s IH]; intros H.
  - cbn [app]. by destruct (printf fmt args).
  - cbn [forallb] in H. apply andb_true_iff in H as [Hc H]. unfold plain in Hc.
    apply andb_true_iff in Hc as [H0 Hp]. apply negb_true_iff, Z.eqb_neq in H0, Hp.
    cbn [app]. rewrite printf_char, (IH H), bind_assoc by assumption. by destruct (printf fmt args).
Qed.

Lemma printNum_ret n : - 2 ^ 31 < n < 2 ^ 31 -> exists ds, printNum n = Ret ds.
Proof.
  intros Hn. unfold printNum. destruct (Z.eqb_spec n 0); [by eexists|].
  destruct (Z.ltb_spec n 0).
  - rewrite (proj2 (Z.ltb_lt (- n) (2 ^ 31))) by lia. cbn [defined_if mbind outcome_bind].
    destruct (print_magnitude_spec (- n) ltac:(lia)) as (ds & -> & _). by eexists.
  - destruct (print_magnitude_spec n ltac:(lia)) as (ds & -> & _). by eexists.
Qed.

Lemma print_ipv4_spec ip :
  0 <= ip < 2 ^ 32 ->
  exists a b c d da db dc dd, octet a /\ octet b /\ octet c /\ octet d /\ ip = ip_of a b c d /\
    digits_of a da /\ digits_of b db /\ digits_of c dc /\ digits_of d dd /\
    print_ipv4 ip = Ret (da ++ chr_dot :: db ++ chr_dot :: dc ++ chr_dot :: dd).
Proof.
  intros Hip. destruct (ip_octets ip Hip) as (a & b & c & d & Ha & Hb & Hc & Hd & Eip & Ea & Eb & Ec & Ed).
  destruct (octet_digits a Ha) as [da Hda], (octet_digits b Hb) as [db Hdb],
    (octet_digits c Hc) as [dc Hdc], (octet_digits d Hd) as [dd Hdd].
  exists a, b, c, d, da, db, dc, dd. do 9 (split; [assumption|]).
  unfold print_ipv4. rewrite !land_0xff, !Z.shiftr_div_pow2 by lia.
  rewrite <-Eb, <-Ec, <-Ed. replace ((ip / 2 ^ 24) mod 256) with a.
  2: { rewrite <-Ea. symmetry. apply Z.mod_small, Ha. }
  assert (Hs : forall n ds, octet n -> digits_of n ds -> printNum (s32 n) = Ret ds).
  { intros n ds Hn [E _]. rewrite s32_id by (unfold octet in *; lia). exact E. }
  change ipv4_format with
    [chr_percent; chr_d; chr_dot; chr_percent; chr_d; chr_dot; chr_percent; chr_d; chr_dot;
     chr_percent; chr_d; 0].
  rewrite (printf_d _ a _ da), printf_char, (printf_d _ b _ db), printf_char,
    (printf_d _ c _ dc), printf_char, (printf_d _ d _ dd), printf_end by (discriminate || by apply Hs).
  cbn [mbind outcome_bind]. by rewrite app_nil_r.
Qed.

(** Any word prints. *)
Lemma print_ipv4_ret ip : exists out, print_ipv4 ip = Ret out.
Proof.
  unfold print_ipv4.
  assert (Ho : forall x, exists ds, printNum (s32 (Z.land x 0xff)) = Ret ds).
  { intros x. rewrite land_0xff. pose proof (Z.mod_pos_bound x 256 ltac:(lia)).
    destruct (octet_digits (x mod 256)) as (ds & E & _); [unfold octet; lia|]. exists ds. by rewrite s32_id by lia. }
  destruct (Ho (Z.shiftr ip 24)) as [d1 E1], (Ho (Z.shiftr ip 16)) as [d2 E2],
    (Ho (Z.shiftr ip 8)) as [d3 E3], (Ho ip) as [d4 E4].
  change ipv4_format with
    [chr_percent; chr_d; chr_dot; chr_percent; chr_d; chr_dot; chr_percent; chr_d; chr_dot;
     chr_percent; chr_d; 0].
  rewrite (printf_d _ _ _ d1), printf_char, (printf_d _ _ _ d2), printf_char,
    (printf_d _ _ _ d3), printf_char, (printf_d _ _ _ d4), printf_end by (discriminate || assumption).
  by eexists.
Qed.

(** ** Writing into a packet *)

(** The bytes of [packet] after [bytes] are stored at offset [off]. *)
Definition put (off : nat) (bytes packet : list Z) : list Z :=
  take off packet ++ bytes ++ drop (off + length bytes) packet.

Lemma length_put off bytes packet :
  (off + length bytes <= length packet)%nat -> length (put off bytes packet) = length packet.
Proof. intros H. unfold put. rewrite !length_app, length_take, length_drop. lia. Qed.

(** A store over the middle of a known split. *)
Lemma put_split a old b off new :
  off = length a -> length new = length old -> put off new (a ++ old ++ b) = a ++ new ++ b.
Proof.
  intros -> E. unfold put. rewrite take_app_length. f_equal. f_equal.
  rewrite E, app_assoc, <-length_app, drop_app_length. reflexivity.
Qed.

Lemma byte_app_r a b k : byte (a ++ b) (length a + k) = byte b k.
Proof. unfold byte. rewrite lookup_total_app_r by lia. f_equal. lia. Qed.

Lemma byte_app_l a b k : (k < length a)%nat -> byte (a ++ b) k = byte a k.
Proof. intros H. unfold byte. by rewrite lookup_total_app_l. Qed.

Lemma drop_put_before off bytes packet k :
  (off + length bytes <= k)%nat -> (k <= length packet)%nat ->
  drop k (put off bytes packet) = drop k packet.
Proof.
  intros Hk Hl. unfold put. rewrite drop_app_ge, length_take by (rewrite length_take; lia).
  rewrite drop_app_ge by lia. rewrite drop_drop. f_equal. lia.
Qed.

Lemma take_put_after off bytes packet k :
  (k <= off)%nat -> (off <= length packet)%nat -> take k (put off bytes packet) = take k packet.
Proof.
  intros Hk Hl. unfold put. rewrite take_app_le by (rewrite length_take; lia).
  rewrite take_take. f_equal. lia.
Qed.
