(* ===== verification/Arp.v ===== *)
(** The ARP cache, incoming ARP packets and the packet builder
    ([kernel/arp.c]): the half that runs in interrupt context.  [arp_poll]
    and [arp_request], which transmit, are in [NetStack.v]. *)

From Stdlib Require Import ZArith Lia.
From S2P Require Import Prelude Strings Bytes.
Open Scope Z_scope.

Definition ARP_HARDWARE_ETHERNET : Z := 1.
Definition ARP_PROTOCOL_IPV4 : Z := 0x0800.
Definition ARP_OPERATION_REQUEST : Z := 1.
Definition ARP_OPERATION_REPLY : Z := 2.
Definition ARP_ETHERTYPE : Z := 0x0806.
Definition ARP_CACHE_SIZE : nat := 8.
Definition ETHERNET_HEADER_SIZE : nat := 14.
Definition IPV4_LOCAL_ADDRESS : Z := 0x0a00020f.

(** Offsets of the fields of [struct arp_packet] and its size. *)
Definition at_hardware_type : nat := 0.
Definition at_protocol_type : nat := 2.
Definition at_hardware_len : nat := 4.
Definition at_protocol_len : nat := 5.
Definition at_operation : nat := 6.
Definition at_sender_mac : nat := 8.
Definition at_sender_ip : nat := 14.
Definition at_target_mac : nat := 18.
Definition at_target_ip : nat := 24.
Definition SIZEOF_ARP_PACKET : nat := 28.

Record arp_cache_entry : Type := mkArp {
  ae_valid : bool;
  ae_ip : Z;
  ae_mac : list Z;
}.
#[export] Instance arp_cache_entry_inhabited : Inhabited arp_cache_entry :=
  populate (mkArp false 0 (replicate 6 0)).

Record arp_pending_reply : Type := mkPending {
  ap_pending : bool;
  ap_target_mac : list Z;
  ap_target_ip : Z;
}.

Record arp_state : Type := mkArpState {
  arp_cache : list arp_cache_entry;
  pending_reply : arp_pending_reply;
}.

(** [copy_mac(dst, src)]: the array [dst] afterwards. *)
Definition copy_mac (dst src : list Z) : list Z := put 0 (take 6 src) dst.

Definition hex_char (n : Z) : Z := bytes_of "0123456789abcdef" !!! Z.to_nat n.
Definition print_mac (mac : list Z) : list Z :=
  concat ((fun i => (if (i =? 0)%nat then [] else [58]) ++
    [hex_char (Z.shiftr (byte mac i) 4); hex_char (Z.land (byte mac i) 0x0f)]) <$> seq 0 6).

(** ** The cache *)

(** The scan of [arp_cache_update]: [inl i] where an entry for [ip] is met,
    otherwise [inr free_index]. *)
Fixpoint arp_scan (l : list arp_cache_entry) (ip : Z) (i : nat) (free_index : Z) : nat + Z :=
  match l with
  | [] => inr free_index
  | e :: l' =>
      if ae_valid e && (ae_ip e =? ip) then inl i
      else arp_scan l' ip (S i)
        (if negb (ae_valid e) && (free_index <? 0) then Z.of_nat i else free_index)
  end.

Definition arp_cache_update (cache : list arp_cache_entry) (ip : Z) (mac : list Z)
    : list arp_cache_entry :=
  match arp_scan cache ip 0 (-1) with
  | inl i =>
      let e := cache !!! i in
      <[i := mkArp (ae_valid e) (ae_ip e) (copy_mac (ae_mac e) mac)]> cache
  | inr free_index =>
      let i := Z.to_nat (if free_index <? 0 then 0 else free_index) in
      <[i := mkArp true ip (copy_mac (ae_mac (cache !!! i)) mac)]> cache
  end.

(** [arp_lookup]: [Some mac] for [true] and the bytes copied out. *)
Definition arp_lookup (s : arp_state) (ip : Z) : option (list Z) :=
  i ← find_slot (fun e => ae_valid e && (ae_ip e =? ip)) (arp_cache s);
  Some (copy_mac (replicate 6 0) (ae_mac (arp_cache s !!! i))).

(** What one entry adds to the listing of [arp_dump_cache]. *)
Definition dump_entry (e : arp_cache_entry) : outcome (list Z) :=
  if ae_valid e then
    a ← print_ipv4 (ae_ip e);
    Ret (bytes_of "  " ++ a ++ bytes_of " -> " ++ print_mac (ae_mac e) ++ [10])
  else Ret [].

Fixpoint dump_entries (l : list arp_cache_entry) : outcome (list Z) :=
  match l with
  | [] => Ret []
  | e :: l' => a ← dump_entry e; r ← dump_entries l'; Ret (a ++ r)
  end.

Definition arp_dump_cache (s : arp_state) : outcome (list Z) :=
  r ← dump_entries (arp_cache s);
  Ret (bytes_of "ARP cache:" ++ [10] ++ r ++
    (if forallb (fun e => negb (ae_valid e)) (arp_cache s) then bytes_of "  empty" ++ [10] else [])).

(** ** Packets *)

(** [arp_build_packet]; [mac] is [virtio_net_mac()]. *)
Definition arp_build_packet (mac : list Z) (operation : Z) (target_mac : list Z) (target_ip : Z)
    : list Z :=
  let packet := replicate SIZEOF_ARP_PACKET 0 in
  let packet := put at_hardware_type (write_be16 ARP_HARDWARE_ETHERNET) packet in
  let packet := put at_protocol_type (write_be16 ARP_PROTOCOL_IPV4) packet in
  let packet := <[at_hardware_len := 6]> packet in
  let packet := <[at_protocol_len := 4]> packet in
  let packet := put at_operation (write_be16 operation) packet in
  let packet := put at_sender_mac (take 6 mac) packet in
  let packet := put at_sender_ip (write_ipv4 IPV4_LOCAL_ADDRESS) packet in
  let packet := put at_target_mac (take 6 target_mac) packet in
  put at_target_ip (write_ipv4 target_ip) packet.

(** [arp_init]: the state after the two [memset]s, and what it prints. *)
Definition arp_init : outcome (list Z * arp_state) :=
  a ← print_ipv4 IPV4_LOCAL_ADDRESS;
  Ret (bytes_of "arp: local ip=" ++ a ++ [10],
       mkArpState (replicate ARP_CACHE_SIZE (mkArp false 0 (replicate 6 0)))
         (mkPending false (replicate 6 0) 0)).

(** The test of [arp_receive] on the fixed fields of the packet. *)
Definition arp_header_ok (packet : list Z) : bool :=
  (read_be16 (field packet at_hardware_type 2) =? ARP_HARDWARE_ETHERNET) &&
  (read_be16 (field packet at_protocol_type 2) =? ARP_PROTOCOL_IPV4) &&
  (byte packet at_hardware_len =? 6) && (byte packet at_protocol_len =? 4).

(** [arp_receive]; [frame] is the buffer, of which [frame_len] bytes are the
    frame.  Reading past the buffer is [Undef]. *)
Definition arp_receive (s : arp_state) (frame : list Z) (frame_len : Z) : outcome arp_state :=
  if frame_len <? Z.of_nat (ETHERNET_HEADER_SIZE + SIZEOF_ARP_PACKET) then Ret s
  else
    _ ← defined_if (ETHERNET_HEADER_SIZE + SIZEOF_ARP_PACKET <=? length frame)%nat;
    let packet := drop ETHERNET_HEADER_SIZE frame in
    if negb (arp_header_ok packet) then Ret s
    else
      let sender_ip := read_ipv4 (field packet at_sender_ip 4) in
      let target_ip := read_ipv4 (field packet at_target_ip 4) in
      let operation := read_be16 (field packet at_operation 2) in
      let sender_mac := field packet at_sender_mac 6 in
      let cache := arp_cache_update (arp_cache s) sender_ip sender_mac in
      if (operation =? ARP_OPERATION_REQUEST) && (target_ip =? IPV4_LOCAL_ADDRESS) then
        Ret (mkArpState cache
          (mkPending true (copy_mac (ap_target_mac (pending_reply s)) sender_mac) sender_ip))
      else Ret (mkArpState cache (pending_reply s)).

(** ** The cache as a finite map *)

Definition for_ip (ip : Z) (e : arp_cache_entry) : bool := ae_valid e && (ae_ip e =? ip).
Definition unused (e : arp_cache_entry) : bool := negb (ae_valid e).

(** Well-formed cache: [ARP_CACHE_SIZE] entries, six-byte addresses, at most
    one valid entry per IP address. *)
Record cache_wf (c : list arp_cache_entry) : Prop := {
  wf_length : length c = ARP_CACHE_SIZE;
  wf_macs : forall i e, c !! i = Some e -> length (ae_mac e) = 6%nat;
  wf_distinct : forall i j e e', c !! i = Some e -> c !! j = Some e' ->
    ae_valid e = true -> ae_valid e' = true -> ae_ip e = ae_ip e' -> i = j;
}.

(** The addresses the cache knows. *)
Fixpoint cache_map (c : list arp_cache_entry) : gmap Z (list Z) :=
  match c with
  | [] => ∅
  | e :: c' => if ae_valid e then <[ae_ip e := ae_mac e]> (cache_map c') else cache_map c'
  end.

Section Cache.
Implicit Types (c : list arp_cache_entry) (ip : Z) (mac : list Z) (e : arp_cache_entry).

Lemma for_ip_spec ip e : for_ip ip e = true <-> ae_valid e = true /\ ae_ip e = ip.
Proof. unfold for_ip. rewrite andb_true_iff, Z.eqb_eq. done. Qed.

Lemma arp_scan_spec c ip : forall i free,
  arp_scan c ip i free =
  match find_slot (for_ip ip) c with
  | Some k => inl (i + k)%nat
  | None => inr (if free <? 0 then
      match find_slot unused c with Some k => Z.of_nat (i + k) | None => free end else free)
  end.
Proof.
  induction c as [|e c IH]; intros i free; cbn [arp_scan find_slot].
  { by destruct (free <? 0). }
  change (ae_valid e && (ae_ip e =? ip)) with (for_ip ip e).
  destruct (for_ip ip e); [by rewrite Nat.add_0_r|]. rewrite IH.
  destruct (find_slot (for_ip ip) c) as [k|]; [cbn; f_equal; lia|]. cbn [fmap option_fmap option_map].
  f_equal. unfold unused at 2. destruct (ae_valid e); cbn [negb andb].
  - destruct (free <? 0); [|done]. destruct (find_slot unused c); cbn; [lia|done].
  - destruct (Z.ltb_spec free 0).
    + rewrite (proj2 (Z.ltb_ge (Z.of_nat i) 0)) by lia. cbn. lia.
    + by rewrite (proj2 (Z.ltb_ge free 0)) by lia.
Qed.

(** The first entry for an address decides, so [cache_map] is the lookup. *)
Lemma cache_map_lookup c ip :
  cache_map c !! ip = (i ← find_slot (for_ip ip) c; Some (ae_mac (c !!! i))).
Proof.
  induction c as [|e c IH]; [done|]. cbn [cache_map find_slot]. unfold for_ip at 1.
  destruct (ae_valid e); cbn [andb].
  - destruct (Z.eqb_spec (ae_ip e) ip) as [->|Hne].
    + by rewrite lookup_insert_eq.
    + rewrite lookup_insert_ne, IH by done. by destruct (find_slot (for_ip ip) c).
  - rewrite IH. by destruct (find_slot (for_ip ip) c).
Qed.

Lemma cache_map_Some c ip mac :
  cache_wf c ->
  cache_map c !! ip = Some mac <->
  exists i e, c !! i = Some e /\ ae_valid e = true /\ ae_ip e = ip /\ ae_mac e = mac.
Proof.
  intros W. rewrite cache_map_lookup. split.
  - intros H. apply bind_Some in H as (i & Hi & [= <-]). apply find_slot_lookup in Hi as (e & He & Hf).
    apply for_ip_spec in Hf as [? ?]. exists i, e. by rewrite (aget_lookup _ _ _ He).
  - intros (i & e & He & Hv & <- & <-).
    assert (Hf : for_ip (ae_ip e) e = true) by (by apply for_ip_spec).
    destruct (find_slot_exists _ _ _ _ He Hf) as [j Hj]. rewrite Hj. cbn. f_equal.
    apply find_slot_lookup in Hj as (e' & He' & Hf'). apply for_ip_spec in Hf' as [? ?].
    rewrite (aget_lookup _ _ _ He').
    pose proof (wf_distinct _ W i j e e' He He' Hv ltac:(done) ltac:(done)). subst j. congruence.
Qed.

(** Replacing one slot by an entry for [ip], when no other slot has [ip]. *)
Lemma cache_replace c i e0 ip mac :
  cache_wf c -> c !! i = Some e0 -> length mac = 6%nat ->
  (forall j e, c !! j = Some e -> for_ip ip e = true -> j = i) ->
  cache_wf (<[i := mkArp true ip mac]> c) /\
  cache_map (<[i := mkArp true ip mac]> c) =
    <[ip := mac]> (if ae_valid e0 then delete (ae_ip e0) (cache_map c) else cache_map c).
Proof.
  intros W Hi Hm Hu.
  assert (W' : cache_wf (<[i := mkArp true ip mac]> c)).
  { split.
    - rewrite length_insert. apply W.
    - intros j e Hj. apply list_lookup_insert_Some in Hj as [(-> & <- & _)|[_ Hj]];
        [done|by eapply (wf_macs _ W)].
    - intros j k e e' Hj Hk Hv Hv' E.
      apply list_lookup_insert_Some in Hj as [(<- & <- & _)|[Hij Hj]];
      apply list_lookup_insert_Some in Hk as [(<- & <- & _)|[Hik Hk]]; cbn in *.
      + done.
      + symmetry. apply (Hu k e' Hk). apply for_ip_spec. done.
      + apply (Hu j e Hj). apply for_ip_spec. done.
      + by apply (wf_distinct _ W j k e e'). }
  split; [exact W'|]. apply map_eq. intros x. apply option_eq. intros m.
  rewrite (cache_map_Some _ _ _ W'). rewrite lookup_insert_Some. split.
  - intros (j & e & Hj & Hv & Hx & Hmac).
    apply list_lookup_insert_Some in Hj as [(<- & <- & _)|[Hij Hj]]; cbn in *; [by left|].
    right. split.
    { intros <-. apply Hij. symmetry. apply (Hu j e Hj). by apply for_ip_spec. }
    assert (Hc : cache_map c !! x = Some m) by (apply cache_map_Some; [done|by exists j, e]).
    destruct (ae_valid e0) eqn:Hv0; [|done]. rewrite lookup_delete_ne; [done|].
    intros Heq. apply Hij. apply (wf_distinct _ W i j e0 e); congruence.
  - intros [[<- <-]|[Hx Hc]].
    + exists i, (mkArp true ip mac). split; [|done].
      apply list_lookup_insert_eq. by eapply lookup_lt_Some.
    + assert (Hin : cache_map c !! x = Some m /\ (ae_valid e0 = true -> ae_ip e0 <> x)).
      { destruct (ae_valid e0); [|done]. by apply lookup_delete_Some in Hc as [? ?]. }
      destruct Hin as [Hin Hne]. apply cache_map_Some in Hin as (j & e & Hj & Hv & Hxx & Hmac); [|done].
      exists j, e. split; [|done]. rewrite list_lookup_insert_ne; [done|]. intros ->.
      rewrite Hi in Hj. injection Hj as ->. by apply Hne.
Qed.

Lemma copy_mac_6 dst src : length dst = 6%nat -> length src = 6%nat -> copy_mac dst src = src.
Proof.
  intros Hd Hs. unfold copy_mac, put. rewrite take_0, take_ge by lia. rewrite drop_ge by lia.
  by rewrite app_nil_r.
Qed.

(** No slot is left. *)
Definition cache_full c : bool := forallb ae_valid c.

Lemma cache_full_spec c : cache_full c = true <-> find_slot unused c = None.
Proof.
  unfold cache_full. induction c as [|e c IH]; cbn [forallb find_slot]; [done|].
  unfold unused at 1. destruct (ae_valid e); cbn [negb andb]; [|done].
  rewrite IH. by destruct (find_slot unused c).
Qed.
End Cache.

(** [arp_lookup] is the lookup of the map. *)
Lemma arp_lookup_map s x : cache_wf (arp_cache s) -> arp_lookup s x = cache_map (arp_cache s) !! x.
Proof.
  intros W. rewrite cache_map_lookup. unfold arp_lookup.
  change (fun e => ae_valid e && (ae_ip e =? x)) with (for_ip x).
  destruct (find_slot (for_ip x) (arp_cache s)) as [i|] eqn:Hi; [|done]. cbn. f_equal.
  apply copy_mac_6; [done|].
  apply find_slot_lookup in Hi as (e & He & _). rewrite (aget_lookup _ _ _ He). by eapply (wf_macs _ W).
Qed.

Lemma arp_cache_update_spec c ip mac :
  cache_wf c -> length mac = 6%nat ->
  cache_wf (arp_cache_update c ip mac) /\
  cache_map (arp_cache_update c ip mac) = <[ip := mac]>
    (if cache_full c && bool_decide (cache_map c !! ip = None)
     then delete (ae_ip (c !!! 0%nat)) (cache_map c) else cache_map c).
Proof.
  intros W Hmac.
  assert (Hget : forall i e, c !! i = Some e -> copy_mac (ae_mac (c !!! i)) mac = mac).
  { intros i e He. apply copy_mac_6; [|done]. rewrite (aget_lookup _ _ _ He). by eapply (wf_macs _ W). }
  unfold arp_cache_update. rewrite arp_scan_spec, cache_map_lookup.
  destruct (find_slot (for_ip ip) c) as [i|] eqn:Hi; cbn [Nat.add].
  - pose proof (find_slot_lookup _ _ _ Hi) as (e & He & Hf). apply for_ip_spec in Hf as [Hv Hip].
    rewrite bool_decide_eq_false_2, andb_false_r by done.
    rewrite (Hget i e He), (aget_lookup _ _ _ He), Hv, Hip.
    destruct (cache_replace c i e ip mac W He Hmac) as [W' E].
    { intros j e' Hj Hf. apply for_ip_spec in Hf as [? ?].
      apply (wf_distinct _ W j i e' e); congruence. }
    split; [exact W'|]. rewrite E, Hv, Hip. by rewrite insert_delete_eq.
  - rewrite (bool_decide_eq_true_2 (_ = None)), andb_true_r by done.
    assert (Hnone : forall j e, c !! j = Some e -> for_ip ip e = true -> False).
    { intros j e Hj Hf. by rewrite (proj1 (find_slot_None _ _) Hi j e Hj) in Hf. }
    change ((-1) <? 0) with true. cbn iota.
    destruct (find_slot unused c) as [k|] eqn:Hk.
    + assert (cache_full c = false) as ->.
      { apply not_true_iff_false. rewrite cache_full_spec. congruence. }
      rewrite (proj2 (Z.ltb_ge (Z.of_nat k) 0)), Nat2Z.id by lia.
      apply find_slot_lookup in Hk as (e & He & Hu). rewrite (Hget k e He).
      apply negb_true_iff in Hu.
      destruct (cache_replace c k e ip mac W He Hmac) as [W' E].
      { intros j e' Hj Hf. by destruct (Hnone j e' Hj Hf). }
      split; [exact W'|]. by rewrite E, Hu.
    + rewrite (proj2 (cache_full_spec c) Hk). change ((-1) <? 0) with true. cbn iota. change (Z.to_nat 0) with 0%nat.
      assert (He : c !! 0%nat = Some (c !!! 0%nat)).
      { apply aget_Some. rewrite (wf_length _ W). unfold ARP_CACHE_SIZE. lia. }
      rewrite (Hget 0%nat _ He).
      destruct (cache_replace c 0 _ ip mac W He Hmac) as [W' E].
      { intros j e' Hj Hf. by destruct (Hnone j e' Hj Hf). }
      split; [exact W'|]. rewrite E.
      pose proof (proj1 (find_slot_None _ _) Hk 0%nat _ He) as Hv. unfold unused in Hv.
      apply negb_false_iff in Hv. by rewrite Hv.
Qed.

Lemma arp_cache_update_wf c ip mac :
  cache_wf c -> length mac = 6%nat -> cache_wf (arp_cache_update c ip mac).
Proof. intros W Hm. apply (arp_cache_update_spec c ip mac W Hm). Qed.

Lemma arp_lookup_updated c ip mac p :
  cache_wf c -> length mac = 6%nat ->
  arp_lookup (mkArpState (arp_cache_update c ip mac) p) ip = Some mac.
Proof.
  intros W Hm. destruct (arp_cache_update_spec c ip mac W Hm) as [W' E].
  rewrite arp_lookup_map by exact W'. cbn [arp_cache]. rewrite E. apply lookup_insert_eq.
Qed.

(** C33: The ARP cache implements a bounded map from IPv4 to MAC addresses.
    [arp_lookup] is the lookup of that map; [arp_cache_update] keeps the cache
    well formed and inserts the binding, giving up the address in slot 0
    exactly when the cache is full and the address is new.  A mapping
    refreshed or learned while there is room makes the cache forget nothing. *)
Theorem arp_cache_refines_map s ip mac :
  cache_wf (arp_cache s) -> length mac = 6%nat ->
  let c := arp_cache s in
  let c' := arp_cache_update c ip mac in
  (forall x, arp_lookup s x = cache_map c !! x) /\
  cache_wf c' /\
  cache_map c' = <[ip := mac]>
    (if cache_full c && bool_decide (cache_map c !! ip = None)
     then delete (ae_ip (c !!! 0%nat)) (cache_map c) else cache_map c).
Proof.
  intros W Hmac c c'. split; [intros x; by apply arp_lookup_map|by apply arp_cache_update_spec].
Qed.

(** ** Packets on the wire *)

(** RFC 826 for Ethernet and IPv4. *)
Definition arp_wire (operation : Z) (smac : list Z) (sip : Z) (tmac : list Z) (tip : Z) : list Z :=
  [0; 1; 8; 0; 6; 4] ++ write_be16 operation ++ smac ++ write_ipv4 sip ++ tmac ++ write_ipv4 tip.

Section Wire.
Implicit Types (mac smac tmac frame hdr rest : list Z) (s : arp_state).

Lemma arp_build_wire mac op tmac tip :
  length mac = 6%nat -> length tmac = 6%nat ->
  arp_build_packet mac op tmac tip = arp_wire op mac IPV4_LOCAL_ADDRESS tmac tip.
Proof.
  intros Hm Ht.
  destruct mac as [|m0 [|m1 [|m2 [|m3 [|m4 [|m5 [|]]]]]]]; try discriminate Hm.
  destruct tmac as [|t0 [|t1 [|t2 [|t3 [|t4 [|t5 [|]]]]]]]; try discriminate Ht.
  reflexivity.
Qed.

Lemma length_arp_wire op smac sip tmac tip :
  length smac = 6%nat -> length tmac = 6%nat ->
  length (arp_wire op smac sip tmac tip) = SIZEOF_ARP_PACKET.
Proof. intros Hs Ht. unfold arp_wire. rewrite !length_app, Hs, Ht. reflexivity. Qed.

Lemma read_be16_write n : 0 <= n < 65536 -> read_be16 (write_be16 n) = n.
Proof. intros H. pose proof (be16_roundtrip n [] H) as E. by rewrite app_nil_r in E. Qed.
Lemma read_ipv4_write n : 0 <= n < 2 ^ 32 -> read_ipv4 (write_ipv4 n) = n.
Proof. intros H. pose proof (ipv4_roundtrip n [] H) as E. by rewrite app_nil_r in E. Qed.

(** [arp_receive] reads back the fields of a well-formed packet. *)
Lemma arp_receive_wire s hdr op smac sip tmac tip rest frame_len :
  length hdr = ETHERNET_HEADER_SIZE -> length smac = 6%nat -> length tmac = 6%nat ->
  0 <= op < 65536 -> 0 <= sip < 2 ^ 32 -> 0 <= tip < 2 ^ 32 -> 42 <= frame_len ->
  arp_receive s (hdr ++ arp_wire op smac sip tmac tip ++ rest) frame_len =
  let cache := arp_cache_update (arp_cache s) sip smac in
  Ret (if (op =? ARP_OPERATION_REQUEST) && (tip =? IPV4_LOCAL_ADDRESS)
       then mkArpState cache (mkPending true (copy_mac (ap_target_mac (pending_reply s)) smac) sip)
       else mkArpState cache (pending_reply s)).
Proof.
  intros Hh Hs Ht Hop Hsip Htip Hlen. unfold arp_receive.
  destruct (Z.ltb_spec frame_len (Z.of_nat (ETHERNET_HEADER_SIZE + SIZEOF_ARP_PACKET)));
    [unfold ETHERNET_HEADER_SIZE, SIZEOF_ARP_PACKET in *; lia|].
  rewrite !length_app, length_arp_wire, Hh by assumption.
  rewrite (proj2 (Nat.leb_le _ _)) by lia. cbn [defined_if mbind outcome_bind].
  rewrite <-Hh, drop_app_length.
  destruct smac as [|s0 [|s1 [|s2 [|s3 [|s4 [|s5 [|]]]]]]]; try discriminate Hs.
  destruct tmac as [|t0 [|t1 [|t2 [|t3 [|t4 [|t5 [|]]]]]]]; try discriminate Ht.
  set (pk := arp_wire op _ sip _ tip ++ rest).
  assert (E1 : arp_header_ok pk = true) by reflexivity.
  assert (E2 : field pk at_sender_ip 4 = write_ipv4 sip) by reflexivity.
  assert (E3 : field pk at_target_ip 4 = write_ipv4 tip) by reflexivity.
  assert (E4 : field pk at_operation 2 = write_be16 op) by reflexivity.
  assert (E5 : field pk at_sender_mac 6 = [s0; s1; s2; s3; s4; s5]) by reflexivity.
  rewrite E1, E2, E3, E4, E5, read_be16_write, !read_ipv4_write by assumption.
  cbn [negb]. cbv zeta. by destruct ((op =? ARP_OPERATION_REQUEST) && _).
Qed.

(** Invariant of the ARP state. *)
Record arp_wf s : Prop := {
  arp_cache_wf : cache_wf (arp_cache s);
  arp_pending_mac : length (ap_target_mac (pending_reply s)) = 6%nat;
}.

(** Whatever the bytes, a frame that fits its buffer is handled. *)
Lemma arp_receive_total s frame frame_len :
  arp_wf s -> frame_len <= Z.of_nat (length frame) ->
  exists s', arp_receive s frame frame_len = Ret s' /\ arp_wf s'.
Proof.
  intros [W Wp] Hl. unfold arp_receive.
  destruct (Z.ltb_spec frame_len (Z.of_nat (ETHERNET_HEADER_SIZE + SIZEOF_ARP_PACKET)));
    [by eexists|].
  rewrite (proj2 (Nat.leb_le _ _)) by lia. cbn [defined_if mbind outcome_bind].
  destruct (arp_header_ok _); [|by eexists]. cbn [negb]. cbv zeta.
  set (smac := field (drop ETHERNET_HEADER_SIZE frame) at_sender_mac 6).
  assert (Hs : length smac = 6%nat).
  { unfold smac, field. rewrite length_take, !length_drop.
    unfold at_sender_mac, ETHERNET_HEADER_SIZE, SIZEOF_ARP_PACKET in *. lia. }
  clearbody smac.
  match goal with |- context [arp_cache_update ?c ?ip smac] =>
    pose proof (arp_cache_update_wf c ip smac W Hs) as W' end.
  destruct (_ && _); eexists; (split; [reflexivity|]); split; cbn; try assumption.
  by rewrite copy_mac_6.
Qed.

(** Packets that are too short or whose fixed fields are wrong are ignored. *)
Lemma arp_receive_ignores s frame frame_len :
  frame_len < 42 \/
  (42 <= Z.of_nat (length frame) /\ arp_header_ok (drop ETHERNET_HEADER_SIZE frame) = false) ->
  arp_receive s frame frame_len = Ret s.
Proof.
  intros H. unfold arp_receive.
  destruct (Z.ltb_spec frame_len (Z.of_nat (ETHERNET_HEADER_SIZE + SIZEOF_ARP_PACKET))); [done|].
  unfold ETHERNET_HEADER_SIZE, SIZEOF_ARP_PACKET in *. destruct H as [H|[Hl H]]; [lia|].
  rewrite (proj2 (Nat.leb_le _ _)) by lia. cbn [defined_if mbind outcome_bind]. by rewrite H.
Qed.
End Wire.

(** A cache with two entries that refreshes one and learns another. *)
Lemma arp_cache_refines_map_witness :
  let c := arp_cache_update (arp_cache_update (replicate 8 (mkArp false 0 (replicate 6 0)))
             10 [1;2;3;4;5;6]) 11 [7;7;7;7;7;7] in
  cache_wf c /\ cache_map (arp_cache_update c 10 [9;9;9;9;9;9]) = <[10 := [9;9;9;9;9;9]]> (cache_map c).
Proof.
  assert (W0 : cache_wf (replicate 8 (mkArp false 0 (replicate 6 0)))).
  { split; [reflexivity| |].
    - intros i e He. apply lookup_replicate in He as [-> _]. reflexivity.
    - intros i j e e' He _ Hv. apply lookup_replicate in He as [-> _]. discriminate Hv. }
  intros c. assert (W : cache_wf c) by (do 2 (apply arp_cache_update_wf; [|reflexivity]); exact W0).
  split; [exact W|].
  destruct (arp_cache_refines_map (mkArpState c (mkPending false [] 0)) 10 [9;9;9;9;9;9] W eq_refl)
    as (_ & _ & E).
  exact E.
Defined.
