(* ===== verification/Ipv4.v ===== *)
(** IPv4 headers, the header checksum and incoming packets
    ([kernel/ipv4.c]); [ipv4_send] is in [NetStack.v].

    [read_be16], [write_be16], [read_ipv4_addr] and [write_ipv4_addr] are the
    helpers of [Bytes.v]: the two source files have textually equal copies. *)

From Stdlib Require Import ZArith Lia.
From S2P Require Import Prelude Strings Bytes Arp.
Open Scope Z_scope.

Definition IPV4_ETHERTYPE : Z := 0x0800.
Definition IPV4_HEADER_MIN_SIZE : nat := 20.
Definition IPV4_MAX_PACKET_SIZE : nat := 1500.
Definition IPV4_BROADCAST_ADDRESS : Z := 0xffffffff.
Definition IPV4_PROTOCOL_ICMP : Z := 1.
Definition IPV4_PROTOCOL_TCP : Z := 6.
Definition IPV4_PROTOCOL_UDP : Z := 17.
Definition IPV4_VERSION : Z := 4.
Definition IPV4_TTL_DEFAULT : Z := 64.
Definition IPV4_FLAG_MORE_FRAGMENTS : Z := 0x2000.
Definition IPV4_FRAGMENT_OFFSET_MASK : Z := 0x1fff.

(** Offsets in [struct ipv4_header]. *)
Definition at_version_ihl : nat := 0.
Definition at_total_length : nat := 2.
Definition at_identification : nat := 4.
Definition at_flags_fragment : nat := 6.
Definition at_ttl : nat := 8.
Definition at_protocol : nat := 9.
Definition at_checksum : nat := 10.
Definition at_src_ip : nat := 12.
Definition at_dst_ip : nat := 16.

Record ipv4_stats : Type := mkStats {
  rx_packets : Z;
  rx_dropped : Z;
  rx_icmp : Z;
  rx_udp : Z;
  rx_tcp : Z;
  rx_other : Z;
  tx_packets : Z;
  tx_dropped : Z;
}.

Record ipv4_state : Type := mkIpv4 {
  stats : ipv4_stats;
  next_identification : Z;
}.

(** ** The checksum *)

(** [while (len > 1)] and the odd byte after it. *)
Fixpoint sum_words (bytes : list Z) (sum : Z) : Z :=
  match bytes with
  | a :: b :: rest => sum_words rest (u32 (sum + Z.lor (Z.shiftl (u16 a) 8) b))
  | [a] => u32 (sum + Z.shiftl (u16 a) 8)
  | [] => sum
  end.

(** [while (sum >> 16)] *)
Fixpoint fold_sum (fuel : nat) (sum : Z) : outcome Z :=
  match fuel with
  | O => Undef
  | S n =>
      if Z.shiftr sum 16 =? 0 then Ret sum
      else fold_sum n (u32 (Z.land sum 0xffff + Z.shiftr sum 16))
  end.

(** Three rounds fold any 32-bit sum ([fold_sum_spec]). *)
Definition ipv4_checksum (data : list Z) : outcome Z :=
  sum ← fold_sum 4 (sum_words data 0);
  Ret (u16 (Z.lnot sum)).

(** ** Receiving *)

Definition ipv4_is_for_us (dst_ip : Z) : bool :=
  (dst_ip =? IPV4_LOCAL_ADDRESS) || (dst_ip =? IPV4_BROADCAST_ADDRESS).

(** [ipv4_init]: the state and what is printed. *)
Definition ipv4_init : outcome (list Z * ipv4_state) :=
  a ← print_ipv4 IPV4_LOCAL_ADDRESS;
  Ret (bytes_of "ipv4: local ip=" ++ a ++ [10], mkIpv4 (mkStats 0 0 0 0 0 0 0 0) 1).

Definition set_stats (s : ipv4_state) (t : ipv4_stats) : ipv4_state :=
  mkIpv4 t (next_identification s).

(** [stats.rx_dropped++] *)
Definition count_rx_dropped (t : ipv4_stats) : ipv4_stats :=
  mkStats (rx_packets t) (u32 (rx_dropped t + 1)) (rx_icmp t) (rx_udp t) (rx_tcp t) (rx_other t)
    (tx_packets t) (tx_dropped t).
Definition count_tx_packets (t : ipv4_stats) : ipv4_stats :=
  mkStats (rx_packets t) (rx_dropped t) (rx_icmp t) (rx_udp t) (rx_tcp t) (rx_other t)
    (u32 (tx_packets t + 1)) (tx_dropped t).
Definition count_tx_dropped (t : ipv4_stats) : ipv4_stats :=
  mkStats (rx_packets t) (rx_dropped t) (rx_icmp t) (rx_udp t) (rx_tcp t) (rx_other t)
    (tx_packets t) (u32 (tx_dropped t + 1)).

(** [stats.rx_packets++] and the switch on the protocol. *)
Definition count_rx_packet (t : ipv4_stats) (protocol : Z) : ipv4_stats :=
  let t := mkStats (u32 (rx_packets t + 1)) (rx_dropped t) (rx_icmp t) (rx_udp t) (rx_tcp t)
             (rx_other t) (tx_packets t) (tx_dropped t) in
  let inc (b : bool) (n : Z) := if b then u32 (n + 1) else n in
  let icmp := protocol =? IPV4_PROTOCOL_ICMP in
  let udp := protocol =? IPV4_PROTOCOL_UDP in
  let tcp := protocol =? IPV4_PROTOCOL_TCP in
  mkStats (rx_packets t) (rx_dropped t) (inc icmp (rx_icmp t)) (inc udp (rx_udp t))
    (inc tcp (rx_tcp t)) (inc (negb (icmp || udp || tcp)) (rx_other t)) (tx_packets t) (tx_dropped t).

(** [ipv4_receive]; [frame] is the buffer of which [frame_len] bytes are the
    frame.  Every [return] of the source is a branch. *)
Definition ipv4_receive (s : ipv4_state) (frame : list Z) (frame_len : Z) : outcome ipv4_state :=
  let dropped := Ret (set_stats s (count_rx_dropped (stats s))) in
  if frame_len <? Z.of_nat (ETHERNET_HEADER_SIZE + IPV4_HEADER_MIN_SIZE) then dropped
  else
    _ ← defined_if (frame_len <=? Z.of_nat (length frame));
    let packet := drop ETHERNET_HEADER_SIZE frame in
    let packet_capacity := frame_len - Z.of_nat ETHERNET_HEADER_SIZE in
    let version := Z.shiftr (byte packet at_version_ihl) 4 in
    let ihl := Z.land (byte packet at_version_ihl) 0x0f in
    let header_len := ihl * 4 in
    if negb (version =? IPV4_VERSION) || (ihl <? 5) || (packet_capacity <? header_len) then dropped
    else
      let total_length := read_be16 (field packet at_total_length 2) in
      if (total_length <? header_len) || (packet_capacity <? total_length) then dropped
      else
        checksum ← ipv4_checksum (take (Z.to_nat header_len) packet);
        if negb (checksum =? 0) then dropped
        else
          let flags_fragment := read_be16 (field packet at_flags_fragment 2) in
          if negb (Z.land flags_fragment IPV4_FLAG_MORE_FRAGMENTS =? 0)
             || negb (Z.land flags_fragment IPV4_FRAGMENT_OFFSET_MASK =? 0) then dropped
          else
            let dst_ip := read_ipv4 (field packet at_dst_ip 4) in
            if negb (ipv4_is_for_us dst_ip) then dropped
            else Ret (set_stats s (count_rx_packet (stats s) (byte packet at_protocol))).

(** ** The packet [ipv4_send] builds *)

(** The stores of [ipv4_send] into the [IPV4_MAX_PACKET_SIZE] array; the
    result is the [total_length] bytes handed to the driver. *)
Definition ipv4_build_packet (identification dst_ip protocol : Z) (payload : list Z)
    : outcome (list Z) :=
  let total_length := u16 (Z.of_nat IPV4_HEADER_MIN_SIZE + Z.of_nat (length payload)) in
  let packet := replicate IPV4_MAX_PACKET_SIZE 0 in
  let packet := <[at_version_ihl := Z.lor (Z.shiftl IPV4_VERSION 4) 5]> packet in
  let packet := put at_total_length (write_be16 total_length) packet in
  let packet := put at_identification (write_be16 identification) packet in
  let packet := put at_flags_fragment (write_be16 0) packet in
  let packet := <[at_ttl := IPV4_TTL_DEFAULT]> packet in
  let packet := <[at_protocol := protocol]> packet in
  let packet := put at_src_ip (write_ipv4 IPV4_LOCAL_ADDRESS) packet in
  let packet := put at_dst_ip (write_ipv4 dst_ip) packet in
  let packet := put IPV4_HEADER_MIN_SIZE payload packet in
  checksum ← ipv4_checksum (take IPV4_HEADER_MIN_SIZE packet);
  let packet := put at_checksum (write_be16 checksum) packet in
  Ret (take (Z.to_nat total_length) packet).

(** ** Ones' complement arithmetic *)

(** The 16-bit words of a list of bytes, an odd byte padded with zero. *)
Fixpoint word_sum (bytes : list Z) : Z :=
  match bytes with
  | a :: b :: rest => a * 256 + b + word_sum rest
  | [a] => a * 256
  | [] => 0
  end.

Section Checksum.
Implicit Types (l : list Z) (s : Z).

Lemma pair_ind (P : list Z -> Prop) :
  P [] -> (forall a, P [a]) -> (forall a b l, P l -> P (a :: b :: l)) -> forall l, P l.
Proof.
  intros H0 H1 H2. fix IH 1. intros [|a [|b l]]; [exact H0|exact (H1 a)|exact (H2 a b l (IH l))].
Qed.

Lemma word_sum_bounds l :
  Forall octet l -> 0 <= word_sum l <= 65535 * Z.of_nat (length l).
Proof.
  induction l as [|a|a b l IH] using pair_ind; intros Hl; cbn [word_sum length].
  - lia.
  - apply Forall_cons in Hl as [Ha _]. unfold octet in Ha. lia.
  - apply Forall_cons in Hl as [Ha Hl]. apply Forall_cons in Hl as [Hb Hl].
    specialize (IH Hl). unfold octet in *. lia.
Qed.

(** Up to 65536 bytes the 32-bit sum does not wrap. *)
Lemma sum_words_spec l : forall s,
  Forall octet l -> 0 <= s -> s + 65535 * Z.of_nat (length l) < 2 ^ 32 ->
  sum_words l s = s + word_sum l.
Proof.
  induction l as [|a|a b l IH] using pair_ind; intros s Hl Hs Hb; cbn [sum_words word_sum].
  - lia.
  - apply Forall_cons in Hl as [Ha _]. unfold octet in Ha. cbn [length] in Hb.
    rewrite (u16_id a), Z.shiftl_mul_pow2, u32_id by lia. lia.
  - apply Forall_cons in Hl as [Ha Hl]. apply Forall_cons in Hl as [Hb' Hl].
    unfold octet in *. cbn [length] in Hb.
    rewrite (u16_id a), (lor_shift_octet a b) by (unfold octet; lia).
    rewrite u32_id by lia. rewrite IH by (try assumption; lia). lia.
Qed.

Lemma word_sum_app_even l1 l2 :
  Nat.Even (length l1) -> word_sum (l1 ++ l2) = word_sum l1 + word_sum l2.
Proof.
  induction l1 as [|a|a b l IH] using pair_ind; intros He.
  - reflexivity.
  - destruct He as [k Hk]. cbn in Hk. lia.
  - cbn [app word_sum]. rewrite IH; [lia|]. destruct He as [k Hk]. exists (k - 1)%nat. cbn in Hk. lia.
Qed.

(** Folding keeps the sum modulo 65535 and is zero only for zero. *)
Lemma fold_once s :
  0 <= s < 2 ^ 32 ->
  u32 (Z.land s 0xffff + Z.shiftr s 16) = s mod 65536 + s / 65536.
Proof.
  intros Hs. rewrite land_0xffff, Z.shiftr_div_pow2 by lia. change (2 ^ 16) with 65536.
  apply u32_id. Z.to_euclidean_division_equations. lia.
Qed.

Lemma fold_sum_small n s : 0 <= s < 65536 -> fold_sum (S n) s = Ret s.
Proof.
  intros Hs. cbn [fold_sum]. rewrite Z.shiftr_div_pow2 by lia. change (2 ^ 16) with 65536.
  by rewrite Z.div_small by lia.
Qed.

Lemma fold_sum_step n s : 65536 <= s < 2 ^ 32 ->
  fold_sum (S n) s = fold_sum n (s mod 65536 + s / 65536).
Proof.
  intros Hs. cbn [fold_sum]. rewrite fold_once by lia. rewrite Z.shiftr_div_pow2 by lia.
  change (2 ^ 16) with 65536. assert (0 < s / 65536) by (apply Z.div_str_pos; lia).
  by rewrite (proj2 (Z.eqb_neq _ 0)) by lia.
Qed.

Lemma mod_65535_fold s : (s mod 65536 + s / 65536) mod 65535 = s mod 65535.
Proof.
  rewrite (Z.div_mod s 65536) at 3 by lia.
  replace (65536 * (s / 65536) + s mod 65536)
    with (s mod 65536 + s / 65536 + s / 65536 * 65535) by lia.
  by rewrite Z.mod_add by lia.
Qed.

Lemma fold_sum_spec s :
  0 <= s < 2 ^ 32 ->
  exists f, fold_sum 4 s = Ret f /\ 0 <= f < 65536 /\ f mod 65535 = s mod 65535 /\ (f = 0 <-> s = 0).
Proof.
  intros Hs.
  assert (Hgen : forall n b s, 0 <= s < b -> b <= 2 ^ 32 ->
    (forall f, 65536 <= s -> f = s mod 65536 + s / 65536 ->
      exists r, fold_sum n f = Ret r /\ 0 <= r < 65536 /\ r mod 65535 = f mod 65535 /\ (r = 0 <-> f = 0)) ->
    exists r, fold_sum (S n) s = Ret r /\ 0 <= r < 65536 /\ r mod 65535 = s mod 65535 /\ (r = 0 <-> s = 0)).
  { intros n b x Hx Hb Hrec. destruct (Z.lt_ge_cases x 65536).
    - exists x. rewrite fold_sum_small by lia. split; [done|]. split; [lia|done].
    - rewrite fold_sum_step by lia. destruct (Hrec _ ltac:(lia) eq_refl) as (r & -> & Hr & Hm & H0).
      exists r. split; [done|]. split; [done|]. rewrite Hm. split; [apply mod_65535_fold|].
      rewrite H0. split; intros; Z.to_euclidean_division_equations; lia. }
  apply (Hgen 3%nat (2 ^ 32) s Hs); [lia|]. intros f1 H1 E1.
  assert (0 <= f1 < 131071).
  { pose proof (Z.mod_pos_bound s 65536 ltac:(lia)). pose proof (Z.div_pos s 65536).
    pose proof (Z.div_lt_upper_bound s 65536 65536). lia. }
  apply (Hgen 2%nat 131071 f1); [lia|lia|]. clear E1 Hgen. intros f2 H2 E2.
  assert (0 <= f2 < 65536) by (Z.to_euclidean_division_equations; lia).
  exists f2. rewrite fold_sum_small by lia. split; [done|]. split; [lia|done].
Qed.

Lemma lnot_u16 f : 0 <= f < 65536 -> u16 (Z.lnot f) = 65535 - f.
Proof.
  intros Hf. unfold u16, Z.lnot, Z.pred. change (2 ^ 16) with 65536.
  symmetry. apply Z.mod_unique_pos with (-1); lia.
Qed.

(** The checksum of data that fits a packet is defined; it is zero exactly
    for data whose words sum to a positive multiple of 65535. *)
Lemma ipv4_checksum_spec l :
  Forall octet l -> Z.of_nat (length l) <= 65535 ->
  exists c, ipv4_checksum l = Ret c /\ 0 <= c < 65536 /\ (word_sum l + c) mod 65535 = 0 /\
    (c = 0 <-> word_sum l mod 65535 = 0 /\ 0 < word_sum l).
Proof.
  intros Hl Hn. unfold ipv4_checksum. pose proof (word_sum_bounds l Hl) as Hb.
  rewrite sum_words_spec by (try assumption; lia).
  destruct (fold_sum_spec (0 + word_sum l) ltac:(lia)) as (f & -> & Hf & Hm & H0).
  rewrite Z.add_0_l in *. exists (65535 - f). cbn [mbind outcome_bind].
  rewrite lnot_u16 by lia. split; [done|]. split; [lia|]. split.
  - replace (word_sum l + (65535 - f)) with (word_sum l - f + 1 * 65535) by lia.
    rewrite Z.mod_add by lia. rewrite Zminus_mod, Hm, Z.sub_diag. done.
  - split; intros H.
    + assert (f = 65535) as -> by lia. rewrite <-Hm. split; [done|].
      destruct (Z.eq_dec (word_sum l) 0) as [E|]; [|lia]. apply H0 in E. lia.
    + destruct H as [H Hp]. rewrite H in Hm. assert (f <> 0) by (rewrite H0; lia).
      apply Z.mod_divide in Hm; [|lia]. destruct Hm as [q Hq]. lia.
Qed.
End Checksum.

(** ** Which packets are accepted *)

(** RFC 791 as far as the kernel supports it: version 4, a header of at
    least five words that verifies, a length that fits, no fragment, and our
    address or broadcast. *)
Record acceptable (packet : list Z) (capacity : Z) : Prop := {
  acc_capacity : Z.of_nat IPV4_HEADER_MIN_SIZE <= capacity;
  acc_version : byte packet at_version_ihl / 16 = 4;
  acc_ihl : 5 <= byte packet at_version_ihl mod 16;
  acc_length : byte packet at_version_ihl mod 16 * 4 <= read_be16 (field packet at_total_length 2) <= capacity;
  acc_verifies : word_sum (take (Z.to_nat (byte packet at_version_ihl mod 16 * 4)) packet) mod 65535 = 0;
  acc_whole : read_be16 (field packet at_flags_fragment 2) mod 16384 = 0;
  acc_ours : read_ipv4 (field packet at_dst_ip 4) = IPV4_LOCAL_ADDRESS \/
             read_ipv4 (field packet at_dst_ip 4) = IPV4_BROADCAST_ADDRESS;
}.

Section Receive.
Implicit Types (packet frame hdr payload rest : list Z) (s : ipv4_state).

Lemma byte_octet packet k : Forall octet packet -> octet (byte packet k).
Proof.
  intros H. unfold byte. destruct (packet !! k) as [x|] eqn:E.
  - rewrite (aget_lookup _ _ _ E). by eapply Forall_lookup_1.
  - rewrite list_lookup_total_alt, E. cbn. unfold octet. lia.
Qed.

Lemma field_2 packet k :
  (k + 2 <= length packet)%nat -> field packet k 2 = [byte packet k; byte packet (S k)].
Proof.
  intros H. unfold field, byte.
  rewrite (drop_S packet (packet !!! k) k) by (apply aget_Some; lia).
  rewrite (drop_S packet (packet !!! S k) (S k)) by (apply aget_Some; lia). reflexivity.
Qed.

(** The two fragment tests together. *)
Lemma fragment_test n :
  0 <= n -> (Z.land n IPV4_FLAG_MORE_FRAGMENTS =? 0) && (Z.land n IPV4_FRAGMENT_OFFSET_MASK =? 0)
            = (n mod 16384 =? 0).
Proof.
  intros Hn. apply eq_true_iff_eq. rewrite andb_true_iff, !Z.eqb_eq.
  change 16384 with (2 ^ 14). rewrite <-Z.land_ones by lia.
  change (Z.ones 14) with (Z.lor IPV4_FLAG_MORE_FRAGMENTS IPV4_FRAGMENT_OFFSET_MASK).
  rewrite Z.land_lor_distr_r. rewrite Z.lor_eq_0_iff. done.
Qed.

Lemma word_sum_head_pos packet n :
  Forall octet packet -> (0 < length packet)%nat -> (2 <= n)%nat -> 0 < byte packet 0 -> 0 < word_sum (take n packet).
Proof.
  intros Hp Hl Hn H0. destruct n as [|[|n]]; [lia|lia|].
  destruct packet as [|a [|b l]]; unfold byte in H0; cbn in H0.
  - cbn in Hl. lia.
  - cbn. lia.
  - apply Forall_cons in Hp as [Ha Hp]. apply Forall_cons in Hp as [Hb Hp].
    pose proof (word_sum_bounds (take n l) ltac:(by apply Forall_take)).
    cbn [take word_sum]. unfold octet in *. lia.
Qed.

(** The checksum test of a version 4 header says whether its words verify. *)
Lemma header_verifies packet n :
  Forall octet packet -> byte packet at_version_ihl / 16 = IPV4_VERSION -> 5 <= n <= 15 ->
  n * 4 <= Z.of_nat (length packet) ->
  exists c, ipv4_checksum (take (Z.to_nat (n * 4)) packet) = Ret c /\
    (c = 0 <-> word_sum (take (Z.to_nat (n * 4)) packet) mod 65535 = 0).
Proof.
  intros Hp Hver Hn Hl. set (h := take _ packet).
  destruct (ipv4_checksum_spec h) as (c & -> & _ & _ & Hc0).
  { by apply Forall_take. }
  { unfold h. rewrite length_take. lia. }
  assert (Hpos : 0 < word_sum h).
  { apply word_sum_head_pos; [done|lia|lia|]. change 0%nat with at_version_ihl.
    pose proof (byte_octet packet at_version_ihl Hp) as Hv. unfold octet, IPV4_VERSION in *.
    Z.to_euclidean_division_equations. lia. }
  exists c. split; [done|]. rewrite Hc0. tauto.
Qed.

Lemma be16_nonneg packet k :
  Forall octet packet -> (k + 2 <= length packet)%nat -> 0 <= read_be16 (field packet k 2).
Proof.
  intros Hp Hk. pose proof (byte_octet packet k Hp). pose proof (byte_octet packet (S k) Hp).
  rewrite field_2, read_be16_value by done. unfold octet in *. lia.
Qed.

Lemma acceptable_lengths packet cap :
  acceptable packet cap ->
  byte packet at_version_ihl / 16 = 4 /\ 5 <= byte packet at_version_ihl mod 16 /\
  byte packet at_version_ihl mod 16 * 4 <= read_be16 (field packet at_total_length 2) <= cap.
Proof. intros [_ Hver Hi Ht _ _ _]. done. Qed.
End Receive.

(** C34: [ipv4_receive] on any frame of bytes that fits its buffer returns,
    counting it exactly once: as received, under its protocol, when the packet
    after the Ethernet header is acceptable (version, lengths, checksum,
    fragmentation, address), and as dropped otherwise. *)
Theorem ipv4_receive_classifies s frame frame_len :
  Forall octet frame -> 0 <= frame_len <= Z.of_nat (length frame) ->
  let packet := drop ETHERNET_HEADER_SIZE frame in
  (acceptable packet (frame_len - Z.of_nat ETHERNET_HEADER_SIZE) ->
   ipv4_receive s frame frame_len =
     Ret (set_stats s (count_rx_packet (stats s) (byte packet at_protocol)))) /\
  (~ acceptable packet (frame_len - Z.of_nat ETHERNET_HEADER_SIZE) ->
   ipv4_receive s frame frame_len = Ret (set_stats s (count_rx_dropped (stats s)))).
Proof.
  intros Hf Hl packet.
  set (drop_it := Ret (set_stats s (count_rx_dropped (stats s)))).
  set (keep := Ret (set_stats s (count_rx_packet (stats s) (byte packet at_protocol)))).
  set (A := acceptable packet _).
  assert (H : (A /\ ipv4_receive s frame frame_len = keep) \/
              (~ A /\ ipv4_receive s frame frame_len = drop_it)); [|tauto].
  assert (Hp : Forall octet packet) by (by apply Forall_drop).
  assert (Elen : Z.of_nat (length packet) = Z.of_nat (length frame) - 14 \/ Z.of_nat (length frame) < 14).
  { unfold packet. rewrite length_drop. unfold ETHERNET_HEADER_SIZE. lia. }
  unfold ipv4_receive. fold drop_it keep packet. cbv zeta.
  destruct (Z.ltb_spec frame_len (Z.of_nat (ETHERNET_HEADER_SIZE + IPV4_HEADER_MIN_SIZE))) as [Hs|Hs].
  { right. split; [|done]. intros [Hc]. unfold ETHERNET_HEADER_SIZE, IPV4_HEADER_MIN_SIZE in *. lia. }
  rewrite (proj2 (Z.leb_le _ _)) by lia. cbn [defined_if mbind outcome_bind].
  unfold ETHERNET_HEADER_SIZE, IPV4_HEADER_MIN_SIZE in Hs.
  pose proof (byte_octet packet at_version_ihl Hp) as Hv.
  set (b0 := byte packet at_version_ihl) in *. unfold octet in Hv.
  rewrite Z.shiftr_div_pow2, land_0xf by lia. change (2 ^ 4) with 16.
  set (cap := frame_len - Z.of_nat ETHERNET_HEADER_SIZE) in *.
  assert (Hcap : 20 <= cap <= Z.of_nat (length packet)) by (unfold cap, ETHERNET_HEADER_SIZE in *; lia).
  pose proof (Z.mod_pos_bound b0 16 ltac:(lia)) as Hihl.
  set (tl := read_be16 (field packet at_total_length 2)).
  pose proof (acceptable_lengths packet cap : A -> b0 / 16 = 4 /\ 5 <= b0 mod 16 /\ b0 mod 16 * 4 <= tl <= cap) as HA.
  destruct (Z.eqb_spec (b0 / 16) IPV4_VERSION) as [Hver|Hver]; cbn [negb orb];
    [|right; split; [intros (? & _)%HA; done|done]].
  destruct (Z.ltb_spec (b0 mod 16) 5) as [Hi|Hi]; cbn [orb];
    [right; split; [intros ?%HA; lia|done]|].
  destruct (Z.ltb_spec cap (b0 mod 16 * 4)) as [Hh|Hh];
    [right; split; [intros ?%HA; lia|done]|].
  destruct (Z.ltb_spec tl (b0 mod 16 * 4)) as [Ht|Ht]; cbn [orb];
    [right; split; [intros ?%HA; lia|done]|].
  destruct (Z.ltb_spec cap tl) as [Ht'|Ht'];
    [right; split; [intros ?%HA; lia|done]|].
  set (h := take (Z.to_nat (b0 mod 16 * 4)) packet).
  destruct (header_verifies packet (b0 mod 16) Hp Hver) as (c & Ec & Hc0); [lia|lia|]. fold h in Ec, Hc0.
  rewrite Ec. cbn [mbind outcome_bind].
  destruct (Z.eqb_spec c 0) as [Hck|Hck]; cbn [negb]; [apply Hc0 in Hck|by right; split; [intros []; tauto|]].
  set (ff := read_be16 (field packet at_flags_fragment 2)).
  assert (Hff : 0 <= ff) by (apply be16_nonneg; [done|unfold at_flags_fragment; lia]).
  rewrite <-negb_andb, fragment_test by exact Hff.
  destruct (Z.eqb_spec (ff mod 16384) 0) as [Hfr|Hfr]; cbn [negb];
    [|by right; split; [intros []|]].
  set (dst := read_ipv4 (field packet at_dst_ip 4)). unfold ipv4_is_for_us.
  destruct (Z.eqb_spec dst IPV4_LOCAL_ADDRESS) as [Hd|Hd];
    [|destruct (Z.eqb_spec dst IPV4_BROADCAST_ADDRESS) as [Hd'|Hd']]; cbn [orb negb].
  3: { right. split; [|done]. intros [_ _ _ _ _ _ [|]]; done. }
  all: left; split; [|done]; split;
    [unfold IPV4_HEADER_MIN_SIZE; lia|exact Hver|exact Hi|exact (conj Ht Ht')|exact Hck|exact Hfr|].
  - by left.
  - by right.
Qed.

(** ** What [ipv4_send] puts on the wire *)

(** An IPv4 header without options, checksum field [ck]. *)
Definition ipv4_header (total id proto ck src dst : Z) : list Z :=
  [0x45; 0] ++ write_be16 total ++ write_be16 id ++ [0; 0; IPV4_TTL_DEFAULT; proto] ++
  write_be16 ck ++ write_ipv4 src ++ write_ipv4 dst.

Section Build.
Implicit Types (payload rest : list Z) (s : ipv4_state).

Lemma length_ipv4_header total id proto ck src dst :
  length (ipv4_header total id proto ck src dst) = IPV4_HEADER_MIN_SIZE.
Proof. reflexivity. Qed.

Lemma write_be16_octet n : Forall octet (write_be16 n).
Proof.
  unfold write_be16. rewrite land_0xff. repeat constructor; unfold octet;
    try apply u8_range; apply Z.mod_pos_bound; lia.
Qed.
Lemma write_ipv4_octet n : Forall octet (write_ipv4 n).
Proof. unfold write_ipv4. repeat constructor; apply u8_range. Qed.

Lemma ipv4_header_octet total id proto ck src dst :
  octet proto -> Forall octet (ipv4_header total id proto ck src dst).
Proof.
  intros Hp. unfold ipv4_header. repeat (apply Forall_app; split);
    try apply write_be16_octet; try apply write_ipv4_octet; repeat constructor;
    unfold octet, IPV4_TTL_DEFAULT in *; lia.
Qed.

Lemma word_sum_be16 n l : 0 <= n < 65536 -> word_sum (write_be16 n ++ l) = n + word_sum l.
Proof.
  intros Hn. destruct (write_be16_octets n Hn) as (-> & _). cbn [app word_sum].
  pose proof (Z.div_mod n 256 ltac:(lia)). lia.
Qed.

(** The checksum field adds its value to the sum. *)
Lemma word_sum_header total id proto ck src dst :
  0 <= total < 65536 -> 0 <= id < 65536 -> 0 <= ck < 65536 ->
  word_sum (ipv4_header total id proto ck src dst) =
  ck + word_sum (ipv4_header total id proto 0 src dst).
Proof.
  intros Ht Hi Hc. unfold ipv4_header. cbn [app].
  assert (E : forall l, word_sum (0x45 :: 0 :: l) = 0x4500 + word_sum l) by reflexivity.
  rewrite !E, !(word_sum_be16 total), !(word_sum_be16 id) by assumption.
  assert (E' : forall l, word_sum (0 :: 0 :: IPV4_TTL_DEFAULT :: proto :: l) =
    IPV4_TTL_DEFAULT * 256 + proto + word_sum l) by (intros; cbn [word_sum]; lia).
  rewrite !E', (word_sum_be16 ck), (word_sum_be16 0) by lia. lia.
Qed.

Lemma ipv4_build_layout id dst proto payload :
  octet proto -> Z.of_nat (length payload) <= 1480 -> 0 <= id < 65536 ->
  exists ck, 0 <= ck < 65536 /\
    (ck + word_sum (ipv4_header (20 + Z.of_nat (length payload)) id proto 0 IPV4_LOCAL_ADDRESS dst)) mod 65535 = 0 /\
    ipv4_build_packet id dst proto payload =
      Ret (ipv4_header (20 + Z.of_nat (length payload)) id proto ck IPV4_LOCAL_ADDRESS dst ++ payload).
Proof.
  intros Hp Hl Hid. unfold ipv4_build_packet.
  change (replicate IPV4_MAX_PACKET_SIZE 0) with (replicate 20 0 ++ replicate 1480 0).
  set (tail := replicate 1480 0). rewrite u16_id by (unfold IPV4_HEADER_MIN_SIZE; lia).
  change (Z.of_nat IPV4_HEADER_MIN_SIZE) with 20. set (total := 20 + Z.of_nat (length payload)).
  set (hd := ipv4_header total id proto 0 IPV4_LOCAL_ADDRESS dst).
  assert (Htail : length tail = 1480%nat) by reflexivity.
  cbv zeta. clearbody tail.
  match goal with |- context [put IPV4_HEADER_MIN_SIZE payload ?x] =>
    assert (E : x = hd ++ tail) by reflexivity; rewrite E; clear E end.
  assert (E : put IPV4_HEADER_MIN_SIZE payload (hd ++ tail) = hd ++ payload ++ drop (length payload) tail).
  { unfold put. rewrite take_app_length' by reflexivity.
    rewrite drop_app_ge by (unfold hd; rewrite length_ipv4_header; lia).
    do 3 f_equal. unfold hd. rewrite length_ipv4_header. lia. }
  rewrite E. clear E.
  assert (Hlen : length hd = IPV4_HEADER_MIN_SIZE) by apply length_ipv4_header.
  rewrite <-Hlen, take_app_length.
  destruct (ipv4_checksum_spec hd) as (ck & -> & Hck & Hsum & _).
  { apply ipv4_header_octet, Hp. }
  { rewrite Hlen. unfold IPV4_HEADER_MIN_SIZE. lia. }
  exists ck. split; [exact Hck|]. split; [by rewrite Z.add_comm|].
  cbn [mbind outcome_bind]. f_equal.
  set (rest := payload ++ drop (length payload) tail).
  assert (E : put at_checksum (write_be16 ck) (hd ++ rest) =
    ipv4_header total id proto ck IPV4_LOCAL_ADDRESS dst ++ rest) by reflexivity.
  rewrite E. unfold rest. rewrite app_assoc. apply take_app_length'.
  rewrite length_app, length_ipv4_header. unfold IPV4_HEADER_MIN_SIZE, total. lia.
Qed.

(** What a receiver at address [host] wants of a packet, with the tests of
    [ipv4_receive]: version 4, a header of at least five words that verifies, a
    length that fits, no fragment, and its address or broadcast. *)
Record accepted_at (host : Z) (packet : list Z) (capacity : Z) : Prop := {
  at_capacity : Z.of_nat IPV4_HEADER_MIN_SIZE <= capacity;
  at_version : byte packet at_version_ihl / 16 = 4;
  at_ihl : 5 <= byte packet at_version_ihl mod 16;
  at_length : byte packet at_version_ihl mod 16 * 4 <= read_be16 (field packet at_total_length 2) <= capacity;
  at_verifies : word_sum (take (Z.to_nat (byte packet at_version_ihl mod 16 * 4)) packet) mod 65535 = 0;
  at_whole : read_be16 (field packet at_flags_fragment 2) mod 16384 = 0;
  at_address : read_ipv4 (field packet at_dst_ip 4) = host \/
               read_ipv4 (field packet at_dst_ip 4) = IPV4_BROADCAST_ADDRESS;
}.

(** At this host's address that is what [ipv4_receive] accepts. *)
Lemma accepted_here packet capacity : accepted_at IPV4_LOCAL_ADDRESS packet capacity <-> acceptable packet capacity.
Proof. split; intros []; by split. Qed.

(** The packet the builder returns is accepted wherever it is addressed to;
    [rest] is the padding of the frame. *)
Lemma ipv4_built_accepted total id proto ck dst host payload rest capacity :
  octet proto -> total = 20 + Z.of_nat (length payload) -> total <= 1500 -> total <= capacity ->
  0 <= id < 65536 -> 0 <= ck < 65536 -> 0 <= dst < 2 ^ 32 ->
  (ck + word_sum (ipv4_header total id proto 0 IPV4_LOCAL_ADDRESS dst)) mod 65535 = 0 ->
  dst = host \/ dst = IPV4_BROADCAST_ADDRESS ->
  accepted_at host (ipv4_header total id proto ck IPV4_LOCAL_ADDRESS dst ++ payload ++ rest) capacity.
Proof.
  intros Hp Ht Hmax Hcap Hid Hck Hdst Hsum Hours.
  set (packet := _ ++ payload ++ rest).
  assert (E0 : byte packet at_version_ihl = 0x45) by reflexivity.
  assert (E1 : field packet at_total_length 2 = write_be16 total) by reflexivity.
  assert (E2 : field packet at_flags_fragment 2 = [0; 0]) by reflexivity.
  assert (E3 : field packet at_dst_ip 4 = write_ipv4 dst) by reflexivity.
  assert (E4 : take 20 packet = ipv4_header total id proto ck IPV4_LOCAL_ADDRESS dst) by reflexivity.
  clearbody packet. split.
  - unfold IPV4_HEADER_MIN_SIZE. lia.
  - by rewrite E0.
  - rewrite E0. done.
  - rewrite E0, E1, read_be16_write by lia. change (0x45 mod 16 * 4) with 20. lia.
  - rewrite E0. change (Z.to_nat (0x45 mod 16 * 4)) with 20%nat.
    rewrite E4, word_sum_header by lia. exact Hsum.
  - by rewrite E2.
  - rewrite E3, read_ipv4_write by exact Hdst. exact Hours.
Qed.
End Build.

(** A UDP packet of three bytes for this host, in a minimum-size frame. *)
Definition demo_frame : list Z :=
  replicate 14 0 ++
  [0x45; 0; 0; 23; 0; 1; 0; 0; 64; 17; 98; 184; 10; 0; 2; 15; 10; 0; 2; 15; 1; 2; 3] ++ replicate 23 0.

Lemma ipv4_receive_classifies_witness :
  let s := mkIpv4 (mkStats 5 1 0 3 1 1 0 0) 1 in
  ipv4_receive s demo_frame 60 = Ret (mkIpv4 (mkStats 6 1 0 4 1 1 0 0) 1) /\
  ipv4_receive s demo_frame 36 = Ret (mkIpv4 (mkStats 5 2 0 3 1 1 0 0) 1).
Proof.
  assert (Ho : Forall octet demo_frame) by (repeat constructor; unfold octet; lia).
  intros s. split.
  - destruct (ipv4_receive_classifies s demo_frame 60 Ho ltac:(vm_compute; split; discriminate)) as [H _].
    rewrite H; [reflexivity|]. split; vm_compute; (reflexivity || (split; discriminate) || discriminate || auto).
  - destruct (ipv4_receive_classifies s demo_frame 36 Ho ltac:(vm_compute; split; discriminate)) as [_ H].
    rewrite H; [reflexivity|]. intros [_ _ _ [_ Hl] _ _ _]. vm_compute in Hl. by apply Hl.
Defined.
