(* ===== verification/Ring.v ===== *)
(** Rings with free-running 16-bit indices.

    The virtqueue rings ([kernel/virtio.c]) and the frame capture ring
    ([kernel/virtio_net.c]) are arrays of [VIRTQ_ENTRY_NUM] elements with a
    write and a read index that only ever increase, modulo 2^16; an element
    is at its index modulo the size.  This file relates such a ring to the
    list of its elements, oldest first. *)

From Stdlib Require Import ZArith Lia.
From S2P Require Import Prelude.
Open Scope Z_scope.

Definition VIRTQ_ENTRY_NUM : Z := 16.

(** Where the element with index [i] is. *)
Definition ring_slot (i : Z) : nat := Z.to_nat (i mod VIRTQ_ENTRY_NUM).

(** [(uint16_t) (write - read)] *)
Definition ring_count (read write : Z) : Z := u16 (write - read).

Section Ring.
Context {A : Type} `{!Inhabited A}.
Implicit Types (l : list A) (r w : Z) (x : A).

Definition ring_items l r w : list A :=
  (fun k => l !!! ring_slot (r + Z.of_nat k)) <$> seq 0 (Z.to_nat (ring_count r w)).

Definition index_ok (i : Z) : Prop := 0 <= i < 65536.

Record ring_ok l r w : Prop := {
  ring_length : Z.of_nat (length l) = VIRTQ_ENTRY_NUM;
  ring_read : index_ok r;
  ring_write : index_ok w;
  ring_bound : ring_count r w <= VIRTQ_ENTRY_NUM;
}.

Lemma ring_slot_u16 i : ring_slot (u16 i) = ring_slot i.
Proof.
  unfold ring_slot, u16, VIRTQ_ENTRY_NUM. f_equal. change (2 ^ 16) with 65536.
  Z.to_euclidean_division_equations. lia.
Qed.

Lemma ring_slot_lt i : (ring_slot i < Z.to_nat VIRTQ_ENTRY_NUM)%nat.
Proof.
  unfold ring_slot, VIRTQ_ENTRY_NUM. pose proof (Z.mod_pos_bound i 16 ltac:(lia)). lia.
Qed.

(** Fewer than a ring apart, different indices have different slots. *)
Lemma ring_slot_inj i j : 0 < j - i < VIRTQ_ENTRY_NUM -> ring_slot i <> ring_slot j.
Proof.
  unfold ring_slot, VIRTQ_ENTRY_NUM. intros H E.
  pose proof (Z.mod_pos_bound i 16 ltac:(lia)). pose proof (Z.mod_pos_bound j 16 ltac:(lia)).
  assert (E' : i mod 16 = j mod 16) by lia. clear E.
  pose proof (Z.div_mod i 16 ltac:(lia)). pose proof (Z.div_mod j 16 ltac:(lia)). lia.
Qed.

Lemma ring_count_range r w : 0 <= ring_count r w < 65536.
Proof. apply u16_range. Qed.

Lemma ring_count_write r w : ring_count r w < 65535 -> ring_count r (u16 (w + 1)) = ring_count r w + 1.
Proof.
  intros H. pose proof (ring_count_range r w). unfold ring_count, u16 in *.
  rewrite Zminus_mod_idemp_l. replace (w + 1 - r) with (w - r + 1) by lia.
  rewrite <-(Zplus_mod_idemp_l (w - r)). apply Z.mod_small. lia.
Qed.

Lemma ring_count_read r w : 0 < ring_count r w -> ring_count (u16 (r + 1)) w = ring_count r w - 1.
Proof.
  intros H. pose proof (ring_count_range r w). unfold ring_count, u16 in *.
  rewrite Zminus_mod_idemp_r. replace (w - (r + 1)) with (w - r - 1) by lia.
  rewrite <-(Zminus_mod_idemp_l (w - r)). apply Z.mod_small. lia.
Qed.

Lemma ring_count_0 r w : index_ok r -> index_ok w -> ring_count r w = 0 <-> r = w.
Proof.
  unfold index_ok, ring_count, u16. intros Hr Hw. split; [|intros ->; by rewrite Z.sub_diag].
  intros H. apply Z.mod_divide in H; [|lia]. destruct H as [q Hq]. change (2 ^ 16) with 65536 in Hq. lia.
Qed.

Lemma length_ring_items l r w : Z.of_nat (length (ring_items l r w)) = ring_count r w.
Proof.
  unfold ring_items. rewrite length_fmap, length_seq. pose proof (ring_count_range r w). lia.
Qed.

(** Writing at the write index appends. *)
Lemma ring_push l r w x :
  ring_ok l r w -> ring_count r w < VIRTQ_ENTRY_NUM ->
  ring_ok (<[ring_slot w := x]> l) r (u16 (w + 1)) /\
  ring_items (<[ring_slot w := x]> l) r (u16 (w + 1)) = ring_items l r w ++ [x].
Proof.
  intros [Hl Hr Hw Hb] Hc. pose proof (ring_count_range r w) as Hn.
  assert (Ec : ring_count r (u16 (w + 1)) = ring_count r w + 1)
    by (apply ring_count_write; unfold VIRTQ_ENTRY_NUM in *; lia).
  split.
  { split; [by rewrite length_insert|done|apply u16_range|rewrite Ec; lia]. }
  unfold ring_items. rewrite Ec. replace (Z.to_nat (ring_count r w + 1)) with
    (S (Z.to_nat (ring_count r w))) by lia.
  rewrite seq_S, fmap_app. cbn [fmap list_fmap Nat.add]. f_equal.
  - apply list_fmap_ext. intros i k Hk. apply lookup_seq in Hk as [-> Hk].
    apply aget_set_other. intros E. symmetry in E. revert E.
    rewrite <-(ring_slot_u16 w), <-(ring_slot_u16 (r + _)).
    assert (Ew : u16 w = u16 (r + ring_count r w)).
    { unfold ring_count, u16. rewrite Zplus_mod_idemp_r. f_equal. lia. }
    rewrite Ew, !ring_slot_u16. apply ring_slot_inj. lia.
  - f_equal. rewrite Z2Nat.id by lia.
    replace (ring_slot (r + ring_count r w)) with (ring_slot w).
    + apply aget_set_same. pose proof (ring_slot_lt w). lia.
    + rewrite <-(ring_slot_u16 w), <-(ring_slot_u16 (r + _)). f_equal.
      unfold ring_count, u16. rewrite Zplus_mod_idemp_r. f_equal. lia.
Qed.

(** Reading at the read index takes the oldest. *)
Lemma ring_pop l r w :
  ring_ok l r w -> r <> w ->
  ring_ok l (u16 (r + 1)) w /\
  ring_items l r w = l !!! ring_slot r :: ring_items l (u16 (r + 1)) w.
Proof.
  intros [Hl Hr Hw Hb] Hne. pose proof (ring_count_range r w) as Hn.
  assert (Hpos : 0 < ring_count r w).
  { destruct (Z.eq_dec (ring_count r w) 0) as [E|]; [|lia]. apply (ring_count_0 r w Hr Hw) in E. contradiction. }
  pose proof (ring_count_read r w Hpos) as Ec. split.
  { split; [done|apply u16_range|done|rewrite Ec; lia]. }
  unfold ring_items. rewrite Ec.
  replace (Z.to_nat (ring_count r w)) with (S (Z.to_nat (ring_count r w - 1))) by lia.
  cbn [seq fmap list_fmap]. rewrite Z.add_0_r. f_equal.
  rewrite <-fmap_S_seq, <-list_fmap_compose. apply list_fmap_ext. intros i k _. cbn. f_equal.
  rewrite <-(ring_slot_u16 (u16 (r + 1) + _)), <-(ring_slot_u16 (r + _)). f_equal.
  unfold u16. rewrite Zplus_mod_idemp_l. f_equal. lia.
Qed.

Lemma ring_empty l r w : ring_ok l r w -> ring_items l r w = [] <-> r = w.
Proof.
  intros [Hl Hr Hw Hb]. rewrite <-(ring_count_0 r w Hr Hw), <-(length_ring_items l r w).
  destruct (ring_items l r w); cbn; [done|]. split; [done|lia].
Qed.
End Ring.
