(* ===== verification/Virtio.v ===== *)
(** VirtIO over MMIO ([kernel/virtio.c], [include/virtio.h]): device
    registers, device discovery and virtqueues.

    Devices are outside the program: a device state is any type with the
    operations of [Bus].  A virtqueue is shared memory that the driver and the
    device both write; the driver's accesses are the operations below, the
    device's are the environment. *)

From Stdlib Require Import ZArith Lia.
From S2P Require Import Prelude PageHeap Allocator Ring.
Open Scope Z_scope.

(** Memory-mapped registers. A read may change the device. *)
Class Bus (D : Type) : Type := {
  bus_read32 : D -> Z -> Z * D;
  bus_write32 : D -> Z -> Z -> D;
}.

Definition VIRTIO_MAGIC : Z := 0x74726976.
Definition VIRTIO_DEVICE_BLK : Z := 2.
Definition VIRTIO_DEVICE_NET : Z := 1.
Definition VIRTIO_MMIO_PADDR_START : Z := 0x10001000.
Definition VIRTIO_MMIO_PADDR_END : Z := 0x10008000.
Definition VIRTIO_MMIO_STRIDE : Z := 0x1000.
Definition VIRTIO_REG_MAGIC : Z := 0x00.
Definition VIRTIO_REG_VERSION : Z := 0x04.
Definition VIRTIO_REG_DEVICE_ID : Z := 0x08.
Definition VIRTIO_REG_PAGE_SIZE : Z := 0x28.
Definition VIRTIO_REG_QUEUE_SEL : Z := 0x30.
Definition VIRTIO_REG_QUEUE_NUM : Z := 0x38.
Definition VIRTIO_REG_QUEUE_PFN : Z := 0x40.
Definition VIRTIO_REG_QUEUE_NOTIFY : Z := 0x50.
Definition VIRTIO_REG_INTERRUPT_STATUS : Z := 0x60.
Definition VIRTIO_REG_INTERRUPT_ACK : Z := 0x64.
Definition VIRTIO_REG_DEVICE_STATUS : Z := 0x70.
Definition VIRTIO_REG_DEVICE_CONFIG : Z := 0x100.
Definition VIRTIO_STATUS_ACK : Z := 1.
Definition VIRTIO_STATUS_DRIVER : Z := 2.
Definition VIRTIO_STATUS_DRIVER_OK : Z := 4.
Definition VIRTQ_DESC_F_NEXT : Z := 1.
Definition VIRTQ_DESC_F_WRITE : Z := 2.
Definition VIRTIO_INT_USED_BUFFER : Z := 1.

Record virtio_device : Type := mkDevice { dev_base : Z; device_id : Z }.

Record virtq_desc : Type := mkDesc { d_addr : Z; d_len : Z; d_flags : Z; d_next : Z }.
#[export] Instance virtq_desc_inhabited : Inhabited virtq_desc := populate (mkDesc 0 0 0 0).

Record virtq_used_elem : Type := mkUsed { used_id : Z; used_len : Z }.
#[export] Instance virtq_used_elem_inhabited : Inhabited virtq_used_elem := populate (mkUsed 0 0).

(** [struct virtio_virtq]; [used_index] is the field [used.index], which the
    pointer of the same name points to. *)
Record virtio_virtq : Type := mkVirtq {
  descs : list virtq_desc;
  avail_index : Z;
  avail_ring : list Z;
  used_index : Z;
  used_ring : list virtq_used_elem;
  queue_index : Z;
  submitted_index : Z;
  consumed_used_index : Z;
}.

Definition set_descs (v : list virtq_desc) (q : virtio_virtq) : virtio_virtq :=
  mkVirtq v (avail_index q) (avail_ring q) (used_index q) (used_ring q) (queue_index q)
    (submitted_index q) (consumed_used_index q).
Definition set_avail (ring : list Z) (i : Z) (q : virtio_virtq) : virtio_virtq :=
  mkVirtq (descs q) i ring (used_index q) (used_ring q) (queue_index q)
    (submitted_index q) (consumed_used_index q).
Definition set_submitted (v : Z) (q : virtio_virtq) : virtio_virtq :=
  mkVirtq (descs q) (avail_index q) (avail_ring q) (used_index q) (used_ring q) (queue_index q)
    v (consumed_used_index q).
Definition set_consumed (v : Z) (q : virtio_virtq) : virtio_virtq :=
  mkVirtq (descs q) (avail_index q) (avail_ring q) (used_index q) (used_ring q) (queue_index q)
    (submitted_index q) v.

(** A queue in a cleared page. *)
Definition virtq_zero : virtio_virtq :=
  let n := Z.to_nat VIRTQ_ENTRY_NUM in
  mkVirtq (replicate n (mkDesc 0 0 0 0)) 0 (replicate n 0) 0 (replicate n (mkUsed 0 0)) 0 0 0.

Section Registers.
Context {D : Type} `{!Bus D}.
Implicit Types (d : D) (dev : virtio_device).

Definition virtio_reg_read32 d dev (offset : Z) : Z * D :=
  bus_read32 d (u32 (dev_base dev + offset)).

(** Two 32-bit loads on rv32. *)
Definition virtio_reg_read64 d dev (offset : Z) : Z * D :=
  let '(lo, d) := bus_read32 d (u32 (dev_base dev + offset)) in
  let '(hi, d) := bus_read32 d (u32 (dev_base dev + offset + 4)) in
  (Z.lor (Z.shiftl hi 32) lo, d).

Definition virtio_reg_write32 d dev (offset value : Z) : D :=
  bus_write32 d (u32 (dev_base dev + offset)) (u32 value).

Definition virtio_reg_fetch_and_or32 d dev (offset value : Z) : D :=
  let '(old, d) := virtio_reg_read32 d dev offset in
  virtio_reg_write32 d dev offset (Z.lor old value).

Definition virtio_irq_status d dev : Z * D := virtio_reg_read32 d dev VIRTIO_REG_INTERRUPT_STATUS.
Definition virtio_irq_ack d dev (status : Z) : D :=
  virtio_reg_write32 d dev VIRTIO_REG_INTERRUPT_ACK status.

(** [virtio_probe]: the result, [*dev] and the devices afterwards. *)
Definition virtio_probe d (base want : Z) : bool * virtio_device * D :=
  let dev := mkDevice base 0 in
  let '(id, d) := virtio_reg_read32 d dev VIRTIO_REG_DEVICE_ID in
  let dev := mkDevice base id in
  let '(magic, d) := virtio_reg_read32 d dev VIRTIO_REG_MAGIC in
  if negb (magic =? VIRTIO_MAGIC) then (false, dev, d)
  else
    let '(version, d) := virtio_reg_read32 d dev VIRTIO_REG_VERSION in
    if negb (version =? 1) then (false, dev, d) else (id =? want, dev, d).

(** The loop of [virtio_find_device]; eight addresses fit the range. *)
Fixpoint find_device_from (fuel : nat) d dev (base want : Z) : bool * virtio_device * D :=
  match fuel with
  | O => (false, dev, d)
  | S n =>
      if base <=? VIRTIO_MMIO_PADDR_END then
        let '(found, dev, d) := virtio_probe d base want in
        if (found : bool) then (true, dev, d)
        else find_device_from n d dev (base + VIRTIO_MMIO_STRIDE) want
      else (false, dev, d)
  end.
Definition virtio_find_device d dev (want : Z) : bool * virtio_device * D :=
  find_device_from 9 d dev VIRTIO_MMIO_PADDR_START want.

Definition virtio_begin_init d dev : D :=
  let d := virtio_reg_write32 d dev VIRTIO_REG_DEVICE_STATUS 0 in
  let d := virtio_reg_fetch_and_or32 d dev VIRTIO_REG_DEVICE_STATUS VIRTIO_STATUS_ACK in
  let d := virtio_reg_fetch_and_or32 d dev VIRTIO_REG_DEVICE_STATUS VIRTIO_STATUS_DRIVER in
  virtio_reg_write32 d dev VIRTIO_REG_PAGE_SIZE PAGE_SIZE.

Definition virtio_finish_init d dev : D :=
  virtio_reg_write32 d dev VIRTIO_REG_DEVICE_STATUS VIRTIO_STATUS_DRIVER_OK.

Definition virtq_notify d dev (vq : virtio_virtq) : D :=
  virtio_reg_write32 d dev VIRTIO_REG_QUEUE_NOTIFY (queue_index vq).

(** Two pages hold a [struct virtio_virtq]; the allocator hands them out
    cleared. *)
Definition virtq_init {H : Type} `{!PageHeap H} (h : H) d dev (index : Z)
    : outcome (Z * virtio_virtq * H * D) :=
  '(virtq_region, virtq_paddr, h) ← ph_alloc h 2;
  let vq := mkVirtq (descs virtq_zero) 0 (avail_ring virtq_zero) 0 (used_ring virtq_zero) index 0 0 in
  let d := virtio_reg_write32 d dev VIRTIO_REG_QUEUE_SEL index in
  let d := virtio_reg_write32 d dev VIRTIO_REG_QUEUE_NUM VIRTQ_ENTRY_NUM in
  let d := virtio_reg_write32 d dev VIRTIO_REG_QUEUE_PFN (virtq_paddr / PAGE_SIZE) in
  Ret (virtq_region, vq, h, d).
End Registers.

(** ** The rings *)

Definition virtq_push (vq : virtio_virtq) (desc_index : Z) : virtio_virtq :=
  let i := avail_index vq in
  set_avail (<[ring_slot i := u16 desc_index]> (avail_ring vq)) (u16 (i + 1)) vq.

Definition virtq_kick {D : Type} `{!Bus D} (d : D) (dev : virtio_device) (vq : virtio_virtq)
    (desc_index : Z) : virtio_virtq * D :=
  let vq := virtq_push vq desc_index in
  let vq := set_submitted (u16 (submitted_index vq + 1)) vq in
  (vq, virtq_notify d dev vq).

(** [None] for [false], otherwise the element stored in [*elem]. *)
Definition virtq_pop_used (vq : virtio_virtq) : option (virtq_used_elem * virtio_virtq) :=
  if consumed_used_index vq =? used_index vq then None
  else
    let elem := used_ring vq !!! ring_slot (consumed_used_index vq) in
    Some (elem, set_consumed (u16 (consumed_used_index vq + 1)) vq).

Definition virtq_is_busy (vq : virtio_virtq) : bool :=
  negb (consumed_used_index vq =? submitted_index vq).

(** ** Driver and device on one queue

    The device follows VirtIO 1.0, 2.4: it fetches descriptor indices from
    the available ring in order, with an index of its own ([q_seen]), and
    adds a completion at [used.index], never having more than a ring of them
    unread. *)
Record queue_state : Type := mkQueue { q_vq : virtio_virtq; q_seen : Z }.

Definition set_used (ring : list virtq_used_elem) (i : Z) (q : virtio_virtq) : virtio_virtq :=
  mkVirtq (descs q) (avail_index q) (avail_ring q) i ring (queue_index q)
    (submitted_index q) (consumed_used_index q).

Inductive queue_event : Type :=
  | Push (desc_index : Z)          (* driver: [virtq_push] *)
  | Fetch (desc_index : Z)         (* device takes the next available index *)
  | Complete (e : virtq_used_elem) (* device adds a used element *)
  | Pop (e : virtq_used_elem).     (* driver: [virtq_pop_used] returns true *)

Inductive queue_step : queue_state -> queue_event -> queue_state -> Prop :=
  | step_push vq seen i :
      ring_count seen (avail_index vq) < VIRTQ_ENTRY_NUM ->
      queue_step (mkQueue vq seen) (Push i) (mkQueue (virtq_push vq i) seen)
  | step_fetch vq seen :
      seen <> avail_index vq ->
      queue_step (mkQueue vq seen) (Fetch (avail_ring vq !!! ring_slot seen))
        (mkQueue vq (u16 (seen + 1)))
  | step_complete vq seen e :
      ring_count (consumed_used_index vq) (used_index vq) < VIRTQ_ENTRY_NUM ->
      queue_step (mkQueue vq seen) (Complete e)
        (mkQueue (set_used (<[ring_slot (used_index vq) := e]> (used_ring vq))
                    (u16 (used_index vq + 1)) vq) seen)
  | step_pop vq seen e vq' :
      virtq_pop_used vq = Some (e, vq') ->
      queue_step (mkQueue vq seen) (Pop e) (mkQueue vq' seen).

Inductive queue_run : queue_state -> list queue_event -> queue_state -> Prop :=
  | run_nil s : queue_run s [] s
  | run_cons s e s1 evs s' : queue_step s e s1 -> queue_run s1 evs s' -> queue_run s (e :: evs) s'.

Definition pushed (e : queue_event) : list Z := match e with Push i => [u16 i] | _ => [] end.
Definition fetched (e : queue_event) : list Z := match e with Fetch i => [i] | _ => [] end.
Definition completed (e : queue_event) : list virtq_used_elem := match e with Complete x => [x] | _ => [] end.
Definition popped (e : queue_event) : list virtq_used_elem := match e with Pop x => [x] | _ => [] end.

Definition to_fetch (s : queue_state) : list Z :=
  ring_items (avail_ring (q_vq s)) (q_seen s) (avail_index (q_vq s)).
Definition to_pop (vq : virtio_virtq) : list virtq_used_elem :=
  ring_items (used_ring vq) (consumed_used_index vq) (used_index vq).

Definition used_ok (vq : virtio_virtq) : Prop :=
  ring_ok (used_ring vq) (consumed_used_index vq) (used_index vq).

(** The device completes a buffer when none waits to be popped. *)
Lemma one_used vq vq' x :
  used_ok vq -> to_pop vq = [] ->
  vq' = set_used (<[ring_slot (used_index vq) := x]> (used_ring vq)) (u16 (used_index vq + 1)) vq ->
  used_ok vq' /\ to_pop vq' = [x].
Proof.
  intros Hu Hn ->. destruct (ring_push _ _ _ x Hu) as [Hu' Ep].
  - by rewrite <-(length_ring_items (used_ring vq)), (Hn : ring_items _ _ _ = []).
  - split; [exact Hu'|]. unfold to_pop. cbn. by rewrite Ep, (Hn : ring_items _ _ _ = []).
Qed.

Record queue_ok (s : queue_state) : Prop := {
  queue_avail_ok : ring_ok (avail_ring (q_vq s)) (q_seen s) (avail_index (q_vq s));
  queue_used_ok : used_ok (q_vq s);
}.

Lemma virtq_pop_used_spec vq :
  used_ok vq ->
  match virtq_pop_used vq with
  | None => to_pop vq = []
  | Some (e, vq') => to_pop vq = e :: to_pop vq' /\ used_ok vq' /\
      vq' = set_consumed (u16 (consumed_used_index vq + 1)) vq
  end.
Proof.
  intros Hu. unfold virtq_pop_used.
  destruct (Z.eqb_spec (consumed_used_index vq) (used_index vq)) as [E|Hne].
  - by apply ring_empty.
  - destruct (ring_pop _ _ _ Hu Hne) as [Hok E]. split; [exact E|]. split; [exact Hok|reflexivity].
Qed.

Lemma queue_step_spec s e s' :
  queue_step s e s' -> queue_ok s ->
  queue_ok s' /\ fetched e ++ to_fetch s' = to_fetch s ++ pushed e /\
  popped e ++ to_pop (q_vq s') = to_pop (q_vq s) ++ completed e.
Proof.
  intros Hstep [Ha Hu].
  destruct Hstep as [vq seen i Hc|vq seen Hne|vq seen e Hc|vq seen e vq' Hp];
    unfold to_fetch; cbn [q_vq q_seen] in *; cbn [fetched pushed popped completed app].
  - destruct (ring_push _ _ _ (u16 i) Ha Hc) as [Ha' E].
    split; [by split|]. split; [exact E|by rewrite app_nil_r].
  - destruct (ring_pop _ _ _ Ha Hne) as [Ha' E].
    split; [by split|]. split; rewrite app_nil_r; [by rewrite E|reflexivity].
  - destruct (ring_push _ _ _ e Hu Hc) as [Hu' E].
    split; [by split|]. split; [by rewrite app_nil_r|exact E].
  - pose proof (virtq_pop_used_spec vq Hu) as H. rewrite Hp in H. destruct H as (E & Hu' & ->).
    split; [by split|]. split; rewrite app_nil_r; [reflexivity|by rewrite E].
Qed.

(** C31: A virtqueue is a pair of first-in-first-out channels.  For every
    interleaving of driver and device steps in which the driver pushes only while
    fewer than 16 entries are outstanding ([virtq_push] does not test this; its
    callers keep it), what the device fetched followed
    by what is still in the available ring is what the driver pushed, in that
    order, and what [virtq_pop_used] returned followed by what is still in the
    used ring is what the device completed: nothing is lost, repeated or
    reordered, also when the 16-bit indices wrap. *)
Theorem virtqueue_fifo s evs s' :
  queue_ok s -> queue_run s evs s' ->
  queue_ok s' /\
  (evs ≫= fetched) ++ to_fetch s' = to_fetch s ++ (evs ≫= pushed) /\
  (evs ≫= popped) ++ to_pop (q_vq s') = to_pop (q_vq s) ++ (evs ≫= completed).
Proof.
  intros Hok Hrun. induction Hrun as [s|s e s1 evs s' Hstep Hrun IH].
  - split; [exact Hok|]. by rewrite !app_nil_r.
  - destruct (queue_step_spec _ _ _ Hstep Hok) as (Hok1 & Ef & Ep).
    destruct (IH Hok1) as (Hok' & Ef' & Ep'). split; [exact Hok'|].
    rewrite !bind_cons, <-!(assoc_L (++)), Ef', Ep', !(assoc_L (++)), Ef, Ep. done.
Qed.

(** A completion crossing the wrap of the 16-bit index: the queue has been
    used 65535 times. *)
Lemma virtqueue_fifo_witness :
  let vq := mkVirtq (descs virtq_zero) 65535 (avail_ring virtq_zero) 65535 (used_ring virtq_zero) 0 65535 65535 in
  let s := mkQueue vq 65535 in
  exists s', queue_run s [Push 3; Fetch 3; Complete (mkUsed 3 60); Push 4; Pop (mkUsed 3 60)] s' /\
    [3] ++ to_fetch s' = [] ++ [3; 4] /\ to_pop (q_vq s') = [].
Proof.
  intros vq s.
  assert (Hok : queue_ok s).
  { split; split; first [reflexivity | unfold index_ok; cbn; lia | vm_compute; discriminate]. }
  eexists. match goal with |- ?R /\ _ => assert (Hrun : R) end.
  { eapply run_cons; [apply step_push; vm_compute; reflexivity|].
    eapply run_cons; [apply (step_fetch (virtq_push vq 3) 65535); vm_compute; discriminate|].
    eapply run_cons; [apply step_complete; vm_compute; reflexivity|].
    eapply run_cons; [apply step_push; vm_compute; reflexivity|].
    eapply run_cons; [apply step_pop; reflexivity|]. apply run_nil. }
  split; [exact Hrun|].
  destruct (virtqueue_fifo _ _ _ Hok Hrun) as (_ & Ef & Ep). split; [exact Ef|].
  exact (app_inv_head [mkUsed 3 60] _ [] Ep).
Defined.
