(* ===== verification/Machine.v ===== *)
(** The state of the device drivers and of the network stack.

    [machine] gathers the static variables of [kernel/virtio_net.c],
    [kernel/virtio_blk.c], [kernel/arp.c] and [kernel/ipv4.c], the memory the
    devices share with them ([dma]), the CSR bit they use, and what has been
    written to the console.  The devices themselves are a parameter [D]. *)

From Stdlib Require Import ZArith Lia.
From S2P Require Import Prelude Strings Bytes Arp Ipv4 Ring Virtio.
Open Scope Z_scope.

Definition ETH_MAX_FRAME_SIZE : nat := 1514.
Definition SECTOR_SIZE : Z := 512.
Definition SSTATUS_SIE : Z := Z.shiftl 1 1.

Record virtio_net_capture : Type := mkCapture {
  cap_len : Z;
  cap_ethertype : Z;
  cap_frame : list Z;
}.
#[export] Instance virtio_net_capture_inhabited : Inhabited virtio_net_capture :=
  populate (mkCapture 0 0 (replicate ETH_MAX_FRAME_SIZE 0)).

(** Receive counters and the last test frame. *)
Record rx_vars : Type := mkRx {
  net_rx_packets : Z;
  net_rx_test_packets : Z;
  net_last_rx_len : Z;
  net_last_rx_ethertype : Z;
  net_last_test_frame : list Z;
  net_last_test_frame_len : Z;
}.
Definition set_net_rx_packets (v : Z) (r : rx_vars) : rx_vars :=
  mkRx v (net_rx_test_packets r) (net_last_rx_len r) (net_last_rx_ethertype r) (net_last_test_frame r) (net_last_test_frame_len r).
Definition set_net_rx_test_packets (v : Z) (r : rx_vars) : rx_vars :=
  mkRx (net_rx_packets r) v (net_last_rx_len r) (net_last_rx_ethertype r) (net_last_test_frame r) (net_last_test_frame_len r).
Definition set_net_last_rx_len (v : Z) (r : rx_vars) : rx_vars :=
  mkRx (net_rx_packets r) (net_rx_test_packets r) v (net_last_rx_ethertype r) (net_last_test_frame r) (net_last_test_frame_len r).
Definition set_net_last_rx_ethertype (v : Z) (r : rx_vars) : rx_vars :=
  mkRx (net_rx_packets r) (net_rx_test_packets r) (net_last_rx_len r) v (net_last_test_frame r) (net_last_test_frame_len r).
Definition set_net_last_test_frame (v : list Z) (r : rx_vars) : rx_vars :=
  mkRx (net_rx_packets r) (net_rx_test_packets r) (net_last_rx_len r) (net_last_rx_ethertype r) v (net_last_test_frame_len r).
Definition set_net_last_test_frame_len (v : Z) (r : rx_vars) : rx_vars :=
  mkRx (net_rx_packets r) (net_rx_test_packets r) (net_last_rx_len r) (net_last_rx_ethertype r) (net_last_test_frame r) v.

(** The ring of captured frames. *)
Record capture_vars : Type := mkCaptures {
  net_rx_captures : list virtio_net_capture;
  net_rx_capture_write : Z;
  net_rx_capture_read : Z;
  net_rx_capture_drops : Z;
}.
Definition set_net_rx_captures (v : list virtio_net_capture) (r : capture_vars) : capture_vars :=
  mkCaptures v (net_rx_capture_write r) (net_rx_capture_read r) (net_rx_capture_drops r).
Definition set_net_rx_capture_write (v : Z) (r : capture_vars) : capture_vars :=
  mkCaptures (net_rx_captures r) v (net_rx_capture_read r) (net_rx_capture_drops r).
Definition set_net_rx_capture_read (v : Z) (r : capture_vars) : capture_vars :=
  mkCaptures (net_rx_captures r) (net_rx_capture_write r) v (net_rx_capture_drops r).
Definition set_net_rx_capture_drops (v : Z) (r : capture_vars) : capture_vars :=
  mkCaptures (net_rx_captures r) (net_rx_capture_write r) (net_rx_capture_read r) v.

(** Transmit counters and the completion flag. *)
Record tx_vars : Type := mkTx {
  net_tx_packets : Z;
  net_last_tx_len : Z;
  net_pending_tx_len : Z;
  net_tx_done : bool;
}.
Definition set_net_tx_packets (v : Z) (r : tx_vars) : tx_vars :=
  mkTx v (net_last_tx_len r) (net_pending_tx_len r) (net_tx_done r).
Definition set_net_last_tx_len (v : Z) (r : tx_vars) : tx_vars :=
  mkTx (net_tx_packets r) v (net_pending_tx_len r) (net_tx_done r).
Definition set_net_pending_tx_len (v : Z) (r : tx_vars) : tx_vars :=
  mkTx (net_tx_packets r) (net_last_tx_len r) v (net_tx_done r).
Definition set_net_tx_done (v : bool) (r : tx_vars) : tx_vars :=
  mkTx (net_tx_packets r) (net_last_tx_len r) (net_pending_tx_len r) v.

(** [net_up]: [net_rx_vq] and [net_tx_vq] are not [NULL]. *)
Record net_vars : Type := mkNet {
  net_dev : virtio_device;
  net_up : bool;
  net_rx_paddr : Z;
  net_tx_paddr : Z;
  n_rx : rx_vars;
  n_cap : capture_vars;
  n_tx : tx_vars;
}.
Definition set_net_dev (v : virtio_device) (r : net_vars) : net_vars :=
  mkNet v (net_up r) (net_rx_paddr r) (net_tx_paddr r) (n_rx r) (n_cap r) (n_tx r).
Definition set_net_up (v : bool) (r : net_vars) : net_vars :=
  mkNet (net_dev r) v (net_rx_paddr r) (net_tx_paddr r) (n_rx r) (n_cap r) (n_tx r).
Definition set_net_rx_paddr (v : Z) (r : net_vars) : net_vars :=
  mkNet (net_dev r) (net_up r) v (net_tx_paddr r) (n_rx r) (n_cap r) (n_tx r).
Definition set_net_tx_paddr (v : Z) (r : net_vars) : net_vars :=
  mkNet (net_dev r) (net_up r) (net_rx_paddr r) v (n_rx r) (n_cap r) (n_tx r).
Definition set_n_rx (v : rx_vars) (r : net_vars) : net_vars :=
  mkNet (net_dev r) (net_up r) (net_rx_paddr r) (net_tx_paddr r) v (n_cap r) (n_tx r).
Definition set_n_cap (v : capture_vars) (r : net_vars) : net_vars :=
  mkNet (net_dev r) (net_up r) (net_rx_paddr r) (net_tx_paddr r) (n_rx r) v (n_tx r).
Definition set_n_tx (v : tx_vars) (r : net_vars) : net_vars :=
  mkNet (net_dev r) (net_up r) (net_rx_paddr r) (net_tx_paddr r) (n_rx r) (n_cap r) v.

(** Block driver variables. *)
Record blk_vars : Type := mkBlk {
  blk_dev : virtio_device;
  blk_req_paddr : Z;
  blk_capacity : Z;
  blk_done : bool;
}.
Definition set_blk_dev (v : virtio_device) (r : blk_vars) : blk_vars :=
  mkBlk v (blk_req_paddr r) (blk_capacity r) (blk_done r).
Definition set_blk_req_paddr (v : Z) (r : blk_vars) : blk_vars :=
  mkBlk (blk_dev r) v (blk_capacity r) (blk_done r).
Definition set_blk_capacity (v : Z) (r : blk_vars) : blk_vars :=
  mkBlk (blk_dev r) (blk_req_paddr r) v (blk_done r).
Definition set_blk_done (v : bool) (r : blk_vars) : blk_vars :=
  mkBlk (blk_dev r) (blk_req_paddr r) (blk_capacity r) v.

(** A block request: header, data, status. *)
Record virtio_blk_req : Type := mkReq {
  req_type : Z;
  req_sector : Z;
  req_data : list Z;
  req_status : Z;
}.
Definition set_req_type (v : Z) (r : virtio_blk_req) : virtio_blk_req :=
  mkReq v (req_sector r) (req_data r) (req_status r).
Definition set_req_sector (v : Z) (r : virtio_blk_req) : virtio_blk_req :=
  mkReq (req_type r) v (req_data r) (req_status r).
Definition set_req_data (v : list Z) (r : virtio_blk_req) : virtio_blk_req :=
  mkReq (req_type r) (req_sector r) v (req_status r).
Definition set_req_status (v : Z) (r : virtio_blk_req) : virtio_blk_req :=
  mkReq (req_type r) (req_sector r) (req_data r) v.

(** Memory that devices read and write. *)
Record dma : Type := mkDma {
  rx_vq : virtio_virtq;
  rx_bufs : list (list Z);
  tx_vq : virtio_virtq;
  tx_buf : list Z;
  blk_vq : virtio_virtq;
  blk_req : virtio_blk_req;
}.
Definition set_rx_vq (v : virtio_virtq) (r : dma) : dma :=
  mkDma v (rx_bufs r) (tx_vq r) (tx_buf r) (blk_vq r) (blk_req r).
Definition set_rx_bufs (v : list (list Z)) (r : dma) : dma :=
  mkDma (rx_vq r) v (tx_vq r) (tx_buf r) (blk_vq r) (blk_req r).
Definition set_tx_vq (v : virtio_virtq) (r : dma) : dma :=
  mkDma (rx_vq r) (rx_bufs r) v (tx_buf r) (blk_vq r) (blk_req r).
Definition set_tx_buf (v : list Z) (r : dma) : dma :=
  mkDma (rx_vq r) (rx_bufs r) (tx_vq r) v (blk_vq r) (blk_req r).
Definition set_blk_vq (v : virtio_virtq) (r : dma) : dma :=
  mkDma (rx_vq r) (rx_bufs r) (tx_vq r) (tx_buf r) v (blk_req r).
Definition set_blk_req (v : virtio_blk_req) (r : dma) : dma :=
  mkDma (rx_vq r) (rx_bufs r) (tx_vq r) (tx_buf r) (blk_vq r) v.

(** The part of the kernel that talks to devices. *)
Record machine (D : Type) : Type := mkMachine {
  m_dev : D;
  m_sstatus : Z;
  m_out : list Z;
  m_dma : dma;
  m_net : net_vars;
  m_blk : blk_vars;
  m_arp : arp_state;
  m_ip : ipv4_state;
}.
Arguments mkMachine {D}.
Arguments m_dev {D}.
Arguments m_sstatus {D}.
Arguments m_out {D}.
Arguments m_dma {D}.
Arguments m_net {D}.
Arguments m_blk {D}.
Arguments m_arp {D}.
Arguments m_ip {D}.

Section Setters.
Context {D : Type}.
Implicit Types (m : machine D).
Definition set_m_dev (v : D) m : machine D :=
  mkMachine v (m_sstatus m) (m_out m) (m_dma m) (m_net m) (m_blk m) (m_arp m) (m_ip m).
Definition set_m_sstatus (v : Z) m : machine D :=
  mkMachine (m_dev m) v (m_out m) (m_dma m) (m_net m) (m_blk m) (m_arp m) (m_ip m).
Definition set_m_out (v : list Z) m : machine D :=
  mkMachine (m_dev m) (m_sstatus m) v (m_dma m) (m_net m) (m_blk m) (m_arp m) (m_ip m).
Definition set_m_dma (v : dma) m : machine D :=
  mkMachine (m_dev m) (m_sstatus m) (m_out m) v (m_net m) (m_blk m) (m_arp m) (m_ip m).
Definition set_m_net (v : net_vars) m : machine D :=
  mkMachine (m_dev m) (m_sstatus m) (m_out m) (m_dma m) v (m_blk m) (m_arp m) (m_ip m).
Definition set_m_blk (v : blk_vars) m : machine D :=
  mkMachine (m_dev m) (m_sstatus m) (m_out m) (m_dma m) (m_net m) v (m_arp m) (m_ip m).
Definition set_m_arp (v : arp_state) m : machine D :=
  mkMachine (m_dev m) (m_sstatus m) (m_out m) (m_dma m) (m_net m) (m_blk m) v (m_ip m).
Definition set_m_ip (v : ipv4_state) m : machine D :=
  mkMachine (m_dev m) (m_sstatus m) (m_out m) (m_dma m) (m_net m) (m_blk m) (m_arp m) v.

Definition set_rx_queue (q : virtio_virtq) m := set_m_dma (set_rx_vq q (m_dma m)) m.
Definition set_tx_queue (q : virtio_virtq) m := set_m_dma (set_tx_vq q (m_dma m)) m.
Definition set_blk_queue (q : virtio_virtq) m := set_m_dma (set_blk_vq q (m_dma m)) m.
Definition set_tx_frame (f : list Z) m := set_m_dma (set_tx_buf f (m_dma m)) m.
Definition set_request (r : virtio_blk_req) m := set_m_dma (set_blk_req r (m_dma m)) m.
Definition set_rx (v : rx_vars) m := set_m_net (set_n_rx v (m_net m)) m.
Definition set_cap (v : capture_vars) m := set_m_net (set_n_cap v (m_net m)) m.
Definition set_tx (v : tx_vars) m := set_m_net (set_n_tx v (m_net m)) m.

(** Output through [putchar]. *)
Definition emit (s : list Z) m : machine D := set_m_out (m_out m ++ s) m.
End Setters.

(** The devices as the CPU sees them: registers, and what they do to the
    shared memory while the CPU waits in [wfi].  [dev_wait] ends with an
    interrupt for this hart; it is [None] when none ever comes.  [wakes]
    bounds the interrupts one wait takes. *)
Class Devices (D : Type) : Type := {
  #[global] devices_bus :: Bus D;
  dev_wait : D -> dma -> option (D * dma);
  wakes : nat;
}.
