(* ===== verification/NetDriver.v ===== *)
(** The network driver, interrupt side ([kernel/virtio_net.c]): receive
    buffers, the drain loops, the capture ring and its reader.

    Transmission waits for interrupts and is in [NetStack.v]. *)

From Stdlib Require Import ZArith Lia.
From S2P Require Import Prelude Strings Bytes Arp Ipv4 PageHeap Ring Virtio Machine.
Open Scope Z_scope.

Definition NET_RX_QUEUE : Z := 0.
Definition NET_TX_QUEUE : Z := 1.
Definition NET_RX_BUF_NUM : nat := 16.
Definition NET_RX_CAPTURE_NUM : Z := VIRTQ_ENTRY_NUM.
Definition VIRTIO_NET_TEST_ETHERTYPE : Z := 0x88b5.
Definition net_mac : list Z := [0x52; 0x54; 0x00; 0x12; 0x34; 0x56].

(** [sizeof(struct virtio_net_hdr)], [sizeof(struct virtio_net_buf)] *)
Definition SIZEOF_NET_HDR : Z := 10.
Definition SIZEOF_NET_BUF : Z := 1524.

(** [virtio_net_enqueue_rx]; the queue afterwards. *)
Definition enqueue_desc (net_rx_paddr : Z) (vq : virtio_virtq) (index : Z) : virtio_virtq :=
  virtq_push
    (set_descs (<[Z.to_nat index := mkDesc (u32 (net_rx_paddr + index * SIZEOF_NET_BUF))
       SIZEOF_NET_BUF VIRTQ_DESC_F_WRITE 0]> (descs vq)) vq) index.

(** [virtio_net_capture_rx] *)
Definition virtio_net_capture_rx (c : capture_vars) (frame : list Z) (frame_len ethertype : Z)
    : capture_vars :=
  if NET_RX_CAPTURE_NUM <=? u16 (net_rx_capture_write c - net_rx_capture_read c) then
    set_net_rx_capture_drops (u32 (net_rx_capture_drops c + 1)) c
  else
    let i := ring_slot (net_rx_capture_write c) in
    let capture := net_rx_captures c !!! i in
    let capture := mkCapture frame_len ethertype
                     (put 0 (take (Z.to_nat frame_len) frame) (cap_frame capture)) in
    set_net_rx_capture_write (u16 (net_rx_capture_write c + 1))
      (set_net_rx_captures (<[i := capture]> (net_rx_captures c)) c).

Section Driver.
Context {D : Type} `{!Bus D}.
Implicit Types (m : machine D).

Definition virtio_net_enqueue_rx m (index : Z) : outcome (machine D) :=
  _ ← defined_if ((0 <=? index) && (index <? VIRTQ_ENTRY_NUM));
  Ret (set_rx_queue (enqueue_desc (net_rx_paddr (m_net m)) (rx_vq (m_dma m)) index) m).

(** The accepted branch of [virtio_net_drain_rx]: a frame of at least an
    Ethernet header. *)
Definition receive_frame m (frame : list Z) (frame_len : Z) : outcome (machine D) :=
  let frame_len := if Z.of_nat ETH_MAX_FRAME_SIZE <? frame_len
                   then Z.of_nat ETH_MAX_FRAME_SIZE else frame_len in
  let eth_type := Z.lor (u16 (Z.shiftl (byte frame 12) 8)) (byte frame 13) in
  let rx := n_rx (m_net m) in
  let m := set_rx (set_net_last_rx_ethertype eth_type (set_net_last_rx_len frame_len
             (set_net_rx_packets (u32 (net_rx_packets rx + 1)) rx))) m in
  let m := set_cap (virtio_net_capture_rx (n_cap (m_net m)) frame frame_len eth_type) m in
  arp ← (if eth_type =? ARP_ETHERTYPE then arp_receive (m_arp m) frame frame_len else Ret (m_arp m));
  let m := set_m_arp arp m in
  ip ← (if eth_type =? IPV4_ETHERTYPE then ipv4_receive (m_ip m) frame frame_len else Ret (m_ip m));
  let m := set_m_ip ip m in
  if eth_type =? VIRTIO_NET_TEST_ETHERTYPE then
    let rx := n_rx (m_net m) in
    Ret (set_rx (set_net_rx_test_packets (u32 (net_rx_test_packets rx + 1))
           (set_net_last_test_frame_len frame_len
             (set_net_last_test_frame
                (put 0 (take (Z.to_nat frame_len) frame) (net_last_test_frame rx)) rx))) m)
  else Ret m.

(** One used element. *)
Definition drain_rx_elem m (used : virtq_used_elem) : outcome (machine D) :=
  let desc_index := used_id used in
  let packet_len := used_len used in
  m ← (if SIZEOF_NET_HDR + 14 <=? packet_len then
         _ ← defined_if (desc_index <? Z.of_nat (length (rx_bufs (m_dma m))));
         receive_frame m (rx_bufs (m_dma m) !!! Z.to_nat desc_index) (packet_len - SIZEOF_NET_HDR)
       else
         let rx := n_rx (m_net m) in
         Ret (set_rx (set_net_last_rx_ethertype 0 (set_net_last_rx_len packet_len
                (set_net_rx_packets (u32 (net_rx_packets rx + 1)) rx))) m));
  virtio_net_enqueue_rx m desc_index.

(** [while (virtq_pop_used(net_rx_vq, &used))]; the index distance bounds it. *)
Fixpoint drain_rx_loop (fuel : nat) m (recycled : bool) : outcome (machine D * bool) :=
  match virtq_pop_used (rx_vq (m_dma m)) with
  | None => Ret (m, recycled)
  | Some (used, vq) =>
      match fuel with
      | O => Undef
      | S n => m ← drain_rx_elem (set_rx_queue vq m) used; drain_rx_loop n m true
      end
  end.

Definition used_count (vq : virtio_virtq) : nat :=
  Z.to_nat (ring_count (consumed_used_index vq) (used_index vq)).

Definition virtio_net_drain_rx m : outcome (machine D) :=
  '(m, recycled) ← drain_rx_loop (used_count (rx_vq (m_dma m))) m false;
  if (recycled : bool) then
    Ret (set_m_dev (virtq_notify (m_dev m) (net_dev (m_net m)) (rx_vq (m_dma m))) m)
  else Ret m.

Fixpoint drain_tx_loop (fuel : nat) m : outcome (machine D) :=
  match virtq_pop_used (tx_vq (m_dma m)) with
  | None => Ret m
  | Some (_, vq) =>
      match fuel with
      | O => Undef
      | S n =>
          let m := set_tx_queue vq m in
          let tx := n_tx (m_net m) in
          let m := set_tx (set_net_tx_done true (set_net_last_tx_len (net_pending_tx_len tx)
                     (set_net_tx_packets (u32 (net_tx_packets tx + 1)) tx))) m in
          drain_tx_loop n m
      end
  end.

Definition virtio_net_drain_tx m : outcome (machine D) :=
  drain_tx_loop (used_count (tx_vq (m_dma m))) m.

Definition virtio_net_irq m : outcome (machine D) :=
  let '(status, d) := virtio_irq_status (m_dev m) (net_dev (m_net m)) in
  let m := set_m_dev d m in
  let m := if status =? 0 then m
           else set_m_dev (virtio_irq_ack (m_dev m) (net_dev (m_net m)) status) m in
  if Z.land status VIRTIO_INT_USED_BUFFER =? 0 then Ret m
  else m ← virtio_net_drain_rx m; virtio_net_drain_tx m.

Definition virtio_net_poll m : outcome (machine D) :=
  if negb (net_up (m_net m)) then Ret m
  else m ← virtio_net_drain_rx m; virtio_net_drain_tx m.

(** ** Reading what was received

    Both readers mask [sstatus.SIE] around the copy and restore it, so they
    leave [m_sstatus] alone. *)

(** The bytes copied to [dst] and the length returned. *)
Definition virtio_net_copy_last_test_frame m (capacity : Z) : list Z * Z :=
  let rx := n_rx (m_net m) in
  let copy_len := net_last_test_frame_len rx in
  let copy_len := if capacity <? copy_len then capacity else copy_len in
  (take (Z.to_nat copy_len) (net_last_test_frame rx), copy_len).

(** [None] for [false], otherwise the bytes, [*frame_len] and [*ethertype]. *)
Definition virtio_net_pop_rx_frame (c : capture_vars) (capacity : Z)
    : option (list Z * Z * Z) * capture_vars :=
  if net_rx_capture_read c =? net_rx_capture_write c then (None, c)
  else
    let capture := net_rx_captures c !!! ring_slot (net_rx_capture_read c) in
    let copy_len := if capacity <? cap_len capture then capacity else cap_len capture in
    (Some (take (Z.to_nat copy_len) (cap_frame capture), copy_len, cap_ethertype capture),
     set_net_rx_capture_read (u16 (net_rx_capture_read c + 1)) c).

(** *** What the driver reports *)

Definition virtio_net_mac : list Z := net_mac.
Definition virtio_net_rx_packets m : Z := net_rx_packets (n_rx (m_net m)).
Definition virtio_net_rx_test_packets m : Z := net_rx_test_packets (n_rx (m_net m)).
Definition virtio_net_last_rx_len m : Z := net_last_rx_len (n_rx (m_net m)).
Definition virtio_net_last_rx_ethertype m : Z := net_last_rx_ethertype (n_rx (m_net m)).
Definition virtio_net_rx_capture_dropped m : Z := net_rx_capture_drops (n_cap (m_net m)).
Definition virtio_net_tx_packets m : Z := net_tx_packets (n_tx (m_net m)).
Definition virtio_net_last_tx_len m : Z := net_last_tx_len (n_tx (m_net m)).
End Driver.

(** ** Initialisation *)

Section Init.
Context {D : Type} `{!Bus D} {H : Type} `{!PageHeap H}.
Implicit Types (m : machine D).

Definition pages_for (size : Z) : Z := (size + PAGE_SIZE - 1) / PAGE_SIZE.

Definition virtio_net_init (h : H) m : outcome (H * machine D) :=
  let '(found, dev, d) := virtio_find_device (m_dev m) (net_dev (m_net m)) VIRTIO_DEVICE_NET in
  if negb (found : bool) then Panic "virtio-net: device not found"
  else
    let d := virtio_begin_init d dev in
    '(_, rxq, h, d) ← virtq_init h d dev NET_RX_QUEUE;
    '(_, txq, h, d) ← virtq_init h d dev NET_TX_QUEUE;
    '(_, rx_paddr, h) ← ph_alloc h (pages_for (SIZEOF_NET_BUF * Z.of_nat NET_RX_BUF_NUM));
    '(_, tx_paddr, h) ← ph_alloc h (pages_for SIZEOF_NET_BUF);
    let frame := replicate ETH_MAX_FRAME_SIZE 0 in
    let rx := mkRx 0 0 0 0 (net_last_test_frame (n_rx (m_net m))) 0 in
    let cap := mkCaptures (net_rx_captures (n_cap (m_net m))) 0 0 0 in
    let m := set_m_net (mkNet dev true rx_paddr tx_paddr rx cap (mkTx 0 0 0 false)) m in
    let m := set_m_dma (mkDma rxq (replicate NET_RX_BUF_NUM frame) txq frame
                          (blk_vq (m_dma m)) (blk_req (m_dma m))) m in
    m ← for_each (fun m i => virtio_net_enqueue_rx m (Z.of_nat i)) (seq 0 NET_RX_BUF_NUM) m;
    let d := virtio_finish_init d dev in
    let d := virtq_notify d dev (rx_vq (m_dma m)) in
    out ← printf (bytes_of "virtio-net: base=0x%x rxq=%d txq=%d" ++ [10; 0])
            [VInt (dev_base dev); VInt NET_RX_QUEUE; VInt NET_TX_QUEUE];
    Ret (h, emit out (set_m_dev d m)).
End Init.

(** ** The capture ring is a bounded queue of frames *)

Definition captured (x : virtio_net_capture) : Z * list Z :=
  (cap_ethertype x, take (Z.to_nat (cap_len x)) (cap_frame x)).

(** The frames waiting for [virtio_net_pop_rx_frame], oldest first. *)
Definition capture_queue (c : capture_vars) : list (Z * list Z) :=
  captured <$> ring_items (net_rx_captures c) (net_rx_capture_read c) (net_rx_capture_write c).

Definition capture_wf (x : virtio_net_capture) : Prop :=
  length (cap_frame x) = ETH_MAX_FRAME_SIZE /\ 0 <= cap_len x <= Z.of_nat ETH_MAX_FRAME_SIZE.

Record capture_ok (c : capture_vars) : Prop := {
  capture_ring : ring_ok (net_rx_captures c) (net_rx_capture_read c) (net_rx_capture_write c);
  capture_slots : Forall capture_wf (net_rx_captures c);
}.

Section Capture.
Implicit Types (c : capture_vars) (frame : list Z).

Lemma length_capture_queue c :
  Z.of_nat (length (capture_queue c)) = ring_count (net_rx_capture_read c) (net_rx_capture_write c).
Proof. unfold capture_queue. rewrite length_fmap. apply length_ring_items. Qed.

Lemma capture_slot_wf c i : capture_ok c -> capture_wf (net_rx_captures c !!! ring_slot i).
Proof.
  intros [R F]. pose proof (ring_slot_lt i). pose proof (ring_length _ _ _ R).
  eapply Forall_lookup_1; [exact F|]. apply aget_Some. lia.
Qed.

Lemma take_put_0 n (l dst : list Z) :
  (n <= length l)%nat -> (n <= length dst)%nat ->
  take n (put 0 (take n l) dst) = take n l /\ length (put 0 (take n l) dst) = length dst.
Proof.
  intros Hl Hd. assert (E : length (take n l) = n) by (rewrite length_take; lia). split.
  - unfold put. rewrite take_0. cbn [app]. rewrite take_app_le by lia. by rewrite take_take, Nat.min_id.
  - apply length_put. lia.
Qed.

Lemma capture_rx_spec c frame frame_len ethertype :
  capture_ok c -> length frame = ETH_MAX_FRAME_SIZE -> 0 <= frame_len <= Z.of_nat ETH_MAX_FRAME_SIZE ->
  let c' := virtio_net_capture_rx c frame frame_len ethertype in
  let full := bool_decide (length (capture_queue c) = 16%nat) in
  capture_ok c' /\
  capture_queue c' = capture_queue c ++
    (if full then [] else [(ethertype, take (Z.to_nat frame_len) frame)]) /\
  net_rx_capture_drops c' = (if full then u32 (net_rx_capture_drops c + 1) else net_rx_capture_drops c).
Proof.
  intros Hc Hf Hl c' full. unfold c', full, virtio_net_capture_rx.
  pose proof (length_capture_queue c) as Hn. pose proof (ring_bound _ _ _ (capture_ring _ Hc)) as Hb.
  change (u16 (net_rx_capture_write c - net_rx_capture_read c))
    with (ring_count (net_rx_capture_read c) (net_rx_capture_write c)).
  unfold NET_RX_CAPTURE_NUM, VIRTQ_ENTRY_NUM in *.
  destruct (Z.leb_spec 16 (ring_count (net_rx_capture_read c) (net_rx_capture_write c))) as [Hge|Hlt].
  - rewrite bool_decide_eq_true_2 by lia. split; [by destruct Hc; split|].
    split; [by rewrite app_nil_r|reflexivity].
  - rewrite bool_decide_eq_false_2 by lia.
    set (i := ring_slot _). set (x := mkCapture _ _ _).
    destruct (capture_slot_wf c (net_rx_capture_write c) Hc) as [Hxl _]. fold i in Hxl.
    destruct (take_put_0 (Z.to_nat frame_len) frame (cap_frame (net_rx_captures c !!! i)))
      as [Et Elen]; [lia|lia|].
    destruct (ring_push _ _ _ x (capture_ring _ Hc) Hlt) as [R E]. fold i in R, E.
    split; [|split; [|reflexivity]].
    + split; [exact R|]. cbn. apply Forall_insert; [apply Hc|]. split; cbn; [by rewrite Elen|exact Hl].
    + unfold capture_queue. cbn. rewrite E, fmap_app. do 2 f_equal. unfold captured. cbn. by rewrite Et.
Qed.

Lemma pop_rx_frame_spec c capacity :
  capture_ok c -> 0 <= capacity ->
  match capture_queue c with
  | [] => virtio_net_pop_rx_frame c capacity = (None, c)
  | (ethertype, bytes) :: rest =>
      let n := Z.min capacity (Z.of_nat (length bytes)) in
      exists c', virtio_net_pop_rx_frame c capacity = (Some (take (Z.to_nat n) bytes, n, ethertype), c') /\
        capture_ok c' /\ capture_queue c' = rest /\ net_rx_capture_drops c' = net_rx_capture_drops c
  end.
Proof.
  intros Hc Hcap. unfold virtio_net_pop_rx_frame.
  destruct (Z.eqb_spec (net_rx_capture_read c) (net_rx_capture_write c)) as [E|Hne].
  - unfold capture_queue. by rewrite (proj2 (ring_empty _ _ _ (capture_ring _ Hc)) E).
  - destruct (ring_pop _ _ _ (capture_ring _ Hc) Hne) as [R E].
    destruct (capture_slot_wf c (net_rx_capture_read c) Hc) as [Hxl Hxn].
    unfold capture_queue. rewrite E. cbn [fmap list_fmap]. unfold captured at 1.
    set (x := net_rx_captures c !!! _) in *.
    assert (El : Z.of_nat (length (take (Z.to_nat (cap_len x)) (cap_frame x))) = cap_len x)
      by (rewrite length_take; lia).
    cbv zeta. rewrite El. eexists. split.
    + f_equal. do 2 f_equal. f_equal.
      * rewrite take_take. f_equal. destruct (Z.ltb_spec capacity (cap_len x)); lia.
      * destruct (Z.ltb_spec capacity (cap_len x)); lia.
    + split; [|split; reflexivity]. split; [exact R|apply Hc].
Qed.
End Capture.

(** C30: The capture ring is a bounded queue of frames.  A received frame is
    appended whole while fewer than sixteen wait, otherwise only the drop
    counter moves; [virtio_net_pop_rx_frame] returns the oldest frame, cut to
    the caller's capacity, and fails exactly when none waits. *)
Theorem capture_ring_refines_queue c frame frame_len ethertype capacity :
  capture_ok c -> length frame = ETH_MAX_FRAME_SIZE ->
  0 <= frame_len <= Z.of_nat ETH_MAX_FRAME_SIZE -> 0 <= capacity ->
  (let c' := virtio_net_capture_rx c frame frame_len ethertype in
   let full := bool_decide (length (capture_queue c) = 16%nat) in
   capture_ok c' /\
   capture_queue c' = capture_queue c ++
     (if full then [] else [(ethertype, take (Z.to_nat frame_len) frame)]) /\
   net_rx_capture_drops c' = (if full then u32 (net_rx_capture_drops c + 1) else net_rx_capture_drops c)) /\
  match capture_queue c with
  | [] => virtio_net_pop_rx_frame c capacity = (None, c)
  | (ty, bytes) :: rest =>
      let n := Z.min capacity (Z.of_nat (length bytes)) in
      exists c', virtio_net_pop_rx_frame c capacity = (Some (take (Z.to_nat n) bytes, n, ty), c') /\
        capture_ok c' /\ capture_queue c' = rest /\ net_rx_capture_drops c' = net_rx_capture_drops c
  end.
Proof.
  intros Hc Hf Hl Hcap. split; [by apply capture_rx_spec|by apply pop_rx_frame_spec].
Qed.

Definition demo_captures : capture_vars :=
  mkCaptures (replicate 16 (mkCapture 0 0 (replicate ETH_MAX_FRAME_SIZE 0))) 65535 65535 0.

Lemma demo_captures_ok : capture_ok demo_captures.
Proof.
  split.
  - split; first [reflexivity | unfold index_ok; cbn; lia | vm_compute; discriminate].
  - apply Forall_replicate. split; [reflexivity|]. cbn. lia.
Qed.

(** A frame stored in the last slot before the index wraps. *)
Lemma capture_ring_refines_queue_witness :
  let frame := replicate ETH_MAX_FRAME_SIZE 7 in
  let c' := virtio_net_capture_rx demo_captures frame 3 0x88b5 in
  capture_queue c' = [(0x88b5, [7; 7; 7])] /\ net_rx_capture_write c' = 0 /\
  virtio_net_pop_rx_frame demo_captures 100 = (None, demo_captures).
Proof.
  intros frame c'.
  destruct (capture_ring_refines_queue demo_captures frame 3 0x88b5 100 demo_captures_ok)
    as [(_ & E & _) Hpop]; [reflexivity|unfold ETH_MAX_FRAME_SIZE; lia|lia|].
  split; [exact E|]. split; [reflexivity|exact Hpop].
Defined.

(** ** Draining the receive queue *)

(** The buffer and frame length behind a used element, when the device
    wrote at least an Ethernet header. *)
Definition used_frame (bufs : list (list Z)) (used : virtq_used_elem) : option (list Z * Z) :=
  if SIZEOF_NET_HDR + 14 <=? used_len used then
    Some (bufs !!! Z.to_nat (used_id used),
          Z.min (used_len used - SIZEOF_NET_HDR) (Z.of_nat ETH_MAX_FRAME_SIZE))
  else None.

Definition ethertype_of (frame : list Z) : Z :=
  Z.lor (u16 (Z.shiftl (byte frame 12) 8)) (byte frame 13).

(** The protocol handlers, frame by frame. *)
Fixpoint arp_receive_all (s : arp_state) (frames : list (list Z * Z)) : outcome arp_state :=
  match frames with
  | [] => Ret s
  | (f, n) :: l =>
      s ← (if ethertype_of f =? ARP_ETHERTYPE then arp_receive s f n else Ret s);
      arp_receive_all s l
  end.
Fixpoint ipv4_receive_all (s : ipv4_state) (frames : list (list Z * Z)) : outcome ipv4_state :=
  match frames with
  | [] => Ret s
  | (f, n) :: l =>
      s ← (if ethertype_of f =? IPV4_ETHERTYPE then ipv4_receive s f n else Ret s);
      ipv4_receive_all s l
  end.

Definition frame_bytes (x : list Z * Z) : Z * list Z :=
  (ethertype_of (x.1), take (Z.to_nat (x.2)) (x.1)).

(** What the device may put into a used element. *)
Definition used_elem_ok (used : virtq_used_elem) : Prop :=
  0 <= used_id used < VIRTQ_ENTRY_NUM /\ 0 <= used_len used < 2 ^ 32.

(** Descriptor [i] offers receive buffer [i] to the device. *)
Definition offers_buffer (paddr : Z) (ds : list virtq_desc) (i : Z) : Prop :=
  0 <= i < VIRTQ_ENTRY_NUM /\
  ds !!! Z.to_nat i = mkDesc (u32 (paddr + i * SIZEOF_NET_BUF)) SIZEOF_NET_BUF VIRTQ_DESC_F_WRITE 0.

(** Indices the device has not fetched yet, [seen] being its position. *)
Definition unseen (vq : virtio_virtq) (seen : Z) : list Z :=
  ring_items (avail_ring vq) seen (avail_index vq).

(** Invariant of the receive side. [seen] is the device's position in the
    available ring; together the two rings hold at most one entry per
    descriptor. *)
Record rx_ok {D : Type} (m : machine D) (seen : Z) : Prop := {
  rx_bufs_ok : length (rx_bufs (m_dma m)) = NET_RX_BUF_NUM;
  rx_frames_ok : Forall (fun f => length f = ETH_MAX_FRAME_SIZE /\ Forall octet f) (rx_bufs (m_dma m));
  rx_avail_ok : ring_ok (avail_ring (rx_vq (m_dma m))) seen (avail_index (rx_vq (m_dma m)));
  rx_used_ok : used_ok (rx_vq (m_dma m));
  rx_elems_ok : Forall used_elem_ok (to_pop (rx_vq (m_dma m)));
  rx_descs_ok : length (descs (rx_vq (m_dma m))) = NET_RX_BUF_NUM;
  rx_conserved : ring_count seen (avail_index (rx_vq (m_dma m))) +
    Z.of_nat (length (to_pop (rx_vq (m_dma m)))) <= VIRTQ_ENTRY_NUM;
  rx_offered : Forall (offers_buffer (net_rx_paddr (m_net m)) (descs (rx_vq (m_dma m))))
    (unseen (rx_vq (m_dma m)) seen);
  rx_capture_ok : capture_ok (n_cap (m_net m));
  rx_arp_ok : arp_wf (m_arp m);
}.

Section Drain.
Context {D : Type} `{!Bus D}.
Implicit Types (m : machine D) (seen : Z).

(** [m'] is [m] after the used elements [elems] were handled. *)
Record drained m seen (elems : list virtq_used_elem) m' : Prop := {
  dr_ok : rx_ok m' seen;
  dr_pop : to_pop (rx_vq (m_dma m)) = elems ++ to_pop (rx_vq (m_dma m'));
  dr_offer : unseen (rx_vq (m_dma m')) seen = unseen (rx_vq (m_dma m)) seen ++ (used_id <$> elems);
  dr_packets : u32 (net_rx_packets (n_rx (m_net m'))) =
    u32 (net_rx_packets (n_rx (m_net m)) + Z.of_nat (length elems));
  dr_captures : capture_queue (n_cap (m_net m')) =
    take 16 (capture_queue (n_cap (m_net m)) ++
             (frame_bytes <$> omap (used_frame (rx_bufs (m_dma m))) elems));
  dr_arp : arp_receive_all (m_arp m) (omap (used_frame (rx_bufs (m_dma m))) elems) = Ret (m_arp m');
  dr_ip : ipv4_receive_all (m_ip m) (omap (used_frame (rx_bufs (m_dma m))) elems) = Ret (m_ip m');
  dr_frame : m_dev m' = m_dev m /\ m_sstatus m' = m_sstatus m /\ m_out m' = m_out m /\
    m_blk m' = m_blk m /\ n_tx (m_net m') = n_tx (m_net m) /\
    net_dev (m_net m') = net_dev (m_net m) /\ net_up (m_net m') = net_up (m_net m) /\
    net_tx_paddr (m_net m') = net_tx_paddr (m_net m) /\ net_rx_paddr (m_net m') = net_rx_paddr (m_net m);
  dr_memory : rx_bufs (m_dma m') = rx_bufs (m_dma m) /\ tx_vq (m_dma m') = tx_vq (m_dma m) /\
    tx_buf (m_dma m') = tx_buf (m_dma m) /\ blk_vq (m_dma m') = blk_vq (m_dma m) /\
    blk_req (m_dma m') = blk_req (m_dma m) /\
    queue_index (rx_vq (m_dma m')) = queue_index (rx_vq (m_dma m));
}.

Lemma ipv4_receive_total s frame frame_len :
  Forall octet frame -> 0 <= frame_len <= Z.of_nat (length frame) ->
  exists s', ipv4_receive s frame frame_len = Ret s'.
Proof.
  intros Hf Hl. unfold ipv4_receive. cbv zeta.
  destruct (_ <? _); [by eexists|]. rewrite (proj2 (Z.leb_le _ _)) by lia.
  cbn [defined_if mbind outcome_bind].
  set (p := drop ETHERNET_HEADER_SIZE frame). assert (Hp : Forall octet p) by (by apply Forall_drop).
  destruct (_ || _); [by eexists|]. destruct (_ || _); [by eexists|].
  destruct (ipv4_checksum_spec (take (Z.to_nat (Z.land (byte p at_version_ihl) 15 * 4)) p)) as (c & -> & _).
  { by apply Forall_take. }
  { rewrite length_take, land_0xf. pose proof (Z.mod_pos_bound (byte p at_version_ihl) 16). lia. }
  cbn [mbind outcome_bind]. repeat case_match; by eexists.
Qed.

(** What one drained frame does to the machine. *)
Lemma receive_frame_spec m seen frame n :
  rx_ok m seen -> length frame = ETH_MAX_FRAME_SIZE -> Forall octet frame -> 0 <= n ->
  let n' := Z.min n (Z.of_nat ETH_MAX_FRAME_SIZE) in
  exists m', receive_frame m frame n = Ret m' /\ rx_ok m' seen /\
    m_dev m' = m_dev m /\ m_sstatus m' = m_sstatus m /\ m_out m' = m_out m /\
    m_dma m' = m_dma m /\ m_blk m' = m_blk m /\
    net_dev (m_net m') = net_dev (m_net m) /\ net_up (m_net m') = net_up (m_net m) /\
    net_rx_paddr (m_net m') = net_rx_paddr (m_net m) /\
    net_tx_paddr (m_net m') = net_tx_paddr (m_net m) /\ n_tx (m_net m') = n_tx (m_net m) /\
    net_rx_packets (n_rx (m_net m')) = u32 (net_rx_packets (n_rx (m_net m)) + 1) /\
    n_cap (m_net m') = virtio_net_capture_rx (n_cap (m_net m)) frame n' (ethertype_of frame) /\
    arp_receive_all (m_arp m) [(frame, n')] = Ret (m_arp m') /\
    ipv4_receive_all (m_ip m) [(frame, n')] = Ret (m_ip m').
Proof.
  intros [] Hf Ho Hn n'. unfold receive_frame.
  assert (E : (if Z.of_nat ETH_MAX_FRAME_SIZE <? n then Z.of_nat ETH_MAX_FRAME_SIZE else n) = n')
    by (unfold n'; destruct (Z.ltb_spec (Z.of_nat ETH_MAX_FRAME_SIZE) n); lia).
  rewrite E. clear E. assert (Hn' : 0 <= n' <= Z.of_nat ETH_MAX_FRAME_SIZE) by (unfold n'; lia).
  clearbody n'. cbv zeta. change (Z.lor _ (byte frame 13)) with (ethertype_of frame).
  destruct (arp_receive_total (m_arp m) frame n') as (sa & Ea & Wa); [assumption|lia|].
  destruct (ipv4_receive_total (m_ip m) frame n') as (si & Ei); [assumption|lia|].
  destruct (capture_rx_spec (n_cap (m_net m)) frame n' (ethertype_of frame)) as (Hcap & _ & _);
    [assumption..|].
  cbn [m_arp m_ip set_m_arp set_m_ip set_cap set_rx set_m_net arp_receive_all ipv4_receive_all].
  rewrite Ea, Ei.
  destruct (ethertype_of frame =? ARP_ETHERTYPE), (ethertype_of frame =? IPV4_ETHERTYPE),
    (ethertype_of frame =? VIRTIO_NET_TEST_ETHERTYPE); cbn [mbind outcome_bind];
    (eexists; split; [reflexivity|]); (split; [by constructor|]); repeat (split; [reflexivity|]); reflexivity.
Qed.

Lemma capture_queue_16 c : capture_ok c -> (length (capture_queue c) <= 16)%nat.
Proof.
  intros Hc. pose proof (length_capture_queue c). pose proof (ring_bound _ _ _ (capture_ring _ Hc)).
  unfold VIRTQ_ENTRY_NUM in *. lia.
Qed.

Lemma drained_refl m seen : rx_ok m seen -> drained m seen [] m.
Proof.
  intros H. split; try reflexivity; try done.
  - cbn. by rewrite app_nil_r.
  - cbn. by rewrite Z.add_0_r.
  - cbn. rewrite app_nil_r, take_ge; [done|]. apply capture_queue_16, H.
Qed.

Lemma arp_receive_all_app s l1 l2 :
  arp_receive_all s (l1 ++ l2) = (s ← arp_receive_all s l1; arp_receive_all s l2).
Proof.
  revert s. induction l1 as [|[f n] l1 IH]; intros s; [done|]. cbn [app arp_receive_all].
  rewrite bind_assoc. destruct (ethertype_of f =? ARP_ETHERTYPE);
    [destruct (arp_receive s f n)|]; [apply IH|done|done|apply IH].
Qed.
Lemma ipv4_receive_all_app s l1 l2 :
  ipv4_receive_all s (l1 ++ l2) = (s ← ipv4_receive_all s l1; ipv4_receive_all s l2).
Proof.
  revert s. induction l1 as [|[f n] l1 IH]; intros s; [done|]. cbn [app ipv4_receive_all].
  rewrite bind_assoc. destruct (ethertype_of f =? IPV4_ETHERTYPE);
    [destruct (ipv4_receive s f n)|]; [apply IH|done|done|apply IH].
Qed.

Lemma take_take_app {A} n (l1 l2 : list A) : take n (take n l1 ++ l2) = take n (l1 ++ l2).
Proof.
  destruct (Nat.le_gt_cases (length l1) n).
  - by rewrite (take_ge l1) by lia.
  - rewrite (take_app_le l1) by lia. rewrite take_app_le by (rewrite length_take; lia).
    by rewrite take_take, Nat.min_id.
Qed.

Lemma drained_trans m seen l1 m1 l2 m2 :
  drained m seen l1 m1 -> drained m1 seen l2 m2 -> drained m seen (l1 ++ l2) m2.
Proof.
  intros H1 H2. destruct (dr_memory _ _ _ _ H1) as (Eb & ? & ? & ? & ? & ?).
  destruct (dr_memory _ _ _ _ H2) as (? & ? & ? & ? & ? & ?).
  destruct (dr_frame _ _ _ _ H1) as (? & ? & ? & ? & ? & ? & ? & ? & ?).
  destruct (dr_frame _ _ _ _ H2) as (? & ? & ? & ? & ? & ? & ? & ? & ?).
  split.
  - apply H2.
  - by rewrite (dr_pop _ _ _ _ H1), (dr_pop _ _ _ _ H2), (assoc_L (++)).
  - by rewrite (dr_offer _ _ _ _ H2), (dr_offer _ _ _ _ H1), fmap_app, (assoc_L (++)).
  - rewrite (dr_packets _ _ _ _ H2), length_app, Nat2Z.inj_add. unfold u32.
    rewrite <-Zplus_mod_idemp_l. fold (u32 (net_rx_packets (n_rx (m_net m1)))).
    rewrite (dr_packets _ _ _ _ H1). unfold u32. rewrite Zplus_mod_idemp_l. f_equal. lia.
  - rewrite (dr_captures _ _ _ _ H2), (dr_captures _ _ _ _ H1), take_take_app, Eb.
    by rewrite omap_app, fmap_app, (assoc_L (++)).
  - rewrite omap_app, arp_receive_all_app, (dr_arp _ _ _ _ H1). cbn. rewrite <-Eb. apply H2.
  - rewrite omap_app, ipv4_receive_all_app, (dr_ip _ _ _ _ H1). cbn. rewrite <-Eb. apply H2.
  - repeat split; congruence.
  - repeat split; congruence.
Qed.

(** The part of [drain_rx_elem] before the descriptor is posted again. *)
Definition process_used m (used : virtq_used_elem) : outcome (machine D) :=
  if SIZEOF_NET_HDR + 14 <=? used_len used then
    _ ← defined_if (used_id used <? Z.of_nat (length (rx_bufs (m_dma m))));
    receive_frame m (rx_bufs (m_dma m) !!! Z.to_nat (used_id used)) (used_len used - SIZEOF_NET_HDR)
  else
    let rx := n_rx (m_net m) in
    Ret (set_rx (set_net_last_rx_ethertype 0 (set_net_last_rx_len (used_len used)
           (set_net_rx_packets (u32 (net_rx_packets rx + 1)) rx))) m).

Lemma process_used_spec m seen used :
  rx_ok m seen -> used_elem_ok used ->
  exists m', process_used m used = Ret m' /\ rx_ok m' seen /\ m_dma m' = m_dma m /\
    net_rx_packets (n_rx (m_net m')) = u32 (net_rx_packets (n_rx (m_net m)) + 1) /\
    capture_queue (n_cap (m_net m')) = take 16 (capture_queue (n_cap (m_net m)) ++
      (frame_bytes <$> omap (used_frame (rx_bufs (m_dma m))) [used])) /\
    arp_receive_all (m_arp m) (omap (used_frame (rx_bufs (m_dma m))) [used]) = Ret (m_arp m') /\
    ipv4_receive_all (m_ip m) (omap (used_frame (rx_bufs (m_dma m))) [used]) = Ret (m_ip m') /\
    m_dev m' = m_dev m /\ m_sstatus m' = m_sstatus m /\ m_out m' = m_out m /\
    m_blk m' = m_blk m /\ n_tx (m_net m') = n_tx (m_net m) /\
    net_dev (m_net m') = net_dev (m_net m) /\ net_up (m_net m') = net_up (m_net m) /\
    net_tx_paddr (m_net m') = net_tx_paddr (m_net m) /\ net_rx_paddr (m_net m') = net_rx_paddr (m_net m).
Proof.
  intros Hm [Hid Hlen]. unfold process_used. cbn [omap list_omap]. unfold used_frame.
  pose proof (rx_bufs_ok _ _ Hm) as Hbufs. unfold NET_RX_BUF_NUM, VIRTQ_ENTRY_NUM in *.
  pose proof (capture_queue_16 _ (rx_capture_ok _ _ Hm)) as H16.
  destruct (Z.leb_spec (SIZEOF_NET_HDR + 14) (used_len used)) as [Hge|Hlt].
  - rewrite (proj2 (Z.ltb_lt (used_id used) _)) by lia. cbn [defined_if mbind outcome_bind].
    set (frame := rx_bufs (m_dma m) !!! Z.to_nat (used_id used)).
    assert (Hf : length frame = ETH_MAX_FRAME_SIZE /\ Forall octet frame).
    { apply (Forall_lookup_1 _ _ (Z.to_nat (used_id used)) frame (rx_frames_ok _ _ Hm)).
      apply aget_Some. lia. }
    destruct Hf as [Hf Ho]. set (n := used_len used - SIZEOF_NET_HDR).
    assert (Hn : 0 <= n) by (unfold n; lia). clearbody frame n.
    destruct (receive_frame_spec m seen frame n Hm Hf Ho Hn) as
      (m' & E & Hm' & Hd & Hs & Hout & Hdma & Hblk & Hdev & Hup & Hrp & Htp & Htx & Hp & Hcap & Ha & Hi).
    exists m'. split; [exact E|]. split; [exact Hm'|]. split; [exact Hdma|]. split; [exact Hp|].
    destruct (capture_rx_spec (n_cap (m_net m)) frame (Z.min n (Z.of_nat ETH_MAX_FRAME_SIZE))
      (ethertype_of frame)) as (_ & Eq & _); [apply Hm|exact Hf|lia|].
    split; [|repeat (split; [assumption|]); assumption].
    rewrite Hcap, Eq. cbn [fmap list_fmap]. unfold frame_bytes. cbn [fst snd].
    destruct (decide (length (capture_queue (n_cap (m_net m))) = 16%nat)) as [E16|Hne].
    + rewrite bool_decide_eq_true_2, app_nil_r by exact E16.
      rewrite take_app_le by lia. symmetry. apply take_ge. lia.
    + rewrite bool_decide_eq_false_2 by exact Hne. symmetry. apply take_ge.
      rewrite length_app. cbn. lia.
  - eexists. split; [reflexivity|]. split; [destruct Hm; by constructor|].
    split; [reflexivity|]. split; [reflexivity|].
    split; [cbn; rewrite app_nil_r, take_ge by lia; reflexivity|]. repeat (split; [reflexivity|]). reflexivity.
Qed.

Lemma enqueue_rx_spec m seen index :
  rx_ok m seen -> 0 <= index < VIRTQ_ENTRY_NUM ->
  ring_count seen (avail_index (rx_vq (m_dma m))) +
    Z.of_nat (length (to_pop (rx_vq (m_dma m)))) < VIRTQ_ENTRY_NUM ->
  let vq := enqueue_desc (net_rx_paddr (m_net m)) (rx_vq (m_dma m)) index in
  virtio_net_enqueue_rx m index = Ret (set_rx_queue vq m) /\
  rx_ok (set_rx_queue vq m) seen /\ to_pop vq = to_pop (rx_vq (m_dma m)) /\
  unseen vq seen = unseen (rx_vq (m_dma m)) seen ++ [index].
Proof.
  intros Hm Hi Hc vq. unfold virtio_net_enqueue_rx.
  rewrite (proj2 (Z.leb_le 0 index)), (proj2 (Z.ltb_lt index _)) by lia.
  split; [reflexivity|]. set (q := rx_vq (m_dma m)) in *.
  assert (Hpop : to_pop vq = to_pop q) by reflexivity.
  destruct (ring_push _ _ _ (u16 index) (rx_avail_ok _ _ Hm)) as [R E].
  { fold q. lia. }
  fold q in R, E. unfold VIRTQ_ENTRY_NUM in Hi. rewrite (u16_id index) in R, E by lia.
  assert (Eu : unseen vq seen = unseen q seen ++ [index]).
  { unfold unseen, vq, enqueue_desc, virtq_push. cbn. rewrite (u16_id index) by lia. exact E. }
  split; [|split; [exact Hpop|exact Eu]].
  assert (Ed : descs vq = <[Z.to_nat index := mkDesc (u32 (net_rx_paddr (m_net m) + index * SIZEOF_NET_BUF))
       SIZEOF_NET_BUF VIRTQ_DESC_F_WRITE 0]> (descs q)) by reflexivity.
  pose proof (rx_descs_ok _ _ Hm) as Hdl. fold q in Hdl. unfold NET_RX_BUF_NUM in Hdl.
  split; cbn [m_dma m_net m_arp set_rx_queue set_m_dma set_rx_vq rx_vq rx_bufs]; try apply Hm.
  - unfold vq, enqueue_desc, virtq_push. cbn. rewrite (u16_id index) by lia. exact R.
  - rewrite Ed, length_insert. exact Hdl.
  - rewrite Hpop. change (avail_index vq) with (u16 (avail_index q + 1)).
    rewrite ring_count_write by (unfold VIRTQ_ENTRY_NUM in *; lia). lia.
  - rewrite Eu, Ed. apply Forall_app. split.
    + eapply Forall_impl; [apply (rx_offered _ _ Hm)|]. fold q. intros i [Hir Hid]. split; [exact Hir|].
      destruct (decide (i = index)) as [->|Hne].
      * apply aget_set_same. lia.
      * rewrite aget_set_other; [exact Hid|]. unfold VIRTQ_ENTRY_NUM in *. lia.
    + constructor; [|constructor]. split; [exact Hi|]. apply aget_set_same. lia.
Qed.

Lemma drain_rx_elem_spec m seen used vq :
  rx_ok m seen -> virtq_pop_used (rx_vq (m_dma m)) = Some (used, vq) ->
  exists m', drain_rx_elem (set_rx_queue vq m) used = Ret m' /\ drained m seen [used] m'.
Proof.
  intros Hm Hp. pose proof (virtq_pop_used_spec _ (rx_used_ok _ _ Hm)) as Hpop.
  rewrite Hp in Hpop. destruct Hpop as (Epop & Hu & Evq).
  pose proof (rx_elems_ok _ _ Hm) as Hel. rewrite Epop in Hel. apply Forall_cons in Hel as [Hused Hel].
  pose proof (rx_conserved _ _ Hm) as Hc. rewrite Epop in Hc. cbn [length] in Hc.
  set (m1 := set_rx_queue vq m).
  assert (Hm1 : rx_ok m1 seen).
  { destruct Hm. split; cbn [m1 m_dma m_net m_arp set_rx_queue set_m_dma set_rx_vq rx_vq rx_bufs];
      try assumption; try (rewrite Evq; assumption). rewrite Evq at 1. cbn. lia. }
  change (drain_rx_elem m1 used) with (m ← process_used m1 used; virtio_net_enqueue_rx m (used_id used)).
  destruct (process_used_spec m1 seen used Hm1 Hused) as
    (m2 & -> & Hm2 & Hdma & Hpk & Hcap & Ha & Hi & Hd & Hs & Hout & Hblk & Htx & Hdev & Hup & Htp & Hrp).
  cbn [mbind outcome_bind].
  assert (Evq2 : rx_vq (m_dma m2) = vq) by (by rewrite Hdma).
  destruct (enqueue_rx_spec m2 seen (used_id used) Hm2) as (-> & Hm3 & Ep3 & Eu3);
    [apply Hused|rewrite Evq2, Evq in *; cbn in *; lia|].
  eexists. split; [reflexivity|].
  set (vq3 := enqueue_desc _ _ _) in *.
  split; cbn [m_dma m_net m_arp m_ip m_dev m_sstatus m_out m_blk set_rx_queue set_m_dma set_rx_vq rx_vq rx_bufs
    tx_vq tx_buf blk_vq blk_req].
  - exact Hm3.
  - by rewrite Epop, Ep3, Evq2.
  - rewrite Eu3, Evq2, Evq. reflexivity.
  - rewrite Hpk. cbn [length]. unfold u32. rewrite Z.mod_mod by lia. reflexivity.
  - exact Hcap.
  - exact Ha.
  - exact Hi.
  - repeat (split; [assumption|]). assumption.
  - rewrite Hdma. repeat (split; [reflexivity|]). unfold vq3. rewrite Evq2, Evq. reflexivity.
Qed.

Lemma drain_rx_loop_spec fuel : forall m seen recycled,
  rx_ok m seen -> length (to_pop (rx_vq (m_dma m))) = fuel ->
  exists m', drain_rx_loop fuel m recycled =
      Ret (m', recycled || negb (bool_decide (fuel = 0%nat))) /\
    drained m seen (to_pop (rx_vq (m_dma m))) m'.
Proof.
  induction fuel as [|fuel IH]; intros m seen recycled Hm Hl.
  - cbn [drain_rx_loop]. pose proof (virtq_pop_used_spec _ (rx_used_ok _ _ Hm)) as Hpop.
    destruct (virtq_pop_used (rx_vq (m_dma m))) as [[e vq]|].
    { destruct Hpop as [Hpop _]. rewrite Hpop in Hl. discriminate Hl. }
    exists m. rewrite bool_decide_eq_true_2 by done. cbn [negb]. rewrite orb_false_r.
    split; [reflexivity|]. rewrite Hpop. by apply drained_refl.
  - cbn [drain_rx_loop]. pose proof (virtq_pop_used_spec _ (rx_used_ok _ _ Hm)) as Hpop.
    destruct (virtq_pop_used (rx_vq (m_dma m))) as [[e vq]|] eqn:Hp.
    2: { rewrite Hpop in Hl. discriminate Hl. }
    destruct (drain_rx_elem_spec m seen e vq Hm Hp) as (m1 & -> & H1). cbn [mbind outcome_bind].
    pose proof (dr_pop _ _ _ _ H1) as E1. cbn [app] in E1.
    destruct (IH m1 seen true (dr_ok _ _ _ _ H1)) as (m' & -> & H2).
    { rewrite E1 in Hl. cbn in Hl. lia. }
    exists m'. rewrite (bool_decide_eq_false_2 (S fuel = 0%nat)) by lia. cbn [negb]. rewrite orb_true_r.
    split; [reflexivity|]. rewrite E1. by apply (drained_trans _ _ [e] m1).
Qed.

Lemma rx_ok_set_dev m seen d : rx_ok m seen -> rx_ok (set_m_dev d m) seen.
Proof. intros []. by constructor. Qed.

Lemma used_count_to_pop vq : used_count vq = length (to_pop vq).
Proof.
  unfold used_count. rewrite <-(length_ring_items (used_ring vq)). apply Nat2Z.id.
Qed.

(** The drain loop empties the used ring; the notification follows exactly
    when something was recycled. *)
Lemma virtio_net_drain_rx_spec m seen :
  rx_ok m seen ->
  let elems := to_pop (rx_vq (m_dma m)) in
  exists m1, drained m seen elems m1 /\ to_pop (rx_vq (m_dma m1)) = [] /\
    virtio_net_drain_rx m =
      Ret (if bool_decide (elems = []) then m1
           else set_m_dev (virtq_notify (m_dev m) (net_dev (m_net m)) (rx_vq (m_dma m))) m1).
Proof.
  intros Hm elems. unfold virtio_net_drain_rx.
  destruct (drain_rx_loop_spec (used_count (rx_vq (m_dma m))) m seen false Hm) as (m1 & -> & H1).
  { by rewrite used_count_to_pop. }
  exists m1. split; [exact H1|].
  pose proof (dr_pop _ _ _ _ H1) as Ep. rewrite <-(app_nil_r (to_pop _)) in Ep at 1.
  apply app_inv_head in Ep. split; [done|].
  cbn [mbind outcome_bind orb]. rewrite used_count_to_pop. fold elems.
  destruct elems as [|e l]; cbn; [reflexivity|].
  destruct (dr_frame _ _ _ _ H1) as (-> & _ & _ & _ & _ & -> & _).
  destruct (dr_memory _ _ _ _ H1) as (_ & _ & _ & _ & _ & Eq).
  unfold virtq_notify. by rewrite Eq.
Qed.
End Drain.

(** [virtio_net_drain_rx] handles every received buffer exactly once, in
    order, whatever the frames contain: each frame with an Ethernet header is
    captured while there is room and reaches the ARP or IPv4 handler of its
    type, every buffer is offered to the device again, none is left in the
    used ring, and the device is notified exactly when there was work.  The
    protocol handlers never read outside a buffer and the invariants of the
    rings, the capture queue and the ARP cache are kept. *)
Theorem drain_rx_processes_all {D : Type} `{!Bus D} (m : machine D) seen :
  rx_ok m seen ->
  let elems := to_pop (rx_vq (m_dma m)) in
  let frames := omap (used_frame (rx_bufs (m_dma m))) elems in
  exists m', virtio_net_drain_rx m = Ret m' /\ rx_ok m' seen /\
    to_pop (rx_vq (m_dma m')) = [] /\
    unseen (rx_vq (m_dma m')) seen = unseen (rx_vq (m_dma m)) seen ++ (used_id <$> elems) /\
    capture_queue (n_cap (m_net m')) = take 16 (capture_queue (n_cap (m_net m)) ++ (frame_bytes <$> frames)) /\
    arp_receive_all (m_arp m) frames = Ret (m_arp m') /\
    ipv4_receive_all (m_ip m) frames = Ret (m_ip m') /\
    u32 (net_rx_packets (n_rx (m_net m'))) =
      u32 (net_rx_packets (n_rx (m_net m)) + Z.of_nat (length elems)) /\
    m_dev m' = (if bool_decide (elems = []) then m_dev m
                else virtq_notify (m_dev m) (net_dev (m_net m)) (rx_vq (m_dma m))).
Proof.
  intros Hm elems frames.
  destruct (virtio_net_drain_rx_spec m seen Hm) as (m1 & H1 & Hp & E). fold elems in H1, E.
  destruct (dr_frame _ _ _ _ H1) as (Ed & _).
  eexists. split; [exact E|]. destruct (bool_decide (elems = [])).
  - split; [apply H1|]. split; [exact Hp|]. split; [apply H1|]. split; [apply H1|].
    split; [apply H1|]. split; [apply H1|]. split; [apply H1|]. exact Ed.
  - split; [apply rx_ok_set_dev, H1|]. cbn. split; [exact Hp|]. split; [apply H1|]. split; [apply H1|].
    split; [apply H1|]. split; [apply H1|]. split; [apply H1|]. reflexivity.
Qed.

(** ** A concrete receive queue *)

(** A bus that records the writes. *)
Definition log_bus : Bus (list (Z * Z)) :=
  {| bus_read32 d _ := (0, d); bus_write32 d a v := d ++ [(a, v)] |}.

Definition demo_mac : list Z := [2; 0; 0; 0; 0; 9].
Definition demo_arp_frame : list Z :=
  replicate 6 255 ++ demo_mac ++ [8; 6] ++
  arp_wire ARP_OPERATION_REQUEST demo_mac 0x0a000202 (replicate 6 0) IPV4_LOCAL_ADDRESS ++
  replicate 1472 0.

(** All buffers offered; the device has fetched and completed two: an ARP
    request of 60 bytes and a runt. *)
Definition demo_rx_vq : virtio_virtq :=
  let vq := fold_left (fun vq i => enqueue_desc 0x80300000 vq (Z.of_nat i)) (seq 0 16) virtq_zero in
  set_used (<[0%nat := mkUsed 0 70]> (<[1%nat := mkUsed 1 12]> (used_ring vq))) 2 vq.

Definition demo_machine : machine (list (Z * Z)) :=
  mkMachine [] 0 []
    (mkDma demo_rx_vq (<[0%nat := demo_arp_frame]> (replicate 16 (replicate ETH_MAX_FRAME_SIZE 0)))
       virtq_zero (replicate ETH_MAX_FRAME_SIZE 0) virtq_zero (mkReq 0 0 [] 0))
    (mkNet (mkDevice 0x10002000 1) true 0x80300000 0x80310000
       (mkRx 0 0 0 0 (replicate ETH_MAX_FRAME_SIZE 0) 0) demo_captures (mkTx 0 0 0 false))
    (mkBlk (mkDevice 0x10001000 2) 0 0 false)
    (mkArpState (replicate 8 (mkArp false 0 (replicate 6 0))) (mkPending false (replicate 6 0) 0))
    (mkIpv4 (mkStats 0 0 0 0 0 0 0 0) 1).

Lemma demo_rx_ok : rx_ok demo_machine 2.
Proof.
  assert (Hz : length (replicate ETH_MAX_FRAME_SIZE 0) = ETH_MAX_FRAME_SIZE /\
               Forall octet (replicate ETH_MAX_FRAME_SIZE 0)).
  { split; [apply length_replicate|]. apply Forall_replicate. unfold octet. lia. }
  split.
  - reflexivity.
  - apply Forall_insert; [by apply Forall_replicate|]. split; [reflexivity|].
    repeat (apply Forall_app; split);
      try (apply Forall_replicate; unfold octet; lia); try apply write_be16_octet; try apply write_ipv4_octet;
      repeat constructor; unfold octet; lia.
  - split; vm_compute; first [reflexivity | split; [discriminate|reflexivity] | discriminate].
  - split; vm_compute; first [reflexivity | split; [discriminate|reflexivity] | discriminate].
  - change (to_pop _) with [mkUsed 0 70; mkUsed 1 12].
    repeat constructor; unfold VIRTQ_ENTRY_NUM; cbn; lia.
  - reflexivity.
  - vm_compute. discriminate.
  - change (unseen _ _) with (Z.of_nat <$> seq 2 14). cbn [seq fmap list_fmap].
    repeat constructor; vm_compute; discriminate.
  - apply demo_captures_ok.
  - split; [|reflexivity]. split; [reflexivity| |].
    + intros i e He. apply lookup_replicate in He as [-> _]. reflexivity.
    + intros i j e e' He _ Hv. apply lookup_replicate in He as [-> _]. discriminate Hv.
Qed.

Lemma drain_rx_processes_all_witness :
  exists m', virtio_net_drain_rx (Bus0 := log_bus) demo_machine = Ret m' /\
    arp_lookup (m_arp m') 0x0a000202 = Some demo_mac /\
    ap_pending (pending_reply (m_arp m')) = true /\
    unseen (rx_vq (m_dma m')) 2 = (Z.of_nat <$> seq 2 14) ++ [0; 1] /\
    m_dev m' = [(0x10002050, 0)].
Proof.
  destruct (@drain_rx_processes_all _ log_bus demo_machine 2 demo_rx_ok)
    as (m' & E & _ & _ & Eu & _ & Ea & _ & _ & Ed).
  exists m'. split; [exact E|].
  assert (Earp : m_arp m' = mkArpState
    (mkArp true 0x0a000202 demo_mac :: replicate 7 (mkArp false 0 (replicate 6 0)))
    (mkPending true demo_mac 0x0a000202)) by (injection Ea as <-; reflexivity).
  rewrite Earp. split; [reflexivity|]. split; [reflexivity|]. split; [exact Eu|exact Ed].
Defined.
