(* ===== verification/Interrupts.v ===== *)
(** Interrupts: the PLIC ([kernel/plic.c]), the block driver's handler
    ([kernel/virtio_blk.c]), dispatch ([handle_external_interrupt] of
    [kernel/kernel.c]) and waiting ([kernel/interrupt.c]).

    While a handler runs the hardware keeps [sstatus.SIE] clear, so handlers
    are not interrupted; the only place where the kernel accepts interrupts
    after boot is inside [wait_for_interrupt].  A wait that never ends has no
    result ([Undef]). *)

From Stdlib Require Import ZArith Lia.
From S2P Require Import Prelude Strings Bytes Arp Ipv4 Ring Virtio Machine NetDriver.
Open Scope Z_scope.

Definition PLIC_BASE : Z := 0x0c000000.
Definition PLIC_SENABLE : Z := PLIC_BASE + 0x2080.
Definition PLIC_STHRESHOLD : Z := PLIC_BASE + 0x201000.
Definition PLIC_SCLAIM : Z := PLIC_BASE + 0x201004.
Definition VIRTIO_BLK_IRQ : Z := 1.
Definition VIRTIO_NET_IRQ : Z := 2.

Section Plic.
Context {D : Type} `{!Bus D}.
Implicit Types (d : D).

Definition plic_enable d (irq : Z) : D :=
  let priority := PLIC_BASE + irq * 4 in
  let enable := PLIC_SENABLE + irq / 32 * 4 in
  let d := bus_write32 d priority 1 in
  let '(old, d) := bus_read32 d enable in
  bus_write32 d enable (Z.lor old (Z.shiftl 1 (irq mod 32))).

Definition plic_init d : D :=
  let d := bus_write32 d PLIC_STHRESHOLD 0 in
  let d := plic_enable d VIRTIO_BLK_IRQ in
  plic_enable d VIRTIO_NET_IRQ.

Definition plic_claim d : Z * D := bus_read32 d PLIC_SCLAIM.
Definition plic_complete d (irq : Z) : D := bus_write32 d PLIC_SCLAIM irq.
End Plic.

Section Handlers.
Context {D : Type} `{!Bus D}.
Implicit Types (m : machine D).

(** [while (virtq_pop_used(blk_request_vq, &used)) completed = true;] *)
Fixpoint blk_drain (fuel : nat) (vq : virtio_virtq) (completed : bool) : outcome (virtio_virtq * bool) :=
  match virtq_pop_used vq with
  | None => Ret (vq, completed)
  | Some (_, vq) => match fuel with O => Undef | S n => blk_drain n vq true end
  end.

Definition virtio_blk_irq m : outcome (machine D) :=
  let '(status, d) := virtio_irq_status (m_dev m) (blk_dev (m_blk m)) in
  let m := set_m_dev d m in
  let m := if status =? 0 then m
           else set_m_dev (virtio_irq_ack (m_dev m) (blk_dev (m_blk m)) status) m in
  if Z.land status VIRTIO_INT_USED_BUFFER =? 0 then Ret m
  else
    '(vq, completed) ← blk_drain (used_count (blk_vq (m_dma m))) (blk_vq (m_dma m)) false;
    let m := set_blk_queue vq m in
    if (completed : bool) then Ret (set_m_blk (set_blk_done true (m_blk m)) m) else Ret m.

Definition handle_external_interrupt m : outcome (machine D) :=
  let '(irq, d) := plic_claim (m_dev m) in
  let m := set_m_dev d m in
  if irq =? 0 then Ret m
  else
    m ← (if irq =? VIRTIO_BLK_IRQ then virtio_blk_irq m
         else if irq =? VIRTIO_NET_IRQ then virtio_net_irq m
         else
           out ← printf (bytes_of "unexpected external irq=%d" ++ [10; 0]) [VInt irq];
           Ret (emit out m));
    Ret (set_m_dev (plic_complete (m_dev m) irq) m).
End Handlers.

Section Wait.
Context {D : Type} `{!Devices D}.
Implicit Types (m : machine D).

(** One pass of the loop: sleep, open the interrupt window, close it. *)
Definition wait_pass (disabled_sstatus : Z) m : outcome (machine D) :=
  match dev_wait (m_dev m) (m_dma m) with
  | None => Undef
  | Some (d, mem) =>
      let m := set_m_dma mem (set_m_dev d m) in
      let m := set_m_sstatus (Z.lor disabled_sstatus SSTATUS_SIE) m in
      m ← handle_external_interrupt m;
      Ret (set_m_sstatus disabled_sstatus m)
  end.

Fixpoint wait_loop (fuel : nat) (done : machine D -> bool) (disabled_sstatus : Z) m
    : outcome (machine D) :=
  if done m then Ret m
  else
    match fuel with
    | O => Undef
    | S n => m ← wait_pass disabled_sstatus m; wait_loop n done disabled_sstatus m
    end.

(** [done] is the test of the flag the pointer argument points to. *)
Definition wait_for_interrupt (done : machine D -> bool) m : outcome (machine D) :=
  let saved_sstatus := m_sstatus m in
  let disabled_sstatus := Z.land saved_sstatus (Z.lnot SSTATUS_SIE) in
  let m := set_m_sstatus disabled_sstatus m in
  m ← wait_loop wakes done disabled_sstatus m;
  Ret (set_m_sstatus saved_sstatus m).
End Wait.

(** ** The handlers return *)

(** The rings the handlers read are well formed. *)
Record drivers_ok {D : Type} (m : machine D) (seen : Z) : Prop := {
  drv_rx : rx_ok m seen;
  drv_tx : used_ok (tx_vq (m_dma m));
  drv_blk : used_ok (blk_vq (m_dma m));
}.

Lemma length_0_decide (l : list virtq_used_elem) :
  bool_decide (length l = 0%nat) = bool_decide (l = []).
Proof. by destruct l. Qed.

(** The driver's own move in a used ring. *)
Definition consumes (vq vq' : virtio_virtq) : Prop :=
  exists c, vq' = set_consumed c vq /\ to_pop vq' `suffix_of` to_pop vq.

Lemma consumes_refl vq : consumes vq vq.
Proof. exists (consumed_used_index vq). by destruct vq. Qed.
Lemma consumes_trans vq1 vq2 vq3 : consumes vq1 vq2 -> consumes vq2 vq3 -> consumes vq1 vq3.
Proof. intros (c & -> & H1) (c' & -> & H2). exists c'. split; [done|]. by etrans. Qed.
Lemma consumes_pop e c vq : to_pop vq = e :: to_pop (set_consumed c vq) -> consumes vq (set_consumed c vq).
Proof. intros E. exists c. split; [done|]. rewrite E. by exists [e]. Qed.
Lemma consumes_nil vq vq' : consumes vq vq' -> to_pop vq = [] -> to_pop vq' = [].
Proof. intros (c & _ & Hs) E. rewrite E in Hs. by apply suffix_nil_inv in Hs. Qed.
#[local] Hint Resolve consumes_refl : core.

(** No buffer is outstanding in the queue. *)
Definition quiet (vq : virtio_virtq) : Prop := avail_index vq = used_index vq.

Lemma consumes_quiet vq vq' : consumes vq vq' -> quiet vq -> quiet vq'.
Proof. by intros (c & -> & _). Qed.

(** What waiting for one device leaves of the driver of the other. *)
Record net_frame {D : Type} (m m' : machine D) : Prop := {
  nf_up : net_up (m_net m') = net_up (m_net m);
  nf_dev : net_dev (m_net m') = net_dev (m_net m);
  nf_vq : consumes (tx_vq (m_dma m)) (tx_vq (m_dma m'));
}.

Record blk_frame {D : Type} (m m' : machine D) : Prop := {
  bf_dev : blk_dev (m_blk m') = blk_dev (m_blk m);
  bf_capacity : blk_capacity (m_blk m') = blk_capacity (m_blk m);
  bf_req : blk_req (m_dma m') = blk_req (m_dma m);
  bf_vq : consumes (blk_vq (m_dma m)) (blk_vq (m_dma m'));
}.

Lemma net_frame_refl {D} (m : machine D) : net_frame m m.
Proof. by split. Qed.
Lemma blk_frame_refl {D} (m : machine D) : blk_frame m m.
Proof. by split. Qed.
Lemma net_frame_trans {D} (m1 m2 m3 : machine D) : net_frame m1 m2 -> net_frame m2 m3 -> net_frame m1 m3.
Proof. intros [] []. split; [congruence|congruence|by eapply consumes_trans]. Qed.
Lemma blk_frame_trans {D} (m1 m2 m3 : machine D) : blk_frame m1 m2 -> blk_frame m2 m3 -> blk_frame m1 m3.
Proof. intros [] []. split; [congruence|congruence|congruence|by eapply consumes_trans]. Qed.

Section HandlerSpecs.
Context {D : Type} `{!Bus D}.
Implicit Types (m : machine D).

Lemma drain_tx_loop_spec fuel : forall m,
  used_ok (tx_vq (m_dma m)) -> length (to_pop (tx_vq (m_dma m))) = fuel ->
  exists vq tx, drain_tx_loop fuel m = Ret (set_tx tx (set_tx_queue vq m)) /\
    used_ok vq /\ to_pop vq = [] /\ consumes (tx_vq (m_dma m)) vq /\
    net_tx_done tx = net_tx_done (n_tx (m_net m)) || negb (bool_decide (fuel = 0%nat)).
Proof.
  induction fuel as [|fuel IH]; intros m Hu Hl; cbn [drain_tx_loop];
    pose proof (virtq_pop_used_spec _ Hu) as Hpop;
    destruct (virtq_pop_used (tx_vq (m_dma m))) as [[e vq]|] eqn:Hp.
  - destruct Hpop as [Hpop _]. rewrite Hpop in Hl. discriminate Hl.
  - exists (tx_vq (m_dma m)), (n_tx (m_net m)). rewrite orb_false_r.
    split; [by destruct m as [? ? ? [] [] ? ? ?]|done].
  - destruct Hpop as (Epop & Hu' & Ec). rewrite Epop in Hl.
    match goal with |- context [drain_tx_loop fuel ?x] => destruct (IH x) as (vq' & tx' & -> & Hu2 & Hp2 & Hc & Hd) end;
      [exact Hu'|cbn; cbn in Hl; lia|].
    exists vq', tx'. split; [by destruct m as [? ? ? [] [] ? ? ?]|]. split; [done|]. split; [done|].
    split; [eapply consumes_trans; [|exact Hc]; rewrite Ec in Epop |- *; by eapply consumes_pop|].
    rewrite Hd. cbn. by rewrite orb_true_r.
  - rewrite Hpop in Hl. discriminate Hl.
Qed.

Lemma blk_drain_spec fuel : forall vq completed,
  used_ok vq -> length (to_pop vq) = fuel ->
  exists vq', blk_drain fuel vq completed = Ret (vq', completed || negb (bool_decide (fuel = 0%nat))) /\
    used_ok vq' /\ to_pop vq' = [] /\ consumes vq vq'.
Proof.
  induction fuel as [|fuel IH]; intros vq completed Hu Hl; cbn [blk_drain];
    pose proof (virtq_pop_used_spec _ Hu) as Hpop; destruct (virtq_pop_used vq) as [[e vq1]|].
  - destruct Hpop as [Hpop _]. rewrite Hpop in Hl. discriminate Hl.
  - exists vq. by rewrite orb_false_r.
  - destruct Hpop as (Epop & Hu' & Ec). rewrite Epop in Hl.
    destruct (IH vq1 true Hu') as (vq' & -> & H & Hp & Hc); [cbn in Hl; lia|].
    exists vq'. rewrite (bool_decide_eq_false_2 (S fuel = 0%nat)) by lia. rewrite orb_true_r.
    split; [done|]. split; [done|]. split; [done|]. eapply consumes_trans; [|exact Hc].
    rewrite Ec in Epop |- *. by eapply consumes_pop.
  - rewrite Hpop in Hl. discriminate Hl.
Qed.

(** A property of the devices that register accesses keep. *)
Record bus_stable (P : D -> Prop) : Prop := {
  stable_read : forall d a, P d -> P (bus_read32 d a).2;
  stable_write : forall d a v, P d -> P (bus_write32 d a v);
}.

(** What an interrupt handler must leave alone. *)
Record same_ground m m' : Prop := {
  sg_sstatus : m_sstatus m' = m_sstatus m;
  sg_tx_buf : tx_buf (m_dma m') = tx_buf (m_dma m);
  sg_rx_bufs : rx_bufs (m_dma m') = rx_bufs (m_dma m);
  sg_blk_req : blk_req (m_dma m') = blk_req (m_dma m);
  sg_net_dev : net_dev (m_net m') = net_dev (m_net m);
  sg_net_up : net_up (m_net m') = net_up (m_net m);
  sg_paddr : net_rx_paddr (m_net m') = net_rx_paddr (m_net m) /\
             net_tx_paddr (m_net m') = net_tx_paddr (m_net m);
  sg_blk_dev : blk_dev (m_blk m') = blk_dev (m_blk m);
  sg_blk_req_paddr : blk_req_paddr (m_blk m') = blk_req_paddr (m_blk m);
  sg_capacity : blk_capacity (m_blk m') = blk_capacity (m_blk m);
  sg_tx_vq : consumes (tx_vq (m_dma m)) (tx_vq (m_dma m'));
  sg_blk_vq : consumes (blk_vq (m_dma m)) (blk_vq (m_dma m'));
  sg_device : forall P, bus_stable P -> P (m_dev m) -> P (m_dev m');
}.

Lemma same_ground_refl m : same_ground m m.
Proof. by split. Qed.
Lemma same_ground_trans m1 m2 m3 : same_ground m1 m2 -> same_ground m2 m3 -> same_ground m1 m3.
Proof.
  intros [? ? ? ? ? ? [? ?] ? ? ? T1 B1 D1] [? ? ? ? ? ? [? ?] ? ? ? T2 B2 D2].
  split; try congruence; [split; congruence|by eapply consumes_trans..|]. intros P HP Hd. by apply D2, D1.
Qed.

Lemma ground_net_frame m m' : same_ground m m' -> net_frame m m'.
Proof. intros []. by split. Qed.
Lemma ground_blk_frame m m' : same_ground m m' -> blk_frame m m'.
Proof. intros []. by split. Qed.

(** The read of the interrupt status and its acknowledgement. *)
Definition irq_ack_step dev m : machine D :=
  let '(status, d) := virtio_irq_status (m_dev m) dev in
  if status =? 0 then set_m_dev d m else set_m_dev (virtio_irq_ack d dev status) m.
Definition irq_status_of dev m : Z := (virtio_irq_status (m_dev m) dev).1.

Lemma drivers_ok_set_dev m seen d : drivers_ok m seen -> drivers_ok (set_m_dev d m) seen.
Proof. intros []. split; [by apply rx_ok_set_dev|done|done]. Qed.

Lemma irq_ack_step_ground dev m seen :
  drivers_ok m seen ->
  drivers_ok (irq_ack_step dev m) seen /\ same_ground m (irq_ack_step dev m) /\
  m_dma (irq_ack_step dev m) = m_dma m /\ m_net (irq_ack_step dev m) = m_net m /\
  m_blk (irq_ack_step dev m) = m_blk m /\ m_arp (irq_ack_step dev m) = m_arp m /\
  m_ip (irq_ack_step dev m) = m_ip m.
Proof.
  intros Hm. unfold irq_ack_step. destruct (virtio_irq_status (m_dev m) dev) as [status d] eqn:E.
  assert (Hd : forall P, bus_stable P -> P (m_dev m) -> P d).
  { intros P HP H. pose proof (stable_read P HP (m_dev m) (u32 (dev_base dev + VIRTIO_REG_INTERRUPT_STATUS)) H) as H'.
    unfold virtio_irq_status, virtio_reg_read32 in E. rewrite E in H'. exact H'. }
  destruct (status =? 0); (split; [by apply drivers_ok_set_dev|]); (split; [|done]);
    split; try done; intros P HP H; cbn.
  apply (stable_write P HP). by apply Hd.
Qed.

(** What was received went to the protocols and to the capture queue. *)
Definition handed_up m m' : Prop :=
  let frames := omap (used_frame (rx_bufs (m_dma m))) (to_pop (rx_vq (m_dma m))) in
  arp_receive_all (m_arp m) frames = Ret (m_arp m') /\ ipv4_receive_all (m_ip m) frames = Ret (m_ip m') /\
  capture_queue (n_cap (m_net m')) = take 16 (capture_queue (n_cap (m_net m)) ++ (frame_bytes <$> frames)).

Lemma handed_up_end m m1 m2 :
  handed_up m m1 -> m_arp m2 = m_arp m1 -> m_ip m2 = m_ip m1 -> n_cap (m_net m2) = n_cap (m_net m1) -> handed_up m m2.
Proof. unfold handed_up. by intros H -> -> ->. Qed.
Lemma handed_up_start m m1 m2 :
  handed_up m1 m2 -> m_arp m1 = m_arp m -> m_ip m1 = m_ip m -> m_net m1 = m_net m -> m_dma m1 = m_dma m ->
  handed_up m m2.
Proof. unfold handed_up. by intros H <- <- <- <-. Qed.

Lemma drain_rx_ground m seen :
  drivers_ok m seen ->
  exists m', virtio_net_drain_rx m = Ret m' /\ drivers_ok m' seen /\ same_ground m m' /\
    to_pop (rx_vq (m_dma m')) = [] /\ tx_vq (m_dma m') = tx_vq (m_dma m) /\
    blk_vq (m_dma m') = blk_vq (m_dma m) /\ n_tx (m_net m') = n_tx (m_net m) /\ m_blk m' = m_blk m /\
    handed_up m m'.
Proof.
  intros [Hr Ht Hb]. destruct (virtio_net_drain_rx_spec m seen Hr) as (m1 & H1 & Hp & ->).
  destruct (dr_frame _ _ _ _ H1) as (? & ? & ? & Hblk & ? & ? & ? & ? & ?).
  destruct (dr_memory _ _ _ _ H1) as (? & Etx & ? & Ebv & ? & ?).
  assert (Hg : same_ground m m1).
  { split; try congruence; [split; congruence|rewrite Etx; done|rewrite Ebv; done]. }
  assert (Hup : handed_up m m1).
  { split; [exact (dr_arp _ _ _ _ H1)|]. split; [exact (dr_ip _ _ _ _ H1)|exact (dr_captures _ _ _ _ H1)]. }
  eexists. split; [reflexivity|]. destruct (bool_decide _).
  - split; [split; [apply H1|congruence|congruence]|]. done.
  - split; [split; [apply rx_ok_set_dev, H1|cbn; congruence|cbn; congruence]|]. split; [|done].
    destruct Hg as [? ? ? ? ? ? ? ? ? ? ? ? Hdev]. split; try done. intros P HP Hd. cbn.
    unfold virtq_notify, virtio_reg_write32. by apply (stable_write P HP).
Qed.

Lemma drain_tx_ground m seen :
  drivers_ok m seen ->
  exists m', virtio_net_drain_tx m = Ret m' /\ drivers_ok m' seen /\ same_ground m m' /\
    rx_vq (m_dma m') = rx_vq (m_dma m) /\ to_pop (tx_vq (m_dma m')) = [] /\
    blk_vq (m_dma m') = blk_vq (m_dma m) /\ m_blk m' = m_blk m /\
    (m_arp m' = m_arp m /\ m_ip m' = m_ip m /\ n_cap (m_net m') = n_cap (m_net m)) /\
    net_tx_done (n_tx (m_net m')) =
      net_tx_done (n_tx (m_net m)) || negb (bool_decide (to_pop (tx_vq (m_dma m)) = [])).
Proof.
  intros [Hr Ht Hb]. unfold virtio_net_drain_tx.
  destruct (drain_tx_loop_spec _ m Ht (eq_sym (used_count_to_pop _))) as (vq & tx & -> & Hu & Hp & Hc & Hd).
  eexists. split; [reflexivity|]. split; [split; [|exact Hu|exact Hb]|].
  { destruct Hr. by constructor. }
  split; [by split|]. split; [reflexivity|]. split; [exact Hp|]. split; [reflexivity|]. split; [reflexivity|].
  split; [done|]. cbn. by rewrite Hd, used_count_to_pop, length_0_decide.
Qed.

Lemma net_irq_spec m seen :
  drivers_ok m seen ->
  let fired := negb (Z.land (irq_status_of (net_dev (m_net m)) m) VIRTIO_INT_USED_BUFFER =? 0) in
  exists m', virtio_net_irq m = Ret m' /\ drivers_ok m' seen /\ same_ground m m' /\
    blk_vq (m_dma m') = blk_vq (m_dma m) /\ m_blk m' = m_blk m /\
    (fired = true -> to_pop (rx_vq (m_dma m')) = [] /\ to_pop (tx_vq (m_dma m')) = [] /\
      net_tx_done (n_tx (m_net m')) =
        net_tx_done (n_tx (m_net m)) || negb (bool_decide (to_pop (tx_vq (m_dma m)) = [])) /\
      handed_up m m') /\
    (fired = false -> m_net m' = m_net m /\ m_dma m' = m_dma m).
Proof.
  intros Hm fired. set (dev := net_dev (m_net m)).
  destruct (irq_ack_step_ground dev m seen Hm) as (H1 & G1 & Edma & Enet & Eblk & Earp & Eip).
  assert (E : virtio_net_irq m = if fired then (m ← virtio_net_drain_rx (irq_ack_step dev m); virtio_net_drain_tx m)
                                 else Ret (irq_ack_step dev m)).
  { unfold virtio_net_irq, irq_ack_step, fired, irq_status_of. fold dev.
    destruct (virtio_irq_status (m_dev m) dev) as [status d]. cbn [fst].
    destruct (status =? 0), (Z.land status VIRTIO_INT_USED_BUFFER =? 0); reflexivity. }
  rewrite E. clear E. destruct fired.
  - destruct (drain_rx_ground _ seen H1) as (m2 & -> & H2 & G2 & Ep2 & Et2 & Eb2 & En2 & Ebk2 & Hup).
    cbn [mbind outcome_bind].
    destruct (drain_tx_ground m2 seen H2) as (m3 & -> & H3 & G3 & Er3 & Ep3 & Eb3 & Ebk3 & (Ea3 & Ei3 & Ec3) & Ed3).
    exists m3. split; [reflexivity|]. split; [exact H3|].
    split; [by eapply same_ground_trans, same_ground_trans|].
    split; [congruence|]. split; [congruence|]. split; [|done]. intros _.
    split; [by rewrite Er3|]. split; [exact Ep3|]. split; [by rewrite Ed3, En2, Et2, Edma, Enet|].
    apply (handed_up_start _ (irq_ack_step dev m)); [by apply (handed_up_end _ m2)|assumption..].
  - eexists. split; [reflexivity|]. split; [exact H1|]. split; [exact G1|].
    split; [by rewrite Edma|]. split; [exact Eblk|]. split; [done|]. by rewrite Edma, Enet.
Qed.

Lemma blk_irq_spec m seen :
  drivers_ok m seen ->
  let fired := negb (Z.land (irq_status_of (blk_dev (m_blk m)) m) VIRTIO_INT_USED_BUFFER =? 0) in
  exists m', virtio_blk_irq m = Ret m' /\ drivers_ok m' seen /\ same_ground m m' /\
    rx_vq (m_dma m') = rx_vq (m_dma m) /\ tx_vq (m_dma m') = tx_vq (m_dma m) /\
    m_net m' = m_net m /\ m_arp m' = m_arp m /\ m_ip m' = m_ip m /\
    (fired = true -> to_pop (blk_vq (m_dma m')) = [] /\
      blk_done (m_blk m') = blk_done (m_blk m) || negb (bool_decide (to_pop (blk_vq (m_dma m)) = []))) /\
    (fired = false -> m_blk m' = m_blk m /\ m_dma m' = m_dma m).
Proof.
  intros Hm fired. set (dev := blk_dev (m_blk m)).
  destruct (irq_ack_step_ground dev m seen Hm) as (H1 & G1 & Edma & Enet & Eblk & Earp & Eip).
  set (m1 := irq_ack_step dev m) in *.
  assert (E : virtio_blk_irq m = if fired then
      '(vq, completed) ← blk_drain (used_count (blk_vq (m_dma m1))) (blk_vq (m_dma m1)) false;
      Ret (if (completed : bool) then set_m_blk (set_blk_done true (m_blk m1)) (set_blk_queue vq m1)
           else set_blk_queue vq m1)
    else Ret m1).
  { unfold virtio_blk_irq, m1, irq_ack_step, fired, irq_status_of. fold dev.
    destruct (virtio_irq_status (m_dev m) dev) as [status d]. cbn [fst].
    destruct (status =? 0), (Z.land status VIRTIO_INT_USED_BUFFER =? 0); try reflexivity;
      cbn; destruct (blk_drain _ _ _) as [[vq []]| |]; reflexivity. }
  rewrite E. clear E. clearbody m1. destruct fired.
  - destruct H1 as [Hr1 Ht1 Hb1].
    destruct (blk_drain_spec _ (blk_vq (m_dma m1)) false Hb1 (eq_sym (used_count_to_pop _))) as (vq & -> & Hu & Hp & Hc).
    cbn [mbind outcome_bind orb]. rewrite used_count_to_pop.
    assert (Eb : bool_decide (length (to_pop (blk_vq (m_dma m1))) = 0%nat) =
                 bool_decide (to_pop (blk_vq (m_dma m)) = [])).
    { by rewrite Edma, length_0_decide. }
    rewrite Eb. eexists. split; [reflexivity|].
    assert (Hr2 : rx_ok (set_blk_queue vq m1) seen) by (destruct Hr1; by constructor).
    assert (G2 : same_ground m (set_blk_queue vq m1)).
    { destruct G1. split; try assumption. by eapply consumes_trans. }
    destruct (bool_decide (to_pop (blk_vq (m_dma m)) = [])); cbn [negb].
    + split; [by split|]. split; [exact G2|]. cbn. rewrite Edma, Enet, Earp, Eip.
      do 5 (split; [reflexivity|]). split; [|done]. intros _. split; [exact Hp|]. by rewrite Eblk, orb_false_r.
    + split; [split; [|exact Ht1|exact Hu]|]. { destruct Hr2. by constructor. }
      split; [destruct G2; by split|]. cbn. rewrite Edma, Enet, Earp, Eip.
      do 5 (split; [reflexivity|]). split; [|done]. intros _. split; [exact Hp|]. by rewrite orb_true_r.
  - exists m1. split; [reflexivity|]. split; [exact H1|]. split; [exact G1|].
    rewrite Edma. do 5 (split; [assumption || reflexivity|]). split; [done|]. done.
Qed.
End HandlerSpecs.

Lemma print_unexpected_irq irq :
  0 <= irq < 1024 ->
  exists out, printf (bytes_of "unexpected external irq=%d" ++ [10; 0]) [VInt irq] = Ret out.
Proof.
  intros Hi. destruct (printNum_ret irq ltac:(lia)) as [ds E].
  change (bytes_of "unexpected external irq=%d" ++ [10; 0])
    with (bytes_of "unexpected external irq=" ++ [chr_percent; chr_d; 10; 0]).
  rewrite printf_text by reflexivity. rewrite (printf_d _ _ _ ds) by (by rewrite s32_id by lia).
  rewrite printf_char, printf_end by discriminate. by eexists.
Qed.

Section Dispatch.
Context {D : Type} `{!Bus D}.
Implicit Types (m : machine D).

(** The interrupt the PLIC reports, and the state after the claim. *)
Definition claimed m : Z := (plic_claim (m_dev m)).1.
Definition after_claim m : machine D := set_m_dev (plic_claim (m_dev m)).2 m.

(** What the handler of [irq] achieves between claim and completion: when the
    device reports used buffers, its rings are drained, received frames are
    handed up, and the flag of the waiting code is set exactly when something
    had completed. *)
Definition serviced (irq : Z) m m' : Prop :=
  if irq =? VIRTIO_BLK_IRQ then
    m_net m' = m_net m /\ rx_vq (m_dma m') = rx_vq (m_dma m) /\ tx_vq (m_dma m') = tx_vq (m_dma m) /\
    (Z.land (irq_status_of (blk_dev (m_blk m)) m) VIRTIO_INT_USED_BUFFER <> 0 ->
     to_pop (blk_vq (m_dma m')) = [] /\
     blk_done (m_blk m') = blk_done (m_blk m) || negb (bool_decide (to_pop (blk_vq (m_dma m)) = []))) /\
    (Z.land (irq_status_of (blk_dev (m_blk m)) m) VIRTIO_INT_USED_BUFFER = 0 -> m_blk m' = m_blk m)
  else if irq =? VIRTIO_NET_IRQ then
    m_blk m' = m_blk m /\ blk_vq (m_dma m') = blk_vq (m_dma m) /\
    (Z.land (irq_status_of (net_dev (m_net m)) m) VIRTIO_INT_USED_BUFFER <> 0 ->
     to_pop (rx_vq (m_dma m')) = [] /\ to_pop (tx_vq (m_dma m')) = [] /\
     net_tx_done (n_tx (m_net m')) =
       net_tx_done (n_tx (m_net m)) || negb (bool_decide (to_pop (tx_vq (m_dma m)) = [])) /\
     handed_up m m') /\
    (Z.land (irq_status_of (net_dev (m_net m)) m) VIRTIO_INT_USED_BUFFER = 0 -> m_net m' = m_net m)
  else m_net m' = m_net m /\ m_blk m' = m_blk m /\ m_dma m' = m_dma m.

Lemma external_interrupt_spec m seen :
  drivers_ok m seen -> 0 <= claimed m < 1024 ->
  exists m', handle_external_interrupt m = Ret m' /\ drivers_ok m' seen /\ same_ground m m' /\
    (claimed m = 0 -> m' = after_claim m) /\
    (claimed m <> 0 -> serviced (claimed m) (after_claim m) m' /\
       exists d, m_dev m' = plic_complete d (claimed m)).
Proof.
  intros Hm Hirq. unfold claimed, after_claim, handle_external_interrupt in *.
  assert (Hst : forall P : D -> Prop, bus_stable P -> P (m_dev m) -> P (plic_claim (m_dev m)).2).
  { intros P HP H. by apply (stable_read P HP). }
  destruct (plic_claim (m_dev m)) as [irq d]. cbn [fst snd] in *.
  set (m1 := set_m_dev d m).
  assert (H1 : drivers_ok m1 seen) by (by apply drivers_ok_set_dev).
  assert (G1 : same_ground m m1) by (by split).
  destruct (Z.eqb_spec irq 0) as [->|H0].
  { exists m1. split; [reflexivity|]. split; [exact H1|]. split; [exact G1|]. split; done. }
  assert (Hend : forall m2, drivers_ok m2 seen -> same_ground m1 m2 -> serviced irq m1 m2 ->
    exists m', Ret (set_m_dev (plic_complete (m_dev m2) irq) m2) = Ret m' /\ drivers_ok m' seen /\
      same_ground m m' /\ (irq = 0 -> m' = m1) /\
      (irq <> 0 -> serviced irq m1 m' /\ exists d, m_dev m' = plic_complete d irq)).
  { intros m2 H2 G2 S2. eexists. split; [reflexivity|]. split; [by apply drivers_ok_set_dev|].
    split; [|split; [done|]].
    - eapply same_ground_trans; [exact G1|]. eapply same_ground_trans; [exact G2|].
      split; try done. intros P HP H. by apply (stable_write P HP).
    - intros _. split; [exact S2|by eexists]. }
  unfold serviced in *.
  destruct (Z.eqb_spec irq VIRTIO_BLK_IRQ) as [->|Hb].
  - destruct (blk_irq_spec m1 seen H1) as (m2 & -> & H2 & G2 & Er & Et & En & _ & _ & Hf & Hz).
    cbn [mbind outcome_bind]. apply Hend; [exact H2|exact G2|]. split; [exact En|]. split; [exact Er|].
    split; [exact Et|]. split; intros E.
    + apply Hf. by apply negb_true_iff, Z.eqb_neq.
    + apply Hz. by apply negb_false_iff, Z.eqb_eq.
  - destruct (Z.eqb_spec irq VIRTIO_NET_IRQ) as [->|Hn].
    + destruct (net_irq_spec m1 seen H1) as (m2 & -> & H2 & G2 & Eb & Ebk & Hf & Hz).
      cbn [mbind outcome_bind]. apply Hend; [exact H2|exact G2|]. split; [exact Ebk|]. split; [exact Eb|]. split; intros E.
      * apply Hf. by apply negb_true_iff, Z.eqb_neq.
      * apply Hz. by apply negb_false_iff, Z.eqb_eq.
    + destruct (print_unexpected_irq irq Hirq) as [out ->]. cbn [mbind outcome_bind].
      apply Hend; [destruct H1; split; [|done|done]; destruct drv_rx0; by constructor|by split|done].
Qed.

(** Whatever is claimed, the flag of a wait is not set when its ring holds
    nothing new. *)
Lemma interrupt_no_completion m seen m' :
  drivers_ok m seen -> 0 <= claimed m < 1024 -> handle_external_interrupt m = Ret m' ->
  (to_pop (tx_vq (m_dma m)) = [] -> net_tx_done (n_tx (m_net m')) = net_tx_done (n_tx (m_net m))) /\
  (to_pop (blk_vq (m_dma m)) = [] -> blk_done (m_blk m') = blk_done (m_blk m)).
Proof.
  intros Hm Hc E. destruct (external_interrupt_spec m seen Hm Hc) as (m1 & E1 & _ & _ & H0 & Hs).
  rewrite E in E1. injection E1 as <-. destruct (decide (claimed m = 0)) as [Z0|Hne].
  { by rewrite (H0 Z0). }
  destruct (Hs Hne) as [S _]. clear H0 Hs E. unfold serviced in S.
  change (m_dma (after_claim m)) with (m_dma m) in S. change (m_net (after_claim m)) with (m_net m) in S.
  change (m_blk (after_claim m)) with (m_blk m) in S.
  destruct (claimed m =? VIRTIO_BLK_IRQ); [|destruct (claimed m =? VIRTIO_NET_IRQ)].
  - destruct S as (En & _ & _ & Hf & Hz). rewrite En. split; [done|]. intros Ep.
    destruct (decide (Z.land (irq_status_of (blk_dev (m_blk m)) (after_claim m)) VIRTIO_INT_USED_BUFFER = 0)) as [E|E];
      [by rewrite (Hz E)|]. rewrite (proj2 (Hf E)), Ep. by rewrite orb_false_r.
  - destruct S as (Eb & _ & Hf & Hz). rewrite Eb. split; [|done]. intros Ep.
    destruct (decide (Z.land (irq_status_of (net_dev (m_net m)) (after_claim m)) VIRTIO_INT_USED_BUFFER = 0)) as [E|E];
      [by rewrite (Hz E)|]. destruct (Hf E) as (_ & _ & -> & _). rewrite Ep. by rewrite orb_false_r.
  - destruct S as (-> & -> & _). done.
Qed.
End Dispatch.

(** [handle_external_interrupt] returns for every interrupt the PLIC can
    claim and keeps the driver invariants, the interrupt-enable bit and every
    buffer an operation in progress uses.  Claim 0 (none pending) changes
    nothing; otherwise the claimed interrupt is completed last, after its
    handler drained the rings of its device, gave every received frame to its
    protocol and to the capture queue, and set the completion flag exactly when
    a request of the waiting code had completed. *)
Theorem external_interrupt_handled {D : Type} `{!Bus D} (m : machine D) seen :
  drivers_ok m seen -> 0 <= claimed m < 1024 ->
  exists m', handle_external_interrupt m = Ret m' /\ drivers_ok m' seen /\ same_ground m m' /\
    (claimed m = 0 -> m' = after_claim m) /\
    (claimed m <> 0 -> serviced (claimed m) (after_claim m) m' /\
       exists d, m_dev m' = plic_complete d (claimed m)).
Proof. exact (external_interrupt_spec m seen). Qed.

(** Claim register and interrupt status fixed: interrupt 2 with a used buffer. *)
Definition net_irq_bus : Bus (list (Z * Z)) :=
  {| bus_read32 d a := (if a =? PLIC_SCLAIM then 2 else if a =? 0x10002060 then 1 else 0, d);
     bus_write32 d a v := d ++ [(a, v)] |}.

Lemma external_interrupt_handled_witness :
  exists m', handle_external_interrupt (Bus0 := net_irq_bus) demo_machine = Ret m' /\
    to_pop (rx_vq (m_dma m')) = [] /\ exists log, m_dev m' = log ++ [(PLIC_SCLAIM, 2)].
Proof.
  assert (Hok : drivers_ok demo_machine 2).
  { split; [exact demo_rx_ok|..]; split; vm_compute;
      first [reflexivity | split; [discriminate|reflexivity] | discriminate]. }
  destruct (@external_interrupt_handled _ net_irq_bus demo_machine 2 Hok) as (m' & E & _ & _ & _ & Hs).
  { vm_compute. split; [discriminate|reflexivity]. }
  exists m'. split; [exact E|].
  destruct (Hs ltac:(discriminate)) as [(_ & _ & Hrx & _) [log Hlog]].
  split; [apply Hrx; discriminate|by exists log].
Defined.

(** ** Waiting *)

Section WaitSpec.
Context {D : Type} `{!Devices D}.
Implicit Types (m : machine D) (done : machine D -> bool).

(** The run of a wait, wake-up by wake-up.  The flag is tested with interrupts
    disabled; while it is clear the hart sleeps until the devices wake it, opens
    the window with SIE set, takes the external interrupt there, and closes it. *)
Inductive waited (done : machine D -> bool) (disabled : Z) : nat -> machine D -> machine D -> Prop :=
  | waited_end m :
      done m = true -> Z.testbit (m_sstatus m) 1 = false -> waited done disabled 0 m m
  | waited_wake n m d mem h m' :
      done m = false -> Z.testbit (m_sstatus m) 1 = false ->
      dev_wait (m_dev m) (m_dma m) = Some (d, mem) ->
      handle_external_interrupt (set_m_sstatus (Z.lor disabled SSTATUS_SIE) (set_m_dma mem (set_m_dev d m))) = Ret h ->
      waited done disabled n (set_m_sstatus disabled h) m' -> waited done disabled (S n) m m'.

Lemma wait_loop_waited fuel done disabled : forall m m',
  m_sstatus m = disabled -> Z.testbit disabled 1 = false ->
  (wait_loop fuel done disabled m = Ret m' <-> exists n, (n <= fuel)%nat /\ waited done disabled n m m').
Proof.
  induction fuel as [|fuel IH]; intros m m' Em Hd; cbn [wait_loop]; destruct (done m) eqn:E.
  - split; [intros [= <-]; exists 0%nat; split; [lia|constructor; [done|by rewrite Em]]|].
    intros (n & Hn & H). inversion H; congruence.
  - split; [done|]. intros (n & Hn & H). inversion H; subst; [congruence|lia].
  - split; [intros [= <-]; exists 0%nat; split; [lia|constructor; [done|by rewrite Em]]|].
    intros (n & Hn & H). inversion H; congruence.
  - unfold wait_pass. split.
    + intros H. apply bind_Ret_inv in H as (m1 & H1 & H).
      destruct (dev_wait (m_dev m) (m_dma m)) as [[d mem]|] eqn:Ew; [|discriminate H1].
      apply bind_Ret_inv in H1 as (h & Hh & [= <-]). apply IH in H as (n & Hn & H); [|done|done].
      exists (S n). split; [lia|]. econstructor; [done|by rewrite Em|exact Ew|exact Hh|exact H].
    + intros (n & Hn & H). inversion H as [|n' ? d mem h ? _ _ Ew Hh H2]; subst; [congruence|].
      rewrite Ew, Hh, !bind_Ret_l. apply IH; [done|done|]. exists n'. split; [lia|exact H2].
Qed.

Lemma waited_done done disabled n m m' : waited done disabled n m m' -> done m' = true.
Proof. by induction 1. Qed.

(** The interrupt-enable bit is clear in the disabled value. *)
Lemma disabled_clear s : Z.testbit (Z.land s (Z.lnot SSTATUS_SIE)) 1 = false.
Proof. rewrite Z.land_spec, Z.lnot_spec by lia. cbn. by rewrite andb_false_r. Qed.

Lemma sstatus_restored s m : set_m_sstatus (m_sstatus m) (set_m_sstatus s m) = m.
Proof. by destruct m. Qed.

(** A wait returns exactly the end of its run. *)
Lemma wait_waited done m m' :
  let disabled := Z.land (m_sstatus m) (Z.lnot SSTATUS_SIE) in
  (wait_for_interrupt done m = Ret m' <->
   exists n m1, (n <= wakes)%nat /\ waited done disabled n (set_m_sstatus disabled m) m1 /\
     m' = set_m_sstatus (m_sstatus m) m1).
Proof.
  intros disabled. unfold wait_for_interrupt. fold disabled. split.
  - intros H. apply bind_Ret_inv in H as (m1 & H & [= <-]).
    apply wait_loop_waited in H as (n & Hn & H); [|done|apply disabled_clear]. by exists n, m1.
  - intros (n & m1 & Hn & H & ->).
    assert (E : wait_loop wakes done disabled (set_m_sstatus disabled m) = Ret m1).
    { apply wait_loop_waited; [done|apply disabled_clear|by exists n]. }
    by rewrite E.
Qed.
End WaitSpec.
