(* ===== verification/NetStack.v ===== *)
(** Transmission ([kernel/virtio_net.c]) and the protocol code that sends:
    [arp_poll], [arp_request] ([kernel/arp.c]) and [ipv4_send]
    ([kernel/ipv4.c]).

    Sending waits for an interrupt, and interrupts run the receive path on
    the same state.  ARP and IPv4 are proved against the interface
    [EthernetLink]; the driver implements it for any network device that
    keeps the contract [NicSpec]. *)

From Stdlib Require Import ZArith Lia.
From S2P Require Import Prelude Strings Bytes Arp Ipv4 Ring Virtio Machine NetDriver Interrupts.
Open Scope Z_scope.

Definition broadcast_mac : list Z := replicate 6 0xff.

Section Code.
Context {D : Type} `{!Devices D}.
Implicit Types (m : machine D).

(** The part of [virtio_net_send_ethernet] that fills the descriptor and
    notifies the device: [frame] is the transmit buffer's frame. *)
Definition net_transmit m (frame : list Z) (frame_len : Z) : machine D :=
  let m := set_tx_frame frame m in
  let vq := tx_vq (m_dma m) in
  let desc := mkDesc (net_tx_paddr (m_net m)) (SIZEOF_NET_HDR + frame_len) 0 0 in
  let vq := set_descs (<[0%nat := desc]> (descs vq)) vq in
  let tx := n_tx (m_net m) in
  let m := set_tx (set_net_tx_done false (set_net_pending_tx_len frame_len tx)) m in
  let '(vq, d) := virtq_kick (m_dev m) (net_dev (m_net m)) vq 0 in
  set_m_dev d (set_tx_queue vq m).

Definition tx_done m : bool := net_tx_done (n_tx (m_net m)).

(** A payload pointer is [None] when [NULL], otherwise the bytes it points to. *)
Definition virtio_net_send_ethernet m (dst_mac : list Z) (ethertype : Z) (payload : option (list Z))
    (len : Z) : outcome (Z * machine D) :=
  let max_payload_len := Z.of_nat ETH_MAX_FRAME_SIZE - Z.of_nat ETHERNET_HEADER_SIZE in
  match payload with
  | None => Ret (-1, m)
  | Some bytes =>
      if negb (net_up (m_net m)) || (len <? 0) || (max_payload_len <? len) then Ret (-1, m)
      else
        _ ← defined_if (len <=? Z.of_nat (length bytes));
        let frame := replicate ETH_MAX_FRAME_SIZE 0 in
        let frame := put 0 (take 6 dst_mac) frame in
        let frame := put 6 net_mac frame in
        let frame := <[12%nat := u8 (Z.shiftr ethertype 8)]> frame in
        let frame := <[13%nat := Z.land ethertype 0xff]> frame in
        let frame := put ETHERNET_HEADER_SIZE (take (Z.to_nat len) bytes) frame in
        let frame_len := Z.of_nat ETHERNET_HEADER_SIZE + len in
        let frame_len := if frame_len <? 60 then 60 else frame_len in
        m ← wait_for_interrupt tx_done (net_transmit m frame frame_len);
        Ret (len, m)
  end.

Definition virtio_net_send_packet m (payload : option (list Z)) (len : Z) : outcome (Z * machine D) :=
  virtio_net_send_ethernet m broadcast_mac VIRTIO_NET_TEST_ETHERTYPE payload len.

Definition virtio_net_send_test_packet m : outcome (machine D) :=
  if negb (net_up (m_net m)) then Ret m
  else
    let frame := replicate ETH_MAX_FRAME_SIZE 0 in
    let frame := fold_left (fun frame i => <[i := 0xff]> frame) (seq 0 6) frame in
    let frame := put 6 net_mac frame in
    let frame := <[12%nat := Z.shiftr VIRTIO_NET_TEST_ETHERTYPE 8]> frame in
    let frame := <[13%nat := Z.land VIRTIO_NET_TEST_ETHERTYPE 0xff]> frame in
    m ← wait_for_interrupt tx_done (net_transmit m frame 60);
    out ← printf (bytes_of "virtio-net: tx test frame len=%d" ++ [10; 0]) [VInt 60];
    Ret (emit out m).

(** ** ARP *)

Definition set_pending (p : arp_pending_reply) m : machine D :=
  set_m_arp (mkArpState (arp_cache (m_arp m)) p) m.

(** [arp_poll]: the pending reply is taken with interrupts masked, and
    [sstatus] restored, before the reply is sent. *)
Definition arp_poll m : outcome (machine D) :=
  let p := pending_reply (m_arp m) in
  if negb (ap_pending p) then Ret m
  else
    let target_mac := take 6 (ap_target_mac p) in
    let target_ip := ap_target_ip p in
    let m := set_pending (mkPending false (ap_target_mac p) (ap_target_ip p)) m in
    let reply := arp_build_packet virtio_net_mac ARP_OPERATION_REPLY target_mac target_ip in
    '(sent, m) ← virtio_net_send_ethernet m target_mac ARP_ETHERTYPE (Some reply)
                   (Z.of_nat SIZEOF_ARP_PACKET);
    if 0 <=? sent then
      a ← print_ipv4 target_ip;
      Ret (emit (bytes_of "arp: replied to " ++ a ++ [10]) m)
    else Ret m.

Definition arp_request m (target_ip : Z) : outcome (Z * machine D) :=
  let request := arp_build_packet virtio_net_mac ARP_OPERATION_REQUEST (replicate 6 0) target_ip in
  virtio_net_send_ethernet m broadcast_mac ARP_ETHERTYPE (Some request) (Z.of_nat SIZEOF_ARP_PACKET).

(** ** IPv4 *)

Definition count_stats (f : ipv4_stats -> ipv4_stats) m : machine D :=
  set_m_ip (set_stats (m_ip m) (f (stats (m_ip m)))) m.

Definition ipv4_send m (dst_ip protocol : Z) (payload : option (list Z)) (payload_len : Z)
    : outcome (Z * machine D) :=
  if match payload with None => 0 <? payload_len | Some _ => false end then
    Ret (-1, count_stats count_tx_dropped m)
  else if Z.of_nat IPV4_MAX_PACKET_SIZE - Z.of_nat IPV4_HEADER_MIN_SIZE <? payload_len then
    Ret (-1, count_stats count_tx_dropped m)
  else
    match (if dst_ip =? IPV4_BROADCAST_ADDRESS then Some broadcast_mac else arp_lookup (m_arp m) dst_ip) with
    | None =>
        '(_, m) ← arp_request m dst_ip;
        Ret (-2, count_stats count_tx_dropped m)
    | Some dst_mac =>
        let bytes := default [] payload in
        _ ← defined_if (payload_len <=? Z.of_nat (length bytes));
        let id := next_identification (m_ip m) in
        let m := set_m_ip (mkIpv4 (stats (m_ip m)) (u16 (id + 1))) m in
        packet ← ipv4_build_packet id dst_ip protocol (take (Z.to_nat payload_len) bytes);
        '(sent, m) ← virtio_net_send_ethernet m dst_mac IPV4_ETHERTYPE (Some packet)
                       (Z.of_nat IPV4_HEADER_MIN_SIZE + payload_len);
        if sent <? 0 then Ret (sent, count_stats count_tx_dropped m)
        else Ret (payload_len, count_stats count_tx_packets m)
    end.

(** [ipv4_dump_stats] *)
Definition ipv4_dump_stats m : outcome (list Z) :=
  let t := stats (m_ip m) in
  a ← print_ipv4 IPV4_LOCAL_ADDRESS;
  b ← printf (bytes_of "  rx=%d drop=%d icmp=%d udp=%d tcp=%d other=%d" ++ [10; 0])
        [VInt (rx_packets t); VInt (rx_dropped t); VInt (rx_icmp t);
         VInt (rx_udp t); VInt (rx_tcp t); VInt (rx_other t)];
  c ← printf (bytes_of "  tx=%d drop=%d" ++ [10; 0]) [VInt (tx_packets t); VInt (tx_dropped t)];
  Ret (bytes_of "IPv4 local=" ++ a ++ [10] ++ b ++ c).
End Code.

(** ** Frames *)

(** An Ethernet frame, padded to the minimum of 60 bytes. *)
Definition ether_frame (dst : list Z) (ethertype : Z) (payload : list Z) : list Z :=
  let f := dst ++ net_mac ++ write_be16 ethertype ++ payload in
  f ++ replicate (60 - length f) 0.

Section Frames.
Implicit Types (dst bytes payload : list Z).

(** The buffer [virtio_net_send_ethernet] fills. *)
Definition tx_frame dst (ethertype : Z) payload : list Z :=
  let frame := replicate ETH_MAX_FRAME_SIZE 0 in
  let frame := put 0 (take 6 dst) frame in
  let frame := put 6 net_mac frame in
  let frame := <[12%nat := u8 (Z.shiftr ethertype 8)]> frame in
  let frame := <[13%nat := Z.land ethertype 0xff]> frame in
  put ETHERNET_HEADER_SIZE payload frame.

Lemma tx_frame_layout dst ethertype payload :
  length dst = 6%nat -> (length payload <= 1500)%nat ->
  tx_frame dst ethertype payload =
  (dst ++ net_mac ++ write_be16 ethertype ++ payload) ++ replicate (1500 - length payload) 0.
Proof.
  intros Hd Hp. unfold tx_frame.
  change (replicate ETH_MAX_FRAME_SIZE 0) with (replicate 14 0 ++ replicate 1500 0).
  destruct dst as [|d0 [|d1 [|d2 [|d3 [|d4 [|d5 [|]]]]]]]; try discriminate Hd.
  set (tail := replicate 1500 0).
  match goal with |- context [put ETHERNET_HEADER_SIZE payload ?x] =>
    assert (E : x = ([d0; d1; d2; d3; d4; d5] ++ net_mac ++ write_be16 ethertype) ++ tail) by reflexivity;
    rewrite E; clear E end.
  unfold put. rewrite take_app_length' by reflexivity.
  rewrite drop_app_ge by (cbn; lia). rewrite <-!(assoc_L (++)).
  do 4 f_equal. unfold tail. rewrite drop_replicate. f_equal. cbn. lia.
Qed.

Lemma take_tx_frame dst ethertype payload :
  length dst = 6%nat -> (length payload <= 1500)%nat ->
  take (Z.to_nat (Z.max 60 (14 + Z.of_nat (length payload)))) (tx_frame dst ethertype payload) =
  ether_frame dst ethertype payload.
Proof.
  intros Hd Hp. rewrite tx_frame_layout by assumption. unfold ether_frame.
  set (f := dst ++ net_mac ++ write_be16 ethertype ++ payload).
  assert (Hf : length f = (14 + length payload)%nat).
  { unfold f. rewrite !length_app, Hd. cbn. lia. }
  rewrite take_app_ge by lia. f_equal. rewrite take_replicate. f_equal. lia.
Qed.
End Frames.

(** ** The device contract and the link interface *)

(** The available ring holds one transmission of [n] frame bytes that the
    device has not completed. *)
Record tx_outstanding (mem : dma) (n : Z) : Prop := {
  out_used : used_ok (tx_vq mem);
  out_none : to_pop (tx_vq mem) = [];
  out_one : avail_index (tx_vq mem) = u16 (used_index (tx_vq mem) + 1);
  out_slot : avail_ring (tx_vq mem) !!! ring_slot (used_index (tx_vq mem)) = 0;
  out_desc : exists a, descs (tx_vq mem) !!! 0%nat = mkDesc a (SIZEOF_NET_HDR + n) 0 0;
}.

(** A device that transmits (VirtIO 1.0, 5.1): once notified, it completes
    the outstanding transmission, puts the frame on the wire and raises its
    interrupt.  Other wake-ups may come before, with any interrupt pending or
    none: frames that arrived, the other device, an unknown source.  On the
    receive queue the device keeps to the protocol, and a block queue with no
    request outstanding is left alone. *)
Class NicSpec (D : Type) `{!Devices D} : Type := {
  wire : D -> list (list Z);
  nic_base : Z;
  nic_notified : D -> Prop;
  nic_delay : D -> nat;
  wire_stable : forall w, bus_stable (fun d => wire d = w);
  nic_notified_stable : bus_stable nic_notified;
  nic_notify : forall d,
    nic_notified (bus_write32 d (u32 (nic_base + VIRTIO_REG_QUEUE_NOTIFY)) NET_TX_QUEUE);
  nic_delay_stable : forall k, bus_stable (fun d => (nic_delay d <= k)%nat);
  nic_delay_bound : forall d, (nic_delay d < wakes)%nat;
  nic_transmits : forall d mem n,
    nic_notified d -> tx_outstanding mem n -> 0 <= n <= Z.of_nat ETH_MAX_FRAME_SIZE ->
    quiet (blk_vq mem) ->
    exists d' mem', dev_wait d mem = Some (d', mem') /\
      (forall (m : machine D) seen, rx_ok (set_m_dma mem m) seen ->
         exists seen', rx_ok (set_m_dma mem' m) seen') /\
      blk_vq mem' = blk_vq mem /\ blk_req mem' = blk_req mem /\
      ((tx_vq mem' = tx_vq mem /\ tx_buf mem' = tx_buf mem /\ wire d' = wire d /\
        nic_notified d' /\ 0 <= (plic_claim d').1 < 1024 /\ (nic_delay d' < nic_delay d)%nat) \/
       (exists x, tx_vq mem' = set_used (<[ring_slot (used_index (tx_vq mem)) := x]> (used_ring (tx_vq mem)))
            (u16 (used_index (tx_vq mem) + 1)) (tx_vq mem) /\
          wire d' = wire d ++ [take (Z.to_nat n) (tx_buf mem)] /\
          (plic_claim d').1 = VIRTIO_NET_IRQ /\
          Z.land (bus_read32 (plic_claim d').2 (u32 (nic_base + VIRTIO_REG_INTERRUPT_STATUS))).1
            VIRTIO_INT_USED_BUFFER <> 0));
}.

(** What ARP and IPv4 rely on: a ready link sends, stays ready, and puts
    exactly the frame on the wire. *)
Class EthernetLink (D : Type) `{!Devices D} : Type := {
  link_wire : D -> list (list Z);
  link_ready : machine D -> Prop;
  link_ready_arp : forall m, link_ready m -> arp_wf (m_arp m);
  link_ready_set_arp : forall m a, link_ready m -> arp_wf a -> link_ready (set_m_arp a m);
  link_ready_set_ip : forall m i, link_ready m -> link_ready (set_m_ip i m);
  link_ready_emit : forall m out, link_ready m -> link_ready (emit out m);
  link_sends : forall m dst ethertype payload,
    link_ready m -> length dst = 6%nat -> (length payload <= 1500)%nat ->
    exists m', virtio_net_send_ethernet m dst ethertype (Some payload) (Z.of_nat (length payload)) =
        Ret (Z.of_nat (length payload), m') /\
      link_ready m' /\ m_sstatus m' = m_sstatus m /\
      link_wire (m_dev m') = link_wire (m_dev m) ++ [ether_frame dst ethertype payload];
}.

(** ** The driver implements the interface *)

Section NicLink.
Context {D : Type} `{!Devices D} `{!NicSpec D}.
Implicit Types (m : machine D).

(** Nothing is being transmitted. *)
Record tx_idle m : Prop := {
  idle_none : to_pop (tx_vq (m_dma m)) = [];
  idle_avail : avail_index (tx_vq (m_dma m)) = used_index (tx_vq (m_dma m));
  idle_ring : length (avail_ring (tx_vq (m_dma m))) = 16%nat;
  idle_descs : length (descs (tx_vq (m_dma m))) = 16%nat;
  idle_queue : queue_index (tx_vq (m_dma m)) = NET_TX_QUEUE;
}.

Record nic_ready m : Prop := {
  ready_drivers : exists seen, drivers_ok m seen;
  ready_up : net_up (m_net m) = true;
  ready_base : dev_base (net_dev (m_net m)) = nic_base;
  ready_idle : tx_idle m;
  ready_blk : quiet (blk_vq (m_dma m));
}.

Lemma drivers_ok_sstatus m seen s : drivers_ok m seen -> drivers_ok (set_m_sstatus s m) seen.
Proof. intros [[] ? ?]. split; [by constructor|done|done]. Qed.

(** The memory a device hands back at a wake-up. *)
Lemma drivers_ok_wake m seen d mem s :
  drivers_ok m seen ->
  (exists seen', rx_ok (set_m_dma mem m) seen') -> used_ok (tx_vq mem) -> used_ok (blk_vq mem) ->
  exists seen', drivers_ok (set_m_sstatus s (set_m_dma mem (set_m_dev d m))) seen'.
Proof.
  intros _ [seen' []] Ht Hb. exists seen'. split; [by constructor|exact Ht|exact Hb].
Qed.

(** While a transmission is outstanding. *)
Record transmitting m (n : Z) : Prop := {
  tm_drivers : exists seen, drivers_ok m seen;
  tm_base : dev_base (net_dev (m_net m)) = nic_base;
  tm_notified : nic_notified (m_dev m);
  tm_outstanding : tx_outstanding (m_dma m) n;
  tm_length : 0 <= n <= Z.of_nat ETH_MAX_FRAME_SIZE;
  tm_pending : tx_done m = false;
  tm_blk : quiet (blk_vq (m_dma m));
}.

Definition disabled_of m : Z := Z.land (m_sstatus m) (Z.lnot SSTATUS_SIE).

(** What stays from submission to completion. *)
Record tx_frame_kept m m' : Prop := {
  kept_up : net_up (m_net m') = net_up (m_net m);
  kept_dev : net_dev (m_net m') = net_dev (m_net m);
  kept_avail : avail_index (tx_vq (m_dma m')) = avail_index (tx_vq (m_dma m));
  kept_ring : avail_ring (tx_vq (m_dma m')) = avail_ring (tx_vq (m_dma m));
  kept_descs : descs (tx_vq (m_dma m')) = descs (tx_vq (m_dma m));
  kept_queue : queue_index (tx_vq (m_dma m')) = queue_index (tx_vq (m_dma m));
  kept_blk : blk_frame m m';
}.

Definition wake_state m (d : D) (mem : dma) (disabled : Z) : machine D :=
  set_m_sstatus (Z.lor disabled SSTATUS_SIE) (set_m_dma mem (set_m_dev d m)).

Lemma wait_pass_unfold disabled m d mem :
  dev_wait (m_dev m) (m_dma m) = Some (d, mem) ->
  wait_pass disabled m =
  (m' ← handle_external_interrupt (wake_state m d mem disabled); Ret (set_m_sstatus disabled m')).
Proof. intros E. unfold wait_pass. by rewrite E. Qed.

Lemma wire_ground m m' : same_ground m m' -> wire (m_dev m') = wire (m_dev m).
Proof. intros G. by apply (sg_device _ _ G _ (wire_stable (wire (m_dev m)))). Qed.

(** What a wake-up keeps when the handler of its interrupt has run. *)
Lemma wake_keeps m d mem disabled m' :
  tx_vq mem = tx_vq (m_dma m) -> blk_vq mem = blk_vq (m_dma m) -> blk_req mem = blk_req (m_dma m) ->
  same_ground (wake_state m d mem disabled) m' -> tx_frame_kept m m'.
Proof.
  intros Et Eblk Ereq G. destruct (sg_tx_vq _ _ G) as (c & Ec & _). cbn in Ec. rewrite Et in Ec.
  pose proof (ground_blk_frame _ _ G) as [F1 F2 F3 F4]. cbn in F3, F4. rewrite Ereq in F3. rewrite Eblk in F4.
  split; [by rewrite (sg_net_up _ _ G)|by rewrite (sg_net_dev _ _ G)|by rewrite Ec..|by split].
Qed.

(** One wake-up either completes the transmission or leaves it outstanding,
    whatever else the interrupt was for. *)
Lemma transmit_wake m n disabled :
  transmitting m n ->
  exists m', wait_pass disabled m = Ret m' /\ tx_frame_kept m m' /\
    ((transmitting m' n /\ wire (m_dev m') = wire (m_dev m) /\
      tx_buf (m_dma m') = tx_buf (m_dma m) /\ (nic_delay (m_dev m') < nic_delay (m_dev m))%nat) \/
     (tx_done m' = true /\ (exists seen, drivers_ok m' seen) /\ to_pop (tx_vq (m_dma m')) = [] /\
      avail_index (tx_vq (m_dma m')) = used_index (tx_vq (m_dma m')) /\
      wire (m_dev m') = wire (m_dev m) ++ [take (Z.to_nat n) (tx_buf (m_dma m))])).
Proof.
  intros [[seen Hd] Hb Hn Ho Hl Hp Hq].
  destruct (nic_transmits (m_dev m) (m_dma m) n Hn Ho Hl Hq) as (d & mem & Ew & Hrx & Eblk & Ereq & Hcase).
  rewrite (wait_pass_unfold _ _ _ _ Ew). set (w := wake_state m d mem disabled).
  assert (Hrx' : exists seen', rx_ok (set_m_dma mem m) seen').
  { apply (Hrx m seen). destruct Hd as [[] _ _]. by constructor. }
  assert (Hbv : used_ok (blk_vq mem)) by (rewrite Eblk; apply Hd).
  destruct Hcase as [(Et & Ebuf & Ewire & Hn' & Hc & Hdelay)|(x & Et & Ewire & Hc & Hst)].
  - destruct (drivers_ok_wake m seen d mem (Z.lor disabled SSTATUS_SIE) Hd) as [seen' Hw];
      [done|rewrite Et; apply Hd|done|].
    destruct (external_interrupt_spec w seen' Hw Hc) as (m' & Ei & Hm' & G & _).
    rewrite Ei. cbn [mbind outcome_bind]. eexists. split; [reflexivity|].
    pose proof (wake_keeps m d mem disabled m' Et Eblk Ereq G) as Hk. split; [by destruct Hk; split; [..|destruct kept_blk0; split]|].
    left. destruct (sg_tx_vq _ _ G) as (c & Ec & Hsuf). change (tx_vq (m_dma w)) with (tx_vq mem) in Ec, Hsuf.
    rewrite Et in Ec, Hsuf. rewrite (out_none _ _ Ho) in Hsuf. apply suffix_nil_inv in Hsuf.
    split; [|split; [|split; [by cbn; rewrite (sg_tx_buf _ _ G)|]]].
    + split; [exists seen'; by apply drivers_ok_sstatus|cbn; by rewrite (sg_net_dev _ _ G)| | |exact Hl| |].
      * exact (sg_device _ _ G _ nic_notified_stable Hn').
      * pose proof (drv_tx _ _ Hm') as Hu. destruct Ho. split; cbn; [exact Hu|exact Hsuf|by rewrite Ec..].
      * unfold tx_done in *. cbn. rewrite (proj1 (interrupt_no_completion w seen' m' Hw Hc Ei)); [exact Hp|].
        change (tx_vq (m_dma w)) with (tx_vq mem). by rewrite Et, (out_none _ _ Ho).
      * cbn. eapply consumes_quiet; [exact (sg_blk_vq _ _ G)|]. cbn. by rewrite Eblk.
    + cbn. rewrite (wire_ground _ _ G). exact Ewire.
    + pose proof (sg_device _ _ G _ (nic_delay_stable (nic_delay d)) (Nat.le_refl _)) as Hle. cbn in Hle. cbn.
      eapply Nat.le_lt_trans; [exact Hle|exact Hdelay].
  - destruct (one_used _ _ x (drv_tx _ _ Hd) (out_none _ _ Ho) Et) as [Hu' Ep'].
    destruct (drivers_ok_wake m seen d mem (Z.lor disabled SSTATUS_SIE) Hd) as [seen' Hw]; [done|done|done|].
    destruct (external_interrupt_spec w seen' Hw) as (m' & -> & Hm' & G & _ & Hs).
    { change (claimed w) with (plic_claim d).1. rewrite Hc. unfold VIRTIO_NET_IRQ. lia. }
    cbn [mbind outcome_bind]. eexists. split; [reflexivity|].
    change (claimed w) with (plic_claim d).1 in Hs. rewrite Hc in Hs.
    destruct (Hs ltac:(done)) as [(_ & _ & Hdone & _) _].
    destruct Hdone as (_ & Hp' & Hdn & _).
    { unfold irq_status_of, virtio_irq_status, virtio_reg_read32. cbn. rewrite Hb. exact Hst. }
    destruct (sg_tx_vq _ _ G) as (c & Ec & _). change (tx_vq (m_dma w)) with (tx_vq mem) in Ec.
    split.
    { pose proof (ground_blk_frame _ _ G) as [F1 F2 F3 F4]. change (blk_vq (m_dma w)) with (blk_vq mem) in F4.
      change (blk_req (m_dma w)) with (blk_req mem) in F3. rewrite Eblk in F4. rewrite Ereq in F3.
      split; cbn; [by rewrite (sg_net_up _ _ G)|by rewrite (sg_net_dev _ _ G)|by rewrite Ec, Et..|by split]. }
    right. split; [|split; [|split; [|split]]].
    + unfold tx_done. cbn. rewrite Hdn. cbn. rewrite Ep'. by rewrite orb_true_r.
    + exists seen'. by apply drivers_ok_sstatus.
    + exact Hp'.
    + cbn. rewrite Ec, Et. cbn. apply Ho.
    + cbn. rewrite (wire_ground _ _ G). exact Ewire.
Qed.

Lemma tx_frame_kept_trans m1 m2 m3 :
  tx_frame_kept m1 m2 -> tx_frame_kept m2 m3 -> tx_frame_kept m1 m3.
Proof. intros [] []. split; [congruence..|by eapply blk_frame_trans]. Qed.

Lemma wait_transmit fuel disabled : forall m n,
  transmitting m n -> (nic_delay (m_dev m) < fuel)%nat ->
  exists m', wait_loop fuel tx_done disabled m = Ret m' /\ tx_frame_kept m m' /\
    (exists seen, drivers_ok m' seen) /\ to_pop (tx_vq (m_dma m')) = [] /\
    avail_index (tx_vq (m_dma m')) = used_index (tx_vq (m_dma m')) /\
    wire (m_dev m') = wire (m_dev m) ++ [take (Z.to_nat n) (tx_buf (m_dma m))].
Proof.
  induction fuel as [|fuel IH]; intros m n Hm Hf; [lia|].
  cbn [wait_loop]. rewrite (tm_pending _ _ Hm).
  destruct (transmit_wake m n disabled Hm) as (m1 & -> & K1 & [(H1 & Ew & Eb & Hlt)|(Hd & Hok & Hp & Ha & Ew)]);
    cbn [mbind outcome_bind].
  - destruct (IH m1 n H1 ltac:(lia)) as (m' & -> & K2 & Hok & Hp & Ha & Ew').
    exists m'. split; [done|]. split; [by eapply tx_frame_kept_trans|].
    split; [done|]. split; [done|]. split; [done|]. by rewrite Ew', Ew, Eb.
  - exists m1. split; [by destruct fuel; cbn [wait_loop]; rewrite Hd|]. done.
Qed.

(** Filling the descriptor and kicking makes a transmission outstanding. *)
Lemma net_transmit_outstanding m frame n disabled :
  nic_ready m -> 0 <= n <= Z.of_nat ETH_MAX_FRAME_SIZE ->
  let m1 := set_m_sstatus disabled (net_transmit m frame n) in
  transmitting m1 n /\ tx_buf (m_dma m1) = frame /\ wire (m_dev m1) = wire (m_dev m) /\
  net_up (m_net m1) = net_up (m_net m) /\ net_dev (m_net m1) = net_dev (m_net m) /\
  length (avail_ring (tx_vq (m_dma m1))) = 16%nat /\ length (descs (tx_vq (m_dma m1))) = 16%nat /\
  queue_index (tx_vq (m_dma m1)) = NET_TX_QUEUE /\ blk_frame m m1.
Proof.
  intros [[seen [Hr Ht Hb]] Hup Hbase [Hnone Havail Hring Hdescs Hq] Hbq] Hn m1.
  set (vq := tx_vq (m_dma m)) in *.
  assert (E1 : m_dev m1 = bus_write32 (m_dev m) (u32 (nic_base + VIRTIO_REG_QUEUE_NOTIFY)) NET_TX_QUEUE).
  { unfold m1, net_transmit, virtq_kick, virtq_notify, virtio_reg_write32. cbn. fold vq. by rewrite Hbase, Hq. }
  split; [|split; [reflexivity|split; [|split; [reflexivity|split; [reflexivity|]]]]].
  - split.
    + exists seen. split; [destruct Hr; by constructor|exact Ht|exact Hb].
    + exact Hbase.
    + rewrite E1. apply nic_notify.
    + split; cbn; fold vq.
      * exact Ht.
      * exact Hnone.
      * by rewrite Havail.
      * rewrite Havail. apply aget_set_same. pose proof (ring_slot_lt (used_index vq)).
        unfold VIRTQ_ENTRY_NUM in *. lia.
      * eexists. apply aget_set_same. lia.
    + exact Hn.
    + reflexivity.
    + exact Hbq.
  - rewrite E1. by apply (stable_write _ (wire_stable (wire (m_dev m)))).
  - cbn. fold vq. rewrite !length_insert. do 3 (split; [done|]). split; first [done|apply consumes_refl].
Qed.

Lemma nic_link_sends m dst ethertype payload :
  nic_ready m -> length dst = 6%nat -> (length payload <= 1500)%nat ->
  exists m', virtio_net_send_ethernet m dst ethertype (Some payload) (Z.of_nat (length payload)) =
      Ret (Z.of_nat (length payload), m') /\
    nic_ready m' /\ m_sstatus m' = m_sstatus m /\ blk_frame m m' /\
    wire (m_dev m') = wire (m_dev m) ++ [ether_frame dst ethertype payload].
Proof.
  intros Hm Hd Hp. unfold virtio_net_send_ethernet. rewrite (ready_up _ Hm). cbn [negb orb].
  unfold ETH_MAX_FRAME_SIZE, ETHERNET_HEADER_SIZE.
  rewrite (proj2 (Z.ltb_ge _ 0)), (proj2 (Z.ltb_ge _ _)), (proj2 (Z.leb_le _ _)) by lia.
  cbn [orb defined_if]. rewrite Nat2Z.id, (take_ge payload) by lia.
  set (n := if _ <? 60 then _ else _).
  assert (En : n = Z.max 60 (14 + Z.of_nat (length payload))).
  { unfold n. destruct (Z.ltb_spec (Z.of_nat 14 + Z.of_nat (length payload)) 60); lia. }
  change (put 14 payload _) with (tx_frame dst ethertype payload).
  set (frame := tx_frame dst ethertype payload).
  assert (Ef : take (Z.to_nat n) frame = ether_frame dst ethertype payload).
  { rewrite En. by apply take_tx_frame. }
  cbn [mbind outcome_bind]. unfold wait_for_interrupt.
  set (disabled := Z.land _ _). clearbody n frame.
  destruct (net_transmit_outstanding m frame n disabled Hm) as
    (Htm & Ebuf & Ew & Eup & Edev & Er & Eds & Eq & F1); [unfold ETH_MAX_FRAME_SIZE; lia|].
  set (m1 := set_m_sstatus disabled (net_transmit m frame n)) in *.
  destruct (wait_transmit wakes disabled m1 n Htm (nic_delay_bound _)) as
    (m2 & -> & [Kup Kdev Kav Kr Kd Kq F2] & [seen Hok] & Hpop & Hav & Ew2).
  cbn [mbind outcome_bind]. eexists. split; [reflexivity|].
  assert (F : blk_frame m (set_m_sstatus (m_sstatus (net_transmit m frame n)) m2)).
  { destruct (blk_frame_trans _ _ _ F1 F2). by split. }
  split; [|split; [reflexivity|split; [exact F|]]].
  - split; [exists seen; by apply drivers_ok_sstatus|cbn; by rewrite Kup, Eup; apply Hm|
      cbn; rewrite Kdev, Edev; apply Hm| |].
    + split; cbn; [exact Hpop|exact Hav|by rewrite Kr|by rewrite Kd|by rewrite Kq].
    + eapply consumes_quiet; [exact (bf_vq _ _ F)|apply Hm].
  - cbn. by rewrite Ew2, Ew, Ebuf, Ef.
Qed.

Lemma nic_ready_arp m : nic_ready m -> arp_wf (m_arp m).
Proof. intros [[seen [Hr _ _]] _ _ _ _]. apply Hr. Qed.

Lemma nic_ready_set m m' :
  nic_ready m -> m_dma m' = m_dma m -> m_net m' = m_net m -> arp_wf (m_arp m') -> nic_ready m'.
Proof.
  intros [[seen [[] Ht Hb]] Hup Hbase [? ? ? ? ?] Hq] Ed En Ha.
  split; [exists seen; split; [constructor; rewrite ?Ed, ?En; assumption|by rewrite Ed|by rewrite Ed]
    |by rewrite En|by rewrite En| |by rewrite Ed]. split; by rewrite Ed.
Qed.

#[export] Instance nic_link : EthernetLink D.
Proof.
  refine {| link_wire := wire; link_ready := nic_ready |}.
  - exact nic_ready_arp.
  - intros m a Hm Ha. by apply (nic_ready_set m).
  - intros m i Hm. apply (nic_ready_set m); try done. exact (nic_ready_arp m Hm).
  - intros m o Hm. apply (nic_ready_set m); try done. exact (nic_ready_arp m Hm).
  - intros m dst ty payload Hm Hd Hl.
    destruct (nic_link_sends m dst ty payload Hm Hd Hl) as (m' & E & H' & Es & _ & Ew). by exists m'.
Defined.
End NicLink.

(** ** ARP and IPv4 over a ready link *)

Section Clients.
Context {D : Type} `{!Devices D} `{!EthernetLink D}.
Implicit Types (m : machine D).

Lemma arp_reply_wire mac ip :
  length mac = 6%nat ->
  arp_build_packet net_mac ARP_OPERATION_REPLY (take 6 mac) ip =
  arp_wire ARP_OPERATION_REPLY net_mac IPV4_LOCAL_ADDRESS mac ip.
Proof. intros H. rewrite take_ge by lia. by apply arp_build_wire. Qed.

Lemma arp_poll_reply m mac ip :
  link_ready m -> pending_reply (m_arp m) = mkPending true mac ip -> length mac = 6%nat ->
  0 <= ip < 2 ^ 32 ->
  exists m', arp_poll m = Ret m' /\ link_ready m' /\ m_sstatus m' = m_sstatus m /\
    link_wire (m_dev m') = link_wire (m_dev m) ++
      [ether_frame mac ARP_ETHERTYPE (arp_wire ARP_OPERATION_REPLY net_mac IPV4_LOCAL_ADDRESS mac ip)].
Proof.
  intros Hm Hp Hmac Hip. unfold arp_poll. rewrite Hp. cbn [ap_pending ap_target_mac ap_target_ip negb].
  rewrite arp_reply_wire, (take_ge mac) by lia.
  set (m1 := set_pending _ m). set (reply := arp_wire _ _ _ _ _).
  assert (Hl : length reply = SIZEOF_ARP_PACKET) by (by apply length_arp_wire).
  assert (H1 : link_ready m1).
  { pose proof (link_ready_arp m Hm) as [Wc Wp]. apply (link_ready_set_arp m); [exact Hm|].
    split; [exact Wc|exact Hmac]. }
  destruct (link_sends m1 mac ARP_ETHERTYPE reply H1 Hmac) as (m2 & E & H2 & Es & Ew).
  { rewrite Hl. unfold SIZEOF_ARP_PACKET. lia. }
  rewrite Hl in E. rewrite E. cbn [mbind outcome_bind]. rewrite (proj2 (Z.leb_le 0 _)) by lia.
  destruct (print_ipv4_spec ip Hip) as (? & ? & ? & ? & ? & ? & ? & ? & _ & _ & _ & _ & _ & _ & _ & _ & _ & ->).
  cbn [mbind outcome_bind]. eexists. split; [reflexivity|].
  split; [by apply link_ready_emit|]. split; [exact Es|exact Ew].
Qed.

Lemma arp_request_spec m ip :
  link_ready m ->
  exists m', arp_request m ip = Ret (28, m') /\ link_ready m' /\ m_sstatus m' = m_sstatus m /\
    link_wire (m_dev m') = link_wire (m_dev m) ++
      [ether_frame broadcast_mac ARP_ETHERTYPE
        (arp_wire ARP_OPERATION_REQUEST net_mac IPV4_LOCAL_ADDRESS (replicate 6 0) ip)].
Proof.
  intros Hm. unfold arp_request. rewrite arp_build_wire by reflexivity.
  set (request := arp_wire _ _ _ _ _).
  assert (Hl : length request = SIZEOF_ARP_PACKET) by (by apply length_arp_wire). clearbody request.
  change 28 with (Z.of_nat SIZEOF_ARP_PACKET). rewrite <-Hl. apply link_sends; [exact Hm|reflexivity|].
  rewrite Hl. unfold SIZEOF_ARP_PACKET. lia.
Qed.

(** What a successful [ipv4_send] puts on the wire. *)
Record sent_packet (id dst protocol : Z) (payload packet : list Z) : Prop := {
  sp_layout : exists ck, 0 <= ck < 65536 /\
    packet = ipv4_header (20 + Z.of_nat (length payload)) id protocol ck IPV4_LOCAL_ADDRESS dst ++ payload;
  sp_verifies : word_sum (take IPV4_HEADER_MIN_SIZE packet) mod 65535 = 0;
  sp_accepted : forall host rest, dst = host \/ dst = IPV4_BROADCAST_ADDRESS ->
    accepted_at host (packet ++ rest) (Z.of_nat (length (packet ++ rest)));
}.

Lemma max_payload : Z.of_nat IPV4_MAX_PACKET_SIZE - Z.of_nat IPV4_HEADER_MIN_SIZE = 1480.
Proof. reflexivity. Qed.

Lemma ipv4_send_packet m dst protocol payload mac :
  link_ready m -> octet protocol -> 0 <= dst < 2 ^ 32 -> (length payload <= 1480)%nat ->
  0 <= next_identification (m_ip m) < 65536 -> length mac = 6%nat ->
  (if dst =? IPV4_BROADCAST_ADDRESS then Some broadcast_mac else arp_lookup (m_arp m) dst) = Some mac ->
  exists m' packet,
    ipv4_send m dst protocol (Some payload) (Z.of_nat (length payload)) =
      Ret (Z.of_nat (length payload), m') /\ link_ready m' /\
    sent_packet (next_identification (m_ip m)) dst protocol payload packet /\
    link_wire (m_dev m') = link_wire (m_dev m) ++ [ether_frame mac IPV4_ETHERTYPE packet].
Proof.
  intros Hm Hp Hdst Hl Hid Hmac E. unfold ipv4_send. cbv iota.
  rewrite max_payload, (proj2 (Z.ltb_ge 1480 _)) by lia. rewrite E. cbv zeta. change (default [] (Some payload)) with payload.
  rewrite (proj2 (Z.leb_le (Z.of_nat (length payload)) (Z.of_nat (length payload)))) by lia.
  change (defined_if true) with (Ret tt). rewrite bind_Ret_l, Nat2Z.id, take_ge by lia.
  destruct (ipv4_build_layout (next_identification (m_ip m)) dst protocol payload Hp ltac:(lia) Hid)
    as (ck & Hck & Hsum & Hb).
  remember (ipv4_header _ _ _ ck _ _ ++ payload) as packet eqn:Epk in Hb.
  rewrite Hb, bind_Ret_l.
  assert (Hpl : length packet = (20 + length payload)%nat)
    by (rewrite Epk, length_app, length_ipv4_header; reflexivity).
  set (m1 := set_m_ip _ m).
  assert (H1 : link_ready m1) by (by apply link_ready_set_ip).
  assert (Ed : m_dev m1 = m_dev m) by reflexivity. clearbody m1.
  destruct (link_sends m1 mac IPV4_ETHERTYPE packet H1 Hmac) as (m2 & Es & H2 & _ & Ew); [lia|].
  assert (El : Z.of_nat IPV4_HEADER_MIN_SIZE + Z.of_nat (length payload) = Z.of_nat (length packet))
    by (rewrite Hpl; unfold IPV4_HEADER_MIN_SIZE; lia).
  rewrite El, Es, bind_Ret_l. rewrite (proj2 (Z.ltb_ge _ 0)) by lia.
  eexists _, packet. split; [reflexivity|]. split; [by apply link_ready_set_ip|].
  rewrite <-Ed. split; [|exact Ew]. clear Es Ew El. split.
  - by exists ck.
  - rewrite Epk, take_app_length' by reflexivity. rewrite word_sum_header by lia. exact Hsum.
  - intros host rest Hours. rewrite Epk, <-(assoc_L (++)).
    apply ipv4_built_accepted; try assumption; try reflexivity; try lia.
    rewrite !length_app, length_ipv4_header. unfold IPV4_HEADER_MIN_SIZE. lia.
Qed.
End Clients.

(** An ARP request is answered.  When a well-formed request for this
    host is received, the sender's binding is learned, and the next
    [arp_poll] puts exactly one frame on the wire: the ARP reply with this
    host's addresses, sent to the requester; without a pending request
    [arp_poll] does nothing. *)
Theorem arp_request_answered {D : Type} `{!Devices D} `{!EthernetLink D} (m : machine D)
    hdr smac sip tmac rest n :
  link_ready m -> length hdr = ETHERNET_HEADER_SIZE -> length smac = 6%nat -> length tmac = 6%nat ->
  0 <= sip < 2 ^ 32 -> 42 <= n ->
  let frame := hdr ++ arp_wire ARP_OPERATION_REQUEST smac sip tmac IPV4_LOCAL_ADDRESS ++ rest in
  (ap_pending (pending_reply (m_arp m)) = false -> arp_poll m = Ret m) /\
  exists a m', arp_receive (m_arp m) frame n = Ret a /\ arp_lookup a sip = Some smac /\
    arp_poll (set_m_arp a m) = Ret m' /\ link_ready m' /\
    link_wire (m_dev m') = link_wire (m_dev m) ++
      [ether_frame smac ARP_ETHERTYPE
        (arp_wire ARP_OPERATION_REPLY net_mac IPV4_LOCAL_ADDRESS smac sip)].
Proof.
  intros Hm Hh Hs Ht Hsip Hn frame. split; [intros Hp; unfold arp_poll; by rewrite Hp|].
  pose proof (link_ready_arp m Hm) as [Wc Wp].
  unfold frame. rewrite arp_receive_wire by (try assumption; unfold ARP_OPERATION_REQUEST, IPV4_LOCAL_ADDRESS; lia).
  rewrite !Z.eqb_refl. cbn [andb]. rewrite (copy_mac_6 _ _ Wp Hs).
  set (a := mkArpState _ _).
  destruct (arp_poll_reply (set_m_arp a m) smac sip) as (m' & E & H' & _ & Ew); try assumption; try reflexivity.
  { apply link_ready_set_arp; [exact Hm|]. split; [by apply arp_cache_update_wf|exact Hs]. }
  exists a, m'. split; [reflexivity|]. split; [|done].
  by apply arp_lookup_updated.
Qed.

(** C35: [ipv4_send] over a ready link.  A null payload with a length and a
    payload that does not fit return -1 and only count a drop.  When the
    destination is not in the ARP cache exactly one frame, a broadcast ARP
    request for it, goes out, and the result is -2.  Otherwise exactly one
    frame goes out, to the cached (or broadcast) address, carrying a packet
    with the payload under the next identification, whose header checksum
    verifies whatever the destination is: a receiver at the destination address,
    any receiver for a broadcast, that makes the tests of [ipv4_receive] accepts
    it.  The result is the payload's length. *)
Theorem ipv4_send_outcomes {D : Type} `{!Devices D} `{!EthernetLink D} (m : machine D)
    dst protocol payload :
  link_ready m -> octet protocol -> 0 <= dst < 2 ^ 32 -> 0 <= next_identification (m_ip m) < 65536 ->
  let n := Z.of_nat (length payload) in
  let target := if dst =? IPV4_BROADCAST_ADDRESS then Some broadcast_mac else arp_lookup (m_arp m) dst in
  (forall k, 0 < k -> ipv4_send m dst protocol None k = Ret (-1, count_stats count_tx_dropped m)) /\
  (1480 < n -> ipv4_send m dst protocol (Some payload) n = Ret (-1, count_stats count_tx_dropped m)) /\
  (n <= 1480 -> target = None ->
   exists m', ipv4_send m dst protocol (Some payload) n = Ret (-2, m') /\ link_ready m' /\
     link_wire (m_dev m') = link_wire (m_dev m) ++
       [ether_frame broadcast_mac ARP_ETHERTYPE
         (arp_wire ARP_OPERATION_REQUEST net_mac IPV4_LOCAL_ADDRESS (replicate 6 0) dst)]) /\
  (n <= 1480 -> forall mac, target = Some mac ->
   exists m' packet, ipv4_send m dst protocol (Some payload) n = Ret (n, m') /\ link_ready m' /\
     sent_packet (next_identification (m_ip m)) dst protocol payload packet /\
     link_wire (m_dev m') = link_wire (m_dev m) ++ [ether_frame mac IPV4_ETHERTYPE packet]).
Proof.
  intros Hm Hp Hdst Hid n target. split; [|split; [|split]].
  - intros k Hk. unfold ipv4_send. by rewrite (proj2 (Z.ltb_lt 0 k)).
  - intros Hn. unfold ipv4_send. rewrite max_payload. by rewrite (proj2 (Z.ltb_lt 1480 n)).
  - intros Hn Ht. unfold ipv4_send. rewrite max_payload, (proj2 (Z.ltb_ge 1480 n)) by lia.
    unfold target in Ht. rewrite Ht.
    destruct (arp_request_spec m dst Hm) as (m1 & -> & H1 & _ & Ew). rewrite bind_Ret_l.
    eexists. split; [reflexivity|]. split; [by apply link_ready_set_ip|exact Ew].
  - intros Hn mac Ht.
    assert (Hmac : length mac = 6%nat).
    { unfold target in Ht. destruct (dst =? IPV4_BROADCAST_ADDRESS); [by injection Ht as <-|].
      pose proof (link_ready_arp m Hm) as [Wc _]. rewrite arp_lookup_map in Ht by exact Wc.
      apply cache_map_Some in Ht as (i & e & He & _ & _ & <-); [|exact Wc]. by eapply (wf_macs _ Wc). }
    apply (ipv4_send_packet m dst protocol payload mac); try assumption. lia.
Qed.
