(* ===== verification/Disk.v ===== *)
(** The block driver, request side ([kernel/virtio_blk.c]), and the abstract
    disk it implements for any device that keeps the contract [BlkSpec].

    A request is three descriptors over [blk_req]: the header, the sector's
    data, the status byte. *)

From Stdlib Require Import ZArith Lia.
From S2P Require Import Prelude Strings Bytes Arp Ipv4 PageHeap Ring Virtio Machine NetDriver Interrupts NetStack.
Open Scope Z_scope.

Definition VIRTIO_BLK_PADDR : Z := 0x10001000.
Definition VIRTIO_BLK_T_IN : Z := 0.
Definition VIRTIO_BLK_T_OUT : Z := 1.

(** Offsets in [struct virtio_blk_req] and its size. *)
Definition OFFSET_DATA : Z := 16.
Definition OFFSET_STATUS : Z := 528.
Definition SIZEOF_BLK_REQ : Z := 529.

Section Code.
Context {D : Type} `{!Devices D}.
Implicit Types (m : machine D).

Definition virtio_blk_init {H : Type} `{!PageHeap H} (h : H) m : outcome (H * machine D) :=
  let '(found, dev, d) := virtio_probe (m_dev m) VIRTIO_BLK_PADDR VIRTIO_DEVICE_BLK in
  if negb (found : bool) then Panic "virtio-blk: device not found"
  else
    let d := virtio_begin_init d dev in
    '(_, vq, h, d) ← virtq_init h d dev 0;
    let d := virtio_finish_init d dev in
    let '(sectors, d) := virtio_reg_read64 d dev VIRTIO_REG_DEVICE_CONFIG in
    let capacity := u64 (sectors * SECTOR_SIZE) in
    out ← printf (bytes_of "virtio-blk: base=0x%x capacity=%d bytes" ++ [10; 0])
            [VInt (dev_base dev); VInt (u32 capacity)];
    '(_, req_paddr, h) ← ph_alloc h (pages_for SIZEOF_BLK_REQ);
    let '(irq_status, d) := virtio_irq_status d dev in
    let d := if irq_status =? 0 then d else virtio_irq_ack d dev irq_status in
    let m := set_m_dev d m in
    let m := set_m_blk (mkBlk dev req_paddr capacity false) m in
    let m := set_blk_queue vq m in
    let m := set_request (mkReq 0 0 (replicate (Z.to_nat SECTOR_SIZE) 0) 0) m in
    Ret (h, emit out m).

(** The request and the three descriptors of [read_write_disk]. *)
Definition blk_descs (paddr : Z) (is_write : bool) (ds : list virtq_desc) : list virtq_desc :=
  let d0 := mkDesc paddr 16 VIRTQ_DESC_F_NEXT 1 in
  let d1 := mkDesc (paddr + OFFSET_DATA) SECTOR_SIZE
              (Z.lor VIRTQ_DESC_F_NEXT (if is_write then 0 else VIRTQ_DESC_F_WRITE)) 2 in
  let d2 := mkDesc (paddr + OFFSET_STATUS) 1 VIRTQ_DESC_F_WRITE (d_next (ds !!! 2%nat)) in
  <[2%nat := d2]> (<[1%nat := d1]> (<[0%nat := d0]> ds)).

Definition blk_submit m (buf : list Z) (sector : Z) (is_write : bool) : machine D :=
  let req := blk_req (m_dma m) in
  let data := if is_write then take (Z.to_nat SECTOR_SIZE) buf else req_data req in
  let req := mkReq (if is_write then VIRTIO_BLK_T_OUT else VIRTIO_BLK_T_IN) sector data (req_status req) in
  let m := set_request req m in
  let vq := blk_vq (m_dma m) in
  let vq := set_descs (blk_descs (blk_req_paddr (m_blk m)) is_write (descs vq)) vq in
  let m := set_m_blk (set_blk_done false (m_blk m)) m in
  let '(vq, d) := virtq_kick (m_dev m) (blk_dev (m_blk m)) vq 0 in
  set_m_dev d (set_blk_queue vq m).

Definition blk_is_done m : bool := blk_done (m_blk m).

(** [read_write_disk]; the sector-sized buffer afterwards and the state.  The
    second [%d] of the first message is given a 64-bit value, of which it
    prints the low word. *)
Definition read_write_disk m (buf : list Z) (sector : Z) (is_write : bool)
    : outcome (list Z * machine D) :=
  if blk_capacity (m_blk m) / SECTOR_SIZE <=? sector then
    out ← printf (bytes_of "virtio: tried to read/write sector=%d, but capacity is %d" ++ [10; 0])
            [VInt sector; VInt (u32 (blk_capacity (m_blk m) / SECTOR_SIZE))];
    Ret (buf, emit out m)
  else
    _ ← defined_if (SECTOR_SIZE <=? Z.of_nat (length buf));
    m ← wait_for_interrupt blk_is_done (blk_submit m buf sector is_write);
    let req := blk_req (m_dma m) in
    if negb (req_status req =? 0) then
      out ← printf (bytes_of "virtio: warn: failed to read/write sector=%d status=%d" ++ [10; 0])
              [VInt sector; VInt (req_status req)];
      Ret (buf, emit out m)
    else if is_write then Ret (buf, m)
    else Ret (put 0 (take (Z.to_nat SECTOR_SIZE) (req_data req)) buf, m).
End Code.

(** ** The device contract *)

(** One request in the available ring, not completed. *)
Record blk_outstanding (mem : dma) (a : Z) (is_write : bool) : Prop := {
  bo_used : used_ok (blk_vq mem);
  bo_none : to_pop (blk_vq mem) = [];
  bo_one : avail_index (blk_vq mem) = u16 (used_index (blk_vq mem) + 1);
  bo_slot : avail_ring (blk_vq mem) !!! ring_slot (used_index (blk_vq mem)) = 0;
  bo_head : descs (blk_vq mem) !!! 0%nat = mkDesc a 16 VIRTQ_DESC_F_NEXT 1;
  bo_data : descs (blk_vq mem) !!! 1%nat = mkDesc (a + OFFSET_DATA) SECTOR_SIZE
    (Z.lor VIRTQ_DESC_F_NEXT (if is_write then 0 else VIRTQ_DESC_F_WRITE)) 2;
  bo_status : exists n, descs (blk_vq mem) !!! 2%nat = mkDesc (a + OFFSET_STATUS) 1 VIRTQ_DESC_F_WRITE n;
  bo_type : req_type (blk_req mem) = if is_write then VIRTIO_BLK_T_OUT else VIRTIO_BLK_T_IN;
}.

(** An abstract disk: the bytes of each sector. *)
Definition disk_image : Type := Z -> list Z.
Definition disk_write (img : disk_image) (sector : Z) (bytes : list Z) : disk_image :=
  fun s => if s =? sector then bytes else img s.

(** A block device (VirtIO 1.0, 5.2) of [disk_sectors] sectors. Once notified
    it performs the outstanding request and reports status 0 (a disk that
    fails requests does not keep this contract).  Other wake-ups may come before,
    with any interrupt pending or none: received frames, an unknown source.  A
    transmit queue with no frame outstanding is left alone. *)
Class BlkSpec (D : Type) `{!Devices D} : Type := {
  disk : D -> disk_image;
  disk_sectors : Z;
  blk_base : Z;
  blk_notified : D -> Prop;
  blk_delay : D -> nat;
  disk_stable : forall img, bus_stable (fun d => disk d = img);
  blk_notified_stable : bus_stable blk_notified;
  blk_notify : forall d, blk_notified (bus_write32 d (u32 (blk_base + VIRTIO_REG_QUEUE_NOTIFY)) 0);
  blk_delay_stable : forall k, bus_stable (fun d => (blk_delay d <= k)%nat);
  blk_delay_bound : forall d, (blk_delay d < wakes)%nat;
  disk_sector_length : forall d s, length (disk d s) = Z.to_nat SECTOR_SIZE;
  blk_performs : forall d mem a is_write,
    blk_notified d -> blk_outstanding mem a is_write ->
    0 <= req_sector (blk_req mem) < disk_sectors ->
    length (req_data (blk_req mem)) = Z.to_nat SECTOR_SIZE -> quiet (tx_vq mem) ->
    exists d' mem', dev_wait d mem = Some (d', mem') /\
      (forall (m : machine D) seen, rx_ok (set_m_dma mem m) seen ->
         exists seen', rx_ok (set_m_dma mem' m) seen') /\
      tx_vq mem' = tx_vq mem /\
      ((blk_vq mem' = blk_vq mem /\ blk_req mem' = blk_req mem /\
        (forall s, disk d' s = disk d s) /\ blk_notified d' /\ 0 <= (plic_claim d').1 < 1024 /\
        (blk_delay d' < blk_delay d)%nat) \/
       (exists x, blk_vq mem' = set_used (<[ring_slot (used_index (blk_vq mem)) := x]> (used_ring (blk_vq mem)))
            (u16 (used_index (blk_vq mem) + 1)) (blk_vq mem) /\
          (let r := blk_req mem in
           blk_req mem' = mkReq (req_type r) (req_sector r)
             (if is_write then req_data r else disk d (req_sector r)) 0 /\
           (forall s, disk d' s = if is_write then disk_write (disk d) (req_sector r) (req_data r) s
                                  else disk d s)) /\
          (plic_claim d').1 = VIRTIO_BLK_IRQ /\
          Z.land (bus_read32 (plic_claim d').2 (u32 (blk_base + VIRTIO_REG_INTERRUPT_STATUS))).1
            VIRTIO_INT_USED_BUFFER <> 0));
}.

(** ** The driver implements the abstract disk *)

Section BlkDisk.
Context {D : Type} `{!Devices D} `{!BlkSpec D}.
Implicit Types (m : machine D).

Record blk_ready m : Prop := {
  br_drivers : exists seen, drivers_ok m seen;
  br_base : dev_base (blk_dev (m_blk m)) = blk_base;
  br_none : to_pop (blk_vq (m_dma m)) = [];
  br_idle : avail_index (blk_vq (m_dma m)) = used_index (blk_vq (m_dma m));
  br_ring : length (avail_ring (blk_vq (m_dma m))) = 16%nat;
  br_descs : length (descs (blk_vq (m_dma m))) = 16%nat;
  br_queue : queue_index (blk_vq (m_dma m)) = 0;
  br_data : length (req_data (blk_req (m_dma m))) = Z.to_nat SECTOR_SIZE;
  br_capacity : blk_capacity (m_blk m) = disk_sectors * SECTOR_SIZE;
  br_tx : quiet (tx_vq (m_dma m));
}.

(** While a request is outstanding. *)
Record requesting m (a : Z) (is_write : bool) : Prop := {
  rq_drivers : exists seen, drivers_ok m seen;
  rq_base : dev_base (blk_dev (m_blk m)) = blk_base;
  rq_notified : blk_notified (m_dev m);
  rq_outstanding : blk_outstanding (m_dma m) a is_write;
  rq_sector : 0 <= req_sector (blk_req (m_dma m)) < disk_sectors;
  rq_length : length (req_data (blk_req (m_dma m))) = Z.to_nat SECTOR_SIZE;
  rq_pending : blk_is_done m = false;
  rq_tx : quiet (tx_vq (m_dma m));
}.

(** What stays from submission to completion. *)
Record blk_kept m m' : Prop := {
  bk_dev : blk_dev (m_blk m') = blk_dev (m_blk m);
  bk_capacity : blk_capacity (m_blk m') = blk_capacity (m_blk m);
  bk_avail : avail_index (blk_vq (m_dma m')) = avail_index (blk_vq (m_dma m));
  bk_ring : avail_ring (blk_vq (m_dma m')) = avail_ring (blk_vq (m_dma m));
  bk_descs : descs (blk_vq (m_dma m')) = descs (blk_vq (m_dma m));
  bk_queue : queue_index (blk_vq (m_dma m')) = queue_index (blk_vq (m_dma m));
  bk_net : net_frame m m';
}.

Lemma blk_kept_trans m1 m2 m3 : blk_kept m1 m2 -> blk_kept m2 m3 -> blk_kept m1 m3.
Proof. intros [] []. split; [congruence..|by eapply net_frame_trans]. Qed.

(** The request in [blk_req] after the device performed it, and the disk. *)
Definition performed (r r' : virtio_blk_req) (is_write : bool) (img img' : disk_image) : Prop :=
  r' = mkReq (req_type r) (req_sector r) (if is_write then req_data r else img (req_sector r)) 0 /\
  forall s, img' s = if is_write then disk_write img (req_sector r) (req_data r) s else img s.

Lemma disk_ground m m' : same_ground m m' -> disk (m_dev m') = disk (m_dev m).
Proof. intros G. by apply (sg_device _ _ G _ (disk_stable (disk (m_dev m)))). Qed.

(** What a wake-up keeps when the handler of its interrupt has run. *)
Lemma wake_keeps_blk m d mem disabled m' :
  blk_vq mem = blk_vq (m_dma m) -> tx_vq mem = tx_vq (m_dma m) ->
  same_ground (wake_state m d mem disabled) m' -> blk_kept m m'.
Proof.
  intros Et Etx G. destruct (sg_blk_vq _ _ G) as (c & Ec & _). cbn in Ec. rewrite Et in Ec.
  pose proof (ground_net_frame _ _ G) as [F1 F2 F3]. cbn in F3. rewrite Etx in F3.
  split; [by rewrite (sg_blk_dev _ _ G)|by rewrite (sg_capacity _ _ G)|by rewrite Ec..|by split].
Qed.

(** One wake-up either completes the request or leaves it outstanding. *)
Lemma request_wake m a is_write disabled :
  requesting m a is_write ->
  exists m', wait_pass disabled m = Ret m' /\ blk_kept m m' /\
    ((requesting m' a is_write /\ (forall s, disk (m_dev m') s = disk (m_dev m) s) /\
      blk_req (m_dma m') = blk_req (m_dma m) /\ (blk_delay (m_dev m') < blk_delay (m_dev m))%nat) \/
     (blk_is_done m' = true /\ (exists seen, drivers_ok m' seen) /\ to_pop (blk_vq (m_dma m')) = [] /\
      avail_index (blk_vq (m_dma m')) = used_index (blk_vq (m_dma m')) /\
      performed (blk_req (m_dma m)) (blk_req (m_dma m')) is_write (disk (m_dev m)) (disk (m_dev m')))).
Proof.
  intros [[seen Hd] Hb Hn Ho Hs Hl Hp Hq].
  destruct (blk_performs (m_dev m) (m_dma m) a is_write Hn Ho Hs Hl Hq)
    as (d & mem & Ew & Hrx & Etx & Hcase).
  rewrite (wait_pass_unfold _ _ _ _ Ew). set (w := wake_state m d mem disabled).
  assert (Hrx' : exists seen', rx_ok (set_m_dma mem m) seen').
  { apply (Hrx m seen). destruct Hd as [[] _ _]. by constructor. }
  assert (Htv : used_ok (tx_vq mem)) by (rewrite Etx; apply Hd).
  destruct Hcase as [(Et & Ereq & Edisk & Hn' & Hc & Hdelay)|(x & Et & [Ereq Edisk] & Hc & Hst)].
  - destruct (drivers_ok_wake m seen d mem (Z.lor disabled SSTATUS_SIE) Hd) as [seen' Hw];
      [done|done|rewrite Et; apply Hd|].
    destruct (external_interrupt_spec w seen' Hw Hc) as (m' & Ei & Hm' & G & _).
    rewrite Ei, bind_Ret_l. eexists. split; [reflexivity|].
    pose proof (wake_keeps_blk m d mem disabled m' Et Etx G) as Hk. split; [by destruct Hk as [? ? ? ? ? ? []]; split; [..|split]|].
    left. destruct (sg_blk_vq _ _ G) as (c & Ec & Hsuf). change (blk_vq (m_dma w)) with (blk_vq mem) in Ec, Hsuf.
    rewrite Et in Ec, Hsuf. rewrite (bo_none _ _ _ Ho) in Hsuf. apply suffix_nil_inv in Hsuf.
    assert (Erq : blk_req (m_dma m') = blk_req (m_dma m)) by (rewrite (sg_blk_req _ _ G); exact Ereq).
    split; [|split; [|split; [exact Erq|]]].
    + split; [exists seen'; by apply drivers_ok_sstatus|cbn; by rewrite (sg_blk_dev _ _ G)| | |by cbn; rewrite Erq|by cbn; rewrite Erq| |].
      * exact (sg_device _ _ G _ blk_notified_stable Hn').
      * pose proof (drv_blk _ _ Hm') as Hu. destruct Ho. split; cbn; [exact Hu|exact Hsuf|by rewrite ?Ec, ?Erq..].
      * unfold blk_is_done in *. cbn. rewrite (proj2 (interrupt_no_completion w seen' m' Hw Hc Ei)); [exact Hp|].
        change (blk_vq (m_dma w)) with (blk_vq mem). by rewrite Et, (bo_none _ _ _ Ho).
      * cbn. eapply consumes_quiet; [exact (sg_tx_vq _ _ G)|]. cbn. by rewrite Etx.
    + cbn. intros s. rewrite (disk_ground _ _ G). apply Edisk.
    + pose proof (sg_device _ _ G _ (blk_delay_stable (blk_delay d)) (Nat.le_refl _)) as Hle. cbn in Hle. cbn.
      eapply Nat.le_lt_trans; [exact Hle|exact Hdelay].
  - destruct (one_used _ _ x (drv_blk _ _ Hd) (bo_none _ _ _ Ho) Et) as [Hu' Ep'].
    destruct (drivers_ok_wake m seen d mem (Z.lor disabled SSTATUS_SIE) Hd) as [seen' Hw]; [done|done|done|].
    destruct (external_interrupt_spec w seen' Hw) as (m' & -> & Hm' & G & _ & Hsv).
    { change (claimed w) with (plic_claim d).1. rewrite Hc. unfold VIRTIO_BLK_IRQ. lia. }
    rewrite bind_Ret_l. eexists. split; [reflexivity|].
    change (claimed w) with (plic_claim d).1 in Hsv. rewrite Hc in Hsv.
    destruct (Hsv ltac:(done)) as [(_ & _ & _ & Hdone & _) _].
    destruct Hdone as (Hp' & Hdn).
    { unfold irq_status_of, virtio_irq_status, virtio_reg_read32. cbn. rewrite Hb. exact Hst. }
    destruct (sg_blk_vq _ _ G) as (c & Ec & _). change (blk_vq (m_dma w)) with (blk_vq mem) in Ec.
    split.
    { pose proof (ground_net_frame _ _ G) as [F1 F2 F3]. change (tx_vq (m_dma w)) with (tx_vq mem) in F3.
      rewrite Etx in F3.
      split; cbn; [by rewrite (sg_blk_dev _ _ G)|by rewrite (sg_capacity _ _ G)|by rewrite Ec, Et..|by split]. }
    right. split; [|split; [|split; [|split]]].
    + unfold blk_is_done. cbn. rewrite Hdn. cbn. rewrite Ep'. by rewrite orb_true_r.
    + exists seen'. by apply drivers_ok_sstatus.
    + exact Hp'.
    + cbn. rewrite Ec, Et. cbn. apply Ho.
    + split; cbn.
      * rewrite (sg_blk_req _ _ G). exact Ereq.
      * intros s. rewrite (disk_ground _ _ G). apply Edisk.
Qed.

Lemma wait_request fuel disabled : forall m a is_write,
  requesting m a is_write -> (blk_delay (m_dev m) < fuel)%nat ->
  exists m', wait_loop fuel blk_is_done disabled m = Ret m' /\ blk_kept m m' /\
    (exists seen, drivers_ok m' seen) /\ to_pop (blk_vq (m_dma m')) = [] /\
    avail_index (blk_vq (m_dma m')) = used_index (blk_vq (m_dma m')) /\
    performed (blk_req (m_dma m)) (blk_req (m_dma m')) is_write (disk (m_dev m)) (disk (m_dev m')).
Proof.
  induction fuel as [|fuel IH]; intros m a is_write Hm Hf; [lia|].
  cbn [wait_loop]. rewrite (rq_pending _ _ _ Hm).
  destruct (request_wake m a is_write disabled Hm)
    as (m1 & -> & K1 & [(H1 & Ew & Eb & Hlt)|(Hd & Hok & Hp & Ha & Ew)]); rewrite bind_Ret_l.
  - destruct (IH m1 a is_write H1 ltac:(lia)) as (m' & -> & K2 & Hok & Hp & Ha & [Ereq Edisk]).
    exists m'. split; [done|]. split; [by eapply blk_kept_trans|].
    split; [done|]. split; [done|]. split; [done|]. rewrite <-Eb. split.
    + rewrite Ereq. by destruct is_write; rewrite ?Ew.
    + intros s. rewrite Edisk. unfold disk_write. by destruct is_write; [destruct (s =? _)|].
  - exists m1. split; [by destruct fuel; cbn [wait_loop]; rewrite Hd|]. done.
Qed.

Lemma blk_descs_lookup a is_write ds :
  length ds = 16%nat ->
  blk_descs a is_write ds !!! 0%nat = mkDesc a 16 VIRTQ_DESC_F_NEXT 1 /\
  blk_descs a is_write ds !!! 1%nat = mkDesc (a + OFFSET_DATA) SECTOR_SIZE
    (Z.lor VIRTQ_DESC_F_NEXT (if is_write then 0 else VIRTQ_DESC_F_WRITE)) 2 /\
  blk_descs a is_write ds !!! 2%nat = mkDesc (a + OFFSET_STATUS) 1 VIRTQ_DESC_F_WRITE (d_next (ds !!! 2%nat)).
Proof.
  intros Hl. unfold blk_descs. repeat split.
  - rewrite !aget_set_other by lia. apply aget_set_same. lia.
  - rewrite aget_set_other by lia. apply aget_set_same. rewrite length_insert. lia.
  - apply aget_set_same. rewrite !length_insert. lia.
Qed.

Lemma blk_submit_requesting m buf sector is_write disabled :
  blk_ready m -> 0 <= sector < disk_sectors -> Z.to_nat SECTOR_SIZE = length (take (Z.to_nat SECTOR_SIZE) buf) ->
  let m1 := set_m_sstatus disabled (blk_submit m buf sector is_write) in
  requesting m1 (blk_req_paddr (m_blk m)) is_write /\
  req_sector (blk_req (m_dma m1)) = sector /\
  (is_write = true -> req_data (blk_req (m_dma m1)) = take (Z.to_nat SECTOR_SIZE) buf) /\
  disk (m_dev m1) = disk (m_dev m) /\ blk_dev (m_blk m1) = blk_dev (m_blk m) /\
  blk_capacity (m_blk m1) = blk_capacity (m_blk m) /\
  length (avail_ring (blk_vq (m_dma m1))) = 16%nat /\ length (descs (blk_vq (m_dma m1))) = 16%nat /\
  queue_index (blk_vq (m_dma m1)) = 0 /\ net_frame m m1.
Proof.
  intros [[seen [Hr Ht Hb]] Hbase Hnone Hidle Hring Hdescs Hq Hdata Hcap Htq] Hs Hbuf m1.
  set (vq := blk_vq (m_dma m)) in *.
  assert (E1 : m_dev m1 = bus_write32 (m_dev m) (u32 (blk_base + VIRTIO_REG_QUEUE_NOTIFY)) 0).
  { unfold m1, blk_submit, virtq_kick, virtq_notify, virtio_reg_write32. cbn. fold vq. by rewrite Hbase, Hq. }
  assert (Hdlen : length (req_data (blk_req (m_dma m1))) = Z.to_nat SECTOR_SIZE).
  { cbn. destruct is_write; [by rewrite <-Hbuf|exact Hdata]. }
  split; [split|].
  - exists seen. split; [destruct Hr; by constructor|exact Ht|exact Hb].
  - exact Hbase.
  - rewrite E1. apply blk_notify.
  - split; cbn [m1 m_dma blk_submit virtq_kick set_m_sstatus set_m_dev set_blk_queue set_m_dma
      set_blk_vq blk_vq set_m_blk set_request set_blk_req blk_req req_type req_sector]; fold vq.
    + exact Hb.
    + exact Hnone.
    + cbn. fold vq. by rewrite Hidle.
    + cbn. fold vq. rewrite Hidle. apply aget_set_same. pose proof (ring_slot_lt (used_index vq)).
      unfold VIRTQ_ENTRY_NUM in *. lia.
    + by apply (blk_descs_lookup _ is_write _ Hdescs).
    + by apply (blk_descs_lookup _ is_write _ Hdescs).
    + eexists. by apply (blk_descs_lookup _ is_write _ Hdescs).
    + reflexivity.
  - exact Hs.
  - exact Hdlen.
  - reflexivity.
  - exact Htq.
  - split; [reflexivity|]. split; [by intros ->|]. split; [|split; [reflexivity|split; [reflexivity|]]].
    + rewrite E1. by apply (stable_write _ (disk_stable (disk (m_dev m)))).
    + cbn. fold vq. unfold blk_descs. rewrite !length_insert. do 3 (split; [done|]). split; first [done|apply consumes_refl].
Qed.

Lemma read_write_disk_spec m buf sector is_write :
  blk_ready m -> 0 <= sector < disk_sectors -> length buf = Z.to_nat SECTOR_SIZE ->
  exists m', read_write_disk m buf sector is_write =
      Ret (if is_write then buf else disk (m_dev m) sector, m') /\ blk_ready m' /\
    m_sstatus m' = m_sstatus m /\ net_frame m m' /\
    (forall s, disk (m_dev m') s = if is_write then disk_write (disk (m_dev m)) sector buf s
                                   else disk (m_dev m) s).
Proof.
  intros Hm Hs Hbuf. unfold read_write_disk. rewrite (br_capacity _ Hm).
  rewrite Z.div_mul by done. rewrite (proj2 (Z.leb_gt disk_sectors sector)) by lia.
  rewrite Hbuf, (proj2 (Z.leb_le SECTOR_SIZE _)) by (unfold SECTOR_SIZE; lia).
  change (defined_if true) with (Ret tt). rewrite bind_Ret_l. unfold wait_for_interrupt.
  set (disabled := Z.land _ _).
  destruct (blk_submit_requesting m buf sector is_write disabled Hm Hs) as
    (Hrq & Esec & Edata & Edisk & Edev & Ecap & Er & Eds & Eq & F1).
  { by rewrite take_ge by lia. }
  set (m1 := set_m_sstatus disabled (blk_submit m buf sector is_write)) in *.
  destruct (wait_request wakes disabled m1 _ is_write Hrq (blk_delay_bound _)) as
    (m2 & -> & [Kdev Kcap Kav Kr Kd Kq F2] & [seen Hok] & Hpop & Hav & [Ereq Edk]).
  rewrite !bind_Ret_l. cbv zeta.
  change (blk_req (m_dma (set_m_sstatus (m_sstatus (blk_submit m buf sector is_write)) m2))) with (blk_req (m_dma m2)).
  assert (Edlen : length (req_data (blk_req (m_dma m2))) = Z.to_nat SECTOR_SIZE).
  { rewrite Ereq. cbn [req_data]. destruct is_write; [apply Hrq|apply disk_sector_length]. }
  assert (F : net_frame m (set_m_sstatus (m_sstatus (blk_submit m buf sector is_write)) m2)).
  { destruct (net_frame_trans _ _ _ F1 F2). by split. }
  assert (Hready : blk_ready (set_m_sstatus (m_sstatus (blk_submit m buf sector is_write)) m2)).
  { split; cbn; [exists seen; by apply drivers_ok_sstatus|by rewrite Kdev, Edev; apply Hm|exact Hpop|exact Hav
      |by rewrite Kr|by rewrite Kd|by rewrite Kq|exact Edlen|by rewrite Kcap, Ecap; apply Hm|
      eapply consumes_quiet; [exact (nf_vq _ _ F)|apply Hm]]. }
  assert (Edk' : forall s, disk (m_dev m2) s = if is_write then disk_write (disk (m_dev m)) sector buf s
                                   else disk (m_dev m) s).
  { intros s. rewrite Edk, Esec, Edisk. destruct is_write; [|done].
    rewrite Edata by done. by rewrite (take_ge buf) by lia. }
  assert (Est : req_status (blk_req (m_dma m2)) = 0) by (by rewrite Ereq).
  rewrite Est, Z.eqb_refl. cbn [negb].
  destruct is_write.
  - eexists. split; [reflexivity|]. split; [exact Hready|]. split; [reflexivity|]. split; [exact F|exact Edk'].
  - eexists. split; [|split; [exact Hready|split; [reflexivity|split; [exact F|exact Edk']]]].
    f_equal. f_equal. rewrite Ereq. cbn [req_data]. rewrite Esec, Edisk.
    pose proof (disk_sector_length (m_dev m) sector) as Hdl.
    rewrite take_ge by lia. unfold put. rewrite take_0, drop_ge by lia. by rewrite app_nil_r.
Qed.
End BlkDisk.

(** ** Waiting ends *)

Section WaitEnds.
Context {D : Type} `{!Devices D} `{!NicSpec D} `{!BlkSpec D}.
Implicit Types (m : machine D).

Lemma requesting_sstatus m a is_write s : requesting m a is_write -> requesting (set_m_sstatus s m) a is_write.
Proof. intros [[seen Hd] ? ? ? ? ? ? ?]. split; try assumption. exists seen. by apply drivers_ok_sstatus. Qed.

Lemma transmitting_sstatus m n s : transmitting m n -> transmitting (set_m_sstatus s m) n.
Proof. intros [[seen Hd] ? ? ? ? ? ?]. split; try assumption. exists seen. by apply drivers_ok_sstatus. Qed.

(** A loop that ends within [k] wake-ups is a wait with as many. *)
Lemma wait_ends done m m1 k :
  let disabled := disabled_of m in
  wait_loop (S k) done disabled (set_m_sstatus disabled m) = Ret m1 -> done (set_m_sstatus disabled m) = false ->
  (k < wakes)%nat ->
  exists n, (n <= k)%nat /\ waited done disabled (S n) (set_m_sstatus disabled m) m1 /\
    wait_for_interrupt done m = Ret (set_m_sstatus (m_sstatus m) m1).
Proof.
  intros disabled E Hd Hk.
  apply wait_loop_waited in E as ([|n] & Hn & Hw); [inversion Hw; congruence| |done|apply disabled_clear].
  exists n. split; [lia|]. split; [exact Hw|]. apply wait_waited. exists (S n), m1. split; [lia|done].
Qed.
End WaitEnds.

(** C32: [wait_for_interrupt] ends, and runs as it must.  With the flag already
    set it returns at once.  While a disk request or a transmission is
    outstanding on a device that keeps its contract, it returns within the
    device's number of wake-ups, whatever other interrupts arrive in between:
    the flag is set, the driver invariants hold, the completion was consumed
    (and the frame is on the wire, the request performed), and [sstatus] is
    restored.  In every wake-up of the run the flag was tested with interrupts
    disabled and [handle_external_interrupt] ran with them enabled. *)
Theorem wait_for_interrupt_returns {D : Type} `{!Devices D} `{!NicSpec D} `{!BlkSpec D} (m : machine D) :
  let disabled := Z.land (m_sstatus m) (Z.lnot SSTATUS_SIE) in
  let run done n m1 := waited done disabled n (set_m_sstatus disabled m) m1 /\
    wait_for_interrupt done m = Ret (set_m_sstatus (m_sstatus m) m1) in
  (forall done, done (set_m_sstatus disabled m) = true -> wait_for_interrupt done m = Ret m) /\
  (forall a is_write, requesting m a is_write ->
     exists n m1, (n <= blk_delay (m_dev m))%nat /\ run blk_is_done (S n) m1 /\ blk_is_done m1 = true /\
       (exists seen, drivers_ok m1 seen) /\ to_pop (blk_vq (m_dma m1)) = [] /\
       performed (blk_req (m_dma m)) (blk_req (m_dma m1)) is_write (disk (m_dev m)) (disk (m_dev m1))) /\
  (forall len, transmitting m len ->
     exists n m1, (n <= nic_delay (m_dev m))%nat /\ run tx_done (S n) m1 /\ tx_done m1 = true /\
       (exists seen, drivers_ok m1 seen) /\ to_pop (tx_vq (m_dma m1)) = [] /\
       wire (m_dev m1) = wire (m_dev m) ++ [take (Z.to_nat len) (tx_buf (m_dma m))]).
Proof.
  intros disabled run. split; [|split].
  - intros done Hd. apply wait_waited. exists 0%nat, (set_m_sstatus disabled m). split; [lia|].
    split; [constructor; [exact Hd|apply disabled_clear]|]. by rewrite sstatus_restored.
  - intros a is_write Hm.
    destruct (wait_request (S (blk_delay (m_dev m))) disabled _ a is_write (requesting_sstatus m a is_write disabled Hm))
      as (m1 & E & _ & Hok & Hp & _ & Hperf); [cbn; lia|].
    destruct (wait_ends blk_is_done m m1 _ E (rq_pending _ _ _ Hm) (blk_delay_bound _)) as (n & Hn & Hw & Er).
    exists n, m1. split; [exact Hn|]. split; [by split|]. split; [by eapply waited_done|]. by split.
  - intros len Hm.
    destruct (wait_transmit (S (nic_delay (m_dev m))) disabled _ len (transmitting_sstatus m len disabled Hm))
      as (m1 & E & _ & Hok & Hp & _ & Hwire); [cbn; lia|].
    destruct (wait_ends tx_done m m1 _ E (tm_pending _ _ Hm) (nic_delay_bound _)) as (n & Hn & Hw & Er).
    exists n, m1. split; [exact Hn|]. split; [by split|]. split; [by eapply waited_done|]. by split.
Qed.

(** C39: [read_write_disk] implements an abstract disk.  On a ready driver
    and any device that keeps the block contract, a write replaces exactly
    one sector by the buffer, a read returns the sector's bytes and changes no
    sector, the driver is ready again and [sstatus] is restored; a sector
    beyond the capacity only prints a message. *)
Theorem read_write_disk_correct {D : Type} `{!Devices D} `{!BlkSpec D} (m : machine D) buf sector is_write :
  blk_ready m -> length buf = Z.to_nat SECTOR_SIZE -> 0 <= sector < 2 ^ 31 -> 0 <= disk_sectors < 2 ^ 31 ->
  if sector <? disk_sectors then
    exists m', read_write_disk m buf sector is_write =
        Ret (if is_write then buf else disk (m_dev m) sector, m') /\ blk_ready m' /\
      m_sstatus m' = m_sstatus m /\
      (forall s, disk (m_dev m') s = if is_write then disk_write (disk (m_dev m)) sector buf s
                                     else disk (m_dev m) s)
  else exists out, read_write_disk m buf sector is_write = Ret (buf, emit out m).
Proof.
  intros Hm Hbuf Hs Hn. destruct (Z.ltb_spec sector disk_sectors) as [Hlt|Hge].
  { destruct (read_write_disk_spec m buf sector is_write Hm ltac:(lia) Hbuf) as (m' & E & H' & Es & _ & Ed). by exists m'. }
  unfold read_write_disk. rewrite (br_capacity _ Hm), Z.div_mul by done.
  rewrite (proj2 (Z.leb_le disk_sectors sector)) by lia.
  change (bytes_of "virtio: tried to read/write sector=%d, but capacity is %d" ++ [10; 0])
    with (bytes_of "virtio: tried to read/write sector=" ++ [chr_percent; chr_d] ++
          bytes_of ", but capacity is " ++ [chr_percent; chr_d; 10; 0]).
  destruct (printNum_ret sector ltac:(lia)) as [d1 E1].
  assert (Hd2 : - 2 ^ 31 < disk_sectors < 2 ^ 31) by lia.
  destruct (printNum_ret disk_sectors Hd2) as [d2 E2].
  rewrite printf_text by reflexivity. cbn [app].
  rewrite (printf_d _ _ _ d1) by (by rewrite s32_id by lia).
  rewrite printf_text by reflexivity.
  rewrite (printf_d _ _ _ d2) by (by rewrite u32_id, s32_id by lia).
  rewrite printf_char, printf_end by discriminate. by eexists.
Qed.
