(* ===== verification/Fs.v ===== *)
(** The file system ([kernel/filesystem.c], [include/filesystem.h]): a tar
    archive on the block device, kept in memory as [FILES_MAX] files.

    [disk] is the in-memory image; a pointer into it is an offset, and what
    lies behind the pointer reaches to the end of the image, so an access past
    the image is [Undef].  [char] is unsigned on rv32. *)

From Stdlib Require Import ZArith Lia.
From S2P Require Import Prelude Strings Bytes Ring Virtio Machine NetDriver Interrupts NetStack Disk.
Open Scope Z_scope.

Definition FILES_MAX : nat := 2.
Definition FILE_DATA_SIZE : nat := 1024.
Definition FILE_NAME_SIZE : nat := 100.
Definition SIZEOF_FILE : Z := 1132.

Definition align_up (value align : Z) : Z := (value + align - 1) / align * align.
Definition DISK_MAX_SIZE : Z := align_up (SIZEOF_FILE * Z.of_nat FILES_MAX) SECTOR_SIZE.
Definition DISK_SECTORS : nat := Z.to_nat (DISK_MAX_SIZE / SECTOR_SIZE).

(** [struct tar_header]: offsets and size. *)
Definition SIZEOF_TAR_HEADER : nat := 512.
Definition at_name : nat := 0.
Definition at_mode : nat := 100.
Definition at_size : nat := 124.
Definition at_tar_checksum : nat := 148.
Definition at_type : nat := 156.
Definition at_magic : nat := 257.
Definition at_version : nat := 263.
Definition at_data : nat := 512.

Record file : Type := mkFile {
  in_use : bool;
  f_name : list Z;
  f_data : list Z;
  f_size : Z;
}.
Definition file_zero : file :=
  mkFile false (replicate FILE_NAME_SIZE 0) (replicate FILE_DATA_SIZE 0) 0.
#[export] Instance file_inhabited : Inhabited file := populate file_zero.

Record fs_state : Type := mkFs { files : list file; fs_disk : list Z }.

(** ** Octal numbers *)

(** [oct2int]; an overflow of [int] is [Undef]. *)
Fixpoint oct2int_loop (oct : list Z) (len : nat) (dec : Z) {struct len} : outcome Z :=
  match len with
  | O => Ret dec
  | S n =>
      match oct with
      | [] => Undef
      | c :: oct' =>
          if (c <? chr_0) || (chr_0 + 7 <? c) then Ret dec
          else
            _ ← defined_if (dec * 8 + (c - chr_0) <? 2 ^ 31);
            oct2int_loop oct' n (dec * 8 + (c - chr_0))
      end
  end.
Definition oct2int (oct : list Z) (len : nat) : outcome Z := oct2int_loop oct len 0.

(** [for (i = n; i > 0; i--) { p[i - 1] = (v % 8) + '0'; v /= 8; }] *)
Fixpoint octal_digits (n : nat) (v : Z) : list Z :=
  match n with
  | O => []
  | S k => octal_digits k (Z.quot v 8) ++ [u8 (Z.rem v 8 + chr_0)]
  end.

(** ** Stores into the image *)

Definition poke (off : nat) (bytes disk : list Z) : outcome (list Z) :=
  _ ← defined_if (off + length bytes <=? length disk)%nat; Ret (put off bytes disk).

(** [strcpy((char * ) &disk[off], src)] *)
Definition poke_str (off : nat) (src disk : list Z) : outcome (list Z) :=
  r ← strcpy (drop off disk) src; Ret (take off disk ++ r).

(** [memcpy(dst, src, n)] on whole arrays; [n] is a [size_t]. *)
Definition copy_bytes (dst src : list Z) (n : Z) : outcome (list Z) :=
  _ ← defined_if ((n <=? Z.of_nat (length dst)) && (n <=? Z.of_nat (length src)));
  Ret (put 0 (take (Z.to_nat n) src) dst).

Section Code.
Context {D : Type} `{!Devices D}.
Implicit Types (m : machine D).

(** One sector between the image and the device. *)
Definition disk_io (is_write : bool) (st : list Z * machine D) (sector : nat)
    : outcome (list Z * machine D) :=
  let '(disk, m) := st in
  let off := (sector * Z.to_nat SECTOR_SIZE)%nat in
  '(buf, m) ← read_write_disk m (take (Z.to_nat SECTOR_SIZE) (drop off disk)) (Z.of_nat sector) is_write;
  Ret (put off buf disk, m).

(** The loop of [fs_init] over the archive; also what it prints. *)
Fixpoint fs_load (fuel i : nat) (off : Z) (disk : list Z) (fl : list file)
    : outcome (list file * list Z) :=
  match fuel with
  | O => Ret (fl, [])
  | S n =>
      _ ← defined_if (off <? Z.of_nat (length disk));
      let header := drop (Z.to_nat off) disk in
      if header !!! at_name =? 0 then Ret (fl, [])
      else
        cmp ← strcmp (drop at_magic header) (literal "ustar");
        if negb (cmp =? 0) then Panic "invalid tar header"
        else
          filesz ← oct2int (drop at_size header) 12;
          let file := fl !!! i in
          name ← strcpy (f_name file) (drop at_name header);
          data ← copy_bytes (f_data file) (drop at_data header) filesz;
          let fl := <[i := mkFile true name data filesz]> fl in
          out ← printf (bytes_of "file: %s, size=%d" ++ [10; 0]) [VStr name; VInt filesz];
          '(fl, rest) ← fs_load n (S i)
            (off + align_up (Z.of_nat SIZEOF_TAR_HEADER + filesz) SECTOR_SIZE) disk fl;
          Ret (fl, out ++ rest)
  end.

Definition fs_init (fs : fs_state) m : outcome (fs_state * machine D) :=
  '(disk, m) ← for_each (disk_io false) (seq 0 DISK_SECTORS) (fs_disk fs, m);
  '(fl, out) ← fs_load FILES_MAX 0 0 disk (files fs);
  Ret (mkFs fl disk, emit out m).

(** The header of one file, as [fs_flush] lays it out. *)
Definition flush_header (off : nat) (f : file) (disk : list Z) : outcome (list Z) :=
  disk ← poke off (replicate SIZEOF_TAR_HEADER 0) disk;
  disk ← poke_str (off + at_name) (f_name f) disk;
  disk ← poke_str (off + at_mode) (literal "000644") disk;
  disk ← poke_str (off + at_magic) (literal "ustar") disk;
  disk ← poke_str (off + at_version) (literal "00") disk;
  disk ← poke (off + at_type) [chr_0] disk;
  disk ← poke (off + at_size) (octal_digits 12 (s32 (f_size f))) disk;
  let checksum := 32 * 8 + fold_left Z.add (take SIZEOF_TAR_HEADER (drop off disk)) 0 in
  poke (off + at_tar_checksum) (octal_digits 6 checksum) disk.

(** One round of the first loop of [fs_flush]. *)
Definition flush_file (st : list Z * nat) (f : file) : outcome (list Z * nat) :=
  let '(disk, off) := st in
  if negb (in_use f) then Ret (disk, off)
  else
    disk ← flush_header off f disk;
    _ ← defined_if (f_size f <=? Z.of_nat (length (f_data f)));
    disk ← poke (off + at_data) (take (Z.to_nat (f_size f)) (f_data f)) disk;
    Ret (disk, (off + Z.to_nat (align_up (Z.of_nat SIZEOF_TAR_HEADER + f_size f) SECTOR_SIZE))%nat).

Fixpoint flush_files (fl : list file) (st : list Z * nat) : outcome (list Z * nat) :=
  match fl with
  | [] => Ret st
  | f :: fl' => st ← flush_file st f; flush_files fl' st
  end.

Definition fs_flush (fs : fs_state) m : outcome (fs_state * machine D) :=
  '(disk, _) ← flush_files (files fs) (replicate (Z.to_nat DISK_MAX_SIZE) 0, 0%nat);
  '(disk, m) ← for_each (disk_io true) (seq 0 DISK_SECTORS) (disk, m);
  out ← printf (bytes_of "wrote %d bytes to disk" ++ [10; 0]) [VInt DISK_MAX_SIZE];
  Ret (mkFs (files fs) disk, emit out m).
End Code.

(** [fs_lookup]: the index of the file, [None] for [NULL]. *)
Fixpoint fs_lookup (fl : list file) (filename : list Z) : outcome (option nat) :=
  match fl with
  | [] => Ret None
  | f :: fl' =>
      cmp ← strcmp (f_name f) filename;
      if cmp =? 0 then Ret (Some 0%nat)
      else r ← fs_lookup fl' filename; Ret (option_map S r)
  end.

(** ** Octal round trip *)

Section Octal.
Implicit Types (l : list Z) (v acc : Z).

Lemma octal_digit_value v :
  0 <= v -> u8 (Z.rem v 8 + chr_0) = v mod 8 + chr_0 /\ Z.quot v 8 = v / 8.
Proof.
  intros Hv. rewrite Z.rem_mod_nonneg, Z.quot_div_nonneg by lia. split; [|done].
  pose proof (Z.mod_pos_bound v 8 ltac:(lia)). unfold chr_0. apply u8_id. lia.
Qed.

Lemma length_octal_digits n : forall v, length (octal_digits n v) = n.
Proof. induction n as [|n IH]; intros v; cbn; [done|]. rewrite length_app, IH. cbn. lia. Qed.

Lemma oct2int_digits n : forall v acc k l,
  0 <= v < 8 ^ Z.of_nat n -> 0 <= acc -> acc * 8 ^ Z.of_nat n + v < 2 ^ 31 ->
  oct2int_loop (octal_digits n v ++ l) (n + k) acc = oct2int_loop l k (acc * 8 ^ Z.of_nat n + v).
Proof.
  induction n as [|n IH]; intros v acc k l Hv Ha Hb.
  { change (8 ^ Z.of_nat 0) with 1 in *. cbn [octal_digits app Nat.add]. f_equal. lia. }
  rewrite Nat2Z.inj_succ, Z.pow_succ_r in * by lia.
  destruct (octal_digit_value v) as [Ed Eq]; [lia|].
  cbn [octal_digits]. rewrite Ed, Eq, <-(assoc_L (++)). cbn [app].
  replace (S n + k)%nat with (n + S k)%nat by lia.
  pose proof (Z.div_mod v 8 ltac:(lia)) as Edm. pose proof (Z.mod_pos_bound v 8 ltac:(lia)) as Hm.
  assert (Hq : 0 <= v / 8 < 8 ^ Z.of_nat n).
  { split; [apply Z.div_pos; lia|]. apply Z.div_lt_upper_bound; lia. }
  rewrite IH by nia. cbn [oct2int_loop].
  rewrite (proj2 (Z.ltb_ge _ chr_0)), (proj2 (Z.ltb_ge (chr_0 + 7) _)) by lia. cbn [orb].
  rewrite (proj2 (Z.ltb_lt _ (2 ^ 31))) by nia. cbn [defined_if mbind outcome_bind].
  f_equal. nia.
Qed.

Lemma oct2int_octal v l :
  0 <= v < 2 ^ 31 -> oct2int (octal_digits 12 v ++ l) 12 = Ret v.
Proof.
  intros Hv. assert (H8 : 8 ^ Z.of_nat 12 = 68719476736) by reflexivity.
  assert (H : oct2int_loop (octal_digits 12 v ++ l) (12 + 0) 0 = oct2int_loop l 0 (0 * 8 ^ Z.of_nat 12 + v))
    by (apply oct2int_digits; lia).
  exact H.
Qed.
End Octal.

(** ** Images as blocks

    An image is a concatenation of blocks; a store of a whole block replaces
    it and leaves the others. *)
Section Blocks.
Implicit Types (bs : list (list Z)) (new : list Z).

Definition start_of (i : nat) bs : nat := length (concat (take i bs)).

Lemma drop_block bs i : drop (start_of i bs) (concat bs) = concat (drop i bs).
Proof.
  unfold start_of. rewrite <-(take_drop i bs) at 2. rewrite concat_app. by rewrite drop_app_length.
Qed.

Lemma take_block bs i : take (start_of i bs) (concat bs) = concat (take i bs).
Proof.
  unfold start_of. rewrite <-(take_drop i bs) at 2. rewrite concat_app. by rewrite take_app_length.
Qed.

Lemma poke_block bs i old new off :
  bs !! i = Some old -> off = start_of i bs -> length new = length old ->
  poke off new (concat bs) = Ret (concat (<[i := new]> bs)).
Proof.
  intros Hi -> Hl. unfold poke, start_of.
  assert (E : concat bs = concat (take i bs) ++ old ++ concat (drop (S i) bs)).
  { rewrite <-(take_drop_middle bs i old Hi) at 1. by rewrite concat_app. }
  rewrite E. clear E. rewrite insert_take_drop by (by eapply lookup_lt_Some).
  rewrite concat_app. cbn [concat].
  rewrite (proj2 (Nat.leb_le _ _)) by (rewrite !length_app; lia).
  cbn [defined_if mbind outcome_bind]. f_equal. by apply put_split.
Qed.

(** A string and its NUL written over a block of that length. *)
Lemma poke_str_block bs i old off s x :
  bs !! i = Some old -> off = start_of i bs -> cstr s x -> length old = S (length x) ->
  poke_str off s (concat bs) = Ret (concat (<[i := x ++ [0]]> bs)).
Proof.
  intros Hi -> Hs Hl. unfold poke_str. rewrite drop_block, take_block.
  rewrite (drop_S bs old i Hi). cbn [concat].
  rewrite (strcpy_spec x) by (rewrite ?length_app; (exact Hs || lia)).
  cbn [mbind outcome_bind]. f_equal.
  rewrite insert_take_drop by (by eapply lookup_lt_Some). rewrite concat_app. cbn [concat]. f_equal.
  rewrite drop_app_ge, Hl, Nat.sub_diag by lia. by rewrite <-(assoc_L (++)).
Qed.
End Blocks.
