(* ===== verification/SimDevices.v ===== *)
(** Two small devices that keep the contracts [NicSpec] and [BlkSpec]: a
    network interface that transmits at the next wake-up and a disk that
    performs a request at the next wake-up.  They show that the contracts can
    be met, and the theorems that rely on them are applied to them here. *)

From Stdlib Require Import ZArith Lia.
From S2P Require Import Prelude Strings Bytes Arp Ipv4 Ring Virtio Machine NetDriver Interrupts NetStack Disk.
Open Scope Z_scope.

(** The used ring with one more element. *)
Definition add_used (x : virtq_used_elem) (vq : virtio_virtq) : virtio_virtq :=
  set_used (<[ring_slot (used_index vq) := x]> (used_ring vq)) (u16 (used_index vq + 1)) vq.

(** The identification registers of a block device of 8 sectors at
    [0x10001000] and a network device at [0x10002000]. *)
Definition identification (a : Z) : option Z :=
  if a =? 0x10001000 then Some VIRTIO_MAGIC
  else if a =? 0x10001008 then Some VIRTIO_DEVICE_BLK
  else if a =? 0x10001100 then Some 8
  else if a =? 0x10001104 then Some 0
  else if a =? 0x10002000 then Some VIRTIO_MAGIC
  else if a =? 0x10002008 then Some VIRTIO_DEVICE_NET
  else None.

(** Interrupt [irq] is always pending, every other register reads 1. *)
Definition irq_bus (D : Type) (irq : Z) : Bus D :=
  {| bus_read32 d a := (if a =? PLIC_SCLAIM then irq else default 1 (identification a), d);
     bus_write32 d _ _ := d |}.

Lemma irq_bus_stable D irq P : @bus_stable D (irq_bus D irq) P.
Proof. by split. Qed.

Lemma rx_ok_same_rx {D} mem mem' (m : machine D) seen :
  rx_vq mem' = rx_vq mem -> rx_bufs mem' = rx_bufs mem ->
  rx_ok (set_m_dma mem m) seen -> exists seen', rx_ok (set_m_dma mem' m) seen'.
Proof.
  intros E1 E2 []. exists seen. cbn in *. constructor; cbn; rewrite ?E1, ?E2; assumption.
Qed.

(** ** A network interface *)

Definition nic : Type := list (list Z).

Definition nic_devices : Devices nic :=
  {| devices_bus := irq_bus nic VIRTIO_NET_IRQ;
     dev_wait d mem :=
       let n := d_len (descs (tx_vq mem) !!! 0%nat) - SIZEOF_NET_HDR in
       Some (d ++ [take (Z.to_nat n) (tx_buf mem)], set_tx_vq (add_used (mkUsed 0 0) (tx_vq mem)) mem);
     wakes := 1 |}.

Definition nic_spec : @NicSpec nic nic_devices.
Proof.
  unshelve refine (@Build_NicSpec nic nic_devices (fun d => d) 0x10002000 (fun _ => True) (fun _ => 0%nat)
    _ _ _ _ _ _).
  - intros w. apply irq_bus_stable.
  - apply irq_bus_stable.
  - done.
  - intros k. apply irq_bus_stable.
  - intros d. cbn. lia.
  - intros d mem n _ [Hu Hnone Hone Hslot [a Hd]] Hn _. eexists _, _. split; [reflexivity|].
    split; [intros m seen; by apply rx_ok_same_rx|]. split; [done|]. split; [done|]. right. exists (mkUsed 0 0).
    split; [reflexivity|]. split; [|split; [reflexivity|discriminate]].
    rewrite Hd. cbn [d_len]. by replace (SIZEOF_NET_HDR + n - SIZEOF_NET_HDR) with n by lia.
Defined.

(** A driver at rest on top of any device: all receive buffers offered, no
    transmission, ARP cache with one entry. *)
Definition rest_machine {D : Type} (d : D) (a : arp_state) : machine D :=
  let rx := fold_left (fun vq i => enqueue_desc 0x80300000 vq (Z.of_nat i)) (seq 0 16) virtq_zero in
  let tx := mkVirtq (descs virtq_zero) 0 (avail_ring virtq_zero) 0 (used_ring virtq_zero) 1 0 0 in
  mkMachine d SSTATUS_SIE []
    (mkDma rx (replicate 16 (replicate ETH_MAX_FRAME_SIZE 0)) tx (replicate ETH_MAX_FRAME_SIZE 0)
       virtq_zero (mkReq 0 0 (replicate 512 0) 0))
    (mkNet (mkDevice 0x10002000 1) true 0x80300000 0x80310000
       (mkRx 0 0 0 0 (replicate ETH_MAX_FRAME_SIZE 0) 0) demo_captures (mkTx 0 0 0 false))
    (mkBlk (mkDevice 0x10001000 2) 0x80320000 (8 * SECTOR_SIZE) false)
    a (mkIpv4 (mkStats 0 0 0 0 0 0 0 0) 1).

Definition empty_cache : list arp_cache_entry := replicate 8 (mkArp false 0 (replicate 6 0)).

Lemma empty_cache_wf : cache_wf empty_cache.
Proof.
  split; [reflexivity| |].
  - intros i e He. apply lookup_replicate in He as [-> _]. reflexivity.
  - intros i j e e' He _ Hv. apply lookup_replicate in He as [-> _]. discriminate Hv.
Qed.

(** The cache knows 10.0.2.2. *)
Definition gateway : Z := 0x0a000202.
Definition rest_arp : arp_state :=
  mkArpState (arp_cache_update empty_cache gateway demo_mac) (mkPending false (replicate 6 0) 0).

Lemma rest_arp_wf : arp_wf rest_arp.
Proof. split; [apply arp_cache_update_wf; [exact empty_cache_wf|reflexivity]|reflexivity]. Qed.

Lemma rest_drivers_ok {D} (d : D) a : arp_wf a -> drivers_ok (rest_machine d a) 0.
Proof.
  intros Ha.
  assert (Hring : forall vq, vq = virtq_zero \/ vq = tx_vq (m_dma (rest_machine d a)) -> used_ok vq).
  { intros vq [->| ->]; split; vm_compute;
      first [reflexivity | split; [discriminate|reflexivity] | discriminate]. }
  split; [|apply Hring; by right|apply Hring; by left]. split.
  - reflexivity.
  - apply Forall_replicate. split; [reflexivity|]. apply Forall_replicate. unfold octet. lia.
  - split; vm_compute; first [reflexivity | split; [discriminate|reflexivity] | discriminate].
  - split; vm_compute; first [reflexivity | split; [discriminate|reflexivity] | discriminate].
  - change (to_pop _) with (@nil virtq_used_elem). constructor.
  - reflexivity.
  - vm_compute. discriminate.
  - change (unseen _ _) with (Z.of_nat <$> seq 0 16). cbn [seq fmap list_fmap].
    repeat constructor; vm_compute; discriminate.
  - apply demo_captures_ok.
  - exact Ha.
Qed.

Definition nic_machine (a : arp_state) : machine nic := rest_machine [] a.

Lemma nic_machine_ready a : arp_wf a -> @nic_ready nic nic_devices nic_spec (nic_machine a).
Proof.
  intros Ha. split; [exists 0; by apply rest_drivers_ok|reflexivity|reflexivity|by split|reflexivity].
Qed.

Lemma arp_request_answered_witness :
  let link := @nic_link nic nic_devices nic_spec in
  let m := nic_machine rest_arp in
  let frame := replicate 14 0 ++
    arp_wire ARP_OPERATION_REQUEST demo_mac 0x0a000205 (replicate 6 0) IPV4_LOCAL_ADDRESS ++ [] in
  exists a m', arp_receive (m_arp m) frame 60 = Ret a /\
    arp_poll (Devices0 := nic_devices) (set_m_arp a m) = Ret m' /\
    m_dev m' = [ether_frame demo_mac ARP_ETHERTYPE
      (arp_wire ARP_OPERATION_REPLY net_mac IPV4_LOCAL_ADDRESS demo_mac 0x0a000205)].
Proof.
  intros link m frame.
  destruct (@arp_request_answered nic nic_devices link m (replicate 14 0) demo_mac 0x0a000205
    (replicate 6 0) [] 60) as [_ (a & m' & Er & _ & Ep & _ & Ew)];
    [exact (nic_machine_ready rest_arp rest_arp_wf)|reflexivity|reflexivity|reflexivity|lia|lia|].
  exists a, m'. split; [exact Er|]. split; [exact Ep|exact Ew].
Defined.

Lemma ipv4_send_outcomes_witness :
  let link := @nic_link nic nic_devices nic_spec in
  let m := nic_machine rest_arp in
  (exists m' packet, ipv4_send (Devices0 := nic_devices) m gateway IPV4_PROTOCOL_UDP (Some [1; 2; 3]) 3 = Ret (3, m') /\
    m_dev m' = [ether_frame demo_mac IPV4_ETHERTYPE packet]) /\
  (exists m', ipv4_send (Devices0 := nic_devices) m 0x0a000203 IPV4_PROTOCOL_UDP (Some [1; 2; 3]) 3 = Ret (-2, m')).
Proof.
  intros link m.
  assert (Hready : @link_ready nic nic_devices (@nic_link nic nic_devices nic_spec) m) by exact (nic_machine_ready rest_arp rest_arp_wf).
  assert (Hp : octet IPV4_PROTOCOL_UDP) by (unfold octet, IPV4_PROTOCOL_UDP; lia).
  assert (Hid : 0 <= next_identification (m_ip m) < 65536) by (cbn; lia). split.
  - destruct (@ipv4_send_outcomes nic nic_devices link m gateway IPV4_PROTOCOL_UDP [1; 2; 3] Hready Hp
      ltac:(unfold gateway; lia) Hid) as (_ & _ & _ & H).
    destruct (H ltac:(cbn; lia) demo_mac eq_refl) as (m' & packet & E & _ & _ & Ew).
    exists m', packet. split; [exact E|exact Ew].
  - destruct (@ipv4_send_outcomes nic nic_devices link m 0x0a000203 IPV4_PROTOCOL_UDP [1; 2; 3] Hready Hp
      ltac:(lia) Hid) as (_ & _ & H & _).
    destruct (H ltac:(cbn; lia) eq_refl) as (m' & E & _). exists m'. exact E.
Defined.

(** ** A disk *)

(** Sectors are cut or padded to the sector size. *)
Definition sector_of (l : list Z) : list Z := take 512 (l ++ replicate 512 0).

Lemma sector_of_id l : length l = 512%nat -> sector_of l = l.
Proof. intros H. apply take_app_length'. by symmetry. Qed.

Lemma length_sector_of l : length (sector_of l) = 512%nat.
Proof. unfold sector_of. rewrite length_take, length_app, length_replicate. lia. Qed.

Definition disk_devices : Devices disk_image :=
  {| devices_bus := irq_bus disk_image VIRTIO_BLK_IRQ;
     dev_wait img mem :=
       let r := blk_req mem in
       let w := req_type r =? VIRTIO_BLK_T_OUT in
       let data := if w then req_data r else sector_of (img (req_sector r)) in
       Some (if w then disk_write img (req_sector r) (req_data r) else img,
             set_blk_req (mkReq (req_type r) (req_sector r) data 0)
               (set_blk_vq (add_used (mkUsed 0 0) (blk_vq mem)) mem));
     wakes := 1 |}.

Definition disk_spec : @BlkSpec disk_image disk_devices.
Proof.
  unshelve refine (@Build_BlkSpec disk_image disk_devices (fun img s => sector_of (img s)) 8 0x10001000
    (fun _ => True) (fun _ => 0%nat) _ _ _ _ _ _ _).
  - intros img. apply irq_bus_stable.
  - apply irq_bus_stable.
  - done.
  - intros k. apply irq_bus_stable.
  - intros d. cbn. lia.
  - intros d s. apply length_sector_of.
  - intros d mem a w _ Ho Hs Hl _. eexists _, _. split; [reflexivity|].
    split; [intros m seen; by apply rx_ok_same_rx|]. split; [done|]. right. exists (mkUsed 0 0).
    split; [reflexivity|]. split; [|split; [reflexivity|discriminate]].
    pose proof (bo_type _ _ _ Ho) as Ht. cbn [blk_req set_blk_req set_blk_vq].
    assert (Ew : (req_type (blk_req mem) =? VIRTIO_BLK_T_OUT) = w) by (rewrite Ht; by destruct w).
    rewrite Ew. split; [reflexivity|]. intros s. destruct w; [|reflexivity].
    unfold disk_write. destruct (s =? req_sector (blk_req mem)); [by apply sector_of_id|reflexivity].
Defined.

Definition disk_machine (img : disk_image) : machine disk_image := rest_machine img rest_arp.

Lemma disk_machine_ready img : @blk_ready disk_image disk_devices disk_spec (disk_machine img).
Proof.
  split; try reflexivity. exists 0. apply rest_drivers_ok, rest_arp_wf.
Qed.

(** Writing sector 3 and reading it back. *)
Lemma read_write_disk_correct_witness :
  let buf := replicate 512 65 in
  exists m1 m2, read_write_disk (Devices0 := disk_devices) (disk_machine (fun _ => [])) buf 3 true = Ret (buf, m1) /\
    read_write_disk (Devices0 := disk_devices) m1 (replicate 512 0) 3 false = Ret (buf, m2).
Proof.
  intros buf.
  assert (H8 : 0 <= @disk_sectors disk_image disk_devices disk_spec < 2 ^ 31) by (cbn; lia).
  destruct (@read_write_disk_correct disk_image disk_devices disk_spec (disk_machine (fun _ => [])) buf 3 true
    (disk_machine_ready _) eq_refl ltac:(lia) H8) as (m1 & E1 & H1 & _ & Ed).
  destruct (@read_write_disk_correct disk_image disk_devices disk_spec m1 (replicate 512 0) 3 false
    H1 eq_refl ltac:(lia) H8) as (m2 & E2 & _).
  exists m1, m2. split; [exact E1|]. rewrite E2. do 2 f_equal. exact (Ed 3).
Defined.
