(* ===== verification/FsImage.v ===== *)
(** What the file system keeps on the disk, and that it reads back what it wrote.

    [archive] is the tar archive of the files in use: per file a 512-byte
    header with its checksum and the contents, padded to whole sectors.
    [fs_flush] writes exactly this archive when it fits the image, and
    [fs_init] recovers the files from it. *)

From Stdlib Require Import ZArith Lia.
From S2P Require Import Prelude Strings Bytes Arp Ipv4 Ring Virtio Machine NetDriver Interrupts NetStack Disk Fs SimDevices.
Open Scope Z_scope.

(** ** The archive *)

(** The string at the start of a character array. *)
Fixpoint c_string (s : list Z) : list Z :=
  match s with
  | [] => []
  | c :: s' => if c =? 0 then [] else c :: c_string s'
  end.

(** A slot of the file table: arrays of the declared sizes, a size within the
    contents, and, when in use, a non-empty name with its NUL. *)
Record file_wf (f : file) : Prop := {
  fw_name_length : length (f_name f) = FILE_NAME_SIZE;
  fw_data_length : length (f_data f) = FILE_DATA_SIZE;
  fw_size : 0 <= f_size f <= Z.of_nat FILE_DATA_SIZE;
  fw_name : in_use f = true -> cstr (f_name f) (c_string (f_name f)) /\ c_string (f_name f) <> [];
}.

Definition zeros (n : nat) : list Z := replicate n 0.

(** Bytes of the image a file of [n] bytes takes: header and contents, rounded up. *)
Definition record_size (n : nat) : nat :=
  Z.to_nat (align_up (Z.of_nat SIZEOF_TAR_HEADER + Z.of_nat n) SECTOR_SIZE).

(** An image around one header: what precedes, the fields of the header with
    the zero bytes between them, what follows. *)
Definition header_blocks (before name : list Z) (gap : nat) (mode size checksum type magic version
    after : list Z) : list (list Z) :=
  [before; name; zeros gap; mode; zeros 17; size; zeros 12; checksum; zeros 2; type; zeros 100;
   magic; version; zeros 246; after].

Definition header_fields (nm : list Z) (n : Z) (checksum after : list Z) : list Z :=
  concat (header_blocks [] (nm ++ [0]) (99 - length nm) (literal "000644") (octal_digits 12 n)
    checksum [chr_0] (literal "ustar") (literal "00") after).

(** The checksum of a tar header counts its own field as eight spaces. *)
Definition tar_checksum (nm : list Z) (n : Z) : Z :=
  32 * 8 + fold_left Z.add (header_fields nm n (zeros 6) []) 0.
Definition tar_header (nm : list Z) (n : Z) : list Z :=
  header_fields nm n (octal_digits 6 (tar_checksum nm n)) [].

Definition file_bytes (f : file) : list Z := take (Z.to_nat (f_size f)) (f_data f).
Definition tar_record (f : file) : list Z :=
  let n := Z.to_nat (f_size f) in
  tar_header (c_string (f_name f)) (f_size f) ++ file_bytes f ++ zeros (record_size n - 512 - n).
Definition archive (fl : list file) : list Z := concat (tar_record <$> filter (fun f => in_use f = true) fl).

(** What a client sees of the table: names and contents of the files in use. *)
Definition contents (f : file) : list Z * list Z := (c_string (f_name f), file_bytes f).
Definition listing (fl : list file) : list (list Z * list Z) :=
  contents <$> filter (fun f => in_use f = true) fl.

(** ** Lengths *)

Lemma record_size_ge n : (512 + n <= record_size n)%nat /\ exists q, record_size n = (512 * q)%nat.
Proof.
  unfold record_size, align_up, SIZEOF_TAR_HEADER, SECTOR_SIZE. split.
  - Z.to_euclidean_division_equations. lia.
  - exists (Z.to_nat ((Z.of_nat 512 + Z.of_nat n + 512 - 1) / 512)).
    Z.to_euclidean_division_equations. lia.
Qed.

(** The next multiple of the sector size is the least one. *)
Lemma record_size_le n q : (512 + n <= 512 * q)%nat -> (record_size n <= 512 * q)%nat.
Proof.
  unfold record_size, align_up, SIZEOF_TAR_HEADER, SECTOR_SIZE. intros H.
  Z.to_euclidean_division_equations. lia.
Qed.

Lemma cstr_length s x : cstr s x -> (length x < length s)%nat.
Proof. intros [[rest ->] _]. rewrite length_app. cbn. lia. Qed.

Lemma zeros_app a b : zeros (a + b) = zeros a ++ zeros b.
Proof. apply replicate_add. Qed.

Lemma length_zeros n : length (zeros n) = n.
Proof. apply length_replicate. Qed.

Lemma name_bytes x : forallb (fun c => (0 <? c) && (c <? 256)) x = true -> Forall (fun c => 0 < c < 256) x.
Proof.
  intros H. apply Forall_forall. intros c Hc.
  rewrite forallb_forall in H. specialize (H c). rewrite <-list_elem_of_In in H. specialize (H Hc). lia.
Qed.

Lemma literal_cstr s :
  forallb (fun c => (0 <? c) && (c <? 256)) (bytes_of s) = true -> cstr (literal s) (bytes_of s).
Proof. intros H. split; [by exists []|by apply name_bytes]. Qed.

Lemma c_string_cstr s x : cstr s x -> c_string s = x.
Proof.
  revert s. induction x as [|c x IH]; intros s Hs; apply cstr_inv in Hs.
  - by destruct Hs as [rest ->].
  - destruct Hs as (Hc & s' & -> & Hs). cbn. destruct (Z.eqb_spec c 0); [lia|]. f_equal. by apply IH.
Qed.

(** Lengths of the blocks of a header. *)
Ltac literal_length :=
  repeat match goal with
  | |- context [length (bytes_of ?s)] =>
      let n := eval vm_compute in (length (bytes_of s)) in change (length (bytes_of s)) with n
  end.
Ltac block_lengths :=
  cbn [take concat]; unfold literal; rewrite ?app_nil_r, ?length_app, ?length_octal_digits, ?length_zeros;
  cbn [length]; literal_length.
Ltac block_start := unfold start_of; block_lengths; rewrite ?length_app; cbn [length]; lia.

(** One store of a whole block, and one of a string. *)
Ltac poke_step i :=
  erewrite (poke_block _ i);
  [|reflexivity|block_start|rewrite ?length_octal_digits, ?length_zeros; reflexivity];
  rewrite ?bind_Ret_l; cbn [insert list_insert].
Ltac poke_str_step i x :=
  erewrite (poke_str_block _ i _ _ _ x);
  [|reflexivity|block_start|first [assumption | by apply literal_cstr]|rewrite ?length_zeros; reflexivity];
  rewrite bind_Ret_l; cbn [insert list_insert].

Lemma length_header_fields nm n ck after :
  (length nm <= 99)%nat -> length ck = 6%nat -> length (header_fields nm n ck after) = (512 + length after)%nat.
Proof. intros Hn Hc. unfold header_fields, header_blocks. block_lengths. rewrite Hc. lia. Qed.

Lemma header_fields_app nm n ck after :
  header_fields nm n ck after = header_fields nm n ck [] ++ after.
Proof.
  unfold header_fields, header_blocks. cbn [concat]. by rewrite !app_nil_r, !app_nil_l, <-!(assoc_L (++)).
Qed.

Lemma header_image A nm n ck after :
  concat (header_blocks A (nm ++ [0]) (99 - length nm) (literal "000644") (octal_digits 12 n) ck [chr_0]
    (literal "ustar") (literal "00") after) = A ++ header_fields nm n ck [] ++ after.
Proof. rewrite <-header_fields_app. reflexivity. Qed.

(** ** Writing the archive *)

Section Flush.
Implicit Types (f : file) (A : list Z).

Definition name_of f : list Z := c_string (f_name f).

Lemma name_fits f : file_wf f -> in_use f = true -> cstr (f_name f) (name_of f) /\ (length (name_of f) <= 99)%nat.
Proof.
  intros Hf Hu. destruct (fw_name _ Hf Hu) as [Hc _]. split; [exact Hc|].
  pose proof (cstr_length _ _ Hc) as Hl. rewrite (fw_name_length _ Hf) in Hl. unfold name_of, FILE_NAME_SIZE in *. lia.
Qed.

(** A cleared image, cut where the fields of a header begin. *)
Lemma cleared_header A (g k : nat) :
  (g <= 99)%nat -> (512 <= k)%nat ->
  A ++ zeros k = concat (header_blocks A (zeros (S g)) (99 - g) (zeros 7) (zeros 12) (zeros 6) (zeros 1)
    (zeros 6) (zeros 3) (zeros (k - 512))).
Proof.
  intros Hg Hk. unfold header_blocks. cbn [concat]. rewrite app_nil_r, <-!zeros_app. do 2 f_equal. lia.
Qed.

Lemma clear_cleared A k n :
  (n <= k)%nat -> poke (length A) (replicate n 0) (A ++ zeros k) = Ret (A ++ zeros k).
Proof.
  intros Hk. replace (zeros k) with (zeros n ++ zeros (k - n)) by (rewrite <-zeros_app; f_equal; lia).
  unfold poke. rewrite (proj2 (Nat.leb_le _ _)) by (rewrite !length_app, !length_zeros, !length_replicate; lia).
  change (defined_if true) with (Ret tt). rewrite bind_Ret_l. f_equal. by apply put_split.
Qed.

Lemma poke_beyond off bytes disk : (length disk < off + length bytes)%nat -> poke off bytes disk = Undef.
Proof. intros H. unfold poke. by rewrite (proj2 (Nat.leb_gt _ _)). Qed.

Lemma flush_header_spec f A k :
  file_wf f -> in_use f = true -> (512 <= k)%nat ->
  flush_header (length A) f (A ++ zeros k) = Ret (A ++ tar_header (name_of f) (f_size f) ++ zeros (k - 512)).
Proof.
  intros Hf Hu Hk. destruct (name_fits _ Hf Hu) as [Hc Hnm]. set (nm := name_of f) in *.
  pose proof (fw_size _ Hf) as Hsz. unfold FILE_DATA_SIZE in Hsz.
  unfold flush_header.
  rewrite (clear_cleared A k SIZEOF_TAR_HEADER Hk), bind_Ret_l, (cleared_header A (length nm) k Hnm Hk).
  unfold header_blocks, at_name, at_mode, at_magic, at_version, at_type, at_size, at_tar_checksum.
  poke_str_step 1%nat nm.
  poke_str_step 3%nat (bytes_of "000644").
  poke_str_step 11%nat (bytes_of "ustar").
  poke_str_step 12%nat (bytes_of "00").
  poke_step 9%nat.
  rewrite s32_id by lia.
  poke_step 5%nat.
  assert (Esum : fold_left Z.add (take SIZEOF_TAR_HEADER (drop (length A) (concat
     [A; nm ++ [0]; zeros (99 - length nm); bytes_of "000644" ++ [0]; zeros 17; octal_digits 12 (f_size f);
      zeros 12; zeros 6; zeros 2; [chr_0]; zeros 100; bytes_of "ustar" ++ [0]; bytes_of "00" ++ [0]; zeros 246;
      zeros (k - 512)]))) 0 = fold_left Z.add (header_fields nm (f_size f) (zeros 6) []) 0).
  { pose proof (header_image A nm (f_size f) (zeros 6) (zeros (k - 512))) as Ei.
    unfold header_blocks, literal in Ei. rewrite Ei,  drop_app_length. do 2 f_equal. apply take_app_length'.
    rewrite length_header_fields by done. reflexivity. }
  rewrite Esum. fold (tar_checksum nm (f_size f)).
  poke_step 7%nat.
  f_equal. exact (header_image A nm (f_size f) _ (zeros (k - 512))).
Qed.

Lemma length_tar_header nm n : (length nm <= 99)%nat -> length (tar_header nm n) = 512%nat.
Proof. intros H. unfold tar_header. rewrite length_header_fields by (rewrite ?length_octal_digits; done). done. Qed.

Lemma length_file_bytes f : file_wf f -> length (file_bytes f) = Z.to_nat (f_size f).
Proof.
  intros Hf. pose proof (fw_size _ Hf). unfold file_bytes. rewrite length_take, (fw_data_length _ Hf). lia.
Qed.

Lemma length_tar_record f :
  file_wf f -> in_use f = true -> length (tar_record f) = record_size (Z.to_nat (f_size f)).
Proof.
  intros Hf Hu. destruct (name_fits _ Hf Hu) as [_ Hnm]. unfold tar_record.
  rewrite !length_app, (length_tar_header _ _ Hnm), (length_file_bytes _ Hf), length_zeros.
  destruct (record_size_ge (Z.to_nat (f_size f))). lia.
Qed.

(** One file: its record is appended when it fits, and the stores leave the
    image otherwise. *)
Lemma flush_file_spec f A q :
  file_wf f -> in_use f = true ->
  flush_file (A ++ zeros (512 * q), length A) f =
    if (length (tar_record f) <=? 512 * q)%nat
    then Ret (A ++ tar_record f ++ zeros (512 * q - length (tar_record f)), (length A + length (tar_record f))%nat)
    else Undef.
Proof.
  intros Hf Hu. rewrite (length_tar_record _ Hf Hu). set (n := Z.to_nat (f_size f)).
  destruct (name_fits _ Hf Hu) as [_ Hnm]. pose proof (length_tar_header _ (f_size f) Hnm) as Hhl.
  pose proof (length_file_bytes _ Hf) as Hdl. pose proof (fw_size _ Hf) as Hsz.
  destruct (record_size_ge n) as [Hge _].
  unfold flush_file. rewrite Hu. cbn [negb].
  destruct (decide (q = 0)%nat) as [->|Hq].
  { rewrite (proj2 (Nat.leb_gt _ _)) by lia. unfold flush_header. rewrite poke_beyond; [done|].
    rewrite length_app, length_zeros, length_replicate. unfold SIZEOF_TAR_HEADER. lia. }
  rewrite (flush_header_spec _ _ _ Hf Hu) by lia. rewrite bind_Ret_l.
  rewrite (fw_data_length _ Hf), (proj2 (Z.leb_le (f_size f) _)) by lia.
  change (defined_if true) with (Ret tt). rewrite bind_Ret_l. fold (file_bytes f).
  destruct (Nat.leb_spec (record_size n) (512 * q)) as [Hle|Hgt].
  - replace (zeros (512 * q - 512)) with (zeros n ++ zeros (512 * q - 512 - n))
      by (rewrite <-zeros_app; f_equal; lia).
    assert (E : poke (length A + at_data) (file_bytes f)
        (A ++ tar_header (name_of f) (f_size f) ++ zeros n ++ zeros (512 * q - 512 - n)) =
      Ret (A ++ tar_header (name_of f) (f_size f) ++ file_bytes f ++ zeros (512 * q - 512 - n))).
    { unfold poke. rewrite (proj2 (Nat.leb_le _ _)) by (rewrite !length_app, !length_zeros, Hhl, Hdl; unfold at_data; lia).
      change (defined_if true) with (Ret tt). rewrite bind_Ret_l. f_equal.
      rewrite !(assoc_L (++) A). apply put_split; [|by rewrite length_zeros].
      rewrite length_app, Hhl. done. }
    rewrite E, bind_Ret_l. f_equal. f_equal.
    + unfold tar_record. fold n. fold (name_of f). rewrite <-!(assoc_L (++)), <-zeros_app. repeat f_equal. lia.
    + unfold record_size, n. by rewrite Z2Nat.id by lia.
  - rewrite poke_beyond; [done|].
    assert (~ (512 + n <= 512 * q)%nat) by (intros H; apply record_size_le in H; lia).
    rewrite !length_app, length_zeros, Hhl, Hdl. unfold at_data. lia.
Qed.

Lemma archive_cons f fl :
  archive (f :: fl) = (if in_use f then tar_record f else []) ++ archive fl.
Proof.
  unfold archive. rewrite filter_cons. destruct (in_use f) eqn:E.
  - by rewrite decide_True by done.
  - by rewrite decide_False by done.
Qed.

Lemma flush_files_spec fl : forall A q,
  Forall file_wf fl ->
  flush_files fl (A ++ zeros (512 * q), length A) =
    if (length (archive fl) <=? 512 * q)%nat
    then Ret (A ++ archive fl ++ zeros (512 * q - length (archive fl)), (length A + length (archive fl))%nat)
    else Undef.
Proof.
  induction fl as [|f fl IH]; intros A q Hwf; cbn [flush_files].
  { change (archive []) with (@nil Z). rewrite (proj2 (Nat.leb_le _ _)) by (cbn; lia).
    cbn [length app]. by rewrite Nat.sub_0_r, Nat.add_0_r. }
  apply Forall_cons in Hwf as [Hf Hwf]. rewrite archive_cons.
  destruct (in_use f) eqn:Hu.
  2:{ unfold flush_file. rewrite Hu. cbn [negb]. rewrite bind_Ret_l, (IH _ _ Hwf). done. }
  rewrite (flush_file_spec _ _ _ Hf Hu), length_app.
  destruct (Nat.leb_spec (length (tar_record f)) (512 * q)) as [Hle|Hgt].
  2:{ rewrite (proj2 (Nat.leb_gt _ _)) by lia. done. }
  rewrite bind_Ret_l. rewrite (assoc_L (++) A).
  destruct (record_size_ge (Z.to_nat (f_size f))) as [_ [c Hc]].
  rewrite <-(length_tar_record _ Hf Hu) in Hc.
  replace (512 * q - length (tar_record f))%nat with (512 * (q - c))%nat by lia.
  replace (length A + length (tar_record f))%nat with (length (A ++ tar_record f)) by apply length_app.
  rewrite (IH _ _ Hwf), length_app.
  destruct (Nat.leb_spec (length (archive fl)) (512 * (q - c))).
  - rewrite (proj2 (Nat.leb_le _ _)) by lia. rewrite <-!(assoc_L (++)), Nat.add_assoc.
    by replace (512 * (q - c) - length (archive fl))%nat
      with (512 * q - (length (tar_record f) + length (archive fl)))%nat by lia.
  - by rewrite (proj2 (Nat.leb_gt _ _)) by lia.
Qed.
End Flush.

(** ** Reading the archive *)

Section Load.
Implicit Types (f slot : file) (A : list Z) (live pre post : list file).

(** A slot after [fs_init] stored a file in it. *)
Definition loaded slot f : file :=
  mkFile true (name_of f ++ 0 :: drop (S (length (name_of f))) (f_name slot))
    (put 0 (file_bytes f) (f_data slot)) (f_size f).

Definition slot_ok slot : Prop :=
  length (f_name slot) = FILE_NAME_SIZE /\ length (f_data slot) = FILE_DATA_SIZE.

Lemma loaded_ok slot f :
  file_wf f -> in_use f = true -> slot_ok slot ->
  file_wf (loaded slot f) /\ contents (loaded slot f) = contents f.
Proof.
  intros Hf Hu [Hn Hd]. destruct (name_fits _ Hf Hu) as [Hc Hnm]. destruct (fw_name _ Hf Hu) as [_ Hne].
  pose proof (fw_size _ Hf) as Hsz. pose proof (length_file_bytes _ Hf) as Hl. unfold FILE_NAME_SIZE, FILE_DATA_SIZE in *.
  assert (Hc' : cstr (f_name (loaded slot f)) (name_of f)) by (split; [by eexists|apply Hc]).
  split; [split|].
  - cbn. unfold FILE_NAME_SIZE. rewrite length_app. cbn [length]. rewrite length_drop. lia.
  - cbn. unfold FILE_DATA_SIZE. rewrite length_put; lia.
  - exact Hsz.
  - intros _. by rewrite (c_string_cstr _ _ Hc').
  - unfold contents. rewrite (c_string_cstr _ _ Hc'). f_equal. unfold file_bytes at 1. cbn [loaded f_size f_data].
    unfold put. rewrite take_0. cbn [app]. apply take_app_length'. by symmetry.
Qed.

(** The fields of a header followed by anything. *)
Lemma header_field nm n ck after i :
  drop (start_of i (header_blocks [] (nm ++ [0]) (99 - length nm) (literal "000644") (octal_digits 12 n) ck
         [chr_0] (literal "ustar") (literal "00") after)) (header_fields nm n ck after) =
  concat (drop i (header_blocks [] (nm ++ [0]) (99 - length nm) (literal "000644") (octal_digits 12 n) ck
         [chr_0] (literal "ustar") (literal "00") after)).
Proof. apply drop_block. Qed.

Lemma header_offsets nm n ck after :
  (length nm <= 99)%nat -> length ck = 6%nat ->
  let bs := header_blocks [] (nm ++ [0]) (99 - length nm) (literal "000644") (octal_digits 12 n) ck
         [chr_0] (literal "ustar") (literal "00") after in
  at_size = start_of 5 bs /\ at_magic = start_of 11 bs /\ at_data = start_of 14 bs.
Proof.
  intros Hn Hc bs. unfold bs, header_blocks, at_size, at_magic, at_data.
  repeat split; unfold start_of; block_lengths; rewrite ?Hc; lia.
Qed.

Lemma load_fields f (rest : list Z) (header := tar_record f ++ rest) :
  file_wf f -> in_use f = true ->
  header !!! at_name <> 0 /\ strcmp (drop at_magic header) (literal "ustar") = Ret 0 /\
  oct2int (drop at_size header) 12 = Ret (f_size f) /\ cstr (drop at_name header) (name_of f) /\
  exists after, drop at_data header = file_bytes f ++ after.
Proof.
  intros Hf Hu. destruct (name_fits _ Hf Hu) as [Hc Hnm]. destruct (fw_name _ Hf Hu) as [_ Hne].
  pose proof (fw_size _ Hf) as Hsz. unfold FILE_DATA_SIZE in Hsz. fold (name_of f) in Hne.
  set (nm := name_of f) in *.
  set (ck := octal_digits 6 (tar_checksum nm (f_size f))).
  set (tail := file_bytes f ++ zeros (record_size (Z.to_nat (f_size f)) - 512 - Z.to_nat (f_size f)) ++ rest).
  assert (E : header = header_fields nm (f_size f) ck tail).
  { unfold header, tar_record. fold (name_of f). fold nm. rewrite (header_fields_app _ _ _ tail), <-!(assoc_L (++)).
    reflexivity. }
  assert (Hck : length ck = 6%nat) by apply length_octal_digits.
  destruct (header_offsets nm (f_size f) ck tail Hnm Hck) as (E5 & E11 & E14).
  clearbody header. subst header. rewrite E5, E11, E14, !header_field. unfold at_name. rewrite drop_0.
  split; [|split; [|split; [|split]]].
  - destruct nm as [|c nm']; [done|]. destruct Hc as [_ Hall]. apply Forall_cons in Hall as [Hc _]. cbn. lia.
  - rewrite (strcmp_first_difference (bytes_of "ustar") (bytes_of "ustar")); [done| |by apply literal_cstr].
    split; [|apply (literal_cstr "ustar"); done]. cbn [drop header_blocks concat]. unfold literal at 1.
    rewrite <-!(assoc_L (++)). by eexists.
  - cbn [drop header_blocks concat]. apply oct2int_octal. lia.
  - split; [|apply Hc]. unfold header_fields, header_blocks. cbn [concat]. rewrite app_nil_l, <-!(assoc_L (++)).
    by eexists.
  - cbn [drop header_blocks concat]. rewrite app_nil_r. by eexists.
Qed.

Lemma copy_bytes_prefix dst src after n :
  length src = Z.to_nat n -> 0 <= n <= Z.of_nat (length dst) -> copy_bytes dst (src ++ after) n = Ret (put 0 src dst).
Proof.
  intros Hl Hn. unfold copy_bytes. rewrite length_app, (proj2 (Z.leb_le _ _)), (proj2 (Z.leb_le _ _)) by lia.
  cbn [andb]. change (defined_if true) with (Ret tt). rewrite bind_Ret_l. do 2 f_equal.
  rewrite <-Hl. apply take_app_length.
Qed.

Lemma load_message name x n :
  cstr name x -> 0 <= n < 2 ^ 31 ->
  exists out, printf (bytes_of "file: %s, size=%d" ++ [10; 0]) [VStr name; VInt n] = Ret out.
Proof.
  intros Hc Hn. destruct (printNum_ret n ltac:(lia)) as [ds Ed].
  change (bytes_of "file: %s, size=%d" ++ [10; 0])
    with (bytes_of "file: " ++ [chr_percent; chr_s] ++ bytes_of ", size=" ++ [chr_percent; chr_d; 10; 0]).
  rewrite printf_text by reflexivity. cbn [app]. rewrite (printf_s _ _ _ _ Hc).
  rewrite printf_text by reflexivity. rewrite (printf_d _ _ _ ds) by (by rewrite s32_id by lia).
  rewrite printf_char, printf_end by discriminate. by eexists.
Qed.

Lemma fs_load_spec live : forall fuel A pre post r,
  Forall (fun f => file_wf f /\ in_use f = true) live -> Forall slot_ok post ->
  (length live <= length post)%nat -> (length live <= fuel)%nat -> (length live = fuel \/ (0 < r)%nat) ->
  exists out, fs_load fuel (length pre) (Z.of_nat (length A))
      (A ++ concat (tar_record <$> live) ++ zeros r) (pre ++ post) =
    Ret (pre ++ zip_with loaded post live ++ drop (length live) post, out).
Proof.
  induction live as [|f live IH]; intros fuel A pre post r Hl Hp Hlen Hfuel Hr.
  - cbn [fmap list_fmap concat app length]. rewrite drop_0.
    assert (Ez : zip_with loaded post [] = []) by (by destruct post). rewrite Ez. cbn [app].
    destruct fuel as [|fuel]; [by eexists|]. cbn [length] in Hr.
    destruct r as [|r]; [destruct Hr; lia|]. cbn [fs_load].
    rewrite (proj2 (Z.ltb_lt _ _)) by (rewrite length_app, length_zeros; lia).
    change (defined_if true) with (Ret tt). rewrite bind_Ret_l, Nat2Z.id, drop_app_length. by eexists.
  - apply Forall_cons in Hl as [[Hf Hu] Hl]. destruct post as [|slot post]; [cbn in Hlen; lia|].
    apply Forall_cons in Hp as [Hs Hp]. destruct fuel as [|fuel]; [cbn in Hfuel; lia|].
    cbn [fmap list_fmap concat]. rewrite <-(assoc_L (++)).
    destruct (load_fields f (concat (tar_record <$> live) ++ zeros r) Hf Hu) as (H0 & Hm & Ho & Hn & after & Hd).
    destruct (name_fits _ Hf Hu) as [Hc Hnm]. pose proof (fw_size _ Hf) as Hsz.
    pose proof (length_tar_record _ Hf Hu) as Hrl. destruct (record_size_ge (Z.to_nat (f_size f))) as [Hge _].
    destruct Hs as [Hsn Hsd]. unfold FILE_NAME_SIZE, FILE_DATA_SIZE in *.
    cbn [fs_load]. rewrite (proj2 (Z.ltb_lt _ _)) by (rewrite !length_app; lia).
    change (defined_if true) with (Ret tt). rewrite bind_Ret_l, Nat2Z.id, drop_app_length.
    rewrite (proj2 (Z.eqb_neq _ 0) H0), Hm, bind_Ret_l. cbn [negb Z.eqb]. rewrite Ho, bind_Ret_l.
    rewrite lookup_total_app_r, Nat.sub_diag by lia. cbn [lookup_total list_lookup_total].
    rewrite (strcpy_spec _ _ _ Hn) by lia. rewrite bind_Ret_l, Hd.
    rewrite copy_bytes_prefix by (rewrite ?(length_file_bytes _ Hf); lia). rewrite bind_Ret_l.
    destruct (load_message (name_of f ++ 0 :: drop (S (length (name_of f))) (f_name slot)) (name_of f) (f_size f))
      as [out Eo]; [split; [by eexists|apply Hc]|lia|].
    rewrite Eo, bind_Ret_l. fold (loaded slot f).
    rewrite insert_app_r_alt, Nat.sub_diag by lia. cbn [insert list_insert].
    cbn [length] in Hlen, Hfuel, Hr.
    destruct (IH fuel (A ++ tar_record f) (pre ++ [loaded slot f]) post r Hl Hp) as [out' E]; [lia..|].
    rewrite <-!(assoc_L (++)) in E. rewrite !length_app in E. cbn [length app] in E.
    rewrite Nat.add_1_r in E.
    replace (Z.of_nat (length A) + align_up (Z.of_nat SIZEOF_TAR_HEADER + f_size f) SECTOR_SIZE)
      with (Z.of_nat (length A + length (tar_record f))).
    2:{ rewrite Hrl, Nat2Z.inj_add. f_equal. unfold record_size. rewrite !Z2Nat.id; [done|lia|].
        unfold align_up, SIZEOF_TAR_HEADER, SECTOR_SIZE. Z.to_euclidean_division_equations. lia. }
    rewrite E, bind_Ret_l. by eexists.
Qed.

(** A slot of a table a client may look into: a well-formed file or an unused
    slot with the empty name. *)
Definition slot_named f : Prop := if in_use f then file_wf f else cstr (f_name f) [].
Definition slot_fresh f : Prop := slot_ok f /\ in_use f = false /\ cstr (f_name f) [].

Lemma listing_unused l : Forall slot_fresh l -> listing l = [] /\ Forall slot_named l.
Proof.
  unfold listing. induction 1 as [|f l (_ & Hf & Hn) _ [IH IH']]; [done|].
  rewrite filter_cons, decide_False by (by rewrite Hf). split; [done|]. constructor; [|done].
  unfold slot_named. by rewrite Hf.
Qed.

Lemma listing_loaded post live :
  Forall (fun f => file_wf f /\ in_use f = true) live -> Forall slot_fresh post ->
  (length live <= length post)%nat ->
  listing (zip_with loaded post live ++ drop (length live) post) = contents <$> live /\
  Forall slot_named (zip_with loaded post live ++ drop (length live) post).
Proof.
  revert post. induction live as [|f live IH]; intros post Hl Hp Hlen.
  - assert (Ez : zip_with loaded post [] = []) by (by destruct post). rewrite Ez, drop_0. by apply listing_unused.
  - apply Forall_cons in Hl as [[Hf Hin] Hl]. destruct post as [|slot post]; [cbn in Hlen; lia|].
    apply Forall_cons in Hp as [(Hs & _ & _) Hp]. destruct (IH post Hl Hp) as [E Hw]; [cbn in Hlen; lia|].
    destruct (loaded_ok slot f Hf Hin Hs) as [Hwf Ec]. cbn [zip_with length drop app fmap list_fmap]. split.
    + unfold listing. rewrite filter_cons, decide_True by done. cbn [fmap list_fmap]. rewrite Ec. f_equal. exact E.
    + constructor; [exact Hwf|exact Hw].
Qed.

Lemma loaded_wf post live :
  Forall (fun f => file_wf f /\ in_use f = true) live -> Forall file_wf post ->
  Forall file_wf (zip_with loaded post live ++ drop (length live) post).
Proof.
  revert post. induction live as [|f live IH]; intros post Hl Hp.
  - assert (Ez : zip_with loaded post [] = []) by (by destruct post). by rewrite Ez, drop_0.
  - apply Forall_cons in Hl as [[Hf Hin] Hl]. destruct post as [|slot post]; [constructor|].
    apply Forall_cons in Hp as [Hs Hp]. cbn [zip_with length drop app]. constructor; [|by apply IH].
    apply loaded_ok; [exact Hf|exact Hin|]. split; apply Hs.
Qed.

(** Looking a name up returns, whatever the name. *)
Lemma fs_lookup_total fl name x : Forall slot_named fl -> cstr name x -> exists oi, fs_lookup fl name = Ret oi.
Proof.
  intros Hfl Hx. induction Hfl as [|f fl Hf _ [oi IH]]; [by exists None|]. cbn [fs_lookup].
  assert (Hn : exists y, cstr (f_name f) y).
  { unfold slot_named in Hf. destruct (in_use f) eqn:Hu; [|by exists []]. eexists. by apply (fw_name _ Hf Hu). }
  destruct Hn as [y Hn]. rewrite (strcmp_first_difference _ _ _ _ Hn Hx), bind_Ret_l.
  destruct (_ =? 0); [by eexists|]. rewrite IH, bind_Ret_l. by eexists.
Qed.

(** Looking a name up finds the first file of that name. *)
Lemma fs_lookup_spec fl name x :
  Forall slot_named fl -> cstr name x -> x <> [] ->
  exists oi, fs_lookup fl name = Ret oi /\
    option_map (fun i => contents (fl !!! i)) oi = head (filter (fun e => e.1 = x) (listing fl)).
Proof.
  intros Hfl Hx Hne. induction Hfl as [|f fl Hf _ (oi & IH & IHc)]; [by exists None|]. cbn [fs_lookup].
  unfold slot_named in Hf. unfold listing. rewrite filter_cons. destruct (in_use f) eqn:Hu.
  - destruct (fw_name _ Hf Hu) as [Hn _]. rewrite (strcmp_first_difference _ _ _ _ Hn Hx), bind_Ret_l.
    rewrite decide_True by done. cbn [fmap list_fmap]. rewrite filter_cons. cbn [contents fst].
    pose proof (first_difference_0 _ x (proj2 Hn) (proj2 Hx)) as Hd.
    destruct (Z.eqb_spec (first_difference (c_string (f_name f)) x) 0) as [H0|H0].
    + rewrite decide_True by (by apply Hd). by exists (Some 0%nat).
    + rewrite decide_False by (by intros E; apply H0, Hd). rewrite IH, bind_Ret_l.
      exists (option_map S oi). split; [done|]. fold (listing fl). rewrite <-IHc. by destruct oi.
  - rewrite (strcmp_first_difference _ _ _ _ Hf Hx), bind_Ret_l.
    rewrite decide_False by done.
    pose proof (first_difference_0 _ x (proj2 Hf) (proj2 Hx)) as Hd.
    destruct (Z.eqb_spec (first_difference [] x) 0) as [H0|H0]; [apply Hd in H0; congruence|].
    rewrite IH, bind_Ret_l. exists (option_map S oi). split; [done|]. fold (listing fl). rewrite <-IHc. by destruct oi.
Qed.
End Load.

(** ** The sectors of the image *)

Section Sectors.
Context {D : Type} `{!Devices D} `{!BlkSpec D}.
Implicit Types (m : machine D) (img : list Z).

Definition sector img (s : nat) : list Z := take 512 (drop (s * 512) img).

Lemma length_sector img s : (512 * S s <= length img)%nat -> length (sector img s) = 512%nat.
Proof. intros H. unfold sector. rewrite length_take, length_drop. lia. Qed.

Lemma put_sector img s : (512 * S s <= length img)%nat -> put (s * 512) (sector img s) img = img.
Proof.
  intros H. unfold put. rewrite (length_sector _ _ H). unfold sector.
  rewrite <-drop_drop, take_drop, take_drop. done.
Qed.

(** The disk holds the image from sector 0. *)
Definition on_disk img m : Prop :=
  forall s, (512 * S s <= length img)%nat -> disk (m_dev m) (Z.of_nat s) = sector img s.

Lemma disk_io_eq is_write img m s :
  disk_io is_write (img, m) s =
    ('(buf, m) ← read_write_disk m (sector img s) (Z.of_nat s) is_write; Ret (put (s * 512) buf img, m)).
Proof. reflexivity. Qed.

Lemma write_sectors img n : forall a m,
  blk_ready m -> (512 * (a + n) <= length img)%nat -> Z.of_nat (a + n) <= disk_sectors ->
  (forall s, (s < a)%nat -> disk (m_dev m) (Z.of_nat s) = sector img s) ->
  exists m', for_each (disk_io true) (seq a n) (img, m) = Ret (img, m') /\ blk_ready m' /\ net_frame m m' /\
    forall s, (s < a + n)%nat -> disk (m_dev m') (Z.of_nat s) = sector img s.
Proof.
  induction n as [|n IH]; intros a m Hm Hl Hd Hs; cbn [seq for_each].
  { exists m. split; [done|]. split; [done|]. split; [apply net_frame_refl|]. intros s Hlt. apply Hs. lia. }
  destruct (read_write_disk_spec m (sector img a) (Z.of_nat a) true Hm) as (m1 & E & H1 & _ & F1 & Hw);
    [lia|rewrite length_sector by lia; done|].
  rewrite disk_io_eq, E, bind_Ret_l, bind_Ret_l, put_sector by lia.
  destruct (IH (S a) m1 H1) as (m' & E' & H' & F' & Hw'); [lia|lia| |].
  { intros s Hlt. rewrite Hw. unfold disk_write. destruct (Z.eqb_spec (Z.of_nat s) (Z.of_nat a)) as [Heq|Hne].
    - by replace s with a by lia.
    - apply Hs. lia. }
  exists m'. split; [exact E'|]. split; [exact H'|]. split; [by eapply net_frame_trans|]. intros s Hlt. apply Hw'. lia.
Qed.

Lemma read_sectors img n : forall a m buf,
  blk_ready m -> on_disk img m -> length img = (512 * (a + n))%nat -> Z.of_nat (a + n) <= disk_sectors ->
  length buf = length img -> take (a * 512) buf = take (a * 512) img ->
  exists m', for_each (disk_io false) (seq a n) (buf, m) = Ret (img, m') /\ blk_ready m' /\ net_frame m m'.
Proof.
  induction n as [|n IH]; intros a m buf Hm Hi Hl Hd Hb Ht; cbn [seq for_each].
  { exists m. rewrite !take_ge in Ht by lia. subst. split; [done|]. split; [done|apply net_frame_refl]. }
  assert (Hlb : length (sector buf a) = 512%nat) by (apply length_sector; lia).
  destruct (read_write_disk_spec m (sector buf a) (Z.of_nat a) false Hm) as (m1 & E & H1 & _ & F1 & Hw);
    [lia|done|].
  rewrite disk_io_eq, E, bind_Ret_l, bind_Ret_l, (Hi a) by lia.
  assert (Hls : length (sector img a) = 512%nat) by (apply length_sector; lia).
  destruct (IH (S a) m1 (put (a * 512) (sector img a) buf) H1) as (m' & E' & H' & F');
    [|lia|lia| | |exists m'; split; [exact E'|]; split; [exact H'|by eapply net_frame_trans]].
  - intros s Hlt. rewrite Hw. by apply Hi.
  - rewrite length_put; lia.
  - unfold put. rewrite (assoc_L (++)), take_app_length' by (rewrite length_app, length_take; lia).
    rewrite Ht. replace (S a * 512)%nat with (a * 512 + 512)%nat by lia.
    unfold sector. by rewrite take_take_drop.
Qed.
End Sectors.

(** ** Properties *)

Section FileSystem.
Context {D : Type} `{!Devices D} `{!BlkSpec D}.
Implicit Types (m : machine D) (fs : fs_state).

Definition image_of (fl : list file) : list Z :=
  archive fl ++ zeros (Z.to_nat DISK_MAX_SIZE - length (archive fl)).

Lemma fs_emit_ready m out : blk_ready m -> blk_ready (emit out m).
Proof. intros [[seen [[] ? ?]] ? ? ? ? ? ? ? ? ?]. split; try assumption. exists seen. split; [by constructor|assumption..]. Qed.

Lemma flush_message : exists out, printf (bytes_of "wrote %d bytes to disk" ++ [10; 0]) [VInt DISK_MAX_SIZE] = Ret out.
Proof. eexists. vm_compute. reflexivity. Qed.

Lemma fs_flush_spec fs m :
  blk_ready m -> Forall file_wf (files fs) -> Z.of_nat DISK_SECTORS <= disk_sectors ->
  if (length (archive (files fs)) <=? Z.to_nat DISK_MAX_SIZE)%nat
  then exists m', fs_flush fs m = Ret (mkFs (files fs) (image_of (files fs)), m') /\ blk_ready m' /\ net_frame m m' /\
    on_disk (image_of (files fs)) m'
  else fs_flush fs m = Undef.
Proof.
  intros Hm Hwf Hd. unfold fs_flush.
  pose proof (flush_files_spec (files fs) [] 5 Hwf) as E. cbn [app length] in E.
  change (zeros (512 * 5)) with (replicate (Z.to_nat DISK_MAX_SIZE) 0) in E.
  change (512 * 5)%nat with (Z.to_nat DISK_MAX_SIZE) in E. rewrite E. clear E.
  destruct (Nat.leb_spec (length (archive (files fs))) (Z.to_nat DISK_MAX_SIZE)) as [Hle|]; [|done].
  rewrite bind_Ret_l. fold (image_of (files fs)).
  assert (Hl : length (image_of (files fs)) = (512 * 5)%nat).
  { unfold image_of. rewrite length_app, length_zeros. change (512 * 5)%nat with (Z.to_nat DISK_MAX_SIZE). lia. }
  destruct (write_sectors (image_of (files fs)) DISK_SECTORS 0 m Hm) as (m1 & E & H1 & F1 & Hw).
  { rewrite Hl. done. }
  { exact Hd. }
  { lia. }
  destruct flush_message as [out Eo]. rewrite E, bind_Ret_l, Eo, bind_Ret_l.
  eexists. split; [reflexivity|]. split; [by apply fs_emit_ready|]. split; [by destruct F1|].
  intros s Hs. change (m_dev (emit out m1)) with (m_dev m1). apply Hw. rewrite Hl in Hs.
  change (0 + DISK_SECTORS)%nat with 5%nat. lia.
Qed.

(** The tables as the cleared BSS holds them. *)
Definition fs_boot : fs_state := mkFs (replicate FILES_MAX file_zero) (replicate (Z.to_nat DISK_MAX_SIZE) 0).

Lemma fs_boot_fresh : Forall slot_fresh (files fs_boot).
Proof. apply Forall_replicate. split; [done|]. split; [done|]. apply cstr_nil. Qed.

Lemma fs_boot_wf : Forall file_wf (files fs_boot).
Proof.
  apply Forall_replicate. split; [reflexivity|reflexivity| |discriminate].
  cbn [f_size file_zero]. unfold FILE_DATA_SIZE. lia.
Qed.

Lemma live_files fl :
  Forall file_wf fl -> Forall (fun f => file_wf f /\ in_use f = true) (filter (fun f => in_use f = true) fl).
Proof.
  intros H. apply Forall_forall. intros f Hf. rewrite list_elem_of_filter in Hf. destruct Hf as [Hu Hf].
  split; [|exact Hu]. rewrite Forall_forall in H. by apply H.
Qed.

Lemma archive_room fl :
  Forall file_wf fl -> (length fl <= FILES_MAX)%nat -> (length (archive fl) <= Z.to_nat DISK_MAX_SIZE)%nat ->
  let live := filter (fun f => in_use f = true) fl in
  length live = FILES_MAX \/ (0 < Z.to_nat DISK_MAX_SIZE - length (archive fl))%nat.
Proof.
  intros Hwf Hl Ha live. destruct (decide (length live = FILES_MAX)) as [|Hne]; [by left|right].
  pose proof (live_files _ Hwf) as Hlive. fold live in Hlive.
  assert (Hll : (length live <= 1)%nat).
  { pose proof (length_filter (fun f => in_use f = true) fl) as H. fold live in H. unfold FILES_MAX in *. lia. }
  assert (Hb : (length (archive fl) <= 1536)%nat).
  { unfold archive. fold live. destruct live as [|f [|]]; [cbn; lia| |cbn in Hll; lia].
    apply Forall_cons in Hlive as [[Hf Hu] _]. cbn [fmap list_fmap concat]. rewrite app_nil_r.
    rewrite (length_tar_record _ Hf Hu). pose proof (fw_size _ Hf) as Hs. unfold FILE_DATA_SIZE in Hs.
    apply (record_size_le _ 3). lia. }
  change (Z.to_nat DISK_MAX_SIZE) with 2560%nat in *. lia.
Qed.

Lemma fs_init_spec fl m :
  blk_ready m -> Forall file_wf fl -> (length fl <= FILES_MAX)%nat -> Z.of_nat DISK_SECTORS <= disk_sectors ->
  (length (archive fl) <= Z.to_nat DISK_MAX_SIZE)%nat -> on_disk (image_of fl) m ->
  exists fs' m', fs_init fs_boot m = Ret (fs', m') /\ blk_ready m' /\ net_frame m m' /\ fs_disk fs' = image_of fl /\
    listing (files fs') = listing fl /\ Forall slot_named (files fs') /\ Forall file_wf (files fs').
Proof.
  intros Hm Hwf Hlen Hd Ha Hi. unfold fs_init.
  assert (Hl : length (image_of fl) = (512 * (0 + DISK_SECTORS))%nat).
  { unfold image_of. rewrite length_app, length_zeros. change (512 * (0 + DISK_SECTORS))%nat with (Z.to_nat DISK_MAX_SIZE). lia. }
  destruct (read_sectors (image_of fl) DISK_SECTORS 0 m (fs_disk fs_boot) Hm Hi Hl Hd) as (m1 & E & H1 & F1);
    [rewrite Hl; apply length_replicate|done|].
  rewrite E, bind_Ret_l.
  pose proof (live_files _ Hwf) as Hlive. pose proof fs_boot_fresh as Hfresh.
  pose proof (length_filter (fun f => in_use f = true) fl) as Hfl.
  set (live := filter (fun f => in_use f = true) fl) in *.
  assert (Hll : (length live <= length (files fs_boot))%nat).
  { cbn [fs_boot files]. rewrite length_replicate. lia. }
  destruct (fs_load_spec live FILES_MAX [] [] (files fs_boot) (Z.to_nat DISK_MAX_SIZE - length (archive fl))
    Hlive) as [out Eo]; [|exact Hll|lia|by apply archive_room|].
  { eapply Forall_impl; [exact Hfresh|]. by intros f []. }
  cbn [app length] in Eo. change (Z.of_nat 0) with 0 in Eo. 
  change (concat (tar_record <$> live) ++ zeros (Z.to_nat DISK_MAX_SIZE - length (archive fl)))
    with (image_of fl) in Eo.
  rewrite Eo, bind_Ret_l.
  destruct (listing_loaded (files fs_boot) live Hlive Hfresh Hll) as [El Hn].
  eexists _, _. split; [reflexivity|]. split; [by apply fs_emit_ready|]. split; [by destruct F1|]. split; [done|].
  split; [exact El|]. split; [exact Hn|]. apply loaded_wf; [exact Hlive|exact fs_boot_wf].
Qed.
End FileSystem.

Lemma length_archive fl :
  Forall file_wf fl ->
  length (archive fl) = sum_list_with (fun f => if in_use f then record_size (Z.to_nat (f_size f)) else 0%nat) fl.
Proof.
  induction 1 as [|f fl Hf _ IH]; [done|]. rewrite archive_cons, length_app, IH. cbn [sum_list_with].
  destruct (in_use f) eqn:Hu; [by rewrite (length_tar_record _ Hf Hu)|done].
Qed.

(** C37: bounds of [fs_flush].  The archive of well-formed files takes, per
    file in use, its header and contents rounded up to whole sectors.  When
    that fits the image of [DISK_MAX_SIZE] = 2560 bytes, [fs_flush] returns
    with the file table unchanged, the archive followed by zeros in the image
    and on the disk, and the driver ready; otherwise it stores past the end of
    [disk].  Two files of more than 512 bytes each, which the file table
    admits, never fit. *)
Theorem fs_flush_bounds {D : Type} `{!Devices D} `{!BlkSpec D} (m : machine D) (fs : fs_state) :
  blk_ready m -> Forall file_wf (files fs) -> Z.of_nat DISK_SECTORS <= disk_sectors ->
  let need := sum_list_with
    (fun f => if in_use f then record_size (Z.to_nat (f_size f)) else 0%nat) (files fs) in
  (if (need <=? Z.to_nat DISK_MAX_SIZE)%nat
   then exists m', fs_flush fs m = Ret (mkFs (files fs) (image_of (files fs)), m') /\ blk_ready m' /\
     on_disk (image_of (files fs)) m'
   else fs_flush fs m = Undef) /\
  (forall f g, files fs = [f; g] -> in_use f = true -> in_use g = true -> 512 < f_size f -> 512 < f_size g ->
     fs_flush fs m = Undef).
Proof.
  intros Hm Hwf Hd need. pose proof (fs_flush_spec fs m Hm Hwf Hd) as H. rewrite (length_archive _ Hwf) in H.
  fold need in H. split.
  { destruct (_ <=? _)%nat; [|exact H]. destruct H as (m' & E & H' & _ & Hi). by exists m'. }
  intros f g E Hf Hg Sf Sg.
  assert (Hneed : (Z.to_nat DISK_MAX_SIZE < need)%nat).
  { unfold need. rewrite E. cbn [sum_list_with]. rewrite Hf, Hg. change (Z.to_nat DISK_MAX_SIZE) with 2560%nat.
    destruct (record_size_ge (Z.to_nat (f_size f))) as [? [p Hp]].
    destruct (record_size_ge (Z.to_nat (f_size g))) as [? [q Hq]]. lia. }
  by rewrite (proj2 (Nat.leb_gt _ _) Hneed) in H.
Qed.

(** The file system reads back what it wrote.  After [fs_flush] of a
    table whose archive fits, [fs_init] on the tables of the cleared BSS
    returns, with the same names and contents in the same order, the same image
    in memory, and the driver ready; and [fs_lookup] of any name finds the
    first file written under it, or nothing. *)
Theorem fs_roundtrip {D : Type} `{!Devices D} `{!BlkSpec D} (m : machine D) (fs : fs_state) :
  blk_ready m -> Forall file_wf (files fs) -> (length (files fs) <= FILES_MAX)%nat ->
  Z.of_nat DISK_SECTORS <= disk_sectors -> (length (archive (files fs)) <= Z.to_nat DISK_MAX_SIZE)%nat ->
  exists fs1 m1 fs2 m2, fs_flush fs m = Ret (fs1, m1) /\ fs_init fs_boot m1 = Ret (fs2, m2) /\
    blk_ready m2 /\ fs_disk fs2 = fs_disk fs1 /\ listing (files fs2) = listing (files fs) /\
    forall name x, cstr name x -> x <> [] ->
      exists oi, fs_lookup (files fs2) name = Ret oi /\
        option_map (fun i => contents (files fs2 !!! i)) oi =
        head (filter (fun e => e.1 = x) (listing (files fs))).
Proof.
  intros Hm Hwf Hl Hd Ha. pose proof (fs_flush_spec fs m Hm Hwf Hd) as H.
  rewrite (proj2 (Nat.leb_le _ _) Ha) in H. destruct H as (m1 & E1 & H1 & _ & Hi).
  destruct (fs_init_spec (files fs) m1 H1 Hwf Hl Hd Ha Hi) as (fs2 & m2 & E2 & H2 & _ & Edisk & El & Hn & _).
  eexists _, m1, fs2, m2. split; [exact E1|]. split; [exact E2|]. split; [exact H2|].
  split; [exact Edisk|]. split; [exact El|]. intros name x Hx Hne.
  rewrite <-El. by apply fs_lookup_spec.
Qed.

(** ** Examples *)

Definition demo_file (nm : list Z) (n : Z) : file :=
  mkFile true (nm ++ zeros (100 - length nm)) (replicate FILE_DATA_SIZE 65) n.

Lemma demo_file_wf nm n :
  (1 <= length nm <= 99)%nat -> forallb (fun c => (0 <? c) && (c <? 256)) nm = true -> 0 <= n <= 1024 ->
  file_wf (demo_file nm n).
Proof.
  intros Hl Hb Hn.
  assert (Hc : cstr (f_name (demo_file nm n)) nm).
  { split; [|by apply name_bytes]. exists (zeros (99 - length nm)). cbn [demo_file f_name]. f_equal.
    by replace (100 - length nm)%nat with (S (99 - length nm)) by lia. }
  split.
  - cbn [demo_file f_name]. rewrite length_app, length_zeros. unfold FILE_NAME_SIZE. lia.
  - apply length_replicate.
  - exact Hn.
  - intros _. rewrite (c_string_cstr _ _ Hc). split; [exact Hc|]. by destruct nm; [cbn in Hl; lia|].
Qed.

Definition demo_fs (n1 n2 : Z) : fs_state :=
  mkFs [demo_file (bytes_of "hello.txt") n1; demo_file (bytes_of "meow.txt") n2] [].

Lemma demo_fs_wf n1 n2 : 0 <= n1 <= 1024 -> 0 <= n2 <= 1024 -> Forall file_wf (files (demo_fs n1 n2)).
Proof.
  intros H1 H2. constructor; [|constructor; [|constructor]]; apply demo_file_wf; try done; cbn; lia.
Qed.

Lemma fs_flush_bounds_witness :
  exists m, fs_flush (Devices0 := disk_devices) (demo_fs 1000 20) (disk_machine (fun _ => [])) =
      Ret (mkFs (files (demo_fs 1000 20)) (image_of (files (demo_fs 1000 20))), m) /\
    fs_flush (Devices0 := disk_devices) (demo_fs 1000 513) (disk_machine (fun _ => [])) = Undef.
Proof.
  assert (H5 : Z.of_nat DISK_SECTORS <= @disk_sectors disk_image disk_devices disk_spec) by (vm_compute; discriminate).
  destruct (@fs_flush_bounds disk_image disk_devices disk_spec (disk_machine (fun _ => [])) (demo_fs 1000 20)
    (disk_machine_ready _) (demo_fs_wf 1000 20 ltac:(lia) ltac:(lia)) H5) as [(m & E & _) _].
  destruct (@fs_flush_bounds disk_image disk_devices disk_spec (disk_machine (fun _ => [])) (demo_fs 1000 513)
    (disk_machine_ready _) (demo_fs_wf 1000 513 ltac:(lia) ltac:(lia)) H5) as [_ Hover].
  exists m. split; [exact E|]. apply (Hover _ _ eq_refl); [reflexivity..|cbn; lia|cbn; lia].
Defined.

Lemma fs_roundtrip_witness :
  exists fs1 m1 fs2 m2,
    fs_flush (Devices0 := disk_devices) (demo_fs 18 7) (disk_machine (fun _ => [])) = Ret (fs1, m1) /\
    fs_init (Devices0 := disk_devices) fs_boot m1 = Ret (fs2, m2) /\
    listing (files fs2) = [(bytes_of "hello.txt", replicate 18 65); (bytes_of "meow.txt", replicate 7 65)] /\
    exists i, fs_lookup (files fs2) (literal "meow.txt") = Ret (Some i) /\
      contents (files fs2 !!! i) = (bytes_of "meow.txt", replicate 7 65).
Proof.
  assert (H5 : Z.of_nat DISK_SECTORS <= @disk_sectors disk_image disk_devices disk_spec) by (vm_compute; discriminate).
  assert (Hwf : Forall file_wf (files (demo_fs 18 7))) by (apply demo_fs_wf; lia).
  assert (Ha : (length (archive (files (demo_fs 18 7))) <= Z.to_nat DISK_MAX_SIZE)%nat).
  { rewrite (length_archive _ Hwf). apply Nat.leb_le. vm_compute. reflexivity. }
  destruct (@fs_roundtrip disk_image disk_devices disk_spec (disk_machine (fun _ => [])) (demo_fs 18 7)
    (disk_machine_ready _) Hwf (le_n 2) H5 Ha) as (fs1 & m1 & fs2 & m2 & E1 & E2 & _ & _ & El & Hlk).
  assert (Elist : listing (files (demo_fs 18 7)) =
    [(bytes_of "hello.txt", replicate 18 65); (bytes_of "meow.txt", replicate 7 65)]) by (vm_compute; reflexivity).
  exists fs1, m1, fs2, m2. split; [exact E1|]. split; [exact E2|]. rewrite El, Elist. split; [done|].
  destruct (Hlk (literal "meow.txt") (bytes_of "meow.txt")) as (oi & Eo & Hc); [by apply literal_cstr|done|].
  rewrite Elist in Hc. destruct oi as [i|]; [|by vm_compute in Hc].
  exists i. split; [exact Eo|]. exact (inj Some _ _ Hc).
Defined.
