(* ===== verification/Startup.v ===== *)
(** Driver initialisation ([virtio_blk_init], [virtio_net_init]), for devices
    that answer the register reads of the probe.

    [Startup] is what the two devices show from reset on: their identification
    registers, the capacity of the disk, and that the network device is in one
    of the slots the driver searches.  Initialisation then returns, gives the
    queues cleared pages, and leaves the drivers in the state their operations
    start from. *)

From Stdlib Require Import ZArith Lia.
From S2P Require Import Prelude Strings Bytes Arp Ipv4 PageHeap Allocator Ring Virtio Machine NetDriver Interrupts NetStack Disk SimDevices.
Open Scope Z_scope.

(** Reading a register, the value. *)
Definition reads {D : Type} `{!Bus D} (d : D) (addr value : Z) : Prop := (bus_read32 d (u32 addr)).1 = value.

Definition slot_base (j : nat) : Z := VIRTIO_MMIO_PADDR_START + Z.of_nat j * VIRTIO_MMIO_STRIDE.

Class Startup (D : Type) `{!Devices D} `{!BlkSpec D} : Type := {
  present : D -> Prop;
  present_stable : bus_stable present;
  nic_slot : nat;
  nic_slot_lt : (nic_slot < 8)%nat;
  identifies : forall d base id, present d ->
    (base = VIRTIO_BLK_PADDR /\ id = VIRTIO_DEVICE_BLK) \/ (base = slot_base nic_slot /\ id = VIRTIO_DEVICE_NET) ->
    reads d (base + VIRTIO_REG_MAGIC) VIRTIO_MAGIC /\ reads d (base + VIRTIO_REG_VERSION) 1 /\
    reads d (base + VIRTIO_REG_DEVICE_ID) id;
  other_slots : forall d j, present d -> (j < nic_slot)%nat ->
    ~ reads d (slot_base j + VIRTIO_REG_DEVICE_ID) VIRTIO_DEVICE_NET;
  disk_base : blk_base = VIRTIO_BLK_PADDR;
  disk_capacity : forall d, present d ->
    reads d (VIRTIO_BLK_PADDR + VIRTIO_REG_DEVICE_CONFIG) disk_sectors /\
    reads d (VIRTIO_BLK_PADDR + VIRTIO_REG_DEVICE_CONFIG + 4) 0;
}.

(** Device [d'] is [d] after register accesses. *)
Definition touched {D : Type} `{!Bus D} (d d' : D) : Prop := forall P, bus_stable P -> P d -> P d'.

Section Touched.
Context {D : Type} `{!Bus D}.
Implicit Types (d : D).

Lemma touched_refl d : touched d d.
Proof. by intros P _. Qed.
Lemma touched_trans d1 d2 d3 : touched d1 d2 -> touched d2 d3 -> touched d1 d3.
Proof. intros H1 H2 P HP HPd. apply H2; [exact HP|]. by apply H1. Qed.
Lemma touched_read d d' a : touched d d' -> touched d (bus_read32 d' a).2.
Proof. intros H P HP HPd. apply (stable_read P HP). by apply H. Qed.
Lemma touched_write d d' a v : touched d d' -> touched d (bus_write32 d' a v).
Proof. intros H P HP HPd. apply (stable_write P HP). by apply H. Qed.

Lemma touched_reg_write d d' dev off v : touched d d' -> touched d (virtio_reg_write32 d' dev off v).
Proof. apply touched_write. Qed.
Lemma touched_reg_or d d' dev off v : touched d d' -> touched d (virtio_reg_fetch_and_or32 d' dev off v).
Proof.
  intros H. unfold virtio_reg_fetch_and_or32, virtio_reg_read32.
  pose proof (touched_read d d' (u32 (dev_base dev + off)) H) as Hr.
  destruct (bus_read32 d' _) as [old d1]. by apply touched_reg_write.
Qed.
Lemma touched_begin d d' dev : touched d d' -> touched d (virtio_begin_init d' dev).
Proof. intros H. unfold virtio_begin_init. by apply touched_reg_write, touched_reg_or, touched_reg_or, touched_reg_write. Qed.
Lemma touched_finish d d' dev : touched d d' -> touched d (virtio_finish_init d' dev).
Proof. apply touched_reg_write. Qed.
Lemma touched_notify d d' dev vq : touched d d' -> touched d (virtq_notify d' dev vq).
Proof. apply touched_reg_write. Qed.

Lemma touched_plic_enable d d' irq : touched d d' -> touched d (plic_enable d' irq).
Proof.
  intros H. unfold plic_enable.
  pose proof (touched_read d _ (PLIC_SENABLE + irq / 32 * 4) (touched_write d d' (PLIC_BASE + irq * 4) 1 H)) as Hr.
  destruct (bus_read32 _ _) as [old d1]. by apply touched_write.
Qed.
Lemma touched_plic_init d d' : touched d d' -> touched d (plic_init d').
Proof. intros H. unfold plic_init. by apply touched_plic_enable, touched_plic_enable, touched_write. Qed.
End Touched.
#[export] Hint Resolve touched_refl touched_read touched_write touched_reg_write touched_begin touched_finish touched_notify touched_plic_init : mint.

Section Probe.
Context {D : Type} `{!Devices D} `{!BlkSpec D} `{!Startup D}.
Implicit Types (d : D).

Lemma present_touched d d' : touched d d' -> present d -> present d'.
Proof. intros H. apply H, present_stable. Qed.
Lemma disk_touched d d' : touched d d' -> disk d' = disk d.
Proof. intros H. by apply (H _ (disk_stable (disk d))). Qed.

Lemma probe_found d base id :
  present d ->
  (base = VIRTIO_BLK_PADDR /\ id = VIRTIO_DEVICE_BLK) \/ (base = slot_base nic_slot /\ id = VIRTIO_DEVICE_NET) ->
  exists d', virtio_probe d base id = (true, mkDevice base id, d') /\ touched d d'.
Proof.
  intros Hp Hb. unfold virtio_probe, virtio_reg_read32. cbn [dev_base].
  pose proof (touched_read d d (u32 (base + VIRTIO_REG_DEVICE_ID)) (touched_refl d)) as T1.
  destruct (identifies d base id Hp Hb) as (_ & _ & E1). unfold reads in E1.
  destruct (bus_read32 d _) as [x d1]. cbn [fst snd] in *. subst x.
  pose proof (touched_read d d1 (u32 (base + VIRTIO_REG_MAGIC)) T1) as T2.
  destruct (identifies d1 base id (present_touched _ _ T1 Hp) Hb) as (E2 & _). unfold reads in E2.
  destruct (bus_read32 d1 _) as [x d2]. cbn [fst snd] in *. subst x. rewrite Z.eqb_refl. cbn [negb].
  pose proof (touched_read d d2 (u32 (base + VIRTIO_REG_VERSION)) T2) as T3.
  destruct (identifies d2 base id (present_touched _ _ T2 Hp) Hb) as (_ & E3 & _). unfold reads in E3.
  destruct (bus_read32 d2 _) as [x d3]. cbn [fst snd] in *. subst x. rewrite !Z.eqb_refl. cbn [negb].
  by exists d3.
Qed.

(** A slot that identifies as something else is passed over. *)
Lemma probe_other d base want :
  ~ reads d (base + VIRTIO_REG_DEVICE_ID) want ->
  exists dev d', virtio_probe d base want = (false, dev, d') /\ touched d d'.
Proof.
  intros Hn. unfold virtio_probe, virtio_reg_read32. cbn [dev_base]. unfold reads in Hn.
  pose proof (touched_read d d (u32 (base + VIRTIO_REG_DEVICE_ID)) (touched_refl d)) as T1.
  destruct (bus_read32 d _) as [id d1]. cbn [fst snd] in *.
  pose proof (touched_read d d1 (u32 (base + VIRTIO_REG_MAGIC)) T1) as T2.
  destruct (bus_read32 d1 _) as [magic d2]. cbn [fst snd] in *.
  destruct (negb (magic =? VIRTIO_MAGIC)); [by eexists _, _|].
  pose proof (touched_read d d2 (u32 (base + VIRTIO_REG_VERSION)) T2) as T3.
  destruct (bus_read32 d2 _) as [v d3]. cbn [fst snd] in *.
  destruct (negb (v =? 1)); [by eexists _, _|]. rewrite (proj2 (Z.eqb_neq id want) Hn). by eexists _, _.
Qed.

Lemma slot_base_S j : slot_base (S j) = slot_base j + VIRTIO_MMIO_STRIDE.
Proof. unfold slot_base, VIRTIO_MMIO_STRIDE. lia. Qed.

(** The search from slot [j] stops at the network device. *)
Lemma find_nic_from n : forall fuel j d dev,
  (j + n = nic_slot)%nat -> (n < fuel)%nat -> present d ->
  exists d', find_device_from fuel d dev (slot_base j) VIRTIO_DEVICE_NET =
    (true, mkDevice (slot_base nic_slot) VIRTIO_DEVICE_NET, d') /\ touched d d'.
Proof.
  induction n as [|n IH]; intros fuel j d dev Hj Hf Hp; (destruct fuel as [|fuel]; [lia|]);
    cbn [find_device_from]; pose proof nic_slot_lt as Hlt;
    (rewrite (proj2 (Z.leb_le (slot_base j) VIRTIO_MMIO_PADDR_END))
       by (unfold slot_base, VIRTIO_MMIO_PADDR_START, VIRTIO_MMIO_PADDR_END, VIRTIO_MMIO_STRIDE; lia)).
  - assert (j = nic_slot) as -> by lia.
    destruct (probe_found d (slot_base nic_slot) VIRTIO_DEVICE_NET Hp) as (d1 & -> & T); [by right|].
    by exists d1.
  - destruct (probe_other d (slot_base j) VIRTIO_DEVICE_NET) as (dev1 & d1 & -> & T1); [apply other_slots; [done|lia]|].
    rewrite <-slot_base_S.
    destruct (IH fuel (S j) d1 dev1 ltac:(lia) ltac:(lia) (present_touched _ _ T1 Hp)) as (d2 & -> & T2).
    exists d2. split; [done|]. by eapply touched_trans.
Qed.

Lemma find_nic d dev :
  present d -> exists d', virtio_find_device d dev VIRTIO_DEVICE_NET =
    (true, mkDevice (slot_base nic_slot) VIRTIO_DEVICE_NET, d') /\ touched d d'.
Proof.
  intros Hp. unfold virtio_find_device. change VIRTIO_MMIO_PADDR_START with (slot_base 0).
  apply (find_nic_from nic_slot); [done| |done]. pose proof nic_slot_lt. lia.
Qed.
End Probe.

(** ** Queues *)

Section Init.
Context {H : Type} `{!PageHeap H} {lo hi : Z} `{!PageHeapSpec H lo hi}.
Context {D : Type} `{!Devices D} `{!BlkSpec D} `{!Startup D}.
Implicit Types (h : H) (d : D) (m : machine D).

(** A queue as [virtq_init] leaves it. *)
Definition queue_new (index : Z) : virtio_virtq :=
  mkVirtq (descs virtq_zero) 0 (avail_ring virtq_zero) 0 (used_ring virtq_zero) index 0 0.

Lemma queue_new_ok index : used_ok (queue_new index) /\ to_pop (queue_new index) = [].
Proof.
  split; [|reflexivity].
  split; vm_compute; first [reflexivity | split; [discriminate|reflexivity] | discriminate].
Qed.

Lemma virtq_init_total h d dev index k :
  ph_ok h -> ph_avail h (2 + k) ->
  exists r h' d', virtq_init h d dev index = Ret (r, queue_new index, h', d') /\
    ph_ok h' /\ ph_avail h' k /\ touched d d'.
Proof.
  intros Hok Hav. unfold virtq_init.
  destruct (ph_alloc_pages_total h 2 k Hok ltac:(lia) Hav) as (r & p & h' & Ha & Hav').
  change (Z.of_nat 2) with 2 in Ha. rewrite Ha, bind_Ret_l.
  eexists _, _, _. split; [reflexivity|]. split; [by eapply ph_alloc_spec|]. split; [exact Hav'|].
  auto with mint.
Qed.

(** ** The block driver *)

(** The block driver between requests, the rest of the drivers aside. *)
Record blk_idle m : Prop := {
  bi_base : dev_base (blk_dev (m_blk m)) = blk_base;
  bi_vq : blk_vq (m_dma m) = queue_new 0;
  bi_data : length (req_data (blk_req (m_dma m))) = Z.to_nat SECTOR_SIZE;
  bi_capacity : blk_capacity (m_blk m) = disk_sectors * SECTOR_SIZE;
}.

Lemma read_capacity d dev :
  present d -> dev_base dev = VIRTIO_BLK_PADDR -> 0 <= disk_sectors ->
  exists d', virtio_reg_read64 d dev VIRTIO_REG_DEVICE_CONFIG = (disk_sectors, d') /\ touched d d'.
Proof.
  intros Hp Hb Hs. unfold virtio_reg_read64. rewrite Hb.
  pose proof (touched_read d d (u32 (VIRTIO_BLK_PADDR + VIRTIO_REG_DEVICE_CONFIG)) (touched_refl d)) as T1.
  destruct (disk_capacity d Hp) as [E1 _]. unfold reads in E1.
  destruct (bus_read32 d _) as [x d1]. cbn [fst snd] in *. subst x.
  pose proof (touched_read d d1 (u32 (VIRTIO_BLK_PADDR + VIRTIO_REG_DEVICE_CONFIG + 4)) T1) as T2.
  destruct (disk_capacity d1 (present_touched _ _ T1 Hp)) as [_ E2]. unfold reads in E2.
  destruct (bus_read32 d1 _) as [x d2]. cbn [fst snd] in *. subst x.
  exists d2. split; [by rewrite Z.shiftl_0_l, Z.lor_0_l|exact T2].
Qed.

Lemma print_capacity base n :
  0 <= n < 2 ^ 31 ->
  exists out, printf (bytes_of "virtio-blk: base=0x%x capacity=%d bytes" ++ [10; 0]) [VInt base; VInt (u32 n)] = Ret out.
Proof.
  intros Hn. destruct (printNum_ret n ltac:(lia)) as [ds E].
  change (bytes_of "virtio-blk: base=0x%x capacity=%d bytes" ++ [10; 0])
    with (bytes_of "virtio-blk: base=0x" ++ [chr_percent; chr_x] ++ bytes_of " capacity=" ++
          [chr_percent; chr_d] ++ bytes_of " bytes" ++ [10; 0]).
  rewrite printf_text by reflexivity. cbn [app]. rewrite printf_x, printf_text by reflexivity.
  rewrite (printf_d _ _ _ ds) by (by rewrite u32_id, s32_id by lia).
  rewrite printf_text by reflexivity. rewrite printf_char, printf_end by discriminate. by eexists.
Qed.

Lemma virtio_blk_init_total h m k :
  ph_ok h -> ph_avail h (3 + k) -> present (m_dev m) -> 0 <= disk_sectors < 2 ^ 22 ->
  exists h' m', virtio_blk_init h m = Ret (h', m') /\ ph_ok h' /\ ph_avail h' k /\
    touched (m_dev m) (m_dev m') /\ blk_idle m' /\ m_sstatus m' = m_sstatus m /\
    rx_bufs (m_dma m') = rx_bufs (m_dma m) /\ m_net m' = m_net m /\ m_arp m' = m_arp m.
Proof.
  intros Hok Hav Hp Hs. unfold virtio_blk_init.
  destruct (probe_found (m_dev m) VIRTIO_BLK_PADDR VIRTIO_DEVICE_BLK Hp) as (d1 & -> & T1); [by left|].
  cbn [negb]. set (dev := mkDevice VIRTIO_BLK_PADDR VIRTIO_DEVICE_BLK).
  pose proof (touched_begin _ _ dev T1) as T2. set (d2 := virtio_begin_init d1 dev) in *. clearbody d2.
  destruct (virtq_init_total h d2 dev 0 (1 + k) Hok Hav) as (r & h1 & d3 & -> & Hok1 & Hav1 & T3).
  rewrite bind_Ret_l.
  pose proof (touched_trans _ _ _ T2 T3) as T4.
  pose proof (touched_finish _ _ dev T4) as T5. set (d4 := virtio_finish_init d3 dev) in *. clearbody d4.
  destruct (read_capacity d4 dev (present_touched _ _ T5 Hp) eq_refl ltac:(lia)) as (d5 & -> & T6).
  assert (Ecap : u64 (disk_sectors * SECTOR_SIZE) = disk_sectors * SECTOR_SIZE).
  { unfold SECTOR_SIZE. apply Z.mod_small. lia. }
  rewrite Ecap. destruct (print_capacity (dev_base dev) (disk_sectors * SECTOR_SIZE)) as [out Eo];
    [unfold SECTOR_SIZE; lia|]. rewrite Eo, bind_Ret_l.
  destruct (ph_alloc_total h1 k Hok1 Hav1) as (ri & req & h2 & Ea & Hav2).
  change (pages_for SIZEOF_BLK_REQ) with 1. rewrite Ea, bind_Ret_l.
  pose proof (touched_trans _ _ _ T5 T6) as T7.
  pose proof (touched_read _ d5 (u32 (dev_base dev + VIRTIO_REG_INTERRUPT_STATUS)) T7) as T8.
  unfold virtio_irq_status, virtio_reg_read32. destruct (bus_read32 d5 _) as [st d6]. cbn [snd] in T8.
  eexists _, _. split; [reflexivity|]. split; [by eapply ph_alloc_spec|]. split; [exact Hav2|].
  split; [destruct (st =? 0); [exact T8|by apply touched_reg_write]|].
  split; [|done]. split; [by rewrite disk_base|reflexivity|reflexivity|reflexivity].
Qed.

(** ** The network driver *)

(** Offering the receive buffers from [j] on. *)
Lemma offer_buffers n : forall j m,
  rx_ok m 0 -> to_pop (rx_vq (m_dma m)) = [] -> length (unseen (rx_vq (m_dma m)) 0) = j -> (j + n <= 16)%nat ->
  exists vq, for_each (fun m i => virtio_net_enqueue_rx m (Z.of_nat i)) (seq j n) m = Ret (set_rx_queue vq m) /\
    rx_ok (set_rx_queue vq m) 0 /\ to_pop vq = [].
Proof.
  induction n as [|n IH]; intros j m Hm Hp Hl Hn.
  - exists (rx_vq (m_dma m)). by destruct m as [? ? ? [] ? ? ? ?].
  - cbn [seq for_each].
    assert (Hc : ring_count 0 (avail_index (rx_vq (m_dma m))) = Z.of_nat j).
    { by rewrite <-Hl, <-(length_ring_items (avail_ring (rx_vq (m_dma m)))). }
    assert (Hroom : ring_count 0 (avail_index (rx_vq (m_dma m))) +
      Z.of_nat (length (to_pop (rx_vq (m_dma m)))) < VIRTQ_ENTRY_NUM).
    { rewrite Hc, Hp. cbn [length]. unfold VIRTQ_ENTRY_NUM. lia. }
    destruct (enqueue_rx_spec m 0 (Z.of_nat j) Hm) as (E & Hm1 & Hp1 & Hu1);
      [unfold VIRTQ_ENTRY_NUM; lia|exact Hroom|].
    rewrite E, bind_Ret_l. set (vq1 := enqueue_desc _ _ _) in *. clearbody vq1.
    destruct (IH (S j) (set_rx_queue vq1 m) Hm1) as (vq & E2 & Hm2 & Hp2).
    + cbn. by rewrite Hp1.
    + change (length (unseen vq1 0) = S j). rewrite Hu1, length_app, Hl. cbn. lia.
    + lia.
    + exists vq. split; [exact E2|]. split; [exact Hm2|exact Hp2].
Qed.

Definition blank_frames : list (list Z) := replicate NET_RX_BUF_NUM (replicate ETH_MAX_FRAME_SIZE 0).

(** Before any buffer is offered. *)
Lemma rx_ok_start m :
  rx_vq (m_dma m) = queue_new NET_RX_QUEUE -> rx_bufs (m_dma m) = blank_frames ->
  (net_rx_capture_write (n_cap (m_net m)) = 0 /\ net_rx_capture_read (n_cap (m_net m)) = 0) ->
  length (net_rx_captures (n_cap (m_net m))) = 16%nat -> Forall capture_wf (net_rx_captures (n_cap (m_net m))) ->
  arp_wf (m_arp m) -> rx_ok m 0.
Proof.
  intros Eq Eb [Ew Er] Hcl Hcw Ha. destruct (queue_new_ok NET_RX_QUEUE) as [Hu Hp].
  split; rewrite ?Eq, ?Eb; try exact Ha; try reflexivity.
  - apply Forall_replicate. split; [reflexivity|]. apply Forall_replicate. unfold octet. lia.
  - split; vm_compute; first [reflexivity | split; [discriminate|reflexivity] | discriminate].
  - exact Hu.
  - rewrite Hp. constructor.
  - rewrite Hp. vm_compute. discriminate.
  - change (unseen (queue_new NET_RX_QUEUE) 0) with (@nil Z). constructor.
  - split; [|exact Hcw]. rewrite Ew, Er. split; [by rewrite Hcl|..]; vm_compute; first [discriminate|split; [discriminate|reflexivity]].
Qed.

Lemma print_net base :
  exists out, printf (bytes_of "virtio-net: base=0x%x rxq=%d txq=%d" ++ [10; 0])
    [VInt base; VInt NET_RX_QUEUE; VInt NET_TX_QUEUE] = Ret out.
Proof.
  change (bytes_of "virtio-net: base=0x%x rxq=%d txq=%d" ++ [10; 0])
    with (bytes_of "virtio-net: base=0x" ++ [chr_percent; chr_x] ++ bytes_of " rxq=%d txq=%d" ++ [10; 0]).
  rewrite printf_text by reflexivity. cbn [app]. rewrite printf_x.
  assert (E : exists r, printf (bytes_of " rxq=%d txq=%d" ++ [10; 0]) [VInt NET_RX_QUEUE; VInt NET_TX_QUEUE] = Ret r)
    by (eexists; vm_compute; reflexivity).
  destruct E as [r ->]. by eexists.
Qed.

Lemma virtio_net_init_total h m k :
  ph_ok h -> ph_avail h (11 + k) -> present (m_dev m) ->
  length (net_rx_captures (n_cap (m_net m))) = 16%nat -> Forall capture_wf (net_rx_captures (n_cap (m_net m))) ->
  arp_wf (m_arp m) ->
  exists h' m', virtio_net_init h m = Ret (h', m') /\ ph_ok h' /\ ph_avail h' k /\
    touched (m_dev m) (m_dev m') /\ rx_ok m' 0 /\ tx_vq (m_dma m') = queue_new NET_TX_QUEUE /\ net_up (m_net m') = true /\
    dev_base (net_dev (m_net m')) = slot_base nic_slot /\
    m_blk m' = m_blk m /\ blk_vq (m_dma m') = blk_vq (m_dma m) /\ blk_req (m_dma m') = blk_req (m_dma m) /\
    m_sstatus m' = m_sstatus m.
Proof.
  intros Hok Hav Hp Hcl Hcw Ha. unfold virtio_net_init.
  destruct (find_nic (m_dev m) (net_dev (m_net m)) Hp) as (d1 & -> & T1). cbn [negb].
  set (dev := mkDevice (slot_base nic_slot) VIRTIO_DEVICE_NET).
  assert (Ebase : dev_base dev = slot_base nic_slot) by reflexivity. clearbody dev.
  pose proof (touched_begin _ _ dev T1) as T2. set (d2 := virtio_begin_init d1 dev) in *. clearbody d2.
  destruct (virtq_init_total h d2 dev NET_RX_QUEUE (9 + k) Hok Hav) as (r1 & h1 & d3 & -> & Hok1 & Hav1 & T3).
  rewrite bind_Ret_l.
  destruct (virtq_init_total h1 d3 dev NET_TX_QUEUE (7 + k) Hok1 Hav1) as (r2 & h2 & d4 & -> & Hok2 & Hav2 & T4).
  rewrite bind_Ret_l.
  destruct (ph_alloc_pages_total h2 6 (1 + k) Hok2 ltac:(lia) Hav2) as (r3 & rxp & h3 & E3 & Hav3).
  change (pages_for (SIZEOF_NET_BUF * Z.of_nat NET_RX_BUF_NUM)) with (Z.of_nat 6). rewrite E3, bind_Ret_l.
  pose proof (ph_alloc_spec _ _ _ _ _ Hok2 E3) as (Hok3 & _).
  destruct (ph_alloc_total h3 k Hok3 Hav3) as (r4 & txp & h4 & E4 & Hav4).
  change (pages_for SIZEOF_NET_BUF) with 1. rewrite E4, bind_Ret_l.
  pose proof (ph_alloc_spec _ _ _ _ _ Hok3 E4) as (Hok4 & _).
  match goal with |- context [for_each _ _ ?m1] => set (m0 := m1) end.
  destruct (offer_buffers NET_RX_BUF_NUM 0 m0) as (vq & E5 & Hrx & _).
  - by apply rx_ok_start.
  - reflexivity.
  - reflexivity.
  - unfold NET_RX_BUF_NUM. lia.
  - rewrite E5, bind_Ret_l. destruct (print_net (dev_base dev)) as [out Eo]. rewrite Eo, bind_Ret_l.
    eexists _, _. split; [reflexivity|]. split; [exact Hok4|]. split; [exact Hav4|].
    split; [apply touched_notify, touched_finish; eapply touched_trans; [|exact T4]; by eapply touched_trans|].
    split; [destruct Hrx; by constructor|]. split; [reflexivity|]. split; [reflexivity|].
    split; [exact Ebase|]. repeat (split; [reflexivity|]). reflexivity.
Qed.
End Init.
