(* ===== verification/Board.v ===== *)
(** The two devices together.

    [Board] is a machine with a block and a network device that keep their
    contracts ([BlkSpec], [NicSpec], [Startup]).  [machine_ready] says that both
    drivers are between operations; sending, disk requests, interrupts and what
    the devices do on their own preserve it.  ARP and IPv4 run on the link of a
    board ([board_link]). *)

From Stdlib Require Import ZArith Lia.
From S2P Require Import Prelude Strings Bytes Arp Ipv4 PageHeap Ring Virtio Machine NetDriver Interrupts NetStack Disk SimDevices Startup.
Open Scope Z_scope.

Class Board (D : Type) `{!Devices D} `{!NicSpec D} `{!BlkSpec D} `{!Startup D} : Prop := {
  board_nic : nic_base = slot_base nic_slot;
  board_claims : forall d, 0 <= (plic_claim d).1 < 1024;
}.

(** What the devices may do to the shared memory while nothing is asked of
    them: deliver frames into offered receive buffers. *)
Record device_keeps {D : Type} (m : machine D) (mem : dma) : Prop := {
  dk_rx : forall seen, rx_ok m seen -> exists seen', rx_ok (set_m_dma mem m) seen';
  dk_tx : quiet (tx_vq (m_dma m)) -> tx_vq mem = tx_vq (m_dma m);
  dk_blk : quiet (blk_vq (m_dma m)) -> blk_vq mem = blk_vq (m_dma m) /\ blk_req mem = blk_req (m_dma m);
}.

Section Board.
Context {D : Type} `{!Devices D} `{!NicSpec D} `{!BlkSpec D} `{!Startup D} `{!Board D}.
Implicit Types (m : machine D).

Record machine_ready m : Prop := {
  mr_nic : nic_ready m;
  mr_blk : blk_ready m;
}.

(** The block driver after a wait of the network driver, and conversely. *)
Lemma blk_ready_frame m m' :
  blk_ready m -> blk_frame m m' -> (exists seen, drivers_ok m' seen) -> quiet (tx_vq (m_dma m')) -> blk_ready m'.
Proof.
  intros [_ Hbase Hnone Hidle Hring Hdescs Hq Hdata Hcap _] [Fd Fc Fr Fv] Hd Hquiet.
  pose proof (consumes_nil _ _ Fv Hnone) as Hnone'. destruct Fv as (c & Ev & _).
  split; try assumption; try congruence; rewrite Ev; assumption.
Qed.

Lemma nic_ready_frame m m' :
  nic_ready m -> net_frame m m' -> (exists seen, drivers_ok m' seen) -> quiet (blk_vq (m_dma m')) -> nic_ready m'.
Proof.
  intros [_ Hup Hbase [Hnone Hidle Hring Hdescs Hq] _] [Fu Fd Fv] Hd Hquiet.
  pose proof (consumes_nil _ _ Fv Hnone) as Hnone'. destruct Fv as (c & Ev & _).
  split; try assumption; try congruence. split; try assumption; rewrite Ev; assumption.
Qed.

Lemma ready_after_blk m m' : machine_ready m -> blk_ready m' -> net_frame m m' -> machine_ready m'.
Proof.
  intros [Hn _] Hb F. split; [|exact Hb]. apply (nic_ready_frame m); [exact Hn|exact F|apply Hb|apply Hb].
Qed.

Lemma ready_after_nic m m' : machine_ready m -> nic_ready m' -> blk_frame m m' -> machine_ready m'.
Proof.
  intros [_ Hb] Hn F. split; [exact Hn|].
  apply (blk_ready_frame m); [exact Hb|exact F|apply Hn|exact (idle_avail _ (ready_idle _ Hn))].
Qed.

(** State neither driver reads. *)
Lemma machine_ready_set m m' :
  machine_ready m -> m_dma m' = m_dma m -> m_net m' = m_net m -> m_blk m' = m_blk m -> arp_wf (m_arp m') ->
  machine_ready m'.
Proof.
  intros [Hn Hb] Ed En Eb Ha. pose proof (nic_ready_set m m' Hn Ed En Ha) as Hn'.
  apply (ready_after_nic m); [by split|exact Hn'|]. split; rewrite ?Ed, ?Eb; first [done|apply consumes_refl].
Qed.

Lemma machine_ready_arp m : machine_ready m -> arp_wf (m_arp m).
Proof. intros [Hn _]. by apply nic_ready_arp. Qed.

Lemma machine_ready_sstatus m s : machine_ready m -> machine_ready (set_m_sstatus s m).
Proof. intros Hm. apply (machine_ready_set m); try done. exact (machine_ready_arp m Hm). Qed.
Lemma machine_ready_emit m out : machine_ready m -> machine_ready (emit out m).
Proof. intros Hm. apply (machine_ready_set m); try done. exact (machine_ready_arp m Hm). Qed.

#[export] Instance board_link : EthernetLink D.
Proof.
  refine {| link_wire := wire; link_ready := machine_ready |}.
  - exact machine_ready_arp.
  - intros m a Hm Ha. by apply (machine_ready_set m).
  - intros m i Hm. apply (machine_ready_set m); try done. exact (machine_ready_arp m Hm).
  - exact machine_ready_emit.
  - intros m dst ty payload Hm Hd Hl.
    destruct (nic_link_sends m dst ty payload (mr_nic m Hm) Hd Hl) as (m' & E & H' & Es & F & Ew).
    exists m'. split; [exact E|]. split; [by eapply ready_after_nic|]. by split.
Defined.

(** ** Interrupts and devices *)

Lemma interrupt_ready m : machine_ready m -> exists m', handle_external_interrupt m = Ret m' /\ machine_ready m'.
Proof.
  intros Hm. destruct (ready_drivers _ (mr_nic _ Hm)) as [seen Hd].
  destruct (external_interrupt_spec m seen Hd (board_claims _)) as (m' & E & Hd' & G & _).
  exists m'. split; [exact E|].
  assert (Hq : quiet (blk_vq (m_dma m'))).
  { eapply consumes_quiet; [exact (sg_blk_vq _ _ G)|exact (ready_blk _ (mr_nic _ Hm))]. }
  assert (Hn : nic_ready m').
  { apply (nic_ready_frame m); [apply Hm|by apply ground_net_frame|by exists seen|exact Hq]. }
  apply (ready_after_nic m); [exact Hm|exact Hn|by apply ground_blk_frame].
Qed.

Lemma device_ready m d mem : machine_ready m -> device_keeps m mem -> machine_ready (set_m_dma mem (set_m_dev d m)).
Proof.
  intros Hm [Hrx Htx Hblk]. destruct (ready_drivers _ (mr_nic _ Hm)) as [seen [Hr Ht Hb]].
  pose proof (Htx (idle_avail _ (ready_idle _ (mr_nic _ Hm)))) as Et.
  destruct (Hblk (ready_blk _ (mr_nic _ Hm))) as [Eb Eq]. destruct (Hrx seen Hr) as [seen' Hr'].
  assert (Hd : exists seen, drivers_ok (set_m_dma mem (set_m_dev d m)) seen).
  { exists seen'. split; [destruct Hr'; by constructor|cbn; by rewrite Et|cbn; by rewrite Eb]. }
  set (m' := set_m_dma mem (set_m_dev d m)) in *.
  assert (Fn : net_frame m m') by (split; cbn; rewrite ?Et; first [done|apply consumes_refl]).
  assert (Fb : blk_frame m m') by (split; cbn; rewrite ?Eb, ?Eq; first [done|apply consumes_refl]).
  assert (Hn : nic_ready m').
  { apply (nic_ready_frame m); [apply Hm|exact Fn|exact Hd|].
    change (blk_vq (m_dma m')) with (blk_vq mem). rewrite Eb. exact (ready_blk _ (mr_nic _ Hm)). }
  by apply (ready_after_nic m).
Qed.
End Board.

(** ** ARP over a ready link, whatever is pending *)

Section Arp.
Context {D : Type} `{!Devices D} `{!EthernetLink D}.
Implicit Types (m : machine D).

Lemma arp_poll_total m :
  link_ready m -> exists m', arp_poll m = Ret m' /\ link_ready m' /\ m_sstatus m' = m_sstatus m.
Proof.
  intros Hm. pose proof (link_ready_arp m Hm) as [Wc Wp]. unfold arp_poll.
  destruct (pending_reply (m_arp m)) as [pend mac ip]. cbn [ap_pending ap_target_mac ap_target_ip] in *.
  destruct pend; cbn [negb]; [|by exists m].
  rewrite arp_reply_wire, (take_ge mac) by lia. set (m1 := set_pending _ m).
  assert (Hl : length (arp_wire ARP_OPERATION_REPLY net_mac IPV4_LOCAL_ADDRESS mac ip) = SIZEOF_ARP_PACKET)
    by (by apply length_arp_wire).
  set (reply := arp_wire _ _ _ _ _) in *. clearbody reply.
  assert (H1 : link_ready m1) by (apply (link_ready_set_arp m); [exact Hm|by split]).
  destruct (link_sends m1 mac ARP_ETHERTYPE reply H1 Wp) as (m2 & E & H2 & Es & _).
  { rewrite Hl. unfold SIZEOF_ARP_PACKET. lia. }
  rewrite Hl in E. rewrite E, bind_Ret_l. rewrite (proj2 (Z.leb_le 0 _)) by lia.
  destruct (print_ipv4_ret ip) as [out ->]. rewrite bind_Ret_l.
  eexists. split; [reflexivity|]. split; [by apply link_ready_emit|exact Es].
Qed.

(** [virtio_net_send_packet] as a system call reaches it: it answers -1, reads
    past the buffer, or sends. *)
Lemma send_packet_total m payload len :
  link_ready m ->
  (forall bytes, payload = Some bytes -> 0 <= len <= 1500 -> len <= Z.of_nat (length bytes)) ->
  exists n m', virtio_net_send_packet m payload len = Ret (n, m') /\ link_ready m' /\ m_sstatus m' = m_sstatus m.
Proof.
  intros Hm Hl. unfold virtio_net_send_packet. destruct payload as [bytes|]; [|by eexists _, m].
  destruct (negb (net_up (m_net m)) || (len <? 0) || (1500 <? len)) eqn:Eb.
  { exists (-1), m. split; [|done]. unfold virtio_net_send_ethernet.
    change (Z.of_nat ETH_MAX_FRAME_SIZE - Z.of_nat ETHERNET_HEADER_SIZE) with 1500. by rewrite Eb. }
  apply orb_false_iff in Eb as [[Hup H0]%orb_false_iff H1]. apply Z.ltb_ge in H0, H1.
  pose proof (Hl bytes eq_refl ltac:(lia)) as Hle.
  assert (E : virtio_net_send_ethernet m broadcast_mac VIRTIO_NET_TEST_ETHERTYPE (Some bytes) len =
    virtio_net_send_ethernet m broadcast_mac VIRTIO_NET_TEST_ETHERTYPE (Some (take (Z.to_nat len) bytes))
      (Z.of_nat (length (take (Z.to_nat len) bytes)))).
  { rewrite length_take_le by lia. rewrite Z2Nat.id by lia. unfold virtio_net_send_ethernet.
    change (Z.of_nat ETH_MAX_FRAME_SIZE - Z.of_nat ETHERNET_HEADER_SIZE) with 1500.
    rewrite Hup, (proj2 (Z.ltb_ge len 0)), (proj2 (Z.ltb_ge 1500 len)) by lia. cbn [orb].
    rewrite length_take_le, take_take, Nat.min_id by lia. rewrite !(proj2 (Z.leb_le len _)) by lia. reflexivity. }
  rewrite E.
  destruct (link_sends m broadcast_mac VIRTIO_NET_TEST_ETHERTYPE (take (Z.to_nat len) bytes) Hm eq_refl)
    as (m' & -> & H' & Es & _); [rewrite length_take; lia|].
  by eexists _, m'.
Qed.

Lemma dump_entries_ret l : exists out, dump_entries l = Ret out.
Proof.
  induction l as [|e l [b IH]]; [by eexists|]. cbn [dump_entries]. unfold dump_entry.
  destruct (ae_valid e).
  - destruct (print_ipv4_ret (ae_ip e)) as [a ->]. rewrite !bind_Ret_l, IH, bind_Ret_l. by eexists.
  - rewrite bind_Ret_l, IH, bind_Ret_l. by eexists.
Qed.

Lemma arp_dump_ret a : exists out, arp_dump_cache a = Ret out.
Proof. unfold arp_dump_cache. destruct (dump_entries_ret (arp_cache a)) as [r ->]. rewrite bind_Ret_l. by eexists. Qed.
End Arp.

(** ** A simulated board *)

(** [b_sent]: the device that interrupted last is the network interface. *)
Record board_dev : Type := mkBoard { b_wire : list (list Z); b_image : disk_image; b_sent : bool }.

Definition board_bus : Bus board_dev :=
  {| bus_read32 d a := (if a =? PLIC_SCLAIM then (if b_sent d then VIRTIO_NET_IRQ else VIRTIO_BLK_IRQ)
                         else default 1 (identification a), d);
     bus_write32 d _ _ := d |}.

Lemma board_bus_stable P : @bus_stable board_dev board_bus P.
Proof. by split. Qed.

(** A waiting CPU wakes up when what it asked for is done: a frame sent, or
    else a disk request performed. *)
Definition board_devices : Devices board_dev :=
  {| devices_bus := board_bus;
     dev_wait d mem :=
       if avail_index (tx_vq mem) =? used_index (tx_vq mem) then
         let r := blk_req mem in
         let w := req_type r =? VIRTIO_BLK_T_OUT in
         let data := if w then req_data r else sector_of (b_image d (req_sector r)) in
         Some (mkBoard (b_wire d) (if w then disk_write (b_image d) (req_sector r) (req_data r) else b_image d) false,
               set_blk_req (mkReq (req_type r) (req_sector r) data 0)
                 (set_blk_vq (add_used (mkUsed 0 0) (blk_vq mem)) mem))
       else
         let n := d_len (descs (tx_vq mem) !!! 0%nat) - SIZEOF_NET_HDR in
         Some (mkBoard (b_wire d ++ [take (Z.to_nat n) (tx_buf mem)]) (b_image d) true,
               set_tx_vq (add_used (mkUsed 0 0) (tx_vq mem)) mem);
     wakes := 1 |}.

Definition board_nic_spec : @NicSpec board_dev board_devices.
Proof.
  unshelve refine (@Build_NicSpec board_dev board_devices b_wire 0x10002000 (fun _ => True) (fun _ => 0%nat)
    _ _ _ _ _ _).
  - intros w. apply board_bus_stable.
  - apply board_bus_stable.
  - done.
  - intros k. apply board_bus_stable.
  - intros d. cbn. lia.
  - intros d mem n _ [Hu Hnone Hone Hslot [a Hd]] Hn _. cbn [dev_wait board_devices].
    destruct Hu as [_ _ Hw _]. destruct (Z.eqb_spec (avail_index (tx_vq mem)) (used_index (tx_vq mem))) as [E|_].
    { exfalso. rewrite Hone in E. unfold index_ok, u16 in *. Z.to_euclidean_division_equations. lia. }
    eexists _, _. split; [reflexivity|].
    split; [intros m seen; by apply rx_ok_same_rx|]. split; [done|]. split; [done|]. right. exists (mkUsed 0 0).
    split; [reflexivity|]. split; [|split; [reflexivity|discriminate]].
    rewrite Hd. cbn [d_len]. by replace (SIZEOF_NET_HDR + n - SIZEOF_NET_HDR) with n by lia.
Defined.

Definition board_blk_spec : @BlkSpec board_dev board_devices.
Proof.
  unshelve refine (@Build_BlkSpec board_dev board_devices (fun d s => sector_of (b_image d s)) 8 0x10001000
    (fun _ => True) (fun _ => 0%nat) _ _ _ _ _ _ _).
  - intros img. apply board_bus_stable.
  - apply board_bus_stable.
  - done.
  - intros k. apply board_bus_stable.
  - intros d. cbn. lia.
  - intros d s. apply length_sector_of.
  - intros d mem a w _ Ho Hs Hl Hq. cbn [dev_wait board_devices]. unfold quiet in Hq. rewrite Hq, Z.eqb_refl.
    eexists _, _. split; [reflexivity|].
    split; [intros m seen; by apply rx_ok_same_rx|]. split; [done|]. right. exists (mkUsed 0 0).
    split; [reflexivity|]. split; [|split; [reflexivity|discriminate]].
    pose proof (bo_type _ _ _ Ho) as Ht. cbn [blk_req set_blk_req set_blk_vq].
    assert (Ew : (req_type (blk_req mem) =? VIRTIO_BLK_T_OUT) = w) by (rewrite Ht; by destruct w).
    rewrite Ew. split; [reflexivity|]. cbn [b_image]. intros s. destruct w; [|reflexivity].
    unfold disk_write. destruct (s =? req_sector (blk_req mem)); [by apply sector_of_id|reflexivity].
Defined.

Definition board_startup : @Startup board_dev board_devices board_blk_spec.
Proof.
  unshelve refine (@Build_Startup board_dev board_devices board_blk_spec (fun _ => True) _ 1%nat _ _ _ _ _).
  - apply board_bus_stable.
  - lia.
  - intros d base id _ [[-> ->]|[-> ->]]; repeat split.
  - intros d j _ Hj. assert (j = 0%nat) as -> by lia. discriminate.
  - reflexivity.
  - by split.
Defined.

Definition board_board : @Board board_dev board_devices board_nic_spec board_blk_spec board_startup.
Proof. split; [reflexivity|]. intros d. cbn. destruct (b_sent d); split; reflexivity || discriminate. Defined.

Definition board_off : board_dev := mkBoard [] (fun _ => []) false.

(** Drivers at rest on the board. *)
Definition board_machine (d : board_dev) : machine board_dev := rest_machine d rest_arp.

Lemma board_machine_ready d :
  @machine_ready board_dev board_devices board_nic_spec board_blk_spec (board_machine d).
Proof.
  assert (Hd : exists seen, drivers_ok (board_machine d) seen) by (exists 0; apply rest_drivers_ok, rest_arp_wf).
  split; [split; [exact Hd|reflexivity|reflexivity|by split|reflexivity]|by split].
Qed.

(** ** A board with other interrupts *)

(** The board behind a device whose first wake-up is a spurious interrupt of
    the network interface, whoever is waited for. *)
Record busy_dev : Type := mkBusy { y_woken : bool; y_irq : option Z; y_board : board_dev }.

Definition busy_bus : Bus busy_dev :=
  {| bus_read32 d a := (if a =? PLIC_SCLAIM then default (bus_read32 (Bus := board_bus) (y_board d) a).1 (y_irq d)
                         else (bus_read32 (Bus := board_bus) (y_board d) a).1, d);
     bus_write32 d _ _ := d |}.

Lemma busy_bus_stable P : @bus_stable busy_dev busy_bus P.
Proof. by split. Qed.

Definition busy_devices : Devices busy_dev :=
  {| devices_bus := busy_bus;
     dev_wait d mem :=
       if y_woken d then
         match @dev_wait board_dev board_devices (y_board d) mem with
         | Some (b, mem') => Some (mkBusy true None b, mem')
         | None => None
         end
       else Some (mkBusy true (Some VIRTIO_NET_IRQ) (y_board d), mem);
     wakes := 2 |}.

(** The receive ring does not depend on the type of the devices. *)
Lemma rx_kept_other_device {D D'} (d : D) mem mem' :
  (forall (m : machine D) seen, rx_ok (set_m_dma mem m) seen -> exists seen', rx_ok (set_m_dma mem' m) seen') ->
  forall (m : machine D') seen, rx_ok (set_m_dma mem m) seen -> exists seen', rx_ok (set_m_dma mem' m) seen'.
Proof.
  intros H [d' ss out m0 n b a i] seen []. destruct (H (mkMachine d ss out m0 n b a i) seen) as [seen' []]; [by constructor|].
  exists seen'. by constructor.
Qed.

Definition busy_nic_spec : @NicSpec busy_dev busy_devices.
Proof.
  unshelve refine (@Build_NicSpec busy_dev busy_devices (fun d => b_wire (y_board d)) 0x10002000 (fun _ => True)
    (fun d => if y_woken d then 0%nat else 1%nat) _ _ _ _ _ _).
  - intros w. apply busy_bus_stable.
  - apply busy_bus_stable.
  - done.
  - intros k. apply busy_bus_stable.
  - intros [[] ? ?]; cbn; lia.
  - intros [[] irq b] mem n _ Ho Hn Hq.
    + destruct (@nic_transmits board_dev board_devices board_nic_spec b mem n I Ho Hn Hq)
        as (b' & mem' & Ew & Hrx & Ev & Er & [(_ & _ & _ & _ & _ & Hlt)|(x & Et & Hw & Hc & Hs)]); [cbn in Hlt; lia|].
      exists (mkBusy true None b'), mem'. cbn [dev_wait busy_devices y_woken y_board]. rewrite Ew.
      split; [reflexivity|]. split; [exact (rx_kept_other_device b mem mem' Hrx)|]. split; [exact Ev|]. split; [exact Er|].
      right. by exists x.
    + exists (mkBusy true (Some VIRTIO_NET_IRQ) b), mem. split; [reflexivity|].
      split; [intros m seen; by apply rx_ok_same_rx|]. split; [done|]. split; [done|]. left.
      split_and!; first [done | cbn; lia].
Defined.

Definition busy_blk_spec : @BlkSpec busy_dev busy_devices.
Proof.
  unshelve refine (@Build_BlkSpec busy_dev busy_devices (fun d s => sector_of (b_image (y_board d) s)) 8 0x10001000
    (fun _ => True) (fun d => if y_woken d then 0%nat else 1%nat) _ _ _ _ _ _ _).
  - intros img. apply busy_bus_stable.
  - apply busy_bus_stable.
  - done.
  - intros k. apply busy_bus_stable.
  - intros [[] ? ?]; cbn; lia.
  - intros d s. apply length_sector_of.
  - intros [[] irq b] mem a w _ Ho Hs Hl Hq.
    + destruct (@blk_performs board_dev board_devices board_blk_spec b mem a w I Ho Hs Hl Hq)
        as (b' & mem' & Ew & Hrx & Et & [(_ & _ & _ & _ & _ & Hlt)|(x & Ev & Hp & Hc & Hst)]); [cbn in Hlt; lia|].
      exists (mkBusy true None b'), mem'. cbn [dev_wait busy_devices y_woken y_board]. rewrite Ew.
      split; [reflexivity|]. split; [exact (rx_kept_other_device b mem mem' Hrx)|]. split; [exact Et|]. right. by exists x.
    + exists (mkBusy true (Some VIRTIO_NET_IRQ) b), mem. split; [reflexivity|].
      split; [intros m seen; by apply rx_ok_same_rx|]. split; [done|]. left.
      split_and!; first [done | cbn; lia].
Defined.

(** A frame is sent although another interrupt comes first. *)
Definition busy_frame : list Z := replicate ETH_MAX_FRAME_SIZE 7.
Definition busy_machine : machine busy_dev :=
  set_m_sstatus 2 (net_transmit (Devices0 := busy_devices) (rest_machine (mkBusy false None board_off) rest_arp) busy_frame 60).

Lemma wait_for_interrupt_returns_witness :
  exists n m1, (n <= 1)%nat /\
    waited (Devices0 := busy_devices) tx_done 0 (S n) (set_m_sstatus 0 busy_machine) m1 /\
    wait_for_interrupt (Devices0 := busy_devices) tx_done busy_machine = Ret (set_m_sstatus 2 m1) /\
    b_wire (y_board (m_dev m1)) = [replicate 60 7].
Proof.
  destruct (@wait_for_interrupt_returns busy_dev busy_devices busy_nic_spec busy_blk_spec busy_machine) as (_ & _ & Ht).
  destruct (@net_transmit_outstanding busy_dev busy_devices busy_nic_spec (rest_machine (mkBusy false None board_off) rest_arp)
    busy_frame 60 2) as (Htm & _).
  - split; [exists 0; apply rest_drivers_ok, rest_arp_wf|reflexivity|reflexivity|by split|reflexivity].
  - unfold ETH_MAX_FRAME_SIZE. lia.
  - destruct (Ht 60 Htm) as (n & m1 & Hn & [Hw E] & _ & _ & _ & Ew).
    exists n, m1. split; [exact Hn|]. split; [exact Hw|]. split; [exact E|]. exact Ew.
Defined.
