(* ===== verification/UserMemory.v ===== *)
(** Pointers that user programs pass to the kernel ([kernel/syscall.c],
    [kernel/common.c]).

    The kernel dereferences them as they are: [user_entry] sets [SUM], so its loads
    and stores go through the page table of the current process whether the
    page is the program's or the kernel's own, and nothing in
    [kernel/syscall.c] looks at the address.  [kernel_access] is that
    translation, [copy_from], [copy_to] and [string_from] are the byte loops of
    [memcpy], [strcmp] and [printf] over it.  A page that is missing or does not
    permit the access traps in the kernel, which panics.

    A pointer can also be given as the object it points to ([Ptr]), the view of
    the C source; the lemmas below relate the two for pointers to the program's own
    pages.  Outside them, a store changes the byte of [ph_mem] the walk leads to:
    that is what becomes of page tables and of other processes' pages.  The kernel's
    C objects are records of this model, which no such store changes; so what
    is said of calls that store is said of the program's own pages. *)

From Stdlib Require Import ZArith Lia.
From stdpp Require Import relations.
From S2P Require Import Prelude Memory PageHeap Allocator PageTable Shm Process KernelInv System Lifecycle AddressSpace Kernel Views Reach Strings Fs.
Open Scope Z_scope.

(** An argument register: a number (an address, where the kernel dereferences
    it), or a pointer given as the bytes it points to. *)
Inductive word : Type := Num (n : Z) | Ptr (bytes : list Z).
Definition num (w : word) : outcome Z := match w with Num n => Ret n | Ptr _ => Undef end.

(** The bytes of the address space: no string is longer. *)
Definition ADDRESSES : nat := Z.to_nat (2 ^ 32).
Lemma ADDRESSES_eq : Z.of_nat ADDRESSES = 2 ^ 32.
Proof. exact (Z2Nat.id (2 ^ 32) ltac:(lia)). Qed.
#[global] Opaque ADDRESSES.

Section Code.
Context {H : Type} `{!PageHeap H}.
Implicit Types (K : kstate H).

Definition kernel_access K (va flag : Z) : outcome Z :=
  match sv32_walk (ph_mem (k_heap K)) (page_table (current_process K)) va with
  | Some (pa, flags) => if pte_flag flags flag then Ret pa else Panic "unexpected trap"
  | None => Panic "unexpected trap"
  end.
Definition kernel_load8 K (va : Z) : outcome Z :=
  pa ← kernel_access K va PAGE_R; Ret (load8 (ph_mem (k_heap K)) pa).
Definition kernel_store8 K (va v : Z) : outcome (kstate H) :=
  pa ← kernel_access K va PAGE_W;
  Ret (set_heap K (ph_set_mem (k_heap K) (store8 (ph_mem (k_heap K)) pa v))).

(** [while (n--) *d++ = *s++;] with the source, then the destination, in user
    memory. *)
Fixpoint copy_from (n : nat) K (va : Z) : outcome (list Z) :=
  match n with
  | O => Ret []
  | S n' => b ← kernel_load8 K va; l ← copy_from n' K (u32 (va + 1)); Ret (b :: l)
  end.
Fixpoint copy_to (bytes : list Z) K (va : Z) : outcome (kstate H) :=
  match bytes with
  | [] => Ret K
  | b :: bytes' => K ← kernel_store8 K va b; copy_to bytes' K (u32 (va + 1))
  end.

(** The bytes up to the [NUL], as [strcmp] and [printString] read them. *)
Fixpoint string_from (fuel : nat) K (va : Z) : outcome (list Z) :=
  match fuel with
  | O => Undef
  | S n =>
      b ← kernel_load8 K va;
      if b =? 0 then Ret [0] else l ← string_from n K (u32 (va + 1)); Ret (b :: l)
  end.

Definition fetch_string K (w : word) : outcome (list Z) :=
  match w with Ptr b => Ret b | Num a => string_from ADDRESSES K (u32 a) end.

(** [memcpy(dst, w, n)] and [memcpy(w, src, n)]; the second gives the object
    behind a [Ptr] as it is afterwards. *)
Definition copy_in (dst : list Z) K (w : word) (n : Z) : outcome (list Z) :=
  match w with
  | Ptr b => copy_bytes dst b n
  | Num a =>
      _ ← defined_if (n <=? Z.of_nat (length dst));
      b ← copy_from (Z.to_nat n) K (u32 a); copy_bytes dst b n
  end.
Definition copy_out K (w : word) (src : list Z) (n : Z) : outcome (option (list Z) * kstate H) :=
  match w with
  | Ptr b => data ← copy_bytes b src n; Ret (Some data, K)
  | Num a =>
      _ ← defined_if (n <=? Z.of_nat (length src));
      K ← copy_to (take (Z.to_nat n) src) K (u32 a); Ret (None, K)
  end.
End Code.

(** ** Pointers to the program's own pages *)

Section Own.
Context {H : Type} `{!PageHeap H}.
Implicit Types (K : kstate H).

(** The program may access [n] bytes from [va] on. *)
Definition own_range K (va n flag : Z) : Prop :=
  forall k, 0 <= k < n -> exists pa, user_access K (u32 (va + k)) flag = Some pa.

(** It reads [bytes] from [va] on. *)
Definition bytes_at K (va : Z) (bytes : list Z) : Prop :=
  forall k b, bytes !! k = Some b ->
    exists pa, user_access K (u32 (va + Z.of_nat k)) PAGE_R = Some pa /\ load8 (ph_mem (k_heap K)) pa = b.

Definition own_string K (w : word) (name : list Z) : Prop :=
  match w with
  | Ptr b => b = name
  | Num a => bytes_at K (u32 a) name /\ (length name <= ADDRESSES)%nat /\
      exists x, name = x ++ [0] /\ Forall (fun c => 0 < c < 256) x
  end.
Definition own_source K (w : word) (n : Z) (bytes : list Z) : Prop :=
  match w with
  | Ptr b => b = bytes /\ n <= Z.of_nat (length b)
  | Num a => bytes_at K (u32 a) bytes /\ n = Z.of_nat (length bytes)
  end.
Definition own_dest K (w : word) (n : Z) : Prop :=
  match w with
  | Ptr b => n <= Z.of_nat (length b)
  | Num a => own_range K (u32 a) n PAGE_W
  end.

(** One store of the program itself. *)
Definition own_store K K' : Prop := exists va v, 0 <= va < 2 ^ 32 /\ user_store K va v = Some K'.

Lemma access_own K va fl pa : user_access K va fl = Some pa -> kernel_access K va fl = Ret pa.
Proof.
  unfold user_access, kernel_access. destruct (sv32_walk _ _ _) as [[pa' flags]|]; [|discriminate].
  destruct (pte_flag flags PAGE_U); [|discriminate]. cbn [andb].
  destruct (pte_flag flags fl); [|discriminate]. by intros [= ->].
Qed.

Lemma load_own K va pa :
  user_access K va PAGE_R = Some pa -> kernel_load8 K va = Ret (load8 (ph_mem (k_heap K)) pa).
Proof. intros E. unfold kernel_load8. by rewrite (access_own _ _ _ _ E). Qed.

Lemma store_own K va v pa :
  user_access K va PAGE_W = Some pa -> exists K', kernel_store8 K va v = Ret K' /\ user_store K va v = Some K' /\
    K' = set_heap K (ph_set_mem (k_heap K) (store8 (ph_mem (k_heap K)) pa v)).
Proof.
  intros E. unfold kernel_store8, user_store. rewrite (access_own _ _ _ _ E), E, bind_Ret_l. by eexists.
Qed.

(** Consecutive addresses. *)
Lemma u32_step va k : u32 (u32 (va + 1) + k) = u32 (va + (k + 1)).
Proof. unfold u32. rewrite Zplus_mod_idemp_l. f_equal. lia. Qed.

Lemma own_range_tail K va n flag : own_range K va (n + 1) flag -> 0 <= n -> own_range K (u32 (va + 1)) n flag.
Proof. intros Hr Hn k Hk. rewrite u32_step. apply Hr. lia. Qed.

Lemma bytes_at_tail K va b bytes : bytes_at K va (b :: bytes) -> bytes_at K (u32 (va + 1)) bytes.
Proof.
  intros Hb k c Hk. rewrite u32_step. replace (Z.of_nat k + 1) with (Z.of_nat (S k)) by lia. by apply Hb.
Qed.

Lemma bytes_at_head K va b bytes :
  0 <= va < 2 ^ 32 -> bytes_at K va (b :: bytes) -> kernel_load8 K va = Ret b.
Proof.
  intros Hva Hb. destruct (Hb 0%nat b eq_refl) as (pa & Ha & <-).
  rewrite Z.add_0_r, u32_id in Ha by exact Hva. by apply load_own.
Qed.

(** ** Loads *)

Lemma copy_from_own K bytes : forall va, 0 <= va < 2 ^ 32 ->
  bytes_at K va bytes -> copy_from (length bytes) K va = Ret bytes.
Proof.
  induction bytes as [|b bytes IH]; intros va Hva Hb; [done|]. cbn [length copy_from].
  rewrite (bytes_at_head K va b bytes Hva Hb), bind_Ret_l.
  by rewrite (IH _ (u32_range _) (bytes_at_tail _ _ _ _ Hb)).
Qed.

Lemma string_from_own K x : forall fuel va, 0 <= va < 2 ^ 32 -> Forall (fun c => 0 < c < 256) x ->
  bytes_at K va (x ++ [0]) -> (length (x ++ [0%Z]) <= fuel)%nat -> string_from fuel K va = Ret (x ++ [0]).
Proof.
  induction x as [|c x IH]; intros [|fuel] va Hva Hx Hb Hf; cbn in Hf; try lia; cbn [app string_from].
  - by rewrite (bytes_at_head K va 0 [] Hva Hb), bind_Ret_l.
  - rewrite (bytes_at_head K va c _ Hva Hb), bind_Ret_l. apply Forall_cons in Hx as [Hc Hx].
    rewrite (proj2 (Z.eqb_neq c 0)) by lia.
    rewrite (IH fuel _ (u32_range _) Hx (bytes_at_tail _ _ _ _ Hb)) by lia. by rewrite bind_Ret_l.
Qed.

Lemma fetch_string_own K w name : own_string K w name -> fetch_string K w = Ret name.
Proof.
  destruct w as [a|b]; [|by intros ->]. intros (Hb & Hl & x & -> & Hx).
  exact (string_from_own K x _ _ (u32_range a) Hx Hb Hl).
Qed.

Lemma copy_in_own dst K w n bytes :
  0 <= n <= Z.of_nat (length dst) -> own_source K w n bytes -> copy_in dst K w n = copy_bytes dst bytes n.
Proof.
  intros Hn. destruct w as [a|b]; [|by intros [-> _]]. intros [Hb ->]. unfold copy_in.
  rewrite (proj2 (Z.leb_le _ _)) by lia. cbn [defined_if]. rewrite bind_Ret_l, Nat2Z.id.
  by rewrite (copy_from_own K bytes _ (u32_range a) Hb), bind_Ret_l.
Qed.
End Own.

(** ** Stores *)

Section Stores.
Context {H : Type} `{!PageHeap H} (lo hi : Z) `{!PageHeapSpec H lo hi}.
Implicit Types (K : kstate H).

Lemma walk_offset m root va pa fl : sv32_walk m root va = Some (pa, fl) -> pa mod PAGE_SIZE = va mod PAGE_SIZE.
Proof.
  unfold sv32_walk. destruct (negb _); [discriminate|]. unfold PAGE_SIZE. destruct (pte_leaf _).
  - destruct (_ =? 0); [|discriminate]. intros [= <- _]. Z.to_euclidean_division_equations. lia.
  - destruct (_ && _); [|discriminate]. intros [= <- _]. rewrite Z.add_comm, Z.mod_add by done. by rewrite Z.mod_mod.
Qed.

Lemma access_offset K va fl pa : user_access K va fl = Some pa -> pa mod PAGE_SIZE = va mod PAGE_SIZE.
Proof.
  unfold user_access. destruct (sv32_walk _ _ _) as [[pa' flags]|] eqn:Ew; [|discriminate].
  destruct (_ && _); [|discriminate]. intros [= <-]. by eapply walk_offset.
Qed.

(** Within a page's length no two addresses lead to one byte. *)
Lemma access_distinct K va j k fl pa :
  0 <= j < k -> k < PAGE_SIZE -> user_access K (u32 (va + j)) fl = Some pa -> user_access K (u32 (va + k)) fl <> Some pa.
Proof.
  unfold PAGE_SIZE. intros Hj Hk E1 E2. apply access_offset in E1, E2. rewrite E1 in E2. unfold PAGE_SIZE, u32 in E2.
  Z.to_euclidean_division_equations. lia.
Qed.

Lemma own_store_frame K K' :
  own_store K K' -> k_shm K' = k_shm K /\ k_procs K' = k_procs K /\ k_current K' = k_current K /\
    k_idle K' = k_idle K /\ k_csrs K' = k_csrs K /\ ph_owned (k_heap K') = ph_owned (k_heap K).
Proof.
  intros (va & v & _ & E). destruct (user_store_inv K va v K' E) as (pa & _ & ->). cbn.
  by rewrite ph_set_mem_owned.
Qed.

Lemma own_store_walk K K' j p va :
  kernel_ok lo hi K -> own_store K K' -> k_procs K !! j = Some p -> p_state p <> PROC_UNUSED ->
  sv32_walk (ph_mem (k_heap K')) (page_table p) va = sv32_walk (ph_mem (k_heap K)) (page_table p) va.
Proof.
  intros HK (vs & v & Hvs & E) Hj Hl. destruct (user_store_inv K vs v K' E) as (pa & Ha & ->).
  cbn [set_heap k_heap]. rewrite ph_mem_set_mem. apply (frame_walk (ph_owned (k_heap K))).
  2: apply (sys_live _ _ _ _ _ (ko_sys _ _ _ HK) j p Hj Hl).
  intros q x Hq Hx. eapply (store_frame lo hi K HK); try eassumption.
  by eapply (user_access_reaches lo hi K HK).
Qed.

(** What a run of such stores leaves as it is. *)
Record kept K K' : Prop := {
  kp_ok : kernel_ok lo hi K';
  kp_shm : k_shm K' = k_shm K;
  kp_procs : k_procs K' = k_procs K;
  kp_current : k_current K' = k_current K;
  kp_idle : k_idle K' = k_idle K;
  kp_csrs : k_csrs K' = k_csrs K;
  kp_owned : ph_owned (k_heap K') = ph_owned (k_heap K);
  kp_walk : forall j p va, k_procs K !! j = Some p -> p_state p <> PROC_UNUSED ->
    sv32_walk (ph_mem (k_heap K')) (page_table p) va = sv32_walk (ph_mem (k_heap K)) (page_table p) va;
}.

Lemma kept_refl K : kernel_ok lo hi K -> kept K K.
Proof. by split. Qed.

Lemma kept_trans K1 K2 K3 : kept K1 K2 -> kept K2 K3 -> kept K1 K3.
Proof.
  intros [H1 A1 A2 A3 A4 A5 A6 A7] [H2 B1 B2 B3 B4 B5 B6 B7]. split; try congruence.
  intros j p va Hj Hl. rewrite (B7 j) by (by rewrite ?A2). by apply (A7 j).
Qed.

Lemma own_store_kept K K' : kernel_ok lo hi K -> own_store K K' -> kept K K'.
Proof.
  intros HK Hs. destruct (own_store_frame K K' Hs) as (E1 & E2 & E3 & E4 & E5 & E6).
  split; try assumption.
  - destruct Hs as (va & v & Hva & E). by eapply step_store_ok.
  - intros j p va. by apply own_store_walk.
Qed.

Lemma own_stores_kept K K' : kernel_ok lo hi K -> rtc own_store K K' -> kept K K'.
Proof.
  intros HK Hr. induction Hr as [K|K K1 K2 Hs _ IH]; [by apply kept_refl|].
  pose proof (own_store_kept K K1 HK Hs) as H1. eapply kept_trans; [exact H1|]. apply IH, H1.
Qed.

Lemma kept_access K K' va fl : kernel_ok lo hi K -> kept K K' -> user_access K' va fl = user_access K va fl.
Proof.
  intros HK Hk. destruct (kernel_current lo hi K HK) as [Hcur Hl].
  assert (Ep : current_process K' = current_process K).
  { unfold current_process. by rewrite (kp_procs _ _ Hk), (kp_current _ _ Hk). }
  unfold user_access. by rewrite Ep, (kp_walk _ _ Hk (k_current K) _ va Hcur Hl).
Qed.

(** The memory after [bytes] were stored from [va] on: the bytes, and nothing
    else. *)
Record stored K (va : Z) (bytes : list Z) K' : Prop := {
  st_bytes : forall k b pa, bytes !! k = Some b -> user_access K (u32 (va + Z.of_nat k)) PAGE_W = Some pa ->
    load8 (ph_mem (k_heap K')) pa = u8 b;
  st_frame : forall x, (forall k, 0 <= k < Z.of_nat (length bytes) -> user_access K (u32 (va + k)) PAGE_W <> Some x) ->
    load8 (ph_mem (k_heap K')) x = load8 (ph_mem (k_heap K)) x;
}.

Lemma copy_to_own bytes : forall K va, kernel_ok lo hi K -> 0 <= va < 2 ^ 32 ->
  own_range K va (Z.of_nat (length bytes)) PAGE_W ->
  exists K', copy_to bytes K va = Ret K' /\ rtc own_store K K' /\
    (Z.of_nat (length bytes) <= PAGE_SIZE -> stored K va bytes K').
Proof.
  induction bytes as [|b bytes IH]; intros K va HK Hva Hown.
  { exists K. split; [reflexivity|]. split; [apply rtc_refl|]. by split. }
  cbn [length] in Hown |- *. rewrite Nat2Z.inj_succ in Hown |- *.
  destruct (Hown 0 ltac:(lia)) as (pa & Ha). rewrite Z.add_0_r, u32_id in Ha by exact Hva.
  destruct (store_own K va b pa Ha) as (K1 & E1 & Hs & EK1).
  assert (Hst : own_store K K1) by (by exists va, b).
  pose proof (own_store_kept K K1 HK Hst) as H1.
  pose proof (fun va fl => kept_access K K1 va fl HK H1) as Hacc.
  destruct (IH K1 (u32 (va + 1)) (kp_ok _ _ H1) (u32_range _)) as (K' & E' & Hr & Htail).
  { intros k Hk. rewrite Hacc. apply (own_range_tail K va (Z.of_nat (length bytes))); [exact Hown|lia|exact Hk]. }
  exists K'. split; [cbn [copy_to]; by rewrite E1, bind_Ret_l|]. split; [by eapply rtc_l|].
  intros Hlen. destruct (Htail ltac:(lia)) as [Hb Hf]. split.
  - intros [|k] c pa' Hk Ha'.
    + injection Hk as <-. rewrite Z.add_0_r, u32_id in Ha' by exact Hva.
      rewrite Ha in Ha'. injection Ha' as <-. rewrite Hf.
      * rewrite EK1. cbn [set_heap k_heap]. by rewrite ph_mem_set_mem, load8_store8, Z.eqb_refl.
      * intros k Hk. rewrite Hacc, u32_step. apply (access_distinct K va 0 (k + 1)); [lia|lia|].
        by rewrite Z.add_0_r, u32_id by exact Hva.
    + apply (Hb k c pa' Hk). rewrite Hacc, u32_step. by replace (Z.of_nat k + 1) with (Z.of_nat (S k)) by lia.
  - intros x Hx. rewrite Hf.
    + rewrite EK1. cbn [set_heap k_heap]. rewrite ph_mem_set_mem, load8_store8.
      destruct (Z.eqb_spec x pa) as [->|]; [|done]. exfalso. apply (Hx 0); [cbn; lia|].
      by rewrite Z.add_0_r, u32_id by exact Hva.
    + intros k Hk. rewrite Hacc, u32_step. apply Hx. cbn [length]. lia.
Qed.

(** [memcpy] into a buffer of the program. *)
Lemma copy_out_own K a src n :
  kernel_ok lo hi K -> 0 <= n <= Z.of_nat (length src) -> own_range K (u32 a) n PAGE_W ->
  exists K', copy_out K (Num a) src n = Ret (None, K') /\ rtc own_store K K' /\
    (n <= PAGE_SIZE -> stored K (u32 a) (take (Z.to_nat n) src) K').
Proof.
  intros HK Hn Hown.
  assert (El : Z.of_nat (length (take (Z.to_nat n) src)) = n) by (rewrite length_take; lia).
  destruct (copy_to_own (take (Z.to_nat n) src) K (u32 a) HK (u32_range a)) as (K' & E & Hr & Hs); [by rewrite El|].
  rewrite El in Hs. exists K'. split; [|by split]. unfold copy_out. rewrite (proj2 (Z.leb_le _ _)) by lia. cbn [defined_if].
  by rewrite bind_Ret_l, E, bind_Ret_l.
Qed.

Lemma copy_out_runs K w src n d K' :
  kernel_ok lo hi K -> 0 <= n -> (forall a, w = Num a -> own_range K (u32 a) n PAGE_W) ->
  copy_out K w src n = Ret (d, K') -> rtc own_store K K'.
Proof.
  intros HK Hn Hown E. destruct w as [a|b].
  - pose proof E as E0. unfold copy_out in E0. apply bind_Ret_inv in E0 as ([] & Hl & _).
    apply defined_if_Ret_inv, Z.leb_le in Hl.
    destruct (copy_out_own K a src n HK (conj Hn Hl) (Hown a eq_refl)) as (K1 & E1 & Hr & _).
    rewrite E in E1. by injection E1 as -> ->.
  - apply bind_Ret_inv in E as (data & _ & E). injection E as _ <-. apply rtc_refl.
Qed.

Lemma own_stores_steps L K K' : rtc own_store K K' -> rtc (kernel_step lo hi L) K K'.
Proof.
  induction 1 as [K|K K1 K2 (va & v & Hva & E) _ IH]; [apply rtc_refl|].
  eapply rtc_l; [by eapply step_store|exact IH].
Qed.
End Stores.
