(* ===== verification/Syscall.v ===== *)
(** The kernel as a whole: system calls ([kernel/syscall.c]), traps and the
    boot sequence ([kernel/kernel.c]) over the state of all components.

    A pointer a user program passes is an address, which the kernel dereferences
    as [UserMemory.v] says, or the object it points to ([Ptr]).  The trap frame
    is the four argument registers; the registers themselves are in
    [Context.v]. *)

From Stdlib Require Import ZArith Lia.
From S2P Require Import Prelude Memory PageHeap Allocator PageTable Shm Process Kernel Strings Bytes Arp Ipv4 Ring Virtio Machine NetDriver Interrupts NetStack Disk Fs UserMemory.
Open Scope Z_scope.

Definition SYS_PUTCHAR : Z := 1.
Definition SYS_GETCHAR : Z := 2.
Definition SYS_EXIT : Z := 3.
Definition SYS_READFILE : Z := 4.
Definition SYS_WRITEFILE : Z := 5.
Definition SYS_SEND : Z := 6.
Definition SYS_ARP_REQUEST : Z := 7.
Definition SYS_ARP_DUMP : Z := 8.
Definition SYS_IPV4_DUMP : Z := 9.
Definition SYS_SHM_GET : Z := 10.
Definition SYS_SHM_ATTACH : Z := 11.
Definition SYS_SHM_DETACH : Z := 12.
Definition SYS_SHM_DUMP : Z := 13.

Definition SCAUSE_ECALL : Z := 8.
Definition SCAUSE_INTERRUPT : Z := Z.shiftl 1 31.
Definition SCAUSE_CODE_MASK : Z := 0x7fffffff.
Definition SCAUSE_SUPERVISOR_EXT : Z := 9.

(** ** Dumps of kernel tables *)

Definition newline : list Z := [10; 0].

Definition dump_object (o : shm_object) : outcome (list Z) :=
  if negb (shm_used o) then Ret []
  else printf (bytes_of "  id=%d key=%d pa=0x%x size=%d refcount=%d" ++ newline)
         [VInt (so_id o); VInt (so_key o); VInt (so_pa o); VInt (so_size o); VInt (so_refcount o)].

Fixpoint dump_objects (l : list shm_object) : outcome (list Z) :=
  match l with
  | [] => Ret []
  | o :: l' => a ← dump_object o; b ← dump_objects l'; Ret (a ++ b)
  end.

Definition shm_dump (sh : shm_state) : outcome (list Z) :=
  b ← dump_objects (shm_table sh); Ret (bytes_of "shared memory objects:" ++ [10] ++ b).

Definition dump_process (L : layout) (i : nat) (proc : process) : outcome (list Z) :=
  a ← printf (bytes_of "process {" ++ newline) [];
  b ← printf (bytes_of "  pid        = %d" ++ newline) [VInt (pid proc)];
  c ← printf (literal "  state      = %d") [VInt (p_state proc)];
  d ← printf (bytes_of (if p_state proc =? PROC_UNUSED then " (PROC_UNUSED)"
                        else if p_state proc =? PROC_RUNNABLE then " (PROC_RUNNABLE)"
                        else " (UNKNOWN)") ++ newline) [];
  e ← printf (bytes_of "  sp         = 0x%x" ++ newline) [VInt (p_sp proc)];
  f ← printf (bytes_of "  page_table = 0x%x" ++ newline) [VInt (page_table proc)];
  g ← printf (bytes_of "  stack      = 0x%x ~ 0x%x" ++ newline)
        [VInt (stack_top L i - 4 * Z.of_nat STACK_WORDS); VInt (stack_top L i)];
  h ← printf (bytes_of "}" ++ newline) [];
  Ret (a ++ b ++ c ++ d ++ e ++ f ++ g ++ h).

Fixpoint dump_procs_from (L : layout) (i : nat) (procs : list process) : outcome (list Z) :=
  match procs with
  | [] => Ret []
  | p :: procs' => a ← dump_process L i p; b ← dump_procs_from L (S i) procs'; Ret (a ++ b)
  end.
Definition dump_procs (L : layout) (procs : list process) : outcome (list Z) :=
  dump_procs_from L 0 procs.

(** ** The state of the system *)

(** [f->a0] to [f->a3]. *)
Record frame : Type := mkFrame { f_a0 : word; f_a1 : word; f_a2 : word; f_a3 : Z }.

(** Processes and memory, drivers and network, files, and the characters the
    console will deliver ([-1]: none at that poll). *)
Record os (H D : Type) : Type := mkOs {
  o_kernel : kstate H;
  o_machine : machine D;
  o_fs : fs_state;
  o_input : list Z;
}.
Arguments mkOs {H D}.
Arguments o_kernel {H D}.
Arguments o_machine {H D}.
Arguments o_fs {H D}.
Arguments o_input {H D}.

(** How a system call ends: back to the caller with [a0], and the object behind
    a [Ptr] when the call stores into it, or with another process running. *)
Inductive sysret : Type :=
  | Back (a0 : word) (buf : option (list Z))
  | Away (prev next : nat).

Section Code.
Context {H : Type} `{!PageHeap H} {D : Type} `{!Devices D}.
Implicit Types (s : os H D).

Definition set_kernel (K : kstate H) s : os H D := mkOs K (o_machine s) (o_fs s) (o_input s).
Definition set_machine (m : machine D) s : os H D := mkOs (o_kernel s) m (o_fs s) (o_input s).
Definition set_fs (fs : fs_state) s : os H D := mkOs (o_kernel s) (o_machine s) fs (o_input s).
Definition set_input (l : list Z) s : os H D := mkOs (o_kernel s) (o_machine s) (o_fs s) l.
Definition print (out : list Z) s : os H D := set_machine (emit out (o_machine s)) s.

(** Driver code runs with the [sstatus] of the processor. *)
Definition enter_machine s : machine D := set_m_sstatus (sstatus (k_csrs (o_kernel s))) (o_machine s).
Definition leave_machine (m : machine D) s : os H D :=
  let c := k_csrs (o_kernel s) in
  set_machine m (set_kernel (set_csrs (o_kernel s) (mkCsrs (m_sstatus m) (satp c) (sscratch c))) s).

(** [getchar] of [kernel/sbi.c] *)
Definition sbi_getchar s : Z * os H D :=
  match o_input s with
  | [] => (-1, s)
  | ch :: l => (ch, set_input l s)
  end.

(** The loop of [SYS_GETCHAR]: [fuel] polls of the console.  Polling for ever
    has no result. *)
Fixpoint getchar_loop (fuel : nat) (L : layout) s : outcome (sysret * os H D) :=
  match fuel with
  | O => Undef
  | S n =>
      m ← arp_poll (enter_machine s);
      let s := leave_machine m s in
      let '(ch, s) := sbi_getchar s in
      if 0 <=? ch then Ret (Back (Num ch) None, s)
      else
        '(sw, K) ← yield L (o_kernel s);
        let s := set_kernel K s in
        match sw with
        | None => getchar_loop n L s
        | Some (prev, next) => Ret (Away prev next, s)
        end
  end.
Definition polls s : nat := S (length (o_input s)).

(** What the process does once it is switched back to: the rest of [yield],
    with the [sstatus] it saved, and the loop again. *)
Definition getchar_resume (L : layout) (saved : Z) s : outcome (sysret * os H D) :=
  let s := set_kernel (yield_resume (o_kernel s) saved) s in
  getchar_loop (polls s) L s.

Definition sys_exit (L : layout) s : outcome (sysret * os H D) :=
  out ← printf (bytes_of "process %d exited" ++ newline) [VInt (pid (current_process (o_kernel s)))];
  '(sw, K) ← yield L (exit_current (o_kernel s));
  match sw with
  | None => Panic "unreachable"
  | Some (prev, next) => Ret (Away prev next, print out (set_kernel K s))
  end.

(** [SYS_READFILE] and [SYS_WRITEFILE]: [file->size] is a [size_t], [len] an
    [int] that [memcpy] takes as a [size_t]. *)
Definition copy_length (file : file) (len : Z) : Z :=
  if Z.of_nat FILE_DATA_SIZE <? len then s32 (f_size file) else len.

Definition sys_file (is_write : bool) (filename : list Z) (buf : word) (len : Z) s : outcome (sysret * os H D) :=
  found ← fs_lookup (files (o_fs s)) filename;
  match found with
  | None =>
      out ← printf (bytes_of "file not found: %s" ++ newline) [VStr filename];
      Ret (Back (Num (u32 (-1))) None, print out s)
  | Some i =>
      let file := files (o_fs s) !!! i in
      let len := copy_length file len in
      if is_write then
        data ← copy_in (f_data file) (o_kernel s) buf (u32 len);
        let file := mkFile (in_use file) (f_name file) data (u32 len) in
        let fs := mkFs (<[i := file]> (files (o_fs s))) (fs_disk (o_fs s)) in
        '(fs, m) ← fs_flush fs (enter_machine s);
        Ret (Back (Num (u32 len)) None, set_fs fs (leave_machine m s))
      else
        '(data, K) ← copy_out (o_kernel s) buf (f_data file) (u32 len);
        Ret (Back (Num (u32 len)) data, set_kernel K s)
  end.

(** The payload of [SYS_SEND]: [NULL], or the bytes [memcpy] of the driver reads,
    which it does once its checks have passed. *)
Definition fetch_payload s (buf : word) (len : Z) : outcome (option (list Z)) :=
  match buf with
  | Ptr b => Ret (Some b)
  | Num a =>
      if u32 a =? 0 then Ret None
      else if negb (net_up (m_net (o_machine s))) || (len <? 0)
        || (Z.of_nat ETH_MAX_FRAME_SIZE - Z.of_nat ETHERNET_HEADER_SIZE <? len) then Ret (Some [])
      else b ← copy_from (Z.to_nat len) (o_kernel s) (u32 a); Ret (Some b)
  end.

Definition handle_syscall (L : layout) (f : frame) s : outcome (sysret * os H D) :=
  let K := o_kernel s in
  if f_a3 f =? SYS_PUTCHAR then
    ch ← num (f_a0 f); Ret (Back (f_a0 f) None, print [u8 ch] s)
  else if f_a3 f =? SYS_GETCHAR then getchar_loop (polls s) L s
  else if f_a3 f =? SYS_EXIT then sys_exit L s
  else if (f_a3 f =? SYS_READFILE) || (f_a3 f =? SYS_WRITEFILE) then
    filename ← fetch_string K (f_a0 f); len ← num (f_a2 f);
    sys_file (f_a3 f =? SYS_WRITEFILE) filename (f_a1 f) (s32 len) s
  else if f_a3 f =? SYS_SEND then
    len ← num (f_a1 f); buf ← fetch_payload s (f_a0 f) (s32 len);
    '(sent, m) ← virtio_net_send_packet (enter_machine s) buf (s32 len);
    Ret (Back (Num (u32 sent)) None, leave_machine m s)
  else if f_a3 f =? SYS_ARP_REQUEST then
    ip ← num (f_a0 f);
    '(sent, m) ← arp_request (enter_machine s) (u32 ip);
    Ret (Back (Num (u32 sent)) None, leave_machine m s)
  else if f_a3 f =? SYS_ARP_DUMP then
    out ← arp_dump_cache (m_arp (o_machine s)); Ret (Back (Num 0) None, print out s)
  else if f_a3 f =? SYS_IPV4_DUMP then
    out ← ipv4_dump_stats (o_machine s); Ret (Back (Num 0) None, print out s)
  else if f_a3 f =? SYS_SHM_GET then
    key ← num (f_a0 f); '(ret, K) ← get_current K (s32 key);
    Ret (Back (Num (u32 ret)) None, set_kernel K s)
  else if f_a3 f =? SYS_SHM_ATTACH then
    id ← num (f_a0 f); '(ret, K) ← attach_current K (s32 id);
    Ret (Back (Num (u32 ret)) None, set_kernel K s)
  else if f_a3 f =? SYS_SHM_DETACH then
    vaddr ← num (f_a0 f); '(ret, K) ← detach_current K (u32 vaddr);
    Ret (Back (Num (u32 ret)) None, set_kernel K s)
  else if f_a3 f =? SYS_SHM_DUMP then
    out ← shm_dump (k_shm K); Ret (Back (Num 0) None, print out s)
  else Panic "unexpected syscall".

(** [handle_trap]: what becomes of the frame, [sepc] and the state.  An
    interrupt leaves the frame and [sepc] alone ([None]). *)
Definition handle_trap (L : layout) (scause sepc : Z) (f : frame) s
    : outcome (option (sysret * Z) * os H D) :=
  if negb (Z.land scause SCAUSE_INTERRUPT =? 0) then
    if Z.land scause SCAUSE_CODE_MASK =? SCAUSE_SUPERVISOR_EXT then
      m ← handle_external_interrupt (enter_machine s);
      Ret (None, leave_machine m s)
    else Panic "unexpected interrupt"
  else if Z.land scause SCAUSE_CODE_MASK =? SCAUSE_ECALL then
    '(r, s) ← handle_syscall L f s;
    Ret (Some (r, u32 (sepc + 4)), s)
  else Panic "unexpected trap".

(** A load and a store of the running process. *)
Definition user_load8 s (va : Z) : outcome Z :=
  match user_access (o_kernel s) va PAGE_R with
  | Some pa => Ret (load8 (ph_mem (k_heap (o_kernel s))) pa)
  | None => Panic "unexpected trap"
  end.
Definition user_store8 s (va v : Z) : outcome (os H D) :=
  match user_store (o_kernel s) va v with
  | Some K => Ret (set_kernel K s)
  | None => Panic "unexpected trap"
  end.
End Code.

(** ** Boot *)

Section Boot.
Context {D : Type} `{!Devices D}.

(** [kernel_main] up to the first switch, from the cleared BSS; [free_ram] is
    [__free_ram] and the shell image lies at [image].  Interrupts are enabled
    from the store to [sstatus] on; in this model they are taken in the waits of
    [fs_init] only. *)
Definition kernel_main (L : layout) (free_ram image image_size : Z) (s : os heap D)
    : outcome (nat * nat * os heap D) :=
  let K := o_kernel s in
  let h := k_heap K in
  let h := mkHeap (init_regions free_ram (free_ram_end L) (h_regions h)) (h_mem h) in
  let K := set_shm (set_csrs K (mkCsrs (sstatus (k_csrs K)) (satp (k_csrs K)) 0)) (shm_init (k_shm K)) in
  let m := set_m_sstatus (sstatus (k_csrs K)) (o_machine s) in
  '(h, m) ← virtio_blk_init h m;
  '(h, m) ← virtio_net_init h m;
  '(out, ip) ← ipv4_init;
  let m := emit out (set_m_ip ip m) in
  '(out, arp) ← arp_init;
  let m := emit out (set_m_arp arp m) in
  let m := set_m_dev (plic_init (m_dev m)) m in
  let m := set_m_sstatus (Z.lor (m_sstatus m) SSTATUS_SIE) m in
  '(fs, m) ← fs_init (o_fs s) m;
  K ← init_processes L (set_heap K h);
  '(_, K) ← create_process L K image image_size;
  let K := set_csrs K (mkCsrs (m_sstatus m) (satp (k_csrs K)) (sscratch (k_csrs K))) in
  '(sw, K) ← yield L K;
  match sw with
  | None => Panic "switched to idle process"
  | Some (prev, next) => Ret (prev, next, mkOs K m fs (o_input s))
  end.
End Boot.
