(* ===== verification/Sbi.v ===== *)
(** The console of the firmware ([kernel/sbi.c]): [sbi_call] is one [ecall] of
    the kernel, [putchar] and [getchar] are the legacy console calls of the SBI.

    The firmware is a parameter (class [Firmware]); what the kernel relies on is
    the contract [Console], the text of the SBI specification the source quotes:
    a character is written, or the next one typed is returned, or -1.  Against
    it, the list of bytes printed and the list of characters typed that the
    other files use are refined by the calls ([console_refines]). *)

From Stdlib Require Import ZArith Lia.
From S2P Require Import Prelude Memory PageHeap Allocator PageTable Shm Process Kernel Strings Bytes Arp Ipv4 Ring Virtio Machine NetDriver Interrupts NetStack Disk Fs SimDevices Reach UserMemory Syscall.
Open Scope Z_scope.

(** An [ecall] of the kernel with [a0] to [a7]: [a0], [a1] and the state of the
    firmware afterwards. *)
Class Firmware (W : Type) : Type := sbi_ecall : list Z -> W -> (Z * Z) * W.

Record sbiret : Type := mkSbiret { sbi_error : Z; sbi_value : Z }.

(** [Console Putchar] and [Console Getchar] *)
Definition SBI_PUTCHAR : Z := 1.
Definition SBI_GETCHAR : Z := 2.

Section Calls.
Context {W : Type} `{!Firmware W}.
Implicit Types w : W.

(** [long] has 32 bits. *)
Definition sbi_call (arg0 arg1 arg2 arg3 arg4 arg5 fid eid : Z) w : sbiret * W :=
  let '((a0, a1), w) := sbi_ecall (u32 <$> [arg0; arg1; arg2; arg3; arg4; arg5; fid; eid]) w in
  (mkSbiret (s32 a0) (s32 a1), w).

(** [char] is unsigned. *)
Definition putchar (ch : Z) w : W := snd (sbi_call (u8 ch) 0 0 0 0 0 0 SBI_PUTCHAR w).

Definition getchar w : Z * W :=
  let '(ret, w) := sbi_call 0 0 0 0 0 0 0 SBI_GETCHAR w in (sbi_error ret, w).
End Calls.

(** ** What the kernel relies on *)

(** The bytes written so far and the characters the next calls return; -1 is a
    call that finds none. *)
Class Console (W : Type) `{!Firmware W} : Type := {
  printed : W -> list Z;
  typed : W -> list Z;
  typed_range w : Forall (fun ch => -1 <= ch < 256) (typed w);
  console_putchar ch w : 0 <= ch < 256 ->
    let w' := snd (sbi_ecall [ch; 0; 0; 0; 0; 0; 0; SBI_PUTCHAR] w) in
    printed w' = printed w ++ [ch] /\ typed w' = typed w;
  console_getchar w :
    let '((a0, _), w') := sbi_ecall [0; 0; 0; 0; 0; 0; 0; SBI_GETCHAR] w in
    a0 = u32 (default (-1) (head (typed w))) /\ typed w' = tail (typed w) /\ printed w' = printed w;
}.

Section Laws.
Context {W : Type} `{!Firmware W, !Console W}.
Implicit Types w : W.

Lemma sbi_putchar_prints ch w :
  printed (putchar ch w) = printed w ++ [u8 ch] /\ typed (putchar ch w) = typed w.
Proof.
  pose proof (u8_range ch) as Hr. unfold putchar, sbi_call. cbn [fmap list_fmap].
  rewrite (u32_id (u8 ch)) by lia. change (u32 0) with 0. change (u32 SBI_PUTCHAR) with SBI_PUTCHAR.
  pose proof (console_putchar (u8 ch) w Hr) as Hc. destruct (sbi_ecall _ w) as [[a0 a1] w']. exact Hc.
Qed.

Lemma sbi_getchar_reads w :
  let '(ch, w') := getchar w in
  ch = default (-1) (head (typed w)) /\ typed w' = tail (typed w) /\ printed w' = printed w.
Proof.
  unfold getchar, sbi_call. cbn [fmap list_fmap].
  change (u32 0) with 0. change (u32 SBI_GETCHAR) with SBI_GETCHAR.
  pose proof (console_getchar w) as Hc. destruct (sbi_ecall _ w) as [[a0 a1] w'].
  destruct Hc as (-> & Ht & Hp). cbn [sbi_error]. split; [|by split].
  assert (Hr : -1 <= default (-1) (head (typed w)) < 256).
  { destruct (typed w) as [|ch l] eqn:E; [cbn; lia|]. pose proof (typed_range w) as Hf.
    rewrite E in Hf. by apply Forall_cons_1 in Hf as [Hf _]. }
  generalize dependent (default (-1) (head (typed w))). intros ch Hr. rewrite s32_u32. apply s32_id. lia.
Qed.
End Laws.

(** ** The two consoles *)

(** A program of console calls, run on the firmware and on the lists. *)
Inductive console_op : Type := Put (ch : Z) | Get.

Section Refinement.
Context {W : Type} `{!Firmware W, !Console W} {H D : Type}.
Implicit Types (w : W) (s : os H D).

Definition firmware_op (op : console_op) w : Z * W :=
  match op with Put ch => (0, putchar ch w) | Get => getchar w end.
Definition list_op (op : console_op) s : Z * os H D :=
  match op with Put ch => (0, print [u8 ch] s) | Get => sbi_getchar s end.

Fixpoint run_ops {S} (step : console_op -> S -> Z * S) (ops : list console_op) (s : S) : list Z * S :=
  match ops with
  | [] => ([], s)
  | op :: ops' =>
      let '(r, s) := step op s in
      let '(rs, s) := run_ops step ops' s in (r :: rs, s)
  end.

(** The bytes the kernel has printed and the input it will read are those of
    the firmware. *)
Definition same_console w s : Prop := m_out (o_machine s) = printed w /\ o_input s = typed w.

Lemma console_step op w s :
  same_console w s ->
  fst (list_op op s) = fst (firmware_op op w) /\ same_console (snd (firmware_op op w)) (snd (list_op op s)) /\
  o_kernel (snd (list_op op s)) = o_kernel s /\ o_fs (snd (list_op op s)) = o_fs s.
Proof.
  intros [Ho Hi]. destruct op as [ch|]; cbn [firmware_op list_op].
  - destruct (sbi_putchar_prints ch w) as [Ep Et]. split; [reflexivity|]. split; [|by split].
    split; cbn; [by rewrite Ep, Ho|by rewrite Et].
  - pose proof (sbi_getchar_reads w) as Hg. destruct (getchar w) as [ch w']. destruct Hg as (-> & Et & Ep).
    unfold sbi_getchar. rewrite Hi. destruct (typed w) as [|c l] eqn:E; cbn.
    + split; [reflexivity|]. split; [|by split]. split; [by rewrite Ep|by rewrite Hi, Et].
    + split; [reflexivity|]. split; [|by split]. split; [by rewrite Ep|by rewrite Et].
Qed.

(** C40: the console refines its lists.  Any sequence of [putchar] and [getchar]
    calls of the kernel on firmware that keeps the SBI contract returns the
    values the model of the system calls returns, leaves the printed bytes and
    the remaining input equal on both sides, and touches neither the processes
    nor the files. *)
Theorem console_refines (ops : list console_op) w s :
  same_console w s ->
  let '(rs, w') := run_ops firmware_op ops w in
  let '(rs', s') := run_ops list_op ops s in
  rs' = rs /\ same_console w' s' /\ o_kernel s' = o_kernel s /\ o_fs s' = o_fs s.
Proof.
  revert w s. induction ops as [|op ops IH]; intros w s Hc; cbn [run_ops]; [done|].
  destruct (console_step op w s Hc) as (Er & Hc' & Ek & Ef).
  destruct (firmware_op op w) as [r w1]. destruct (list_op op s) as [r' s1]. cbn [fst snd] in *.
  specialize (IH w1 s1 Hc'). destruct (run_ops firmware_op ops w1) as [rs w2].
  destruct (run_ops list_op ops s1) as [rs' s2]. destruct IH as (-> & Hc2 & Ek2 & Ef2).
  by rewrite Er, Ek2, Ef2.
Qed.
End Refinement.

(** ** A firmware *)

(** A terminal: what is on the screen, and the keys not read yet. *)
Record terminal : Type := mkTerminal { screen : list Z; keys : list (option Byte.byte) }.

Definition key_code (k : option Byte.byte) : Z :=
  match k with Some b => Z.of_N (Byte.to_N b) | None => -1 end.

#[export] Instance terminal_firmware : Firmware terminal := fun args w =>
  match args with
  | [a0; _; _; _; _; _; _; a7] =>
      if a7 =? SBI_PUTCHAR then ((0, 0), mkTerminal (screen w ++ [a0]) (keys w))
      else if a7 =? SBI_GETCHAR then
        match keys w with
        | [] => ((u32 (-1), 0), w)
        | k :: l => ((u32 (key_code k), 0), mkTerminal (screen w) l)
        end
      else ((u32 (-2), 0), w)
  | _ => ((u32 (-2), 0), w)
  end.

#[export] Program Instance terminal_console : Console terminal := {|
  printed := screen;
  typed := fun w => key_code <$> keys w;
|}.
Next Obligation.
  intros w. apply Forall_fmap, Forall_true. intros [b|]; cbn; [|lia].
  pose proof (Byte.to_N_bounded b). lia.
Qed.
Next Obligation. intros ch w Hch. by split. Qed.
Next Obligation. intros w. unfold sbi_ecall, terminal_firmware. cbn. by destruct (keys w) as [|k l] eqn:E; cbn; rewrite ?E. Qed.

(** Two keys pressed around a poll that finds none: [hi] echoed. *)
Definition demo_terminal : terminal := mkTerminal [65] [Some Byte.x68; None; Some Byte.x69].
Definition demo_console : os unit disk_image :=
  mkOs (boot_kernel tt (mkCsrs 0 0 0)) (set_m_out [65] (disk_machine (fun _ => []))) (mkFs [] [])
    [0x68; -1; 0x69].
Definition demo_ops : list console_op := [Get; Put 0x168; Get; Get; Put 0x69; Get].

Lemma console_refines_witness :
  let '(rs, w') := run_ops firmware_op demo_ops demo_terminal in
  let '(rs', s') := run_ops list_op demo_ops demo_console in
  rs' = rs /\ rs = [0x68; 0; -1; 0x69; 0; -1] /\ screen w' = [65; 0x68; 0x69] /\
  m_out (o_machine s') = screen w'.
Proof.
  pose proof (console_refines demo_ops demo_terminal demo_console ltac:(by split)) as Hr.
  assert (E : run_ops firmware_op demo_ops demo_terminal =
    ([0x68; 0; -1; 0x69; 0; -1], mkTerminal [65; 0x68; 0x69] [])) by reflexivity.
  rewrite E in *. destruct (run_ops list_op demo_ops demo_console) as [rs' s'].
  destruct Hr as (Er & [Ho _] & _). split; [exact Er|]. split; [reflexivity|]. split; [reflexivity|exact Ho].
Defined.
