(* ===== verification/EcallPath.v ===== *)
(** A system call at the level of registers: the [ecall] of [syscall]
    ([user/user.c]), [kernel_entry], [handle_trap] on the frame in memory, and the
    return.  The other files take the arguments of a call from a [frame] and
    return its result as a value; here both are the registers of the caller, and
    pointers are addresses. *)

From Stdlib Require Import ZArith Lia.
From S2P Require Import Prelude Memory PageHeap Allocator PageTable Shm Process Kernel Views Reach World Context Strings Bytes Arp Ipv4 Ring Virtio Machine NetDriver Interrupts NetStack Disk Fs SimDevices FsImage UserMemory Syscall.
Open Scope Z_scope.

(** [f->a0] to [f->a3] of the frame at [f] ([struct trap_frame]). *)
Definition frame_at (m : mem) (f : Z) : frame :=
  mkFrame (Num (load32 m (f + 4 * 10))) (Num (load32 m (f + 4 * 11))) (Num (load32 m (f + 4 * 12)))
    (load32 m (f + 4 * 13)).

(** The arguments in the registers of the caller. *)
Definition call_frame (s : cpu) : frame :=
  mkFrame (Num (regs s A0)) (Num (regs s A1)) (Num (regs s A2)) (regs s A3).

Section Path.
Context {H : Type} `{!PageHeap H} {D : Type} `{!Devices D} (L : layout).
Implicit Types (o : os H D) (s : cpu).

(** [s2] is the processor after [handle_trap] with the frame at [a0], called in
    [s1], when the kernel moves from [o] to [o'] and comes back to the caller:
    the result is in the frame, [sepc] is what it stored, and the rest is what
    the calling convention keeps. *)
Record handles (scause : Z) o s1 s2 o' : Prop := {
  hd_call : exists r buf pc,
    handle_trap L scause (ctl s1 Sepc) (frame_at (c_mem s1) (regs s1 A0)) o = Ret (Some (Back (Num r) buf, pc), o') /\
    load32 (c_mem s2) (regs s1 A0 + 4 * 10) = u32 r /\ ctl s2 Sepc = u32 pc;
  hd_keeps : callee_keeps (regs s1 A0) s1 s2;
}.

Lemma trap_state_frame pc f s s1 : trap_state false pc f s s1 -> frame_at (c_mem s1) (regs s1 A0) = call_frame s.
Proof.
  intros (_ & -> & _ & _ & _ & Hf & _). unfold frame_at, call_frame.
  rewrite <-(Hf 10%nat A0 eq_refl), <-(Hf 11%nat A1 eq_refl), <-(Hf 12%nat A2 eq_refl), <-(Hf 13%nat A3 eq_refl).
  reflexivity.
Qed.

Lemma handle_trap_returns pc f o r o' :
  handle_syscall L f o = Ret (r, o') -> handle_trap L SCAUSE_ECALL pc f o = Ret (Some (r, u32 (pc + 4)), o').
Proof. intros E. change (handle_trap L SCAUSE_ECALL pc f o) with
  ('(r, s) ← handle_syscall L f o; Ret (Some (r, u32 (pc + 4)), s)). by rewrite E. Qed.
End Path.

(** A system call goes through the registers.  A user program executes
    [ecall] at [pc] with the call number in [a3] and its arguments in [a0] to
    [a2]; the kernel answers it on the frame [kernel_entry] builds from exactly
    these registers.  When it comes back to the caller, execution goes on in user
    mode at the next instruction, [a0] is the result, every other register and
    [sscratch] are what they were, and interrupts are enabled as before. *)
Theorem ecall_path {H : Type} `{!PageHeap H} {D : Type} `{!Devices D} (L : layout)
    (callee : routine -> cpu -> outcome cpu) (pc ksp : Z) (s : cpu) (o o' : os H D) r buf :
  cpu_ok s -> 128 <= ksp < 2 ^ 32 -> ctl s Sscratch = ksp -> 0 <= pc < 2 ^ 32 ->
  handle_syscall L (call_frame s) o = Ret (Back (Num r) buf, o') ->
  (forall s1, trap_state false pc (ksp - 128) s s1 ->
     exists s2, callee HandleTrap s1 = Ret s2 /\ handles L SCAUSE_ECALL o s1 s2 o') ->
  exists s', exec callee kernel_entry None (take_trap false pc s) = Ret (ToUser (u32 (pc + 4)), s') /\
    regs s' A0 = u32 r /\ (forall x, x <> A0 -> regs s' x = regs s x) /\
    ctl s' Sscratch = ctl s Sscratch /\ Z.testbit (ctl s' Sstatus) 1 = Z.testbit (ctl s Sstatus) 1.
Proof.
  intros Hs Hk Hx Hpc Hcall Hh.
  assert (Hrun : forall s1, trap_state false pc (ksp - 128) s s1 ->
    handle_trap L SCAUSE_ECALL (ctl s1 Sepc) (frame_at (c_mem s1) (regs s1 A0)) o =
      Ret (Some (Back (Num r) buf, u32 (pc + 4)), o')).
  { intros s1 H1. rewrite (trap_state_frame _ _ _ _ H1). destruct H1 as (_ & _ & _ & _ & Epc & _).
    rewrite Epc, (u32_id pc) by lia. exact (handle_trap_returns L pc _ o _ o' Hcall). }
  destruct (trap_returns callee false pc ksp s Hs Hk Hx) as (s1 & s2 & s' & H1 & E2 & E & Hr & Ha & Hsc & Hie & _).
  { intros s1 H1. destruct (Hh s1 H1) as (s2 & E2 & [_ Hk2]). destruct H1 as (_ & Ea & _).
    exists s2. split; [exact E2|]. by rewrite <-Ea. }
  destruct (Hh s1 H1) as (s2' & E2' & [(r' & buf' & pc' & Er' & Hres & Hpc') _]).
  rewrite E2 in E2'. injection E2' as <-. rewrite (Hrun s1 H1) in Er'. injection Er' as <- <- <-.
  destruct H1 as (_ & Ea & _). rewrite Ea in Hres.
  exists s'. rewrite Hpc', u32_u32 in E. split; [exact E|]. split; [rewrite Ha; exact Hres|]. by split.
Qed.

(** ** A handler *)

(** [handle_trap] as a function of the processor, the kernel in state [o]. *)
Definition kernel_handler {H : Type} `{!PageHeap H} {D : Type} `{!Devices D} (L : layout) (o : os H D)
    (f : routine) (s : cpu) : outcome cpu :=
  '(ret, _) ← handle_trap L SCAUSE_ECALL (ctl s Sepc) (frame_at (c_mem s) (regs s A0)) o;
  match ret with
  | Some (Back (Num r) _, pc) => Ret (set_csr Sepc pc (set_cmem (store32 (c_mem s) (regs s A0 + 4 * 10) r) s))
  | _ => Undef
  end.

Lemma kernel_handler_handles {H : Type} `{!PageHeap H} {D : Type} `{!Devices D} (L : layout) (o o' : os H D) s r buf pc :
  handle_trap L SCAUSE_ECALL (ctl s Sepc) (frame_at (c_mem s) (regs s A0)) o = Ret (Some (Back (Num r) buf, pc), o') ->
  exists s2, kernel_handler L o HandleTrap s = Ret s2 /\ handles L SCAUSE_ECALL o s s2 o'.
Proof.
  intros E. eexists. split; [unfold kernel_handler; rewrite E, bind_Ret_l; reflexivity|]. split.
  - exists r, buf, pc. split; [exact E|]. split; [exact (load32_store32_same _ _ _)|]. by rewrite ctl_set_csr.
  - split; [done|]. split; [done|]. split; [done|]. intros k Hk Hne. apply load32_store32_other. lia.
Qed.

(** A program prints a character. *)
Definition ecall_cpu : cpu :=
  mkCpu (fun r => match r with SP => 0x1600000 | A0 => 65 | A3 => SYS_PUTCHAR | _ => 3 end)
    (fun c => match c with Sscratch => 0x80300000 | _ => 2 end) (fun _ => 0).
Definition ecall_os : os heap disk_image :=
  mkOs (boot_kernel world_heap world_csrs) (disk_machine (fun _ => [])) fs_boot [].

Lemma ecall_path_witness :
  exists s', exec (kernel_handler (Devices0 := disk_devices) world_layout ecall_os) kernel_entry None
      (take_trap false 0x1000100 ecall_cpu) = Ret (ToUser 0x1000104, s') /\ regs s' A0 = 65 /\ regs s' A3 = 1.
Proof.
  destruct (ecall_path (Devices0 := disk_devices) world_layout
    (kernel_handler (Devices0 := disk_devices) world_layout ecall_os) 0x1000100 0x80300000 ecall_cpu ecall_os
    (print [65] ecall_os) 65 None) as (s' & E & Ea & Er & _).
  - intros r. destruct r; cbn; unfold SYS_PUTCHAR; lia.
  - lia.
  - reflexivity.
  - lia.
  - reflexivity.
  - intros s1 H1. apply (kernel_handler_handles _ _ _ _ 65 None 0x1000104).
    rewrite (trap_state_frame _ _ _ _ H1). destruct H1 as (_ & _ & _ & _ & -> & _). reflexivity.
  - exists s'. split; [exact E|]. split; [exact Ea|exact (Er A3 ltac:(discriminate))].
Defined.
