(* ===== verification/SyscallProps.v ===== *)
(** Properties of system calls and traps.

    Every trap preserves the invariant of processes and memory, whatever numbers the
    user program passes, but for a buffer of [SYS_READFILE] that is not its own
    ([own_buffer]); and what a program writes to a file it reads back. *)

From Stdlib Require Import ZArith Lia.
From stdpp Require Import relations.
From S2P Require Import Prelude Memory PageHeap Allocator PageTable Shm Process Context KernelInv System Lifecycle AddressSpace Kernel Reach World Strings Bytes Arp Ipv4 Ring Virtio Machine NetDriver Interrupts NetStack Disk Fs SimDevices FsImage UserMemory Syscall.
Open Scope Z_scope.

(** Bit 31 of a word. *)
Lemma interrupt_bit x : 0 <= x < 2 ^ 32 -> Z.land x (Z.shiftl 1 31) = if x <? 2 ^ 31 then 0 else 2 ^ 31.
Proof.
  intros Hx. rewrite land_bit_value by lia. rewrite Z.shiftl_1_l.
  destruct (Z.ltb_spec x (2 ^ 31)) as [Hlt|Hge].
  - assert (E : Z.testbit x 31 = false); [|by rewrite E].
    rewrite Z.testbit_eqb by lia. rewrite Z.div_small by lia. done.
  - assert (E : Z.testbit x 31 = true); [|by rewrite E].
    rewrite Z.testbit_eqb by lia. replace (x / 2 ^ 31) with 1; [done|]. Z.to_euclidean_division_equations. lia.
Qed.

(** ** Pointers of the program *)

Lemma fs_lookup_lt fl name : forall i, fs_lookup fl name = Ret (Some i) -> (i < length fl)%nat.
Proof.
  induction fl as [|f fl IH]; intros i E; [discriminate E|]. cbn [fs_lookup] in E.
  apply bind_Ret_inv in E as (c & _ & E). destruct (c =? 0); [injection E as <-; cbn; lia|].
  apply bind_Ret_inv in E as ([j|] & E' & E); [|discriminate E]. injection E as <-. specialize (IH j E'). cbn. lia.
Qed.

Section Pointers.
Context {H : Type} `{!PageHeap H} {D : Type} `{!Devices D}.
Implicit Types (s : os H D).

(** The bytes [SYS_READFILE] will store to are the program's own to write, whichever
    file it finds. *)
Definition own_read s (is_write : bool) (buf : word) (len : Z) : Prop :=
  is_write = false -> forall a i, buf = Num a -> (i < length (files (o_fs s)))%nat ->
    own_range (o_kernel s) (u32 a) (u32 (copy_length (files (o_fs s) !!! i) len)) PAGE_W.

(** Of the call in [f]; the other calls store nothing through a pointer of
    the program. *)
Definition own_buffer s (f : frame) : Prop :=
  f_a3 f = SYS_READFILE -> forall n, f_a2 f = Num n -> own_read s false (f_a1 f) (s32 n).

Lemma own_buffer_file s f n :
  own_buffer s f -> (f_a3 f =? SYS_READFILE) || (f_a3 f =? SYS_WRITEFILE) = true ->
  num (f_a2 f) = Ret n -> own_read s (f_a3 f =? SYS_WRITEFILE) (f_a1 f) (s32 n).
Proof.
  intros Ho Ef Ha Hw. rewrite Hw, orb_false_r in Ef. apply Z.eqb_eq in Ef.
  destruct (f_a2 f) as [k|b] eqn:E2; [|discriminate Ha]. injection Ha as ->. by apply (Ho Ef n E2).
Qed.

Lemma handle_trap_ecall L sepc f s :
  handle_trap L SCAUSE_ECALL sepc f s = ('(r, s) ← handle_syscall L f s; Ret (Some (r, u32 (sepc + 4)), s)).
Proof. reflexivity. Qed.

Lemma set_kernel_id s : set_kernel (o_kernel s) s = s.
Proof. by destruct s. Qed.
End Pointers.

Section Steps.
Context {H : Type} `{!PageHeap H} (lo hi : Z) `{!PageHeapSpec H lo hi} {D : Type} `{!Devices D} (L : layout).
Implicit Types (s : os H D) (K : kstate H).

(** The kernel part of [s'] is reached from that of [s] by the operations on
    processes and shared memory. *)
Definition runs s s' : Prop := rtc (kernel_step lo hi L) (o_kernel s) (o_kernel s').

Lemma runs_refl s s' : o_kernel s' = o_kernel s -> runs s s'.
Proof. unfold runs. intros ->. apply rtc_refl. Qed.

Lemma runs_step s s' : kernel_step lo hi L (o_kernel s) (o_kernel s') -> runs s s'.
Proof. apply rtc_once. Qed.

Lemma runs_trans s1 s2 s3 : runs s1 s2 -> runs s2 s3 -> runs s1 s3.
Proof. unfold runs. intros H1 H2. by etrans. Qed.

(** Driver code changes [sstatus] only. *)
Lemma runs_machine m s : runs s (leave_machine m s).
Proof. apply runs_step, step_csrs. Qed.

Lemma getchar_loop_runs fuel : forall s r s', getchar_loop fuel L s = Ret (r, s') -> runs s s'.
Proof.
  induction fuel as [|fuel IH]; intros s r s' Hr; [discriminate Hr|]. cbn [getchar_loop] in Hr.
  apply bind_Ret_inv in Hr as (m & _ & Hr). pose proof (runs_machine m s) as H1.
  set (s1 := leave_machine m s) in *. clearbody s1.
  destruct (sbi_getchar s1) as [ch s2] eqn:Eg.
  assert (E2 : o_kernel s2 = o_kernel s1) by (unfold sbi_getchar in Eg; destruct (o_input s1); by injection Eg as <- <-).
  assert (H2 : runs s s2) by (unfold runs; by rewrite E2). clear H1 E2.
  destruct (0 <=? ch); [by injection Hr as <- <-|].
  apply bind_Ret_inv in Hr as ([sw K'] & Hy & Hr).
  assert (H3 : runs s (set_kernel K' s2)) by (eapply rtc_r; [exact H2|by eapply step_yield]).
  destruct sw as [[prev next]|]; [by injection Hr as <- <-|].
  eapply runs_trans; [exact H3|]. by apply (IH (set_kernel K' s2) r s').
Qed.

Lemma sys_file_runs w name buf len s r s' :
  kernel_ok lo hi (o_kernel s) -> own_read s w buf len -> sys_file w name buf len s = Ret (r, s') -> runs s s'.
Proof.
  intros HK Hown Hr. unfold sys_file in Hr. apply bind_Ret_inv in Hr as ([i|] & Hlk & Hr).
  - destruct w; cbv zeta in Hr.
    + apply bind_Ret_inv in Hr as (data & _ & Hr). apply bind_Ret_inv in Hr as ([fs m] & _ & Hr).
      injection Hr as <- <-. apply (runs_machine m s).
    + apply bind_Ret_inv in Hr as ([data K] & Hc & Hr). injection Hr as <- <-.
      apply (own_stores_steps lo hi L). eapply (copy_out_runs lo hi); [exact HK| | |exact Hc]; [apply u32_range|].
      intros a E. apply (Hown eq_refl a i E). by eapply fs_lookup_lt.
  - apply bind_Ret_inv in Hr as (out & _ & Hr). injection Hr as <- <-. by apply runs_refl.
Qed.

Lemma sys_exit_runs s r s' :
  k_current (o_kernel s) <> k_idle (o_kernel s) -> sys_exit L s = Ret (r, s') -> runs s s'.
Proof.
  intros Hne Hr. unfold sys_exit in Hr. apply bind_Ret_inv in Hr as (out & _ & Hr).
  apply bind_Ret_inv in Hr as ([sw K'] & Hy & Hr).
  assert (Hk : rtc (kernel_step lo hi L) (o_kernel s) K').
  { eapply rtc_l; [by apply step_exit|]. eapply rtc_once. by eapply step_yield. }
  destruct sw as [[prev next]|]; [by injection Hr as <- <-|discriminate Hr].
Qed.

Lemma handle_syscall_runs f s r s' :
  kernel_ok lo hi (o_kernel s) -> k_current (o_kernel s) <> k_idle (o_kernel s) -> own_buffer s f ->
  handle_syscall L f s = Ret (r, s') -> runs s s'.
Proof.
  intros HK Hne Ho Hr. unfold handle_syscall in Hr.
  repeat match type of Hr with
  | (if ?c then _ else _) = _ => destruct c eqn:?
  | (_ ≫= _) = Ret _ => let x := fresh "x" in let E := fresh "E" in
      apply bind_Ret_inv in Hr as (x & E & Hr); try (is_var x; destruct x as [? ?])
  end; try discriminate Hr;
    try (injection Hr as <- <-; first [by apply runs_refl | apply runs_machine]).
  - by eapply getchar_loop_runs.
  - by eapply sys_exit_runs.
  - eapply sys_file_runs; [exact HK| |exact Hr]. by apply own_buffer_file.
  - injection Hr as <- <-. apply runs_step. eapply step_get; [apply s32_range|done].
  - injection Hr as <- <-. apply runs_step. by eapply step_attach.
  - injection Hr as <- <-. apply runs_step. by eapply step_detach.
Qed.

Lemma handle_trap_runs scause sepc f s r s' :
  kernel_ok lo hi (o_kernel s) -> k_current (o_kernel s) <> k_idle (o_kernel s) -> own_buffer s f ->
  handle_trap L scause sepc f s = Ret (r, s') -> runs s s'.
Proof.
  intros HK Hne Ho Hr. unfold handle_trap in Hr. destruct (negb _); [destruct (_ =? _)|destruct (_ =? _)]; try discriminate Hr.
  - apply bind_Ret_inv in Hr as (m & _ & Hr). injection Hr as <- <-. apply (runs_machine m s).
  - apply bind_Ret_inv in Hr as ([ret s1] & Hs & Hr). injection Hr as <- <-. by eapply handle_syscall_runs.
Qed.
End Steps.

(** C3: no trap breaks the kernel.  From any state in which the invariant of
    processes, page tables, shared memory and pages holds and a user process
    runs, whatever the cause of the trap and the numbers in the argument registers
    are, a [handle_trap] that returns leaves the invariant holding, provided that
    the buffer of a [SYS_READFILE] lies in pages the process itself may write
    ([own_buffer]): the kernel does not check that, and stores to any other address
    its page table maps.  Interrupts leave the trap frame and
    [sepc] alone, a system call goes back four bytes further on, and nothing but
    an external interrupt or an [ecall] returns. *)
Theorem trap_preserves_kernel {H : Type} `{!PageHeap H} (lo hi : Z) `{!PageHeapSpec H lo hi}
    {D : Type} `{!Devices D} (L : layout) (scause sepc a0 a1 a2 a3 : Z) (s s' : os H D) r :
  layout_ok L -> kernel_ok lo hi (o_kernel s) -> k_current (o_kernel s) <> k_idle (o_kernel s) ->
  let f := mkFrame (Num a0) (Num a1) (Num a2) a3 in
  own_buffer s f -> 0 <= scause < 2 ^ 32 -> handle_trap L scause sepc f s = Ret (r, s') ->
  kernel_ok lo hi (o_kernel s') /\
  ((r = None /\ scause = SCAUSE_INTERRUPT + SCAUSE_SUPERVISOR_EXT /\ k_procs (o_kernel s') = k_procs (o_kernel s)) \/
   (scause = SCAUSE_ECALL /\ exists ret, r = Some (ret, u32 (sepc + 4)) /\ handle_syscall L f s = Ret (ret, s'))).
Proof.
  intros HL HK Hne f Ho Hsc Hr. split.
  { eapply kernel_steps_ok; [exact HL|exact HK|by eapply handle_trap_runs]. }
  unfold handle_trap in Hr.
  assert (Ecode : Z.land scause SCAUSE_CODE_MASK = scause mod 2 ^ 31) by apply (Z.land_ones scause 31 ltac:(lia)).
  assert (Eint : Z.land scause SCAUSE_INTERRUPT = if scause <? 2 ^ 31 then 0 else 2 ^ 31).
  { unfold SCAUSE_INTERRUPT. apply interrupt_bit. lia. }
  rewrite Ecode, Eint in Hr.
  destruct (Z.ltb_spec scause (2 ^ 31)) as [Hlt|Hge]; cbn [negb Z.eqb] in Hr.
  - rewrite Z.mod_small in Hr by lia. destruct (Z.eqb_spec scause SCAUSE_ECALL) as [E|]; [|discriminate Hr].
    apply bind_Ret_inv in Hr as ([ret s1] & Hs & Hr). injection Hr as <- <-.
    right. split; [exact E|]. by exists ret.
  - change (negb (2 ^ 31 =? 0)) with true in Hr. cbv iota in Hr.
    destruct (Z.eqb_spec (scause mod 2 ^ 31) SCAUSE_SUPERVISOR_EXT) as [E|]; [|discriminate Hr].
    apply bind_Ret_inv in Hr as (m & _ & Hr). injection Hr as <- <-.
    left. split; [done|]. split; [|done].
    rewrite <-E. unfold SCAUSE_INTERRUPT. rewrite Z.shiftl_1_l. Z.to_euclidean_division_equations. lia.
Qed.

(** ** Files *)

Section Files.
Context {H : Type} `{!PageHeap H} {D : Type} `{!Devices D} `{!BlkSpec D}.
Implicit Types (s : os H D).

Lemma enter_leave_machine m s : enter_machine (leave_machine m s) = m.
Proof. by destruct m. Qed.

Lemma leave_machine_eq m s :
  o_fs (leave_machine m s) = o_fs s /\ o_machine (leave_machine m s) = m /\
  k_procs (o_kernel (leave_machine m s)) = k_procs (o_kernel s).
Proof. done. Qed.

(** Looking up depends on the names only. *)
Lemma fs_lookup_names fl fl' name : f_name <$> fl = f_name <$> fl' -> fs_lookup fl name = fs_lookup fl' name.
Proof.
  revert fl'. induction fl as [|f fl IH]; intros [|f' fl'] E; try discriminate E; [done|].
  injection E as E1 E2. cbn [fs_lookup]. rewrite E1. by rewrite (IH fl' E2).
Qed.

(** The file after [memcpy(file->data, buf, len)] and [file->size = len]. *)
Definition written (f : file) (bytes : list Z) : file :=
  mkFile (in_use f) (f_name f) (put 0 bytes (f_data f)) (Z.of_nat (length bytes)).

Lemma written_wf f bytes : file_wf f -> (length bytes <= FILE_DATA_SIZE)%nat -> file_wf (written f bytes).
Proof.
  intros Hf Hb. pose proof (fw_data_length _ Hf) as Hd. split; cbn [written f_name f_data f_size in_use].
  - apply Hf.
  - rewrite length_put; lia.
  - lia.
  - apply Hf.
Qed.

Lemma copy_whole dst bytes :
  (length bytes <= length dst)%nat -> copy_bytes dst bytes (Z.of_nat (length bytes)) = Ret (put 0 bytes dst).
Proof.
  intros Hl. pose proof (copy_bytes_prefix dst bytes [] (Z.of_nat (length bytes))) as E.
  rewrite app_nil_r in E. apply E; lia.
Qed.

Lemma copy_written f bytes dst :
  (length bytes <= length (f_data f))%nat -> (length bytes <= length dst)%nat ->
  copy_bytes dst (f_data (written f bytes)) (Z.of_nat (length bytes)) = Ret (put 0 bytes dst).
Proof.
  intros Hd Hl. cbn [written f_data]. unfold put at 1. rewrite take_0. cbn [app].
  apply copy_bytes_prefix; lia.
Qed.

Lemma sys_write_spec s name i bytes :
  blk_ready (enter_machine s) -> Forall file_wf (files (o_fs s)) -> Z.of_nat DISK_SECTORS <= disk_sectors ->
  fs_lookup (files (o_fs s)) name = Ret (Some i) -> (length bytes <= FILE_DATA_SIZE)%nat ->
  let fl := <[i := written (files (o_fs s) !!! i) bytes]> (files (o_fs s)) in
  (length (archive fl) <= Z.to_nat DISK_MAX_SIZE)%nat ->
  exists s', sys_file true name (Ptr bytes) (Z.of_nat (length bytes)) s =
      Ret (Back (Num (Z.of_nat (length bytes))) None, s') /\
    files (o_fs s') = fl /\ blk_ready (enter_machine s') /\ on_disk (image_of fl) (o_machine s') /\
    exists m, s' = set_fs (mkFs fl (image_of fl)) (leave_machine m s) /\ blk_ready m /\ net_frame (enter_machine s) m.
Proof.
  intros Hm Hwf Hd Hlk Hb fl Hfit. pose proof (fs_lookup_lt _ _ _ Hlk) as Hi.
  assert (Hf : file_wf (files (o_fs s) !!! i)).
  { rewrite Forall_lookup in Hwf. apply (Hwf i). by apply aget_Some. }
  unfold FILE_DATA_SIZE in Hb.
  unfold sys_file. rewrite Hlk, bind_Ret_l. cbv iota zeta. unfold copy_length, copy_in.
  rewrite (proj2 (Z.ltb_ge _ _)) by (unfold FILE_DATA_SIZE; lia). rewrite u32_id by lia.
  rewrite copy_whole by (rewrite (fw_data_length _ Hf); unfold FILE_DATA_SIZE; lia). rewrite bind_Ret_l.
  fold (written (files (o_fs s) !!! i) bytes). fold fl.
  pose proof (fs_flush_spec (mkFs fl (fs_disk (o_fs s))) (enter_machine s) Hm) as Hflush.
  cbn [files] in Hflush. rewrite (proj2 (Nat.leb_le _ _) Hfit) in Hflush.
  destruct Hflush as (m' & E & Hm' & F & Hdisk); [|exact Hd|].
  { apply Forall_insert; [exact Hwf|]. by apply written_wf. }
  rewrite E, bind_Ret_l. eexists. split; [reflexivity|]. split; [reflexivity|].
  split; [by destruct m'|]. split; [exact Hdisk|]. by exists m'.
Qed.

Lemma sys_read_spec s name i f bytes dst :
  fs_lookup (files (o_fs s)) name = Ret (Some i) -> files (o_fs s) !!! i = written f bytes ->
  (length bytes <= FILE_DATA_SIZE)%nat -> length (f_data f) = FILE_DATA_SIZE -> (length bytes <= length dst)%nat ->
  sys_file false name (Ptr dst) (Z.of_nat (length bytes)) s =
    Ret (Back (Num (Z.of_nat (length bytes))) (Some (put 0 bytes dst)), s).
Proof.
  intros Hlk Hf Hb Hd Hl. unfold FILE_DATA_SIZE in Hb. unfold sys_file. rewrite Hlk, bind_Ret_l, Hf. cbv iota zeta.
  unfold copy_length, copy_out.
  rewrite (proj2 (Z.ltb_ge _ _)) by (unfold FILE_DATA_SIZE; lia). rewrite u32_id by lia.
  rewrite copy_written by (rewrite ?Hd; unfold FILE_DATA_SIZE; lia). by rewrite !bind_Ret_l, set_kernel_id.
Qed.

Lemma handle_syscall_file_at L f name buf n (w : bool) s :
  fetch_string (o_kernel s) f = Ret name -> 0 <= n < 2 ^ 31 ->
  handle_syscall L (mkFrame f buf (Num n) (if w then SYS_WRITEFILE else SYS_READFILE)) s = sys_file w name buf n s.
Proof.
  intros Hf Hn. unfold handle_syscall. cbn [f_a0 f_a1 f_a2 f_a3].
  destruct w; cbn [num SYS_WRITEFILE SYS_READFILE SYS_PUTCHAR SYS_GETCHAR SYS_EXIT Z.eqb Pos.eqb orb];
    rewrite Hf, !bind_Ret_l, s32_id by lia; reflexivity.
Qed.

Lemma handle_syscall_file L name buf n (w : bool) s :
  0 <= n < 2 ^ 31 ->
  handle_syscall L (mkFrame (Ptr name) (Ptr buf) (Num n) (if w then SYS_WRITEFILE else SYS_READFILE)) s =
  sys_file w name (Ptr buf) n s.
Proof. by apply handle_syscall_file_at. Qed.
End Files.

(** C36: the file system calls.  [SYS_WRITEFILE] on an existing file, with at
    most 1024 bytes and an archive that still fits, returns the length, replaces
    the file's contents, and leaves the new archive on the disk and the driver
    ready; [SYS_READFILE] of the name then returns the length and stores exactly
    those bytes into the caller's buffer, leaving the rest of it alone and the
    system as it was.  Either call on a name no file has returns [-1] and only
    prints a message. *)
Theorem file_syscalls_roundtrip {H : Type} `{!PageHeap H} {D : Type} `{!Devices D} `{!BlkSpec D}
    (L : layout) (s : os H D) (name bytes dst : list Z) x :
  blk_ready (enter_machine s) -> Forall file_wf (files (o_fs s)) -> Forall slot_named (files (o_fs s)) ->
  Z.of_nat DISK_SECTORS <= disk_sectors -> cstr name x -> x <> [] ->
  (length bytes <= FILE_DATA_SIZE)%nat -> (length bytes <= length dst)%nat ->
  let n := Z.of_nat (length bytes) in
  let write := mkFrame (Ptr name) (Ptr bytes) (Num n) SYS_WRITEFILE in
  let read := mkFrame (Ptr name) (Ptr dst) (Num n) SYS_READFILE in
  (exists i, fs_lookup (files (o_fs s)) name = Ret (Some i) /\
    let fl := <[i := written (files (o_fs s) !!! i) bytes]> (files (o_fs s)) in
    ((length (archive fl) <= Z.to_nat DISK_MAX_SIZE)%nat ->
      exists s', handle_syscall L write s = Ret (Back (Num n) None, s') /\
        files (o_fs s') = fl /\ blk_ready (enter_machine s') /\ on_disk (image_of fl) (o_machine s') /\
        handle_syscall L read s' = Ret (Back (Num n) (Some (bytes ++ drop (length bytes) dst)), s'))) \/
  (head (filter (fun e => e.1 = x) (listing (files (o_fs s)))) = None /\
    exists out, handle_syscall L write s = Ret (Back (Num (2 ^ 32 - 1)) None, print out s) /\
      handle_syscall L read s = Ret (Back (Num (2 ^ 32 - 1)) None, print out s)).
Proof.
  intros Hm Hwf Hnamed Hd Hx Hne Hb Hl n write read.
  assert (Hn : 0 <= n < 2 ^ 31) by (unfold n, FILE_DATA_SIZE in *; lia).
  destruct (fs_lookup_spec _ name x Hnamed Hx Hne) as (oi & Hlk & Hhead).
  destruct oi as [i|].
  - left. exists i. split; [exact Hlk|]. intros fl Hfit. pose proof (fs_lookup_lt _ _ _ Hlk) as Hi.
    destruct (sys_write_spec s name i bytes Hm Hwf Hd Hlk Hb Hfit) as (s' & E & Ef & Hm' & Hdisk & _).
    exists s'. split; [by rewrite (handle_syscall_file L name bytes n true s Hn)|].
    split; [exact Ef|]. split; [exact Hm'|]. split; [exact Hdisk|].
    rewrite (handle_syscall_file L name dst n false s' Hn).
    rewrite (sys_read_spec s' name i (files (o_fs s) !!! i) bytes dst); [unfold put; by rewrite take_0| | |exact Hb| |exact Hl].
    + rewrite Ef, <-Hlk. apply fs_lookup_names. unfold fl. rewrite list_fmap_insert.
      apply list_insert_id. rewrite list_lookup_fmap. by rewrite (aget_Some _ _ Hi).
    + rewrite Ef. unfold fl. by apply aget_set_same.
    + rewrite Forall_lookup in Hwf. apply (Hwf i). by apply aget_Some.
  - right. split; [by symmetry|].
    assert (Hmsg : exists out, printf (bytes_of "file not found: %s" ++ newline) [VStr name] = Ret out).
    { change (bytes_of "file not found: %s" ++ newline) with (bytes_of "file not found: " ++ [chr_percent; chr_s; 10; 0]).
      rewrite printf_text by reflexivity. rewrite (printf_s _ _ _ _ Hx).
      rewrite printf_char, printf_end by discriminate. by eexists. }
    destruct Hmsg as [out Eo]. exists out. unfold write, read.
    rewrite (handle_syscall_file L name bytes n true s Hn), (handle_syscall_file L name dst n false s Hn).
    unfold sys_file. rewrite Hlk, !bind_Ret_l, Eo, bind_Ret_l. done.
Qed.

(** ** Examples *)

Definition demo_os (K : kstate heap) : os heap disk_image :=
  mkOs K (disk_machine (fun _ => [])) (demo_fs 18 7) [].

(** Writing two bytes to [meow.txt] and reading them back into four. *)
Lemma file_syscalls_roundtrip_witness :
  let s := demo_os (boot_kernel world_heap world_csrs) in
  exists s', handle_syscall (Devices0 := disk_devices) world_layout
      (mkFrame (Ptr (literal "meow.txt")) (Ptr [104; 105]) (Num 2) SYS_WRITEFILE) s = Ret (Back (Num 2) None, s') /\
    handle_syscall (Devices0 := disk_devices) world_layout
      (mkFrame (Ptr (literal "meow.txt")) (Ptr [1; 2; 3; 4]) (Num 2) SYS_READFILE) s' =
      Ret (Back (Num 2) (Some [104; 105; 3; 4]), s').
Proof.
  intros s.
  assert (H5 : Z.of_nat DISK_SECTORS <= @disk_sectors disk_image disk_devices disk_spec) by (vm_compute; discriminate).
  assert (Hwf : Forall file_wf (files (o_fs s))) by (apply demo_fs_wf; lia).
  assert (Hnamed : Forall slot_named (files (o_fs s))).
  { apply Forall_cons in Hwf as [H1 Hwf]. apply Forall_cons in Hwf as [H2 _].
    constructor; [exact H1|constructor; [exact H2|constructor]]. }
  destruct (@file_syscalls_roundtrip heap _ disk_image disk_devices disk_spec world_layout s (literal "meow.txt")
    [104; 105] [1; 2; 3; 4] (bytes_of "meow.txt") (disk_machine_ready _) Hwf Hnamed H5)
    as [(i & Hi & H)|[Hnone _]]; [by apply literal_cstr|done|apply Nat.leb_le; reflexivity|apply Nat.leb_le; reflexivity| |].
  - assert (Ei : i = 1%nat) by (vm_compute in Hi; by injection Hi as <-). subst i.
    destruct H as (s' & E1 & _ & _ & _ & E2); [apply Nat.leb_le; vm_compute; reflexivity|].
    exists s'. split; [exact E1|exact E2].
  - vm_compute in Hnone. discriminate Hnone.
Defined.
