(* ===== verification/SyscallMemory.v ===== *)
(** System calls on the memory of their caller.

    [SYS_READFILE], [SYS_WRITEFILE] and [SYS_SEND] take addresses.  Given addresses
    of the caller's own memory they do what they do on the objects there
    ([syscall_pointers]), so that what is proved of calls on objects
    ([SyscallProps.v], [Reboot.v]) holds of calls on memory.  [table_store_allowed]
    shows what an address outside can do. *)

From Stdlib Require Import ZArith Lia.
From stdpp Require Import relations.
From S2P Require Import Prelude Memory PageHeap Allocator PageTable Shm Process KernelInv System Lifecycle AddressSpace Kernel Views Reach World Strings Bytes Arp Ipv4 Ring Virtio Machine NetDriver Interrupts NetStack Disk Fs SimDevices FsImage UserMemory Syscall SyscallProps.
Open Scope Z_scope.

Section Calls.
Context {H : Type} `{!PageHeap H} (lo hi : Z) `{!PageHeapSpec H lo hi} {D : Type} `{!Devices D} (L : layout).
Implicit Types (s : os H D) (K : kstate H).

Lemma copy_in_source dst K a n bytes :
  own_source K (Num a) n bytes -> copy_in dst K (Num a) n = copy_in dst K (Ptr bytes) n.
Proof.
  intros [Hb ->]. cbn [copy_in]. unfold copy_bytes. destruct (Z.leb_spec (Z.of_nat (length bytes)) (Z.of_nat (length dst))); [|done].
  cbn [defined_if]. by rewrite bind_Ret_l, Nat2Z.id, (copy_from_own K bytes _ (u32_range a) Hb), bind_Ret_l.
Qed.

Lemma write_source s name a n bytes :
  0 <= n <= Z.of_nat FILE_DATA_SIZE -> own_source (o_kernel s) (Num a) n bytes ->
  sys_file true name (Num a) n s = sys_file true name (Ptr bytes) n s.
Proof.
  intros Hn Hb. unfold sys_file. destruct (fs_lookup _ _) as [[i|]| |]; [|reflexivity..].
  rewrite !bind_Ret_l. cbv zeta. unfold copy_length. unfold FILE_DATA_SIZE in *.
  rewrite (proj2 (Z.ltb_ge _ _)) by lia. rewrite (u32_id n) by lia. by rewrite (copy_in_source _ _ _ _ _ Hb).
Qed.

Lemma send_source s a n a2 bytes :
  0 <= n < 2 ^ 31 -> u32 a <> 0 -> own_source (o_kernel s) (Num a) n bytes ->
  handle_syscall L (mkFrame (Num a) (Num n) a2 SYS_SEND) s = handle_syscall L (mkFrame (Ptr bytes) (Num n) a2 SYS_SEND) s.
Proof.
  intros Hn Ha [Hb En]. unfold handle_syscall. cbn [f_a0 f_a1 f_a2 f_a3 num].
  cbn [SYS_SEND SYS_WRITEFILE SYS_READFILE SYS_PUTCHAR SYS_GETCHAR SYS_EXIT Z.eqb Pos.eqb orb].
  rewrite !bind_Ret_l, s32_id by lia. unfold fetch_payload. rewrite (proj2 (Z.eqb_neq _ _) Ha).
  destruct (negb _ || _ || _) eqn:Ec.
  - rewrite !bind_Ret_l. unfold virtio_net_send_packet, virtio_net_send_ethernet.
    change (net_up (m_net (enter_machine s))) with (net_up (m_net (o_machine s))). by rewrite Ec.
  - rewrite En at 1. by rewrite Nat2Z.id, (copy_from_own _ bytes _ (u32_range a) Hb), !bind_Ret_l.
Qed.

(** What the program may write it may read. *)
Lemma access_readable K va pa : user_access K va PAGE_W = Some pa -> user_access K va PAGE_R = Some pa.
Proof.
  unfold user_access. destruct (sv32_walk _ _ _) as [[pa' fl]|] eqn:Ew; [|discriminate].
  assert (Hr : pte_flag fl PAGE_W = true -> pte_flag fl PAGE_R = true).
  { assert (Hlow : forall pte f, f = PAGE_W \/ f = PAGE_R -> pte_flag (pte mod 1024) f = pte_flag pte f).
    { intros pte f Hf. unfold pte_flag. f_equal. f_equal. change 1024 with (2 ^ 10). rewrite <-Z.land_ones by lia.
      rewrite <-Z.land_assoc. f_equal. by destruct Hf as [-> | ->]. }
    unfold sv32_walk in Ew. cbv zeta in Ew. destruct (pte_usable (load32 _ (_ + 4 * vpn1_of va))) eqn:E1; cbn [negb] in Ew; [|discriminate Ew].
    assert (Hus : forall pte, pte_usable pte = true -> pte_flag pte PAGE_W = true -> pte_flag pte PAGE_R = true).
    { intros pte E Hw. unfold pte_usable in E. rewrite Hw in E. apply andb_true_iff in E as [_ E].
      cbn [negb] in E. by rewrite orb_false_r in E. }
    destruct (pte_leaf _).
    - destruct (_ =? 0); [|discriminate Ew]. injection Ew as _ <-. rewrite !Hlow by auto. by apply Hus.
    - clear E1. destruct (pte_usable _) eqn:E0; cbn [andb] in Ew; [|discriminate Ew]. destruct (pte_leaf _); [|discriminate Ew].
      injection Ew as _ <-. rewrite !Hlow by auto. by apply Hus. }
  destruct (pte_flag fl PAGE_U); cbn [andb]; [|intros E; discriminate E].
  destruct (pte_flag fl PAGE_W); [|intros E; discriminate E]. by rewrite Hr.
Qed.

(** A read into memory against the read into the object there. *)
Lemma read_dest s name a n dst r data s' :
  kernel_ok lo hi (o_kernel s) -> 0 <= n <= Z.of_nat FILE_DATA_SIZE -> own_dest (o_kernel s) (Num a) n ->
  n = Z.of_nat (length dst) -> sys_file false name (Ptr dst) n s = Ret (Back r data, s') ->
  exists K', sys_file false name (Num a) n s = Ret (Back r None, set_kernel K' s') /\ rtc own_store (o_kernel s) K' /\
    match data with Some l => length l = length dst /\ stored (o_kernel s) (u32 a) l K' | None => K' = o_kernel s end.
Proof.
  intros HK Hn Hd En E. unfold sys_file in E |- *.
  destruct (fs_lookup _ _) as [[i|]| |] eqn:Hlk; try discriminate E; rewrite !bind_Ret_l in E |- *.
  - cbv zeta in E |- *. unfold copy_length in E |- *. unfold FILE_DATA_SIZE in *.
    rewrite (proj2 (Z.ltb_ge _ _)) in E |- * by lia. rewrite (u32_id n) in E |- * by lia. cbn [copy_out] in E.
    set (src := f_data _) in *.
    apply bind_Ret_inv in E as ([d K0] & Hc & E). apply bind_Ret_inv in Hc as (l & Hc & Hl). injection Hl as <- <-.
    injection E as <- <- <-. unfold copy_bytes in Hc. apply bind_Ret_inv in Hc as ([] & Hg & Hc). injection Hc as <-.
    apply defined_if_Ret_inv, andb_true_iff in Hg as [_ Hg]. apply Z.leb_le in Hg.
    destruct (copy_out_own lo hi (o_kernel s) a src n HK ltac:(lia) Hd) as (K' & EK & Hr & Hs).
    rewrite EK, bind_Ret_l. exists K'. split; [by destruct s|]. split; [exact Hr|].
    assert (Eput : put 0 (take (Z.to_nat n) src) dst = take (Z.to_nat n) src).
    { unfold put. rewrite take_0. cbn [app]. rewrite drop_ge; [by rewrite app_nil_r|]. rewrite length_take. lia. }
    rewrite Eput. split; [rewrite length_take; lia|]. apply Hs. unfold PAGE_SIZE. lia.
  - apply bind_Ret_inv in E as (out & Ho & E). injection E as <- <- <-. rewrite Ho, bind_Ret_l.
    exists (o_kernel s). split; [by destruct s|]. by split; [apply rtc_refl|].
Qed.
End Calls.

(** C12: system calls on the memory of their caller.  With the name at an address
    in the caller's pages and at most 1024 bytes: [SYS_WRITEFILE] of the bytes at
    an address does exactly what it does on those bytes as an object, and so
    does [SYS_SEND] (at 0 it is given [NULL]); [SYS_READFILE] into an address range the caller may write
    returns what it returns on an object, the caller then loads from its buffer
    exactly the bytes the object would hold, no other byte of memory changes
    (page tables and other processes' memory included), every translation of
    every process stays, and so do the other parts of the kernel state and its
    invariant. *)
Theorem syscall_pointers {H : Type} `{!PageHeap H} (lo hi : Z) `{!PageHeapSpec H lo hi} {D : Type} `{!Devices D}
    (L : layout) (s : os H D) (aname abuf n : Z) (name bytes dst : list Z) :
  let K := o_kernel s in
  kernel_ok lo hi K -> own_string K (Num aname) name -> 0 <= n <= Z.of_nat FILE_DATA_SIZE ->
  (own_source K (Num abuf) n bytes ->
     handle_syscall L (mkFrame (Num aname) (Num abuf) (Num n) SYS_WRITEFILE) s =
       handle_syscall L (mkFrame (Ptr name) (Ptr bytes) (Num n) SYS_WRITEFILE) s /\
     (u32 abuf <> 0 -> forall a2, handle_syscall L (mkFrame (Num abuf) (Num n) a2 SYS_SEND) s =
       handle_syscall L (mkFrame (Ptr bytes) (Num n) a2 SYS_SEND) s)) /\
  (own_dest K (Num abuf) n -> n = Z.of_nat (length dst) ->
     forall r data s', handle_syscall L (mkFrame (Ptr name) (Ptr dst) (Num n) SYS_READFILE) s = Ret (Back r data, s') ->
     exists K', handle_syscall L (mkFrame (Num aname) (Num abuf) (Num n) SYS_READFILE) s =
         Ret (Back r None, set_kernel K' s') /\
       kept lo hi K K' /\
       (forall l k b, data = Some l -> l !! k = Some b ->
          user_load8 (set_kernel K' s') (u32 (u32 abuf + Z.of_nat k)) = Ret (u8 b)) /\
       (data <> None -> length (default [] data) = length dst) /\
       (forall pa, (data = None \/ forall k, 0 <= k < n -> user_access K (u32 (u32 abuf + k)) PAGE_W <> Some pa) ->
          load8 (ph_mem (k_heap K')) pa = load8 (ph_mem (k_heap K)) pa)).
Proof.
  intros K HK Hname Hn. pose proof (fetch_string_own K _ _ Hname) as Hf.
  assert (Hn31 : 0 <= n < 2 ^ 31) by (unfold FILE_DATA_SIZE in Hn; lia). split.
  - intros Hb. split; [|intros Ha a2; by apply send_source].
    rewrite (handle_syscall_file_at L (Num aname) name (Num abuf) n true s Hf Hn31).
    rewrite (handle_syscall_file L name bytes n true s Hn31). by apply write_source.
  - intros Hd En r data s' E. rewrite (handle_syscall_file L name dst n false s Hn31) in E.
    rewrite (handle_syscall_file_at L (Num aname) name (Num abuf) n false s Hf Hn31).
    destruct (read_dest lo hi s name abuf n dst r data s' HK Hn Hd En E) as (K' & E' & Hr & Hdata).
    pose proof (own_stores_kept lo hi K K' HK Hr) as Hk.
    exists K'. split; [exact E'|]. split; [exact Hk|]. destruct data as [l|].
    + destruct Hdata as [Hl [Hb Hfr]]. split; [|split].
      * intros l' k b [= <-] Hlk. apply lookup_lt_Some in Hlk as Hlt.
        destruct (Hd (Z.of_nat k) ltac:(lia)) as (pa & Ha).
        unfold user_load8. cbn [set_kernel o_kernel]. rewrite (kept_access lo hi K K' _ _ HK Hk).
        rewrite (access_readable _ _ _ Ha). by rewrite (Hb k b pa Hlk Ha).
      * by intros _.
      * intros pa [E0|Hpa]; [discriminate E0|]. apply Hfr. intros k Hkr. apply Hpa. lia.
    + rewrite Hdata. split; [intros l k b E0; discriminate E0|]. split; [intros E0; by destruct (E0 eq_refl)|]. by intros pa _.
Qed.

(** ** What the kernel does not check *)

(** Every process has the free RAM mapped for the kernel, its own page table
    included.  A process just created may not touch the table itself, but a store
    of the kernel through that address is permitted, and [SYS_READFILE] makes one:
    it then returns, with the entry of the table changed. *)
Lemma table_store_allowed {H : Type} `{!PageHeap H} (L : layout) (h : H) (K : kstate H) (image size b : Z) :
  let root := page_table (current_process K) in
  fresh_view L h (k_heap K) (current_process K) image size ->
  (PAGE_SIZE | root) -> 0 <= root < 2 ^ 32 -> kernel_base L <= root < free_ram_end L ->
  ~ root ∈ mmio_pages -> root < USER_BASE \/ USER_BASE + size <= root ->
  user_access K root PAGE_W = None /\ copy_to [b] K root =
    Ret (set_heap K (ph_set_mem (k_heap K) (store8 (ph_mem (k_heap K)) root b))).
Proof.
  intros root Hv [c Hc] Hr HL Hm Hu.
  assert (Ep : page_of root = root) by (unfold page_of; rewrite Hc, Z.div_mul; done).
  assert (Ew : sv32_walk (ph_mem (k_heap K)) root root = Some (root, KERNEL_FLAGS)).
  { pose proof (Hv root Hr) as Hw. cbv zeta in Hw. rewrite Ep in Hw.
    rewrite (proj2 (andb_false_iff _ _)) in Hw by (destruct Hu; [left; apply Z.leb_gt|right; apply Z.ltb_ge]; lia).
    rewrite decide_False in Hw by exact Hm.
    by rewrite (proj2 (Z.leb_le _ _)), (proj2 (Z.ltb_lt _ _)) in Hw by lia. }
  split.
  - unfold user_access. fold root. by rewrite Ew.
  - cbn [copy_to]. unfold kernel_store8, kernel_access. fold root. rewrite Ew. reflexivity.
Qed.

(** ** Examples *)

(** The second process of [World.v] has a page it may write at [shm_page 0]. *)
Lemma world_page :
  exists K, reachable world_lo world_hi world_layout K /\ k_current K = 1%nat /\ k_idle K = 0%nat /\
    own_range K (shm_page 0) PAGE_SIZE PAGE_W.
Proof.
  destruct world_shared as (K & q & p & HR & _ & Hp & _ & _ & _ & Ha & Hc & Hi & _).
  pose proof (reachable_ok world_lo world_hi _ K world_layout_ok HR) as HK.
  exists K. do 3 (split; [assumption|]). intros d Hd.
  destruct (attached_view world_lo world_hi K HK 1 p 0 1 d Hp Ha Hd) as (opa & _ & _ & Hw).
  exists (opa + d). unfold user_access, current_process. rewrite Hc, (aget_lookup _ _ _ Hp).
  rewrite u32_id by (unfold shm_page, SHM_USER_BASE, SHM_PAGE_SIZE, PAGE_SIZE in *; lia). by rewrite Hw.
Qed.

(** It stores a short text there. *)
Lemma world_text text :
  Forall (fun c => 0 <= c < 256) text -> Z.of_nat (length text) <= PAGE_SIZE ->
  exists K, reachable world_lo world_hi world_layout K /\ k_current K = 1%nat /\ k_idle K = 0%nat /\
    own_range K (shm_page 0) PAGE_SIZE PAGE_W /\ bytes_at K (shm_page 0) text.
Proof.
  intros Hb Hl. destruct world_page as (K0 & HR & Hc & Hi & Hown).
  pose proof (reachable_ok world_lo world_hi _ K0 world_layout_ok HR) as HK.
  destruct (copy_to_own world_lo world_hi text K0 (shm_page 0) HK) as (K & _ & Hr & Hs);
    [vm_compute; split; [discriminate|reflexivity]|intros k Hk; apply Hown; lia|]. specialize (Hs Hl).
  pose proof (own_stores_kept world_lo world_hi K0 K HK Hr) as Hk.
  exists K. split; [eapply reachable_steps; [exact HR|by apply own_stores_steps]|].
  split; [by rewrite (kp_current _ _ _ _ Hk)|]. split; [by rewrite (kp_idle _ _ _ _ Hk)|]. split.
  - intros d Hd. rewrite (kept_access world_lo world_hi K0 K _ _ HK Hk). by apply Hown.
  - intros k b Hlk. apply lookup_lt_Some in Hlk as Hlt. destruct (Hown (Z.of_nat k) ltac:(lia)) as (pa & Ha).
    exists pa. rewrite (kept_access world_lo world_hi K0 K _ _ HK Hk). split; [by apply access_readable|].
    rewrite (st_bytes _ _ _ _ Hs k b pa Hlk Ha). apply u8_id. exact (Forall_lookup_1 _ _ _ _ Hb Hlk).
Qed.

(** With the name of [meow.txt] at its start, and room for two bytes. *)
Lemma world_names :
  exists K, reachable world_lo world_hi world_layout K /\ k_current K = 1%nat /\ k_idle K = 0%nat /\
    own_string K (Num (shm_page 0)) (literal "meow.txt") /\ own_dest K (Num (shm_page 0 + 64)) 2.
Proof.
  destruct (world_text (literal "meow.txt")) as (K & HR & Hc & Hi & Hown & Htext); [|apply Z.leb_le; reflexivity|].
  { apply Forall_app. split; [|by repeat constructor]. eapply Forall_impl; [apply name_bytes; reflexivity|]. cbn. lia. }
  exists K. do 3 (split; [assumption|]). split.
  - split; [exact Htext|]. split; [apply Nat2Z.inj_le; rewrite ADDRESSES_eq; apply Z.leb_le; reflexivity|].
    exists (bytes_of "meow.txt"). split; [reflexivity|]. apply literal_cstr; reflexivity.
  - intros k Hk. replace (u32 (shm_page 0 + 64) + k) with (shm_page 0 + (64 + k)).
    + apply Hown. unfold PAGE_SIZE. lia.
    + change (u32 (shm_page 0 + 64)) with (shm_page 0 + 64). lia.
Qed.

Lemma demo_read K :
  sys_file (Devices0 := disk_devices) false (literal "meow.txt") (Ptr [0; 0]) 2 (demo_os K) =
    Ret (Back (Num 2) (Some [65; 65]), demo_os K).
Proof. reflexivity. Qed.

(** It reads two bytes of the file there. *)
Lemma syscall_pointers_witness :
  exists (K K' : kstate heap),
    handle_syscall (Devices0 := disk_devices) world_layout
      (mkFrame (Num (shm_page 0)) (Num (shm_page 0 + 64)) (Num 2) SYS_READFILE) (demo_os K) =
      Ret (Back (Num 2) None, set_kernel K' (demo_os K)) /\
    user_load8 (set_kernel K' (demo_os K)) (shm_page 0 + 65) = Ret 65 /\
    kernel_ok world_lo world_hi K'.
Proof.
  destruct world_names as (K & HR & _ & _ & Hname & Hd).
  pose proof (reachable_ok world_lo world_hi _ K world_layout_ok HR) as HK.
  destruct (syscall_pointers (Devices0 := disk_devices) world_lo world_hi world_layout (demo_os K)
    (shm_page 0) (shm_page 0 + 64) 2 (literal "meow.txt") [0; 0] [0; 0] HK Hname) as [_ Hread].
  { split; apply Z.leb_le; reflexivity. }
  destruct (Hread Hd eq_refl (Num 2) (Some [65; 65]) (demo_os K)) as (K' & E & Hk & Hl & _).
  { rewrite (handle_syscall_file world_layout _ _ 2 false (demo_os K) ltac:(lia)). apply demo_read. }
  exists K, K'. split; [exact E|]. split; [exact (Hl [65; 65] 1%nat 65 eq_refl eq_refl)|apply Hk].
Defined.

(** The same call as a trap. *)
Lemma trap_preserves_kernel_witness :
  exists (K : kstate heap) s', kernel_ok world_lo world_hi K /\
    handle_trap (Devices0 := disk_devices) world_layout 8 0x1000100
      (mkFrame (Num (shm_page 0)) (Num (shm_page 0 + 64)) (Num 2) SYS_READFILE) (demo_os K) =
      Ret (Some (Back (Num 2) None, 0x1000104), s') /\
    kernel_ok world_lo world_hi (o_kernel s').
Proof.
  destruct world_names as (K & HR & Hc & Hi & Hname & Hd).
  pose proof (reachable_ok world_lo world_hi _ K world_layout_ok HR) as HK.
  pose proof (fetch_string_own K _ _ Hname) as Hf.
  destruct (read_dest (Devices0 := disk_devices) world_lo world_hi (demo_os K) (literal "meow.txt") (shm_page 0 + 64) 2 [0; 0] (Num 2)
    (Some [65; 65]) (demo_os K) HK ltac:(unfold FILE_DATA_SIZE; lia) Hd eq_refl (demo_read K)) as (K' & E & _).
  rewrite <-(handle_syscall_file_at world_layout (Num (shm_page 0)) _ (Num (shm_page 0 + 64)) 2 false (demo_os K) Hf)
    in E by lia.
  assert (Et : handle_trap (Devices0 := disk_devices) world_layout 8 0x1000100
    (mkFrame (Num (shm_page 0)) (Num (shm_page 0 + 64)) (Num 2) SYS_READFILE) (demo_os K) =
    Ret (Some (Back (Num 2) None, 0x1000104), set_kernel K' (demo_os K))).
  { change 8 with SCAUSE_ECALL. by rewrite handle_trap_ecall, E. }
  exists K, (set_kernel K' (demo_os K)). split; [exact HK|]. split; [exact Et|].
  refine (proj1 (trap_preserves_kernel (Devices0 := disk_devices) world_lo world_hi world_layout 8 0x1000100
    (shm_page 0) (shm_page 0 + 64) 2 SYS_READFILE (demo_os K) _ _ world_layout_ok HK _ _ _ Et)).
  - cbn. rewrite Hc, Hi. discriminate.
  - intros _ n [= <-] w a i [= <-] _. exact Hd.
  - lia.
Defined.
