(* ===== verification/Objects.v ===== *)
(** Shared-memory objects as the system calls leave and print them.

    [objects_from] compares two object tables: every live object of the second
    one is an object of the first, but for its reference count.  Detaching,
    exiting and scheduling keep to it.  With [printable], which the running
    system preserves, [shm_dump] prints every table ([printf] of an [int] is
    undefined for the least one). *)

From Stdlib Require Import ZArith Lia.
From S2P Require Import Prelude Memory PageHeap Allocator PageTable Shm Process KernelInv System Kernel Strings Bytes UserMemory Syscall.
Open Scope Z_scope.

(** ** What becomes of the objects *)

Definition objects_from (sh sh' : shm_state) : Prop :=
  next_shm_id sh' = next_shm_id sh /\
  forall k o', shm_table sh' !! k = Some o' -> shm_used o' = true ->
    exists j o, shm_table sh !! j = Some o /\ shm_used o = true /\
      so_key o' = so_key o /\ so_size o' = so_size o.

Lemma objects_from_refl sh : objects_from sh sh.
Proof. split; [done|]. intros k o Hk Hu. by exists k, o. Qed.

Lemma objects_from_trans sh1 sh2 sh3 : objects_from sh1 sh2 -> objects_from sh2 sh3 -> objects_from sh1 sh3.
Proof.
  intros [E1 H1] [E2 H2]. split; [congruence|]. intros k o Hk Hu.
  destruct (H2 k o Hk Hu) as (j & o2 & Hj & Hu2 & Ek & Es).
  destruct (H1 j o2 Hj Hu2) as (i & o1 & Hi & Hu1 & Ek' & Es'). exists i, o1. split; [done|]. split; [done|]. split; congruence.
Qed.

(** Another reference count, or the entry cleared. *)
Lemma objects_from_count sh k n :
  objects_from sh (mkShmState (<[k := set_refcount (shm_table sh !!! k) n]> (shm_table sh)) (next_shm_id sh)).
Proof.
  split; [done|]. cbn [shm_table]. intros j o Hj Hu.
  apply list_lookup_insert_Some in Hj as [(-> & <- & Hl)|[_ Hj]]; [|by exists j, o].
  exists j, (shm_table sh !!! j). split; [by apply aget_Some|done].
Qed.

Lemma objects_from_clear sh k :
  objects_from sh (mkShmState (<[k := shm_object_zero]> (shm_table sh)) (next_shm_id sh)).
Proof.
  split; [done|]. cbn [shm_table]. intros j o Hj Hu.
  apply list_lookup_insert_Some in Hj as [(-> & <- & Hl)|[_ Hj]]; [discriminate Hu|by exists j, o].
Qed.

Section Code.
Context {H : Type} `{!PageHeap H}.
Implicit Types (h : H) (sh : shm_state) (p : process) (K : kstate H).

Lemma drop_reference_objects h sh k h' sh' : drop_reference h sh k = Ret (h', sh') -> objects_from sh sh'.
Proof.
  intros E. unfold drop_reference in E. cbv zeta in E. destruct (_ <=? 0); outcome_inv.
  - apply objects_from_clear.
  - apply objects_from_count.
Qed.

Lemma shm_detach_objects h sh p va ret h' sh' p' :
  shm_detach h sh p va = Ret (ret, h', sh', p') -> objects_from sh sh'.
Proof.
  intros E. unfold shm_detach in E. destruct (find_slot _ _) as [i|]; [|outcome_inv; apply objects_from_refl].
  apply bind_Ret_inv in E as (h1 & _ & E). destruct (find_by_id _ _) as [k|]; [|outcome_inv; apply objects_from_refl].
  apply bind_Ret_inv in E as ([h2 sh2] & Ed & E). injection E as <- <- <- <-. by eapply drop_reference_objects.
Qed.

Lemma shm_attach_objects h sh p id ret h' sh' p' :
  shm_attach h sh p id = Ret (ret, h', sh', p') -> objects_from sh sh'.
Proof.
  intros E. destruct (shm_attach_cases _ _ _ _ _ _ _ _ E) as [(_ & _ & -> & _)|(k & s & p1 & _ & _ & _ & _ & _ & ->)];
    [apply objects_from_refl|apply objects_from_count].
Qed.

Lemma shm_cleanup_objects h sh p h' sh' p' :
  shm_process_cleanup h sh p = Ret (h', sh', p') -> objects_from sh sh'.
Proof.
  intros E. unfold shm_process_cleanup in E.
  apply (for_each_inv (fun st => objects_from sh st.1.2)) in E; [exact E| |apply objects_from_refl].
  intros [[h1 sh1] p1] i [[h2 sh2] p2] _ H1 Hs. cbn [fst snd] in *. unfold cleanup_slot in Hs.
  destruct (mapping_used _); [|by injection Hs as <- <- <-].
  apply bind_Ret_inv in Hs as ([[[r h3] sh3] p3] & Hd & Hs). injection Hs as <- <- <-.
  eapply objects_from_trans; [exact H1|by eapply shm_detach_objects].
Qed.

Lemma yield_objects L K sw K' : yield L K = Ret (sw, K') -> objects_from (k_shm K) (k_shm K').
Proof.
  intros Hy. unfold yield in Hy. apply bind_Ret_inv in Hy as (K1 & Hr & Hy).
  assert (E : k_shm K' = k_shm K1) by (destruct (bool_decide _); by injection Hy as <- <-). rewrite E. clear Hy E.
  destruct (_ =? PROC_EXITED); [|injection Hr as <-; apply objects_from_refl].
  unfold release_process in Hr. apply bind_Ret_inv in Hr as ([[h sh] p] & Hc & Hr).
  apply bind_Ret_inv in Hr as ([h2 p2] & _ & Hr). injection Hr as <-. by eapply shm_cleanup_objects.
Qed.
End Code.

(** ** Printing them *)

Record printable (sh : shm_state) : Prop := {
  pr_next : next_shm_id sh < 2 ^ 31;
  pr_objects : forall k o, shm_table sh !! k = Some o -> shm_used o = true ->
    so_key o < 2 ^ 31 /\ so_size o = PAGE_SIZE;
}.

Lemma printable_from sh sh' : printable sh -> objects_from sh sh' -> printable sh'.
Proof.
  intros [Hn Ho] [En Hf]. split; [by rewrite En|]. intros k o Hk Hu.
  destruct (Hf k o Hk Hu) as (j & o1 & Hj & Hu1 & -> & ->). by eapply Ho.
Qed.

Lemma shm_get_printable {H : Type} `{!PageHeap H} (h : H) sh key ret h' sh' :
  printable sh -> key < 2 ^ 31 -> shm_get h sh key = Ret (ret, h', sh') -> printable sh'.
Proof.
  intros [Hn Ho] Hk E. unfold shm_get in E. destruct (key <=? 0); [by injection E as <- <- <-|].
  destruct (find_by_key _ _); [by injection E as <- <- <-|].
  destruct (find_slot _ _) as [i|]; [|by injection E as <- <- <-].
  apply bind_Ret_inv in E as ([[r pa] h1] & _ & E). apply bind_Ret_inv in E as ([] & Hd & E).
  apply defined_if_Ret_inv, Z.ltb_lt in Hd. injection E as <- <- <-. split; [exact Hd|]. cbn [shm_table].
  intros k o Hl Hu. apply list_lookup_insert_Some in Hl as [(_ & <- & _)|[_ Hl]]; [by split|by eapply Ho].
Qed.

Lemma dump_object_ret o :
  0 <= so_id o < 2 ^ 31 -> 0 <= so_key o < 2 ^ 31 -> 0 <= so_size o < 2 ^ 31 -> 0 <= so_refcount o < 2 ^ 31 ->
  exists out, dump_object o = Ret out.
Proof.
  intros Hi Hk Hs Hr. unfold dump_object. destruct (shm_used o); [|by eexists]. cbn [negb].
  destruct (printNum_ret (so_id o) ltac:(lia)) as [d1 E1]. destruct (printNum_ret (so_key o) ltac:(lia)) as [d2 E2].
  destruct (printNum_ret (so_size o) ltac:(lia)) as [d3 E3]. destruct (printNum_ret (so_refcount o) ltac:(lia)) as [d4 E4].
  change (bytes_of "  id=%d key=%d pa=0x%x size=%d refcount=%d" ++ newline)
    with (bytes_of "  id=" ++ [chr_percent; chr_d] ++ bytes_of " key=" ++ [chr_percent; chr_d] ++ bytes_of " pa=0x" ++
          [chr_percent; chr_x] ++ bytes_of " size=" ++ [chr_percent; chr_d] ++ bytes_of " refcount=" ++
          [chr_percent; chr_d; 10; 0]).
  rewrite printf_text by reflexivity. cbn [app]. rewrite (printf_d _ _ _ d1) by (by rewrite s32_id by lia).
  rewrite printf_text by reflexivity. cbn [app]. rewrite (printf_d _ _ _ d2) by (by rewrite s32_id by lia).
  rewrite printf_text by reflexivity. cbn [app]. rewrite printf_x.
  rewrite printf_text by reflexivity. cbn [app]. rewrite (printf_d _ _ _ d3) by (by rewrite s32_id by lia).
  rewrite printf_text by reflexivity. cbn [app]. rewrite (printf_d _ _ _ d4) by (by rewrite s32_id by lia).
  rewrite printf_char, printf_end by discriminate. by eexists.
Qed.

Lemma dump_objects_ret l :
  (forall j o, l !! j = Some o -> exists out, dump_object o = Ret out) -> exists out, dump_objects l = Ret out.
Proof.
  induction l as [|o l IH]; intros Hl; cbn [dump_objects]; [by eexists|].
  destruct (Hl 0%nat o eq_refl) as [a ->]. destruct IH as [b ->]; [intros j x Hj; by apply (Hl (S j))|].
  rewrite !bind_Ret_l. by eexists.
Qed.

Lemma shm_dump_ret sh :
  (forall j o, shm_table sh !! j = Some o -> exists out, dump_object o = Ret out) ->
  exists out, Syscall.shm_dump sh = Ret out.
Proof. intros Hl. destruct (dump_objects_ret _ Hl) as [out E]. unfold Syscall.shm_dump. rewrite E, bind_Ret_l. by eexists. Qed.

Lemma unused_dump o : shm_used o = false -> exists out, dump_object o = Ret out.
Proof. intros E. unfold dump_object. rewrite E. by eexists. Qed.

Lemma shm_dump_total {H : Type} `{!PageHeap H} (lo hi : Z) `{!PageHeapSpec H lo hi} (h : H) sh procs :
  sys_ok lo hi h sh procs -> printable sh -> exists out, Syscall.shm_dump sh = Ret out.
Proof.
  intros Hsys [Hn Ho]. apply shm_dump_ret. intros j o Hj.
  destruct (shm_used o) eqn:Hu; [|by apply unused_dump].
  destruct (so_obj _ _ _ (sys_shm _ _ _ _ _ Hsys) j o Hj Hu) as (Hid & Hk & _ & Hrc).
  pose proof (refcount_le lo hi _ _ _ _ _ Hsys Hj Hu). destruct (Ho j o Hj Hu) as [Hkey Hsz]. rewrite Hrc in *.
  apply dump_object_ret; rewrite ?Hsz, ?Hrc; unfold PAGE_SIZE; lia.
Qed.
