(* ===== verification/Ready.v ===== *)
(** The running system between two traps.

    [os_ready] says that every component is in a state its operations can start
    from: the kernel invariant holds and a process that may run is current, both
    drivers are between operations, the file table is well formed, and what the
    dumps print fits [printf].  Every trap that returns preserves it, and every
    system call with arguments as in [call_ok] returns. *)

From Stdlib Require Import ZArith Lia.
From S2P Require Import Prelude Memory PageHeap Allocator PageTable Shm Process KernelInv System Lifecycle AddressSpace Kernel Views Reach Strings Bytes Arp Ipv4 Ring Virtio Machine NetDriver Interrupts NetStack Disk Fs FsImage Startup Board UserMemory Syscall SyscallProps Objects.
Open Scope Z_scope.

(** ** Processes and shared memory *)

Section KernelPart.
Context {H : Type} `{!PageHeap H} (lo hi : Z) `{!PageHeapSpec H lo hi}.
Implicit Types (K : kstate H).

(** The current process is runnable, or the idle process. *)
Definition running K : Prop :=
  p_state (current_process K) = PROC_RUNNABLE /\
  (k_current K <> k_idle K -> 0 < pid (current_process K)).

Record kernel_ready K : Prop := {
  kr_ok : kernel_ok lo hi K;
  kr_running : running K;
  kr_shm : printable (k_shm K);
}.

Lemma kernel_ready_csrs K c : kernel_ready K -> kernel_ready (set_csrs K c).
Proof. intros [HK Hr Hs]. split; [split; apply HK|exact Hr|exact Hs]. Qed.

(** [yield], also from a process that has just exited. *)
Lemma yield_ready L K :
  kernel_ok lo hi K -> printable (k_shm K) ->
  exists sw K', yield L K = Ret (sw, K') /\ kernel_ready K' /\
    (sw = None -> p_state (current_process K) <> PROC_EXITED /\ pick_next K = k_current K /\
       exists c, K' = set_csrs K c).
Proof.
  intros HK Hs. destruct (yield_cases lo hi L K HK)
    as (K1 & sw & K' & Hy & Hs1 & Eh & Es & Ep & Ei & Ei1 & Ec1 & Ec & Hrest & Hsw).
  pose proof (step_yield_ok lo hi L K sw K' HK Hy) as HK'.
  exists sw, K'. split; [exact Hy|]. split.
  - split; [exact HK'| |by eapply printable_from, yield_objects].
    unfold running, current_process. rewrite Ec, Ep, Ei.
    destruct (pick_next_spec K1) as [(s & _ & -> & Hr & _)|[-> _]].
    + unfold runnable in Hr. apply andb_true_iff in Hr as [Hr Hp]. apply Z.eqb_eq in Hr. apply Z.ltb_lt in Hp. done.
    + destruct (ko_idle _ _ _ HK') as (q & Hq & Hqs & _). rewrite Ei, Ep in Hq. rewrite Ei1, (aget_lookup _ _ _ Hq). done.
  - intros ->. destruct (bool_decide (pick_next K1 = k_current K)) eqn:Eb; [|by destruct Hsw].
    apply bool_decide_eq_true in Eb. assert (Hne : p_state (current_process K) <> PROC_EXITED).
    { intros E. rewrite bool_decide_eq_true_2 in Hrest by exact E. destruct Hrest as (p' & Epr & Hst & _ & _).
      destruct (kernel_current lo hi K HK) as [Hcur _].
      assert (Hp' : k_procs K1 !! k_current K = Some p').
      { rewrite Epr. apply list_lookup_insert_eq. by eapply lookup_lt_Some. }
      destruct (ko_idle _ _ _ HK') as (q & Hq & Hqs & _). rewrite Ei, Ep in Hq.
      destruct (pick_next_spec K1) as [(s & _ & Epk & Hr & _)|[Epk _]].
      - rewrite Eb in Epk. subst s. rewrite (aget_lookup _ _ _ Hp') in Hr.
        unfold runnable in Hr. rewrite Hst in Hr. discriminate Hr.
      - assert (k_idle K = k_current K) as E' by congruence. rewrite E', Hp' in Hq. injection Hq as <-.
        rewrite Hst in Hqs. discriminate Hqs. }
    destruct (yield_running L K Hne) as (sw' & K'' & Hy' & Eh' & Es' & Ep' & Ei' & Ec' & Hcs).
    rewrite Hy in Hy'. injection Hy' as <- <-. split; [exact Hne|].
    destruct (bool_decide (pick_next K = k_current K)) eqn:Eb'; [|by destruct Hcs].
    apply bool_decide_eq_true in Eb'. split; [exact Eb'|]. exists (k_csrs K').
    rewrite Eb' in Ec'. clear - Eh' Es' Ep' Ei' Ec'. destruct K, K'. cbn in *. by subst.
Qed.

Lemma exit_ready L K :
  kernel_ready K -> k_current K <> k_idle K ->
  exists prev next K', yield L (exit_current K) = Ret (Some (prev, next), K') /\ kernel_ready K'.
Proof.
  intros [HK _ Hs] Hne. pose proof (step_exit_ok lo hi K HK Hne) as HKe.
  destruct (yield_ready L (exit_current K) HKe Hs) as (sw & K' & Hy & HK' & Hsw).
  destruct sw as [[prev next]|]; [by exists prev, next, K'|]. destruct (Hsw eq_refl) as [Hex _].
  exfalso. apply Hex. unfold exit_current, current_process. cbn [set_proc k_procs k_current].
  rewrite aget_set_same; [done|]. destruct (kernel_current lo hi K HK) as [Hcur _]. by eapply lookup_lt_Some.
Qed.

(** The calls of shared memory keep the process running. *)
Lemma running_set_proc K K' p' :
  running K -> (k_current K < length (k_procs K))%nat ->
  k_procs K' = <[k_current K := p']> (k_procs K) -> k_current K' = k_current K -> k_idle K' = k_idle K ->
  p_state p' = p_state (current_process K) -> pid p' = pid (current_process K) -> running K'.
Proof.
  intros [Hr Hp] Hl Eprocs Ec Ei Est Epid. unfold running, current_process in *.
  rewrite Ec, Ei, Eprocs, (aget_set_same) by exact Hl. rewrite Est, Epid. done.
Qed.

Lemma current_lt K : kernel_ok lo hi K -> (k_current K < length (k_procs K))%nat.
Proof. intros HK. destruct (kernel_current lo hi K HK) as [Hcur _]. by eapply lookup_lt_Some. Qed.

Lemma get_ready K key ret K' :
  kernel_ready K -> key < 2 ^ 31 -> get_current K key = Ret (ret, K') -> kernel_ready K'.
Proof.
  intros [HK Hr Hs] Hk E. pose proof (step_get_ok lo hi K _ _ _ HK E) as HK'.
  apply bind_Ret_inv in E as ([[ret' h] sh] & Hg & E). injection E as <- <-.
  split; [exact HK'|exact Hr|]. by eapply shm_get_printable.
Qed.

Lemma attach_ready K id ret K' : kernel_ready K -> attach_current K id = Ret (ret, K') -> kernel_ready K'.
Proof.
  intros [HK Hr Hs] E. pose proof (step_attach_ok lo hi K _ _ _ HK E) as HK'.
  destruct (kernel_current lo hi K HK) as [Hcur Hl].
  apply bind_Ret_inv in E as ([[[ret' h] sh] p'] & Ha & E). injection E as <- <-.
  split; [exact HK'| |by eapply printable_from, shm_attach_objects].
  apply (running_set_proc K _ p' Hr (current_lt K HK)); try reflexivity;
    destruct (shm_attach_ok lo hi _ _ _ _ _ _ _ _ _ _ (ko_sys _ _ _ HK) Hcur Hl Ha)
      as [(_ & _ & _ & ->)|(_ & ? & ? & _)]; done.
Qed.

Lemma detach_ready K va : kernel_ready K -> exists ret K', detach_current K va = Ret (ret, K') /\ kernel_ready K'.
Proof.
  intros [HK Hr Hs]. destruct (kernel_current lo hi K HK) as [Hcur Hl].
  assert (Hd : exists ret h sh p', shm_detach (k_heap K) (k_shm K) (current_process K) va = Ret (ret, h, sh, p') /\
    p_state p' = p_state (current_process K) /\ pid p' = pid (current_process K)).
  { destruct (shm_detach_spec lo hi _ _ _ _ _ va (ko_sys _ _ _ HK) Hcur Hl)
      as [[_ ->]|(s & id & k & o & h' & sh' & p' & _ & _ & _ & _ & _ & -> & Hdt)].
    - by eexists _, _, _, _.
    - eexists _, _, _, _. split; [reflexivity|]. by rewrite (dt_proc _ _ _ _ _ _ _ _ _ _ _ _ _ Hdt). }
  destruct Hd as (ret & h & sh & p' & Ed & Est & Epid).
  set (K' := set_proc (set_heap (set_shm K sh) h) (k_current K) p').
  assert (E : detach_current K va = Ret (ret, K')) by (unfold detach_current; by rewrite Ed).
  exists ret, K'. split; [exact E|]. split; [by eapply step_detach_ok| |by eapply printable_from, shm_detach_objects].
  by apply (running_set_proc K _ p' Hr (current_lt K HK)).
Qed.

(** With a page left they return. *)
Lemma get_total K key :
  kernel_ready K -> ph_avail (lo:=lo) (hi:=hi) (k_heap K) 1 -> next_shm_id (k_shm K) + 1 < 2 ^ 31 ->
  exists ret K', get_current K key = Ret (ret, K').
Proof.
  intros [HK _ _] Hav Hid. unfold get_current, shm_get. destruct (key <=? 0); [by eexists _, _|].
  destruct (find_by_key _ _); [by eexists _, _|]. destruct (find_slot _ _); [|by eexists _, _].
  destruct (ph_alloc_total (k_heap K) 0 (sys_heap _ _ _ _ _ (ko_sys _ _ _ HK)) Hav) as (r & pa & h & -> & _).
  rewrite !bind_Ret_l. rewrite (proj2 (Z.ltb_lt _ _) Hid). by eexists _, _.
Qed.

Lemma attach_total K id :
  kernel_ready K -> budget lo hi (k_heap K) (current_process K) 1 -> exists ret K', attach_current K id = Ret (ret, K').
Proof.
  intros [HK _ _] Hb. destruct (kernel_current lo hi K HK) as [Hcur Hl]. unfold attach_current.
  destruct (find_by_id (k_shm K) id) as [k|] eqn:Ef; [|unfold shm_attach; rewrite Ef; by eexists _, _].
  destruct (find_slot (fun mp => negb (mapping_used mp)) (shm_mappings (current_process K))) as [s|] eqn:Es;
    [|unfold shm_attach; rewrite Ef, Es; by eexists _, _].
  pose proof (find_by_id_spec (k_shm K) id) as Hf. rewrite Ef in Hf. destruct Hf as (o & Hk & Hu & <-).
  destruct (shm_attach_total lo hi _ _ _ _ _ k o s 0 (ko_sys _ _ _ HK) Hcur Hl Hk Hu Es Hb) as (h' & sh' & p' & -> & _).
  by eexists _, _.
Qed.

Lemma store_ready K va v K' : kernel_ready K -> 0 <= va < 2 ^ 32 -> user_store K va v = Some K' -> kernel_ready K'.
Proof.
  intros [HK Hr Hs] Hva E. pose proof (step_store_ok lo hi K va v K' HK Hva E) as HK'.
  destruct (user_store_inv K va v K' E) as (pa & _ & ->). by split.
Qed.
End KernelPart.

(** ** The whole system *)

Section Ready.
Context {H : Type} `{!PageHeap H} (lo hi : Z) `{!PageHeapSpec H lo hi}.
Context {D : Type} `{!Devices D} `{!NicSpec D} `{!BlkSpec D} `{!Startup D} `{!Board D}.
Context (Hdisk : Z.of_nat DISK_SECTORS <= disk_sectors) (L : layout).
Implicit Types (s : os H D) (K : kstate H).

Record os_ready s : Prop := {
  or_kernel : kernel_ready lo hi (o_kernel s);
  or_machine : machine_ready (o_machine s);
  or_files : Forall file_wf (files (o_fs s));
  or_named : Forall slot_named (files (o_fs s));
}.

Lemma enter_ready s : os_ready s -> machine_ready (enter_machine s).
Proof. intros Hs. apply machine_ready_sstatus, Hs. Qed.

Lemma ready_leave s m : os_ready s -> machine_ready m -> os_ready (leave_machine m s).
Proof. intros [HK _ Hf Hn] Hm. split; [by apply kernel_ready_csrs|exact Hm|exact Hf|exact Hn]. Qed.

Lemma ready_print s out : os_ready s -> os_ready (print out s).
Proof. intros [HK Hm Hf Hn]. split; [exact HK|by apply machine_ready_emit|exact Hf|exact Hn]. Qed.

Lemma ready_kernel s K : os_ready s -> kernel_ready lo hi K -> os_ready (set_kernel K s).
Proof. intros [_ Hm Hf Hn] HK. by split. Qed.

Lemma ready_input s l : os_ready s -> os_ready (set_input l s).
Proof. intros []. by split. Qed.

(** Anything the drivers do. *)
Lemma ready_drivers_call {A} (f : machine D -> outcome (A * machine D)) s a m :
  os_ready s -> (exists a' m', f (enter_machine s) = Ret (a', m') /\ machine_ready m') ->
  f (enter_machine s) = Ret (a, m) -> os_ready (leave_machine m s).
Proof.
  intros Hs (a' & m' & E & Hm') E'. rewrite E in E'. injection E' as <- <-. by apply ready_leave.
Qed.

(** *** Reading the console *)

Lemma poll_ready s :
  os_ready s -> exists m, arp_poll (enter_machine s) = Ret m /\ os_ready (leave_machine m s).
Proof.
  intros Hs. destruct (arp_poll_total (EthernetLink0 := board_link) (enter_machine s) (enter_ready s Hs)) as (m & E & Hm & _).
  exists m. split; [exact E|]. by apply ready_leave.
Qed.

(** The loop returns once a character has come or another process can run, and
    the polls are as many as the characters at hand. *)
Definition wakes_up s : Prop :=
  Exists (fun ch => 0 <= ch) (o_input s) \/ pick_next (o_kernel s) <> k_current (o_kernel s).

Lemma getchar_ready fuel : forall s,
  os_ready s ->
  (wakes_up s -> (length (o_input s) < fuel)%nat -> exists r s', getchar_loop fuel L s = Ret (r, s')) /\
  (forall r s', getchar_loop fuel L s = Ret (r, s') -> os_ready s').
Proof.
  induction fuel as [|fuel IH]; intros s Hs; [by split; [lia|]|]. cbn [getchar_loop].
  destruct (poll_ready s Hs) as (m & -> & H1). rewrite bind_Ret_l.
  set (s1 := leave_machine m s) in *.
  assert (Ein : o_input s1 = o_input s) by reflexivity.
  assert (Epk : pick_next (o_kernel s1) = pick_next (o_kernel s)) by reflexivity.
  assert (Ecur : k_current (o_kernel s1) = k_current (o_kernel s)) by reflexivity.
  unfold wakes_up. rewrite <-Ein, <-Epk, <-Ecur. clearbody s1. clear s Hs m Ein Epk Ecur.
  assert (Hg : exists ch s2, sbi_getchar s1 = (ch, s2) /\ os_ready s2 /\ o_kernel s2 = o_kernel s1 /\
    (o_input s1 = [] /\ ch = -1 \/ o_input s1 = ch :: o_input s2)).
  { unfold sbi_getchar. destruct (o_input s1) as [|ch l] eqn:E; eexists _, _; (split; [reflexivity|]).
    - split; [exact H1|]. split; [done|]. by left.
    - split; [by apply ready_input|]. split; [done|]. by right. }
  destruct Hg as (ch & s2 & -> & H2 & Ek & Ein). destruct (Z.leb_spec 0 ch) as [Hch|Hch].
  { split; [by eexists _, _|]. intros r s' E. by injection E as <- <-. }
  destruct (yield_ready lo hi L (o_kernel s2) (kr_ok _ _ _ (or_kernel _ H2)) (kr_shm _ _ _ (or_kernel _ H2)))
    as (sw & K' & Hy & HK' & Hsw).
  rewrite Hy, bind_Ret_l. cbv zeta. destruct sw as [[prev next]|].
  { split; [by eexists _, _|]. intros r s' E. injection E as <- <-. by apply ready_kernel. }
  destruct (Hsw eq_refl) as (_ & Epk & c & ->).
  destruct (IH (set_kernel (set_csrs (o_kernel s2) c) s2) (ready_kernel _ _ H2 HK')) as [IH1 IH2].
  split; [|exact IH2]. rewrite <-Ek. intros [Hex|Hne] Hl; [|contradiction].
  destruct Ein as [[E _]|Ein].
  - rewrite E in Hex. by apply Exists_nil in Hex.
  - rewrite Ein in Hex, Hl. cbn [length] in Hl. apply IH1; [|change (length (o_input s2) < fuel)%nat; lia].
    left. change (Exists (fun ch => 0 <= ch) (o_input s2)). apply Exists_cons in Hex as [|Hex]; [lia|exact Hex].
Qed.

(** *** Exit *)

Lemma runnable_pid s :
  os_ready s -> k_current (o_kernel s) <> k_idle (o_kernel s) -> 0 < pid (current_process (o_kernel s)) <= 8.
Proof.
  intros [[HK [Hst Hpid] _] _ _ _] Hne. specialize (Hpid Hne).
  destruct (kernel_current lo hi _ HK) as [Hcur _]. pose proof (sys_pids _ _ _ _ _ (ko_sys _ _ _ HK)) as Hp.
  pose proof (lookup_lt_Some _ _ _ Hcur) as Hlt. rewrite (proj1 Hp) in Hlt. unfold PROCS_MAX in Hlt.
  rewrite (pids_ok_lookup _ _ _ Hp Hcur); [lia|]. unfold runnable. rewrite Hst. by apply Z.ltb_lt in Hpid as ->.
Qed.

Lemma exit_message n : 0 < n <= 8 -> exists out, printf (bytes_of "process %d exited" ++ newline) [VInt n] = Ret out.
Proof.
  intros Hn. change (bytes_of "process %d exited" ++ newline) with
    (bytes_of "process " ++ [chr_percent; chr_d] ++ bytes_of " exited" ++ [10; 0]).
  rewrite printf_text by reflexivity. destruct (printNum_ret n ltac:(lia)) as [ds E]. cbn [app].
  rewrite (printf_d _ _ _ ds) by (by rewrite s32_id by lia).
  rewrite printf_text by reflexivity. rewrite printf_char, printf_end by discriminate. by eexists.
Qed.

Lemma sys_exit_total s :
  os_ready s -> k_current (o_kernel s) <> k_idle (o_kernel s) ->
  exists r s', sys_exit L s = Ret (r, s') /\ os_ready s'.
Proof.
  intros Hs Hne. unfold sys_exit.
  destruct (exit_message _ (runnable_pid s Hs Hne)) as [out ->]. rewrite bind_Ret_l.
  destruct (exit_ready lo hi L (o_kernel s) (or_kernel _ Hs) Hne) as (prev & next & K' & -> & HK'). rewrite bind_Ret_l.
  eexists _, _. split; [reflexivity|]. by apply ready_print, ready_kernel.
Qed.

(** *** Files *)

Lemma copy_bytes_inv dst src n data :
  copy_bytes dst src n = Ret data -> n <= Z.of_nat (length dst) /\ n <= Z.of_nat (length src) /\
    data = put 0 (take (Z.to_nat n) src) dst.
Proof.
  intros E. unfold copy_bytes in E. apply bind_Ret_inv in E as ([] & Hd & E). injection E as <-.
  apply defined_if_Ret_inv, andb_true_iff in Hd as [H1 H2]. apply Z.leb_le in H1, H2. done.
Qed.

(** A store into a file that does not overrun its data leaves a file. *)
Lemma written_ready fl i buf n :
  Forall file_wf fl -> Forall slot_named fl -> (i < length fl)%nat ->
  0 <= n <= Z.of_nat FILE_DATA_SIZE -> n <= Z.of_nat (length buf) ->
  let f := written (fl !!! i) (take (Z.to_nat n) buf) in
  f = mkFile (in_use (fl !!! i)) (f_name (fl !!! i)) (put 0 (take (Z.to_nat n) buf) (f_data (fl !!! i))) n /\
  Forall file_wf (<[i := f]> fl) /\ Forall slot_named (<[i := f]> fl).
Proof.
  intros Hwf Hnm Hi Hn Hb f.
  assert (Hlk : fl !! i = Some (fl !!! i)) by (by apply aget_Some).
  assert (Hf : file_wf f).
  { apply written_wf; [exact (Forall_lookup_1 _ _ _ _ Hwf Hlk)|]. rewrite length_take. unfold FILE_DATA_SIZE in *. lia. }
  split; [|split].
  - unfold f, written. f_equal. rewrite length_take. lia.
  - by apply Forall_insert.
  - apply Forall_insert; [exact Hnm|]. pose proof (Forall_lookup_1 _ _ _ _ Hnm Hlk) as H0.
    unfold slot_named in *. change (in_use f) with (in_use (fl !!! i)). by destruct (in_use (fl !!! i)).
Qed.

Lemma flush_ready s fl fs m :
  os_ready s -> Forall file_wf fl -> Forall slot_named fl ->
  fs_flush (mkFs fl (fs_disk (o_fs s))) (enter_machine s) = Ret (fs, m) -> os_ready (set_fs fs (leave_machine m s)).
Proof.
  intros Hs Hwf Hnm E. pose proof (fs_flush_spec (mkFs fl (fs_disk (o_fs s))) (enter_machine s)
    (mr_blk _ (enter_ready s Hs)) Hwf Hdisk) as Hfl.
  destruct (_ <=? _)%nat; [|by rewrite E in Hfl].
  destruct Hfl as (m' & E' & Hb & F & _). rewrite E in E'. injection E' as -> ->.
  assert (Hm : machine_ready m') by (eapply ready_after_blk; [exact (enter_ready s Hs)|exact Hb|exact F]).
  destruct (ready_leave s m' Hs Hm) as [HK Hm' _ _]. by split.
Qed.

Lemma own_stores_ready K K' : kernel_ready lo hi K -> rtc own_store K K' -> kernel_ready lo hi K'.
Proof.
  intros HK Hr. induction Hr as [K|K K1 K2 (va & v & Hva & E) _ IH]; [exact HK|].
  apply IH. by eapply store_ready.
Qed.

Lemma copy_in_inv dst K w n data :
  0 <= n -> copy_in dst K w n = Ret data -> exists src : list Z, n <= Z.of_nat (length dst) /\ n <= Z.of_nat (length src) /\
    data = put 0 (take (Z.to_nat n) src) dst.
Proof.
  intros Hn E. destruct w as [a|b]; cbn [copy_in] in E.
  - apply bind_Ret_inv in E as ([] & _ & E). apply bind_Ret_inv in E as (b & _ & E). exists b. by apply copy_bytes_inv.
  - exists b. by apply copy_bytes_inv.
Qed.

Lemma sys_file_ready w name buf len s r s' :
  os_ready s -> own_read s w buf len -> sys_file w name buf len s = Ret (r, s') -> os_ready s'.
Proof.
  intros Hs Hown E. unfold sys_file in E. apply bind_Ret_inv in E as ([i|] & Hfind & E).
  - apply fs_lookup_lt in Hfind as Hlk. cbv zeta in E. pose proof (u32_range (copy_length (files (o_fs s) !!! i) len)) as Hr.
    destruct w.
    + apply bind_Ret_inv in E as (data & Hc & E). apply bind_Ret_inv in E as ([fs m] & Hfl & E). injection E as <- <-.
      assert (Hlk' : files (o_fs s) !! i = Some (files (o_fs s) !!! i)) by (by apply aget_Some).
      pose proof (Forall_lookup_1 _ _ _ _ (or_files _ Hs) Hlk') as Hf.
      apply copy_in_inv in Hc as (src & H1 & H2 & ->); [|lia]. rewrite (fw_data_length _ Hf) in H1.
      destruct (written_ready (files (o_fs s)) i src _ (or_files _ Hs) (or_named _ Hs) Hlk (conj (proj1 Hr) H1) H2)
        as (Ef & Hwf & Hnm). rewrite Ef in Hwf, Hnm. by eapply flush_ready.
    + apply bind_Ret_inv in E as ([data K] & Hc & E). injection E as <- <-.
      apply ready_kernel; [exact Hs|]. eapply own_stores_ready; [apply Hs|].
      eapply (copy_out_runs lo hi); [apply Hs|apply Hr| |exact Hc]. intros a Ea. by apply (Hown eq_refl a i Ea).
  - apply bind_Ret_inv in E as (out & _ & E). injection E as <- <-. by apply ready_print.
Qed.

Lemma not_found_message name x :
  cstr name x -> exists out, printf (bytes_of "file not found: %s" ++ newline) [VStr name] = Ret out.
Proof.
  intros Hx. change (bytes_of "file not found: %s" ++ newline) with (bytes_of "file not found: " ++ [chr_percent; chr_s; 10; 0]).
  rewrite printf_text by reflexivity. rewrite (printf_s _ _ _ _ Hx), printf_char, printf_end by discriminate. by eexists.
Qed.

(** The files after [n] bytes of [buf] were written to file [i]. *)
Definition files_after s (i : nat) (buf : list Z) (n : Z) : list file :=
  <[i := written (files (o_fs s) !!! i) (take (Z.to_nat n) buf)]> (files (o_fs s)).

Lemma sys_file_total w name x buf n bytes s :
  os_ready s -> cstr name x -> 0 <= n <= Z.of_nat FILE_DATA_SIZE ->
  (w = true -> own_source (o_kernel s) buf n bytes /\ forall i, fs_lookup (files (o_fs s)) name = Ret (Some i) ->
     (length (archive (files_after s i bytes n)) <= Z.to_nat DISK_MAX_SIZE)%nat) ->
  (w = false -> own_dest (o_kernel s) buf n) ->
  exists r s', sys_file w name buf n s = Ret (r, s').
Proof.
  intros Hs Hx Hn Hsrc Hdst. unfold sys_file.
  destruct (fs_lookup_total _ _ _ (or_named _ Hs) Hx) as [[i|] Hlk]; rewrite Hlk, bind_Ret_l; cbv iota zeta.
  2: { destruct (not_found_message _ _ Hx) as [out ->]. rewrite bind_Ret_l. by eexists _, _. }
  pose proof (fs_lookup_lt _ _ _ Hlk) as Hi.
  assert (Hlk' : files (o_fs s) !! i = Some (files (o_fs s) !!! i)) by (by apply aget_Some).
  pose proof (Forall_lookup_1 _ _ _ _ (or_files _ Hs) Hlk') as Hf.
  pose proof (fw_data_length _ Hf) as Hd. unfold FILE_DATA_SIZE in *. unfold copy_length.
  rewrite (proj2 (Z.ltb_ge (Z.of_nat FILE_DATA_SIZE) n)) by (unfold FILE_DATA_SIZE; lia). rewrite u32_id by lia.
  destruct w.
  - destruct (Hsrc eq_refl) as [Hb Hfit]. rewrite (copy_in_own _ _ _ _ bytes) by (rewrite ?Hd; lia || exact Hb).
    assert (Hl : n <= Z.of_nat (length bytes)) by (destruct buf; destruct Hb; [lia|by subst]).
    unfold copy_bytes. rewrite Hd. rewrite !(proj2 (Z.leb_le _ _)) by lia. cbn [andb defined_if]. rewrite !bind_Ret_l.
    destruct (written_ready (files (o_fs s)) i bytes n (or_files _ Hs) (or_named _ Hs) Hi) as (Ef & Hwf & Hnm);
      [unfold FILE_DATA_SIZE; lia|lia|].
    specialize (Hfit i Hlk). unfold files_after in Hfit. rewrite Ef in Hwf, Hfit.
    pose proof (fs_flush_spec (mkFs _ (fs_disk (o_fs s))) (enter_machine s) (mr_blk _ (enter_ready s Hs)) Hwf Hdisk) as Hfl.
    cbn [files] in Hfl. rewrite (proj2 (Nat.leb_le _ _) Hfit) in Hfl. destruct Hfl as (m & -> & _).
    rewrite bind_Ret_l. by eexists _, _.
  - specialize (Hdst eq_refl). destruct buf as [a|b].
    + destruct (copy_out_own lo hi (o_kernel s) a (f_data (files (o_fs s) !!! i)) n) as (K & -> & _);
        [apply Hs|rewrite Hd; lia|exact Hdst|]. rewrite bind_Ret_l. by eexists _, _.
    + unfold copy_out, copy_bytes. cbn [own_dest] in Hdst. rewrite Hd, !(proj2 (Z.leb_le _ _)) by lia.
      cbn [andb defined_if]. rewrite !bind_Ret_l. by eexists _, _.
Qed.

(** *** The statistics *)

(** [printf] takes the counters as [int]; the least [int] is the one it cannot
    print. *)
Definition counters_print (t : ipv4_stats) : Prop :=
  Forall (fun c => exists ds, printNum (s32 c) = Ret ds)
    [rx_packets t; rx_dropped t; rx_icmp t; rx_udp t; rx_tcp t; rx_other t; tx_packets t; tx_dropped t].

Lemma ipv4_dump_total (m : machine D) : counters_print (stats (m_ip m)) -> exists out, ipv4_dump_stats m = Ret out.
Proof.
  intros Hc. unfold ipv4_dump_stats. destruct (print_ipv4_ret IPV4_LOCAL_ADDRESS) as [a ->]. rewrite bind_Ret_l. cbv zeta.
  unfold counters_print in Hc. rewrite !Forall_cons in Hc.
  destruct Hc as ([d1 E1] & [d2 E2] & [d3 E3] & [d4 E4] & [d5 E5] & [d6 E6] & [d7 E7] & [d8 E8] & _).
  assert (Hrx : exists b, printf (bytes_of "  rx=%d drop=%d icmp=%d udp=%d tcp=%d other=%d" ++ [10; 0])
    [VInt (rx_packets (stats (m_ip m))); VInt (rx_dropped (stats (m_ip m))); VInt (rx_icmp (stats (m_ip m)));
     VInt (rx_udp (stats (m_ip m))); VInt (rx_tcp (stats (m_ip m))); VInt (rx_other (stats (m_ip m)))] = Ret b).
  { change (bytes_of "  rx=%d drop=%d icmp=%d udp=%d tcp=%d other=%d" ++ [10; 0]) with
      (bytes_of "  rx=" ++ [chr_percent; chr_d] ++ bytes_of " drop=" ++ [chr_percent; chr_d] ++
       bytes_of " icmp=" ++ [chr_percent; chr_d] ++ bytes_of " udp=" ++ [chr_percent; chr_d] ++
       bytes_of " tcp=" ++ [chr_percent; chr_d] ++ bytes_of " other=" ++ [chr_percent; chr_d; 10; 0]).
    rewrite printf_text by reflexivity. cbn [app]. rewrite (printf_d _ _ _ d1) by exact E1.
    rewrite printf_text by reflexivity. cbn [app]. rewrite (printf_d _ _ _ d2) by exact E2.
    rewrite printf_text by reflexivity. cbn [app]. rewrite (printf_d _ _ _ d3) by exact E3.
    rewrite printf_text by reflexivity. cbn [app]. rewrite (printf_d _ _ _ d4) by exact E4.
    rewrite printf_text by reflexivity. cbn [app]. rewrite (printf_d _ _ _ d5) by exact E5.
    rewrite printf_text by reflexivity. cbn [app]. rewrite (printf_d _ _ _ d6) by exact E6.
    rewrite printf_char, printf_end by discriminate. by eexists. }
  destruct Hrx as [b ->]. rewrite bind_Ret_l.
  change (bytes_of "  tx=%d drop=%d" ++ [10; 0]) with
    (bytes_of "  tx=" ++ [chr_percent; chr_d] ++ bytes_of " drop=" ++ [chr_percent; chr_d; 10; 0]).
  rewrite printf_text by reflexivity. cbn [app]. rewrite (printf_d _ _ _ d7) by exact E7.
  rewrite printf_text by reflexivity. cbn [app]. rewrite (printf_d _ _ _ d8) by exact E8.
  rewrite printf_char, printf_end by discriminate. rewrite !bind_Ret_l. by eexists.
Qed.

(** *** System calls *)

(** Arguments a program may pass: pointers to its own memory with what the call
    wants there, lengths within the buffer, and resources where the call needs
    some. *)
Inductive call_ok s : frame -> Prop :=
  | ok_putchar n a1 a2 : call_ok s (mkFrame (Num n) a1 a2 SYS_PUTCHAR)
  | ok_getchar a0 a1 a2 : wakes_up s -> call_ok s (mkFrame a0 a1 a2 SYS_GETCHAR)
  | ok_exit a0 a1 a2 : call_ok s (mkFrame a0 a1 a2 SYS_EXIT)
  | ok_readfile w name x buf n :
      own_string (o_kernel s) w name -> cstr name x -> 0 <= n <= Z.of_nat FILE_DATA_SIZE -> own_dest (o_kernel s) buf n ->
      call_ok s (mkFrame w buf (Num n) SYS_READFILE)
  | ok_writefile w name x buf n bytes :
      own_string (o_kernel s) w name -> cstr name x -> 0 <= n <= Z.of_nat FILE_DATA_SIZE ->
      own_source (o_kernel s) buf n bytes ->
      (forall i, fs_lookup (files (o_fs s)) name = Ret (Some i) ->
         (length (archive (files_after s i bytes n)) <= Z.to_nat DISK_MAX_SIZE)%nat) ->
      call_ok s (mkFrame w buf (Num n) SYS_WRITEFILE)
  | ok_send buf n a2 :
      (0 <= s32 n <= 1500 -> exists bytes, own_source (o_kernel s) buf (s32 n) bytes) ->
      call_ok s (mkFrame buf (Num n) a2 SYS_SEND)
  | ok_send_null n a2 : call_ok s (mkFrame (Num 0) (Num n) a2 SYS_SEND)
  | ok_arp_request ip a1 a2 : call_ok s (mkFrame (Num ip) a1 a2 SYS_ARP_REQUEST)
  | ok_arp_dump a0 a1 a2 : call_ok s (mkFrame a0 a1 a2 SYS_ARP_DUMP)
  | ok_ipv4_dump a0 a1 a2 :
      counters_print (stats (m_ip (o_machine s))) -> call_ok s (mkFrame a0 a1 a2 SYS_IPV4_DUMP)
  | ok_shm_get key a1 a2 :
      ph_avail (lo:=lo) (hi:=hi) (k_heap (o_kernel s)) 1 -> next_shm_id (k_shm (o_kernel s)) + 1 < 2 ^ 31 ->
      call_ok s (mkFrame (Num key) a1 a2 SYS_SHM_GET)
  | ok_shm_attach id a1 a2 :
      budget lo hi (k_heap (o_kernel s)) (current_process (o_kernel s)) 1 ->
      call_ok s (mkFrame (Num id) a1 a2 SYS_SHM_ATTACH)
  | ok_shm_detach va a1 a2 : call_ok s (mkFrame (Num va) a1 a2 SYS_SHM_DETACH)
  | ok_shm_dump a0 a1 a2 : call_ok s (mkFrame a0 a1 a2 SYS_SHM_DUMP).

(** The send calls as the machine sees them, whatever their arguments. *)
Lemma send_ready s payload len n m :
  os_ready s -> virtio_net_send_packet (enter_machine s) payload len = Ret (n, m) -> os_ready (leave_machine m s).
Proof.
  intros Hs E. eapply (ready_drivers_call (fun m => virtio_net_send_packet m payload len)); [exact Hs| |exact E].
  destruct (send_packet_total (EthernetLink0 := board_link) (enter_machine s) payload len (enter_ready s Hs))
    as (n' & m' & E' & Hm & _); [|by exists n', m'].
  intros bytes -> Hlen. unfold virtio_net_send_packet, virtio_net_send_ethernet in E.
  rewrite (ready_up _ (mr_nic _ (enter_ready s Hs))) in E.
  change (Z.of_nat ETH_MAX_FRAME_SIZE - Z.of_nat ETHERNET_HEADER_SIZE) with 1500 in E.
  rewrite (proj2 (Z.ltb_ge len 0)), (proj2 (Z.ltb_ge 1500 len)) in E by lia. cbn [negb orb] in E.
  apply bind_Ret_inv in E as ([] & E & _). by apply defined_if_Ret_inv, Z.leb_le in E.
Qed.

Lemma fetch_payload_own s w len :
  os_ready s -> (0 <= len <= 1500 -> exists bytes, own_source (o_kernel s) w len bytes) ->
  exists payload, fetch_payload s w len = Ret payload /\
    forall bytes, payload = Some bytes -> 0 <= len <= 1500 -> len <= Z.of_nat (length bytes).
Proof.
  intros Hs Hw. unfold fetch_payload. change (Z.of_nat ETH_MAX_FRAME_SIZE - Z.of_nat ETHERNET_HEADER_SIZE) with 1500.
  destruct w as [a|b].
  - destruct (u32 a =? 0); [by eexists|].
    change (net_up (m_net (o_machine s))) with (net_up (m_net (enter_machine s))).
    rewrite (ready_up _ (mr_nic _ (enter_ready s Hs))). cbn [negb orb].
    destruct (Z.ltb_spec len 0) as [Hl|Hl]; [eexists; split; [done|lia]|].
    destruct (Z.ltb_spec 1500 len) as [Hg|Hg]; [eexists; split; [done|lia]|].
    destruct (Hw (conj Hl Hg)) as (bytes & Hb & ->). cbn [orb]. rewrite Nat2Z.id, (copy_from_own _ bytes _ (u32_range a) Hb).
    rewrite bind_Ret_l. eexists. split; [done|]. intros bs [= <-] _. lia.
  - exists (Some b). split; [done|]. intros bytes [= <-] Hl. by destruct (Hw Hl) as (bs & _ & Hle).
Qed.

Lemma arp_request_ready s ip :
  os_ready s -> exists n m, arp_request (enter_machine s) ip = Ret (n, m) /\ os_ready (leave_machine m s).
Proof.
  intros Hs. destruct (arp_request_spec (EthernetLink0 := board_link) (enter_machine s) ip (enter_ready s Hs))
    as (m & E & Hm & _). exists 28, m. split; [exact E|]. by apply ready_leave.
Qed.

Lemma s32_lt x : s32 x < 2 ^ 31.
Proof. pose proof (s32_range x). lia. Qed.

(** A call that returns leaves the system ready. *)
Lemma handle_syscall_ready f s r s' :
  os_ready s -> k_current (o_kernel s) <> k_idle (o_kernel s) -> own_buffer s f ->
  handle_syscall L f s = Ret (r, s') -> os_ready s'.
Proof.
  intros Hs Hne Ho E. unfold handle_syscall in E.
  repeat match type of E with
  | (if ?c then _ else _) = _ => destruct c eqn:?
  | (_ ≫= _) = Ret _ => let x := fresh "x" in let Ex := fresh "Ex" in
      apply bind_Ret_inv in E as (x & Ex & E); try (is_var x; destruct x as [? ?])
  end; try discriminate E;
    try (injection E as <- <-; first [exact Hs | by apply ready_print | by eapply send_ready]).
  - exact (proj2 (getchar_ready _ s Hs) _ _ E).
  - destruct (sys_exit_total s Hs Hne) as (r1 & s1 & E1 & H1). rewrite E in E1. by injection E1 as <- <-.
  - eapply sys_file_ready; [exact Hs| |exact E]. by apply own_buffer_file.
  - injection E as <- <-. match goal with Ha : arp_request _ ?ip = _ |- _ =>
      destruct (arp_request_ready s ip Hs) as (n' & m' & E' & H'); rewrite Ha in E'; by injection E' as <- <- end.
  - injection E as <- <-. apply ready_kernel; [exact Hs|]. eapply get_ready; [apply Hs|apply s32_lt|eassumption].
  - injection E as <- <-. apply ready_kernel; [exact Hs|]. eapply attach_ready; [apply Hs|eassumption].
  - injection E as <- <-. apply ready_kernel; [exact Hs|]. match goal with Ha : detach_current _ ?va = _ |- _ =>
      destruct (detach_ready lo hi (o_kernel s) va (or_kernel _ Hs)) as (r' & K' & E' & H'); rewrite Ha in E';
      by injection E' as <- <- end.
Qed.

Lemma call_ok_own s f : call_ok s f -> own_buffer s f.
Proof.
  intros Hf Ef. destruct Hf as [| | |w name x buf n Hw Hx Hn Hd| | | | | | | | | |]; try discriminate Ef.
  intros k [= <-] _ a i Ea _. cbn [f_a1] in Ea. subst buf.
  unfold FILE_DATA_SIZE in Hn. rewrite s32_id by lia. unfold copy_length, FILE_DATA_SIZE.
  rewrite (proj2 (Z.ltb_ge _ _)) by lia. rewrite (u32_id n) by lia. exact Hd.
Qed.

(** With such arguments it returns. *)
Lemma handle_syscall_total f s :
  os_ready s -> k_current (o_kernel s) <> k_idle (o_kernel s) -> call_ok s f ->
  exists r s', handle_syscall L f s = Ret (r, s').
Proof.
  intros Hs Hne Hf. unfold handle_syscall.
  destruct Hf as [n a1 a2|a0 a1 a2 Hw|a0 a1 a2|w name x buf n Hw Hx Hn Hd|w name x buf n bytes Hw Hx Hn Hb Hfit
    |buf n a2 Hn|n a2|ip a1 a2
    |a0 a1 a2|a0 a1 a2 Hc|key a1 a2 Hav Hid|id a1 a2 Hb|va a1 a2|a0 a1 a2]; cbn [f_a0 f_a1 f_a2 f_a3];
    cbn [SYS_PUTCHAR SYS_GETCHAR SYS_EXIT SYS_READFILE SYS_WRITEFILE SYS_SEND SYS_ARP_REQUEST SYS_ARP_DUMP SYS_IPV4_DUMP
      SYS_SHM_GET SYS_SHM_ATTACH SYS_SHM_DETACH SYS_SHM_DUMP Z.eqb Pos.eqb orb num];
    rewrite ?bind_Ret_l.
  - by eexists _, _.
  - apply (proj1 (getchar_ready (polls s) s Hs)); [exact Hw|unfold polls; lia].
  - destruct (sys_exit_total s Hs Hne) as (r & s' & E & _). by exists r, s'.
  - rewrite (fetch_string_own _ _ _ Hw), !bind_Ret_l. unfold FILE_DATA_SIZE in Hn. rewrite s32_id by lia.
    by apply (sys_file_total false name x buf n []).
  - rewrite (fetch_string_own _ _ _ Hw), !bind_Ret_l. unfold FILE_DATA_SIZE in Hn. rewrite s32_id by lia.
    by apply (sys_file_total true name x buf n bytes).
  - destruct (fetch_payload_own s buf (s32 n) Hs Hn) as (payload & -> & Hp). rewrite bind_Ret_l.
    destruct (send_packet_total (EthernetLink0 := board_link) (enter_machine s) payload (s32 n) (enter_ready s Hs) Hp)
      as (k & m & -> & _). rewrite bind_Ret_l. by eexists _, _.
  - by eexists _, _.
  - destruct (arp_request_ready s (u32 ip) Hs) as (k & m & -> & _). rewrite bind_Ret_l. by eexists _, _.
  - destruct (arp_dump_ret (m_arp (o_machine s))) as [out ->]. rewrite bind_Ret_l. by eexists _, _.
  - destruct (ipv4_dump_total (o_machine s) Hc) as [out ->]. rewrite bind_Ret_l. by eexists _, _.
  - destruct (get_total lo hi (o_kernel s) (s32 key) (or_kernel _ Hs) Hav Hid) as (k & K & ->). rewrite bind_Ret_l. by eexists _, _.
  - destruct (attach_total lo hi (o_kernel s) (s32 id) (or_kernel _ Hs) Hb) as (k & K & ->). rewrite bind_Ret_l. by eexists _, _.
  - destruct (detach_ready lo hi (o_kernel s) (u32 va) (or_kernel _ Hs)) as (k & K & -> & _). rewrite bind_Ret_l. by eexists _, _.
  - destruct (shm_dump_total lo hi _ _ _ (ko_sys _ _ _ (kr_ok _ _ _ (or_kernel _ Hs))) (kr_shm _ _ _ (or_kernel _ Hs)))
      as [out ->]. rewrite bind_Ret_l. by eexists _, _.
Qed.
End Ready.
