(* ===== verification/Boot.v ===== *)
(** Boot ([kernel_main] of [kernel/kernel.c]).

    From the cleared BSS, on a board whose devices identify themselves,
    [kernel_main] reaches the first switch to the shell in a state the system
    can run from ([os_ready]). *)

From Stdlib Require Import ZArith Lia.
From S2P Require Import Prelude Memory PageHeap Allocator PageTable Shm Process KernelInv System Lifecycle AddressSpace Kernel Views Reach World Strings Bytes Arp Ipv4 Ring Virtio Machine NetDriver Interrupts NetStack Disk Fs SimDevices FsImage Startup Board UserMemory Syscall Objects Ready.
Open Scope Z_scope.

(** ** The memory image before [kernel_main] *)

Definition bss_arp : arp_state :=
  mkArpState (replicate ARP_CACHE_SIZE (mkArp false 0 (replicate 6 0))) (mkPending false (replicate 6 0) 0).

(** Static storage of the drivers; what their pointers lead to does not exist
    yet, [dma] is a placeholder for it. *)
Definition bss_machine {D : Type} (d : D) (sst : Z) : machine D :=
  let frame := replicate ETH_MAX_FRAME_SIZE 0 in
  mkMachine d sst [] (mkDma virtq_zero [] virtq_zero [] virtq_zero (mkReq 0 0 [] 0))
    (mkNet (mkDevice 0 0) false 0 0 (mkRx 0 0 0 0 frame 0)
       (mkCaptures (replicate 16 (mkCapture 0 0 frame)) 0 0 0) (mkTx 0 0 0 false))
    (mkBlk (mkDevice 0 0) 0 0 false)
    bss_arp (mkIpv4 (mkStats 0 0 0 0 0 0 0 0) 1).

Definition bss_kernel (c : csrs) (mem : mem) : kstate heap :=
  mkK (mkHeap (replicate MAX_REGIONS (mkRegion 0 0 REGION_UNUSED)) mem)
    (mkShmState (replicate SHM_MAX shm_object_zero) 1) (replicate PROCS_MAX zero_process) 0 0 c.

Definition bss_os {D : Type} (c : csrs) (mem : mem) (d : D) (input : list Z) : os heap D :=
  mkOs (bss_kernel c mem) (bss_machine d (sstatus c)) fs_boot input.

Lemma bss_arp_wf : arp_wf bss_arp.
Proof. split; [exact empty_cache_wf|reflexivity]. Qed.

Lemma ipv4_init_ret : exists out, ipv4_init = Ret (out, mkIpv4 (mkStats 0 0 0 0 0 0 0 0) 1).
Proof. eexists. vm_compute. reflexivity. Qed.
Lemma arp_init_ret : exists out, arp_init = Ret (out, bss_arp).
Proof. eexists. vm_compute. reflexivity. Qed.

(** ** The drivers *)

Section Drivers.
Context {D : Type} `{!Devices D} `{!NicSpec D} `{!BlkSpec D} `{!Startup D} `{!Board D}.
Implicit Types (m : machine D).

(** The part of [kernel_main] between the allocator and the processes. *)
Definition start_drivers (h : heap) m (fs : fs_state) : outcome (heap * fs_state * machine D) :=
  '(h, m) ← virtio_blk_init h m;
  '(h, m) ← virtio_net_init h m;
  '(out, ip) ← ipv4_init;
  let m := emit out (set_m_ip ip m) in
  '(out, arp) ← arp_init;
  let m := emit out (set_m_arp arp m) in
  let m := set_m_dev (plic_init (m_dev m)) m in
  let m := set_m_sstatus (Z.lor (m_sstatus m) SSTATUS_SIE) m in
  '(fs, m) ← fs_init fs m;
  Ret (h, fs, m).

Lemma start_ready m :
  blk_idle m -> rx_ok m 0 -> tx_vq (m_dma m) = queue_new NET_TX_QUEUE -> net_up (m_net m) = true ->
  dev_base (net_dev (m_net m)) = slot_base nic_slot -> machine_ready m.
Proof.
  intros [Hb Hq Hd Hc] Hr Ht Hup Hbase. destruct (queue_new_ok 0) as [Hu Hp], (queue_new_ok NET_TX_QUEUE) as [Hu' Hp'].
  assert (Hdrv : exists seen, drivers_ok m seen).
  { exists 0. split; [exact Hr|by rewrite Ht|by rewrite Hq]. }
  split.
  - split; [exact Hdrv|exact Hup|by rewrite board_nic| |by rewrite Hq]. split; by rewrite Ht.
  - split; rewrite ?Hq, ?Ht; try assumption; reflexivity.
Qed.

Lemma start_drivers_total {lo hi : Z} `{!PageHeapSpec heap lo hi} h d sst fl k :
  ph_ok h -> ph_avail h (14 + k) -> present d -> 0 <= disk_sectors < 2 ^ 22 ->
  Forall file_wf fl -> (length fl <= FILES_MAX)%nat -> Z.of_nat DISK_SECTORS <= disk_sectors ->
  (length (archive fl) <= Z.to_nat DISK_MAX_SIZE)%nat -> on_disk (image_of fl) (bss_machine d sst) ->
  exists h' fs m, start_drivers h (bss_machine d sst) fs_boot = Ret (h', fs, m) /\
    ph_ok h' /\ ph_avail h' k /\ machine_ready m /\ fs_disk fs = image_of fl /\
    listing (files fs) = listing fl /\ Forall slot_named (files fs) /\ Forall file_wf (files fs).
Proof.
  intros Hok Hav Hp Hs Hwf Hl Hds Ha Hdisk. unfold start_drivers.
  destruct (virtio_blk_init_total h (bss_machine d sst) (11 + k) Hok Hav Hp Hs)
    as (h1 & m1 & -> & Hok1 & Hav1 & T1 & Hblk & _ & _ & En & Ea).
  rewrite bind_Ret_l.
  destruct (virtio_net_init_total h1 m1 k Hok1 Hav1 (present_touched _ _ T1 Hp))
    as (h2 & m2 & -> & Hok2 & Hav2 & T2 & Hrx & Htx & Hup & Hbase & Eblk & Evq & Ereq & _).
  { by rewrite En. }
  { rewrite En. apply Forall_replicate. split; [reflexivity|]. cbn. unfold ETH_MAX_FRAME_SIZE. lia. }
  { rewrite Ea. exact bss_arp_wf. }
  rewrite bind_Ret_l. destruct ipv4_init_ret as [o1 ->]. rewrite bind_Ret_l.
  destruct arp_init_ret as [o2 ->]. rewrite bind_Ret_l.
  match goal with |- context [fs_init _ ?m3] => set (m := m3) end.
  assert (T3 : touched d (m_dev m)).
  { apply touched_plic_init. eapply touched_trans; [exact T1|exact T2]. }
  assert (Hready : machine_ready m).
  { apply start_ready; [|destruct Hrx; split; try assumption; exact bss_arp_wf|exact Htx|exact Hup|exact Hbase].
    destruct Hblk as [Hb1 Hb2 Hb3 Hb4]. split; cbn; rewrite ?Eblk, ?Evq, ?Ereq; assumption. }
  destruct (fs_init_spec fl m (mr_blk _ Hready) Hwf Hl Hds Ha) as (fs & m' & -> & Hm' & F & Ed & El & Hn & Hfw).
  { intros s Hlt. rewrite (disk_touched _ _ T3). by apply Hdisk. }
  rewrite bind_Ret_l. eexists h2, fs, m'. split; [reflexivity|]. split; [exact Hok2|]. split; [exact Hav2|].
  split; [by eapply ready_after_blk|]. done.
Qed.
End Drivers.

(** ** The boot sequence *)

Section Boot.
Context {D : Type} `{!Devices D} `{!NicSpec D} `{!BlkSpec D} `{!Startup D} `{!Board D}.
Context (L : layout) (free_ram : Z) (Hram : 0 < free_ram /\ free_ram_end L < 2 ^ 32).
#[local] Instance ram_spec : PageHeapSpec heap free_ram (free_ram_end L) := heap_PageHeapSpec free_ram (free_ram_end L) Hram.

(** What [kernel_main] does once the drivers and the file system are up. *)
Definition start_shell (K : kstate heap) (sst image size : Z) : outcome (option (nat * nat) * kstate heap) :=
  K ← init_processes L K;
  '(_, K) ← create_process L K image size;
  yield L (set_csrs K (mkCsrs sst (satp (k_csrs K)) (sscratch (k_csrs K)))).

Lemma kernel_main_unfold image size K m fs input :
  kernel_main L free_ram image size (mkOs K m fs input) =
    ('(h, fs, m) ← start_drivers (mkHeap (init_regions free_ram (free_ram_end L) (h_regions (k_heap K))) (h_mem (k_heap K)))
        (set_m_sstatus (sstatus (k_csrs K)) m) fs;
     '(sw, K) ← start_shell (set_heap (set_shm (set_csrs K (mkCsrs (sstatus (k_csrs K)) (satp (k_csrs K)) 0))
        (shm_init (k_shm K))) h) (m_sstatus m) image size;
     match sw with
     | None => Panic "switched to idle process"
     | Some (prev, next) => Ret (prev, next, mkOs K m fs input)
     end).
Proof.
  unfold kernel_main, start_drivers, start_shell. cbn [o_kernel o_machine o_fs o_input].
  cbn [set_shm set_csrs k_csrs k_shm sstatus satp].
  set (h0 := mkHeap _ _). clearbody h0. set (m0 := set_m_sstatus (sstatus (k_csrs K)) m). clearbody m0.
  destruct (virtio_blk_init h0 m0) as [[h1 m1]|msg|]; [|reflexivity|reflexivity]. rewrite !bind_Ret_l.
  destruct (virtio_net_init h1 m1) as [[h2 m2]|msg|]; [|reflexivity|reflexivity]. rewrite !bind_Ret_l.
  destruct ipv4_init as [[o1 ip]|msg|]; [|reflexivity|reflexivity]. rewrite !bind_Ret_l.
  destruct arp_init as [[o2 arp]|msg|]; [|reflexivity|reflexivity]. rewrite !bind_Ret_l.
  destruct (fs_init _ _) as [[fs' m3]|msg|]; [|reflexivity|reflexivity]. rewrite !bind_Ret_l.
  destruct (init_processes L _) as [K1|msg|]; [|reflexivity|reflexivity]. rewrite !bind_Ret_l.
  destruct (create_process L K1 image size) as [[i K2]|msg|]; [|reflexivity|reflexivity]. rewrite !bind_Ret_l.
  reflexivity.
Qed.

Lemma boot_printable : printable boot_shm.
Proof. split; [reflexivity|]. intros k o Hk Hu. by rewrite (boot_shm_unused k o Hk) in Hu. Qed.

Lemma bss_shm : shm_init (mkShmState (replicate SHM_MAX shm_object_zero) 1) = boot_shm.
Proof. reflexivity. Qed.

Lemma kernel_main_eq image size c mem d input :
  free_ram <= free_ram_end L ->
  kernel_main L free_ram image size (bss_os c mem d input) =
    ('(h, fs, m) ← start_drivers (mkHeap (initial_regions free_ram (free_ram_end L)) mem) (bss_machine d (sstatus c)) fs_boot;
     '(sw, K) ← start_shell (boot_kernel h (mkCsrs (sstatus c) (satp c) 0)) (m_sstatus m) image size;
     match sw with
     | None => Panic "switched to idle process"
     | Some (prev, next) => Ret (prev, next, mkOs K m fs input)
     end).
Proof.
  intros Hle. assert (Em : set_m_sstatus (sstatus c) (bss_machine d (sstatus c)) = bss_machine d (sstatus c)) by reflexivity.
  unfold bss_os. set (m := bss_machine d (sstatus c)) in *. clearbody m.
  generalize fs_boot as fs. intros fs. rewrite kernel_main_unfold.
  unfold bss_kernel. cbn [k_heap h_regions h_mem k_csrs k_shm set_csrs].
  rewrite (init_regions_eq free_ram (free_ram_end L)) by (first [apply Hram | reflexivity | exact Hle]).
  rewrite Em. unfold set_heap, set_shm, boot_kernel. cbn [k_heap k_shm k_procs k_current k_idle k_csrs].
  rewrite bss_shm. reflexivity.
Qed.

Lemma start_shell_inv K sst image size sw K' :
  start_shell K sst image size = Ret (sw, K') ->
  exists K1 i K2, init_processes L K = Ret K1 /\ create_process L K1 image size = Ret (i, K2) /\
    yield L (set_csrs K2 (mkCsrs sst (satp (k_csrs K2)) (sscratch (k_csrs K2)))) = Ret (sw, K').
Proof.
  intros Hs. unfold start_shell in Hs.
  apply bind_Ret_inv in Hs as (K1 & Hi & Hs). apply bind_Ret_inv in Hs as ([i K2] & Hc & Hy).
  by exists K1, i, K2.
Qed.

Lemma start_shell_steps K0 K1 K image size i sw sst :
  image_ok free_ram (free_ram_end L) image size -> create_process L K0 image size = Ret (i, K1) ->
  yield L (set_csrs K1 (mkCsrs sst (satp (k_csrs K1)) (sscratch (k_csrs K1)))) = Ret (sw, K) ->
  rtc (kernel_step free_ram (free_ram_end L) L) K0 K.
Proof.
  intros Him Hc Hy. eapply rtc_l; [exact (step_create _ _ _ _ _ _ _ _ Him Hc)|].
  eapply rtc_l; [apply step_csrs|]. eapply rtc_once. exact (step_yield _ _ _ _ _ _ Hy).
Qed.

(** Whatever the processes start from, the result is a state of the process
    machine. *)
Lemma start_shell_reachable h c sst image size sw K :
  ph_ok (lo:=free_ram) (hi:=free_ram_end L) h -> image_ok free_ram (free_ram_end L) image size ->
  start_shell (boot_kernel h c) sst image size = Ret (sw, K) -> reachable free_ram (free_ram_end L) L K.
Proof.
  intros Hok Him Hs. destruct (start_shell_inv _ _ _ _ _ _ Hs) as (K0 & i & K1 & Hi & Hc & Hy).
  exists h, c, K0. split; [exact Hok|]. split; [exact Hi|]. by eapply start_shell_steps.
Qed.

(** The state the shell starts in: the only process that can run, its address
    space holding the image. *)
Record shell_started (K : kstate heap) (sst image size : Z) : Prop := {
  ss_current : k_current K = 1%nat /\ k_idle K = 0%nat;
  ss_shell : exists K1 K2 p, created free_ram (free_ram_end L) L K1 image size 1 K2 p /\
    k_heap K = k_heap K2 /\ k_procs K = k_procs K2 /\ k_procs K !! 1%nat = Some p /\
    satp (k_csrs K) = Z.lor SATP_SV32 (page_table p / PAGE_SIZE);
  ss_csrs : sstatus (k_csrs K) = Z.land sst (Z.lnot Process.SSTATUS_SIE) /\ sscratch (k_csrs K) = stack_top L 1;
}.

Lemma start_shell_total h c sst image size s :
  layout_ok L -> ph_ok (lo:=free_ram) (hi:=free_ram_end L) h -> image_ok free_ram (free_ram_end L) image size ->
  ph_avail (lo:=free_ram) (hi:=free_ram_end L) h (space_pages L 0 + (space_pages L size + s)) ->
  (space_pages L 0 <= PROC_REGION_MAX)%nat -> (space_pages L size <= PROC_REGION_MAX)%nat ->
  exists K, start_shell (boot_kernel h c) sst image size = Ret (Some (0%nat, 1%nat), K) /\
    shell_started K sst image size /\ kernel_ready free_ram (free_ram_end L) K /\
    ph_avail (lo:=free_ram) (hi:=free_ram_end L) (k_heap K) s.
Proof.
  intros HL Hok Him Hav Hm0 Hm. unfold start_shell.
  destruct (init_processes_total free_ram (free_ram_end L) L h c 0 (space_pages L size + s) HL Hok Hav ltac:(lia))
    as (K0 & q & -> & HK0 & Hp0 & Hqs & Hqp & Hc0 & Hi0 & Hsh0 & _ & _ & Hav0 & _).
  rewrite bind_Ret_l.
  assert (Hfs : find_slot (fun p => p_state p =? PROC_UNUSED) (k_procs K0) = Some 1%nat).
  { rewrite Hp0. cbn. rewrite Hqs. reflexivity. }
  destruct (create_process_leaves free_ram (free_ram_end L) L K0 image size 1 0 s (ko_sys _ _ _ HK0) HL Him Hfs Hav0
    ltac:(lia)) as (K1 & p & Hc & Hp1 & _ & Hav1).
  destruct (create_process_ok free_ram (free_ram_end L) L K0 image size 1 K1 (ko_sys _ _ _ HK0) HL Him Hc)
    as (p' & Hcr & _).
  pose proof (cr_procs _ _ _ _ _ _ _ _ _ Hcr) as Hp1'.
  destruct (cr_ids _ _ _ _ _ _ _ _ _ Hcr) as (Hpid & Hpst & _).
  destruct (cr_rest _ _ _ _ _ _ _ _ _ Hcr) as (Hsh1 & Hc1 & Hi1 & _).
  rewrite Hp0 in Hp1'. clear Hp1 p. rename p' into p.
  assert (HK1 : kernel_ok free_ram (free_ram_end L) K1)
    by (by eapply (step_create_ok free_ram (free_ram_end L) L K0)).
  rewrite Hc, bind_Ret_l. clear Hc. set (K2 := set_csrs K1 _).
  assert (Hq : k_procs K2 !! 0%nat = Some q) by (cbn; rewrite Hp1'; reflexivity).
  assert (Hp : k_procs K2 !! 1%nat = Some p) by (cbn; rewrite Hp1'; reflexivity).
  assert (Hcur : k_current K2 = 0%nat) by (cbn; by rewrite Hc1).
  assert (Hnext : pick_next K2 = 1%nat).
  { apply pick_next_only; [unfold PROCS_MAX; lia| |].
    - rewrite (aget_lookup _ _ _ Hp). unfold runnable. by rewrite Hpst, Hpid.
    - intros t Ht. cbn [K2 k_procs set_csrs]. rewrite Hp1'. destruct t as [|[|t]]; [|reflexivity|].
      + unfold runnable. simpl. rewrite Hqs, Hqp. discriminate.
      + unfold PROCS_MAX in Ht. do 6 (destruct t as [|t]; [discriminate|]). lia. }
  destruct (yield_running L K2) as (sw & K & Hy & Eh & Es & Ep & Ei & Ec & Hcs).
  { rewrite Hcur, (aget_lookup _ _ _ Hq), Hqs. discriminate. }
  rewrite Hnext, Hcur in Hcs. cbn in Hcs. destruct Hcs as [-> Ecs].
  assert (HK2 : kernel_ok free_ram (free_ram_end L) K2) by (split; apply HK1).
  exists K. split; [exact Hy|]. split; [|split; [|rewrite Eh; exact Hav1]]; cycle 1.
  { split; [by eapply step_yield_ok| |].
    - unfold running, current_process. rewrite Ec, Hnext, Ep, (aget_lookup _ _ _ Hp), Hpst, Hpid. split; [done|lia].
    - rewrite Es. change (k_shm K2) with (k_shm K1). rewrite Hsh1, Hsh0. exact boot_printable. }
  split.
  - split; [by rewrite Ec|rewrite Ei; cbn; by rewrite Hi1].
  - exists K0, K1, p. split; [exact Hcr|]. split; [exact Eh|]. split; [exact Ep|].
    split; [by rewrite Ep|]. rewrite Ecs. cbn. by rewrite Hp1'.
  - rewrite Ecs. by split.
Qed.

(** Enough RAM behind the kernel for the queues of the drivers, the idle process
    and the shell. *)
Record boot_config (image size : Z) : Prop := {
  bc_layout : layout_ok L;
  bc_ram : free_ram <= free_ram_end L /\ (PAGE_SIZE | free_ram) /\ (PAGE_SIZE | free_ram_end L);
  bc_image : image_ok free_ram (free_ram_end L) image size;
  bc_pages : (14 + (space_pages L 0 + space_pages L size) <= 127)%nat /\
    Z.of_nat (14 + (space_pages L 0 + space_pages L size)) * PAGE_SIZE <= free_ram_end L - free_ram;
  bc_handles : (space_pages L 0 <= PROC_REGION_MAX)%nat /\ (space_pages L size <= PROC_REGION_MAX)%nat;
}.

(** The devices identify themselves, and the disk holds the archive of [fl]. *)
Record boot_disk (d : D) (fl : list file) : Prop := {
  bd_present : present d;
  bd_sectors : Z.of_nat DISK_SECTORS <= disk_sectors < 2 ^ 22;
  bd_files : Forall file_wf fl /\ (length fl <= FILES_MAX)%nat;
  bd_fits : (length (archive fl) <= Z.to_nat DISK_MAX_SIZE)%nat;
  bd_disk : forall n, (512 * S n <= length (image_of fl))%nat -> disk d (Z.of_nat n) = sector (image_of fl) n;
}.

(** What [kernel_main] leaves. *)
Record booted (image size : Z) (fl : list file) (input : list Z) (s : os heap D) : Prop := {
  bt_shell : exists sst, shell_started (o_kernel s) sst image size;
  bt_reachable : reachable free_ram (free_ram_end L) L (o_kernel s);
  bt_ready : os_ready free_ram (free_ram_end L) s;
  bt_files : listing (files (o_fs s)) = listing fl;
  bt_input : o_input s = input;
}.

Lemma kernel_main_total image size c mem d input fl :
  boot_config image size -> boot_disk d fl ->
  exists s, kernel_main L free_ram image size (bss_os c mem d input) = Ret (0%nat, 1%nat, s) /\
    booted image size fl input s.
Proof.
  intros [HL (Hle & Hal & Hah) Him [Hn Hsz] [Hm0 Hm]] [Hp Hds [Hwf Hl] Ha Hdisk].
  set (h0 := mkHeap (initial_regions free_ram (free_ram_end L)) mem).
  assert (Hok : ph_ok (PageHeapSpec := ram_spec) h0) by (apply initial_regions_ok; first [assumption | apply Hram]).
  assert (Hav : ph_avail (PageHeapSpec := ram_spec) h0 (14 + (space_pages L 0 + (space_pages L size + 0)))).
  { rewrite Nat.add_0_r. apply (initial_avail free_ram (free_ram_end L)); [exact Hn|exact Hsz]. }
  destruct (start_drivers_total h0 d (sstatus c) fl _ Hok Hav Hp ltac:(lia) Hwf Hl ltac:(lia) Ha Hdisk)
    as (h & fs & m & Ed & Hok1 & Hav1 & Hm1 & _ & Elist & Hnamed & Hfwf).
  destruct (start_shell_total h (mkCsrs (sstatus c) (satp c) 0) (m_sstatus m) image size 0
    HL Hok1 Him Hav1 Hm0 Hm) as (K & Es & HK & HKr & _).
  exists (mkOs K m fs input). split.
  { rewrite kernel_main_eq by exact Hle. fold h0. rewrite Ed, bind_Ret_l, Es, bind_Ret_l. reflexivity. }
  split; [by exists (m_sstatus m)|by eapply start_shell_reachable|by split|exact Elist|reflexivity].
Qed.
End Boot.

(** C4: the system boots.  Started from the cleared BSS on devices that
    identify themselves, with enough RAM and an archive of at most two files on
    the disk, [kernel_main] returns with the switch from the idle process to the
    shell: interrupts are off, [satp] and [sscratch] are the shell's, its address
    space is the one [create_process] builds from the image, the file table holds
    the files of the archive, the processes are in a reachable state of their
    machine, and the system is ready to run ([os_ready]). *)
Theorem kernel_main_boots {D : Type} `{!Devices D} `{!NicSpec D} `{!BlkSpec D} `{!Startup D} `{!Board D}
    (L : layout) (free_ram image size : Z) (Hram : 0 < free_ram /\ free_ram_end L < 2 ^ 32)
    (c : csrs) (mem : mem) (d : D) (input : list Z) (fl : list file) :
  boot_config L free_ram image size -> boot_disk d fl ->
  exists s, kernel_main L free_ram image size (bss_os c mem d input) = Ret (0%nat, 1%nat, s) /\
    booted L free_ram Hram image size fl input s.
Proof. apply kernel_main_total. Qed.

(** An empty disk of eight sectors, 64 pages of RAM and an image of 5 bytes. *)
Definition boot_image : Z := 0x80280000.

Lemma world_boot_config : boot_config world_layout world_lo boot_image 5.
Proof.
  split.
  - exact world_layout_ok.
  - split; [discriminate|]. split; [by exists 0x80300|by exists 0x80340].
  - unfold image_ok, world_lo, boot_image. cbn. lia.
  - split; [apply Nat.leb_le|apply Z.leb_le]; reflexivity.
  - split; apply Nat.leb_le; reflexivity.
Qed.

Lemma empty_boot_disk :
  boot_disk (Devices0 := board_devices) (BlkSpec0 := board_blk_spec) (Startup0 := board_startup) board_off [].
Proof.
  split; [exact I|by split|split; [constructor|cbn; lia]|cbn; lia|].
  intros n Hn. unfold sector, image_of. change (archive []) with (@nil Z) in *. 
  unfold image_of in Hn. change (archive []) with (@nil Z) in Hn. cbn [app length] in Hn.
  rewrite length_zeros in Hn. rewrite Nat.sub_0_r in *. cbn [app]. unfold zeros. rewrite drop_replicate, take_replicate.
  change (Z.to_nat DISK_MAX_SIZE) with 2560%nat in *. 
  replace (512 `min` (2560 - n * 512))%nat with 512%nat by lia. reflexivity.
Qed.

Lemma kernel_main_boots_witness :
  exists (s : os heap board_dev), kernel_main (Devices0 := board_devices) world_layout world_lo boot_image 5
      (bss_os world_csrs (fun _ => 7) board_off [104; 13]) = Ret (0%nat, 1%nat, s) /\
    k_current (o_kernel s) = 1%nat /\ listing (files (o_fs s)) = [] /\ o_input s = [104; 13].
Proof.
  destruct (@kernel_main_boots board_dev board_devices board_nic_spec board_blk_spec board_startup board_board
    world_layout world_lo boot_image 5 (conj eq_refl eq_refl) world_csrs (fun _ => 7) board_off [104; 13] []
    world_boot_config empty_boot_disk) as (s & E & [[sst [[Hc _] _ _]] _ _ Hl Hi]).
  exists s. split; [exact E|]. split; [exact Hc|]. split; [exact Hl|exact Hi].
Defined.
