(* ===== verification/Reboot.v ===== *)
(** Files survive a reboot: a write by a program, the power switched off, and
    [kernel_main] on the same disk; then a read.  System calls, file system,
    block driver and boot, composed. *)

From Stdlib Require Import ZArith Lia.
From S2P Require Import Prelude Memory PageHeap Allocator PageTable Shm Process KernelInv System Lifecycle AddressSpace Kernel Views Reach World Strings Bytes Arp Ipv4 Ring Virtio Machine NetDriver Interrupts NetStack Disk Fs SimDevices FsImage Startup Board UserMemory Syscall SyscallProps Objects Ready Boot.
Open Scope Z_scope.

Section Reboot.
Context {D : Type} `{!Devices D} `{!NicSpec D} `{!BlkSpec D} `{!Startup D} `{!Board D}.

(** Reading a whole file. *)
Lemma read_contents {H : Type} `{!PageHeap H} (s : os H D) name i x bytes dst :
  fs_lookup (files (o_fs s)) name = Ret (Some i) -> file_wf (files (o_fs s) !!! i) ->
  contents (files (o_fs s) !!! i) = (x, bytes) ->
  (length bytes <= FILE_DATA_SIZE)%nat -> (length bytes <= length dst)%nat ->
  sys_file false name (Ptr dst) (Z.of_nat (length bytes)) s =
    Ret (Back (Num (Z.of_nat (length bytes))) (Some (bytes ++ drop (length bytes) dst)), s).
Proof.
  intros Hlk Hf Hc Hb Hl. injection Hc as _ Ebytes. unfold file_bytes in Ebytes.
  pose proof (fw_data_length _ Hf) as Hd. unfold sys_file. rewrite Hlk, bind_Ret_l. cbv iota zeta.
  unfold copy_length, copy_out, FILE_DATA_SIZE in *. rewrite (proj2 (Z.ltb_ge _ _)) by lia. rewrite u32_id by lia.
  rewrite <-(take_drop (Z.to_nat (f_size (files (o_fs s) !!! i))) (f_data (files (o_fs s) !!! i))), Ebytes.
  rewrite copy_bytes_prefix by lia. rewrite !bind_Ret_l, set_kernel_id. unfold put. by rewrite take_0.
Qed.

(** The disk after a write holds an archive [kernel_main] can load. *)
Lemma disk_after_write (m : machine D) d fl :
  on_disk (image_of fl) m -> (forall k, disk d k = disk (m_dev m) k) -> present d ->
  Z.of_nat DISK_SECTORS <= disk_sectors < 2 ^ 22 -> Forall file_wf fl -> (length fl <= FILES_MAX)%nat ->
  (length (archive fl) <= Z.to_nat DISK_MAX_SIZE)%nat -> boot_disk d fl.
Proof. intros Hi Hd Hp Hs Hwf Hl Ha. split; [exact Hp|exact Hs|by split|exact Ha|]. intros n Hn. rewrite Hd. by apply Hi. Qed.

(** The entry a lookup finds before and after loading. *)
Lemma lookup_loaded fl fl' name x i e :
  Forall slot_named fl -> Forall slot_named fl' -> listing fl' = listing fl -> cstr name x -> x <> [] ->
  fs_lookup fl name = Ret (Some i) -> contents (fl !!! i) = e ->
  exists j, fs_lookup fl' name = Ret (Some j) /\ contents (fl' !!! j) = e.
Proof.
  intros Hn Hn' El Hx Hne Hlk <-.
  destruct (fs_lookup_spec fl name x Hn Hx Hne) as (o & E & Hc). rewrite Hlk in E. injection E as <-.
  destruct (fs_lookup_spec fl' name x Hn' Hx Hne) as (o' & E' & Hc'). rewrite El, <-Hc in Hc'.
  destruct o' as [j|]; [|discriminate Hc']. injection Hc' as Hc1 Hc2. exists j. split; [exact E'|].
  unfold contents. by rewrite Hc1, Hc2.
Qed.
End Reboot.

(** C10: files survive a reboot.  A program writes up to 1024 bytes to an
    existing file, and the archive still fits the disk.  Whatever then becomes of
    memory, registers and the network, when [kernel_main] starts again from the
    cleared BSS on devices whose disk has the same sectors, it boots, and
    [SYS_READFILE] of the name stores exactly the bytes written into the buffer
    of its caller. *)
Theorem files_survive_reboot {H : Type} `{!PageHeap H} {D : Type} `{!Devices D} `{!NicSpec D} `{!BlkSpec D}
    `{!Startup D} `{!Board D} (L : layout) (free_ram image size : Z) (Hram : 0 < free_ram /\ free_ram_end L < 2 ^ 32)
    (s : os H D) (name x bytes dst : list Z) i :
  boot_config L free_ram image size -> Z.of_nat DISK_SECTORS <= disk_sectors < 2 ^ 22 ->
  blk_ready (enter_machine s) -> Forall file_wf (files (o_fs s)) -> Forall slot_named (files (o_fs s)) ->
  (length (files (o_fs s)) <= FILES_MAX)%nat -> cstr name x -> x <> [] ->
  fs_lookup (files (o_fs s)) name = Ret (Some i) ->
  (length bytes <= FILE_DATA_SIZE)%nat -> (length bytes <= length dst)%nat ->
  let fl := <[i := written (files (o_fs s) !!! i) bytes]> (files (o_fs s)) in
  (length (archive fl) <= Z.to_nat DISK_MAX_SIZE)%nat ->
  let n := Z.of_nat (length bytes) in
  exists s1, handle_syscall L (mkFrame (Ptr name) (Ptr bytes) (Num n) SYS_WRITEFILE) s = Ret (Back (Num n) None, s1) /\
    (forall d' c mem input, present d' -> (forall k, disk d' k = disk (m_dev (o_machine s1)) k) ->
     exists s2, kernel_main L free_ram image size (bss_os c mem d' input) = Ret (0%nat, 1%nat, s2) /\
       booted L free_ram Hram image size fl input s2 /\
       handle_syscall L (mkFrame (Ptr name) (Ptr dst) (Num n) SYS_READFILE) s2 =
         Ret (Back (Num n) (Some (bytes ++ drop (length bytes) dst)), s2)).
Proof.
  intros Hcfg Hds Hm Hwf Hnm Hlen Hx Hne Hlk Hb Hl fl Hfit n.
  assert (Hn : 0 <= n < 2 ^ 31) by (unfold n, FILE_DATA_SIZE in *; lia).
  pose proof (fs_lookup_lt _ _ _ Hlk) as Hi. assert (Hfi : files (o_fs s) !! i = Some (files (o_fs s) !!! i)) by (by apply aget_Some).
  pose proof (Forall_lookup_1 _ _ _ _ Hwf Hfi) as Hf.
  destruct (written_ready (files (o_fs s)) i bytes n Hwf Hnm Hi) as (_ & Hwf' & Hnm'); [unfold n; lia|unfold n; lia|].
  unfold n in Hwf', Hnm'. rewrite Nat2Z.id, take_ge in Hwf', Hnm' by lia. fold fl in Hwf', Hnm'.
  destruct (sys_write_spec s name i bytes Hm Hwf ltac:(lia) Hlk Hb Hfit) as (s1 & E & Ef & _ & Hdisk & _).
  exists s1. split; [by rewrite (handle_syscall_file L name bytes n true s Hn)|]. intros d' c mem input Hp Hd.
  assert (Hbd : boot_disk d' fl).
  { apply (disk_after_write (o_machine s1)); try assumption. unfold fl. by rewrite length_insert. }
  destruct (kernel_main_total L free_ram Hram image size c mem d' input fl Hcfg Hbd) as (s2 & E2 & Hboot).
  exists s2. split; [exact E2|]. split; [exact Hboot|].
  destruct Hboot as [_ _ [_ _ Hwf2 Hnm2] El _].
  destruct (lookup_loaded fl (files (o_fs s2)) name x i (c_string (f_name (files (o_fs s) !!! i)), bytes)
    Hnm' Hnm2 El Hx Hne) as (j & Hj & Hc).
  - rewrite <-Hlk. apply fs_lookup_names. unfold fl. rewrite list_fmap_insert.
    apply list_insert_id. by rewrite list_lookup_fmap, Hfi.
  - unfold fl. rewrite aget_set_same by exact Hi. unfold contents, file_bytes, written. cbn [f_name f_data f_size].
    rewrite Nat2Z.id. unfold put. rewrite take_0. cbn [app]. by rewrite take_app_length.
  - rewrite (handle_syscall_file L name dst n false s2 Hn).
    refine (read_contents s2 name j _ bytes dst Hj _ Hc Hb Hl).
    apply (Forall_lookup_1 _ _ j _ Hwf2). apply aget_Some. exact (fs_lookup_lt _ _ _ Hj).
Qed.

(** A board whose disk is a little larger than the archive; the file table of
    [demo_fs]. *)
Definition demo_written : list Z := bytes_of "still here".

Lemma files_survive_reboot_witness :
  exists (s s1 : os heap board_dev) (s2 : os heap board_dev),
    handle_syscall (Devices0 := board_devices) world_layout
      (mkFrame (Ptr (literal "meow.txt")) (Ptr demo_written) (Num 10) SYS_WRITEFILE) s = Ret (Back (Num 10) None, s1) /\
    kernel_main (Devices0 := board_devices) world_layout world_lo boot_image 5
      (bss_os world_csrs (fun _ => 7) (m_dev (o_machine s1)) []) = Ret (0%nat, 1%nat, s2) /\
    handle_syscall (Devices0 := board_devices) world_layout
      (mkFrame (Ptr (literal "meow.txt")) (Ptr (replicate 12 0)) (Num 10) SYS_READFILE) s2 =
      Ret (Back (Num 10) (Some (demo_written ++ [0; 0])), s2).
Proof.
  set (s := mkOs (boot_kernel world_heap world_csrs) (board_machine board_off) (demo_fs 18 7) [] : os heap board_dev).
  assert (Hwf : Forall file_wf (files (o_fs s))) by (apply demo_fs_wf; lia).
  assert (Hnamed : Forall slot_named (files (o_fs s))).
  { apply Forall_cons in Hwf as [H1 Hwf]. apply Forall_cons in Hwf as [H2 _].
    constructor; [exact H1|constructor; [exact H2|constructor]]. }
  assert (Hready : blk_ready (Devices0 := board_devices) (BlkSpec0 := board_blk_spec) (enter_machine s))
    by exact (mr_blk _ (machine_ready_sstatus (Devices0 := board_devices) _ _ (board_machine_ready board_off))).
  destruct (@files_survive_reboot heap _ board_dev board_devices board_nic_spec board_blk_spec board_startup board_board
    world_layout world_lo boot_image 5 (conj eq_refl eq_refl) s (literal "meow.txt") (bytes_of "meow.txt") demo_written
    (replicate 12 0) 1 world_boot_config) as (s1 & E1 & Hreboot).
  - by split.
  - exact Hready.
  - exact Hwf.
  - exact Hnamed.
  - exact (le_n 2).
  - by apply literal_cstr.
  - done.
  - vm_compute. reflexivity.
  - apply Nat.leb_le. reflexivity.
  - apply Nat.leb_le. reflexivity.
  - apply Nat.leb_le. vm_compute. reflexivity.
  - destruct (Hreboot (m_dev (o_machine s1)) world_csrs (fun _ => 7) [] I (fun _ => eq_refl)) as (s2 & E2 & _ & E3).
    exists s, s1, s2. split; [exact E1|]. split; [exact E2|exact E3].
Defined.
