(* ===== verification/Running.v ===== *)
(** The running system: what user programs, interrupts, devices and input do
    to the state of the operating system, step by step.

    Whatever happens, processes and shared memory move as the state machine of
    [Kernel.v] ([system_refines_kernel]); with devices that keep to their
    contracts the system stays ready, so that the next call or interrupt returns
    ([system_keeps_running]). *)

From Stdlib Require Import ZArith Lia.
From stdpp Require Import relations.
From S2P Require Import Prelude Memory PageHeap Allocator PageTable Shm Process KernelInv System Lifecycle AddressSpace Kernel Views Reach World Strings Bytes Arp Ipv4 Ring Virtio Machine NetDriver Interrupts NetStack Disk Fs SimDevices FsImage Startup Board UserMemory Syscall SyscallProps Objects Ready Boot.
Open Scope Z_scope.

(** ** The running system *)

Section Running.
Context {H : Type} `{!PageHeap H} {D : Type} `{!Devices D}.
Implicit Types (s : os H D).

(** What moves the system: a trap of the running user process with the numbers in
    its registers (and, for [SYS_READFILE], a buffer of its own), an interrupt at
    any other time, a process going on after [switch_context] (inside
    [SYS_GETCHAR], or at [user_entry]), a store of the running process, console
    input, and what the devices do on their own ([moves]). *)
Inductive os_step (moves : machine D -> dma -> Prop) (L : layout) : os H D -> os H D -> Prop :=
  | os_trap s scause sepc a0 a1 a2 a3 r s' :
      k_current (o_kernel s) <> k_idle (o_kernel s) ->
      let f := mkFrame (Num a0) (Num a1) (Num a2) a3 in
      own_buffer s f -> handle_trap L scause sepc f s = Ret (r, s') -> os_step moves L s s'
  | os_interrupt s m :
      handle_external_interrupt (enter_machine s) = Ret m -> os_step moves L s (leave_machine m s)
  | os_resume s saved r s' : getchar_resume L saved s = Ret (r, s') -> os_step moves L s s'
  | os_enter s sst :
      os_step moves L s (set_kernel (set_csrs (o_kernel s)
        (mkCsrs sst (satp (k_csrs (o_kernel s))) (sscratch (k_csrs (o_kernel s))))) s)
  | os_store s va v s' : 0 <= va < 2 ^ 32 -> user_store8 s va v = Ret s' -> os_step moves L s s'
  | os_input s l : os_step moves L s (set_input l s)
  | os_device s d mem :
      moves (o_machine s) mem -> os_step moves L s (set_machine (set_m_dma mem (set_m_dev d (o_machine s))) s).

Lemma os_step_runs moves (lo hi : Z) `{!PageHeapSpec H lo hi} L s s' :
  kernel_ok lo hi (o_kernel s) -> os_step moves L s s' -> runs lo hi L s s'.
Proof.
  intros HK Hst. revert HK.
  destruct Hst as [s0 scause sepc a0 a1 a2 a3 r s1 Hne f Ho Hr|s0 m _|s0 saved r s1 Hr|s0 sst|s0 va v s1 Hva Hr|s0 l|s0 d mem _];
    intros HK.
  - by eapply (handle_trap_runs lo hi L scause sepc f).
  - apply runs_machine.
  - unfold getchar_resume in Hr. eapply rtc_l; [apply step_resume|].
    exact (getchar_loop_runs lo hi L _ _ _ _ Hr).
  - apply runs_step, step_csrs.
  - unfold user_store8 in Hr. destruct (user_store (o_kernel s0) va v) as [K|] eqn:E; [|discriminate Hr].
    injection Hr as <-. apply runs_step. by eapply step_store.
  - by apply runs_refl.
  - by apply runs_refl.
Qed.
End Running.

Section Stays.
Context {H : Type} `{!PageHeap H} (lo hi : Z) `{!PageHeapSpec H lo hi}.
Context {D : Type} `{!Devices D} `{!NicSpec D} `{!BlkSpec D} `{!Startup D} `{!Board D}.
Context (Hdisk : Z.of_nat DISK_SECTORS <= disk_sectors) (L : layout).
Implicit Types (s : os H D).

Lemma handle_trap_interrupt sepc f s :
  handle_trap L (SCAUSE_INTERRUPT + SCAUSE_SUPERVISOR_EXT) sepc f s =
  (m ← handle_external_interrupt (enter_machine s); Ret (None, leave_machine m s)).
Proof. reflexivity. Qed.

Lemma handle_trap_ready scause sepc f s r s' :
  os_ready lo hi s -> k_current (o_kernel s) <> k_idle (o_kernel s) -> own_buffer s f ->
  handle_trap L scause sepc f s = Ret (r, s') -> os_ready lo hi s'.
Proof.
  intros Hs Hne Ho Hr. unfold handle_trap in Hr. destruct (negb _); (destruct (_ =? _); [|discriminate Hr]).
  - destruct (interrupt_ready (enter_machine s) (enter_ready lo hi s Hs)) as (m & E & Hm).
    rewrite E, bind_Ret_l in Hr. injection Hr as <- <-. by apply ready_leave.
  - apply bind_Ret_inv in Hr as ([ret s1] & Hc & Hr). injection Hr as <- <-. by eapply handle_syscall_ready.
Qed.

Lemma os_step_ready s s' : os_ready lo hi s -> os_step device_keeps L s s' -> os_ready lo hi s'.
Proof.
  intros Hs Hst. revert Hs.
  destruct Hst as [s0 scause sepc a0 a1 a2 a3 r s1 Hne f Ho Hr|s0 m Hr|s0 saved r s1 Hr|s0 sst|s0 va v s1 Hva Hr|s0 l|s0 d mem Hk]; intros Hs.
  - by eapply (handle_trap_ready scause sepc f).
  - destruct (interrupt_ready (enter_machine s0) (enter_ready lo hi s0 Hs)) as (m' & E & Hm).
    rewrite Hr in E. injection E as <-. by apply ready_leave.
  - unfold getchar_resume in Hr. eapply getchar_ready; [|exact Hr].
    apply ready_kernel; [exact Hs|]. apply kernel_ready_csrs, Hs.
  - apply ready_kernel; [exact Hs|]. apply kernel_ready_csrs, Hs.
  - unfold user_store8 in Hr. destruct (user_store (o_kernel s0) va v) as [K|] eqn:E; [|discriminate Hr].
    injection Hr as <-. apply ready_kernel; [exact Hs|]. eapply store_ready; [apply Hs|exact Hva|exact E].
  - by apply ready_input.
  - destruct Hs as [HK Hm Hf Hn]. split; [exact HK|by apply device_ready|exact Hf|exact Hn].
Qed.
End Stays.

(** C1: the running system refines the machine of processes and shared
    memory.  From a reachable kernel state, whatever traps with whatever numbers in
    the argument registers, interrupts, user stores, switches, devices and input do,
    the kernel state moves only by the steps of [kernel_step], and every state
    passed is reachable again; so what is proved of reachable states (isolation,
    exact reference counts, page tables out of reach) holds while user programs
    run.  The one condition is on [SYS_READFILE]: the buffer it stores to is
    memory its caller may write, which the kernel does not check. *)
Theorem system_refines_kernel {H : Type} `{!PageHeap H} (lo hi : Z) `{!PageHeapSpec H lo hi}
    {D : Type} `{!Devices D} (L : layout) moves (s s' : os H D) :
  layout_ok L -> reachable lo hi L (o_kernel s) -> rtc (os_step moves L) s s' ->
  rtc (kernel_step lo hi L) (o_kernel s) (o_kernel s') /\ reachable lo hi L (o_kernel s').
Proof.
  intros HL HR Hr. assert (Hk : rtc (kernel_step lo hi L) (o_kernel s) (o_kernel s')).
  { induction Hr as [s|s s1 s2 Hst _ IH]; [apply rtc_refl|].
    assert (H1 : runs lo hi L s s1) by (eapply os_step_runs; [by eapply reachable_ok|exact Hst]).
    etrans; [exact H1|]. apply IH. by eapply reachable_steps. }
  split; [exact Hk|]. by eapply reachable_steps.
Qed.


(** The second process of [World.v] prints a character, then input arrives. *)
Lemma system_refines_kernel_witness :
  exists (s s' : os heap disk_image), rtc (os_step (Devices0 := disk_devices) (fun _ _ => False) world_layout) s s' /\
    m_out (o_machine s') = [65] /\ o_input s' = [13] /\ reachable world_lo world_hi world_layout (o_kernel s').
Proof.
  destruct world_shared as (K & q & p & HR & _ & _ & _ & _ & _ & _ & Hc & Hid & _).
  set (s := mkOs K (disk_machine (fun _ => [])) fs_boot [] : os heap disk_image).
  exists s, (set_input [13] (print [65] s)).
  assert (Hr : rtc (os_step (Devices0 := disk_devices) (fun _ _ => False) world_layout) s (set_input [13] (print [65] s))).
  { eapply rtc_l; [|apply rtc_once, os_input].
    apply (os_trap _ world_layout s 8 0x1000100 65 0 0 SYS_PUTCHAR
      (Some (Back (Num 65) None, 0x1000104))); [cbn; rewrite Hc, Hid; discriminate|intros E3; discriminate E3|reflexivity]. }
  split; [exact Hr|]. split; [reflexivity|]. split; [reflexivity|].
  exact (proj2 (system_refines_kernel (Devices0 := disk_devices) world_lo world_hi world_layout _ s _ world_layout_ok HR Hr)).
Defined.

(** The second process of [World.v] on the board. *)
Lemma world_ready :
  exists K, os_ready (Devices0 := board_devices) (NicSpec0 := board_nic_spec) (BlkSpec0 := board_blk_spec)
      world_lo world_hi (mkOs K (board_machine board_off) fs_boot []) /\
    k_current K = 1%nat /\ k_idle K = 0%nat.
Proof.
  destruct world_second as (K & p & HR & Ep & Hc & Hi & Hsh & _ & _ & Hst & Hpid).
  exists K. split; [|by split]. split.
  - split; [exact (reachable_ok world_lo world_hi _ K world_layout_ok HR)| |cbn; rewrite Hsh; exact boot_printable].
    unfold running. cbn. rewrite Ep, Hst, Hpid. split; [done|lia].
  - apply board_machine_ready.
  - exact fs_boot_wf.
  - exact (proj2 (listing_unused _ fs_boot_fresh)).
Qed.

