(* ===== verification/ArpService.v ===== *)
(** ARP end to end: from a frame in a receive buffer to the reply on the wire,
    through two traps of the running system.  The interrupt of the network
    device hands the frame to [arp_receive] ([kernel/virtio_net.c],
    [kernel/arp.c]), which may not send; the reply goes out when a program next
    waits for a character ([arp_poll] in the loop of [SYS_GETCHAR]). *)

From Stdlib Require Import ZArith Lia.
From S2P Require Import Prelude Memory PageHeap Allocator PageTable Shm Process KernelInv System Lifecycle AddressSpace Kernel Views Reach World Strings Bytes Arp Ipv4 Ring Virtio Machine NetDriver Interrupts NetStack Disk Fs SimDevices FsImage Startup Board UserMemory Syscall SyscallProps Objects Ready Boot Running.
Open Scope Z_scope.

(** The network device has raised its interrupt for used buffers. *)
Record net_interrupt {D : Type} `{!Devices D} (m : machine D) : Prop := {
  ni_claim : claimed m = VIRTIO_NET_IRQ;
  ni_status : Z.land (irq_status_of (net_dev (m_net m)) (after_claim m)) VIRTIO_INT_USED_BUFFER <> 0;
}.

(** The frames in the used receive buffers. *)
Definition waiting_frames {D : Type} (m : machine D) : list (list Z * Z) :=
  omap (used_frame (rx_bufs (m_dma m))) (to_pop (rx_vq (m_dma m))).

(** An ARP request of [smac]/[sip] for this host, in a receive buffer. *)
Definition request_frame (dst src smac : list Z) (sip : Z) (tmac rest : list Z) : list Z :=
  (dst ++ src ++ write_be16 ARP_ETHERTYPE) ++
  arp_wire ARP_OPERATION_REQUEST smac sip tmac IPV4_LOCAL_ADDRESS ++ rest.

Lemma request_ethertype dst src smac sip tmac rest :
  length dst = 6%nat -> length src = 6%nat ->
  ethertype_of (request_frame dst src smac sip tmac rest) = ARP_ETHERTYPE.
Proof.
  intros Hd Hs. destruct dst as [|d0 [|d1 [|d2 [|d3 [|d4 [|d5 [|]]]]]]]; try discriminate Hd.
  destruct src as [|s0 [|s1 [|s2 [|s3 [|s4 [|s5 [|]]]]]]]; try discriminate Hs. reflexivity.
Qed.

Section Service.
Context {H : Type} `{!PageHeap H} {D : Type} `{!Devices D} `{!NicSpec D} `{!BlkSpec D} `{!Startup D} `{!Board D}.
Implicit Types (s : os H D) (m : machine D).

(** The interrupt leaves a ready machine, the wire as it was, and the frames
    with the protocols. *)
Lemma frames_received m :
  machine_ready m -> net_interrupt m ->
  exists m', handle_external_interrupt m = Ret m' /\ machine_ready m' /\ wire (m_dev m') = wire (m_dev m) /\
    arp_receive_all (m_arp m) (waiting_frames m) = Ret (m_arp m').
Proof.
  intros Hm [Hc Hst]. destruct (interrupt_ready m Hm) as (m1 & E1 & H1).
  destruct (ready_drivers _ (mr_nic _ Hm)) as [seen Hd].
  destruct (external_interrupt_spec m seen Hd (board_claims _)) as (m' & E & _ & G & _ & Hs).
  rewrite E1 in E. injection E as <-. exists m1. split; [exact E1|]. split; [exact H1|].
  split; [exact (wire_ground _ _ G)|]. rewrite Hc in Hs. destruct (Hs ltac:(done)) as [(_ & _ & Hdone & _) _].
  destruct (Hdone Hst) as (_ & _ & _ & Ha & _ & _). exact Ha.
Qed.

Lemma net_interrupt_enter s : net_interrupt (o_machine s) -> net_interrupt (enter_machine s).
Proof. intros [Hc Hst]. by split. Qed.

(** C7: an ARP request is answered end to end.  When the network device
    interrupts with a request for this host in its receive ring, the interrupt
    returns with the sender's binding learned and nothing sent; the next
    [SYS_GETCHAR] sends exactly one frame, the reply with this host's addresses
    to the requester, and still returns the character that was typed. *)
Theorem arp_service L s dst src smac sip tmac rest n ch input sepc f sepc' a0 a1 a2 :
  machine_ready (o_machine s) -> net_interrupt (o_machine s) ->
  length dst = 6%nat -> length src = 6%nat -> length smac = 6%nat -> length tmac = 6%nat ->
  0 <= sip < 2 ^ 32 -> 42 <= n -> 0 <= ch ->
  waiting_frames (o_machine s) = [(request_frame dst src smac sip tmac rest, n)] -> o_input s = ch :: input ->
  exists s1 s2,
    handle_trap L (SCAUSE_INTERRUPT + SCAUSE_SUPERVISOR_EXT) sepc f s = Ret (None, s1) /\
    wire (m_dev (o_machine s1)) = wire (m_dev (o_machine s)) /\
    arp_lookup (m_arp (o_machine s1)) sip = Some smac /\
    handle_trap L SCAUSE_ECALL sepc' (mkFrame a0 a1 a2 SYS_GETCHAR) s1 =
      Ret (Some (Back (Num ch) None, u32 (sepc' + 4)), s2) /\
    wire (m_dev (o_machine s2)) = wire (m_dev (o_machine s)) ++
      [ether_frame smac ARP_ETHERTYPE (arp_wire ARP_OPERATION_REPLY net_mac IPV4_LOCAL_ADDRESS smac sip)] /\
    machine_ready (o_machine s2) /\ o_input s2 = input.
Proof.
  intros Hm Hi Hd Hs Hsm Ht Hsip Hn Hch Hw Hin. pose proof (machine_ready_arp _ Hm) as [Wc Wp].
  destruct (frames_received (enter_machine s) (machine_ready_sstatus _ _ Hm) (net_interrupt_enter s Hi))
    as (m1 & E1 & Hm1 & Ew1 & Ea). change (waiting_frames (enter_machine s)) with (waiting_frames (o_machine s)) in Ea.
  change (m_arp (enter_machine s)) with (m_arp (o_machine s)) in Ea. rewrite Hw in Ea. cbn [arp_receive_all] in Ea.
  rewrite request_ethertype, Z.eqb_refl in Ea by assumption. unfold request_frame in Ea.
  rewrite arp_receive_wire, !Z.eqb_refl, bind_Ret_l in Ea
    by (try assumption; try (unfold ARP_OPERATION_REQUEST, IPV4_LOCAL_ADDRESS; lia); rewrite !length_app, Hd, Hs; reflexivity).
  cbn [andb] in Ea. rewrite (copy_mac_6 _ _ Wp Hsm) in Ea. injection Ea as Ea. symmetry in Ea.
  set (s1 := leave_machine m1 s).
  assert (Hm1' : machine_ready (enter_machine s1)) by (by apply machine_ready_sstatus).
  destruct (arp_poll_reply (EthernetLink0 := board_link) (enter_machine s1) smac sip Hm1')
    as (m2 & E2 & Hm2 & _ & Ew2); [change (m_arp (enter_machine s1)) with (m_arp m1); by rewrite Ea|exact Hsm|exact Hsip|].
  exists s1, (set_input input (leave_machine m2 s1)).
  split; [rewrite handle_trap_interrupt, E1, bind_Ret_l; reflexivity|].
  split; [exact Ew1|]. split; [change (m_arp (o_machine s1)) with (m_arp m1); rewrite Ea; by apply arp_lookup_updated|].
  split; [|split; [|split; [exact Hm2|reflexivity]]].
  - rewrite handle_trap_ecall. change (handle_syscall L (mkFrame a0 a1 a2 SYS_GETCHAR) s1) with (getchar_loop (polls s1) L s1).
    unfold polls. cbn [getchar_loop]. rewrite E2, bind_Ret_l. unfold sbi_getchar.
    change (o_input (leave_machine m2 s1)) with (o_input s). rewrite Hin, (proj2 (Z.leb_le 0 ch) Hch). reflexivity.
  - change (wire (m_dev m2) = wire (m_dev (o_machine s)) ++
      [ether_frame smac ARP_ETHERTYPE (arp_wire ARP_OPERATION_REPLY net_mac IPV4_LOCAL_ADDRESS smac sip)]).
    change (link_wire (m_dev m2)) with (wire (m_dev m2)) in Ew2. rewrite Ew2. f_equal. exact Ew1.
Qed.
End Service.

(** ** On the simulated board *)

(** The second process of [World.v] runs; the card has put [demo_arp_frame] and
    a runt into the first two buffers and interrupts; a key has been pressed. *)
Definition ping_machine : machine board_dev :=
  let m := board_machine (mkBoard [] (fun _ => []) true) in
  set_m_dma (mkDma demo_rx_vq (rx_bufs (m_dma demo_machine)) (tx_vq (m_dma m)) (tx_buf (m_dma m))
    (blk_vq (m_dma m)) (blk_req (m_dma m))) m.

Lemma ping_machine_ready :
  machine_ready (Devices0 := board_devices) (NicSpec0 := board_nic_spec) (BlkSpec0 := board_blk_spec) ping_machine.
Proof.
  assert (Hm := board_machine_ready (mkBoard [] (fun _ => []) true)).
  apply (device_ready (Devices0 := board_devices) (NicSpec0 := board_nic_spec) (BlkSpec0 := board_blk_spec) _
    (mkBoard [] (fun _ => []) true) (m_dma ping_machine) Hm).
  split; [|done|by split]. intros seen _. exists 2. destruct demo_rx_ok. constructor; try assumption. exact rest_arp_wf.
Qed.

Lemma arp_service_witness :
  exists (s s1 s2 : os heap board_dev) r1 r2,
    handle_trap (Devices0 := board_devices) world_layout (SCAUSE_INTERRUPT + SCAUSE_SUPERVISOR_EXT) 0x1000100
      (mkFrame (Num 0) (Num 0) (Num 0) 0) s = Ret (r1, s1) /\
    handle_trap (Devices0 := board_devices) world_layout SCAUSE_ECALL 0x1000100
      (mkFrame (Num 0) (Num 0) (Num 0) SYS_GETCHAR) s1 = Ret (r2, s2) /\
    b_wire (m_dev (o_machine s)) = [] /\
    b_wire (m_dev (o_machine s2)) = [ether_frame demo_mac ARP_ETHERTYPE
      (arp_wire ARP_OPERATION_REPLY net_mac IPV4_LOCAL_ADDRESS demo_mac 0x0a000202)].
Proof.
  destruct world_second as (K & _).
  set (s := mkOs K ping_machine fs_boot [13] : os heap board_dev).
  destruct (@arp_service heap _ board_dev board_devices board_nic_spec board_blk_spec board_startup board_board
    world_layout s (replicate 6 255) demo_mac demo_mac 0x0a000202 (replicate 6 0) (replicate 1472 0) 60 13 []
    0x1000100 (mkFrame (Num 0) (Num 0) (Num 0) 0) 0x1000100 (Num 0) (Num 0) (Num 0))
    as (s1 & s2 & E1 & _ & _ & E2 & Ew & _); try reflexivity; try lia.
  - exact ping_machine_ready.
  - split; [reflexivity|]. vm_compute. discriminate.
  - exists s, s1, s2, None, (Some (Back (Num 13) None, 0x1000104)). split; [exact E1|]. split; [exact E2|].
    split; [reflexivity|exact Ew].
Defined.
