(* ===== verification/Shell.v ===== *)
(** User programs: the user library ([user/user.c]) and the shell
    ([user/shell.c]).

    A program runs against the interface [UserSys]: the system call
    instruction and the loads and stores of its own address space; [os_user] at
    the end is the kernel's instance.  [user W A] is a computation of the
    program; [None] means that the program does not go on, because it has
    exited or another process runs. *)

From Stdlib Require Import ZArith Lia.
From S2P Require Import Prelude Memory PageHeap Allocator PageTable Shm Process Kernel Strings Bytes Arp Ipv4 Ring Virtio Machine NetDriver Interrupts NetStack Disk Fs UserMemory Syscall.
Open Scope Z_scope.

Definition user (W A : Type) : Type := W -> outcome (option A * W).
#[export] Instance user_ret W : MRet (user W) := fun A a w => Ret (Some a, w).
#[export] Instance user_bind W : MBind (user W) := fun A B f m w =>
  match m w with
  | Ret (Some a, w) => f a w
  | Ret (None, w) => Ret (None, w)
  | Panic msg => Panic msg
  | Undef => Undef
  end.

(** Code of the program that makes no system call. *)
Definition lift {W A} (m : outcome A) : user W A := fun w =>
  match m with Ret a => Ret (Some a, w) | Panic msg => Panic msg | Undef => Undef end.

(** [ecall] with [a0] to [a3]: the value of [a0] afterwards, and what the
    kernel stored into the buffer argument. *)
Class UserSys (W : Type) : Type := {
  ecall : frame -> user W (word * option (list Z));
  load : Z -> user W Z;
  store : Z -> Z -> user W unit;
}.

(** ** The user library *)

Section Library.
Context {W : Type} `{!UserSys W}.

Definition syscall (sysno : Z) (arg0 arg1 arg2 : word) : user W (Z * option (list Z)) :=
  '(a0, buf) ← ecall (mkFrame arg0 arg1 arg2 sysno);
  n ← lift (num a0);
  mret (s32 n, buf).

Definition putchar (ch : Z) : user W unit := _ ← syscall SYS_PUTCHAR (Num ch) (Num 0) (Num 0); mret tt.
Definition getchar : user W Z := '(ch, _) ← syscall SYS_GETCHAR (Num 0) (Num 0) (Num 0); mret ch.

(** [exit]: the loop after the call is never left. *)
Definition exit : user W unit :=
  _ ← syscall SYS_EXIT (Num 0) (Num 0) (Num 0); lift Undef.

(** The buffer afterwards and the result. *)
Definition readfile (filename buf : list Z) (len : Z) : user W (Z * list Z) :=
  '(n, out) ← syscall SYS_READFILE (Ptr filename) (Ptr buf) (Num (u32 len));
  mret (n, default buf out).
Definition writefile (filename buf : list Z) (len : Z) : user W Z :=
  '(n, _) ← syscall SYS_WRITEFILE (Ptr filename) (Ptr buf) (Num (u32 len)); mret n.
Definition send (buf : list Z) (len : Z) : user W Z :=
  '(n, _) ← syscall SYS_SEND (Ptr buf) (Num (u32 len)) (Num 0); mret n.
Definition arp_request (ip : Z) : user W Z :=
  '(n, _) ← syscall SYS_ARP_REQUEST (Num ip) (Num 0) (Num 0); mret n.
Definition arp_dump : user W unit := _ ← syscall SYS_ARP_DUMP (Num 0) (Num 0) (Num 0); mret tt.
Definition ipv4_dump : user W unit := _ ← syscall SYS_IPV4_DUMP (Num 0) (Num 0) (Num 0); mret tt.
Definition shm_get (key : Z) : user W Z :=
  '(n, _) ← syscall SYS_SHM_GET (Num (u32 key)) (Num 0) (Num 0); mret n.
Definition shm_attach (id : Z) : user W Z :=
  '(n, _) ← syscall SYS_SHM_ATTACH (Num (u32 id)) (Num 0) (Num 0); mret (u32 n).
Definition shm_detach (addr : Z) : user W Z :=
  '(n, _) ← syscall SYS_SHM_DETACH (Num addr) (Num 0) (Num 0); mret n.
Definition shm_dump : user W unit := _ ← syscall SYS_SHM_DUMP (Num 0) (Num 0) (Num 0); mret tt.

(** [kernel/common.c] linked into the program: every character printed is a
    system call. *)
Fixpoint put_all (out : list Z) : user W unit :=
  match out with
  | [] => mret tt
  | c :: out' => _ ← putchar c; put_all out'
  end.
Definition uprintf (fmt : list Z) (args : list varg) : user W unit := out ← lift (printf fmt args); put_all out.
Definition say (s : string) : user W unit := uprintf (bytes_of s ++ newline) [].
End Library.

(** ** String helpers of the shell *)

Fixpoint string_length_from (s : list Z) (len : Z) : outcome Z :=
  match s with
  | [] => Undef
  | c :: s' => if c =? 0 then Ret len else string_length_from s' (len + 1)
  end.
Definition string_length (s : list Z) : outcome Z := string_length_from s 0.

Fixpoint starts_with (s prefix : list Z) : outcome bool :=
  match prefix with
  | [] => Undef
  | p :: prefix' =>
      if p =? 0 then Ret true
      else
        match s with
        | [] => Undef
        | c :: s' => if negb (c =? p) then Ret false else starts_with s' prefix'
        end
  end.

(** The digit loop of [parse_ipv4]: the number, how many digits, the rest;
    [None] for [return false]. *)
Fixpoint read_number (text : list Z) (number digits : Z) : outcome (option (Z * Z * list Z)) :=
  match text with
  | [] => Undef
  | c :: text' =>
      if (chr_0 <=? c) && (c <=? chr_0 + 9) then
        let number := number * 10 + (c - chr_0) in
        if 255 <? number then Ret None else read_number text' number (digits + 1)
      else Ret (Some (number, digits, text))
  end.

(** The loop over the parts; [n] are left. *)
Fixpoint parse_parts (n : nat) (value : Z) (text : list Z) : outcome (option (Z * list Z)) :=
  match n with
  | O => Ret (Some (value, text))
  | S n' =>
      r ← read_number text 0 0;
      match r with
      | None => Ret None
      | Some (number, digits, text) =>
          if digits =? 0 then Ret None
          else
            let value := Z.lor (u32 (Z.shiftl value 8)) number in
            match n' with
            | O => Ret (Some (value, text))
            | S _ =>
                match text with
                | [] => Undef
                | c :: text' => if negb (c =? chr_dot) then Ret None else parse_parts n' value text'
                end
            end
      end
  end.

Definition parse_ipv4 (text : list Z) : outcome (option Z) :=
  r ← parse_parts 4 0 text;
  match r with
  | None => Ret None
  | Some (_, []) => Undef
  | Some (value, c :: _) => if negb (c =? 0) then Ret None else Ret (Some value)
  end.

(** ** The shell *)

Section Shell.
Context {W : Type} `{!UserSys W}.

(** [copy_string] into the address space. *)
Fixpoint copy_string (dst : Z) (src : list Z) : user W unit :=
  match src with
  | [] => lift Undef
  | c :: src' =>
      if c =? 0 then store dst 0
      else _ ← store dst c; copy_string (dst + 1) src'
  end.

(** The string at an address, its NUL included; at most [fuel] bytes. *)
Fixpoint string_at (fuel : nat) (addr : Z) : user W (list Z) :=
  match fuel with
  | O => lift Undef
  | S n => c ← load addr; if c =? 0 then mret [0] else s ← string_at n (addr + 1); mret (c :: s)
  end.

Definition shm_message : list Z := literal "shared-memory-ok".

Definition run_shmtest : user W unit :=
  id ← shm_get 100;
  if id <? 0 then say "shmtest: shm_get failed"
  else
    a ← shm_attach id;
    b ← shm_attach id;
    if (a =? 0) || (b =? 0) then
      _ ← say "shmtest: shm_attach failed";
      _ ← (if negb (a =? 0) then _ ← shm_detach a; mret tt else mret tt);
      (if negb (b =? 0) then _ ← shm_detach b; mret tt else mret tt)
    else
      _ ← copy_string a shm_message;
      _ ← uprintf (bytes_of "shmtest: id=%d" ++ newline) [VInt id];
      _ ← uprintf (bytes_of "shmtest: va_a=0x%x va_b=0x%x" ++ newline) [VInt a; VInt b];
      s ← string_at (Z.to_nat PAGE_SIZE) b;
      _ ← uprintf (bytes_of "shmtest: read via va_b: %s" ++ newline) [VStr s];
      s ← string_at (Z.to_nat PAGE_SIZE) b;
      c ← lift (strcmp s shm_message);
      _ ← (if c =? 0 then say "shmtest: PASS" else say "shmtest: FAIL");
      _ ← shm_dump;
      _ ← shm_detach a;
      _ ← shm_detach b;
      shm_dump.

(** [char cmdline[128]]: the line before its NUL, [None] after "command line
    too long"; [n] more characters fit. *)
Fixpoint read_line (n : nat) (line : list Z) : user W (option (list Z)) :=
  ch ← getchar;
  let ch := u8 ch in
  _ ← putchar ch;
  match n with
  | O => _ ← say "command line too long"; mret None
  | S n' =>
      if ch =? 13 then _ ← uprintf newline []; mret (Some line)
      else read_line n' (line ++ [ch])
  end.
Definition CMDLINE_SIZE : nat := 128.

Definition cmd_readfile : user W unit :=
  '(len, buf) ← readfile (literal "hello.txt") (replicate 128 0) 128;
  _ ← lift (defined_if ((0 <=? len) && (len <? Z.of_nat (length buf))));
  let buf := <[Z.to_nat len := 0]> buf in
  uprintf (bytes_of "%s" ++ newline) [VStr buf].

Definition cmd_send (message : list Z) : user W unit :=
  message_len ← lift (string_length message);
  sent ← send message message_len;
  if sent <? 0 then say "send: failed"
  else uprintf (bytes_of "send: %d bytes" ++ newline) [VInt sent].

Definition cmd_arp (text : list Z) : user W unit :=
  ip ← lift (parse_ipv4 text);
  match ip with
  | None => say "usage: arp <IPv4 address>"
  | Some ip =>
      r ← arp_request ip;
      if r <? 0 then say "arp: request failed" else say "arp: request sent"
  end.

(** The command a line names: the chain of comparisons in [main]. *)
Definition run_command (cmdline : list Z) : user W unit :=
  let named (name : string) : user W bool := c ← lift (strcmp cmdline (literal name)); mret (c =? 0) in
  let starts (name : string) : user W bool := lift (starts_with cmdline (literal name)) in
  hello ← named "hello"; if (hello : bool) then say "Hello world from shell!" else
  bye ← named "exit"; if (bye : bool) then _ ← say "Exit ... "; exit else
  rd ← named "readfile"; if (rd : bool) then cmd_readfile else
  wr ← named "writefile";
  if (wr : bool) then _ ← writefile (literal "hello.txt") (bytes_of "Hello from shell!" ++ newline) 19; mret tt else
  usage ← named "send"; if (usage : bool) then say "usage: send <message>" else
  snd ← starts "send "; if (snd : bool) then cmd_send (drop 5 cmdline) else
  arp ← named "arp"; if (arp : bool) then arp_dump else
  ip ← named "ip"; if (ip : bool) then ipv4_dump else
  shm ← named "shm"; if (shm : bool) then shm_dump else
  test ← named "shmtest"; if (test : bool) then run_shmtest else
  req ← starts "arp "; if (req : bool) then cmd_arp (drop 4 cmdline) else
  uprintf (bytes_of "unknown command: %s" ++ newline) [VStr cmdline].

(** One round of the loop of [main]. *)
Definition prompt : user W unit :=
  _ ← uprintf (literal "> ") [];
  line ← read_line (CMDLINE_SIZE - 1) [];
  match line with
  | None => mret tt
  | Some line => run_command (line ++ [0])
  end.

(** [main]: [n] rounds, fewer when the program stops. *)
Fixpoint shell_main (n : nat) : user W unit :=
  match n with
  | O => mret tt
  | S n' => _ ← prompt; shell_main n'
  end.
End Shell.

(** ** The kernel as the program's environment *)

Section OnKernel.
Context {H : Type} `{!PageHeap H} {D : Type} `{!Devices D} (L : layout).

(** An [ecall] traps with [scause] 8; the program goes on when the kernel comes
    back to it. *)
Definition os_ecall (f : frame) : user (os H D) (word * option (list Z)) := fun s =>
  '(r, s) ← handle_trap L SCAUSE_ECALL 0 f s;
  match r with
  | Some (Back a0 buf, _) => Ret (Some (a0, buf), s)
  | _ => Ret (None, s)
  end.

Definition os_user : UserSys (os H D) :=
  {| ecall := os_ecall;
     load va := fun s => c ← user_load8 s va; Ret (Some c, s);
     store va v := fun s => s ← user_store8 s va v; Ret (Some tt, s) |}.
End OnKernel.
