(* ===== verification/Programs.v ===== *)
(** Programs on the kernel: what the calls of the user library ([user/user.c])
    do when the kernel comes back to them ([os_user] of [Shell.v]). *)

From Stdlib Require Import ZArith Lia.
From S2P Require Import Prelude Memory PageHeap Allocator PageTable Shm Process Kernel Strings Bytes Arp Ipv4 Ring Virtio Machine NetDriver Interrupts NetStack Disk Fs UserMemory Syscall Shell.
Open Scope Z_scope.

Section Programs.
Context {H : Type} `{!PageHeap H} {D : Type} `{!Devices D} (L : layout).
Implicit Types (s : os H D).
#[local] Existing Instance os_user.

Lemma user_bind_Some {A B} (m : user (os H D) A) (f : A -> user (os H D) B) s a s' :
  m s = Ret (Some a, s') -> (m ≫= f) s = f a s'.
Proof. intros E. unfold mbind, user_bind. by rewrite E. Qed.

Lemma lift_Ret {A} (m : outcome A) a s : m = Ret a -> lift m s = Ret (Some a, s).
Proof. by intros ->. Qed.

(** A system call that comes back. *)
Lemma syscall_back n a0 a1 a2 s r buf s' :
  handle_syscall L (mkFrame a0 a1 a2 n) s = Ret (Back (Num r) buf, s') ->
  syscall (UserSys0 := os_user L) n a0 a1 a2 s = Ret (Some (s32 r, buf), s').
Proof.
  intros E. unfold syscall, os_user, ecall, os_ecall, mbind, user_bind, handle_trap.
  change (negb (Z.land SCAUSE_ECALL SCAUSE_INTERRUPT =? 0)) with false.
  change (Z.land SCAUSE_ECALL SCAUSE_CODE_MASK =? SCAUSE_ECALL) with true. cbv iota. by rewrite E.
Qed.

(** Printing goes through [SYS_PUTCHAR], character by character. *)
Lemma print_print a b s : print b (print a s) = print (a ++ b) s.
Proof. unfold print, emit, set_machine, set_m_out. cbn. by rewrite app_assoc. Qed.

Lemma print_nil s : print [] s = s.
Proof. destruct s as [K [] fs l]. unfold print, emit, set_machine, set_m_out. cbn. by rewrite app_nil_r. Qed.

Lemma putchar_prints c s : putchar (UserSys0 := os_user L) c s = Ret (Some tt, print [u8 c] s).
Proof. unfold putchar. erewrite user_bind_Some by (apply syscall_back; reflexivity). reflexivity. Qed.

Lemma put_all_prints out : forall s, put_all (UserSys0 := os_user L) out s = Ret (Some tt, print (u8 <$> out) s).
Proof.
  induction out as [|c out IH]; intros s; cbn [put_all fmap list_fmap].
  - by rewrite print_nil.
  - erewrite user_bind_Some by apply putchar_prints. by rewrite IH, print_print.
Qed.

Lemma uprintf_prints fmt args out s :
  printf fmt args = Ret out -> uprintf (UserSys0 := os_user L) fmt args s = Ret (Some tt, print (u8 <$> out) s).
Proof. intros E. unfold uprintf. erewrite user_bind_Some by (by apply lift_Ret). apply put_all_prints. Qed.

(** The calls on shared memory. *)
Lemma shm_get_call key id K' s :
  0 <= key < 2 ^ 31 -> 0 <= id < 2 ^ 31 -> get_current (o_kernel s) key = Ret (id, K') ->
  Shell.shm_get (UserSys0 := os_user L) key s = Ret (Some id, set_kernel K' s).
Proof.
  intros Hk Hi E. unfold Shell.shm_get. erewrite user_bind_Some.
  2: { apply (syscall_back _ _ _ _ _ (u32 id) None (set_kernel K' s)). unfold handle_syscall.
       cbn [f_a0 f_a3 num SYS_SHM_GET SYS_READFILE SYS_WRITEFILE SYS_PUTCHAR SYS_GETCHAR SYS_EXIT SYS_SEND SYS_ARP_REQUEST
         SYS_ARP_DUMP SYS_IPV4_DUMP Z.eqb Pos.eqb orb]. rewrite bind_Ret_l, u32_id, s32_id by lia. by rewrite E. }
  cbn. by rewrite u32_id, s32_id by lia.
Qed.

Lemma shm_attach_call id va K' s :
  0 <= id < 2 ^ 31 -> 0 <= va < 2 ^ 32 -> attach_current (o_kernel s) id = Ret (va, K') ->
  Shell.shm_attach (UserSys0 := os_user L) id s = Ret (Some va, set_kernel K' s).
Proof.
  intros Hi Hv E. unfold Shell.shm_attach. erewrite user_bind_Some.
  2: { apply (syscall_back _ _ _ _ _ (u32 va) None (set_kernel K' s)). unfold handle_syscall.
       cbn [f_a0 f_a3 num SYS_SHM_ATTACH SYS_SHM_GET SYS_READFILE SYS_WRITEFILE SYS_PUTCHAR SYS_GETCHAR SYS_EXIT SYS_SEND
         SYS_ARP_REQUEST SYS_ARP_DUMP SYS_IPV4_DUMP Z.eqb Pos.eqb orb]. rewrite bind_Ret_l, u32_id, s32_id by lia. by rewrite E. }
  cbn. by rewrite u32_s32, u32_u32, u32_id by lia.
Qed.

Lemma shm_detach_call va K' s :
  0 <= va < 2 ^ 32 -> detach_current (o_kernel s) va = Ret (0, K') ->
  Shell.shm_detach (UserSys0 := os_user L) va s = Ret (Some 0, set_kernel K' s).
Proof.
  intros Hv E. unfold Shell.shm_detach. erewrite user_bind_Some.
  2: { apply (syscall_back _ _ _ _ _ (u32 0) None (set_kernel K' s)). unfold handle_syscall.
       cbn [f_a0 f_a3 num SYS_SHM_DETACH SYS_SHM_ATTACH SYS_SHM_GET SYS_READFILE SYS_WRITEFILE SYS_PUTCHAR SYS_GETCHAR
         SYS_EXIT SYS_SEND SYS_ARP_REQUEST SYS_ARP_DUMP SYS_IPV4_DUMP Z.eqb Pos.eqb orb].
       rewrite bind_Ret_l, u32_id by lia. by rewrite E. }
  reflexivity.
Qed.

Lemma shm_dump_call out s :
  Syscall.shm_dump (k_shm (o_kernel s)) = Ret out ->
  Shell.shm_dump (UserSys0 := os_user L) s = Ret (Some tt, print out s).
Proof.
  intros E. unfold Shell.shm_dump. erewrite user_bind_Some.
  2: { apply (syscall_back _ _ _ _ _ 0 None (print out s)). unfold handle_syscall.
       cbn [f_a0 f_a3 num SYS_SHM_DUMP SYS_SHM_DETACH SYS_SHM_ATTACH SYS_SHM_GET SYS_READFILE SYS_WRITEFILE SYS_PUTCHAR
         SYS_GETCHAR SYS_EXIT SYS_SEND SYS_ARP_REQUEST SYS_ARP_DUMP SYS_IPV4_DUMP Z.eqb Pos.eqb orb]. by rewrite E. }
  reflexivity.
Qed.
End Programs.
