(* ===== verification/ShellProps.v ===== *)
(** Properties of the shell: the address parser, and the [readfile] command. *)

From Stdlib Require Import ZArith Lia.
From S2P Require Import Prelude Memory PageHeap Allocator PageTable Shm Process Kernel World Reach Strings Bytes Arp Ipv4 Ring Virtio Machine NetDriver Interrupts NetStack Disk Fs SimDevices FsImage UserMemory Syscall SyscallProps Shell.
Open Scope Z_scope.

(** ** Dotted addresses *)

(** A non-empty run of digits worth an octet; leading zeros are allowed. *)
Definition decimal_octet (ds : list Z) (v : Z) : Prop :=
  Forall is_digit ds /\ ds <> [] /\ dec_value 0 ds = v /\ octet v.

(** [x] is the octets [vs] separated by dots. *)
Fixpoint dotted (x : list Z) (vs : list Z) : Prop :=
  match vs with
  | [] => False
  | [v] => decimal_octet x v
  | v :: vs' => exists ds x', x = ds ++ chr_dot :: x' /\ decimal_octet ds v /\ dotted x' vs'
  end.

Definition no_digit_head (x : list Z) : Prop := match x with [] => True | c :: _ => ~ is_digit c end.

(** The digits a string starts with. *)
Lemma digit_span x : exists ds rest, x = ds ++ rest /\ Forall is_digit ds /\ no_digit_head rest.
Proof.
  induction x as [|c x (ds & rest & -> & Hd & Hr)]; [by exists [], []|].
  destruct (decide (is_digit c)) as [Hc|Hc].
  - exists (c :: ds), rest. split; [done|]. split; [by constructor|done].
  - exists [], (c :: ds ++ rest). done.
Qed.

Lemma span_unique d1 : forall r1 d2 r2,
  d1 ++ r1 = d2 ++ r2 -> Forall is_digit d1 -> Forall is_digit d2 -> no_digit_head r1 -> no_digit_head r2 ->
  d1 = d2 /\ r1 = r2.
Proof.
  induction d1 as [|c d1 IH]; intros r1 d2 r2 E H1 H2 N1 N2; destruct d2 as [|c' d2]; cbn [app] in E.
  - done.
  - subst r1. apply Forall_cons in H2 as [H2 _]. by cbn in N1.
  - subst r2. apply Forall_cons in H1 as [H1 _]. by cbn in N2.
  - injection E as -> E. apply Forall_cons in H1 as [_ H1], H2 as [_ H2].
    by destruct (IH r1 d2 r2 E H1 H2 N1 N2) as [-> ->].
Qed.

Lemma dec_value_ge ds : forall acc, Forall is_digit ds -> 0 <= acc -> acc <= dec_value acc ds.
Proof.
  induction ds as [|c ds IH]; intros acc Hd Ha; [done|]. apply Forall_cons in Hd as [Hc Hd]. unfold is_digit in Hc.
  transitivity (acc * 10 + (c - chr_0)); [lia|]. apply IH; [exact Hd|lia].
Qed.

Lemma read_number_spec ds : forall rest n k,
  Forall is_digit ds -> 0 <= n <= 255 -> match rest with [] => False | c :: _ => ~ is_digit c end ->
  read_number (ds ++ rest) n k =
    Ret (if dec_value n ds <=? 255 then Some (dec_value n ds, k + Z.of_nat (length ds), rest) else None).
Proof.
  induction ds as [|c ds IH]; intros rest n k Hd Hn Hr; cbn [app].
  - destruct rest as [|c rest]; [done|]. cbn [read_number dec_value fold_left length].
    rewrite (proj2 (andb_false_iff _ _)).
    + rewrite (proj2 (Z.leb_le n 255)) by lia. by rewrite Z.add_0_r.
    + unfold is_digit in Hr. destruct (Z.leb_spec chr_0 c); [right|by left]. apply Z.leb_gt. lia.
  - apply Forall_cons in Hd as [Hc Hd]. unfold is_digit in Hc. cbn [read_number].
    rewrite (proj2 (Z.leb_le chr_0 c)), (proj2 (Z.leb_le c _)) by lia. cbn [andb].
    change (dec_value n (c :: ds)) with (dec_value (n * 10 + (c - chr_0)) ds).
    pose proof (dec_value_ge ds (n * 10 + (c - chr_0)) Hd ltac:(lia)).
    destruct (Z.ltb_spec 255 (n * 10 + (c - chr_0))).
    + by rewrite (proj2 (Z.leb_gt _ _)) by lia.
    + rewrite IH by (done || lia). cbn [length].
      by replace (k + 1 + Z.of_nat (length ds)) with (k + Z.of_nat (S (length ds))) by lia.
Qed.

(** The end test after the parts. *)
Definition parse_end (r : option (Z * list Z)) : outcome (option Z) :=
  match r with
  | None => Ret None
  | Some (_, []) => Undef
  | Some (value, c :: _) => if negb (c =? 0) then Ret None else Ret (Some value)
  end.

Definition address (value : Z) (vs : list Z) : Z := fold_left (fun a v => a * 256 + v) vs value.

(** Strings hold no NUL, and NUL and dot are no digits. *)
Lemma nul_no_digit : ~ is_digit 0.
Proof. unfold is_digit, chr_0. lia. Qed.
Lemma dot_no_digit : ~ is_digit chr_dot.
Proof. unfold is_digit, chr_0, chr_dot. lia. Qed.

(** The first part of a dotted string is its span of digits. *)
Lemma dotted_head ds rest v vs :
  Forall is_digit ds -> no_digit_head rest -> dotted (ds ++ rest) (v :: vs) ->
  decimal_octet ds v /\
  match vs with [] => rest = [] | _ => exists x', rest = chr_dot :: x' /\ dotted x' vs end.
Proof.
  intros Hd Hr H. destruct vs as [|v' vs].
  - cbn [dotted] in H. destruct (span_unique ds rest (ds ++ rest) []) as [E ->]; try done.
    + by rewrite app_nil_r.
    + apply H.
    + rewrite app_nil_r in H. done.
  - destruct H as (ds' & x' & E & Hds & Hx). destruct (span_unique ds rest ds' (chr_dot :: x') E) as [-> ->]; try done.
    + apply Hds.
    + cbn. apply dot_no_digit.
    + split; [exact Hds|]. by exists x'.
Qed.

Lemma not_dotted ds rest vs n :
  Forall is_digit ds -> no_digit_head rest -> ds = [] \/ 255 < dec_value 0 ds -> length vs = S n ->
  ~ dotted (ds ++ rest) vs.
Proof.
  intros Hd Hr Hbad Hl H. destruct vs as [|v vs]; [discriminate Hl|].
  destruct (dotted_head ds rest v vs Hd Hr H) as [(_ & Hne & Hv & Ho) _]. unfold octet in Ho.
  destruct Hbad; [done|lia].
Qed.

Lemma address_step value v : 0 <= value -> (value + 1) * 256 <= 2 ^ 32 -> octet v ->
  Z.lor (u32 (Z.shiftl value 8)) v = value * 256 + v.
Proof.
  intros H0 Hv Ho. rewrite u32_id by (rewrite Z.shiftl_mul_pow2 by lia; lia). by apply lor_shift_octet.
Qed.

Lemma parse_parts_spec n : forall value x tail,
  Forall (fun c => 0 < c < 256) x -> 0 <= value -> (value + 1) * 256 ^ Z.of_nat (S n) <= 2 ^ 32 ->
  exists r, (p ← parse_parts (S n) value (x ++ 0 :: tail); parse_end p) = Ret r /\
    forall ip, r = Some ip <-> exists vs, length vs = S n /\ dotted x vs /\ ip = address value vs.
Proof.
  induction n as [|n IH]; intros value x tail Hx Hv0 Hv;
    destruct (digit_span x) as (ds & rest & -> & Hd & Hr);
    assert (Hhead : match rest ++ 0 :: tail with [] => False | c :: _ => ~ is_digit c end)
      by (destruct rest; [apply nul_no_digit|exact Hr]);
    pose proof (dec_value_ge ds 0 Hd ltac:(lia)) as Hge;
    cbn [parse_parts]; rewrite <-(assoc_L (++)), (read_number_spec ds _ 0 0 Hd ltac:(lia) Hhead), bind_Ret_l, Z.add_0_l.
  all: rewrite Nat2Z.inj_succ, Z.pow_succ_r in Hv by lia.
  all: destruct (Z.leb_spec (dec_value 0 ds) 255) as [Hle|Hgt];
    [|exists None; split; [done|]; intros ip; split; [done|];
      intros (vs & Hl & H & _); by destruct (not_dotted ds rest vs _ Hd Hr (or_intror Hgt) Hl)].
  all: destruct (decide (ds = [])) as [E|Hne];
    [exists None; split; [by subst ds|]; intros ip; split; [done|];
      intros (vs & Hl & H & _); by destruct (not_dotted ds rest vs _ Hd Hr (or_introl E) Hl)|].
  all: rewrite (proj2 (Z.eqb_neq _ 0)) by (destruct ds; [done|cbn [length]; lia]); cbv zeta.
  all: assert (Ho : octet (dec_value 0 ds)) by (unfold octet; lia).
  - change (256 ^ Z.of_nat 0) with 1 in Hv. rewrite address_step by (done || lia). rewrite bind_Ret_l.
    destruct rest as [|c rest]; cbn [app parse_end].
    + eexists. split; [reflexivity|]. intros ip. split.
      * intros [= <-]. exists [dec_value 0 ds]. rewrite app_nil_r. done.
      * intros ([|v [|]] & Hl & H & ->); try discriminate Hl. rewrite app_nil_r in H.
        destruct H as (_ & _ & <- & _). done.
    + apply Forall_app in Hx as [_ Hx]. apply Forall_cons in Hx as [Hc _].
      rewrite (proj2 (Z.eqb_neq c 0)) by lia. exists None. split; [done|]. intros ip. split; [done|].
      intros ([|v [|]] & Hl & H & _); try discriminate Hl. by destruct (dotted_head _ _ _ _ Hd Hr H) as [_ H'].
  - assert (Hp : 0 < 256 ^ Z.of_nat (S n)) by (apply Z.pow_pos_nonneg; lia).
    rewrite address_step by (done || nia). destruct rest as [|c rest]; cbn [app].
    { exists None. split; [done|]. intros ip. split; [done|]. intros ([|v [|v' vs]] & Hl & H & _); try discriminate Hl.
      by destruct (dotted_head _ _ _ _ Hd Hr H) as [_ (x' & ? & _)]. }
    destruct (Z.eqb_spec c chr_dot) as [->|Hc]; cbn [negb].
    2:{ exists None. split; [done|]. intros ip. split; [done|]. intros ([|v [|v' vs]] & Hl & H & _); try discriminate Hl.
        destruct (dotted_head _ _ _ _ Hd Hr H) as [_ (x' & [= ? ?] & _)]. done. }
    apply Forall_app in Hx as [_ Hx]. apply Forall_cons in Hx as [_ Hx].
    destruct (IH (value * 256 + dec_value 0 ds) rest tail Hx) as (r & E & Hiff); [lia|unfold octet in Ho; nia|].
    exists r. split; [exact E|]. intros ip. rewrite (Hiff ip). split.
    + intros (vs & Hl & H & ->). exists (dec_value 0 ds :: vs). split; [cbn; lia|]. split; [|done].
      destruct vs as [|v' vs]; [discriminate Hl|]. exists ds, rest. split; [done|]. split; [done|exact H].
    + intros ([|v [|v' vs]] & Hl & H & ->); try discriminate Hl. injection Hl as Hl.
      destruct (dotted_head _ _ _ _ Hd Hr H) as [(_ & _ & <- & _) (x' & [= <-] & Hx')].
      exists (v' :: vs). split; [cbn; lia|]. split; [exact Hx'|done].
Qed.

(** C38: [parse_ipv4] accepts exactly the dotted addresses.  On every string it
    returns; the result is an address exactly when the string is four non-empty
    runs of decimal digits, each worth at most 255, separated by single dots,
    and it is then those four octets; in particular what [print_ipv4] prints
    is parsed back. *)
Theorem parse_ipv4_correct (text x : list Z) :
  cstr text x ->
  exists r, parse_ipv4 text = Ret r /\
    (forall ip, r = Some ip <-> exists a b c d, dotted x [a; b; c; d] /\ ip = ip_of a b c d) /\
    (forall ip, 0 <= ip < 2 ^ 32 -> print_ipv4 ip = Ret x -> r = Some ip).
Proof.
  intros [[tail ->] Hx]. destruct (parse_parts_spec 3 0 x tail Hx) as (r & E & Hiff); [lia|lia|].
  assert (Hr : forall ip, r = Some ip <-> exists a b c d, dotted x [a; b; c; d] /\ ip = ip_of a b c d).
  { intros ip. rewrite (Hiff ip). split.
    - intros ([|a [|b [|c [|d [|]]]]] & Hl & H & ->); try discriminate Hl. exists a, b, c, d. split; [exact H|].
      unfold address, ip_of. cbn [fold_left]. lia.
    - intros (a & b & c & d & H & ->). exists [a; b; c; d]. split; [done|]. split; [exact H|].
      unfold address, ip_of. cbn [fold_left]. lia. }
  exists r. split; [exact E|]. split; [exact Hr|]. intros ip Hip Hpr. apply Hr.
  destruct (print_ipv4_spec ip Hip) as (a & b & c & d & da & db & dc & dd & Ha & Hb & Hc & Hd & Eip & Da & Db & Dc & Dd & Ep).
  rewrite Hpr in Ep. injection Ep as ->. exists a, b, c, d. split; [|exact Eip].
  assert (Hdec : forall n ds, octet n -> digits_of n ds -> decimal_octet ds n).
  { intros n ds Hn (_ & Hdig & Hv & Hne). by split_and!. }
  exists da, (db ++ chr_dot :: dc ++ chr_dot :: dd). split; [done|]. split; [by apply Hdec|].
  exists db, (dc ++ chr_dot :: dd). split; [done|]. split; [by apply Hdec|].
  exists dc, dd. split; [done|]. split; [by apply Hdec|]. by apply Hdec.
Qed.

Lemma parse_ipv4_correct_witness :
  parse_ipv4 (literal "10.0.02.15") = Ret (Some IPV4_LOCAL_ADDRESS) /\
  exists r, parse_ipv4 (literal "10.0.02.15") = Ret r /\ (r = Some IPV4_LOCAL_ADDRESS <->
    exists a b c d, dotted (bytes_of "10.0.02.15") [a; b; c; d] /\ IPV4_LOCAL_ADDRESS = ip_of a b c d).
Proof.
  split; [vm_compute; reflexivity|].
  destruct (parse_ipv4_correct (literal "10.0.02.15") (bytes_of "10.0.02.15")) as (r & E & H & _);
    [by apply literal_cstr|]. exists r. split; [exact E|apply H].
Defined.

(** ** The [readfile] command *)

Lemma file_not_found_prints :
  exists out, printf (bytes_of "file not found: %s" ++ newline) [VStr (literal "hello.txt")] = Ret out.
Proof. eexists. vm_compute. reflexivity. Qed.

Section Readfile.
Context {H : Type} `{!PageHeap H} {D : Type} `{!Devices D} (L : layout).
Implicit Types (s : os H D).

Lemma readfile_call s :
  Forall file_wf (files (o_fs s)) -> Forall slot_named (files (o_fs s)) ->
  exists n buf s', (n = 128 \/ n = 2 ^ 32 - 1) /\ length (default (replicate 128 0) buf) = 128%nat /\
    sys_file false (literal "hello.txt") (Ptr (replicate 128 0)) 128 s = Ret (Back (Num n) buf, s').
Proof.
  intros Hwf Hnamed.
  assert (Hx : cstr (literal "hello.txt") (bytes_of "hello.txt")) by (by apply literal_cstr).
  destruct (fs_lookup_spec _ _ _ Hnamed Hx ltac:(discriminate)) as (oi & Hlk & _).
  unfold sys_file. rewrite Hlk, bind_Ret_l. destruct oi as [i|].
  - pose proof (fs_lookup_lt _ _ _ Hlk) as Hi.
    assert (Hf : file_wf (files (o_fs s) !!! i)) by (rewrite Forall_lookup in Hwf; by apply (Hwf i), aget_Some).
    pose proof (fw_data_length _ Hf) as Hd. unfold FILE_DATA_SIZE in Hd.
    unfold copy_length, copy_out. change (Z.of_nat FILE_DATA_SIZE <? 128) with false. cbv iota zeta.
    assert (Ec : copy_bytes (replicate 128 0) (f_data (files (o_fs s) !!! i)) (u32 128) =
      Ret (put 0 (take 128 (f_data (files (o_fs s) !!! i))) (replicate 128 0))).
    { unfold copy_bytes. rewrite Hd. reflexivity. }
    rewrite Ec, !bind_Ret_l. eexists _, _, _. split; [by left|]. split; [|reflexivity].
    change (length (put 0 (take 128 (f_data (files (o_fs s) !!! i))) (replicate 128 0)) = 128%nat).
    rewrite length_put; rewrite ?length_take, ?Hd, length_replicate; lia.
  - destruct file_not_found_prints as [out Eo]. rewrite Eo, bind_Ret_l.
    eexists _, None, _. split; [by right|]. split; [apply length_replicate|reflexivity].
Qed.

(** The command asks for [sizeof(buf)] = 128 bytes and then stores a NUL at
    [buf[len]].  The kernel returns 128 when the file exists and [-1] when it
    does not, so that store is outside [buf] whenever the call comes back. *)
Theorem shell_readfile_overruns s :
  Forall file_wf (files (o_fs s)) -> Forall slot_named (files (o_fs s)) ->
  cmd_readfile (UserSys0 := os_user L) s = Undef.
Proof.
  intros Hwf Hnamed. destruct (readfile_call s Hwf Hnamed) as (n & buf & s' & Hn & Hl & E).
  rewrite <-(handle_syscall_file L (literal "hello.txt") (replicate 128 0) 128 false s) in E by lia.
  cbv beta iota in E. clear Hwf Hnamed.
  assert (Hr : readfile (UserSys0 := os_user L) (literal "hello.txt") (replicate 128 0) 128 s =
    Ret (Some (s32 n, default (replicate 128 0) buf), s')).
  { unfold readfile, syscall, os_user, ecall, os_ecall, mbind, user_bind.
    change (u32 128) with 128. unfold handle_trap.
    change (negb (Z.land SCAUSE_ECALL SCAUSE_INTERRUPT =? 0)) with false.
    change (Z.land SCAUSE_ECALL SCAUSE_CODE_MASK =? SCAUSE_ECALL) with true. cbv iota.
    rewrite E. reflexivity. }
  unfold cmd_readfile, mbind, user_bind. rewrite Hr. clear E Hr.
  destruct Hn as [-> | ->]; rewrite Hl; reflexivity.
Qed.
End Readfile.
