(* ===== verification/ShmTest.v ===== *)
(** The shared-memory test of the shell ([run_shmtest] of [user/shell.c]) on
    the kernel: user library, system calls, shared memory, page tables and the
    memory they lead to, composed.

    The kernel part comes first: an object attached at two slots of the running
    process, the bytes stored through one of them and read through the other.
    Then the program. *)

From Stdlib Require Import ZArith Lia.
From S2P Require Import Prelude Memory PageHeap Allocator PageTable Shm Process KernelInv System Lifecycle AddressSpace Kernel Views Reach World Strings Bytes Arp Ipv4 Ring Virtio Machine NetDriver Interrupts NetStack Disk Fs SimDevices FsImage UserMemory Syscall Objects SyscallProps Shell ShellProps Programs.
Open Scope Z_scope.

Section KernelPart.
Context {H : Type} `{!PageHeap H} (lo hi : Z) `{!PageHeapSpec H lo hi}.
Implicit Types (K : kstate H) (h : H).
Local Abbreviation ok := (kernel_ok lo hi).
Local Abbreviation maps K := (shm_mappings (current_process K)).
Local Abbreviation table K := (shm_table (k_shm K)).

Definition free_slot (l : list shm_mapping) : option nat := find_slot (fun mp => negb (mapping_used mp)) l.

(** What the calls of the test leave alone. *)
Definition same_run K K' : Prop :=
  k_current K' = k_current K /\ k_idle K' = k_idle K /\ next_shm_id (k_shm K') = next_shm_id (k_shm K).

Lemma current_set_proc K p : (k_current K < length (k_procs K))%nat -> current_process (set_proc K (k_current K) p) = p.
Proof. intros Hl. unfold current_process. by apply aget_set_same. Qed.

(** Attaching a known object at the first free slot. *)
Lemma attach_current_spec K k o s n :
  ok K -> table K !! k = Some o -> shm_used o = true -> free_slot (maps K) = Some s ->
  budget lo hi (k_heap K) (current_process K) (S n) ->
  exists K', attach_current K (so_id o) = Ret (shm_page s, K') /\ ok K' /\ same_run K K' /\
    maps K' = attach_at (maps K) s (so_id o) /\
    table K' = <[k := set_refcount o (so_refcount o + 1)]> (table K) /\
    budget lo hi (k_heap K') (current_process K') n.
Proof.
  intros HK Hk Hu Hs Hb. pose proof (ko_sys _ _ _ HK) as Hsys.
  destruct (kernel_current lo hi K HK) as [Hcur Hl].
  destruct (shm_attach_total lo hi _ _ _ _ _ k o s n Hsys Hcur Hl Hk Hu Hs Hb) as (h' & sh' & p' & Hat & Hb').
  set (K' := set_proc (set_heap (set_shm K sh') h') (k_current K) p').
  assert (Hstep : attach_current K (so_id o) = Ret (shm_page s, K')) by (unfold attach_current; by rewrite Hat).
  assert (Hlen : (k_current K < length (k_procs K))%nat) by (by eapply lookup_lt_Some).
  pose proof (step_attach_ok lo hi K _ _ _ HK Hstep) as HK'.
  assert (Ecur : current_process K' = p') by exact (current_set_proc (set_heap (set_shm K sh') h') p' Hlen).
  assert (Hsl : (s < PROC_SHM_MAX)%nat).
  { destruct (po_shape _ _ _ _ (sys_live _ _ _ _ _ Hsys _ _ Hcur Hl)) as (_ & <- & _). by eapply find_slot_lt. }
  destruct (shm_page_range s Hsl) as (Hpg & _ & Eu).
  destruct (shm_attach_cases _ _ _ _ _ _ _ _ Hat) as [(E & _)|(k' & s' & p1 & Ef & Es & Er & Hmap & Ep & Esh)].
  { unfold shm_page, SHM_USER_BASE, SHM_PAGE_SIZE, PAGE_SIZE in *. lia. }
  assert (s' = s) as -> by (unfold free_slot in Hs; congruence).
  pose proof (find_by_id_spec (k_shm K) (so_id o)) as Hf. rewrite Ef in Hf. destruct Hf as (o' & Hk' & Hu' & Eid).
  assert (k' = k) as ->.
  { eapply (so_uniq _ _ _ (sys_shm _ _ _ _ _ Hsys)); [exact Hk'|exact Hk|exact Hu'|exact Hu|by left]. }
  assert (o' = o) as -> by congruence. rewrite (aget_lookup _ _ _ Hk) in *.
  pose proof (map_page_mappings lo hi _ _ _ _ _ _ _ _ (sys_heap _ _ _ _ _ Hsys)
    (sys_live _ _ _ _ _ Hsys _ _ Hcur Hl) Hmap) as Em.
  exists K'. split; [exact Hstep|]. split; [exact HK'|]. split; [by subst sh'|]. rewrite Ecur.
  split; [|split; [by subst sh'|exact Hb']].
  rewrite Ep. cbn [set_mappings shm_mappings]. rewrite Em. unfold attach_at. by rewrite Er.
Qed.

(** Object [o] in entry [k] at the slots [a] and [b] of the running process,
    nowhere else, and no other object. *)
Record twice K (k : nat) (o : shm_object) (a b : nat) : Prop := {
  tw_ok : ok K;
  tw_obj : table K !! k = Some o /\ shm_used o = true;
  tw_only : forall j x, table K !! j = Some x -> shm_used x = true -> j = k;
  tw_a : attached (maps K) a (so_id o);
  tw_b : attached (maps K) b (so_id o);
  tw_ne : a <> b;
  tw_count : so_refcount o = 2;
}.

(** The first three calls of the test. *)
Lemma share_twice K a mp i mpi :
  ok K -> (forall j x, table K !! j = Some x -> shm_used x = false) ->
  maps K !! a = Some mp -> maps K !! i = Some mpi -> a <> i -> mapping_used mp = false -> mapping_used mpi = false ->
  budget lo hi (k_heap K) (current_process K) 3 -> next_shm_id (k_shm K) + 1 < 2 ^ 31 ->
  exists K1 K2 K3 k o s t, let id := next_shm_id (k_shm K) in
    get_current K 100 = Ret (id, K1) /\ attach_current K1 id = Ret (shm_page s, K2) /\
    attach_current K2 id = Ret (shm_page t, K3) /\ twice K3 k o s t /\
    so_id o = id /\ so_key o = 100 /\ so_size o = PAGE_SIZE /\
    k_current K3 = k_current K /\ k_idle K3 = k_idle K /\ next_shm_id (k_shm K3) = id + 1.
Proof.
  intros HK Hno Ha Hi Hne Hua Hui Hb Hid. pose proof (ko_sys _ _ _ HK) as Hsys.
  pose proof (so_len _ _ _ (sys_shm _ _ _ _ _ Hsys)) as Hlen.
  destruct (lookup_lt_is_Some_2 (table K) 0%nat) as [o0 Ho0]; [rewrite Hlen; unfold SHM_MAX; lia|].
  destruct (shm_get_total lo hi _ _ _ 100 0%nat o0 2 Hsys ltac:(lia)
    ltac:(intros j x Hj Hu; by rewrite (Hno j x Hj) in Hu) Ho0 (Hno _ _ Ho0)) as (k & r & pa & h1 & Hal & Hav1 & Hlt & Hget);
    [apply Hb|exact Hid|].
  set (id := next_shm_id (k_shm K)) in *. set (o := mkShm 1 id 100 pa r SHM_PAGE_SIZE 0) in *.
  set (K1 := set_heap (set_shm K (mkShmState (<[k := o]> (table K)) (id + 1))) h1).
  assert (E1 : get_current K 100 = Ret (id, K1)) by (unfold get_current; by rewrite Hget).
  pose proof (step_get_ok lo hi K _ _ _ HK E1) as HK1.
  assert (Hk1 : table K1 !! k = Some o) by (by apply list_lookup_insert_eq).
  destruct (find_slot_exists (fun mp => negb (mapping_used mp)) (maps K) a mp Ha ltac:(cbn beta; by rewrite Hua)) as [s Hs].
  assert (Hb1 : budget lo hi (k_heap K1) (current_process K1) 2).
  { destruct Hb as (_ & Hb0 & Hb1). split; [exact Hav1|]. change (current_process K1) with (current_process K). lia. }
  destruct (attach_current_spec K1 k o s 1 HK1 Hk1 eq_refl Hs Hb1) as (K2 & E2 & HK2 & (C2 & I2 & N2) & M2 & T2 & Hb2).
  set (o2 := set_refcount o (so_refcount o + 1)) in *.
  assert (Hk2 : table K2 !! k = Some o2) by (rewrite T2; apply list_lookup_insert_eq; by eapply lookup_lt_Some).
  (* another slot is still free *)
  assert (Hfree : exists t, free_slot (maps K2) = Some t /\ t <> s).
  { pose proof Hs as (mps & Hms & Hfs)%find_slot_lookup.
    set (j := if decide (a = s) then i else a).
    assert (Hj : exists mpj, maps K2 !! j = Some mpj /\ mapping_used mpj = false).
    { rewrite M2. unfold attach_at, j. change (maps K1) with (maps K).
      destruct (decide (a = s)) as [->|]; rewrite list_lookup_insert_ne by congruence; by eexists. }
    destruct Hj as (mpj & Hj & Huj).
    destruct (find_slot_exists (fun mp => negb (mapping_used mp)) (maps K2) j mpj Hj ltac:(cbn beta; by rewrite Huj)) as [t Ht].
    exists t. split; [exact Ht|]. intros ->. apply find_slot_lookup in Ht as (mp' & Hm' & Hf').
    rewrite M2 in Hm'. unfold attach_at in Hm'. rewrite list_lookup_insert_eq in Hm' by (by eapply lookup_lt_Some).
    injection Hm' as <-. discriminate Hf'. }
  destruct Hfree as (t & Ht & Hts).
  destruct (attach_current_spec K2 k o2 t 0 HK2 Hk2 eq_refl Ht Hb2) as (K3 & E3 & HK3 & (C3 & I3 & N3) & M3 & T3 & _).
  set (o3 := set_refcount o2 (so_refcount o2 + 1)) in *.
  exists K1, K2, K3, k, o3, s, t. cbv zeta. split; [exact E1|]. split; [exact E2|]. split; [exact E3|].
  assert (Hlk : (k < length (table K2))%nat) by (by eapply lookup_lt_Some).
  pose proof Hs as (mps & Hms & Hfs)%find_slot_lookup. pose proof Ht as (mpt & Hmt & Hft)%find_slot_lookup.
  destruct (attach_slot (maps K1) s mps id Hms ltac:(by destruct (mapping_used mps))) as (A1 & _ & _).
  destruct (attach_slot (maps K2) t mpt id Hmt ltac:(by destruct (mapping_used mpt))) as (A2 & P2 & _).
  split; [|split; [done|split; [done|split; [done|split; [by rewrite C3, C2|split; [by rewrite I3, I2|by rewrite N3, N2]]]]]].
  split.
  - exact HK3.
  - split; [rewrite T3; by apply list_lookup_insert_eq|done].
  - intros j x Hj Hu. rewrite T3, T2 in Hj. apply list_lookup_insert_Some in Hj as [(<- & _)|[Hnj Hj]]; [done|].
    rewrite list_lookup_insert_ne in Hj by done. cbn in Hj. rewrite list_lookup_insert_ne in Hj by done.
    by rewrite (Hno j x Hj) in Hu.
  - rewrite M3. apply P2. rewrite M2. exact A1.
  - rewrite M3. exact A2.
  - congruence.
  - reflexivity.
Qed.

(** The running process reaches the object's page through either slot. *)
Lemma access_shared K k o s d flag :
  ok K -> table K !! k = Some o -> shm_used o = true -> attached (maps K) s (so_id o) ->
  0 <= d < PAGE_SIZE -> pte_flag (Z.lor SHM_FLAGS PAGE_V) flag = true ->
  user_access K (shm_page s + d) flag = Some (so_pa o + d) /\ 0 <= shm_page s + d < 2 ^ 32.
Proof.
  intros HK Hk Hu Ha Hd Hf. destruct (kernel_current lo hi K HK) as [Hcur Hl].
  destruct (attached_view lo hi K HK (k_current K) _ s (so_id o) d Hcur Ha Hd) as (opa & Hob & (_ & _ & _ & Hva & _) & Hw).
  rewrite (object_pa_inv lo hi _ _ _ (ko_sys _ _ _ HK) (so_id o) opa k o Hob Hk Hu eq_refl) in Hw.
  unfold user_access. rewrite Hw, Hf. by split.
Qed.

Lemma twice_access K k o a b :
  twice K k o a b -> forall d, 0 <= d < PAGE_SIZE ->
  user_access K (shm_page a + d) PAGE_W = Some (so_pa o + d) /\ user_access K (shm_page b + d) PAGE_R = Some (so_pa o + d).
Proof.
  intros T d Hd. destruct (tw_obj _ _ _ _ _ T) as [Hk Hu]. split; eapply access_shared; try apply T; done.
Qed.

Lemma twice_apart K k o a b : twice K k o a b -> shm_page a <> shm_page b.
Proof. intros T E. apply (tw_ne _ _ _ _ _ T), shm_page_same. unfold same_page. by rewrite E. Qed.

Lemma store_twice K k o a b d v :
  twice K k o a b -> 0 <= d < PAGE_SIZE ->
  exists h', user_store K (shm_page a + d) v = Some (set_heap K h') /\ twice (set_heap K h') k o a b /\
    ph_mem h' = store8 (ph_mem (k_heap K)) (so_pa o + d) v.
Proof.
  intros T Hd. destruct (tw_obj _ _ _ _ _ T) as [Hk Hu].
  destruct (access_shared K k o a d PAGE_W (tw_ok _ _ _ _ _ T) Hk Hu (tw_a _ _ _ _ _ T) Hd eq_refl) as [Ha Hva].
  eexists. split; [unfold user_store; by rewrite Ha|]. split; [|apply ph_mem_set_mem].
  pose proof (store_ok lo hi K (tw_ok _ _ _ _ _ T) (k_current K) (so_pa o + d) v
    (user_access_reaches lo hi K (tw_ok _ _ _ _ _ T) _ _ _ Hva Ha)) as HK'.
  destruct T. by split.
Qed.

(** Detaching both slots takes the object away. *)
Lemma detach_current_at K s k o :
  ok K -> table K !! k = Some o -> shm_used o = true -> attached (maps K) s (so_id o) ->
  exists K', detach_current K (shm_page s) = Ret (0, K') /\ ok K' /\ same_run K K' /\
    maps K' = <[s := no_mapping]> (maps K) /\
    table K' = if so_refcount o =? 1 then <[k := shm_object_zero]> (table K)
               else <[k := set_refcount o (so_refcount o - 1)]> (table K).
Proof.
  intros HK Hk Hu Ha. pose proof (ko_sys _ _ _ HK) as Hsys.
  destruct (kernel_current lo hi K HK) as [Hcur Hl].
  destruct (shm_detach_spec lo hi _ _ _ _ _ (shm_page s) Hsys Hcur Hl)
    as [[Hno _]|(s' & id & k' & o' & h' & sh' & p' & Ha' & Es & Hk' & Hu' & Eid & Hd & Hdt)].
  { exfalso. destruct Ha as (mp & Hs & Hmu & _). apply (Hno s mp Hs Hmu).
    by apply (po_vaddr _ _ _ _ (sys_live _ _ _ _ _ Hsys _ _ Hcur Hl)). }
  assert (s' = s) as -> by (apply shm_page_same; unfold same_page; by rewrite Es).
  assert (Eo : so_id o' = so_id o).
  { destruct Ha as (mp & Hs & _ & E), Ha' as (mp' & Hs' & _ & E'). congruence. }
  assert (k' = k) as ->.
  { eapply (so_uniq _ _ _ (sys_shm _ _ _ _ _ Hsys)); [exact Hk'|exact Hk|exact Hu'|exact Hu|by left]. }
  assert (o' = o) as -> by congruence.
  set (K' := set_proc (set_heap (set_shm K sh') h') (k_current K) p').
  assert (Hstep : detach_current K (shm_page s) = Ret (0, K')) by (unfold detach_current; by rewrite Hd).
  assert (Hlen : (k_current K < length (k_procs K))%nat) by (by eapply lookup_lt_Some).
  assert (Ecur : current_process K' = p') by exact (current_set_proc (set_heap (set_shm K sh') h') p' Hlen).
  exists K'. split; [exact Hstep|]. split; [by eapply step_detach_ok|].
  split; [split; [done|split; [done|by apply (dt_next _ _ _ _ _ _ _ _ _ _ _ _ _ Hdt)]]|].
  rewrite Ecur. split; [by rewrite (dt_proc _ _ _ _ _ _ _ _ _ _ _ _ _ Hdt)|].
  pose proof (dt_obj _ _ _ _ _ _ _ _ _ _ _ _ _ Hdt) as Hobj.
  destruct (so_obj _ _ _ (sys_shm _ _ _ _ _ Hsys) k o Hk Hu) as (_ & _ & _ & Ec). rewrite Ec.
  destruct (decide (refs (so_id o) (k_procs K) = 1%nat)) as [E|E]; destruct Hobj as [Et _]; cbn; rewrite Et.
  - by rewrite E.
  - rewrite <-Ec. by rewrite (proj2 (Z.eqb_neq _ 1)) by lia.
Qed.

Lemma detach_twice K k o a b :
  twice K k o a b ->
  exists K1 K2, detach_current K (shm_page a) = Ret (0, K1) /\ detach_current K1 (shm_page b) = Ret (0, K2) /\
    ok K2 /\ same_run K K2 /\ (forall j x, table K2 !! j = Some x -> shm_used x = false) /\
    maps K2 = <[b := no_mapping]> (<[a := no_mapping]> (maps K)).
Proof.
  intros T. destruct (tw_obj _ _ _ _ _ T) as [Hk Hu].
  destruct (detach_current_at K a k o (tw_ok _ _ _ _ _ T) Hk Hu (tw_a _ _ _ _ _ T))
    as (K1 & E1 & HK1 & (C1 & I1 & N1) & M1 & T1).
  rewrite (tw_count _ _ _ _ _ T) in T1. cbn [Z.eqb Pos.eqb] in T1.
  set (o1 := set_refcount o (2 - 1)) in *.
  assert (Hk1 : table K1 !! k = Some o1) by (rewrite T1; apply list_lookup_insert_eq; by eapply lookup_lt_Some).
  assert (Hb : attached (maps K1) b (so_id o1)).
  { destruct (tw_b _ _ _ _ _ T) as (mp & Hm & Hmu & E). exists mp. rewrite M1.
    rewrite list_lookup_insert_ne by apply (tw_ne _ _ _ _ _ T). by split. }
  destruct (detach_current_at K1 b k o1 HK1 Hk1 Hu Hb) as (K2 & E2 & HK2 & (C2 & I2 & N2) & M2 & T2).
  change (so_refcount o1 =? 1) with true in T2. cbv iota in T2.
  exists K1, K2. split; [exact E1|]. split; [exact E2|]. split; [exact HK2|].
  split; [split; [by rewrite C2, C1|split; [by rewrite I2, I1|by rewrite N2, N1]]|].
  split; [|by rewrite M2, M1]. intros j x Hj. rewrite T2 in Hj.
  apply list_lookup_insert_Some in Hj as [(_ & <- & _)|[Hnj Hj]]; [done|].
  rewrite T1, list_lookup_insert_ne in Hj by done. destruct (shm_used x) eqn:Ux; [|done].
  by rewrite (tw_only _ _ _ _ _ T j x Hj Ux) in Hnj.
Qed.
End KernelPart.

(** ** Storing and reading the message *)

Section Message.
Context {H : Type} `{!PageHeap H} (lo hi : Z) `{!PageHeapSpec H lo hi} {D : Type} `{!Devices D} (L : layout).
Implicit Types (s : os H D).

Definition mem_of s : mem := ph_mem (k_heap (o_kernel s)).

(** [bytes] and a NUL lie at [pa]. *)
Definition string_in (m : mem) (pa : Z) (bytes : list Z) : Prop :=
  forall j c, (bytes ++ [0]) !! j = Some c -> load8 m (pa + Z.of_nat j) = c.

Lemma user_store_call s K' va v :
  user_store (o_kernel s) va v = Some K' ->
  store (UserSys := os_user L) va v s = Ret (Some tt, set_kernel K' s).
Proof. intros E. cbn. unfold user_store8. by rewrite E. Qed.

Lemma copy_string_stores bytes : forall d s k o a b,
  Forall (fun c => 0 < c < 256) bytes -> twice lo hi (o_kernel s) k o a b ->
  0 <= d -> d + Z.of_nat (length bytes) < PAGE_SIZE ->
  exists h', copy_string (UserSys0 := os_user L) (shm_page a + d) (bytes ++ [0]) s =
      Ret (Some tt, set_kernel (set_heap (o_kernel s) h') s) /\
    twice lo hi (set_heap (o_kernel s) h') k o a b /\
    string_in (ph_mem h') (so_pa o + d) bytes /\
    (forall x, x < so_pa o + d -> load8 (ph_mem h') x = load8 (mem_of s) x).
Proof.
  induction bytes as [|c bytes IH]; intros d s k o a b Hc T Hd Hl; cbn [app copy_string length] in *.
  - destruct (store_twice lo hi (o_kernel s) k o a b d 0 T ltac:(lia)) as (h' & E & T' & Em).
    exists h'. change (0 =? 0) with true. cbv iota. rewrite (user_store_call s _ _ _ E). split; [reflexivity|]. split; [exact T'|]. rewrite Em. split.
    + intros [|j] x Hj; cbn in Hj; [|by destruct j]. injection Hj as <-.
      rewrite load8_store8, Z.add_0_r, Z.eqb_refl. reflexivity.
    + intros x Hx. rewrite load8_store8. destruct (Z.eqb_spec x (so_pa o + d)); [lia|reflexivity].
  - apply Forall_cons in Hc as [Hc0 Hc]. rewrite (proj2 (Z.eqb_neq c 0)) by lia.
    destruct (store_twice lo hi (o_kernel s) k o a b d c T ltac:(lia)) as (h1 & E & T1 & Em).
    erewrite user_bind_Some by exact (user_store_call s _ _ _ E).
    destruct (IH (d + 1) (set_kernel (set_heap (o_kernel s) h1) s) k o a b Hc T1 ltac:(lia) ltac:(lia))
      as (h2 & E2 & T2 & Hs2 & Hk2).
    exists h2. rewrite Z.add_assoc in E2. rewrite E2. split; [reflexivity|]. split; [exact T2|].
    unfold mem_of in Hk2. cbn in Hk2. rewrite Em in Hk2. split.
    + intros [|j] x Hj; cbn in Hj.
      * injection Hj as <-. rewrite Z.add_0_r, Hk2 by lia. rewrite load8_store8, Z.eqb_refl. apply u8_id. lia.
      * rewrite <-(Hs2 j x Hj). f_equal. lia.
    + intros x Hx. rewrite Hk2 by lia. rewrite load8_store8. destruct (Z.eqb_spec x (so_pa o + d)); [lia|reflexivity].
Qed.

Lemma string_at_reads bytes : forall fuel d s k o a b,
  Forall (fun c => 0 < c < 256) bytes -> twice lo hi (o_kernel s) k o a b ->
  0 <= d -> d + Z.of_nat (length bytes) < PAGE_SIZE -> (length bytes < fuel)%nat ->
  string_in (mem_of s) (so_pa o + d) bytes ->
  string_at (UserSys0 := os_user L) fuel (shm_page b + d) s = Ret (Some (bytes ++ [0]), s).
Proof.
  assert (Hload : forall s k o a b d, twice lo hi (o_kernel s) k o a b -> 0 <= d < PAGE_SIZE ->
    load (UserSys := os_user L) (shm_page b + d) s = Ret (Some (load8 (mem_of s) (so_pa o + d)), s)).
  { intros s k o a b d T Hd. destruct (tw_obj _ _ _ _ _ _ _ T) as [Hk Hu].
    destruct (access_shared lo hi (o_kernel s) k o b d PAGE_R (tw_ok _ _ _ _ _ _ _ T) Hk Hu (tw_b _ _ _ _ _ _ _ T) Hd eq_refl)
      as [E _]. cbn. unfold user_load8. by rewrite E. }
  induction bytes as [|c bytes IH]; intros fuel d s k o a b Hc T Hd Hl Hf Hs; cbn [app length] in *;
    (destruct fuel as [|fuel]; [lia|]); cbn [string_at];
    erewrite user_bind_Some by (eapply Hload; [exact T|lia]);
    pose proof (Hs 0%nat _ eq_refl) as E0; rewrite Z.add_0_r in E0; rewrite E0.
  - reflexivity.
  - apply Forall_cons in Hc as [Hc0 Hc]. rewrite (proj2 (Z.eqb_neq c 0)) by lia.
    erewrite user_bind_Some; [reflexivity|]. rewrite <-Z.add_assoc.
    eapply IH; [exact Hc|exact T|lia|lia|lia|]. intros j x Hj.
    rewrite <-(Hs (S j) x Hj). f_equal. lia.
Qed.
End Message.

(** ** What the test prints *)

Lemma print_test_id id :
  0 <= id < 2 ^ 31 -> exists out, printf (bytes_of "shmtest: id=%d" ++ newline) [VInt id] = Ret out.
Proof.
  intros Hi. destruct (printNum_ret id ltac:(lia)) as [ds E].
  change (bytes_of "shmtest: id=%d" ++ newline) with (bytes_of "shmtest: id=" ++ [chr_percent; chr_d; 10; 0]).
  rewrite printf_text by reflexivity. rewrite (printf_d _ _ _ ds) by (by rewrite s32_id by lia).
  rewrite printf_char, printf_end by discriminate. by eexists.
Qed.

Lemma print_test_addresses a b :
  exists out, printf (bytes_of "shmtest: va_a=0x%x va_b=0x%x" ++ newline) [VInt a; VInt b] = Ret out.
Proof.
  change (bytes_of "shmtest: va_a=0x%x va_b=0x%x" ++ newline) with
    (bytes_of "shmtest: va_a=0x" ++ [chr_percent; chr_x] ++ bytes_of " va_b=0x" ++ [chr_percent; chr_x; 10; 0]).
  rewrite printf_text by reflexivity. cbn [app]. rewrite printf_x, printf_text by reflexivity. cbn [app].
  rewrite printf_x, printf_char, printf_end by discriminate. by eexists.
Qed.

Definition message : list Z := bytes_of "shared-memory-ok".

Lemma print_test_message : exists out, printf (bytes_of "shmtest: read via va_b: %s" ++ newline) [VStr (message ++ [0])] = Ret out.
Proof. eexists. vm_compute. reflexivity. Qed.

Lemma say_pass : printf (bytes_of "shmtest: PASS" ++ newline) [] = Ret (bytes_of "shmtest: PASS" ++ [10]).
Proof. reflexivity. Qed.

Lemma slot_address {H : Type} `{!PageHeap H} (lo hi : Z) `{!PageHeapSpec H lo hi} (K : kstate H) (s : nat) (id : Z) :
  kernel_ok lo hi K -> attached (shm_mappings (current_process K)) s id ->
  0 < shm_page s < 2 ^ 32 /\ (shm_page s =? 0) = false.
Proof.
  intros HK (mp & Hs & _). destruct (kernel_current lo hi K HK) as [Hcur Hl].
  destruct (po_shape _ _ _ _ (sys_live _ _ _ _ _ (ko_sys _ _ _ HK) _ _ Hcur Hl)) as (_ & Hlen & _).
  apply lookup_lt_Some in Hs. rewrite Hlen in Hs.
  unfold shm_page, SHM_USER_BASE, SHM_PAGE_SIZE, PAGE_SIZE, PROC_SHM_MAX in *. split; [lia|]. apply Z.eqb_neq. lia.
Qed.

Lemma dump_twice {H : Type} `{!PageHeap H} (lo hi : Z) `{!PageHeapSpec H lo hi} (K : kstate H) k o a b :
  twice lo hi K k o a b -> 0 <= so_id o < 2 ^ 31 -> 0 <= so_key o < 2 ^ 31 -> so_size o = PAGE_SIZE ->
  exists out, Syscall.shm_dump (k_shm K) = Ret out.
Proof.
  intros T Hi Hk Hs. apply shm_dump_ret. intros j x Hx.
  destruct (shm_used x) eqn:Ux; [|by apply unused_dump].
  pose proof (tw_only _ _ _ _ _ _ _ T j x Hx Ux) as ->. destruct (tw_obj _ _ _ _ _ _ _ T) as [Ho _].
  rewrite Ho in Hx. injection Hx as <-. pose proof (tw_count _ _ _ _ _ _ _ T).
  unfold PAGE_SIZE in Hs. apply dump_object_ret; lia.
Qed.

Lemma message_reads {H : Type} `{!PageHeap H} (lo hi : Z) `{!PageHeapSpec H lo hi} {D : Type} `{!Devices D}
    (L : layout) (s s' : os H D) k o a b :
  twice lo hi (o_kernel s) k o a b -> string_in (mem_of s) (so_pa o) message -> o_kernel s' = o_kernel s ->
  string_at (UserSys0 := os_user L) (Z.to_nat PAGE_SIZE) (shm_page b) s' = Ret (Some (message ++ [0]), s').
Proof.
  intros T Hs E. rewrite <-(Z.add_0_r (shm_page b)).
  eapply (string_at_reads lo hi L message _ 0 s' k o a b).
  - repeat constructor.
  - rewrite E. exact T.
  - lia.
  - reflexivity.
  - apply Nat.ltb_lt. reflexivity.
  - unfold mem_of. rewrite E, Z.add_0_r. exact Hs.
Qed.

(** C8: the shared-memory test passes.  When no object exists yet, the running
    process has two free slots, three pages are left, there is room in its
    [regions] for the table handles ([budget]) and identifiers remain,
    [run_shmtest] runs to its end on the kernel and prints PASS: its two calls of
    [shm_attach] return different addresses, which it prints and which lead to the
    same page, so what the program stores through the first it reads through
    the second.  Afterwards the object is gone, files are untouched and the
    kernel invariant holds. *)
Theorem shmtest_passes {H : Type} `{!PageHeap H} (lo hi : Z) `{!PageHeapSpec H lo hi} {D : Type} `{!Devices D}
    (L : layout) (s : os H D) i j mpi mpj :
  let K := o_kernel s in let id := next_shm_id (k_shm K) in
  kernel_ok lo hi K -> (forall k o, shm_table (k_shm K) !! k = Some o -> shm_used o = false) ->
  shm_mappings (current_process K) !! i = Some mpi -> shm_mappings (current_process K) !! j = Some mpj -> i <> j ->
  mapping_used mpi = false -> mapping_used mpj = false ->
  budget lo hi (k_heap K) (current_process K) 3 -> id + 1 < 2 ^ 31 ->
  exists K1 K2 K3 va_a va_b pa s' pre line mid post,
    (get_current K 100 = Ret (id, K1) /\ attach_current K1 id = Ret (va_a, K2) /\ attach_current K2 id = Ret (va_b, K3)) /\
    va_a <> va_b /\
    (forall d, 0 <= d < PAGE_SIZE ->
       user_access K3 (va_a + d) PAGE_W = Some (pa + d) /\ user_access K3 (va_b + d) PAGE_R = Some (pa + d)) /\
    run_shmtest (UserSys0 := os_user L) s = Ret (Some tt, s') /\
    printf (bytes_of "shmtest: va_a=0x%x va_b=0x%x" ++ newline) [VInt va_a; VInt va_b] = Ret line /\
    m_out (o_machine s') = m_out (o_machine s) ++ pre ++ (u8 <$> line) ++ mid ++ bytes_of "shmtest: PASS" ++ [10] ++ post /\
    kernel_ok lo hi (o_kernel s') /\
    (forall k o, shm_table (k_shm (o_kernel s')) !! k = Some o -> shm_used o = false) /\
    k_current (o_kernel s') = k_current K /\ o_fs s' = o_fs s.
Proof.
  intros K id HK Hno Hi Hj Hij Hui Huj Hb Hid.
  pose proof (so_next _ _ _ (sys_shm _ _ _ _ _ (ko_sys _ _ _ HK))) as Hid0.
  destruct (share_twice lo hi K i mpi j mpj HK Hno Hi Hj Hij Hui Huj Hb Hid)
    as (K1 & K2 & K3 & k & o & a & b & E1 & E2 & E3 & T & Eid & Ekey & Esize & Ec & _ & _).
  fold id in Hid0, E1, E2, E3, Eid. cbv zeta in E1, E2, E3, Eid.
  destruct (slot_address lo hi K3 a _ (tw_ok _ _ _ _ _ _ _ T) (tw_a _ _ _ _ _ _ _ T)) as [Hva Ea].
  destruct (slot_address lo hi K3 b _ (tw_ok _ _ _ _ _ _ _ T) (tw_b _ _ _ _ _ _ _ T)) as [Hvb Eb].
  set (s3 := set_kernel K3 (set_kernel K2 (set_kernel K1 s))).
  assert (Hmsg : Forall (fun c => 0 < c < 256) message) by (repeat constructor).
  destruct (copy_string_stores lo hi L message 0 s3 k o a b Hmsg T ltac:(lia) ltac:(reflexivity))
    as (h & Ecopy & T4 & Hstr & _). rewrite !Z.add_0_r in Ecopy. rewrite Z.add_0_r in Hstr.
  set (s4 := set_kernel (set_heap (o_kernel s3) h) s3) in *.
  destruct (print_test_id id ltac:(lia)) as [o1 P1]. destruct (print_test_addresses (shm_page a) (shm_page b)) as [o2 P2].
  destruct print_test_message as [o3 P3].
  pose proof (fun s' => message_reads lo hi L s4 s' k o a b T4 Hstr) as Hread.
  destruct (dump_twice lo hi (o_kernel s4) k o a b T4) as [o5 P5]; [lia|lia|exact Esize|].
  destruct (detach_twice lo hi _ k o a b T4) as (Ka & Kb & Ed1 & Ed2 & HKb & (Cb & _) & Hnob & _).
  destruct (shm_dump_ret (k_shm Kb) (fun j' x Hx => unused_dump x (Hnob j' x Hx))) as [o6 P6].
  unfold run_shmtest.
  rewrite (user_bind_Some _ _ s id (set_kernel K1 s)) by (apply (shm_get_call L); [lia|lia|exact E1]).
  rewrite (proj2 (Z.ltb_ge id 0)) by lia.
  rewrite (user_bind_Some _ _ _ (shm_page a) (set_kernel K2 (set_kernel K1 s))) by (apply (shm_attach_call L); [lia|lia|exact E2]).
  rewrite (user_bind_Some _ _ _ (shm_page b) s3) by (apply (shm_attach_call L); [lia|lia|exact E3]).
  rewrite Ea, Eb. cbn [orb].
  rewrite (user_bind_Some _ _ s3 tt s4) by exact Ecopy.
  rewrite (user_bind_Some _ _ s4 tt (print (u8 <$> o1) s4)) by (by apply (uprintf_prints L)).
  rewrite (user_bind_Some _ _ _ tt (print (u8 <$> o2) (print (u8 <$> o1) s4))) by (by apply (uprintf_prints L)).
  set (s6 := print (u8 <$> o2) _).
  rewrite (user_bind_Some _ _ s6 (message ++ [0]) s6) by (by apply Hread).
  rewrite (user_bind_Some _ _ s6 tt (print (u8 <$> o3) s6)) by (by apply (uprintf_prints L)).
  set (s7 := print (u8 <$> o3) s6).
  rewrite (user_bind_Some _ _ s7 (message ++ [0]) s7) by (by apply Hread).
  rewrite (user_bind_Some _ _ s7 0 s7) by reflexivity. rewrite Z.eqb_refl.
  set (pass := u8 <$> (bytes_of "shmtest: PASS" ++ [10])).
  rewrite (user_bind_Some _ _ s7 tt (print pass s7)) by (by apply (uprintf_prints L), say_pass).
  rewrite (user_bind_Some _ _ _ tt (print o5 (print pass s7))) by (apply (shm_dump_call L); exact P5).
  set (s9 := print o5 (print pass s7)).
  rewrite (user_bind_Some _ _ s9 0 (set_kernel Ka s9)) by (apply (shm_detach_call L); [lia|exact Ed1]).
  rewrite (user_bind_Some _ _ _ 0 (set_kernel Kb (set_kernel Ka s9))) by (apply (shm_detach_call L); [lia|exact Ed2]).
  exists K1, K2, K3, (shm_page a), (shm_page b), (so_pa o), (print o6 (set_kernel Kb (set_kernel Ka s9))),
    (u8 <$> o1), o2, (u8 <$> o3), (o5 ++ o6).
  split; [by split|]. split; [by eapply twice_apart|]. split; [by eapply twice_access|].
  split; [by apply (shm_dump_call L)|]. split; [exact P2|]. split.
  { change pass with (bytes_of "shmtest: PASS" ++ [10]) in s9. subst s9 s7 s6. cbn. by rewrite <-!app_assoc. }
  split; [exact HKb|]. split; [exact Hnob|]. split; [cbn; rewrite Cb; exact Ec|reflexivity].
Qed.

Lemma shmtest_passes_witness :
  exists (s s' : os heap disk_image) pre post,
    run_shmtest (UserSys0 := os_user (Devices0 := disk_devices) world_layout) s = Ret (Some tt, s') /\
    m_out (o_machine s') = pre ++ bytes_of "shmtest: PASS" ++ [10] ++ post /\
    k_current (o_kernel s') = 1%nat /\ kernel_ok world_lo world_hi (o_kernel s').
Proof.
  destruct world_second as (K & p & HR & Ep & Hc & _ & Hsh & Hb & (Hlen & Hun) & _).
  pose proof (reachable_ok world_lo world_hi _ K world_layout_ok HR) as HK.
  destruct (lookup_lt_is_Some_2 (shm_mappings p) 0%nat) as [mp0 H0]; [rewrite Hlen; apply Nat.ltb_lt; reflexivity|].
  destruct (lookup_lt_is_Some_2 (shm_mappings p) 1%nat) as [mp1 H1]; [rewrite Hlen; apply Nat.ltb_lt; reflexivity|].
  destruct (shmtest_passes (Devices0 := disk_devices) world_lo world_hi world_layout
    (mkOs K (disk_machine (fun _ => [])) fs_boot []) 0%nat 1%nat mp0 mp1 HK)
    as (K1 & K2 & K3 & va_a & va_b & pa & s' & pre & line & mid & post & _ & _ & _ & E & _ & Eout & HK' & _ & Ec & _).
  - cbn. rewrite Hsh. exact boot_shm_unused.
  - cbn. by rewrite Ep.
  - cbn. by rewrite Ep.
  - discriminate.
  - exact (Hun _ _ H0).
  - exact (Hun _ _ H1).
  - cbn. rewrite Ep. eapply budget_le; [|exact Hb]. lia.
  - cbn. rewrite Hsh. reflexivity.
  - exists (mkOs K (disk_machine (fun _ => [])) fs_boot []), s', (pre ++ (u8 <$> line) ++ mid), post. split; [exact E|].
    split; [rewrite <-!app_assoc; exact Eout|]. split; [rewrite Ec; exact Hc|exact HK'].
Defined.
