(* ===== verification/ShellRun.v ===== *)
(** A session of the shell on the kernel: typing a line at the prompt, and the
    command it runs ([main] of [user/shell.c]).

    [prompt] reads characters with [SYS_GETCHAR] and echoes them with
    [SYS_PUTCHAR] until a carriage return; the chain of comparisons that follows
    implements a table of names and two prefixes ([command]). *)

From Stdlib Require Import ZArith Lia.
From S2P Require Import Prelude Memory PageHeap Allocator PageTable Shm Process KernelInv System Lifecycle AddressSpace Kernel Views Reach World Strings Bytes Arp Ipv4 Ring Virtio Machine NetDriver Interrupts NetStack Disk Fs SimDevices FsImage UserMemory Syscall SyscallProps Shell Programs.
Open Scope Z_scope.

(** What can be typed into a line. *)
Definition key (c : Z) : Prop := 0 < c < 256 /\ c <> 13.

(** ** The commands *)

(** The rest of [x] after the prefix [p]. *)
Fixpoint after (p x : list Z) : option (list Z) :=
  match p, x with
  | [], _ => Some x
  | a :: p', b :: x' => if a =? b then after p' x' else None
  | _ :: _, [] => None
  end.

Lemma starts_with_after p : forall x rest,
  Forall (fun c => 0 < c < 256) p -> Forall (fun c => 0 < c < 256) x ->
  starts_with (x ++ 0 :: rest) (p ++ [0]) = Ret (match after p x with Some _ => true | None => false end).
Proof.
  induction p as [|a p IH]; intros x rest Hp Hx; [by destruct x|]. apply Forall_cons in Hp as [Ha Hp].
  destruct x as [|b x]; cbn [app starts_with after]; rewrite (proj2 (Z.eqb_neq a 0)) by lia.
  - by rewrite (proj2 (Z.eqb_neq 0 a)) by lia.
  - apply Forall_cons in Hx as [_ Hx]. rewrite (Z.eqb_sym b a). destruct (a =? b); [by apply IH|reflexivity].
Qed.

Lemma after_drop p : forall x y, after p x = Some y -> forall rest, drop (length p) (x ++ rest) = y ++ rest.
Proof.
  induction p as [|a p IH]; intros x y E rest; [by injection E as ->|]. destruct x as [|b x]; [discriminate E|].
  cbn [after] in E. destruct (a =? b); [|discriminate E]. cbn. by apply IH.
Qed.

Lemma strcmp_literal x name :
  Forall (fun c => 0 < c < 256) x -> forallb (fun c => (0 <? c) && (c <? 256)) (bytes_of name) = true ->
  exists c, strcmp (x ++ [0]) (literal name) = Ret c /\ (c =? 0) = bool_decide (x = bytes_of name).
Proof.
  intros Hx Hn. apply literal_cstr in Hn. exists (first_difference x (bytes_of name)).
  split; [apply strcmp_first_difference; [split; [by exists []|exact Hx]|exact Hn]|].
  pose proof (first_difference_0 x (bytes_of name) Hx (proj2 Hn)) as E.
  apply eq_true_iff_eq. by rewrite Z.eqb_eq, bool_decide_eq_true.
Qed.

Section Commands.
Context {W : Type} `{!UserSys W}.

(** The commands of one word. *)
Definition command_table : list (string * user W unit) :=
  [ ("hello"%string, say "Hello world from shell!");
    ("exit"%string, _ ← say "Exit ... "; exit);
    ("readfile"%string, cmd_readfile);
    ("writefile"%string, _ ← writefile (literal "hello.txt") (bytes_of "Hello from shell!" ++ newline) 19; mret tt);
    ("send"%string, say "usage: send <message>");
    ("arp"%string, arp_dump);
    ("ip"%string, ipv4_dump);
    ("shm"%string, shm_dump);
    ("shmtest"%string, run_shmtest) ].

(** What a line stands for. *)
Fixpoint look_up (line : list Z) (table : list (string * user W unit)) : option (user W unit) :=
  match table with
  | [] => None
  | (name, act) :: table' => if bool_decide (line = bytes_of name) then Some act else look_up line table'
  end.
Definition unknown (line : list Z) : user W unit :=
  uprintf (bytes_of "unknown command: %s" ++ newline) [VStr (line ++ [0])].
Definition command (line : list Z) : user W unit :=
  match look_up line command_table with
  | Some act => act
  | None =>
      match after (bytes_of "send ") line with
      | Some message => cmd_send (message ++ [0])
      | None =>
          match after (bytes_of "arp ") line with
          | Some text => cmd_arp (text ++ [0])
          | None => unknown line
          end
      end
  end.

Lemma user_bind_lift {A B} (m : outcome A) (f : A -> user W B) a w : m = Ret a -> (lift m ≫= f) w = f a w.
Proof. by intros ->. Qed.

Lemma named_step (line : list Z) name (act next : user W unit) w :
  Forall (fun c => 0 < c < 256) line -> forallb (fun c => (0 <? c) && (c <? 256)) (bytes_of name) = true ->
  (b ← (c ← lift (strcmp (line ++ [0]) (literal name)); mret (c =? 0)); if (b : bool) then act else next) w =
  (if bool_decide (line = bytes_of name) then act else next) w.
Proof.
  intros Hl Hn. destruct (strcmp_literal line name Hl Hn) as (c & E & <-). unfold mbind at 1, user_bind at 1.
  rewrite (user_bind_lift _ _ c w E). by destruct (c =? 0).
Qed.

Lemma prefix_step (line p : list Z) (name : string) (act next : user W unit) w :
  Forall (fun c => 0 < c < 256) line -> bytes_of name = p -> Forall (fun c => 0 < c < 256) p ->
  (b ← lift (starts_with (line ++ [0]) (literal name)); if (b : bool) then act else next) w =
  (match after p line with Some _ => act | None => next end) w.
Proof.
  intros Hl <- Hp. erewrite user_bind_lift by (by apply starts_with_after). by destruct (after _ line).
Qed.

(** The chain of comparisons implements the table. *)
Lemma run_command_spec (line : list Z) w :
  Forall (fun c => 0 < c < 256) line -> run_command (line ++ [0]) w = command line w.
Proof.
  intros Hl.
  destruct (look_up line command_table) as [act|] eqn:E.
  { unfold look_up, command_table in E.
    repeat (match type of E with (if bool_decide (line = ?n) then _ else _) = _ =>
      destruct (bool_decide_reflect (line = n)) as [->|?]; [reflexivity|] end). discriminate E. }
  unfold command. rewrite E. unfold look_up, command_table in E.
  repeat (match type of E with (if bool_decide (line = ?n) then _ else _) = _ =>
    let B := fresh "B" in destruct (bool_decide (line = n)) eqn:B; [discriminate E|] end). clear E.
  unfold run_command. cbv zeta.
  do 5 (rewrite named_step by (assumption || reflexivity);
    match goal with B : bool_decide _ = false |- _ => rewrite B; clear B end).
  erewrite prefix_step by (exact Hl || reflexivity || exact (proj2 (literal_cstr "send " eq_refl))).
  destruct (after (bytes_of "send ") line) as [message|] eqn:E.
  { by rewrite (after_drop (bytes_of "send ") _ _ E [0] : drop 5 _ = _). }
  do 4 (rewrite named_step by (assumption || reflexivity);
    match goal with B : bool_decide _ = false |- _ => rewrite B; clear B end).
  erewrite prefix_step by (exact Hl || reflexivity || exact (proj2 (literal_cstr "arp " eq_refl))).
  destruct (after (bytes_of "arp ") line) as [text|] eqn:E'; [|reflexivity].
  by rewrite (after_drop (bytes_of "arp ") _ _ E' [0] : drop 4 _ = _).
Qed.
End Commands.

(** ** Typing a line *)

Section Session.
Context {H : Type} `{!PageHeap H} {D : Type} `{!Devices D} (L : layout).
Implicit Types (s : os H D).

(** No ARP reply waits to be sent, so that polling does nothing. *)
Definition no_reply s : Prop := ap_pending (pending_reply (m_arp (o_machine s))) = false.

(** The machine after a poll: it has seen the [sstatus] of the processor. *)
Definition polled s : os H D := set_machine (enter_machine s) s.

Lemma leave_enter s : leave_machine (enter_machine s) s = polled s.
Proof. destruct s as [[h sh ps c i [ss sa sc]] m fs l]. reflexivity. Qed.

(** [getchar] returns a character typed ahead. *)
Lemma getchar_typed c l s :
  no_reply s -> o_input s = c :: l -> 0 < c < 256 ->
  getchar (UserSys0 := os_user L) s = Ret (Some c, set_input l (polled s)).
Proof.
  intros Hq Hin Hc. unfold getchar. erewrite user_bind_Some.
  2: { apply (syscall_back L _ _ _ _ _ c None (set_input l (polled s))).
       change (getchar_loop (polls s) L s = Ret (Back (Num c) None, set_input l (polled s))).
       unfold polls. cbn [getchar_loop]. unfold arp_poll.
       change (ap_pending (pending_reply (m_arp (enter_machine s)))) with (ap_pending (pending_reply (m_arp (o_machine s)))).
       rewrite Hq. cbn [negb]. rewrite bind_Ret_l, leave_enter. unfold sbi_getchar.
       change (o_input (polled s)) with (o_input s). by rewrite Hin, (proj2 (Z.leb_le 0 c)) by lia. }
  cbn. by rewrite s32_id by lia.
Qed.

(** One key: the character and its echo. *)
Definition echoed (out l : list Z) s : os H D := print out (set_input l (polled s)).

Lemma echoed_twice a b l1 l2 s : echoed b l2 (echoed a l1 s) = echoed (a ++ b) l2 s.
Proof. unfold echoed, polled, print, emit, set_machine, set_m_out, set_input, enter_machine. cbn. by rewrite app_assoc. Qed.
Lemma echoed_print a b l s : print b (echoed a l s) = echoed (a ++ b) l s.
Proof. apply print_print. Qed.
Lemma no_reply_echoed a l s : no_reply s -> no_reply (echoed a l s).
Proof. exact (fun Hq => Hq). Qed.
Lemma input_echoed a l s : o_input (echoed a l s) = l.
Proof. reflexivity. Qed.

Lemma read_key (f : Z -> user (os H D) (option (list Z))) c l s :
  no_reply s -> o_input s = c :: l -> 0 < c < 256 ->
  (ch ← getchar (UserSys0 := os_user L); _ ← putchar (UserSys0 := os_user L) (u8 ch); f ch) s =
  f c (echoed [c] l s).
Proof.
  intros Hq Hin Hc. erewrite user_bind_Some by by apply getchar_typed.
  erewrite user_bind_Some by apply putchar_prints. by rewrite !u8_id by (rewrite ?u8_id; lia).
Qed.

Lemma read_line_typed n : forall line acc rest s,
  no_reply s -> o_input s = line ++ 13 :: rest -> Forall key line -> (length line < n)%nat ->
  read_line (UserSys0 := os_user L) n acc s = Ret (Some (Some (acc ++ line)), echoed (line ++ [13; 10]) rest s).
Proof.
  induction n as [|n IH]; intros line acc rest s Hq Hin Hl Hn; [lia|]. cbn [read_line]; cbv zeta.
  destruct line as [|c line]; cbn [app] in Hin.
  - rewrite (read_key _ 13 rest s Hq Hin) by lia. change (u8 13 =? 13) with true. cbv iota.
    erewrite user_bind_Some by by apply (uprintf_prints L newline [] [10]).
    rewrite echoed_print, app_nil_r. reflexivity.
  - apply Forall_cons in Hl as [[Hc Hne] Hl]. rewrite (read_key _ c (line ++ 13 :: rest) s Hq Hin) by lia.
    rewrite u8_id, (proj2 (Z.eqb_neq c 13) Hne) by lia. cbn [length] in Hn.
    rewrite (IH line (acc ++ [c]) rest (echoed [c] _ s)); [|done|done|exact Hl|lia].
    by rewrite echoed_twice, <-(assoc_L (++) acc).
Qed.

Definition too_long : list Z := bytes_of "command line too long" ++ [10].

Lemma read_line_too_long n : forall line acc c rest s,
  no_reply s -> o_input s = line ++ c :: rest -> Forall key line -> 0 < c < 256 -> length line = n ->
  read_line (UserSys0 := os_user L) n acc s = Ret (Some None, echoed (line ++ c :: too_long) rest s).
Proof.
  induction n as [|n IH]; intros line acc c rest s Hq Hin Hl Hc Hn; cbn [read_line]; cbv zeta.
  - apply nil_length_inv in Hn as ->. rewrite (read_key _ c rest s Hq Hin Hc).
    erewrite user_bind_Some by by apply (uprintf_prints L (bytes_of "command line too long" ++ newline) [] too_long).
    by rewrite echoed_print.
  - destruct line as [|k line]; [discriminate Hn|]. apply Forall_cons in Hl as [[Hk Hne] Hl].
    rewrite (read_key _ k (line ++ c :: rest) s Hq Hin Hk).
    rewrite u8_id, (proj2 (Z.eqb_neq k 13) Hne) by lia.
    rewrite (IH line (acc ++ [k]) c rest (echoed [k] _ s)); [|done|done|exact Hl|exact Hc|by injection Hn].
    by rewrite echoed_twice.
Qed.

(** *** What a command prints *)

Lemma fmap_u8 l : Forall (fun c => 0 <= c < 256) l -> u8 <$> l = l.
Proof. induction 1 as [|c l Hc _ IH]; [done|]. cbn. by rewrite u8_id, IH. Qed.

Lemma unknown_prints line s :
  Forall key line ->
  unknown (UserSys0 := os_user L) line s = Ret (Some tt, print (bytes_of "unknown command: " ++ line ++ [10]) s).
Proof.
  intros Hl. assert (Hb : Forall (fun c => 0 < c < 256) line) by (by eapply Forall_impl; [exact Hl|intros c []]).
  unfold unknown. rewrite (uprintf_prints L _ _ (bytes_of "unknown command: " ++ line ++ [10])).
  - do 3 f_equal. apply fmap_u8, Forall_app. split; [apply Forall_forall; vm_compute; intros c Hc|].
    + by repeat (apply elem_of_cons in Hc as [->|Hc]; [done|]); apply elem_of_nil in Hc.
    + apply Forall_app. split; [eapply Forall_impl; [exact Hb|cbn; intros; lia]|by repeat constructor].
  - change (bytes_of "unknown command: %s" ++ newline)
      with (bytes_of "unknown command: " ++ [chr_percent; chr_s] ++ [10; 0]).
    rewrite printf_text by reflexivity. cbn [app].
    rewrite (printf_s _ _ line) by (split; [by exists []|exact Hb]).
    rewrite printf_char, printf_end by discriminate. rewrite !bind_Ret_l. reflexivity.
Qed.

Lemma prompt_starts s :
  prompt (UserSys0 := os_user L) s =
  (line ← read_line (UserSys0 := os_user L) 127 [];
   match line with None => mret tt | Some line => run_command (UserSys0 := os_user L) (line ++ [0]) end)
  (print (bytes_of "> ") s).
Proof. unfold prompt. by erewrite user_bind_Some by by apply (uprintf_prints L (literal "> ") [] (bytes_of "> ")). Qed.

Lemma echoed_after p out l s : echoed out l (print p s) = echoed (p ++ out) l s.
Proof. unfold echoed, polled, print, emit, set_machine, set_m_out, set_input, enter_machine. cbn. by rewrite app_assoc. Qed.
End Session.

(** C9: a round of the shell on the kernel.  While no ARP reply waits to be
    sent, a line of NUL-free characters typed ahead, of at most 126 characters
    and a carriage return, is echoed after the prompt and its
    command runs, with the rest of the input left: the chain of comparisons
    implements the table of nine names, the prefixes [send] and [arp] and
    otherwise "unknown command", which repeats the line.  At the 128th
    character the line is given up, whatever that character is, and the shell
    is back at the prompt. *)
Theorem shell_round {H : Type} `{!PageHeap H} {D : Type} `{!Devices D} (L : layout) (s : os H D) line rest :
  no_reply s -> Forall key line ->
  (o_input s = line ++ 13 :: rest -> (length line <= 126)%nat ->
     prompt (UserSys0 := os_user L) s =
     command (UserSys0 := os_user L) line (echoed (bytes_of "> " ++ line ++ [13; 10]) rest s)) /\
  (forall c, o_input s = line ++ c :: rest -> 0 < c < 256 -> length line = 127%nat ->
     prompt (UserSys0 := os_user L) s = Ret (Some tt, echoed (bytes_of "> " ++ line ++ c :: too_long) rest s)) /\
  (look_up line (command_table (UserSys0 := os_user L)) = None ->
     after (bytes_of "send ") line = None -> after (bytes_of "arp ") line = None ->
     command (UserSys0 := os_user L) line s =
     Ret (Some tt, print (bytes_of "unknown command: " ++ line ++ [10]) s)).
Proof.
  intros Hq Hl. split; [|split].
  - intros Hin Hn. rewrite prompt_starts.
    erewrite user_bind_Some by (apply (read_line_typed L 127 line [] rest); [exact Hq|exact Hin|exact Hl|lia]).
    rewrite echoed_after. apply run_command_spec. by eapply Forall_impl; [exact Hl|intros c []].
  - intros c Hin Hc Hn. rewrite prompt_starts.
    erewrite user_bind_Some by (apply (read_line_too_long L 127 line [] c rest); [exact Hq|exact Hin|exact Hl|exact Hc|exact Hn]).
    by rewrite echoed_after.
  - intros E1 E2 E3. unfold command. rewrite E1, E2, E3. by apply unknown_prints.
Qed.

(** "hello" and then a command that does not exist. *)
Definition session (input : list Z) : os heap disk_image :=
  mkOs (boot_kernel world_heap world_csrs) (disk_machine (fun _ => [])) fs_boot input.

Lemma shell_round_witness :
  exists s1 s2, prompt (UserSys0 := os_user (Devices0 := disk_devices) world_layout)
      (session (bytes_of "hello" ++ 13 :: bytes_of "ls" ++ [13])) = Ret (Some tt, s1) /\
    prompt (UserSys0 := os_user (Devices0 := disk_devices) world_layout) s1 = Ret (Some tt, s2) /\
    m_out (o_machine s2) = bytes_of "> hello" ++ [13; 10] ++ bytes_of "Hello world from shell!" ++ [10] ++
      bytes_of "> ls" ++ [13; 10] ++ bytes_of "unknown command: ls" ++ [10] /\ o_input s2 = [].
Proof.
  set (s := session _).
  destruct (shell_round (Devices0 := disk_devices) world_layout s (bytes_of "hello") (bytes_of "ls" ++ [13]))
    as (E1 & _); [reflexivity|repeat constructor; cbn; lia|].
  set (s1 := print (bytes_of "Hello world from shell!" ++ [10])
    (echoed (bytes_of "> " ++ bytes_of "hello" ++ [13; 10]) (bytes_of "ls" ++ [13]) s)).
  destruct (shell_round (Devices0 := disk_devices) world_layout s1 (bytes_of "ls") []) as (E2 & _ & E3);
    [reflexivity|repeat constructor; cbn; lia|].
  eexists s1, _. split; [rewrite E1 by (reflexivity || (cbn; lia)); reflexivity|].
  split; [rewrite E2 by (reflexivity || (cbn; lia))|].
  { exact (proj2 (proj2 (shell_round (Devices0 := disk_devices) world_layout
      (echoed (bytes_of "> " ++ bytes_of "ls" ++ [13; 10]) [] s1) (bytes_of "ls") []
      eq_refl ltac:(repeat constructor; cbn; lia))) eq_refl eq_refl eq_refl). }
  split; reflexivity.
Defined.
